(* ===== verification/_CoqProject ===== *)
-Q . S2P
Prelude.v
GoLib.v
Sorting.v
Events.v
Crypto.v
Messages.v
Feed.v
ProtoOps.v
Cluster.v
Peers.v
Store.v
DbOps.v
TxPool.v
Validation.v
Consensus.v
Handlers.v
Debug.v
ConsensusProps.v
ChainTx.v
Remote.v
Distribution.v
SignTx.v
Signing.v
SigningProps.v
SignProps.v
LeaderTx.v
SignChain.v
BlockStoreApi.v
Intake.v
Views.v
HttpServer.v
Instances.v
NodeProps.v
Accuser.v
Leader.v
LeaderProps.v
SyncDaemon.v
SyncProps.v
Node.v
NodeSign.v
Join.v
Settings.v
Network.v
NodeChain.v
Daemons.v
Robust.v
Start.v
Scenarios.v
FedScenarios.v
Witnesses.v
RoleWitnesses.v
FedWitnesses.v
SignWitnesses.v
ServiceWitnesses.v
SupportWitnesses.v
