(* ===== verification/Prelude.v ===== *)
(** * ofgp-core: a verification library for the federated gateway

    ofgp-core is the node of a federated gateway between block chains. A fixed
    list of nodes runs a leader-based, BFT-style consensus over a chain of
    blocks; a block holds the inner transactions that answer the transactions
    watched on the connected chains, or one change of the node list. A leader
    proposes ([InitMsg]), the nodes prepare and commit, a quorum of commits
    appends the block. Nodes that see no progress accuse the leader: enough weak
    accusations make a strong one, which raises the term and so changes the
    leader. For a transfer watched on one chain the leader builds the transaction
    of the other chain and asks every node for a share of its signature; a
    quorum of shares is merged and sent.

    ** How the parts of the program interact

    [src/node] receives messages, checks them ([msg_validation.go]) and hands
    them to the [BlockStore] ([src/primitives/blockstore.go]), which runs one
    handler at a time under a mutex over the persistent state ([dbops.go], over
    LevelDB through [src/dgwdb]), the pool of watched and inner transactions
    ([txstore.go]) and the node list ([src/cluster]). A handler queues its events
    in a [task.Queue] that is run after it; their subscribers ([node.go]) wake the
    leader ([leader.go]), the accuser ([src/accuser]), the synchronisation
    ([sync_daemon.go]) and the collection of signature shares ([node_sign.go]), or
    send a message to the peers ([peer_manager.go]). Operators reach the node over
    HTTP ([src/httpsvr]), which also files distribution proposals
    ([src/distribution]). Messages, their ids, and comparisons of messages are in
    [src/proto]; digests and signers in [src/crypto].

    ** How the files correspond to the code

    The language, the data and the store:

    - [Prelude.v] (this file): computations that may panic ([pan], and [go] with
      a state), their weakest-precondition calculus [wp], machine integers
      written out with their wrap-around ([wrap64], [+i64]), the iteration order
      of a map ([order]), and [assert.True] and [assert.ErrorIsNil]
      (src/util/assert).
    - [GoLib.v]: byte strings, big-endian integers, hexadecimal and decimal text
      (src/util/base.go, and what the code uses of strconv and encoding).
      [Sorting.v]: the sorts of slices (src/util/sort). [Events.v]: events with their
      mutex, queues of tasks, signals (src/util/event.go, task, signal).
    - [Crypto.v]: SHA-256, which the Go standard library gives the code,
      [Digest256] and the hasher (src/crypto), and the interface [Signatures].
    - [Messages.v]: the message types (src/proto/braft.pb.go). [Feed.v]: what each
      message feeds to its hash, and the ids. [ProtoOps.v]: comparisons, votes,
      accusations, block packs, conversion of burns. [ChainTx.v]: what is read of
      the chain libraries ([Chains]), 64-bit floating-point prices, the burns of the
      EOS chains (src/proto/pbtypes_ext.go, src/util/hash_utils.go).
    - [Cluster.v]: the node list, its quorums, the leader of a term
      (src/cluster/params.go, cluster.go). [Peers.v]: the connections to the other
      nodes (src/cluster/peer_manager.go).
    - [Store.v], [DbOps.v]: the key-value store as an interface with laws ([KV]),
      and the persistent state over it (src/dgwdb/database.go,
      src/primitives/dbops.go, genesis.go).

    Consensus:

    - [TxPool.v]: the transaction pool (src/primitives/txstore.go).
    - [Validation.v]: the checks on received messages
      (src/node/msg_validation.go).
    - [Consensus.v], [Handlers.v]: the handlers and their parts
      (src/primitives/blockstore.go).
    - [Debug.v]: the texts of messages for the log (src/proto/pbtypes_ext.go), which
      can panic. [BlockStoreApi.v]: the operations of the block store besides the
      handlers (src/primitives/blockstore.go).
    - [ConsensusProps.v], [NodeProps.v]: the steps of a running block store
      ([Step], [node_step]) and their properties.
    - [Accuser.v] (src/accuser/accuser.go); [Leader.v], [LeaderProps.v]
      (src/node/leader.go); [SyncDaemon.v], [SyncProps.v]
      (src/node/sync_daemon.go): the other goroutines of the consensus.
      [Daemons.v]: the daemon of the synchronisation and the regular requests to it.

    The connected chains:

    - [Intake.v]: what the chains push and what an operator enters by hand
      (src/node/node.go, http_handlers.go).
    - [Distribution.v]: proposals to pay out of the federation's account
      (src/distribution).
    - [LeaderTx.v]: the transactions that a leader makes (src/node/leader.go).
    - [SignTx.v], [SignProps.v]: a signing request at a node
      (src/primitives/blockstore.go). [Signing.v], [SigningProps.v]: the shares are
      collected, merged and sent (src/node/node_sign.go, node.go).
    - [Remote.v]: the clients of the keystore and of the price service (src/crypto, src/price).
    - [SignChain.v]: all of these leave the chain of blocks alone.

    The node as a whole:

    - [Node.v], [NodeSign.v]: the entry points, the events with their subscribers, the
      goroutines and their mailboxes, start and restart (src/node/node.go,
      rpc_handlers.go). [Join.v]: a new node joins; the start of the process by
      mode (src/node/node.go, src/server.go). [Settings.v]: what is set and read of the
      configuration (src/util/flags.go, src/server.go, src/node/node.go).
      [Robust.v]: which messages stop a node. [Start.v]: opening the store, the genesis
      block at the first start (src/node/node.go, src/dgwdb/database.go).
    - [Views.v]: what a node shows of itself (src/node/http_handlers.go).
      [HttpServer.v]: the HTTP server (src/httpsvr).
    - [Network.v]: several nodes, faulty ones among them, and their packets.
      [NodeChain.v]: the chain of every honest node in every run.
    - [Instances.v]: concrete parameters, so that the definitions run.
      [Scenarios.v], [FedScenarios.v]: computed runs of a four-node cluster.
      [Witnesses.v], [RoleWitnesses.v], [FedWitnesses.v], [SignWitnesses.v],
      [ServiceWitnesses.v], [SupportWitnesses.v]: each theorem that is claimed with
      hypotheses, applied where they hold.

    A Go struct is a [Record], a pointer that may be nil an [option], a map a
    [gmap], [int64] arithmetic is on [Z] with [wrap64] where the code can
    overflow. A function with an effect is a computation in [go S], whose
    [Panic] keeps the state of the moment: the store survives the crash of the
    process. The key parameters of the model are interfaces with laws: the store
    ([KV]), the two serialisations ([Wire]: what is unmarshalled is what was
    marshalled), signature verification ([Signatures]), the chain libraries
    ([Chains], [Watchers]), the configuration library ([ViperLib]); the iteration order of every map is the argument
    [order], the clock the argument [now], what a peer answers to a call an argument
    of the call. [Instances.v] has an instance of each.

    ** What the theorems show

    - The chain. [chain_rep] relates a store to a list of blocks; queries and
      appends of [DbOps.v] refine the operations on the list
      ([chain_queries], [JustCommitIt_appends], [GetCommitsByHeightSec_spec],
      [InitDB_spec]). Over every sequence of steps, crashes included, the chain
      only grows, by linked blocks with a quorum of commits
      ([node_chain_grows]), the term and the votie never go back; and so for every
      honest node of a federation whatever the faulty nodes say and in whatever order
      goroutines run and packets arrive ([federation_chain_grows]).
    - The handlers: what is accepted as a proposal, what a completing commit
      does, what accusations do, what a synchronisation answers; that a leader's
      proposal of a new term passes the check of its voters
      ([leader_proposal_supported]); how far apart an accuser accuses; that a node
      which stores only what enough peers committed follows their ledger
      ([sync_follows_ledger]).
    - Agreement: quorums intersect in an honest node ([quorum_intersection]),
      two certificates for one term and height share signers
      ([conflicting_prepares]), a votie that passes its check is a certificate,
      the ids of messages and blocks bind their fields up to a collision of
      SHA-256 (an explicit alternative of the conclusion, [collides]).
    - Transfers: what enters from the chains ([watched_transfers_sound],
      [mint_event_settles]); the leader's transaction passes the check of the nodes
      ([created_tx_passes]), which sign only transactions with every payment
      ([signed_btc_tx_pays]) and, when the requests do not race, once per transfer
      ([signs_at_most_once], [racing_requests_sign_twice]); the share
      that completes a quorum sends the transaction ([doSave_share]); a whole
      transfer in a run of four nodes ([transfer_settles]).
    - Proposals: the manager refines a table of proposals
      ([proposals_refine_table]).
    - The pool: its invariant in every reachable state, the heartbeat,
      hand-out, validation and clean-up of transactions.
    - The node list: its invariant, additions, deletions, the leader; a joined node
      agrees with the members on it ([joined_node_agrees]); connections
      ([pools_conserved]); the settings that are saved give the list back
      ([saved_settings_restore]).
    - Support: a complete message never stops a node ([messages_that_stop]); one
      synchronisation at a time ([one_sync_at_a_time]); the writes of the block store
      besides the handlers leave the consensus alone ([writes_keep_consensus]); what an
      event does with its handlers ([Emit_spec]), what is asked of the keystore
      ([Sign_asks_keystore]), the first and the later starts ([start_db_once]), what is computed by every algorithm that sorts ([Sort_unique]).
    - The HTTP server refines the operations of an operator on the node
      ([http_refines_operator]), and its views show what the store holds
      ([GetBlocks_shows], [view_by_id_agrees]).
    - Limits. Some theorems show where the code does not do what it means to:
      a single faulty leader that forks the chain
      ([equivocating_leader_forks]), commits that count for a block they do not
      name, a term that goes down, deleted nodes, a vote that stops every node, settings
      that nobody reads, amounts that overspend, requests that race, shares
      counted twice, outputs that nobody checks, one member that ends the wait
      of a joining node, requests that the HTTP server answers as if they had
      been served.

    ** Bounds and fuel

    [leader_loop] runs with the number of nodes as fuel: the index takes every
    value within so many turns, so running out means that no node is normal and
    the code's loop never ends, which the definition returns as the fault
    [NeverReturns]. [sync_blocks] runs with [maxBlockN] as fuel, its own loop
    condition. The loops that wait for other nodes (the synchronisation, the loops of a
    joining node) take one item of a list of answers per turn, and the end of the list
    is a state of its own: the loop still waits. The other loops are structural
    over the list or the iteration order of the map they range over. Heights and
    terms are within [int64]; theorems about arithmetic name the bound they need.

    ** What is not modelled

    The encoding of HTTP answers as JSON and the routing library, the HTTP clients
    themselves, whose answers are arguments; the gRPC code, which is generated;
    the files of LevelDB; the two sorts of floating-point
    numbers; logging, metrics, profiling and the tool that makes a key, which have no
    state of their own (an argument of a logging call that can panic is modelled).
    The concurrency of the mutex-protected handlers is modelled by sequences of
    atomic steps, and goroutines that wait by [Waiting] states or items of [Work];
    [HandleSignTx], which takes no mutex, is two items, so that the check and the
    answer of two requests can interleave. The lock of the snapshots of
    multi-signature addresses is left out: a use of a snapshot is one step. *)
From Stdlib Require Export ZArith Lia Ascii.
From stdpp Require Export ssreflect base gmap strings list fin_maps sorting pretty.
#[global] Open Scope string_scope.
#[global] Open Scope list_scope.
#[global] Open Scope Z_scope.

Declare Scope go_scope.
Delimit Scope go_scope with go.

(** ** Faults and computations that may panic

    A Go run-time panic (nil dereference, failed [assert.True], index out of
    range, division by zero, explicit [panic]) is a value, and so is a loop that
    provably never ends ([NeverReturns]). [pan A] is a pure computation that may
    panic; [go S A] also threads a state, and keeps the state reached when the
    panic happened, since the database survives the crash of the process. *)
Inductive fault : Type :=
  | NilDeref
  | AssertionFailed
  | IndexOutOfRange
  | DivideByZero
  | NeverReturns
  | TypeAssertion
  | ExplicitPanic (msg : string).

#[export] Instance fault_eq_dec : EqDecision fault.
Proof. solve_decision. Defined.

Inductive pan (A : Type) : Type :=
  | Val (a : A)
  | Fault (f : fault).
Arguments Val {A} a.
Arguments Fault {A} f.

#[export] Instance pan_ret : MRet pan := λ A a, Val a.
#[export] Instance pan_bind : MBind pan := λ A B k m,
  match m with Val a => k a | Fault f => Fault f end.
#[export] Instance pan_fmap : FMap pan := λ A B g m,
  match m with Val a => Val (g a) | Fault f => Fault f end.

Definition deref {A} (p : option A) : pan A :=
  match p with Some a => Val a | None => Fault NilDeref end.
Definition assert_true (b : bool) : pan unit :=
  if b then Val tt else Fault AssertionFailed.
(** [assert.ErrorIsNil(err)] on a result that is [None] when [err != nil]. *)
Definition error_is_nil {A} (r : option A) : pan A :=
  match r with Some a => Val a | None => Fault AssertionFailed end.

Inductive outcome (S A : Type) : Type :=
  | Ret (a : A) (s : S)
  | Panic (f : fault) (s : S).
Arguments Ret {S A} a s.
Arguments Panic {S A} f s.

Definition go (S A : Type) : Type := S → outcome S A.

#[export] Instance go_ret {S} : MRet (go S) := λ A a s, Ret a s.
#[export] Instance go_bind {S} : MBind (go S) := λ A B k m s,
  match m s with Ret a s' => k a s' | Panic f s' => Panic f s' end.

Definition lift {S A} (p : pan A) : go S A := λ s,
  match p with Val a => Ret a s | Fault f => Panic f s end.
Definition gets {S A} (f : S → A) : go S A := λ s, Ret (f s) s.
Definition modify {S} (f : S → S) : go S unit := λ s, Ret tt (f s).
(** A read of the state that may panic, and an update that may panic before
    it changes anything. *)
Definition reads {S A} (f : S → pan A) : go S A := λ s,
  match f s with Val a => Ret a s | Fault e => Panic e s end.
Definition updates {S} (f : S → pan S) : go S unit := λ s,
  match f s with Val s' => Ret tt s' | Fault e => Panic e s end.

Definition when {S} (b : bool) (m : go S unit) : go S unit :=
  if b then m else mret tt.

Fixpoint for_each {S A} (l : list A) (body : A → go S unit) : go S unit :=
  match l with
  | [] => mret tt
  | x :: l' => body x ≫= λ _, for_each l' body
  end.

(** Run a program of a part of the state inside the whole. *)
Definition zoom {W S A} (get : W → S) (set : S → W → W) (m : go S A) : go W A := λ w,
  match m (get w) with Ret a s => Ret a (set s w) | Panic f s => Panic f (set s w) end.

(** The state an outcome ends in, whether it returned or panicked. *)
Definition end_state {S A} (o : outcome S A) : S :=
  match o with Ret _ s => s | Panic _ s => s end.
Definition returned {S A} (o : outcome S A) : option A :=
  match o with Ret a _ => Some a | Panic _ _ => None end.

(** ** Weakest preconditions with a crash condition

    [wp m Q E s]: from [s], [m] returns in a state and with a value that
    satisfy [Q], or panics in a state that satisfies [E]. *)
Definition wp {S A} (m : go S A) (Q : A → S → Prop) (E : S → Prop) (s : S) : Prop :=
  match m s with Ret a s' => Q a s' | Panic _ s' => E s' end.

Section wp_rules.
Context {S : Type}.
Implicit Types (E : S → Prop) (s : S).

Lemma wp_ret {A} (a : A) Q E s : Q a s → wp (mret a) Q E s.
Proof. done. Qed.

Lemma wp_bind {A B} (m : go S A) (k : A → go S B) Q E s :
  wp m (λ a, wp (k a) Q E) E s → wp (m ≫= k) Q E s.
Proof. rewrite /wp /mbind /go_bind. by destruct (m s). Qed.

Lemma wp_lift {A} (p : pan A) Q E s :
  (∀ a, p = Val a → Q a s) → ((∃ f, p = Fault f) → E s) → wp (lift p) Q E s.
Proof. rewrite /wp /lift. destruct p; eauto. Qed.

Lemma wp_gets {A} (f : S → A) Q E s : Q (f s) s → wp (gets f) Q E s.
Proof. done. Qed.

Lemma wp_modify (f : S → S) Q E s : Q tt (f s) → wp (modify f) Q E s.
Proof. done. Qed.

Lemma wp_reads {A} (f : S → pan A) Q E s :
  (∀ a, f s = Val a → Q a s) → ((∃ e, f s = Fault e) → E s) → wp (reads f) Q E s.
Proof. rewrite /wp /reads. destruct (f s); eauto. Qed.

Lemma wp_updates (f : S → pan S) Q E s :
  (∀ s', f s = Val s' → Q tt s') → ((∃ e, f s = Fault e) → E s) → wp (updates f) Q E s.
Proof. rewrite /wp /updates. destruct (f s); eauto. Qed.

Lemma wp_zoom {P A} (get : S → P) (set : P → S → S) (m : go P A) Q E s :
  wp m (λ a p, Q a (set p s)) (λ p, E (set p s)) (get s) → wp (zoom get set m) Q E s.
Proof. rewrite /wp /zoom. by destruct (m (get s)). Qed.

Lemma wp_when b (m : go S unit) Q E s :
  (b = true → wp m Q E s) → (b = false → Q tt s) → wp (when b m) Q E s.
Proof. destruct b; cbn; eauto. Qed.

Lemma wp_mono {A} (m : go S A) (Q Q' : A → S → Prop) (E E' : S → Prop) s :
  wp m Q E s → (∀ a s', Q a s' → Q' a s') → (∀ s', E s' → E' s') → wp m Q' E' s.
Proof. rewrite /wp. destruct (m s); eauto. Qed.

(** The loop rule: an invariant kept by every iteration, crash included. *)
Lemma wp_for_each {A} (l : list A) (body : A → go S unit) (I : S → Prop) E s :
  I s → (∀ x s', x ∈ l → I s' → wp (body x) (λ _, I) E s') →
  wp (for_each l body) (λ _, I) E s.
Proof.
  revert s. induction l as [|x l IH]; intros s HI Hb; [done|].
  cbn. apply wp_bind. eapply wp_mono; [apply Hb; [set_solver|done]| |done].
  cbn. intros [] s' HI'. apply IH; [done|]. intros; apply Hb; [set_solver|done].
Qed.

(** What [wp] says about the end state alone. *)
Lemma wp_end {A} (m : go S A) (P : S → Prop) s :
  wp m (λ _, P) P s ↔ P (end_state (m s)).
Proof. rewrite /wp. by destruct (m s). Qed.

Lemma wp_Ret {A} (m : go S A) Q E s a s' : wp m Q E s → m s = Ret a s' → Q a s'.
Proof. unfold wp. intros H Hm. by rewrite Hm in H. Qed.
End wp_rules.

(** ** Running a program one step at a time *)
Section run_rules.
Context {S : Type}.
Implicit Types s : S.

Lemma bind_ret {A B} (a : A) (k : A → go S B) s : (mret a ≫= k) s = k a s.
Proof. done. Qed.
Lemma bind_gets {A B} (f : S → A) (k : A → go S B) s : (gets f ≫= k) s = k (f s) s.
Proof. done. Qed.
Lemma bind_gets_id {B} (k : S → go S B) s : (gets id ≫= k) s = k s s.
Proof. done. Qed.
Lemma bind_modify {B} (f : S → S) (k : unit → go S B) s : (modify f ≫= k) s = k tt (f s).
Proof. done. Qed.
Lemma bind_lift {A B} (p : pan A) (k : A → go S B) s a : p = Val a → (lift p ≫= k) s = k a s.
Proof. by intros ->. Qed.
Lemma bind_reads {A B} (f : S → pan A) (k : A → go S B) s a :
  f s = Val a → (reads f ≫= k) s = k a s.
Proof. intros Hf. unfold mbind, go_bind, reads. by rewrite Hf. Qed.
Lemma bind_updates {B} (f : S → pan S) (k : unit → go S B) s s' :
  f s = Val s' → (updates f ≫= k) s = k tt s'.
Proof. intros Hf. unfold mbind, go_bind, updates. by rewrite Hf. Qed.
Lemma bind_Ret {A B} (m : go S A) (k : A → go S B) s a s' :
  m s = Ret a s' → (m ≫= k) s = k a s'.
Proof. intros Hm. unfold mbind, go_bind. by rewrite Hm. Qed.
Lemma bind_Panic {A B} (m : go S A) (k : A → go S B) s f s' :
  m s = Panic f s' → (m ≫= k) s = Panic f s'.
Proof. intros Hm. unfold mbind, go_bind. by rewrite Hm. Qed.
Lemma for_each_app {A} (l l' : list A) (body : A → go S unit) s :
  for_each (l ++ l') body s = (for_each l body ≫= λ _, for_each l' body) s.
Proof.
  revert s. induction l as [|x l IH]; intros s; [done|]. cbn [app for_each].
  unfold mbind, go_bind in *. destruct (body x s); [apply IH|done].
Qed.
Lemma bind_Ret_inv {A B} (m : go S A) (k : A → go S B) s b s' :
  (m ≫= k) s = Ret b s' → ∃ a s1, m s = Ret a s1 ∧ k a s1 = Ret b s'.
Proof. unfold mbind, go_bind. destruct (m s); [by eauto|done]. Qed.
End run_rules.

(** ** Machine integers *)
Definition i64 (z : Z) : Prop := -2^63 ≤ z < 2^63.
Definition i32 (z : Z) : Prop := -2^31 ≤ z < 2^31.
Definition u64 (z : Z) : Prop := 0 ≤ z < 2^64.
Definition wrap64 (z : Z) : Z := (z + 2^63) mod 2^64 - 2^63.
Definition wrap32 (z : Z) : Z := (z + 2^31) mod 2^32 - 2^31.
Definition uwrap64 (z : Z) : Z := z mod 2^64.
Definition max_i64 : Z := 2^63 - 1.

Notation "a +i64 b" := (wrap64 (a + b)) (at level 50, left associativity) : Z_scope.
Notation "a -i64 b" := (wrap64 (a - b)) (at level 50, left associativity) : Z_scope.
Notation "a *i64 b" := (wrap64 (a * b)) (at level 40, left associativity) : Z_scope.
Notation "a -u64 b" := (uwrap64 (a - b)) (at level 50, left associativity) : Z_scope.
Notation "a +i32 b" := (wrap32 (a + b)) (at level 50, left associativity) : Z_scope.

Lemma wrap64_small z : i64 z → wrap64 z = z.
Proof. rewrite /i64 /wrap64. intros. rewrite Z.mod_small; lia. Qed.
Lemma wrap64_le z : - 2^63 ≤ z → wrap64 z ≤ z.
Proof. unfold wrap64. intros. pose proof (Z.mod_le (z + 2^63) (2^64)). lia. Qed.
Lemma wrap32_small z : i32 z → wrap32 z = z.
Proof. rewrite /i32 /wrap32. intros. rewrite Z.mod_small; lia. Qed.
Lemma uwrap64_small z : u64 z → uwrap64 z = z.
Proof. rewrite /u64 /uwrap64. intros. by rewrite Z.mod_small. Qed.
Lemma wrap64_range z : i64 (wrap64 z).
Proof. rewrite /i64 /wrap64. pose proof (Z.mod_pos_bound (z + 2^63) (2^64)). lia. Qed.
Lemma wrap32_range z : i32 (wrap32 z).
Proof. rewrite /i32 /wrap32. pose proof (Z.mod_pos_bound (z + 2^31) (2^32)). lia. Qed.

(** ** Iteration order of Go maps

    The order in which [range] visits a map is not specified. A function whose
    loop ranges over a map takes an [order]: for every loop (numbered) it gives
    a permutation of the entries. *)
Record order : Type := Order {
  ord : ∀ A : Type, nat → list A → list A;
  ord_perm : ∀ A n (l : list A), ord A n l ≡ₚ l
}.
Arguments ord o {A} n l.

Definition id_order : order := Order (λ _ _ l, l) (λ _ _ _, Permutation_refl _).
Definition rev_order : order :=
  Order (λ _ _ l, reverse l) (λ _ _ l, reverse_Permutation l).

Definition range `{Countable K} {V} (o : order) (site : nat) (m : gmap K V) : list (K * V) :=
  ord o site (map_to_list m).

Lemma elem_of_range `{Countable K} {V} (o : order) n (m : gmap K V) k v :
  (k, v) ∈ range o n m ↔ m !! k = Some v.
Proof. rewrite /range ord_perm. apply elem_of_map_to_list. Qed.

Lemma range_length `{Countable K} {V} (o : order) n (m : gmap K V) :
  length (range o n m) = size m.
Proof. rewrite /range ord_perm. by rewrite length_map_to_list. Qed.

Lemma range_NoDup `{Countable K} {V} (o : order) n (m : gmap K V) : NoDup (range o n m).*1.
Proof. rewrite /range ord_perm. apply NoDup_fst_map_to_list. Qed.

Lemma range_nil `{Countable K} {V} (o : order) n (m : gmap K V) : range o n m = [] ↔ m = ∅.
Proof.
  split; intros Hn.
  - apply map_size_empty_inv. rewrite -(range_length o n) Hn. done.
  - apply length_zero_iff_nil. by rewrite range_length Hn map_size_empty.
Qed.

(** The least number with a decidable property. *)
Lemma least (P : nat → Prop) `{∀ n, Decision (P n)} n :
  P n → ∃ k, (k ≤ n)%nat ∧ P k ∧ ∀ j, (j < k)%nat → ¬ P j.
Proof.
  induction (Nat.lt_wf_0 n) as [n _ IH]. intros Hn.
  destruct (decide (Exists P (seq 0 n))) as [Hex|Hex].
  - apply Exists_exists in Hex as (m & Hm%elem_of_seq & HP).
    destruct (IH m) as (k & ? & ? & ?); [lia|done|]. exists k. split; [lia|done].
  - exists n. split_and!; [lia|done|]. intros j Hj HP. apply Hex, Exists_exists.
    exists j. split; [apply elem_of_seq; lia|done].
Qed.

(** ** Shared tactics and hints *)
Create HintDb ofgp discriminated.
#[export] Hint Resolve wrap64_range wrap32_range : ofgp.

Lemma lookup_snoc_cases {A} (l : list A) x i y :
  (l ++ [x]) !! i = Some y → (l !! i = Some y ∧ (i < length l)%nat) ∨ (i = length l ∧ y = x).
Proof.
  intros [Hi|[Hge Hi]]%lookup_app_Some.
  - left. split; [done|]. by eapply lookup_lt_Some.
  - apply list_lookup_singleton_Some in Hi as [? <-]. right. split; [lia|done].
Qed.

(** Normalise boolean tests into propositions. *)
Ltac to_prop :=
  repeat match goal with
  | H : (_ && _)%bool = true |- _ => apply andb_true_iff in H as [? ?]
  | H : (_ || _)%bool = false |- _ => apply orb_false_iff in H as [? ?]
  | H : negb _ = true |- _ => apply negb_true_iff in H
  | H : negb _ = false |- _ => apply negb_false_iff in H
  | H : (_ <? _) = true |- _ => apply Z.ltb_lt in H
  | H : (_ <? _) = false |- _ => apply Z.ltb_ge in H
  | H : (_ >? _) = true |- _ => rewrite Z.gtb_ltb in H; apply Z.ltb_lt in H
  | H : (_ >? _) = false |- _ => rewrite Z.gtb_ltb in H; apply Z.ltb_ge in H
  | H : (_ <=? _) = true |- _ => apply Z.leb_le in H
  | H : (_ <=? _) = false |- _ => apply Z.leb_gt in H
  | H : (_ >=? _) = true |- _ => rewrite Z.geb_leb in H; apply Z.leb_le in H
  | H : (_ >=? _) = false |- _ => rewrite Z.geb_leb in H; apply Z.leb_gt in H
  | H : (_ =? _) = true |- _ => apply Z.eqb_eq in H
  | H : (_ =? _) = false |- _ => apply Z.eqb_neq in H
  | H : bool_decide _ = true |- _ => apply bool_decide_eq_true_1 in H
  | H : bool_decide _ = false |- _ => apply bool_decide_eq_false_1 in H
  end.

(** Invert a [pan] computation that returned. *)
Lemma pan_bind_Val {A B} (m : pan A) (k : A → pan B) b :
  (m ≫= k) = Val b ↔ ∃ a, m = Val a ∧ k a = Val b.
Proof.
  destruct m as [a|f]; cbn; [|split; [done|by intros (? & ? & ?)]].
  split; [by exists a|by intros (? & [= <-] & ?)].
Qed.
Lemma deref_Val {A} (p : option A) a : deref p = Val a ↔ p = Some a.
Proof. destruct p; cbn; naive_solver. Qed.
Lemma assert_true_Val b u : assert_true b = Val u ↔ b = true.
Proof. destruct b, u; cbn; naive_solver. Qed.
Lemma error_is_nil_Val {A} (p : option A) a : error_is_nil p = Val a ↔ p = Some a.
Proof. destruct p; cbn; naive_solver. Qed.

Ltac pan_inv :=
  repeat match goal with
  | H : (_ ≫= _) = Val _ |- _ => apply pan_bind_Val in H as (? & ? & ?)
  | H : deref _ = Val _ |- _ => apply deref_Val in H
  | H : assert_true _ = Val _ |- _ => apply assert_true_Val in H
  | H : error_is_nil _ = Val _ |- _ => apply error_is_nil_Val in H
  | H : mret _ = Val _ |- _ => injection H as H
  | H : Val _ = Val _ |- _ => injection H as H
  | H : Fault _ = Val _ |- _ => discriminate H
  end.

(** Decide an equation between closed terms by evaluation. *)
Ltac by_vm := lazymatch goal with |- ?x = ?y => exact (eq_refl y <: x = y) end.

(** One step of symbolic execution of a [go] program. *)
Ltac wp_step :=
  lazymatch goal with
  | |- wp (mret _) _ _ _ => apply wp_ret
  | |- wp (_ ≫= _) _ _ _ => apply wp_bind
  | |- wp (lift _) _ _ _ => apply wp_lift; [intros ? ?|intros _]
  | |- wp (gets _) _ _ _ => apply wp_gets
  | |- wp (modify _) _ _ _ => apply wp_modify
  | |- wp (reads _) _ _ _ => apply wp_reads; [intros ? ?|intros _]
  | |- wp (updates _) _ _ _ => apply wp_updates; [intros ? ?|intros _]
  | |- wp (zoom _ _ _) _ _ _ => apply wp_zoom
  | |- wp (when _ _) _ _ _ => apply wp_when; intros ?
  | |- wp (if ?b then _ else _) _ _ _ => destruct b eqn:?
  | |- wp (match ?x with _ => _ end) _ _ _ => destruct x eqn:?
  end; cbn beta.
Ltac wp_run := repeat (wp_step; cbn beta).
