(* ===== verification/GoLib.v ===== *)
(** * The Go standard library and the project's util package

    Byte slices and Go strings are both [string] (a Rocq string is a sequence of
    8-bit characters). Big-endian integers ([src/util/base.go]), hexadecimal and
    decimal text ([encoding/hex], [strconv]), the byte order of keys, and the
    sorting of [int32] slices ([src/util/sort/sort.go]). *)
From S2P Require Import Prelude.

Abbreviation bytes := string (only parsing).

Definition len (s : string) : Z := Z.of_nat (String.length s).

Definition byte (z : Z) : ascii := ascii_of_N (Z.to_N (z mod 256)).
Definition byte_val (a : ascii) : Z := Z.of_N (N_of_ascii a).

(** ** util/base.go: big-endian 64-bit integers *)
Fixpoint put_be (n : nat) (v : Z) (acc : bytes) : bytes :=
  match n with
  | O => acc
  | S n' => put_be n' (Z.shiftr v 8) (String (byte v) acc)
  end.

Definition U64ToBytes (v : Z) : bytes := put_be 8 v "".
Definition I64ToBytes (v : Z) : bytes := U64ToBytes (uwrap64 v).

Fixpoint get_be (b : bytes) (v : Z) : Z :=
  match b with
  | EmptyString => v
  | String c b' => get_be b' (uwrap64 (uwrap64 (Z.shiftl v 8) + byte_val c))
  end.

(** [None] is the error of an input that is not eight bytes long. *)
Definition BytesToU64 (b : bytes) : option Z :=
  if len b =? 8 then Some (get_be b 0) else None.
Definition BytesToI64 (b : bytes) : option Z := wrap64 <$> BytesToU64 b.

(** util.MsToTime keeps whole seconds and the nanosecond rest; Go's integer
    division and remainder truncate towards zero. *)
Definition MsToTime (timeMs : Z) : Z * Z :=
  (Z.quot timeMs 1000, Z.rem timeMs 1000 *i64 1000000).

(** ** The order of keys: lexicographic on bytes *)
Fixpoint bytes_ltb (a b : bytes) : bool :=
  match a, b with
  | _, EmptyString => false
  | EmptyString, String _ _ => true
  | String x a', String y b' =>
      if byte_val x =? byte_val y then bytes_ltb a' b' else byte_val x <? byte_val y
  end.
Definition bytes_lt (a b : bytes) : Prop := bytes_ltb a b = true.

(** ** encoding/hex *)
Definition hex_digit (n : Z) : ascii :=
  byte (if n <? 10 then 48 + n else 87 + n).

Fixpoint hex_encode (b : bytes) : string :=
  match b with
  | EmptyString => ""
  | String c b' =>
      String (hex_digit (byte_val c / 16))
        (String (hex_digit (byte_val c mod 16)) (hex_encode b'))
  end.

Definition from_hex_char (c : ascii) : option Z :=
  let v := byte_val c in
  if (48 <=? v) && (v <=? 57) then Some (v - 48)
  else if (97 <=? v) && (v <=? 102) then Some (v - 87)
  else if (65 <=? v) && (v <=? 70) then Some (v - 55)
  else None.

Fixpoint hex_decode (s : string) : option bytes :=
  match s with
  | EmptyString => Some ""
  | String a (String b s') =>
      x ← from_hex_char a; y ← from_hex_char b; r ← hex_decode s';
      Some (String (byte (x * 16 + y)) r)
  | String _ EmptyString => None
  end.

(** The bytes that [hex.DecodeString] returns along with its error: those before
    the first pair that is not hexadecimal. *)
Fixpoint hex_decode_prefix (s : string) : bytes :=
  match s with
  | String a (String b s') =>
      match from_hex_char a, from_hex_char b with
      | Some x, Some y => String (byte (x * 16 + y)) (hex_decode_prefix s')
      | _, _ => ""
      end
  | _ => ""
  end.

(** ** strconv *)
Definition FormatInt (n : Z) : string := pretty n.

Definition digit_val (c : ascii) : option Z :=
  let v := byte_val c in
  if (48 <=? v) && (v <=? 57) then Some (v - 48) else None.
Fixpoint parse_digits (s : string) (acc : Z) : option Z :=
  match s with
  | EmptyString => Some acc
  | String c s' => d ← digit_val c; parse_digits s' (acc * 10 + d)
  end.
(** strconv.Atoi: an optional sign and at least one digit, in [int64] range. *)
Definition Atoi (s : string) : option Z :=
  let check r := if bool_decide (-2^63 ≤ r ∧ r < 2^63) then Some r else None in
  match s with
  | EmptyString => None
  | String c s' =>
      if bool_decide (c = "-"%char) then
        if bool_decide (s' = "") then None else parse_digits s' 0 ≫= λ n, check (-n)
      else if bool_decide (c = "+"%char) then
        if bool_decide (s' = "") then None else parse_digits s' 0 ≫= check
      else parse_digits s 0 ≫= check
  end.

(** ** util/sort: ascending or descending order of an [int32] slice *)
Definition Int32s (a : list Z) (reverse : bool) : list Z :=
  if reverse then merge_sort (flip Z.le) a else merge_sort Z.le a.

(** ** time.Duration constants, in nanoseconds *)
Definition second : Z := 1000000000.
Definition minute : Z := 60 * second.

(** * Lemmas *)

Lemma byte_val_range c : 0 ≤ byte_val c < 256.
Proof.
  unfold byte_val. pose proof (N_ascii_bounded c). lia.
Qed.
Lemma byte_val_byte z : byte_val (byte z) = z mod 256.
Proof.
  unfold byte_val, byte. pose proof (Z.mod_pos_bound z 256 ltac:(lia)).
  rewrite N_ascii_embedding; lia.
Qed.
Lemma byte_byte_val c : byte (byte_val c) = c.
Proof.
  unfold byte. rewrite Z.mod_small; [|apply byte_val_range].
  unfold byte_val. by rewrite N2Z.id ascii_N_embedding.
Qed.
#[export] Instance byte_val_inj : Inj (=) (=) byte_val.
Proof. intros a b H. by rewrite -(byte_byte_val a) -(byte_byte_val b) H. Qed.

Lemma str_app_nil s : "" +:+ s = s.
Proof. done. Qed.
Lemma str_app_cons c s t : String c s +:+ t = String c (s +:+ t).
Proof. done. Qed.
Lemma app_nil_r_str (s : string) : s +:+ "" = s.
Proof. induction s as [|c s IH]; [done|]. by rewrite str_app_cons IH. Qed.
Lemma app_assoc_str (a b c : string) : (a +:+ b) +:+ c = a +:+ (b +:+ c).
Proof. induction a as [|x a IH]; [done|]. by rewrite !str_app_cons IH. Qed.
Lemma app_inj_l (a b c : string) : a +:+ b = a +:+ c → b = c.
Proof. induction a as [|x a IH]; [done|]. rewrite !str_app_cons. intros [= H]. auto. Qed.
Lemma app_inj_len (a a' b b' : string) :
  String.length a = String.length a' → a +:+ b = a' +:+ b' → a = a' ∧ b = b'.
Proof.
  revert a'. induction a as [|x a IH]; intros [|y a'] Hl; cbn in Hl; try done.
  rewrite !str_app_cons. intros [= -> H]. destruct (IH a') as [-> ->]; auto.
Qed.
Lemma length_app_str (a b : string) :
  String.length (a +:+ b) = (String.length a + String.length b)%nat.
Proof. induction a as [|x a IH]; [done|]. by rewrite str_app_cons /= IH. Qed.
Lemma len_app a b : len (a +:+ b) = len a + len b.
Proof. unfold len. rewrite length_app_str. lia. Qed.
Lemma len_nonneg a : 0 ≤ len a.
Proof. unfold len. lia. Qed.

(** The closed form of the big-endian loop. *)
Fixpoint be (n : nat) (v : Z) : bytes :=
  match n with
  | O => ""
  | S n' => String (byte (v / 256 ^ Z.of_nat n')) (be n' v)
  end.

Lemma be_length n v : String.length (be n v) = n.
Proof. induction n; cbn; auto. Qed.

Lemma be_snoc n v : be (S n) v = be n (v / 256) +:+ String (byte v) "".
Proof.
  revert v. induction n as [|n IH]; intros v.
  { cbn. by rewrite Z.div_1_r. }
  change (be (S (S n)) v) with (String (byte (v / 256 ^ Z.of_nat (S n))) (be (S n) v)).
  rewrite IH. cbn [be]. rewrite str_app_cons. do 2 f_equal.
  rewrite Z.div_div; [|lia..]. f_equal.
  rewrite -Z.pow_succ_r; lia.
Qed.

Lemma put_be_spec n v acc : put_be n v acc = be n v +:+ acc.
Proof.
  revert v acc. induction n as [|n IH]; intros v acc; [done|].
  cbn [put_be]. rewrite IH be_snoc app_assoc_str /=.
  by rewrite Z.shiftr_div_pow2.
Qed.

Lemma U64ToBytes_be v : U64ToBytes v = be 8 v.
Proof. unfold U64ToBytes. by rewrite put_be_spec app_nil_r_str. Qed.

Lemma len_U64ToBytes v : len (U64ToBytes v) = 8.
Proof. by rewrite U64ToBytes_be. Qed.

Lemma get_be_app a b v : get_be (a +:+ b) v = get_be b (get_be a v).
Proof. revert v. induction a as [|x a IH]; intros v; [done|]. rewrite str_app_cons /=. auto. Qed.

Lemma get_be_range b v : u64 v → u64 (get_be b v).
Proof.
  revert v. induction b as [|c b IH]; intros v Hv; cbn; [done|].
  apply IH. unfold u64, uwrap64. apply Z.mod_pos_bound. lia.
Qed.

Lemma get_be_be n v w :
  (n ≤ 8)%nat → 0 ≤ w → 0 ≤ v < 256 ^ Z.of_nat n → w * 256 ^ Z.of_nat n + v < 2^64 →
  get_be (be n v) w = w * 256 ^ Z.of_nat n + v.
Proof.
  revert v w. induction n as [|n IH]; intros v w Hn Hw Hv Hb; [cbn in *; lia|].
  rewrite be_snoc get_be_app /=.
  rewrite Nat2Z.inj_succ Z.pow_succ_r in Hv, Hb |- *; [|lia..].
  set (P := 256 ^ Z.of_nat n) in *.
  assert (0 < P) by (unfold P; apply Z.pow_pos_nonneg; lia).
  pose proof (Z.div_mod v 256 ltac:(lia)).
  pose proof (Z.mod_pos_bound v 256 ltac:(lia)).
  rewrite IH; [|lia|lia| |].
  - fold P. rewrite byte_val_byte Z.shiftl_mul_pow2; [|lia].
    rewrite (uwrap64_small (_ * 2^8)); [|unfold u64; nia].
    rewrite uwrap64_small; [nia|unfold u64; nia].
  - fold P. split; [apply Z.div_pos; lia|]. apply Z.div_lt_upper_bound; lia.
  - fold P. nia.
Qed.

Lemma BytesToU64_U64ToBytes v : u64 v → BytesToU64 (U64ToBytes v) = Some v.
Proof.
  intros Hv. unfold BytesToU64. rewrite len_U64ToBytes. rewrite Z.eqb_refl.
  rewrite U64ToBytes_be get_be_be; [f_equal; lia|lia|lia| |]; unfold u64 in Hv.
  - change (256 ^ Z.of_nat 8) with (2^64). lia.
  - lia.
Qed.

Lemma uwrap64_range z : u64 (uwrap64 z).
Proof. unfold u64, uwrap64. apply Z.mod_pos_bound. lia. Qed.

Lemma wrap64_uwrap64 v : i64 v → wrap64 (uwrap64 v) = v.
Proof.
  unfold i64, wrap64, uwrap64. intros Hv.
  rewrite Z.add_mod_idemp_l; [|lia]. rewrite Z.mod_small; lia.
Qed.

Lemma BytesToI64_I64ToBytes v : i64 v → BytesToI64 (I64ToBytes v) = Some v.
Proof.
  intros Hv. unfold BytesToI64, I64ToBytes.
  rewrite BytesToU64_U64ToBytes; [|apply uwrap64_range]. cbn.
  by rewrite wrap64_uwrap64.
Qed.

Lemma I64ToBytes_inj_on : ∀ v w, i64 v → i64 w → I64ToBytes v = I64ToBytes w → v = w.
Proof.
  intros v w Hv Hw H. apply (f_equal BytesToI64) in H.
  rewrite !BytesToI64_I64ToBytes in H; congruence.
Qed.

(** Byte order of big-endian encodings is numeric order. *)
Lemma be_mod n v : be n v = be n (v mod 256 ^ Z.of_nat n).
Proof.
  revert v. induction n as [|n IH]; intros v; [done|].
  cbn. f_equal.
  - unfold byte. do 2 f_equal.
    rewrite Nat2Z.inj_succ Z.pow_succ_r; [|lia].
    set (P := 256 ^ Z.of_nat n). assert (0 < P) by (apply Z.pow_pos_nonneg; lia).
    rewrite (Z.mul_comm 256 P) Z.rem_mul_r; [|lia..].
    rewrite Z.add_comm Z.mul_comm Z.div_add_l; [|lia].
    rewrite (Z.div_small (v mod P)); [|apply Z.mod_pos_bound; lia].
    by rewrite Z.add_0_r Z.mod_mod.
  - rewrite IH. symmetry. rewrite IH. f_equal.
    rewrite Nat2Z.inj_succ Z.pow_succ_r; [|lia].
    set (P := 256 ^ Z.of_nat n). assert (0 < P) by (apply Z.pow_pos_nonneg; lia).
    rewrite (Z.mul_comm 256 P) Z.rem_mul_r; [|lia..].
    rewrite (Z.mul_comm P (_ mod 256)) Z.mod_add; [|lia]. by rewrite Z.mod_mod; [|lia].
Qed.

Lemma bytes_lt_be n v w :
  0 ≤ v < 256 ^ Z.of_nat n → 0 ≤ w < 256 ^ Z.of_nat n →
  bytes_ltb (be n v) (be n w) = (v <? w).
Proof.
  revert v w. induction n as [|n IH]; intros v w Hv Hw.
  { cbn in *. symmetry. apply Z.ltb_ge. lia. }
  cbn [be bytes_ltb].
  rewrite Nat2Z.inj_succ Z.pow_succ_r in Hv, Hw; [|lia..].
  set (P := 256 ^ Z.of_nat n) in *. assert (0 < P) by (apply Z.pow_pos_nonneg; lia).
  assert (0 ≤ v / P < 256) by (split; [apply Z.div_pos|apply Z.div_lt_upper_bound]; lia).
  assert (0 ≤ w / P < 256) by (split; [apply Z.div_pos|apply Z.div_lt_upper_bound]; lia).
  rewrite !byte_val_byte !(Z.mod_small (_ / P)); [|lia..].
  pose proof (Z.div_mod v P ltac:(lia)). pose proof (Z.mod_pos_bound v P ltac:(lia)).
  pose proof (Z.div_mod w P ltac:(lia)). pose proof (Z.mod_pos_bound w P ltac:(lia)).
  destruct (v / P =? w / P) eqn:E; to_prop.
  - rewrite (be_mod n v) (be_mod n w). fold P. rewrite IH; [|fold P; lia..].
    destruct (v mod P <? w mod P) eqn:E'; symmetry; to_prop;
      [apply Z.ltb_lt|apply Z.ltb_ge]; nia.
  - destruct (v / P <? w / P) eqn:E'; symmetry; to_prop;
      [apply Z.ltb_lt|apply Z.ltb_ge]; nia.
Qed.

Lemma I64ToBytes_lt v w :
  0 ≤ v < 2^63 → 0 ≤ w < 2^63 → bytes_ltb (I64ToBytes v) (I64ToBytes w) = (v <? w).
Proof.
  intros. unfold I64ToBytes. rewrite !uwrap64_small; [|unfold u64; lia..].
  rewrite !U64ToBytes_be bytes_lt_be; [done|..];
    change (256 ^ Z.of_nat 8) with (2^64); lia.
Qed.

Lemma bytes_ltb_app p a b : bytes_ltb (p +:+ a) (p +:+ b) = bytes_ltb a b.
Proof. induction p as [|c p IH]; [done|]. by rewrite !str_app_cons /= Z.eqb_refl. Qed.
Lemma bytes_lt_irrefl a : bytes_ltb a a = false.
Proof. induction a as [|c a IH]; cbn; [done|]. by rewrite Z.eqb_refl. Qed.
Lemma bytes_lt_trans a b c : bytes_lt a b → bytes_lt b c → bytes_lt a c.
Proof.
  unfold bytes_lt. revert b c.
  induction a as [|x a IH]; intros [|y b] [|z c]; cbn; try done.
  destruct (byte_val x =? byte_val y) eqn:E1, (byte_val y =? byte_val z) eqn:E2; to_prop.
  - rewrite E1 E2 Z.eqb_refl. apply IH.
  - rewrite E1. intros _. destruct (byte_val y =? byte_val z) eqn:?; to_prop; [lia|done].
  - rewrite -E2. intros ? _. destruct (byte_val x =? byte_val y) eqn:?; to_prop; [lia|].
    by apply Z.ltb_lt.
  - intros. to_prop. destruct (byte_val x =? byte_val z) eqn:?; to_prop; [lia|].
    apply Z.ltb_lt. lia.
Qed.
Lemma bytes_lt_total a b : bytes_lt a b ∨ a = b ∨ bytes_lt b a.
Proof.
  unfold bytes_lt. revert b. induction a as [|x a IH]; intros [|y b]; cbn; auto.
  rewrite (Z.eqb_sym (byte_val y)). destruct (byte_val x =? byte_val y) eqn:E; to_prop.
  - apply byte_val_inj in E as ->. destruct (IH b) as [?|[->|?]]; auto.
  - destruct (Z.lt_total (byte_val x) (byte_val y)) as [?|[?|?]]; [|lia|].
    + left. by apply Z.ltb_lt.
    + right; right. by apply Z.ltb_lt.
Qed.

(** Prefixes. *)
Lemma prefix_app p s : String.prefix p (p +:+ s) = true.
Proof. induction p as [|c p IH]; [by destruct s|]. rewrite str_app_cons /=. by destruct ascii_dec. Qed.
Lemma prefix_true p s : String.prefix p s = true ↔ ∃ r, s = p +:+ r.
Proof.
  split; [|intros [r ->]; apply prefix_app].
  revert s. induction p as [|c p IH]; intros s H; [by exists s|].
  destruct s as [|d s]; [done|]. cbn in H. destruct ascii_dec as [->|]; [|done].
  destruct (IH s H) as [r ->]. by exists r.
Qed.

(** hex round trip *)
Lemma from_hex_char_digit n : 0 ≤ n < 16 → from_hex_char (hex_digit n) = Some n.
Proof.
  intros Hn.
  assert (Forall (λ k : nat, from_hex_char (hex_digit (Z.of_nat k)) = Some (Z.of_nat k)) (seq 0 16)) as H.
  { repeat constructor. }
  rewrite Forall_forall in H. specialize (H (Z.to_nat n)).
  rewrite Z2Nat.id in H; [|lia]. apply H, elem_of_seq. lia.
Qed.
Lemma hex_decode_encode b : hex_decode (hex_encode b) = Some b.
Proof.
  induction b as [|c b IH]; [done|]. cbn [hex_encode hex_decode].
  pose proof (byte_val_range c).
  rewrite (from_hex_char_digit (_ / 16)); [|split; [apply Z.div_pos|apply Z.div_lt_upper_bound]; lia].
  rewrite (from_hex_char_digit (_ mod 16)); [|apply Z.mod_pos_bound; lia].
  cbn. rewrite IH. cbn. do 2 f_equal.
  rewrite Z.mul_comm -Z.div_mod; [|lia]. apply byte_byte_val.
Qed.
Lemma hex_decode_prefix_decode b : ∀ s, hex_decode s = Some b → hex_decode_prefix s = b.
Proof.
  induction b as [|c b IH]; intros [|x [|y s]]; cbn; try done.
  - by intros (? & _ & (? & _ & (? & _ & ?)%bind_Some)%bind_Some)%bind_Some.
  - intros (u & Hu & (v & Hv & (r & Hr & [= <- ->])%bind_Some)%bind_Some)%bind_Some.
    by rewrite Hu Hv (IH _ Hr).
Qed.
#[export] Instance hex_encode_inj : Inj (=) (=) hex_encode.
Proof.
  intros a b H. apply (f_equal hex_decode) in H. rewrite !hex_decode_encode in H. by simplify_eq.
Qed.

(** Sorting does not depend on the order of the input. *)
Lemma Int32s_perm a b : a ≡ₚ b → Int32s a false = Int32s b false.
Proof.
  intros H. unfold Int32s. apply (Sorted_unique Z.le).
  - apply Sorted_merge_sort; intros ? ?; lia.
  - apply Sorted_merge_sort; intros ? ?; lia.
  - by rewrite !merge_sort_Permutation.
Qed.
Lemma Int32s_permutation a r : Int32s a r ≡ₚ a.
Proof. unfold Int32s. destruct r; apply merge_sort_Permutation. Qed.

#[global] Arguments I64ToBytes : simpl never.
#[global] Arguments U64ToBytes : simpl never.
#[global] Arguments BytesToI64 : simpl never.
#[global] Arguments BytesToU64 : simpl never.
#[global] Arguments FormatInt : simpl never.
#[global] Arguments wrap64 : simpl never.
#[global] Arguments wrap32 : simpl never.
#[global] Arguments uwrap64 : simpl never.

(** ** strconv round trip *)
Lemma digit_val_pretty (x : N) :
  digit_val (pretty_N_char (x `mod` 10)) = Some (Z.of_N (x `mod` 10)).
Proof.
  pose proof (N.mod_lt x 10 ltac:(lia)) as H. generalize dependent (x `mod` 10)%N.
  intros m H.
  assert (Forall (λ k, digit_val (pretty_N_char (N.of_nat k)) = Some (Z.of_nat k)) (seq 0 10)) as Hf
    by repeat constructor.
  rewrite Forall_forall in Hf. specialize (Hf (N.to_nat m)).
  rewrite N2Nat.id in Hf. rewrite Hf; [f_equal; rewrite N_nat_Z; done|]. apply elem_of_seq. lia.
Qed.
Lemma parse_pretty_go x s : parse_digits (pretty_N_go x s) 0 = parse_digits s (Z.of_N x).
Proof.
  revert s. induction (N.lt_wf_0 x) as [x _ IH]; intros s.
  destruct (decide (x = 0)%N) as [->|Hx]; [by rewrite pretty_N_go_0|].
  rewrite pretty_N_go_step; [|lia]. rewrite IH; [|apply N.div_lt; lia].
  cbn [parse_digits]. rewrite digit_val_pretty /=. f_equal.
  pose proof (N.div_mod x 10 ltac:(lia)). lia.
Qed.
Lemma pretty_go_head x s : (x ≠ 0)%N →
  ∃ c s', pretty_N_go x s = String c s' ∧ is_Some (digit_val c).
Proof.
  revert s. induction (N.lt_wf_0 x) as [x _ IH]; intros s Hx.
  rewrite pretty_N_go_step; [|lia].
  destruct (decide (x `div` 10 = 0)%N) as [->|Hd].
  - rewrite pretty_N_go_0. eexists _, _. split; [reflexivity|]. rewrite digit_val_pretty. by eexists.
  - apply IH; [apply N.div_lt; lia|done].
Qed.
Lemma pretty_N_parse (x : N) :
  ∃ c s, (pretty x : string) = String c s ∧ is_Some (digit_val c) ∧
    parse_digits (pretty x) 0 = Some (Z.of_N x).
Proof.
  unfold pretty, pretty_N. destruct (decide (x = 0)%N) as [->|Hx].
  { eexists _, _. split_and!; [reflexivity|by eexists|done]. }
  destruct (pretty_go_head x "" Hx) as (c & s & E & Hc). exists c, s. split_and!; [done|done|].
  by rewrite parse_pretty_go.
Qed.
Lemma Atoi_FormatInt z : i64 z → Atoi (FormatInt z) = Some z.
Proof.
  intros Hz. unfold i64 in Hz.
  assert (∀ x : N, Z.of_N x < 2^63 → Atoi (pretty x) = Some (Z.of_N x)) as HN.
  { intros x Hx. destruct (pretty_N_parse x) as (c & s & E & [d Hd] & Hp).
    unfold Atoi. rewrite E in Hp |- *.
    rewrite bool_decide_false; [|by intros ->]. rewrite bool_decide_false; [|by intros ->].
    rewrite Hp /= bool_decide_true; [done|lia]. }
  unfold FormatInt, pretty, pretty_Z. destruct z as [|p|p]; [done| |].
  - apply (HN (N.pos p)). lia.
  - destruct (pretty_N_parse (N.pos p)) as (c & s & E & _ & Hp).
    change (Atoi (String "-" (pretty (N.pos p))) = Some (Z.neg p)). cbn [Atoi].
    rewrite bool_decide_true; [|done].
    rewrite bool_decide_false; [|by rewrite E]. rewrite Hp /= bool_decide_true; [done|]. lia.
Qed.
