(* ===== verification/Sorting.v ===== *)
(** * Sorting of slices (src/util/sort/sort.go)

    Each function hands its slice to [sort.Sort], which is told how to compare two elements
    ([Less]); with [reverse] the comparison is turned round ([sort.Reverse]). Which algorithm
    [sort.Sort] uses is not said: [Sort_unique] shows that on these element types every
    algorithm that sorts gives the list of [Sort]. The sorting of [int32] is
    [Int32s] of GoLib.v. The two floating-point sorts, whose result is not unique (zeros
    of either sign), are not modelled; nothing calls them. *)
From S2P Require Import Prelude.
From S2P Require Import GoLib.

(** ** Data: what a slice type tells [sort.Sort] *)
Record Interface (A : Type) := MkInterface { Less : A → A → bool }.
Arguments MkInterface {A} _.
Arguments Less {A} _ _ _.

Definition Reverse {A} (i : Interface A) : Interface A := MkInterface (λ x y, Less i y x).
Definition Sort {A} (i : Interface A) (a : list A) : list A := merge_sort (λ x y, negb (Less i y x)) a.
(** [Swap(i, j)] of every slice type. *)
Definition Swap {A} (a : list A) (i j : nat) : pan (list A) :=
  match a !! i, a !! j with
  | Some x, Some y => Val (<[j := x]> (<[i := y]> a))
  | _, _ => Fault IndexOutOfRange
  end.

(** The comparison of the integer slices, whatever their width, and of strings. *)
Definition intSlice : Interface Z := MkInterface Z.ltb.
Definition StringSlice : Interface string := MkInterface bytes_ltb.

Definition sort_slice {A} (i : Interface A) (a : list A) (reverse : bool) : list A :=
  if reverse then Sort (Reverse i) a else Sort i a.
Definition Bytes : list Z → bool → list Z := sort_slice intSlice.
Definition Int8s : list Z → bool → list Z := sort_slice intSlice.
Definition UInt8s : list Z → bool → list Z := sort_slice intSlice.
Definition Ints : list Z → bool → list Z := sort_slice intSlice.
Definition UInts : list Z → bool → list Z := sort_slice intSlice.
Definition UInt32s : list Z → bool → list Z := sort_slice intSlice.
Definition Int64s : list Z → bool → list Z := sort_slice intSlice.
Definition UInt64s : list Z → bool → list Z := sort_slice intSlice.
Definition Strings : list string → bool → list string := sort_slice StringSlice.

(** ** What a comparison has to satisfy, and what it is to be sorted *)
Class Ordered {A} (i : Interface A) : Prop := {
  less_asym x y : Less i x y = true → Less i y x = false;
  less_trans x y z : Less i x y = true → Less i y z = true → Less i x z = true;
  less_total x y : Less i x y = false → Less i y x = false → x = y
}.
(** No element is less than one before it. *)
Definition sorted {A} (i : Interface A) (b : list A) : Prop :=
  ∀ m n x y, (m < n)%nat → b !! m = Some x → b !! n = Some y → Less i y x = false.

Section ordered.
Context {A} (i : Interface A) `{!Ordered i}.

#[local] Notation "x ≦ y" := (Is_true (negb (Less i y x))) (at level 70).

Lemma le_anti x y : x ≦ y → y ≦ x → x = y.
Proof. intros H1 H2. destruct (Less i x y) eqn:E1, (Less i y x) eqn:E2; try done. exact (less_total x y E1 E2). Qed.
Lemma le_trans x y z : x ≦ y → y ≦ z → x ≦ z.
Proof.
  intros H1 H2. destruct (Less i z x) eqn:E; [|done]. exfalso.
  destruct (Less i x y) eqn:E1; [by rewrite (less_trans z x y E E1) in H2|].
  destruct (Less i y x) eqn:E2; [done|]. rewrite (less_total x y E1 E2) in E. by rewrite E in H2.
Qed.
Lemma le_total x y : x ≦ y ∨ y ≦ x.
Proof. destruct (Less i y x) eqn:E; [right; by rewrite (less_asym _ _ E)|by left]. Qed.

Lemma sorted_StronglySorted b : sorted i b → StronglySorted (λ x y, x ≦ y) b.
Proof.
  induction b as [|x b IH]; intros Hs; constructor.
  - apply IH. intros m n y z Hmn Hy Hz. by apply (Hs (S m) (S n)); [lia|..].
  - apply Forall_forall. intros y [n Hn]%list_elem_of_lookup. by rewrite (Hs 0%nat (S n) x y ltac:(lia) eq_refl Hn).
Qed.
Lemma StronglySorted_sorted b : StronglySorted (λ x y, x ≦ y) b → sorted i b.
Proof.
  induction 1 as [|x b _ IH Hall]; intros m n y z Hmn Hy Hz; [done|].
  destruct n as [|n]; [lia|]. destruct m as [|m]; cbn in Hy, Hz; [|apply (IH m n y z); [lia|done..]].
  injection Hy as [= <-]. rewrite Forall_forall in Hall. specialize (Hall z (list_elem_of_lookup_2 _ _ _ Hz)).
  by destruct (Less i z x).
Qed.

#[export] Instance Reverse_Ordered : Ordered (Reverse i).
Proof.
  split; cbn.
  - intros x y. apply less_asym.
  - intros x y z H1 H2. exact (less_trans z y x H2 H1).
  - intros x y H1 H2. exact (less_total x y H2 H1).
Qed.

Lemma Sort_perm a : Sort i a ≡ₚ a.
Proof. apply merge_sort_Permutation. Qed.
Lemma Sort_sorted a : sorted i (Sort i a).
Proof.
  apply StronglySorted_sorted. apply StronglySorted_merge_sort.
  - intros x y z. apply le_trans.
  - intros x y. apply le_total.
Qed.
Lemma Sort_eq a b : b ≡ₚ a → sorted i b → Sort i a = b.
Proof.
  intros Hp Hs. apply (StronglySorted_unique_strong (λ x y, x ≦ y)).
  - intros x y _ _. apply le_anti.
  - apply sorted_StronglySorted, Sort_sorted.
  - by apply sorted_StronglySorted.
  - by rewrite Sort_perm Hp.
Qed.
Lemma sorted_reverse b : sorted i b → sorted (Reverse i) (reverse b).
Proof.
  intros Hs m n x y Hmn Hx Hy. cbn.
  apply reverse_lookup_Some in Hx as [Hx ?], Hy as [Hy ?].
  apply (Hs (length b - S n)%nat (length b - S m)%nat y x); [lia|exact Hy|exact Hx].
Qed.
End ordered.

#[export] Instance intSlice_Ordered : Ordered intSlice.
Proof. split; cbn; intros; lia. Qed.
#[export] Instance StringSlice_Ordered : Ordered StringSlice.
Proof.
  split; cbn.
  - induction x as [|a x IH]; intros [|b y]; cbn; try done.
    destruct (byte_val a =? byte_val b) eqn:E; rewrite Z.eqb_sym E; [apply IH|lia].
  - induction x as [|a x IH]; intros [|b y] [|c z]; cbn; try done.
    destruct (Z.eqb_spec (byte_val a) (byte_val b)) as [E1|], (Z.eqb_spec (byte_val b) (byte_val c)) as [E2|],
      (Z.eqb_spec (byte_val a) (byte_val c)) as [E3|]; try (intros; lia). apply IH.
  - induction x as [|a x IH]; intros [|b y]; cbn; try done.
    destruct (Z.eqb_spec (byte_val a) (byte_val b)) as [E|],
      (Z.eqb_spec (byte_val b) (byte_val a)); try (intros; lia).
    rewrite -(byte_byte_val a) -(byte_byte_val b) E. intros H1 H2. f_equal. by apply IH.
Qed.

Lemma merge_sort_sorted {A} (i : Interface A) (R : relation A) `{!∀ x y, Decision (R x y)} a :
  Transitive R → Total R → (∀ x y, R x y → Less i y x = false) → sorted i (merge_sort R a).
Proof.
  intros Ht Hto HR. pose proof (StronglySorted_merge_sort R a) as Hs. apply StronglySorted_sorted.
  induction Hs as [|x l _ IH Hx]; constructor; [exact IH|]. eapply Forall_impl; [exact Hx|].
  intros y Hy. by rewrite (HR _ _ Hy).
Qed.
Lemma Int32s_sort_slice a reverse : Int32s a reverse = sort_slice intSlice a reverse.
Proof.
  symmetry. destruct reverse; apply Sort_eq; try apply _; try apply merge_sort_Permutation; apply merge_sort_sorted;
    try (by intros ??; cbn; lia); intros ???; cbn; lia.
Qed.

(** ** Theorem *)

(** [sort_slice] is what every sorting algorithm computes on these types: its result has the elements of the
    slice in order (in reverse order if asked), is the only such list, and the reverse order is
    the reverse of the ascending one. *)
Theorem Sort_unique {A} (i : Interface A) `{!Ordered i} (a : list A) (reverse : bool) :
  let o := if reverse then Reverse i else i in
  sort_slice i a reverse ≡ₚ a ∧ sorted o (sort_slice i a reverse) ∧
  (∀ b, b ≡ₚ a → sorted o b → b = sort_slice i a reverse) ∧
  sort_slice i a true = list.reverse (sort_slice i a false).
Proof.
  assert (sort_slice i a true = list.reverse (sort_slice i a false)) as Hr.
  { unfold sort_slice. apply (Sort_eq (Reverse i)); [by rewrite reverse_Permutation Sort_perm|]. exact (sorted_reverse i _ (Sort_sorted i a)). }
  destruct reverse; (split; [apply Sort_perm|split; [apply Sort_sorted; apply _|split; [|exact Hr]]]);
    intros b Hb Hs; symmetry; apply Sort_eq; done || apply _.
Qed.
