(* ===== verification/Events.v ===== *)
(** * Events, queues of tasks and signals (src/util/event.go, src/util/task, src/util/signal)

    [Event] calls its subscribers one after the other under its mutex; a mutex of Go is not
    re-entrant, so a subscriber that uses the event that is being emitted waits for ever, which is the
    fault [NeverReturns]. [Queue] runs its tasks in the order in which they were added. Subscribers, tasks
    and signal handlers are the names [H], and what they do on the state [S] of the process is an argument; the
    event or queue is a part of that state, since they may use it themselves. *)
From S2P Require Import Prelude.

(** A part [P] of the state. *)
Record Part (S P : Type) := MkPart { get_part : S → P; set_part : P → S → S }.
Arguments MkPart {S P} _ _.
Arguments get_part {S P} _ _.
Arguments set_part {S P} _ _ _.
Class PartLaws {S P} (l : Part S P) : Prop := {
  get_set p s : get_part l (set_part l p s) = p;
  set_get s : set_part l (get_part l s) s = s;
  set_set p q s : set_part l p (set_part l q s) = set_part l p s
}.

(** ** util.Event *)
Module Event.
Section event.
Context {S H P : Type}.

Record Event := MkEvent { handlers : list H; locked : bool }.
Definition NewEvent : Event := MkEvent [] false.

Context (part : Part S Event) (call : H → P → go S bool).
#[local] Notation ev := (get_part part).
#[local] Notation set := (set_part part).

(** [e.mu.Lock()]. *)
Definition Lock : go S unit := λ s,
  if locked (ev s) then Panic NeverReturns s else Ret tt (set (MkEvent (handlers (ev s)) true) s).
Definition unlock (s : S) : S := set (MkEvent (handlers (ev s)) false) s.
(** [defer e.mu.Unlock()]: also when the function panics. *)
Definition unlocking {A} (m : go S A) : go S A := λ s,
  match m s with
  | Ret a s => Ret a (unlock s)
  | Panic NeverReturns s => Panic NeverReturns s
  | Panic f s => Panic f (unlock s)
  end.
Definition guarded {A} (m : go S A) : go S A := Lock ≫= λ _, unlocking m.

Definition Size : go S Z := guarded (gets (λ s, Z.of_nat (length (handlers (ev s))))).
Definition Subscribe (h : H) : go S unit :=
  guarded (modify (λ s, set (MkEvent (handlers (ev s) ++ [h]) (locked (ev s))) s)).

(** The calls; what is returned says for each handler whether it is to be removed. *)
Fixpoint call_all (hs : list H) (params : P) : go S (list bool) :=
  match hs with
  | [] => mret []
  | h :: hs => rst ← call h params; rest ← call_all hs params; mret (rst :: rest)
  end.
(** The handlers whose index is not marked. *)
Fixpoint keep (hs : list H) (toRemove : list bool) : list H :=
  match hs, toRemove with
  | h :: hs, r :: rs => if r then keep hs rs else h :: keep hs rs
  | _, _ => hs
  end.
Definition call_handlers (params : P) : go S (list bool) := λ s, call_all (handlers (ev s)) params s.
Definition remove (toRemove : list bool) : go S unit :=
  when (existsb id toRemove) (modify (λ s, set (MkEvent (keep (handlers (ev s)) toRemove) (locked (ev s))) s)).
Definition Emit (params : P) : go S unit :=
  guarded (toRemove ← call_handlers params; remove toRemove).

(** *** Lemmas *)
Context `{!PartLaws part}.
(** A handler that leaves the event alone. *)
Definition leaves_alone (h : H) : Prop := ∀ p s, wp (call h p) (λ _ s', ev s' = ev s) (λ s', ev s' = ev s) s.

Lemma call_all_alone hs p s :
  Forall leaves_alone hs → wp (call_all hs p) (λ rs s', ev s' = ev s ∧ length rs = length hs) (λ s', ev s' = ev s) s.
Proof.
  intros Ha. revert s. induction Ha as [|h hs Hh _ IH]; intros s; [by apply wp_ret|].
  cbn. apply wp_bind. eapply wp_mono; [apply Hh| |done]. cbn. intros r s1 H1.
  apply wp_bind. eapply wp_mono; [apply IH| |]; cbn.
  - intros rs s2 [H2 Hl]. rewrite /wp /=. split; [by rewrite H2|by rewrite Hl].
  - intros s2 H2. by rewrite H2.
Qed.
Lemma keep_none hs rs : existsb id rs = false → keep hs rs = hs.
Proof.
  revert rs. induction hs as [|h hs IH]; intros [|[] rs]; cbn; try done. intros Hr. f_equal. by apply IH.
Qed.

(** A part of the handlers, all of which return and leave the event alone, before the others. *)
Lemma call_all_app l1 l2 p s rs s1 :
  call_all l1 p s = Ret rs s1 →
  call_all (l1 ++ l2) p s = match call_all l2 p s1 with Ret rs' s2 => Ret (rs ++ rs') s2 | Panic f s2 => Panic f s2 end.
Proof.
  revert s rs. induction l1 as [|h l1 IH]; intros s rs Hc.
  - injection Hc as <- <-. cbn. by destruct (call_all l2 p s).
  - cbn in *. unfold mbind, go_bind in *. destruct (call h p s) as [r s2|]; [|done].
    destruct (call_all l1 p s2) as [rs2 s3|] eqn:E; [|done]. injection Hc as <- <-. rewrite (IH s2 rs2); [|by rewrite E].
    by destruct (call_all l2 p s3).
Qed.

(** [Emit] on an event that is not being emitted, whose handlers leave it alone: every handler is called once
    with the arguments, in the order of subscription; afterwards the event has the handlers that did
    not ask to be removed, in the same order. When a handler panics the others are not called and
    all stay subscribed. In both cases the event can be emitted again. *)
Theorem Emit_spec p s :
  locked (ev s) = false → Forall leaves_alone (handlers (ev s)) →
  Emit p s =
    match call_all (handlers (ev s)) p (set (MkEvent (handlers (ev s)) true) s) with
    | Ret rs s1 => Ret tt (set (MkEvent (keep (handlers (ev s)) rs) false) s1)
    | Panic NeverReturns s1 => Panic NeverReturns s1
    | Panic f s1 => Panic f (set (MkEvent (handlers (ev s)) false) s1)
    end.
Proof.
  intros Hl Ha. pose (s0 := set (MkEvent (handlers (ev s)) true) s).
  assert (ev s0 = MkEvent (handlers (ev s)) true) as Hs0 by apply get_set.
  pose proof (call_all_alone (handlers (ev s)) p s0 Ha) as Hw. unfold wp in Hw.
  unfold Emit, guarded, Lock, unlocking, call_handlers, mbind, go_bind. rewrite Hl. fold s0. rewrite Hs0. cbn [handlers].
  destruct (call_all (handlers (ev s)) p s0) as [rs s1|f s1].
  - destruct Hw as [Hw _]. unfold remove, when. destruct (existsb id rs) eqn:E; cbn; unfold unlock.
    + by rewrite get_set set_set Hw Hs0.
    + by rewrite Hw Hs0 (keep_none _ _ E).
  - unfold unlock. rewrite Hw Hs0. by destruct f.
Qed.

(** A handler that emits the event it handles, or subscribes to it, never returns, and neither does
    the one that emitted it. *)
Theorem Emit_reentry p s l1 h l2 rs s1 :
  locked (ev s) = false → handlers (ev s) = l1 ++ h :: l2 → Forall leaves_alone l1 →
  call_all l1 p (set (MkEvent (handlers (ev s)) true) s) = Ret rs s1 →
  (∃ A (m : go S A) k, ∀ s', call h p s' = (guarded m ≫= k) s') →
  Emit p s = Panic NeverReturns s1.
Proof.
  intros Hl Hh Ha Hc (A & m & k & Hm). pose (s0 := set (MkEvent (handlers (ev s)) true) s).
  assert (ev s0 = MkEvent (handlers (ev s)) true) as Hs0 by apply get_set.
  pose proof (call_all_alone l1 p s0 Ha) as Hw. unfold wp in Hw. fold s0 in Hc. rewrite Hc in Hw. destruct Hw as [Hw _].
  unfold Emit, guarded, Lock, unlocking, call_handlers, mbind, go_bind. rewrite Hl. fold s0. rewrite Hs0. cbn [handlers].
  rewrite Hh (call_all_app _ _ _ _ _ _ Hc). cbn. unfold mbind, go_bind. rewrite Hm.
  unfold guarded, Lock, mbind, go_bind. by rewrite Hw Hs0.
Qed.
End event.
Arguments Event : clear implicits.
End Event.
Import Event.

(** ** task.Queue *)
Module Queue.
Section queue.
Context {S T : Type}.

Definition Queue : Type := list T.

Context (part : Part S Queue) (exec : T → go S unit).
#[local] Notation q := (get_part part).
#[local] Notation set := (set_part part).

Definition Add (t : T) : go S unit := modify (λ s, set (q s ++ [t]) s).
Definition Clear : go S unit := modify (set []).
Definition Queue_Size : go S Z := gets (λ s, Z.of_nat (length (q s))).
(** The slice that the loop ranges over is read once. *)
Definition ExecAll : go S unit :=
  (λ s, for_each (q s) exec s) ≫= λ _, modify (set []).

(** *** Lemmas *)
Context `{!PartLaws part}.
(** The tasks run in the order in which they were added, and a task that is added by a task is
    dropped. *)
Lemma ExecAll_Add t s :
  (λ s, (Add t ≫= λ _, ExecAll) s) s =
    match for_each (q s ++ [t]) exec (set (q s ++ [t]) s) with
    | Ret _ s' => Ret tt (set [] s')
    | Panic f s' => Panic f s'
    end.
Proof.
  unfold ExecAll, Add, mbind, go_bind. cbn. rewrite get_set. by destruct (for_each _ _ _).
Qed.
Lemma ExecAll_drops_late t t' s :
  q s = [t] → (∀ s', exec t s' = Add t' s') → ExecAll s = Ret tt (set [] s).
Proof. intros Hq He. unfold ExecAll, mbind, go_bind. rewrite Hq. cbn. unfold mbind, go_bind. rewrite He. cbn. unfold modify. by rewrite set_set. Qed.
End queue.
Arguments Queue : clear implicits.
End Queue.
Import Queue.

(** ** signal.SignalSet *)
Module Signal.
Section signal.
Context {S H : Type} (call : H → go S unit).

Definition SignalSet : Type := gmap Z H.
Definition NewSignalSet : SignalSet := ∅.
(** A signal keeps its first handler. *)
Definition Register (sig : Z) (h : H) (ss : SignalSet) : SignalSet :=
  match ss !! sig with Some _ => ss | None => <[sig := h]> ss end.
Definition Handle (sig : Z) (ss : SignalSet) : go S unit :=
  match ss !! sig with Some h => call h | None => mret tt end.

Lemma Register_first sig h h' : Register sig h' (Register sig h NewSignalSet) = Register sig h NewSignalSet.
Proof. unfold Register, NewSignalSet. rewrite lookup_empty. by rewrite lookup_insert_eq. Qed.
End signal.
Arguments SignalSet : clear implicits.
End Signal.
