(* ===== verification/Crypto.v ===== *)
(** * src/crypto: SHA-256 hashing and 256-bit digests

    [crypto/sha256] of the Go standard library as an executable function,
    [Hasher256] ([src/crypto/hash256.go]) and [Digest256]
    ([src/crypto/pbtypes_ext.go]). Signature checking is done by btcec and
    signing by a remote keystore: both are parameters of the development
    ([Class Signatures]). *)
From S2P Require Import Prelude.
From S2P Require Import GoLib.

(** ** SHA-256 *)
Module Sha256.
Definition w32 (z : Z) : Z := Z.land z 0xffffffff.
Definition add32 (a b : Z) : Z := w32 (a + b).
Definition rotr (n x : Z) : Z := Z.lor (Z.shiftr x n) (w32 (Z.shiftl x (32 - n))).
Definition xor3 (a b c : Z) : Z := Z.lxor a (Z.lxor b c).
Definition Sig0 x := xor3 (rotr 2 x) (rotr 13 x) (rotr 22 x).
Definition Sig1 x := xor3 (rotr 6 x) (rotr 11 x) (rotr 25 x).
Definition sig0 x := xor3 (rotr 7 x) (rotr 18 x) (Z.shiftr x 3).
Definition sig1 x := xor3 (rotr 17 x) (rotr 19 x) (Z.shiftr x 10).
Definition ch x y z := Z.lxor (Z.land x y) (Z.land (Z.lxor x 0xffffffff) z).
Definition maj x y z := xor3 (Z.land x y) (Z.land x z) (Z.land y z).

(** The round constants and the initial state are the first 32 bits of the
    fractional parts of the cube and square roots of the first primes. *)
Definition is_prime (n : Z) : bool :=
  forallb (λ d, negb (n mod Z.of_nat d =? 0)) (seq 2 (Z.to_nat n - 2)).
Definition primes (below : nat) : list Z :=
  filter (λ n, is_prime n = true) (Z.of_nat <$> seq 2 (below - 2)).
(** The integer cube root, by deciding its bits from the highest one down. *)
Fixpoint cbrt_from (bit : nat) (r n : Z) : Z :=
  let r' := Z.lor r (2 ^ Z.of_nat bit) in
  let r := if r' ^ 3 <=? n then r' else r in
  match bit with O => r | S b => cbrt_from b r n end.
Definition K : list Z := Eval vm_compute in
  (λ p, w32 (cbrt_from 36 0 (p * 2 ^ 96))) <$> primes 312.

Record regs := Regs { ra : Z; rb : Z; rc : Z; rd : Z; re : Z; rf : Z; rg : Z; rh : Z }.
Definition sqrt_word (p : Z) : Z := w32 (Z.sqrt (p * 2 ^ 64)).
Definition H0 : regs := Eval vm_compute in
  Regs (sqrt_word 2) (sqrt_word 3) (sqrt_word 5) (sqrt_word 7) (sqrt_word 11) (sqrt_word 13)
       (sqrt_word 17) (sqrt_word 19).

Definition nth_word (i : nat) (w : list Z) : Z := nth i w 0.
(** The message schedule, latest word first. *)
Fixpoint expand (n : nat) (w : list Z) : list Z :=
  match n with
  | O => w
  | S n' => expand n' (add32 (add32 (sig1 (nth_word 1 w)) (nth_word 6 w))
                         (add32 (sig0 (nth_word 14 w)) (nth_word 15 w)) :: w)
  end.

Definition round (r : regs) (kw : Z * Z) : regs :=
  let '(k, w) := kw in
  let t1 := add32 (add32 (add32 (rh r) (Sig1 (re r))) (add32 (ch (re r) (rf r) (rg r)) k)) w in
  let t2 := add32 (Sig0 (ra r)) (maj (ra r) (rb r) (rc r)) in
  Regs (add32 t1 t2) (ra r) (rb r) (rc r) (add32 (rd r) t1) (re r) (rf r) (rg r).

Definition compress (r : regs) (block : list Z) : regs :=
  let w := reverse (expand 48 (reverse block)) in
  let r' := foldl round r (zip K w) in
  Regs (add32 (ra r) (ra r')) (add32 (rb r) (rb r')) (add32 (rc r) (rc r')) (add32 (rd r) (rd r'))
       (add32 (re r) (re r')) (add32 (rf r) (rf r')) (add32 (rg r) (rg r')) (add32 (rh r) (rh r')).

(** Big-endian words of a byte string, 16 to a block. *)
Fixpoint words (b : bytes) : list Z :=
  match b with
  | String a (String b' (String c (String d r))) =>
      (Z.shiftl (byte_val a) 24 + Z.shiftl (byte_val b') 16 + Z.shiftl (byte_val c) 8 + byte_val d)
        :: words r
  | _ => []
  end.
Fixpoint zeros (n : nat) : bytes :=
  match n with O => "" | S n' => String (byte 0) (zeros n') end.
Definition pad (m : bytes) : bytes :=
  let l := len m in
  m +:+ String (byte 0x80) (zeros (Z.to_nat ((55 - l) mod 64))) +:+ U64ToBytes (uwrap64 (8 * l)).

Fixpoint blocks (n : nat) (r : regs) (w : list Z) : regs :=
  match n with
  | O => r
  | S n' => blocks n' (compress r (take 16 w)) (drop 16 w)
  end.

Definition sum (m : bytes) : bytes :=
  let p := words (pad m) in
  let r := blocks (length p / 16) H0 p in
  be 4 (ra r) +:+ be 4 (rb r) +:+ be 4 (rc r) +:+ be 4 (rd r) +:+
  be 4 (re r) +:+ be 4 (rf r) +:+ be 4 (rg r) +:+ be 4 (rh r).

Example sum_abc :
  hex_encode (sum "abc") = "ba7816bf8f01cfea414140de5dae2223b00361a396177a9cb410ff61f20015ad".
Proof. vm_compute. reflexivity. Qed.
Example sum_two_blocks :
  hex_encode (sum "abcdbcdecdefdefgefghfghighijhijkijkljklmklmnlmnomnopnopq")
  = "248d6a61d20638b8e5c026930c3e6039a33ce45964ff2167f6ecedd419db06c1".
Proof. vm_compute. reflexivity. Qed.

Lemma len_sum m : len (sum m) = 32.
Proof. unfold sum, len. rewrite !length_app_str !be_length. done. Qed.
End Sha256.

Arguments Sha256.sum : simpl never.

(** ** Digest256 (crypto/crypto.pb.go, crypto/pbtypes_ext.go) *)
Record Digest256 : Type := Digest { Data : bytes }.
#[export] Instance Digest256_eq_dec : EqDecision Digest256.
Proof. solve_decision. Defined.

(** Both pointers are dereferenced: comparing with nil panics. *)
Definition EqualTo (d other : option Digest256) : pan bool :=
  d ← deref d; o ← deref other; mret (bool_decide (Data d = Data o)).
Definition AsMapKey (d : Digest256) : string := Data d.
Definition ToText (d : Digest256) : string := hex_encode (Data d).
Definition IsValid (d : Digest256) : bool := len (Data d) =? 256 / 8.
Definition TextToDigest256 (text : string) : option Digest256 :=
  b ← hex_decode text;
  let digest := Digest b in
  if IsValid digest then Some digest else None.
Definition NewDigest256 (b : bytes) : option Digest256 :=
  let digest := Digest b in
  if IsValid digest then Some digest else None.

(** ** Hasher256 (crypto/hash256.go): the bytes fed so far *)
Record Hasher256 : Type := Hasher { fed : bytes }.
Definition NewHasher256 : Hasher256 := Hasher "".
Definition Feed (hs : Hasher256) (data : bytes) : Hasher256 := Hasher (fed hs +:+ data).
Definition Sum (hs : Hasher256) (data : bytes) : Digest256 := Digest (data +:+ Sha256.sum (fed hs)).
Definition Size (hs : Hasher256) : Z := 32.
Definition Reset (hs : Hasher256) : Hasher256 := NewHasher256.
Definition Hash256 (data : bytes) : Digest256 := Digest (Sha256.sum data).

(** ** Signatures

    [crypto.Verify] decides with btcec whether a DER signature by a public key
    is valid for a digest; [SecureSigner.Sign] asks the keystore, which may
    fail ([None]). *)
Record SecureSigner : Type := Signer {
  Pubkey : bytes; PubKeyHex : string; PubkeyHash : string
}.
Class Signatures : Type := {
  Verify : bytes → Digest256 → bytes → bool;
  Sign : SecureSigner → bytes → option bytes
}.

(** crypto.NewSecureSigner panics on a key that is not hexadecimal. *)
Definition NewSecureSigner (pubkeyHex pubkeyHash : string) : pan SecureSigner :=
  data ← error_is_nil (hex_decode pubkeyHex);
  mret (Signer data pubkeyHex pubkeyHash).

(** * Lemmas *)
Lemma EqualTo_Some d o : EqualTo (Some d) (Some o) = Val (bool_decide (d = o)).
Proof.
  destruct d as [a], o as [b]. cbn. f_equal. apply bool_decide_ext.
  split; [by intros ->|by intros [=]].
Qed.
Lemma EqualTo_true d o : EqualTo d o = Val true ↔ ∃ x, d = Some x ∧ o = Some x.
Proof.
  destruct d as [d|], o as [o|]; try (cbn; naive_solver).
  rewrite EqualTo_Some. split.
  - intros [= H]. to_prop. subst. eauto.
  - intros (x & [= ->] & [= ->]). by rewrite bool_decide_true.
Qed.
Lemma EqualTo_false d o : EqualTo d o = Val false ↔ ∃ x y, d = Some x ∧ o = Some y ∧ x ≠ y.
Proof.
  destruct d as [d|], o as [o|]; try (cbn; naive_solver).
  rewrite EqualTo_Some. split.
  - intros [= H]. to_prop. eauto 10.
  - intros (x & y & [= ->] & [= ->] & ?). by rewrite bool_decide_false.
Qed.
Lemma Sum_valid hs : IsValid (Sum hs "") = true.
Proof. unfold IsValid, Sum. cbn [Data]. rewrite str_app_nil Sha256.len_sum. done. Qed.
Lemma TextToDigest256_ToText d : IsValid d = true → TextToDigest256 (ToText d) = Some d.
Proof.
  destruct d as [b]. unfold TextToDigest256, ToText. cbn [Data]. rewrite hex_decode_encode.
  cbn. by intros ->.
Qed.
