(* ===== verification/Messages.v ===== *)
(** * The protocol messages (src/proto/braft.proto, braft.pb.go)

    A record per message, with the fields of the generated Go struct. A pointer
    field is an [option]; a repeated field is a list; a map field is a [gmap].
    Enums are open in proto3: an unknown number is a value too. [Block],
    [Reconfig], [Vote] and [Votie] are mutually recursive. *)
From S2P Require Import Prelude.
From S2P Require Import GoLib.
From S2P Require Import Crypto.

Inductive CodeType : Type := SIGNED | NEEDSYNC | REJECT | CodeType_other (n : Z).
Inductive TxStatus : Type := WAITING | COMMITTED | REJECTED | TxStatus_other (n : Z).
Inductive Reconfig_Type : Type := JOIN | LEAVE | Reconfig_Type_other (n : Z).
Inductive Block_Type : Type := UNKNOWN | GENESIS | TXS | BCH | RECONFIG | Block_Type_other (n : Z).

#[export] Instance CodeType_eq_dec : EqDecision CodeType.
Proof. solve_decision. Defined.
#[export] Instance TxStatus_eq_dec : EqDecision TxStatus.
Proof. solve_decision. Defined.
#[export] Instance Reconfig_Type_eq_dec : EqDecision Reconfig_Type.
Proof. solve_decision. Defined.
#[export] Instance Block_Type_eq_dec : EqDecision Block_Type.
Proof. solve_decision. Defined.

Definition CodeType_num (c : CodeType) : Z :=
  match c with SIGNED => 0 | NEEDSYNC => 1 | REJECT => 2 | CodeType_other n => n end.
Definition Reconfig_Type_num (t : Reconfig_Type) : Z :=
  match t with JOIN => 0 | LEAVE => 1 | Reconfig_Type_other n => n end.
(** The generated [String()]: the name, or the number of an unknown value. *)
Definition Block_Type_String (t : Block_Type) : string :=
  match t with
  | UNKNOWN => "UNKNOWN" | GENESIS => "GENESIS" | TXS => "TXS" | BCH => "BCH"
  | RECONFIG => "RECONFIG" | Block_Type_other n => FormatInt n
  end.

Record EchoRequest := { eq_Nonce : Z }.
Record EchoResponse := { er_Nonce : Z }.
Record SyncUpRequest := { su_BaseHeight : Z }.
Record SyncUpByHashRequest := { sh_Locator : list Digest256 }.

Record BchBlockHeader := {
  bh_Height : Z; bh_BlockId : option Digest256; bh_PrevId : option Digest256
}.
Record AddressInfo := { ai_Address : string; ai_Amount : Z }.
Record WatchedTxInfo := {
  wt_Txid : string; wt_Amount : Z; wt_RechargeList : list AddressInfo;
  wt_From : string; wt_To : string; wt_Fee : Z; wt_TokenFrom : Z; wt_TokenTo : Z
}.
Record NewlyTx := { nt_Data : bytes; nt_Amount : Z; nt_Timestamp : Z }.
Record Transaction := {
  tx_Id : option Digest256; tx_WatchedTx : option WatchedTxInfo;
  tx_NewlyTxId : string; tx_Time : Z; tx_Amount : Z
}.
Record TxLookupEntry := { tle_Height : Z; tle_Index : Z }.

Record PrepareMsg := {
  pm_Term : Z; pm_Height : Z; pm_BlockId : option Digest256; pm_NodeId : Z; pm_Sig : bytes
}.
Record CommitMsg := {
  cm_Term : Z; cm_Height : Z; cm_BlockId : option Digest256; cm_NodeId : Z; cm_Sig : bytes
}.

Inductive Block : Type := MkBlock {
  b_TimestampMs : Z; b_PrevBlockId : option Digest256; b_Type : Block_Type;
  b_Txs : list Transaction; b_BchBlockHeader : option BchBlockHeader;
  b_Reconfig : option Reconfig; b_Id : option Digest256
}
with Reconfig : Type := MkReconfig {
  rc_Type : Reconfig_Type; rc_Host : string; rc_NodeId : Z; rc_Pubkey : string;
  rc_Vote : option Vote
}
with Vote : Type := MkVote {
  v_Term : Z; v_Votie : option Votie; v_NodeId : Z; v_Sig : bytes
}
with Votie : Type := MkVotie {
  vi_Term : Z; vi_Height : Z; vi_Block : option Block;
  vi_Prepares : gmap Z PrepareMsg; vi_Commits : gmap Z CommitMsg
}.

Record BlockInfo := {
  bi_Term : Z; bi_Height : Z; bi_BlockId : option Digest256; bi_Block : option Block
}.
Record InitMsg := {
  im_Term : Z; im_Height : Z; im_Block : option Block; im_NodeId : Z; im_Sig : bytes;
  im_Votes : gmap Z Vote
}.
Record BlockPack := {
  bp_Init : option InitMsg; bp_Prepares : gmap Z PrepareMsg; bp_Commits : gmap Z CommitMsg
}.
Record WeakAccuse := { wa_Term : Z; wa_NodeId : Z; wa_Sig : bytes; wa_Time : Z }.
Record WeakAccuses := { Accuses : gmap Z WeakAccuse }.
Record StrongAccuse := { sa_WeakAccuses : gmap Z WeakAccuse }.
Record SyncUpResponse := {
  sy_Commits : list BlockPack; sy_Fresh : option BlockPack;
  sy_StrongAccuse : option StrongAccuse; sy_More : bool
}.
Record SignTxRequest := {
  sr_Term : Z; sr_NodeId : Z; sr_MultisigAddress : string;
  sr_WatchedTx : option WatchedTxInfo; sr_NewlyTx : option NewlyTx; sr_Sig : bytes; sr_Time : Z
}.
Record SignedResult := {
  sd_Code : CodeType; sd_NodeId : Z; sd_TxId : string; sd_To : string; sd_Term : Z;
  sd_Data : list bytes; sd_Sig : bytes
}.
Record SignedStatistic := {
  ss_SignedMsgId : string; ss_Stat : gmap Z CodeType; ss_Status : TxStatus
}.
Record ChainTxIdMsg := { ct_NodeId : Z; ct_TxId : string; ct_SignMsgId : string; ct_Sig : bytes }.
Record JoinRequest := {
  jr_Host : string; jr_Pubkey : string; jr_Vote : option Vote; jr_Sig : bytes
}.
Record JoinResponse := { jp_NodeID : Z; jp_Synced : bool }.
Record LeaveRequest := { lr_NodeId : Z; lr_Msg : string; lr_Sig : bytes }.
Record PbNodeInfo := {
  ni_NodeId : Z; ni_Name : string; ni_Pubkey : string; ni_Host : string; ni_IsNormal : bool
}.
Record PbMultiSigInfo := {
  pms_BtcAddress : string; pms_BtcRedeemScript : bytes;
  pms_BchAddress : string; pms_BchRedeemScript : bytes
}.
Record PbNodeList := {
  nl_NodeList : list PbNodeInfo; nl_MultiSigInfoList : list PbMultiSigInfo;
  nl_LeaderId : Z; nl_QuorumN : Z; nl_BlockHeight : Z
}.
Record AccuseRecord := {
  ar_Term : Z; ar_LocalId : Z; ar_LeaderId : Z; ar_AccuseType : Z; ar_Timestamp : Z;
  ar_Reason : string
}.
Record HeatbeatMsg := { hb_Term : Z; hb_Votes : list Vote }.

#[export] Instance BchBlockHeader_eq_dec : EqDecision BchBlockHeader.
Proof. solve_decision. Defined.
#[export] Instance AddressInfo_eq_dec : EqDecision AddressInfo.
Proof. solve_decision. Defined.
#[export] Instance WatchedTxInfo_eq_dec : EqDecision WatchedTxInfo.
Proof. solve_decision. Defined.
#[export] Instance Transaction_eq_dec : EqDecision Transaction.
Proof. solve_decision. Defined.
#[export] Instance PrepareMsg_eq_dec : EqDecision PrepareMsg.
Proof. solve_decision. Defined.
#[export] Instance CommitMsg_eq_dec : EqDecision CommitMsg.
Proof. solve_decision. Defined.
#[export] Instance WeakAccuse_eq_dec : EqDecision WeakAccuse.
Proof. solve_decision. Defined.

(** Assignments to one field of a message object. *)
Definition set_tx_Id (t : Transaction) (i : option Digest256) : Transaction :=
  {| tx_Id := i; tx_WatchedTx := tx_WatchedTx t; tx_NewlyTxId := tx_NewlyTxId t;
     tx_Time := tx_Time t; tx_Amount := tx_Amount t |}.
Definition set_b_Id (b : Block) (i : option Digest256) : Block :=
  MkBlock (b_TimestampMs b) (b_PrevBlockId b) (b_Type b) (b_Txs b) (b_BchBlockHeader b)
          (b_Reconfig b) i.
Definition set_vi_Block (v : Votie) (b : option Block) : Votie :=
  MkVotie (vi_Term v) (vi_Height v) b (vi_Prepares v) (vi_Commits v).
Definition set_v_Votie (v : Vote) (i : option Votie) : Vote :=
  MkVote (v_Term v) i (v_NodeId v) (v_Sig v).
Definition set_v_Term (v : Vote) (t : Z) : Vote :=
  MkVote t (v_Votie v) (v_NodeId v) (v_Sig v).
Definition set_im_Block (m : InitMsg) (b : option Block) : InitMsg :=
  {| im_Term := im_Term m; im_Height := im_Height m; im_Block := b;
     im_NodeId := im_NodeId m; im_Sig := im_Sig m; im_Votes := im_Votes m |}.
Definition set_im_Votes (m : InitMsg) (vs : gmap Z Vote) : InitMsg :=
  {| im_Term := im_Term m; im_Height := im_Height m; im_Block := im_Block m;
     im_NodeId := im_NodeId m; im_Sig := im_Sig m; im_Votes := vs |}.
Definition set_im_Sig (m : InitMsg) (sig : bytes) : InitMsg :=
  {| im_Term := im_Term m; im_Height := im_Height m; im_Block := im_Block m;
     im_NodeId := im_NodeId m; im_Sig := sig; im_Votes := im_Votes m |}.
Definition set_bp_Init (p : BlockPack) (i : option InitMsg) : BlockPack :=
  {| bp_Init := i; bp_Prepares := bp_Prepares p; bp_Commits := bp_Commits p |}.
Definition set_bp_Prepares (p : BlockPack) (m : gmap Z PrepareMsg) : BlockPack :=
  {| bp_Init := bp_Init p; bp_Prepares := m; bp_Commits := bp_Commits p |}.
Definition set_bp_Commits (p : BlockPack) (m : gmap Z CommitMsg) : BlockPack :=
  {| bp_Init := bp_Init p; bp_Prepares := bp_Prepares p; bp_Commits := m |}.
