(* ===== verification/Feed.v ===== *)
(** * Hash pre-images and message ids

    [src/util/hash_utils.go] (the text fed to the hasher) and the [feed...Fields]
    and [Id] functions of [src/proto/pbtypes_ext.go]. Every [Id] is the SHA-256
    of a bracketed text. The section at the end decides which fields an id binds:
    the binding theorems say that two messages with the same id agree on the
    fields, or exhibit a SHA-256 collision. *)
From S2P Require Import Prelude.
From S2P Require Import GoLib.
From S2P Require Import Crypto.
From S2P Require Import Messages.

(** ** util/hash_utils.go *)
Definition FeedText (hs : Hasher256) (data : string) : Hasher256 := Feed hs data.
Definition FeedBin (hs : Hasher256) (data : bytes) : Hasher256 := Feed hs (hex_encode data).

Definition FeedField (hs : Hasher256) (fieldName : string)
    (fn : Hasher256 → pan Hasher256) : pan Hasher256 :=
  hs ← fn (FeedText hs ("<" +:+ fieldName +:+ " "));
  mret (FeedText hs ">").
Definition FeedTextField (hs : Hasher256) (fieldName : string) (data : string) : Hasher256 :=
  FeedText (FeedText (FeedText hs ("<" +:+ fieldName +:+ " ")) data) ">".
Definition FeedBinField (hs : Hasher256) (fieldName : string) (data : bytes) : Hasher256 :=
  FeedText (FeedBin (FeedText hs ("<" +:+ fieldName +:+ " ")) data) ">".
Definition FeedInt32Field (hs : Hasher256) (fieldName : string) (n : Z) : Hasher256 :=
  FeedTextField hs fieldName (FormatInt n).
Definition FeedInt64Field (hs : Hasher256) (fieldName : string) (n : Z) : Hasher256 :=
  FeedTextField hs fieldName (FormatInt n).
Definition FeedTimestampField (hs : Hasher256) (fieldName : string) (ts : Z) : Hasher256 :=
  FeedInt64Field hs fieldName ts.
(** [digest.Data] dereferences the pointer. *)
Definition FeedDigestField (hs : Hasher256) (fieldName : string)
    (digest : option Digest256) : pan Hasher256 :=
  d ← deref digest; mret (FeedBinField hs fieldName (Data d)).

Fixpoint feed_list {A} (f : Hasher256 → A → pan Hasher256) (hs : Hasher256) (l : list A)
    : pan Hasher256 :=
  match l with
  | [] => mret hs
  | x :: l' => hs ← f hs x; feed_list f hs l'
  end.

(** The keys of a map, collected and sorted before they are hashed. *)
Definition sorted_keys {V} (m : gmap Z V) : list Z := Int32s (map_to_list m).*1 false.

Definition hash_of (feed : Hasher256 → pan Hasher256) : pan Digest256 :=
  hs ← feed NewHasher256; mret (Sum hs "").

(** ** Transactions and sign requests *)
Definition feedRecharge (hs : Hasher256) (l : list AddressInfo) : pan Hasher256 :=
  if 0 <? Z.of_nat (length l) then
    FeedField hs "Recharge" (λ hs,
      feed_list (λ hs r,
        let hs := FeedTextField hs "Address" (ai_Address r) in
        mret (FeedInt64Field hs "Amount" (ai_Amount r))) hs l)
  else mret hs.

Definition feedWatchedTx (hs : Hasher256) (wt : option WatchedTxInfo) : pan Hasher256 :=
  FeedField hs "WatchedTx" (λ hs,
    tx ← deref wt;
    let hs := FeedTextField hs "Txid" (wt_Txid tx) in
    let hs := FeedInt64Field hs "Amount" (wt_Amount tx) in
    let hs := FeedTextField hs "From" (wt_From tx) in
    let hs := FeedTextField hs "To" (wt_To tx) in
    feedRecharge hs (wt_RechargeList tx)).

Definition feedTxFields (hs : Hasher256) (fieldName : string) (msg : Transaction) : pan Hasher256 :=
  FeedField hs fieldName (λ hs,
    hs ← feedWatchedTx hs (tx_WatchedTx msg);
    mret (FeedTextField hs "NewlyTxId" (tx_NewlyTxId msg))).

Definition feedSignMsgFields (hs : Hasher256) (fieldName : string) (msg : SignTxRequest)
    : pan Hasher256 :=
  FeedField hs fieldName (λ hs,
    let hs := FeedInt64Field hs "Term" (sr_Term msg) in
    let hs := FeedInt32Field hs "NodeId" (sr_NodeId msg) in
    let hs := FeedTextField hs "MultisigAddress" (sr_MultisigAddress msg) in
    hs ← feedWatchedTx hs (sr_WatchedTx msg);
    nt ← deref (sr_NewlyTx msg);
    mret (FeedBinField hs "NewlyTx" (nt_Data nt))).

Definition feedSignedResultFields (hs : Hasher256) (fieldName : string) (msg : SignedResult)
    : pan Hasher256 :=
  FeedField hs fieldName (λ hs,
    let hs := FeedInt32Field hs "Code" (CodeType_num (sd_Code msg)) in
    let hs := FeedInt32Field hs "NodeId" (sd_NodeId msg) in
    let hs := FeedTextField hs "TxId" (sd_TxId msg) in
    let hs := FeedTextField hs "To" (sd_To msg) in
    let hs := FeedInt64Field hs "Term" (sd_Term msg) in
    if 0 <? Z.of_nat (length (sd_Data msg)) then
      FeedField hs "SignedData" (λ hs,
        feed_list (λ hs data, mret (FeedBinField hs "Data" data)) hs (sd_Data msg))
    else mret hs).

Definition feedChainTxIdMsgFields (hs : Hasher256) (fieldName : string) (msg : ChainTxIdMsg)
    : pan Hasher256 :=
  FeedField hs fieldName (λ hs,
    let hs := FeedInt32Field hs "NodeId" (ct_NodeId msg) in
    let hs := FeedTextField hs "TxId" (ct_TxId msg) in
    mret (FeedTextField hs "SignMsgId" (ct_SignMsgId msg))).

(** ** Blocks *)
Definition feedBchBlockHeaderFields (hs : Hasher256) (fieldName : string)
    (header : option BchBlockHeader) : pan Hasher256 :=
  FeedField hs fieldName (λ hs,
    h ← deref header;
    let hs := FeedInt32Field hs "Height" (bh_Height h) in
    hs ← FeedDigestField hs "BlockId" (bh_BlockId h);
    FeedDigestField hs "PrevId" (bh_PrevId h)).
Definition BchBlockHeader_Id (header : option BchBlockHeader) : pan Digest256 :=
  hash_of (λ hs, feedBchBlockHeaderFields hs "BchBlockHeader" header).

Definition feedReconfigFields (hs : Hasher256) (fieldName : string) (msg : option Reconfig)
    : pan Hasher256 :=
  FeedField hs fieldName (λ hs,
    r ← deref msg;
    let hs := FeedInt32Field hs "Type" (Reconfig_Type_num (rc_Type r)) in
    let hs := FeedTextField hs "Host" (rc_Host r) in
    mret (FeedInt32Field hs "NodeId" (rc_NodeId r))).
Definition Reconfig_Id (msg : option Reconfig) : pan Digest256 :=
  hash_of (λ hs, feedReconfigFields hs "Reconfig" msg).

Definition IsGenesis (b : Block) : bool := bool_decide (b_Type b = GENESIS).

Definition feedTxIds (hs : Hasher256) (txs : list Transaction) : pan Hasher256 :=
  FeedField hs "TxIds" (λ h, feed_list (λ h tx, FeedDigestField h "TxId" (tx_Id tx)) h txs).

Definition feedBlockFields (hs : Hasher256) (fieldName : string) (block : Block) : pan Hasher256 :=
  FeedField hs fieldName (λ hs,
    let hs := FeedTimestampField hs "TimestampMs" (b_TimestampMs block) in
    hs ← (if IsGenesis block then mret hs
          else FeedDigestField hs "PreviousBlockId" (b_PrevBlockId block));
    let hs := FeedTextField hs "Type" (Block_Type_String (b_Type block)) in
    match b_Type block with
    | GENESIS => mret hs
    | TXS => feedTxIds hs (b_Txs block)
    | BCH =>
        hs ← feedTxIds hs (b_Txs block);
        i ← BchBlockHeader_Id (b_BchBlockHeader block);
        FeedDigestField hs "BchBlockHeader" (Some i)
    | RECONFIG =>
        i ← Reconfig_Id (b_Reconfig block);
        FeedDigestField hs "ReconfigId" (Some i)
    | UNKNOWN | Block_Type_other _ => Fault (ExplicitPanic "Invalid block type.")
    end).

(** [UpdateBlockId] assigns [b.Id]. *)
Definition Block_hash (b : Block) : pan Digest256 := hash_of (λ hs, feedBlockFields hs "Block" b).
Definition UpdateBlockId (b : Block) : pan Block :=
  i ← Block_hash b; mret (set_b_Id b (Some i)).

Definition Transaction_hash (tx : Transaction) : pan Digest256 :=
  hash_of (λ hs, feedTxFields hs "Tx" tx).
Definition UpdateId (tx : Transaction) : pan Transaction :=
  i ← Transaction_hash tx; mret (set_tx_Id tx (Some i)).

(** ** Consensus messages *)
Definition feedPrepareMsgFields (hs : Hasher256) (fieldName : string) (msg : PrepareMsg)
    : pan Hasher256 :=
  FeedField hs fieldName (λ hs,
    let hs := FeedInt64Field hs "Term" (pm_Term msg) in
    let hs := FeedInt64Field hs "Height" (pm_Height msg) in
    hs ← FeedDigestField hs "BlockId" (pm_BlockId msg);
    mret (FeedInt32Field hs "NodeId" (pm_NodeId msg))).
Definition PrepareMsg_Id (msg : PrepareMsg) : pan Digest256 :=
  hash_of (λ hs, feedPrepareMsgFields hs "PrepareMsg" msg).

Definition feedCommitMsgFields (hs : Hasher256) (fieldName : string) (msg : CommitMsg)
    : pan Hasher256 :=
  FeedField hs fieldName (λ hs,
    let hs := FeedInt64Field hs "Term" (cm_Term msg) in
    let hs := FeedInt64Field hs "Height" (cm_Height msg) in
    hs ← FeedDigestField hs "BlockId" (cm_BlockId msg);
    mret (FeedInt32Field hs "NodeId" (cm_NodeId msg))).
Definition CommitMsg_Id (msg : CommitMsg) : pan Digest256 :=
  hash_of (λ hs, feedCommitMsgFields hs "CommitMsg" msg).

Definition feedPrepareIds (hs : Hasher256) (ps : gmap Z PrepareMsg) : pan Hasher256 :=
  FeedField hs "Prepares" (λ hs,
    feed_list (λ hs k, m ← deref (ps !! k); i ← PrepareMsg_Id m;
                       FeedDigestField hs "PrepareMsgId" (Some i)) hs (sorted_keys ps)).
Definition feedCommitIds (hs : Hasher256) (cs : gmap Z CommitMsg) : pan Hasher256 :=
  FeedField hs "Commits" (λ hs,
    feed_list (λ hs k, m ← deref (cs !! k); i ← CommitMsg_Id m;
                       FeedDigestField hs "CommitMsgId" (Some i)) hs (sorted_keys cs)).

Definition feedVotieFields (hs : Hasher256) (fieldName : string) (votie : option Votie)
    : pan Hasher256 :=
  FeedField hs fieldName (λ hs,
    v ← deref votie;
    let hs := FeedInt64Field hs "Term" (vi_Term v) in
    let hs := FeedInt64Field hs "Height" (vi_Height v) in
    b ← deref (vi_Block v);
    hs ← FeedDigestField hs "BlockId" (b_Id b);
    hs ← feedPrepareIds hs (vi_Prepares v);
    feedCommitIds hs (vi_Commits v)).
Definition Votie_Id (v : option Votie) : pan Digest256 :=
  hash_of (λ hs, feedVotieFields hs "Votie" v).

Definition feedVoteFields (hs : Hasher256) (fieldName : string) (vote : Vote) : pan Hasher256 :=
  FeedField hs fieldName (λ hs,
    let hs := FeedInt64Field hs "Term" (v_Term vote) in
    i ← Votie_Id (v_Votie vote);
    hs ← FeedDigestField hs "VotieId" (Some i);
    mret (FeedInt32Field hs "NodeId" (v_NodeId vote))).
Definition Vote_Id (vote : Vote) : pan Digest256 := hash_of (λ hs, feedVoteFields hs "Vote" vote).

Definition feedInitMsgFields (hs : Hasher256) (fieldName : string) (msg : InitMsg) : pan Hasher256 :=
  FeedField hs fieldName (λ hs,
    let hs := FeedInt64Field hs "Term" (im_Term msg) in
    let hs := FeedInt64Field hs "Height" (im_Height msg) in
    b ← deref (im_Block msg);
    hs ← FeedDigestField hs "BlockId" (b_Id b);
    let hs := FeedInt32Field hs "NodeId" (im_NodeId msg) in
    if 0 <? Z.of_nat (size (im_Votes msg)) then
      FeedField hs "Votes" (λ hs,
        feed_list (λ hs k, v ← deref (im_Votes msg !! k); i ← Vote_Id v;
                           FeedDigestField hs "VoteId" (Some i)) hs (sorted_keys (im_Votes msg)))
    else mret hs).
Definition InitMsg_Id (msg : InitMsg) : pan Digest256 :=
  hash_of (λ hs, feedInitMsgFields hs "InitMsg" msg).

Definition feedBlockPackFields (hs : Hasher256) (fieldName : string) (bp : BlockPack)
    : pan Hasher256 :=
  FeedField hs fieldName (λ hs,
    init ← deref (bp_Init bp);
    i ← InitMsg_Id init;
    hs ← FeedDigestField hs "InitMsgId" (Some i);
    hs ← feedPrepareIds hs (bp_Prepares bp);
    feedCommitIds hs (bp_Commits bp)).
Definition BlockPack_Id (bp : BlockPack) : pan Digest256 :=
  hash_of (λ hs, feedBlockPackFields hs "BlockPack" bp).

Definition feedWeakAccuseFields (hs : Hasher256) (fieldName : string) (msg : WeakAccuse)
    : pan Hasher256 :=
  FeedField hs fieldName (λ hs,
    let hs := FeedInt64Field hs "Term" (wa_Term msg) in
    mret (FeedInt32Field hs "NodeId" (wa_NodeId msg))).
Definition WeakAccuse_Id (wa : WeakAccuse) : pan Digest256 :=
  hash_of (λ hs, feedWeakAccuseFields hs "WeakAccuse" wa).

Definition feedJoinRequestFields (hs : Hasher256) (fieldName : string) (msg : JoinRequest)
    : pan Hasher256 :=
  FeedField hs fieldName (λ hs,
    let hs := FeedTextField hs "Host" (jr_Host msg) in
    let hs := FeedTextField hs "Pubkey" (jr_Pubkey msg) in
    v ← deref (jr_Vote msg);
    i ← Vote_Id v;
    FeedDigestField hs "Vote" (Some i)).
Definition JoinRequest_Id (msg : JoinRequest) : pan Digest256 :=
  hash_of (λ hs, feedJoinRequestFields hs "JoinRequest" msg).

Definition feedLeaveRequestFields (hs : Hasher256) (fieldName : string) (msg : LeaveRequest)
    : pan Hasher256 :=
  FeedField hs fieldName (λ hs,
    let hs := FeedInt32Field hs "NodeId" (lr_NodeId msg) in
    mret (FeedTextField hs "Msg" (lr_Msg msg))).
Definition LeaveRequest_Id (msg : LeaveRequest) : pan Digest256 :=
  hash_of (λ hs, feedLeaveRequestFields hs "LeaveRequest" msg).

Definition SignedResult_Id (msg : SignedResult) : pan Digest256 :=
  hash_of (λ hs, feedSignedResultFields hs "SignedResult" msg).
Definition SignTxRequest_Id (msg : SignTxRequest) : pan Digest256 :=
  hash_of (λ hs, feedSignMsgFields hs "SignMsg" msg).
Definition ChainTxIdMsg_Id (msg : ChainTxIdMsg) : pan Digest256 :=
  hash_of (λ hs, feedChainTxIdMsgFields hs "ChainTxIdMsg" msg).

(** * Parsing the fed texts

    A number or a hexadecimal text holds no closing bracket, so what follows the
    name of a numeric or digest field up to the first bracket is its value. *)
Fixpoint clean (s : string) : bool :=
  match s with
  | EmptyString => true
  | String c s' => negb (bool_decide (c = ">"%char)) && clean s'
  end.

Lemma clean_app a b : clean (a +:+ b) = clean a && clean b.
Proof. induction a as [|c a IH]; [done|]. by rewrite str_app_cons /= IH andb_assoc. Qed.

Lemma field_inj (a b r r' : string) :
  clean a = true → clean b = true →
  a +:+ String ">" r = b +:+ String ">" r' → a = b ∧ r = r'.
Proof.
  revert b. induction a as [|c a IH]; intros [|d b] Ha Hb Heq;
    rewrite ?str_app_cons ?str_app_nil in Heq; cbn in Ha, Hb; to_prop; simplify_eq; [done|].
  edestruct (IH b) as [-> ->]; eauto.
Qed.

Lemma clean_hex b : clean (hex_encode b) = true.
Proof.
  assert (∀ n, 0 ≤ n < 16 → hex_digit n ≠ ">"%char) as Hd.
  { intros n Hn Heq. pose proof (from_hex_char_digit n Hn) as H. by rewrite Heq in H. }
  induction b as [|c b IH]; [done|]. cbn. pose proof (byte_val_range c).
  rewrite !bool_decide_false; [by rewrite IH|apply Hd..].
  - apply Z.mod_pos_bound. lia.
  - split; [apply Z.div_pos|apply Z.div_lt_upper_bound]; lia.
Qed.

Lemma clean_pretty_go x s : clean s = true → clean (pretty_N_go x s) = true.
Proof.
  revert s. induction (N.lt_wf_0 x) as [x _ IH]; intros s Hs.
  destruct (decide (x = 0)%N) as [->|Hx]; [by rewrite pretty_N_go_0|].
  rewrite pretty_N_go_step; [|lia]. apply IH; [apply N.div_lt; lia|].
  cbn. rewrite Hs andb_true_r. unfold pretty_N_char. by repeat case_match.
Qed.
Lemma clean_FormatInt n : clean (FormatInt n) = true.
Proof.
  assert (∀ x : N, clean (pretty x) = true) as HN.
  { intros x. unfold pretty, pretty_N. case_decide; [done|]. by apply clean_pretty_go. }
  unfold FormatInt, pretty, pretty_Z. destruct n; cbn; try done.
  - apply (HN (N.pos _)).
  - apply (HN (N.pos _)).
Qed.
#[export] Instance FormatInt_inj : Inj (=) (=) FormatInt.
Proof. intros a b. unfold FormatInt. apply (inj pretty). Qed.
#[export] Hint Resolve clean_hex clean_FormatInt : ofgp.

Lemma FormatInt_field a b r r' :
  FormatInt a +:+ String ">" r = FormatInt b +:+ String ">" r' → a = b ∧ r = r'.
Proof. intros [? ->]%field_inj; [|auto with ofgp..]. split; [by apply (inj FormatInt)|done]. Qed.
Lemma hex_field a b r r' :
  hex_encode (Data a) +:+ String ">" r = hex_encode (Data b) +:+ String ">" r' → a = b ∧ r = r'.
Proof.
  intros [H ->]%field_inj; [|auto with ofgp..]. apply (inj hex_encode) in H.
  destruct a, b. cbn in H. by subst.
Qed.

(** Take two equal texts apart, one field at a time. *)
Ltac text_norm H :=
  cbn [fed Data] in H; rewrite ?app_assoc_str ?str_app_cons ?str_app_nil in H.
Ltac text_peel H :=
  repeat first
    [ apply FormatInt_field in H as [? H]
    | apply hex_field in H as [? H]
    | progress (injection H as H)
    | progress (rewrite ?app_assoc_str ?str_app_cons ?str_app_nil in H) ].

(** ** Ids and collisions *)

(** Both feeds produce a text, the texts differ, and SHA-256 maps them to the
    same digest. *)
Definition collides (f g : Hasher256 → pan Hasher256) : Prop :=
  ∃ hs hs', f NewHasher256 = Val hs ∧ g NewHasher256 = Val hs' ∧
    fed hs ≠ fed hs' ∧ Sha256.sum (fed hs) = Sha256.sum (fed hs').

Lemma hash_of_same f g d :
  hash_of f = Val d → hash_of g = Val d →
  collides f g ∨ ∃ hs, f NewHasher256 = Val hs ∧ g NewHasher256 = Val hs.
Proof.
  unfold hash_of. intros (hs & Hf & H1)%pan_bind_Val (hs' & Hg & H2)%pan_bind_Val.
  assert (Sha256.sum (fed hs) = Sha256.sum (fed hs')) as He.
  { unfold Sum, mret, pan_ret in H1, H2. rewrite str_app_nil in H1. rewrite str_app_nil in H2.
    congruence. }
  destruct (decide (fed hs = fed hs')) as [Heq|Heq]; [right|left; by exists hs, hs'].
  exists hs. destruct hs, hs'. cbn in Heq. by subst.
Qed.

(** ** Lists of digests *)
Fixpoint items (name : string) (l : list Digest256) : string :=
  match l with
  | [] => ""
  | d :: l' => "<" +:+ name +:+ " " +:+ hex_encode (Data d) +:+ ">" +:+ items name l'
  end.

Lemma items_field name l l' r r' :
  items name l +:+ String ">" r = items name l' +:+ String ">" r' → l = l' ∧ r = r'.
Proof.
  revert l'. induction l as [|d l IH]; intros [|d' l'] H; cbn in H;
    rewrite ?app_assoc_str ?str_app_cons ?str_app_nil in H; try discriminate H.
  - by injection H as ->.
  - injection H as H. apply app_inj_l in H. injection H as H.
    apply hex_field in H as [-> H]. destruct (IH l' H) as [-> ->]. done.
Qed.

Lemma FeedDigestField_Val hs n d hs' :
  FeedDigestField hs n d = Val hs' ↔
  ∃ x, d = Some x ∧ hs' = Hasher (fed hs +:+ items n [x]).
Proof.
  unfold FeedDigestField. rewrite pan_bind_Val.
  assert (∀ x, FeedBinField hs n (Data x) = Hasher (fed hs +:+ items n [x])) as E.
  { intros x. by rewrite /FeedBinField /FeedBin /FeedText /Feed /= !app_assoc_str app_nil_r_str. }
  split.
  - intros (x & ?%deref_Val & [= <-]). exists x. by rewrite E.
  - intros (x & -> & ->). exists x. by rewrite -E.
Qed.

Lemma feed_list_items {A} (conv : A → pan Digest256) (f : Hasher256 → A → pan Hasher256) n l :
  (∀ hs x, f hs x = i ← conv x; FeedDigestField hs n (Some i)) →
  ∀ hs hs', feed_list f hs l = Val hs' →
  ∃ ds, Forall2 (λ x d, conv x = Val d) l ds ∧ hs' = Hasher (fed hs +:+ items n ds).
Proof.
  intros Hf. induction l as [|x l IH]; intros hs hs' H; cbn in H.
  { injection H as <-. exists []. split; [constructor|]. cbn. rewrite app_nil_r_str. by destruct hs. }
  apply pan_bind_Val in H as (h1 & Hx & H). rewrite Hf in Hx.
  apply pan_bind_Val in Hx as (i & Hi & (x' & [= <-] & ->)%FeedDigestField_Val).
  destruct (IH _ _ H) as (ds & Hds & ->). exists (i :: ds). split; [by constructor|].
  cbn. by rewrite !app_assoc_str str_app_nil.
Qed.

Lemma Forall2_fun {A B} (f : A → pan B) l ds ds' :
  Forall2 (λ x d, f x = Val d) l ds → Forall2 (λ x d, f x = Val d) l ds' → ds = ds'.
Proof.
  intros H. revert ds'. induction H; intros ds' H'; inversion H'; subst; [done|].
  f_equal; [congruence|auto].
Qed.

(** The ids of the messages of a map, in the order of the keys. *)
Definition prepare_ids (ps : gmap Z PrepareMsg) (ds : list Digest256) : Prop :=
  Forall2 (λ k d, (m ← deref (ps !! k); PrepareMsg_Id m) = Val d) (sorted_keys ps) ds.
Definition commit_ids (cs : gmap Z CommitMsg) (ds : list Digest256) : Prop :=
  Forall2 (λ k d, (m ← deref (cs !! k); CommitMsg_Id m) = Val d) (sorted_keys cs) ds.

Lemma FeedField_Val hs n fn hs' :
  FeedField hs n fn = Val hs' ↔
  ∃ h, fn (Hasher (fed hs +:+ "<" +:+ n +:+ " ")) = Val h ∧ hs' = Hasher (fed h +:+ ">").
Proof.
  unfold FeedField. rewrite pan_bind_Val. split.
  - intros (h & H & [= <-]). by exists h.
  - intros (h & H & ->). by exists h.
Qed.

Lemma feedPrepareIds_Val hs ps hs' :
  feedPrepareIds hs ps = Val hs' →
  ∃ ds, prepare_ids ps ds ∧
    hs' = Hasher (fed hs +:+ "<Prepares " +:+ items "PrepareMsgId" ds +:+ ">").
Proof.
  unfold feedPrepareIds. intros (h & H & ->)%FeedField_Val.
  eapply (feed_list_items (λ k, m ← deref (ps !! k); PrepareMsg_Id m)) in H as (ds & Hds & ->).
  - exists ds. split; [done|]. cbn. by rewrite !app_assoc_str.
  - intros h' k. by destruct (ps !! k).
Qed.
Lemma feedCommitIds_Val hs cs hs' :
  feedCommitIds hs cs = Val hs' →
  ∃ ds, commit_ids cs ds ∧
    hs' = Hasher (fed hs +:+ "<Commits " +:+ items "CommitMsgId" ds +:+ ">").
Proof.
  unfold feedCommitIds. intros (h & H & ->)%FeedField_Val.
  eapply (feed_list_items (λ k, m ← deref (cs !! k); CommitMsg_Id m)) in H as (ds & Hds & ->).
  - exists ds. split; [done|]. cbn. by rewrite !app_assoc_str.
  - intros h' k. by destruct (cs !! k).
Qed.
Lemma feedTxIds_Val hs txs hs' :
  feedTxIds hs txs = Val hs' →
  ∃ ds, (tx_Id <$> txs = Some <$> ds) ∧
    hs' = Hasher (fed hs +:+ "<TxIds " +:+ items "TxId" ds +:+ ">").
Proof.
  unfold feedTxIds. intros (h & H & ->)%FeedField_Val.
  eapply (feed_list_items (λ tx, deref (tx_Id tx))) in H as (ds & Hds & ->).
  - exists ds. split; [|cbn; by rewrite !app_assoc_str].
    induction Hds as [|x d l ds Hx Hl IH]; [done|]. cbn. rewrite IH. f_equal. by apply deref_Val.
  - intros h' tx. by destruct (tx_Id tx).
Qed.

Ltac text_peel_all H :=
  repeat first
    [ apply FormatInt_field in H as [? H]
    | apply hex_field in H as [? H]
    | apply items_field in H as [? H]
    | progress (injection H as H)
    | progress (rewrite ?app_assoc_str ?str_app_cons ?str_app_nil in H) ].

(** ** Consensus messages *)

(** Two prepare messages with the same id agree on the term, the height,
    the block id and the node, unless the two hashed texts are a SHA-256
    collision. *)
Theorem PrepareMsg_Id_binds (m m' : PrepareMsg) (d : Digest256) :
  PrepareMsg_Id m = Val d → PrepareMsg_Id m' = Val d →
  collides (λ hs, feedPrepareMsgFields hs "PrepareMsg" m)
           (λ hs, feedPrepareMsgFields hs "PrepareMsg" m') ∨
  (pm_Term m = pm_Term m' ∧ pm_Height m = pm_Height m' ∧ pm_BlockId m = pm_BlockId m' ∧
   pm_NodeId m = pm_NodeId m').
Proof.
  intros H1 H2. destruct (hash_of_same _ _ _ H1 H2) as [?|(hs & Hf & Hg)]; [by left|right].
  destruct m as [t h [b|] n s], m' as [t' h' [b'|] n' s']; try done.
  cbn in Hf, Hg |- *. injection Hf as <-. injection Hg as H. symmetry in H.
  text_norm H. text_peel H. by subst.
Qed.

(** A prepare message and a commit message never have the same id, unless
    their serialisations are a SHA-256 collision: a signature on one cannot pass
    for the other. *)
Theorem PrepareMsg_CommitMsg_Id (p : PrepareMsg) (c : CommitMsg) :
  (∀ d, PrepareMsg_Id p = Val d → CommitMsg_Id c ≠ Val d) ∨
  collides (λ hs, feedPrepareMsgFields hs "PrepareMsg" p)
           (λ hs, feedCommitMsgFields hs "CommitMsg" c).
Proof.
  destruct (PrepareMsg_Id p) as [d|f] eqn:H1; [|by left].
  destruct (CommitMsg_Id c) as [d'|f] eqn:H2; [|by left].
  destruct (decide (d = d')) as [<-|Hne]; [right|left; congruence].
  destruct (hash_of_same _ _ _ H1 H2) as [?|(hs & Hf & Hg)]; [done|exfalso].
  destruct p as [t h [b|] n s], c as [t' h' [b'|] n' s']; try done.
  cbn in Hf, Hg. injection Hf as <-. injection Hg as H. text_norm H. discriminate H.
Qed.

(** Two votes with the same id agree on the term, the node and the id of
    the votie; and two voties with the same id agree on the term, the height,
    the block id and the ids of the prepares and commits they carry. *)
Theorem Vote_Id_binds (v v' : Vote) (d : Digest256) :
  Vote_Id v = Val d → Vote_Id v' = Val d →
  collides (λ hs, feedVoteFields hs "Vote" v) (λ hs, feedVoteFields hs "Vote" v') ∨
  (v_Term v = v_Term v' ∧ v_NodeId v = v_NodeId v' ∧
   ∃ i, Votie_Id (v_Votie v) = Val i ∧ Votie_Id (v_Votie v') = Val i).
Proof.
  intros H1 H2. destruct (hash_of_same _ _ _ H1 H2) as [?|(hs & Hf & Hg)]; [by left|right].
  unfold feedVoteFields in Hf, Hg.
  apply FeedField_Val in Hf as (h & Hf & ->). apply FeedField_Val in Hg as (h' & Hg & H).
  apply pan_bind_Val in Hf as (i & Hi & (h1 & (? & [= <-] & ->)%FeedDigestField_Val & [= <-])%pan_bind_Val).
  apply pan_bind_Val in Hg as (j & Hj & (h2 & (? & [= <-] & ->)%FeedDigestField_Val & [= <-])%pan_bind_Val).
  injection H as H. cbn in H. text_norm H. text_peel H. subst. eauto.
Qed.

Theorem Votie_Id_binds (v v' : option Votie) (d : Digest256) :
  Votie_Id v = Val d → Votie_Id v' = Val d →
  collides (λ hs, feedVotieFields hs "Votie" v) (λ hs, feedVotieFields hs "Votie" v') ∨
  (∃ x x', v = Some x ∧ v' = Some x' ∧ vi_Term x = vi_Term x' ∧ vi_Height x = vi_Height x' ∧
     (b_Id <$> vi_Block x) = (b_Id <$> vi_Block x') ∧
     (∃ ps, prepare_ids (vi_Prepares x) ps ∧ prepare_ids (vi_Prepares x') ps) ∧
     (∃ cs, commit_ids (vi_Commits x) cs ∧ commit_ids (vi_Commits x') cs)).
Proof.
  intros H1 H2. destruct (hash_of_same _ _ _ H1 H2) as [?|(hs & Hf & Hg)]; [by left|right].
  unfold feedVotieFields in Hf, Hg.
  apply FeedField_Val in Hf as (h & Hf & ->). apply FeedField_Val in Hg as (h' & Hg & H).
  destruct v as [x|], v' as [x'|]; try done. cbn in Hf, Hg.
  destruct (vi_Block x) as [b|] eqn:Eb, (vi_Block x') as [b'|] eqn:Eb'; try done. cbn in Hf, Hg.
  apply pan_bind_Val in Hf as (h1 & (i & Hi & ->)%FeedDigestField_Val
    & (h2 & (ps & Hps & ->)%feedPrepareIds_Val & (cs & Hcs & ->)%feedCommitIds_Val)%pan_bind_Val).
  apply pan_bind_Val in Hg as (h3 & (j & Hj & ->)%FeedDigestField_Val
    & (h4 & (ps' & Hps' & ->)%feedPrepareIds_Val & (cs' & Hcs' & ->)%feedCommitIds_Val)%pan_bind_Val).
  injection H as H. cbn in H. text_norm H. text_peel_all H. subst.
  exists x, x'. rewrite Eb Eb' /= Hi Hj. split_and!; eauto.
Qed.

(** ** Blocks *)

#[local] Arguments FeedDigestField : simpl never.

Definition has_txs (b : Block) : Prop := b_Type b = TXS ∨ b_Type b = BCH.

Definition block_rest (b : Block) (r : string) : Prop :=
  match b_Type b with
  | TXS => ∃ ds, tx_Id <$> b_Txs b = Some <$> ds ∧ r = "<TxIds " +:+ items "TxId" ds +:+ ">>"
  | BCH => ∃ ds i, tx_Id <$> b_Txs b = Some <$> ds ∧ BchBlockHeader_Id (b_BchBlockHeader b) = Val i ∧
             r = "<TxIds " +:+ items "TxId" ds +:+ ">" +:+ items "BchBlockHeader" [i] +:+ ">"
  | RECONFIG => ∃ i, Reconfig_Id (b_Reconfig b) = Val i ∧ r = items "ReconfigId" [i] +:+ ">"
  | GENESIS => r = ">"
  | _ => False
  end.

Lemma feedBlockFields_Val b hs :
  feedBlockFields NewHasher256 "Block" b = Val hs →
  ∃ r, block_rest b r ∧
    ((b_Type b = GENESIS ∧
      fed hs = "<Block <TimestampMs " +:+ FormatInt (b_TimestampMs b) +:+ "><Type GENESIS>" +:+ r) ∨
     ∃ p, b_Type b ≠ GENESIS ∧ b_PrevBlockId b = Some p ∧
      fed hs = "<Block <TimestampMs " +:+ FormatInt (b_TimestampMs b) +:+ ">" +:+
               items "PreviousBlockId" [p] +:+
               "<Type " +:+ Block_Type_String (b_Type b) +:+ ">" +:+ r).
Proof.
  unfold feedBlockFields, IsGenesis, block_rest. intros (h & H & ->)%FeedField_Val.
  destruct (b_Type b) eqn:Et; cbn in H.
  all: apply pan_bind_Val in H as (h1 & H1 & H); try done.
  1: { injection H1 as <-. injection H as <-. exists ">". split; [done|]. left. split; [done|].
       cbn. by rewrite !app_assoc_str. }
  all: apply FeedDigestField_Val in H1 as (p & Hp & ->).
  - apply feedTxIds_Val in H as (ds & Hds & ->). eexists. split; [by eauto|].
    right. exists p. split_and!; [done|done|]. cbn. by rewrite !app_assoc_str.
  - apply pan_bind_Val in H as (h2 & (ds & Hds & ->)%feedTxIds_Val & H).
    apply pan_bind_Val in H as (i & Hi & (? & [= <-] & ->)%FeedDigestField_Val).
    eexists. split; [by eauto|].
    right. exists p. split_and!; [done|done|]. cbn. by rewrite !app_assoc_str.
  - apply pan_bind_Val in H as (i & Hi & (? & [= <-] & ->)%FeedDigestField_Val).
    eexists. split; [by eauto|].
    right. exists p. split_and!; [done|done|]. cbn. by rewrite !app_assoc_str.
Qed.

Lemma block_rest_same b b' r :
  b_Type b = b_Type b' → block_rest b r → block_rest b' r →
  (has_txs b → tx_Id <$> b_Txs b = tx_Id <$> b_Txs b') ∧
  (b_Type b = BCH → BchBlockHeader_Id (b_BchBlockHeader b) = BchBlockHeader_Id (b_BchBlockHeader b')) ∧
  (b_Type b = RECONFIG → Reconfig_Id (b_Reconfig b) = Reconfig_Id (b_Reconfig b')).
Proof.
  unfold has_txs, block_rest. intros <-. destruct (b_Type b); try done.
  - intros _ _. split_and!; naive_solver.
  - intros (ds & Hds & ->) (ds' & Hds' & H). text_norm H. text_peel_all H. subst.
    split_and!; [congruence|done|done].
  - intros (ds & i & Hds & Hi & ->) (ds' & j & Hds' & Hj & H). text_norm H. text_peel_all H. subst.
    split_and!; [congruence|congruence|done].
  - intros (i & Hi & ->) (j & Hj & H). text_norm H. text_peel_all H. subst.
    split_and!; [naive_solver|done|congruence].
Qed.

(** C37. The block id binds the header of a block and, through the ids, its
    transactions: two blocks with the same hash agree on the time stamp, the
    type, the previous block (genesis blocks have none), and the ids of the
    transactions, of the BCH header and of the reconfiguration, unless the two
    hashed texts are a SHA-256 collision. *)
Theorem Block_hash_binds (b b' : Block) (d : Digest256) :
  Block_hash b = Val d → Block_hash b' = Val d →
  collides (λ hs, feedBlockFields hs "Block" b) (λ hs, feedBlockFields hs "Block" b') ∨
  (b_TimestampMs b = b_TimestampMs b' ∧ b_Type b = b_Type b' ∧
   (b_Type b ≠ GENESIS → b_PrevBlockId b = b_PrevBlockId b') ∧
   (has_txs b → tx_Id <$> b_Txs b = tx_Id <$> b_Txs b') ∧
   (b_Type b = BCH → BchBlockHeader_Id (b_BchBlockHeader b) = BchBlockHeader_Id (b_BchBlockHeader b')) ∧
   (b_Type b = RECONFIG → Reconfig_Id (b_Reconfig b) = Reconfig_Id (b_Reconfig b'))).
Proof.
  intros H1 H2. destruct (hash_of_same _ _ _ H1 H2) as [?|(hs & Hf & Hg)]; [by left|right].
  apply feedBlockFields_Val in Hf as (r & Hr & Hf), Hg as (r' & Hr' & Hg).
  assert (b_TimestampMs b = b_TimestampMs b' ∧ b_Type b = b_Type b' ∧ r = r' ∧
          (b_Type b ≠ GENESIS → b_PrevBlockId b = b_PrevBlockId b')) as (? & Ht & <- & ?).
  { destruct Hf as [[Ht Hf]|(p & Ht & Hp & Hf)], Hg as [[Ht' Hg]|(p' & Ht' & Hp' & Hg)];
      rewrite Hf in Hg; cbn in Hg; text_norm Hg; text_peel_all Hg; try discriminate Hg.
    - rewrite Ht Ht'. split_and!; naive_solver.
    - subst p'. unfold block_rest in *.
      destruct (b_Type b) eqn:E1, (b_Type b') eqn:E2; try done; cbn in Hg; text_peel_all Hg; try done;
        split_and!; congruence. }
  do 3 (split; [done|]). by eapply block_rest_same.
Qed.

(** Two map iteration orders give the same hash: the keys are sorted first. *)
Lemma sorted_keys_range {V} (o : order) n (m : gmap Z V) :
  Int32s (range o n m).*1 false = sorted_keys m.
Proof. apply Int32s_perm. unfold range. by rewrite ord_perm. Qed.

(** ** What the ids leave out *)

(** The id of a reconfiguration, and so the id of its block, ignores the
    public key of the joining node and the vote it carries: whatever key is
    put in the block, the block id is the same. *)
Theorem Reconfig_block_id_ignores_Pubkey (b : Block) (r : Reconfig) (pubkey : string)
    (vote : option Vote) :
  b_Reconfig b = Some r →
  Block_hash b =
  Block_hash (MkBlock (b_TimestampMs b) (b_PrevBlockId b) (b_Type b) (b_Txs b) (b_BchBlockHeader b)
    (Some (MkReconfig (rc_Type r) (rc_Host r) (rc_NodeId r) pubkey vote)) (b_Id b)).
Proof.
  intros Hr. unfold Block_hash, hash_of, feedBlockFields, IsGenesis, Reconfig_Id, hash_of.
  cbn [b_TimestampMs b_PrevBlockId b_Type b_Txs b_BchBlockHeader b_Reconfig]. by rewrite Hr.
Qed.

(** Text fields are not escaped: the boundary between the transaction id
    and the destination chain of a signing result is not bound by its id. *)
Theorem SignedResult_Id_ambiguous (code : CodeType) (nodeId term : Z) (a b c : string)
    (data : list bytes) (sig sig' : bytes) :
  SignedResult_Id {| sd_Code := code; sd_NodeId := nodeId; sd_TxId := a;
    sd_To := b +:+ "><To " +:+ c; sd_Term := term; sd_Data := data; sd_Sig := sig |} =
  SignedResult_Id {| sd_Code := code; sd_NodeId := nodeId; sd_TxId := a +:+ "><To " +:+ b;
    sd_To := c; sd_Term := term; sd_Data := data; sd_Sig := sig' |}.
Proof.
  unfold SignedResult_Id, hash_of, feedSignedResultFields, FeedField,
    FeedInt32Field, FeedInt64Field, FeedTextField, FeedText, Feed.
  cbn [fed sd_Code sd_NodeId sd_TxId sd_To sd_Term sd_Data].
  by rewrite !app_assoc_str !str_app_cons !str_app_nil.
Qed.
