(* ===== verification/ProtoOps.v ===== *)
(** * Operations on messages (src/proto/pbtypes_ext.go)

    Constructors and methods of transactions, blocks, block packs, votes and
    accusations, and the conversion of watched chain transactions. A method
    called through a nil pointer panics where the code dereferences it. The
    [Make...] functions sign the id of the message with the keystore, which may
    fail ([None]); [time.Now().Unix()] is the argument [now]. *)
From S2P Require Import Prelude.
From S2P Require Import GoLib.
From S2P Require Import Crypto.
From S2P Require Import Messages.
From S2P Require Import Feed.

(** ** Transactions *)

(** Both ids are refreshed before they are compared; the refreshed
    transactions are returned with the answer. *)
Definition Transaction_EqualTo (tx other : Transaction)
    : pan (bool * Transaction * Transaction) :=
  tx ← UpdateId tx;
  other ← UpdateId other;
  r ← EqualTo (tx_Id tx) (tx_Id other);
  mret (r, tx, other).

Fixpoint recharge_equal (l l' : list AddressInfo) : bool :=
  match l, l' with
  | r :: l, r' :: l' =>
      bool_decide (ai_Address r = ai_Address r') && (ai_Amount r =? ai_Amount r')
      && recharge_equal l l'
  | _, _ => true
  end.
Definition WatchedTxInfo_EqualTo (tx other : WatchedTxInfo) : bool :=
  bool_decide (wt_Txid tx = wt_Txid other) && (wt_Amount tx =? wt_Amount other)
  && bool_decide (wt_From tx = wt_From other) && bool_decide (wt_To tx = wt_To other)
  && Nat.eqb (length (wt_RechargeList tx)) (length (wt_RechargeList other))
  && recharge_equal (wt_RechargeList tx) (wt_RechargeList other).

Definition IsTransferTx (tx : WatchedTxInfo) : bool :=
  bool_decide (wt_From tx = wt_To tx) && String.prefix "TransferTx" (wt_Txid tx).
Definition IsDistributionTx (tx : WatchedTxInfo) : bool :=
  bool_decide (wt_From tx = wt_To tx) && String.prefix "DistributionTx" (wt_Txid tx).

(** ** Blocks *)
Definition IsPrevOf (header other : BchBlockHeader) : pan bool :=
  if bh_Height header +i32 1 =? bh_Height other then EqualTo (bh_BlockId header) (bh_PrevId other)
  else mret false.

Definition CreateTxsBlock (timestampMs : Z) (prevBlockId : option Digest256)
    (txs : list Transaction) : pan Block :=
  UpdateBlockId (MkBlock timestampMs prevBlockId TXS txs None None None).
Definition CreateJoinReconfigBlock (timestampMs : Z) (prevBlockId : option Digest256)
    (t : Reconfig_Type) (host : string) (nodeId : Z) (pubkey : string) (vote : option Vote)
    : pan Block :=
  UpdateBlockId (MkBlock timestampMs prevBlockId RECONFIG [] None
    (Some (MkReconfig t host nodeId pubkey vote)) None).
Definition CreateLeaveReconfigBlock (timestampMs : Z) (prevBlockId : option Digest256)
    (t : Reconfig_Type) (nodeId : Z) : pan Block :=
  UpdateBlockId (MkBlock timestampMs prevBlockId RECONFIG [] None
    (Some (MkReconfig t "" nodeId "" None)) None).
Definition CreateBchBlock (timestampMs : Z) (prevBlockId : option Digest256)
    (txs : list Transaction) (header : option BchBlockHeader) : pan Block :=
  UpdateBlockId (MkBlock timestampMs prevBlockId BCH txs header None None).

Definition Block_IsTxsBlock (b : Block) : bool := bool_decide (b_Type b = TXS).
Definition Block_IsBchBlock (b : Block) : bool := bool_decide (b_Type b = BCH).
Definition Block_IsReconfig (b : Block) : bool := bool_decide (b_Type b = RECONFIG).

(** ** BlockInfo *)
Definition NewBlockInfoFull (term height : Z) (block : option Block) : pan BlockInfo :=
  _ ← assert_true (0 <=? term);
  _ ← assert_true (0 <=? height);
  b ← deref block;
  mret {| bi_Term := term; bi_Height := height; bi_BlockId := b_Id b; bi_Block := Some b |}.
Definition NewBlockInfoLite (term height : Z) (blockId : option Digest256) : pan BlockInfo :=
  _ ← assert_true (0 <=? term);
  _ ← assert_true (0 <=? height);
  _ ← assert_true (bool_decide (is_Some blockId));
  mret {| bi_Term := term; bi_Height := height; bi_BlockId := blockId; bi_Block := None |}.

(** ** BlockPack *)
Definition NewBlockPack (init : option InitMsg) : pan BlockPack :=
  _ ← assert_true (bool_decide (is_Some init));
  mret {| bp_Init := init; bp_Prepares := ∅; bp_Commits := ∅ |}.
Definition bp_Term (bp : BlockPack) : pan Z := i ← deref (bp_Init bp); mret (im_Term i).
Definition bp_Height (bp : BlockPack) : pan Z := i ← deref (bp_Init bp); mret (im_Height i).
Definition bp_Block (bp : BlockPack) : pan (option Block) :=
  i ← deref (bp_Init bp); mret (im_Block i).
Definition bp_BlockId (bp : BlockPack) : pan (option Digest256) :=
  b ← bp_Block bp; b ← deref b; mret (b_Id b).
Definition bp_TimestampMs (bp : BlockPack) : pan Z :=
  b ← bp_Block bp; b ← deref b; mret (b_TimestampMs b).
Definition bp_PrevBlockId (bp : BlockPack) : pan (option Digest256) :=
  b ← bp_Block bp; b ← deref b; mret (b_PrevBlockId b).
Definition bp_BlockInfo (bp : BlockPack) : pan BlockInfo :=
  t ← bp_Term bp; h ← bp_Height bp; b ← bp_Block bp; NewBlockInfoFull t h b.
Definition IsTxsBlock (bp : BlockPack) : pan bool :=
  b ← bp_Block bp; b ← deref b; mret (Block_IsTxsBlock b).
Definition IsBchBlock (bp : BlockPack) : pan bool :=
  b ← bp_Block bp; b ← deref b; mret (Block_IsBchBlock b).
Definition IsReconfigBlock (bp : BlockPack) : pan bool :=
  b ← bp_Block bp; b ← deref b; mret (Block_IsReconfig b).

Definition less_term_height (t h t' h' : Z) : bool :=
  (t <? t') || ((t =? t') && (h <? h')).
Definition BlockPack_HasLessTermHeightThan (bp other : BlockPack) : pan bool :=
  t ← bp_Term bp; h ← bp_Height bp; t' ← bp_Term other; h' ← bp_Height other;
  mret (less_term_height t h t' h').
Definition BlockIdEqualTo (bp other : BlockPack) : pan bool :=
  i ← bp_BlockId bp; i' ← bp_BlockId other; EqualTo i i'.
Definition ToVotie (bp : BlockPack) : pan Votie :=
  t ← bp_Term bp; h ← bp_Height bp; b ← bp_Block bp;
  mret (MkVotie t h b (bp_Prepares bp) (bp_Commits bp)).

(** The genesis block (src/primitives/genesis.go). *)
Definition GenesisBlockPack : pan BlockPack :=
  b ← UpdateBlockId (MkBlock 1534766888 None GENESIS [] None None None);
  NewBlockPack (Some {| im_Term := 0; im_Height := 0; im_Block := Some b; im_NodeId := 0;
                        im_Sig := ""; im_Votes := ∅ |}).

(** ** Voties and votes *)
Definition Votie_HasLessTermHeightThan (v other : Votie) : bool :=
  less_term_height (vi_Term v) (vi_Height v) (vi_Term other) (vi_Height other).

(** The loop over the votes, in the order of the iteration. *)
Definition max_votie_step (rst : option Votie) (vote : Vote) : pan (option Votie) :=
  match rst with
  | None => mret (v_Votie vote)
  | Some r =>
      w ← deref (v_Votie vote);
      if Votie_HasLessTermHeightThan r w then mret (Some w) else mret (Some r)
  end.
Fixpoint max_votie (rst : option Votie) (votes : list Vote) : pan (option Votie) :=
  match votes with
  | [] => mret rst
  | v :: l => r ← max_votie_step rst v; max_votie r l
  end.
Definition GetMaxVotie (o : order) (votes : gmap Z Vote) : pan (option Votie) :=
  max_votie None (range o 0 votes).*2.

Section Make.
Context `{Signatures}.

Definition signed (signer : SecureSigner) (id : pan Digest256) : pan (option bytes) :=
  i ← id; mret (Sign signer (Data i)).

Definition MakeVote (term : Z) (votie : option Votie) (nodeId : Z) (signer : SecureSigner)
    : pan (option Vote) :=
  sig ← signed signer (Vote_Id (MkVote term votie nodeId ""));
  mret (option_map (MkVote term votie nodeId) sig).

Definition MakePrepareMsg (blockInfo : BlockInfo) (nodeId : Z) (signer : SecureSigner)
    : pan (option PrepareMsg) :=
  let msg sig := {| pm_Term := bi_Term blockInfo; pm_Height := bi_Height blockInfo;
    pm_BlockId := bi_BlockId blockInfo; pm_NodeId := nodeId; pm_Sig := sig |} in
  sig ← signed signer (PrepareMsg_Id (msg ""));
  mret (option_map msg sig).

Definition MakeCommitMsg (blockInfo : BlockInfo) (nodeId : Z) (signer : SecureSigner)
    : pan (option CommitMsg) :=
  let msg sig := {| cm_Term := bi_Term blockInfo; cm_Height := bi_Height blockInfo;
    cm_BlockId := bi_BlockId blockInfo; cm_NodeId := nodeId; cm_Sig := sig |} in
  sig ← signed signer (CommitMsg_Id (msg ""));
  mret (option_map msg sig).

Definition MakeWeakAccuse (now : Z) (term nodeId : Z) (signer : SecureSigner)
    : pan (option WeakAccuse) :=
  let msg sig := {| wa_Term := term; wa_NodeId := nodeId; wa_Sig := sig; wa_Time := now |} in
  sig ← signed signer (WeakAccuse_Id (msg ""));
  mret (option_map msg sig).

Definition MakeSignedResult (code : CodeType) (nodeId : Z) (txId : string) (data : list bytes)
    (to : string) (term : Z) (signer : SecureSigner) : pan (option SignedResult) :=
  let msg sig := {| sd_Code := code; sd_NodeId := nodeId; sd_TxId := txId; sd_To := to;
    sd_Term := term; sd_Data := data; sd_Sig := sig |} in
  sig ← signed signer (SignedResult_Id (msg ""));
  mret (option_map msg sig).

Definition MakeSignTxMsg (now : Z) (term nodeId : Z) (watchedTx : option WatchedTxInfo)
    (newlyTx : option NewlyTx) (multisigAddress : string) (signer : SecureSigner)
    : pan (option SignTxRequest) :=
  let msg sig := {| sr_Term := term; sr_NodeId := nodeId; sr_MultisigAddress := multisigAddress;
    sr_WatchedTx := watchedTx; sr_NewlyTx := newlyTx; sr_Sig := sig; sr_Time := now |} in
  sig ← signed signer (SignTxRequest_Id (msg ""));
  mret (option_map msg sig).

(** The node id is left at zero. *)
Definition MakeChainTxIdMsg (txId signMsgId : string) (signer : SecureSigner)
    : pan (option ChainTxIdMsg) :=
  let msg sig := {| ct_NodeId := 0; ct_TxId := txId; ct_SignMsgId := signMsgId;
    ct_Sig := sig |} in
  sig ← signed signer (ChainTxIdMsg_Id (msg ""));
  mret (option_map msg sig).

Definition MakeJoinRequest (host pubkey : string) (vote : option Vote) (signer : SecureSigner)
    : pan (option JoinRequest) :=
  let msg sig := {| jr_Host := host; jr_Pubkey := pubkey; jr_Vote := vote; jr_Sig := sig |} in
  sig ← signed signer (JoinRequest_Id (msg ""));
  mret (option_map msg sig).

Definition MakeLeaveRequest (nodeId : Z) (text : string) (signer : SecureSigner)
    : pan (option LeaveRequest) :=
  let msg sig := {| lr_NodeId := nodeId; lr_Msg := text; lr_Sig := sig |} in
  sig ← signed signer (LeaveRequest_Id (msg ""));
  mret (option_map msg sig).
End Make.

Definition MakeSignedStatistic (msgId : string) (nodeId : Z) (code : CodeType) : SignedStatistic :=
  {| ss_SignedMsgId := msgId; ss_Stat := {[ nodeId := code ]}; ss_Status := WAITING |}.
Definition MsgHash (msg : SignTxRequest) : pan string :=
  i ← SignTxRequest_Id msg; mret (AsMapKey i).

(** ** Accusations *)
Definition EmptyWeakAccuses : WeakAccuses := {| Accuses := ∅ |}.
Definition WeakAccuses_Size (wa : WeakAccuses) : Z := Z.of_nat (size (Accuses wa)).
Definition WeakAccuses_Get (wa : WeakAccuses) (nodeId : Z) : option WeakAccuse :=
  Accuses wa !! nodeId.
Definition WeakAccuses_Set (wa : WeakAccuses) (nodeId : Z) (weakAccuse : WeakAccuse)
    : WeakAccuses := {| Accuses := <[ nodeId := weakAccuse ]> (Accuses wa) |}.
Definition NewStrongAccuse (weakAccuses : gmap Z WeakAccuse) : StrongAccuse :=
  {| sa_WeakAccuses := weakAccuses |}.
(** The term of whichever entry the iteration meets first. *)
Definition StrongAccuse_Term (o : order) (sa : StrongAccuse) : pan Z :=
  match range o 1 (sa_WeakAccuses sa) with
  | (_, wa) :: _ => mret (wa_Term wa)
  | [] => Fault (ExplicitPanic "empty strong accuse")
  end.

(** ** Node lists *)
Definition GetPubkeys (nl : PbNodeList) : list string :=
  ni_Pubkey <$> filter (λ n, ni_IsNormal n = true) (nl_NodeList nl).

(** ** Watched chain transactions

    The fields that the conversion reads of [btcwatcher.SubTransaction] (signed
    amounts) and of [ethwatcher.ExtraBurnData] (unsigned 64-bit amounts). *)
Record SubTransaction := {
  st_ScTxid : string; st_Amount : Z; st_From : string; st_To : string;
  st_TokenFrom : Z; st_TokenTo : Z; st_RechargeList : list AddressInfo
}.

(** The amounts the loop writes out; [None] when it rejects an entry. *)
Fixpoint btc_recharge (leftAmount : Z) (l : list AddressInfo) : option (list AddressInfo) :=
  match l with
  | [] => Some []
  | a :: l' =>
      if ai_Amount a <=? 0 then None
      else
        let amount := if ai_Amount a >? leftAmount then leftAmount else ai_Amount a in
        let out := {| ai_Address := ai_Address a; ai_Amount := amount |} in
        let leftAmount := leftAmount -i64 ai_Amount a in
        if leftAmount <=? 0 then Some [out]
        else r ← btc_recharge leftAmount l'; Some (out :: r)
  end.

Definition watched_of (tx : SubTransaction) (amount : Z) (l : list AddressInfo) : WatchedTxInfo :=
  {| wt_Txid := st_ScTxid tx; wt_Amount := amount; wt_RechargeList := l; wt_From := st_From tx;
     wt_To := st_To tx; wt_Fee := 0; wt_TokenFrom := st_TokenFrom tx; wt_TokenTo := st_TokenTo tx |}.

Definition BtcToPbTx (tx : SubTransaction) : option WatchedTxInfo :=
  if st_Amount tx <=? 0 then None
  else match st_RechargeList tx with
  | [] => None
  | l => r ← btc_recharge (st_Amount tx) l; Some (watched_of tx (st_Amount tx) r)
  end.

Section Eth.
(** coinmanager.DecodeAddress(address, chain) succeeds. *)
Variable DecodeAddress : string → string → bool.

Fixpoint eth_recharge (to : string) (leftAmount : Z) (l : list AddressInfo)
    : option (list AddressInfo) :=
  match l with
  | [] => Some []
  | a :: l' =>
      if ai_Amount a <=? 0 then None
      else
        let amount := if ai_Amount a >? leftAmount then leftAmount else ai_Amount a in
        if negb (DecodeAddress (ai_Address a) to) then None
        else
          let out := {| ai_Address := ai_Address a; ai_Amount := wrap64 amount |} in
          let leftAmount := leftAmount -u64 ai_Amount a in
          if leftAmount <=? 0 then Some [out]
          else r ← eth_recharge to leftAmount l'; Some (out :: r)
  end.

Definition EthToPbTx (tx : SubTransaction) : option WatchedTxInfo :=
  if st_Amount tx <=? 0 then None
  else match st_RechargeList tx with
  | [] => None
  | l => r ← eth_recharge (st_To tx) (st_Amount tx) l;
         Some (watched_of tx (wrap64 (st_Amount tx)) r)
  end.
End Eth.

(** * Lemmas and theorems *)

(** The order of (term, height) pairs. *)
Lemma less_term_height_spec t h t' h' :
  less_term_height t h t' h' = true ↔ t < t' ∨ (t = t' ∧ h < h').
Proof. unfold less_term_height. rewrite orb_true_iff andb_true_iff !Z.ltb_lt Z.eqb_eq. done. Qed.
Lemma less_term_height_trans t1 h1 t2 h2 t3 h3 :
  less_term_height t1 h1 t2 h2 = true → less_term_height t2 h2 t3 h3 = true →
  less_term_height t1 h1 t3 h3 = true.
Proof. rewrite !less_term_height_spec. lia. Qed.
Lemma less_term_height_false t h t' h' :
  less_term_height t h t' h' = false ↔ ¬ (t < t' ∨ (t = t' ∧ h < h')).
Proof. rewrite -less_term_height_spec. by destruct less_term_height. Qed.

Definition votie_le (v w : Votie) : Prop := Votie_HasLessTermHeightThan w v = false.

Lemma votie_le_refl v : votie_le v v.
Proof. apply less_term_height_false. lia. Qed.
Lemma votie_le_trans u v w : votie_le u v → votie_le v w → votie_le u w.
Proof. unfold votie_le, Votie_HasLessTermHeightThan. rewrite !less_term_height_false. lia. Qed.

Lemma max_votie_spec l r :
  Forall (λ v, is_Some (v_Votie v)) l →
  ∃ m, max_votie (Some r) l = Val (Some m) ∧ votie_le r m ∧
    (m = r ∨ Some m ∈ v_Votie <$> l) ∧ ∀ v w, v ∈ l → v_Votie v = Some w → votie_le w m.
Proof.
  revert r. induction l as [|v l IH]; intros r Hl.
  { exists r. split_and!; [done|apply votie_le_refl|by left|]. set_solver. }
  apply Forall_cons in Hl as [[w Hw] Hl]. cbn. rewrite Hw /=.
  destruct (Votie_HasLessTermHeightThan r w) eqn:E; cbn.
  - destruct (IH w Hl) as (m & Hm & Hle & Hin & Hmax). exists m. split_and!; [done| | |].
    + eapply votie_le_trans; [|done]. unfold votie_le, Votie_HasLessTermHeightThan in *.
      rewrite less_term_height_spec in E. rewrite less_term_height_false. lia.
    + right. destruct Hin as [->|?]; [left|by right].
    + intros v' w' [->|Hv']%elem_of_cons Hw'; [by simplify_eq|eauto].
  - destruct (IH r Hl) as (m & Hm & Hle & Hin & Hmax). exists m. split_and!; [done|done| |].
    + destruct Hin as [->|?]; [by left|right; by right].
    + intros v' w' [->|Hv']%elem_of_cons Hw'; [|eauto]. simplify_eq.
      by eapply votie_le_trans.
Qed.

(** [GetMaxVotie] on votes that all carry a votie: nothing on the empty
    map; otherwise one of the voties, and no votie is above it in the order of
    (term, height), in whatever order the map is iterated. *)
Lemma GetMaxVotie_max (o : order) (votes : gmap Z Vote) :
  map_Forall (λ _ v, is_Some (v_Votie v)) votes →
  (votes = ∅ ∧ GetMaxVotie o votes = Val None) ∨
  ∃ k v m, votes !! k = Some v ∧ v_Votie v = Some m ∧ GetMaxVotie o votes = Val (Some m) ∧
    ∀ k' v' w, votes !! k' = Some v' → v_Votie v' = Some w → votie_le w m.
Proof.
  intros Hs. unfold GetMaxVotie.
  assert (∀ v, v ∈ (range o 0 votes).*2 → ∃ k, votes !! k = Some v) as Hin.
  { intros v ([k v'] & -> & Hk)%list_elem_of_fmap. exists k. by apply elem_of_range in Hk. }
  assert (∀ k v, votes !! k = Some v → v ∈ (range o 0 votes).*2) as Hin'.
  { intros k v Hk. apply list_elem_of_fmap. exists (k, v). by rewrite elem_of_range. }
  destruct (range o 0 votes).*2 as [|v0 l] eqn:El.
  { left. split; [|done]. by apply fmap_nil_inv, range_nil in El. }
  right. destruct (Hin v0) as [k0 Hk0]; [left|]. destruct (Hs _ _ Hk0) as [m0 Hm0].
  cbn. rewrite Hm0. destruct (max_votie_spec l m0) as (m & Hm & Hle & Hor & Hmax).
  { apply Forall_forall. intros v Hv. destruct (Hin v) as [k Hk]; [by right|]. eapply Hs, Hk. }
  assert (∃ k v, votes !! k = Some v ∧ v_Votie v = Some m) as (k & v & Hk & Hv).
  { destruct Hor as [->|(v & Hv & Hvl)%list_elem_of_fmap]; [by eauto|].
    destruct (Hin v) as [k Hk]; [by right|]. eauto. }
  exists k, v, m. split_and!; [done|done|done|].
  intros k' v' w Hk' Hw. apply Hin', elem_of_cons in Hk' as [->|?]; [|by eauto].
  rewrite Hm0 in Hw. by injection Hw as <-.
Qed.

(** ** Watched transactions *)
Lemma recharge_equal_spec l l' :
  length l = length l' → recharge_equal l l' = true ↔ l = l'.
Proof.
  revert l'. induction l as [|[a n] l IH]; intros [|[a' n'] l'] Hl; cbn in Hl |- *; try done.
  rewrite !andb_true_iff bool_decide_eq_true Z.eqb_eq (IH l'); [|lia]. naive_solver.
Qed.

(** [WatchedTxInfo.EqualTo] decides equality of the five compared fields
    (the fee and the token numbers are not compared). *)
Lemma WatchedTxInfo_EqualTo_spec (tx other : WatchedTxInfo) :
  WatchedTxInfo_EqualTo tx other = true ↔
  wt_Txid tx = wt_Txid other ∧ wt_Amount tx = wt_Amount other ∧ wt_From tx = wt_From other ∧
  wt_To tx = wt_To other ∧ wt_RechargeList tx = wt_RechargeList other.
Proof.
  unfold WatchedTxInfo_EqualTo. rewrite !andb_true_iff !bool_decide_eq_true Z.eqb_eq Nat.eqb_eq.
  split.
  - intros [[[[[? ?] ?] ?] Hl] Hr]. apply recharge_equal_spec in Hr; auto.
  - intros (? & ? & ? & ? & Hr). rewrite Hr. split_and!; try done. by apply recharge_equal_spec.
Qed.

Definition amounts (l : list AddressInfo) : Z := foldr (λ a s, ai_Amount a + s) 0 l.

Lemma btc_recharge_bound left l r :
  0 < left → i64 left → Forall (λ a, i64 (ai_Amount a)) l → btc_recharge left l = Some r →
  amounts r ≤ left ∧ Forall (λ a, 0 < ai_Amount a) r ∧
  ai_Address <$> r = take (length r) (ai_Address <$> l).
Proof.
  revert left r. induction l as [|a l IH]; intros left r Hpos Hl Hi H; cbn in H.
  { injection H as <-. cbn. split_and!; [lia|constructor|done]. }
  apply Forall_cons in Hi as [Ha Hi]. unfold i64 in Hl, Ha.
  destruct (ai_Amount a <=? 0) eqn:E1; to_prop; [done|].
  rewrite wrap64_small in H; [|unfold i64; lia].
  destruct (left - ai_Amount a <=? 0) eqn:E2; to_prop.
  - injection H as <-. cbn. destruct (ai_Amount a >? left) eqn:E3; to_prop.
    all: split_and!; [lia| |done]. all: constructor; [cbn; lia|constructor].
  - apply bind_Some in H as (r' & Hr & [= <-]).
    apply IH in Hr as (? & ? & Ht); [|lia|unfold i64; lia|done]. cbn [amounts foldr fmap list_fmap].
    destruct (ai_Amount a >? left) eqn:E3; to_prop; [lia|]. cbn. rewrite -/amounts Ht.
    split_and!; [|constructor; cbn; [lia|done]|done]. fold (amounts r'). lia.
Qed.

(** C40. The amounts that [BtcToPbTx] accepts cannot exceed the amount of the
    watched transaction: every output is positive, their sum is bounded by the
    input amount, and the addresses are those of the first entries. *)
Theorem BtcToPbTx_outputs_bounded (tx : SubTransaction) (w : WatchedTxInfo) :
  i64 (st_Amount tx) → Forall (λ a, i64 (ai_Amount a)) (st_RechargeList tx) →
  BtcToPbTx tx = Some w →
  wt_Amount w = st_Amount tx ∧ amounts (wt_RechargeList w) ≤ wt_Amount w ∧
  Forall (λ a, 0 < ai_Amount a) (wt_RechargeList w) ∧
  ai_Address <$> wt_RechargeList w =
    take (length (wt_RechargeList w)) (ai_Address <$> st_RechargeList tx).
Proof.
  intros Hi Hl H. unfold BtcToPbTx in H.
  destruct (st_Amount tx <=? 0) eqn:E; to_prop; [done|].
  destruct (st_RechargeList tx) as [|a l] eqn:El; [done|].
  apply bind_Some in H as (r & Hr & [= <-]). cbn [wt_Amount wt_RechargeList watched_of].
  split; [done|]. by apply btc_recharge_bound.
Qed.

(** [EthToPbTx] subtracts unsigned amounts, so the same correction fails:
    when the first of two outputs asks for more than the transaction burned,
    the remaining amount wraps around and the second output is accepted in
    full on top of it. *)
Theorem EthToPbTx_overspends (DecodeAddress : string → string → bool) (tx : SubTransaction)
    (a b : AddressInfo) :
  st_RechargeList tx = [a; b] → 0 < st_Amount tx < ai_Amount a → ai_Amount a < 2^63 →
  0 < ai_Amount b < 2^63 →
  DecodeAddress (ai_Address a) (st_To tx) = true → DecodeAddress (ai_Address b) (st_To tx) = true →
  ∃ w, EthToPbTx DecodeAddress tx = Some w ∧ wt_Amount w = st_Amount tx ∧
    amounts (wt_RechargeList w) = wt_Amount w + ai_Amount b.
Proof.
  intros El Ht Ha Hb Hda Hdb. unfold EthToPbTx.
  assert (∀ z, 0 < z → (z <=? 0) = false) as Hle by (intros; by apply Z.leb_gt).
  rewrite El Hle; [|lia]. cbn [eth_recharge].
  rewrite (Hle (ai_Amount a)); [|lia]. rewrite (Hle (ai_Amount b)); [|lia]. rewrite Hda Hdb. cbn [negb].
  assert (st_Amount tx -u64 ai_Amount a = st_Amount tx - ai_Amount a + 2^64) as ->.
  { unfold uwrap64. symmetry. apply (Z.mod_unique_pos _ _ (-1)); lia. }
  rewrite Hle; [|lia].
  destruct (ai_Amount a >? st_Amount tx) eqn:E1; to_prop; [|lia].
  destruct (ai_Amount b >? _) eqn:E2; to_prop; [lia|].
  rewrite !wrap64_small; [|unfold i64; lia..].
  destruct (_ <=? 0); eexists; (split; [reflexivity|]); cbn; split; lia.
Qed.
