(* ===== verification/Cluster.v ===== *)
(** * The node list and its quorums (src/cluster/params.go, cluster.go)

    The package's global variables are one record, [Cluster]. [int] is 64 bits
    wide and counts list entries, so it is a plain [Z]; the conversions to
    [int32] are written out. The configuration file (viper) is a parameter. *)
From S2P Require Import Prelude.
From S2P Require Import GoLib.
From S2P Require Import Crypto.
From S2P Require Import Messages.

(** ** Data *)
Record NodeInfo := {
  Id : Z; Name : string; Url : string; PublicKey : bytes; IsNormal : bool
}.
Definition zeroNodeInfo : NodeInfo :=
  {| Id := 0; Name := ""; Url := ""; PublicKey := ""; IsNormal := false |}.
Record MultiSigInfo := {
  BtcAddress : string; BtcRedeemScript : bytes; BchAddress : string; BchRedeemScript : bytes
}.
#[export] Instance NodeInfo_eq_dec : EqDecision NodeInfo.
Proof. solve_decision. Defined.
#[export] Instance MultiSigInfo_eq_dec : EqDecision MultiSigInfo.
Proof. solve_decision. Defined.
Record Snapshot := {
  sn_NodeList : list NodeInfo; sn_ClusterSize : Z; sn_TotalNodeCount : Z; sn_QuorumN : Z;
  sn_AccuseQuorumN : Z
}.
Record Cluster := {
  ClusterSize : Z; TotalNodeCount : Z; QuorumN : Z; AccuseQuorumN : Z; MaxFaultyN : Z;
  NodeList : list NodeInfo; ClusterSnapshot : option Snapshot;
  NodeSigners : gmap Z SecureSigner; MultiSigSnapshot : list MultiSigInfo;
  CurrMultiSig : MultiSigInfo; initNodeHeight : Z
}.
Definition emptyMultiSig : MultiSigInfo :=
  {| BtcAddress := ""; BtcRedeemScript := ""; BchAddress := ""; BchRedeemScript := "" |}.
(** The zero values the process starts with. *)
Definition zeroCluster : Cluster :=
  {| ClusterSize := 0; TotalNodeCount := 0; QuorumN := 0; AccuseQuorumN := 0; MaxFaultyN := 0;
     NodeList := []; ClusterSnapshot := None; NodeSigners := ∅; MultiSigSnapshot := [];
     CurrMultiSig := emptyMultiSig; initNodeHeight := 0 |}.

Inductive Mode : Type := ModeNormal | ModeJoin | ModeWatch | ModeTest.
#[export] Instance Mode_eq_dec : EqDecision Mode.
Proof. solve_decision. Defined.

Definition MultiSigInfo_Equal (ms other : MultiSigInfo) : bool :=
  bool_decide (BchAddress ms = BchAddress other)
  && bool_decide (BchRedeemScript ms = BchRedeemScript other)
  && bool_decide (BtcAddress ms = BtcAddress other)
  && bool_decide (BtcRedeemScript ms = BtcRedeemScript other).

(** The two formulas for the thresholds of a cluster of [n] nodes. *)
Definition faulty (n : Z) : Z := Z.quot (n - 1) 3.
Definition set_thresholds (c : Cluster) (quorum : Z → Z → Z) : Cluster :=
  let f := faulty (ClusterSize c) in
  {| ClusterSize := ClusterSize c; TotalNodeCount := TotalNodeCount c;
     QuorumN := quorum (ClusterSize c) f; AccuseQuorumN := f + 1; MaxFaultyN := f;
     NodeList := NodeList c; ClusterSnapshot := ClusterSnapshot c; NodeSigners := NodeSigners c;
     MultiSigSnapshot := MultiSigSnapshot c; CurrMultiSig := CurrMultiSig c;
     initNodeHeight := initNodeHeight c |}.
Definition quorum_minus (n f : Z) : Z := n - f.
Definition quorum_half (n f : Z) : Z := Z.quot (n + f) 2 + 1.

(** The node list, the signers and the two counters change together. *)
Definition set_nodes (c : Cluster) (l : list NodeInfo) (signers : gmap Z SecureSigner)
    (size total : Z) : Cluster :=
  {| ClusterSize := size; TotalNodeCount := total; QuorumN := QuorumN c;
     AccuseQuorumN := AccuseQuorumN c; MaxFaultyN := MaxFaultyN c; NodeList := l;
     ClusterSnapshot := ClusterSnapshot c; NodeSigners := signers;
     MultiSigSnapshot := MultiSigSnapshot c; CurrMultiSig := CurrMultiSig c;
     initNodeHeight := initNodeHeight c |}.
Definition set_snapshot (c : Cluster) (s : option Snapshot) : Cluster :=
  {| ClusterSize := ClusterSize c; TotalNodeCount := TotalNodeCount c; QuorumN := QuorumN c;
     AccuseQuorumN := AccuseQuorumN c; MaxFaultyN := MaxFaultyN c; NodeList := NodeList c;
     ClusterSnapshot := s; NodeSigners := NodeSigners c; MultiSigSnapshot := MultiSigSnapshot c;
     CurrMultiSig := CurrMultiSig c; initNodeHeight := initNodeHeight c |}.
Definition set_multisigs (c : Cluster) (l : list MultiSigInfo) (cur : MultiSigInfo) : Cluster :=
  {| ClusterSize := ClusterSize c; TotalNodeCount := TotalNodeCount c; QuorumN := QuorumN c;
     AccuseQuorumN := AccuseQuorumN c; MaxFaultyN := MaxFaultyN c; NodeList := NodeList c;
     ClusterSnapshot := ClusterSnapshot c; NodeSigners := NodeSigners c; MultiSigSnapshot := l;
     CurrMultiSig := cur; initNodeHeight := initNodeHeight c |}.

(** ** Initialisation *)
Record Viper := {
  GetInt : string → Z; GetString : string → string; GetBool : string → bool
}.

Definition init_node (v : Viper) (i : Z) : pan (NodeInfo * SecureSigner) :=
  let hash := if i =? GetInt v "DGW.local_id" then GetString v "KEYSTORE.local_pubkey_hash" else "" in
  s ← NewSecureSigner (GetString v ("KEYSTORE.key_" +:+ FormatInt i)) hash;
  mret ({| Id := i; Name := "server" +:+ FormatInt i;
           Url := GetString v ("DGW.host_" +:+ FormatInt i); PublicKey := Pubkey s;
           IsNormal := GetBool v ("DGW.status_" +:+ FormatInt i) |}, s).
Fixpoint init_nodes (v : Viper) (ids : list Z) (c : Cluster) : pan Cluster :=
  match ids with
  | [] => mret c
  | i :: ids' =>
      '(n, s) ← init_node v i;
      init_nodes v ids' (set_nodes c (NodeList c ++ [n]) (<[wrap32 i := s]> (NodeSigners c))
                          (ClusterSize c) (TotalNodeCount c))
  end.
Definition Init (v : Viper) (c : Cluster) : pan Cluster :=
  let n := GetInt v "KEYSTORE.count" in
  c ← init_nodes v (seqZ 0 n) (set_nodes c [] ∅ (ClusterSize c) (TotalNodeCount c));
  mret (set_thresholds (set_nodes c (NodeList c) (NodeSigners c) n n) quorum_minus).

Fixpoint init_pb_nodes (i : Z) (l : list PbNodeInfo) (c : Cluster) : pan Cluster :=
  match l with
  | [] => mret c
  | node :: l' =>
      _ ← assert_true (wrap32 i =? ni_NodeId node);
      s ← NewSecureSigner (ni_Pubkey node) "";
      let n := {| Id := ni_NodeId node; Name := ni_Name node; Url := ni_Host node;
                  PublicKey := Pubkey s; IsNormal := ni_IsNormal node |} in
      init_pb_nodes (i + 1) l'
        (set_nodes c (NodeList c ++ [n]) (<[wrap32 i := s]> (NodeSigners c))
           (if ni_IsNormal node then ClusterSize c + 1 else ClusterSize c) (TotalNodeCount c))
  end.
(** The node list and the size are not reset first. *)
Definition InitWithNodeList (nodeList : PbNodeList) (c : Cluster) : pan Cluster :=
  c ← init_pb_nodes 0 (nl_NodeList nodeList)
        (set_nodes c (NodeList c) ∅ (ClusterSize c) (TotalNodeCount c));
  mret (set_thresholds (set_nodes c (NodeList c) (NodeSigners c) (ClusterSize c)
                          (Z.of_nat (length (nl_NodeList nodeList)))) quorum_minus).

(** ** Queries *)

(** [NodeList[idx]]. *)
Definition node_at (c : Cluster) (idx : Z) : pan NodeInfo :=
  if idx <? 0 then Fault IndexOutOfRange
  else match NodeList c !! Z.to_nat idx with Some n => Val n | None => Fault IndexOutOfRange end.

(** The loop of [LeaderNodeOfTerm]; [None] when the fuel ran out. *)
Fixpoint leader_loop (fuel : nat) (c : Cluster) (idx : Z) : option (pan Z) :=
  match fuel with
  | O => None
  | S fuel' =>
      match node_at c idx with
      | Fault f => Some (Fault f)
      | Val n =>
          if IsNormal n then Some (Val idx)
          else if wrap32 (TotalNodeCount c) =? 0 then Some (Fault DivideByZero)
          else leader_loop fuel' c (Z.rem (idx +i32 1) (wrap32 (TotalNodeCount c)))
      end
  end.
(** The fuel covers the list once; [LeaderNodeOfTerm_total] and
    [LeaderNodeOfTerm_loops] show that this is enough. *)
Definition LeaderNodeOfTerm (c : Cluster) (term : Z) : pan Z :=
  if TotalNodeCount c =? 0 then Fault DivideByZero
  else default (Fault NeverReturns)
         (leader_loop (length (NodeList c)) c (wrap32 (Z.rem term (TotalNodeCount c)))).

Definition IsNodeExist (c : Cluster) (nodeId : Z) : bool :=
  existsb (λ n, Id n =? nodeId) (NodeList c).
Definition GetPubkeyList (c : Cluster) : list string :=
  (λ n, hex_encode (PublicKey n)) <$> filter (λ n, IsNormal n = true) (NodeList c).

(** ** Changes of the node list *)
Definition new_node (host : string) (nodeId : Z) (s : SecureSigner) : NodeInfo :=
  {| Id := nodeId; Name := "server" +:+ FormatInt nodeId; Url := host; PublicKey := Pubkey s;
     IsNormal := true |}.

Definition AddNode (host : string) (nodeId : Z) (pubkey pubkeyHash : string) (c : Cluster)
    : pan Cluster :=
  if negb (nodeId =? wrap32 (TotalNodeCount c)) then mret c
  else
    s ← NewSecureSigner pubkey pubkeyHash;
    mret (set_thresholds
            (set_nodes c (NodeList c ++ [new_node host nodeId s]) (<[nodeId := s]> (NodeSigners c))
               (ClusterSize c + 1) (TotalNodeCount c + 1)) quorum_minus).

Definition AddNodeInfo (nodeInfo : NodeInfo) (c : Cluster) : Cluster :=
  set_thresholds (set_nodes c (NodeList c ++ [nodeInfo]) (NodeSigners c)
                    (ClusterSize c + 1) (TotalNodeCount c + 1)) quorum_half.

Definition NewNodeInfo (host : string) (nodeId : Z) (pubkey pubkeyHash : string) (c : Cluster)
    : pan (NodeInfo * Cluster) :=
  if negb (nodeId =? wrap32 (TotalNodeCount c)) then mret (zeroNodeInfo, c)
  else
    s ← NewSecureSigner pubkey pubkeyHash;
    mret (new_node host nodeId s,
          set_nodes c (NodeList c) (<[nodeId := s]> (NodeSigners c)) (ClusterSize c)
            (TotalNodeCount c)).

Definition set_normal (b : bool) (n : NodeInfo) : NodeInfo :=
  {| Id := Id n; Name := Name n; Url := Url n; PublicKey := PublicKey n; IsNormal := b |}.
Definition mark (nodeId : Z) (b : bool) (l : list NodeInfo) : list NodeInfo :=
  alter (set_normal b) (Z.to_nat nodeId) l.

Definition DeleteNode (nodeId : Z) (c : Cluster) : pan Cluster :=
  if (nodeId >=? wrap32 (TotalNodeCount c)) || (nodeId <? 0) then mret c
  else
    n ← node_at c nodeId;
    if IsNormal n then
      mret (set_thresholds (set_nodes c (mark nodeId false (NodeList c)) (NodeSigners c)
                              (ClusterSize c - 1) (TotalNodeCount c)) quorum_minus)
    else mret c.

Definition DelSnapShot (c : Cluster) : Cluster := set_snapshot c None.

Definition RecoverNode (nodeId : Z) (c : Cluster) : pan Cluster :=
  if (nodeId >=? wrap32 (TotalNodeCount c)) || (nodeId <? 0) then mret c
  else
    _ ← node_at c nodeId;
    mret (DelSnapShot
            (set_thresholds (set_nodes c (mark nodeId true (NodeList c)) (NodeSigners c)
                               (ClusterSize c + 1) (TotalNodeCount c)) quorum_minus)).

(** ** Snapshots and multi-signature addresses *)
Definition GetSnapshot (c : Cluster) : Snapshot :=
  {| sn_NodeList := NodeList c; sn_ClusterSize := ClusterSize c;
     sn_TotalNodeCount := TotalNodeCount c; sn_QuorumN := QuorumN c;
     sn_AccuseQuorumN := AccuseQuorumN c |}.
Definition CreateSnapShot (c : Cluster) : Cluster := set_snapshot c (Some (GetSnapshot c)).

Definition AddMultiSigInfo (multiSig : MultiSigInfo) (c : Cluster) : Cluster :=
  match last (MultiSigSnapshot c) with
  | Some l =>
      if MultiSigInfo_Equal l multiSig then c
      else set_multisigs c (MultiSigSnapshot c ++ [multiSig]) (CurrMultiSig c)
  | None => set_multisigs c (MultiSigSnapshot c ++ [multiSig]) (CurrMultiSig c)
  end.
Definition SetMultiSigSnapshot (snapshot : list MultiSigInfo) (c : Cluster) : Cluster :=
  set_multisigs c snapshot (CurrMultiSig c).
Definition SetCurrMultiSig (multiSig : MultiSigInfo) (c : Cluster) : Cluster :=
  set_multisigs c (MultiSigSnapshot c) multiSig.
Definition GetLatestSigInfo (c : Cluster) : option MultiSigInfo := last (MultiSigSnapshot c).

(** * Invariant *)

Definition normals (l : list NodeInfo) : Z :=
  Z.of_nat (length (filter (λ n, IsNormal n = true) l)).

(** The counters agree with the list, a node's id is its index, and the
    thresholds are those of the number of normal nodes. *)
Record cluster_wf (c : Cluster) : Prop := {
  wf_total : TotalNodeCount c = Z.of_nat (length (NodeList c));
  wf_bound : TotalNodeCount c < 2^31;
  wf_ids : ∀ i n, NodeList c !! i = Some n → Id n = Z.of_nat i;
  wf_size : ClusterSize c = normals (NodeList c);
  wf_faulty : MaxFaultyN c = faulty (ClusterSize c);
  wf_quorum : QuorumN c = ClusterSize c - MaxFaultyN c;
  wf_accuse : AccuseQuorumN c = MaxFaultyN c + 1
}.

Lemma normals_app l l' : normals (l ++ l') = normals l + normals l'.
Proof. unfold normals. rewrite filter_app length_app. lia. Qed.
Lemma normals_one n : normals [n] = if IsNormal n then 1 else 0.
Proof. unfold normals. rewrite filter_cons. by destruct (IsNormal n). Qed.
Lemma normals_nonneg l : 0 ≤ normals l.
Proof. unfold normals. lia. Qed.
Lemma normals_mark l i n b :
  l !! i = Some n →
  normals (alter (set_normal b) i l) =
  normals l - (if IsNormal n then 1 else 0) + (if b then 1 else 0).
Proof.
  assert (∀ m l', normals (m :: l') = (if IsNormal m then 1 else 0) + normals l') as Hc.
  { intros m l'. by rewrite (normals_app [m]) normals_one. }
  revert i. induction l as [|m l IH]; intros [|i] Hi; try done; cbn in Hi |- *; rewrite !Hc.
  - injection Hi as ->. destruct b; cbn; lia.
  - rewrite (IH i Hi). lia.
Qed.

Lemma lookup_mark k b l i n :
  mark k b l !! i = Some n → ∃ m, l !! i = Some m ∧ Id n = Id m.
Proof.
  unfold mark. rewrite list_lookup_alter. destruct (decide (Z.to_nat k = i)) as [<-|].
  - destruct (l !! Z.to_nat k) as [m|]; [|done]. intros [= <-]. by exists m.
  - intros H. by exists n.
Qed.

Lemma faulty_div n : 1 ≤ n → faulty n = (n - 1) / 3.
Proof. intros. unfold faulty. rewrite Z.quot_div_nonneg; lia. Qed.

Lemma node_at_Val c i n :
  node_at c i = Val n ↔ 0 ≤ i ∧ NodeList c !! Z.to_nat i = Some n.
Proof.
  unfold node_at. destruct (i <? 0) eqn:E; to_prop.
  - split; [done|lia].
  - destruct (NodeList c !! Z.to_nat i); naive_solver.
Qed.
Lemma node_at_wf c i :
  cluster_wf c → 0 ≤ i < TotalNodeCount c → ∃ n, node_at c i = Val n ∧ Id n = i.
Proof.
  intros Hwf Hi. destruct (lookup_lt_is_Some_2 (NodeList c) (Z.to_nat i)) as [n Hn].
  { rewrite (wf_total c Hwf) in Hi. lia. }
  exists n. split; [apply node_at_Val; split; [lia|done]|].
  apply (wf_ids c Hwf) in Hn. lia.
Qed.

Lemma wf_snoc c n s :
  cluster_wf c → Id n = TotalNodeCount c → IsNormal n = true → TotalNodeCount c + 1 < 2^31 →
  cluster_wf (set_thresholds
    (set_nodes c (NodeList c ++ [n]) s (ClusterSize c + 1) (TotalNodeCount c + 1)) quorum_minus).
Proof.
  intros [Ht Hb Hi Hs Hf Hq Ha] Hid Hn Hb'. split; cbn; try done.
  - rewrite length_app /=. lia.
  - intros i n' [Hl|[Hge Hl]]%lookup_app_Some; [by apply Hi|].
    apply list_lookup_singleton_Some in Hl as [? <-]. lia.
  - rewrite normals_app normals_one Hn. lia.
Qed.

(** Adding the next node keeps the invariant; any other node id is
    refused. *)
Theorem AddNode_wf (c c' : Cluster) (host : string) (nodeId : Z) (pubkey pubkeyHash : string) :
  cluster_wf c → TotalNodeCount c + 1 < 2^31 → AddNode host nodeId pubkey pubkeyHash c = Val c' →
  cluster_wf c' ∧
  (nodeId ≠ TotalNodeCount c → c' = c) ∧
  (nodeId = TotalNodeCount c → ClusterSize c' = ClusterSize c + 1 ∧
     ∃ n, NodeList c' = NodeList c ++ [n] ∧ Id n = nodeId ∧ Url n = host ∧ IsNormal n = true ∧
          hex_decode pubkey = Some (PublicKey n)).
Proof.
  intros Hwf Hb H. unfold AddNode in H. pose proof (wf_total c Hwf) as Ht.
  rewrite wrap32_small in H; [|unfold i32; lia].
  destruct (nodeId =? TotalNodeCount c) eqn:E; cbn [negb] in H; to_prop.
  - apply pan_bind_Val in H as (s & Hs & [= <-]).
    unfold NewSecureSigner in Hs. apply pan_bind_Val in Hs as (d & Hd%error_is_nil_Val & [= <-]).
    split_and!; [by apply wf_snoc|done|]. intros _. cbn. split; [done|].
    eexists. split_and!; [reflexivity|done..].
  - injection H as <-. split_and!; [done|done|]. by intros.
Qed.

Lemma DeleteNode_spec c nodeId :
  cluster_wf c →
  ∃ c', DeleteNode nodeId c = Val c' ∧ cluster_wf c' ∧
    (node_at c nodeId ≫= (λ n, mret (IsNormal n)) = Val true →
       ClusterSize c' = ClusterSize c - 1 ∧
       node_at c' nodeId ≫= (λ n, mret (IsNormal n)) = Val false) ∧
    (node_at c nodeId ≫= (λ n, mret (IsNormal n)) ≠ Val true → c' = c).
Proof.
  intros Hwf. unfold DeleteNode. pose proof (wf_total c Hwf) as Ht. pose proof (wf_bound c Hwf).
  rewrite wrap32_small; [|unfold i32; lia].
  destruct ((nodeId >=? TotalNodeCount c) || (nodeId <? 0)) eqn:E.
  { exists c. split_and!; [done|done| |done]. intros (n & Hn%node_at_Val & _)%pan_bind_Val.
    destruct Hn as [? Hn%lookup_lt_Some]. apply orb_true_iff in E as [E|E]; to_prop; lia. }
  to_prop. destruct (node_at_wf c nodeId Hwf) as (n & Hn & Hid); [lia|].
  rewrite Hn. cbn [mbind pan_bind]. apply node_at_Val in Hn as [_ Hl].
  destruct (IsNormal n) eqn:En; eexists; (split; [reflexivity|]).
  - split_and!; [|intros _; split; [done|]|intros Hne; by destruct Hne].
    + split; cbn; try done.
      * unfold mark. by rewrite length_alter.
      * intros i n' (m & Hm & Hn')%lookup_mark. apply (wf_ids c Hwf) in Hm. congruence.
      * unfold mark. rewrite (normals_mark _ _ n); [|done]. rewrite En (wf_size c Hwf). lia.
    + apply pan_bind_Val. exists (set_normal false n). split; [|done].
      apply node_at_Val. split; [lia|]. cbn. unfold mark. by rewrite list_lookup_alter_eq Hl.
  - split_and!; [done|by intros|done].
Qed.

(** Deleting a node keeps the invariant: a normal node is marked and no
    longer counted, every other id leaves the cluster unchanged, and it never
    panics. *)
Theorem DeleteNode_wf (c : Cluster) (nodeId : Z) :
  cluster_wf c →
  ∃ c', DeleteNode nodeId c = Val c' ∧ cluster_wf c' ∧
    (node_at c nodeId ≫= (λ n, mret (IsNormal n)) = Val true →
       ClusterSize c' = ClusterSize c - 1 ∧
       node_at c' nodeId ≫= (λ n, mret (IsNormal n)) = Val false) ∧
    (node_at c nodeId ≫= (λ n, mret (IsNormal n)) ≠ Val true → c' = c).
Proof. apply DeleteNode_spec. Qed.

(** The loop of [InitWithNodeList] from a list whose ids are its positions. *)
Lemma init_pb_nodes_spec l i c c' :
  init_pb_nodes i l c = Val c' → i = Z.of_nat (length (NodeList c)) →
  i + Z.of_nat (length l) < 2^31 →
  (∀ j n, NodeList c !! j = Some n → Id n = Z.of_nat j) → ClusterSize c = normals (NodeList c) →
  (∀ j n, NodeList c' !! j = Some n → Id n = Z.of_nat j) ∧
  ClusterSize c' = normals (NodeList c') ∧
  Id <$> NodeList c' = (Id <$> NodeList c) ++ (ni_NodeId <$> l) ∧
  IsNormal <$> NodeList c' = (IsNormal <$> NodeList c) ++ (ni_IsNormal <$> l).
Proof.
  revert i c. induction l as [|node l IH]; intros i c H Hi Hb Hids Hsz; cbn in H.
  { injection H as <-. by rewrite !app_nil_r. }
  apply pan_bind_Val in H as ([] & Hid%assert_true_Val & (s & Hs & H)%pan_bind_Val).
  cbn in Hb. rewrite wrap32_small in Hid; [|unfold i32; lia]. to_prop.
  apply IH in H as (H1 & H2 & H3 & H4); cbn.
  - rewrite H3 H4 !fmap_app -!(app_assoc _ [_]) /=. auto.
  - rewrite length_app /=. lia.
  - lia.
  - intros j n [Hl|[Hge Hl]]%lookup_app_Some; [by apply Hids|].
    apply list_lookup_singleton_Some in Hl as [? <-]. cbn. lia.
  - rewrite normals_app normals_one /= Hsz. by destruct (ni_IsNormal node); lia.
Qed.

(** C38. Starting from the zero values, [InitWithNodeList] establishes the
    invariant, and lists the nodes of the message in their order. *)
Theorem InitWithNodeList_wf (nodeList : PbNodeList) (c : Cluster) :
  InitWithNodeList nodeList zeroCluster = Val c →
  Z.of_nat (length (nl_NodeList nodeList)) < 2^31 →
  cluster_wf c ∧ Id <$> NodeList c = ni_NodeId <$> nl_NodeList nodeList ∧
  IsNormal <$> NodeList c = ni_IsNormal <$> nl_NodeList nodeList.
Proof.
  unfold InitWithNodeList. intros (c1 & H & [= <-])%pan_bind_Val Hb.
  apply init_pb_nodes_spec in H as (H1 & H2 & H3 & H4); try done.
  cbn in H3, H4. split_and!; try done. split; cbn; try done.
  by rewrite -(length_fmap Id (NodeList c1)) H3 length_fmap.
Qed.

(** [RecoverNode] of a deleted node restores it and keeps the invariant;
    of a node that is already normal it still increments the size, so the
    cluster counts one node more than the list has. *)
Theorem RecoverNode_counts (c c' : Cluster) (nodeId : Z) (n : NodeInfo) :
  cluster_wf c → node_at c nodeId = Val n → RecoverNode nodeId c = Val c' →
  ClusterSnapshot c' = None ∧
  (IsNormal n = false → cluster_wf c' ∧ ClusterSize c' = ClusterSize c + 1) ∧
  (IsNormal n = true → NodeList c' = NodeList c ∧ ClusterSize c' = normals (NodeList c') + 1).
Proof.
  intros Hwf Hn H. unfold RecoverNode in H. pose proof Hn as Hl. pose proof (wf_bound c Hwf).
  apply node_at_Val in Hl as [Hpos Hl]. pose proof (wf_total c Hwf) as Ht.
  assert (nodeId < TotalNodeCount c). { apply lookup_lt_Some in Hl. lia. }
  rewrite wrap32_small in H; [|unfold i32; lia].
  destruct (_ || _) eqn:E in H; [apply orb_true_iff in E as [?|?]; to_prop; lia|].
  rewrite Hn in H. injection H as <-. split; [done|]. split.
  - intros En. split; [|done]. split; cbn; try done.
    + unfold mark. by rewrite length_alter.
    + intros i n' (m & Hm & Hn')%lookup_mark. apply (wf_ids c Hwf) in Hm. congruence.
    + unfold mark. rewrite (normals_mark _ _ n); [|done]. rewrite En (wf_size c Hwf). lia.
  - intros En.
    assert (mark nodeId true (NodeList c) = NodeList c) as E'.
    { apply list_eq. intros j. unfold mark. rewrite list_lookup_alter.
      destruct (decide _) as [<-|]; [|done]. rewrite Hl. cbn. f_equal.
      destruct n. cbn in En. by subst. }
    cbn. rewrite E'. split; [done|]. rewrite (wf_size c Hwf). done.
Qed.

(** ** Quorums *)
Definition normal_ids (c : Cluster) : gset Z :=
  list_to_set (Id <$> filter (λ n, IsNormal n = true) (NodeList c)).

Lemma elem_of_normal_ids c i :
  cluster_wf c → i ∈ normal_ids c ↔ ∃ n, node_at c i = Val n ∧ IsNormal n = true.
Proof.
  intros Hwf. unfold normal_ids. rewrite elem_of_list_to_set list_elem_of_fmap. split.
  - intros (n & -> & [Hn Hin]%list_elem_of_filter). exists n. split; [|done].
    apply list_elem_of_lookup in Hin as [j Hj]. rewrite node_at_Val (wf_ids c Hwf _ _ Hj).
    rewrite Nat2Z.id. split; [lia|done].
  - intros (n & [Hi Hl]%node_at_Val & Hn). exists n. apply (wf_ids c Hwf) in Hl as Hid.
    split; [lia|]. apply list_elem_of_filter. split; [done|]. by eapply list_elem_of_lookup_2.
Qed.
Lemma NoDup_ids c : cluster_wf c → NoDup (Id <$> NodeList c).
Proof.
  intros Hwf. apply NoDup_alt. intros i j x Hi Hj.
  apply list_lookup_fmap_Some in Hi as (n & -> & Hn), Hj as (m & He & Hm).
  apply (wf_ids c Hwf) in Hn, Hm. lia.
Qed.
Lemma size_normal_ids c : cluster_wf c → Z.of_nat (size (normal_ids c)) = ClusterSize c.
Proof.
  intros Hwf. unfold normal_ids. rewrite size_list_to_set.
  - by rewrite length_fmap (wf_size c Hwf).
  - pose proof (NoDup_ids c Hwf) as Hnd. induction (NodeList c) as [|n l IH]; [constructor|].
    cbn in Hnd. apply NoDup_cons in Hnd as [Hni Hnd]. rewrite filter_cons.
    destruct (decide _); [|by apply IH]. cbn. apply NoDup_cons. split; [|by apply IH].
    intros (m & He & [_ Hm]%list_elem_of_filter)%list_elem_of_fmap.
    apply Hni, list_elem_of_fmap. by exists m.
Qed.

Lemma faulty_bounds c : cluster_wf c → 1 ≤ ClusterSize c →
  0 ≤ MaxFaultyN c ∧ 3 * MaxFaultyN c + 1 ≤ ClusterSize c.
Proof.
  intros Hwf H. rewrite (wf_faulty c Hwf) faulty_div; [|done].
  pose proof (Z.div_mod (ClusterSize c - 1) 3). pose proof (Z.mod_pos_bound (ClusterSize c - 1) 3).
  lia.
Qed.

Lemma quorums_meet (c : Cluster) (A B : gset Z) :
  cluster_wf c → 1 ≤ ClusterSize c → A ⊆ normal_ids c → B ⊆ normal_ids c →
  QuorumN c ≤ Z.of_nat (size A) → QuorumN c ≤ Z.of_nat (size B) →
  AccuseQuorumN c ≤ Z.of_nat (size (A ∩ B)) ∧ MaxFaultyN c < AccuseQuorumN c.
Proof.
  intros Hwf Hc HA HB HqA HqB. pose proof (faulty_bounds c Hwf Hc) as [? ?].
  pose proof (size_union_alt A B) as Hu.
  assert (size B = size (A ∩ B) + size (B ∖ A))%nat as HB'.
  { rewrite -size_union; [|set_solver]. apply set_size_proper. intros x.
    destruct (decide (x ∈ A)); set_solver. }
  assert (size (A ∪ B) ≤ size (normal_ids c))%nat by (apply subseteq_size; set_solver).
  pose proof (size_normal_ids c Hwf).
  rewrite (wf_accuse c Hwf). rewrite (wf_quorum c Hwf) in HqA, HqB. lia.
Qed.


Lemma quorum_half_minus m : 1 ≤ m →
  quorum_half m (faulty m) = m - faulty m - (if m mod 3 =? 0 then 1 else 0).
Proof.
  intros H. unfold quorum_half.
  rewrite faulty_div; [|lia]. pose proof (Z.div_mod (m - 1) 3). pose proof (Z.mod_pos_bound (m - 1) 3).
  pose proof (Z.div_mod m 3). pose proof (Z.mod_pos_bound m 3).
  set (f := (m - 1) / 3) in *. rewrite Z.quot_div_nonneg; [|lia..].
  pose proof (Z.div_mod (m + f) 2). pose proof (Z.mod_pos_bound (m + f) 2).
  destruct (m mod 3 =? 0) eqn:E; to_prop; lia.
Qed.
(** [AddNodeInfo] computes the quorum with another formula than the rest of
    the package. The two agree unless the number of nodes is a multiple of
    three, where it asks for one node less. *)
Lemma AddNodeInfo_quorum (c : Cluster) (n : NodeInfo) :
  0 ≤ ClusterSize c →
  let c' := AddNodeInfo n c in
  QuorumN c' = ClusterSize c' - MaxFaultyN c' - (if ClusterSize c' mod 3 =? 0 then 1 else 0).
Proof. intros H. cbn. rewrite quorum_half_minus; [done|lia]. Qed.

(** ** The leader of a term *)
Definition normal_at (c : Cluster) (i : Z) : Prop :=
  ∃ n, node_at c i = Val n ∧ IsNormal n = true.
#[export] Instance normal_at_dec c i : Decision (normal_at c i).
Proof.
  destruct (node_at c i) as [n|f] eqn:E.
  - destruct (IsNormal n) eqn:En; [left; by exists n|right].
    intros (m & ? & ?). congruence.
  - right. intros (m & ? & ?). congruence.
Defined.

(** One turn of the loop at an index of the list. *)
Lemma leader_loop_step fuel c i :
  cluster_wf c → 0 ≤ i < TotalNodeCount c →
  leader_loop (S fuel) c i =
  if decide (normal_at c i) then Some (Val i)
  else leader_loop fuel c ((i + 1) mod TotalNodeCount c).
Proof.
  intros Hwf Hi. destruct (node_at_wf c i Hwf Hi) as (n & Hn & _). pose proof (wf_bound c Hwf).
  cbn [leader_loop]. rewrite Hn !wrap32_small; [|unfold i32; lia..].
  destruct (decide _) as [(m & Hm & Em)|Hno].
  - rewrite Hn in Hm. injection Hm as <-. by rewrite Em.
  - destruct (IsNormal n) eqn:En; [destruct Hno; by exists n|].
    destruct (TotalNodeCount c =? 0) eqn:E0; to_prop; [lia|].
    by rewrite Z.rem_mod_nonneg; [|lia..].
Qed.

Lemma leader_loop_first c k fuel i :
  cluster_wf c → 0 ≤ i < TotalNodeCount c →
  (∀ j, (j < k)%nat → ¬ normal_at c ((i + Z.of_nat j) mod TotalNodeCount c)) →
  normal_at c ((i + Z.of_nat k) mod TotalNodeCount c) → (k < fuel)%nat →
  leader_loop fuel c i = Some (Val ((i + Z.of_nat k) mod TotalNodeCount c)).
Proof.
  intros Hwf. revert i fuel. induction k as [|k IH]; intros i [|fuel] Hi Hno Hyes Hf; try lia;
    rewrite leader_loop_step; try done.
  - rewrite Z.add_0_r (Z.mod_small i) in Hyes |- *; [|done..]. by destruct (decide _).
  - assert (∀ j, (i + Z.of_nat (S j)) mod TotalNodeCount c =
        ((i + 1) mod TotalNodeCount c + Z.of_nat j) mod TotalNodeCount c) as Hsh.
    { intros j. rewrite Z.add_mod_idemp_l; [|lia]. f_equal. lia. }
    destruct (decide _) as [Hn|_].
    { exfalso. apply (Hno 0%nat); [lia|]. by rewrite Z.add_0_r Z.mod_small. }
    rewrite Hsh. apply IH; [apply Z.mod_pos_bound; lia| |by rewrite -Hsh|lia].
    intros j Hj. rewrite -Hsh. apply Hno. lia.
Qed.

(** C39. The leader of a term always exists when some node is normal: the loop
    returns the first normal node at or after index [term mod n], going round
    the list. *)
Theorem LeaderNodeOfTerm_total (c : Cluster) (term : Z) :
  cluster_wf c → 1 ≤ ClusterSize c → 0 ≤ term →
  ∃ k, LeaderNodeOfTerm c term = Val ((term + Z.of_nat k) mod TotalNodeCount c) ∧
    Z.of_nat k < TotalNodeCount c ∧
    normal_at c ((term + Z.of_nat k) mod TotalNodeCount c) ∧
    ∀ j, (j < k)%nat → ¬ normal_at c ((term + Z.of_nat j) mod TotalNodeCount c).
Proof.
  intros Hwf Hs Ht. pose proof (wf_total c Hwf) as HT. pose proof (wf_bound c Hwf).
  assert (∃ i, normal_at c i) as [i Hi].
  { pose proof (size_normal_ids c Hwf). destruct (set_choose_or_empty (normal_ids c)) as [[i Hi]|He].
    - exists i. by apply elem_of_normal_ids.
    - apply size_empty_iff in He. lia. }
  assert (0 ≤ i < TotalNodeCount c) as Hib.
  { destruct Hi as (n & [? Hl%lookup_lt_Some]%node_at_Val & _). lia. }
  set (T := TotalNodeCount c) in *.
  destruct (least (λ k, normal_at c ((term + Z.of_nat k) mod T)) (Z.to_nat ((i - term) mod T)))
    as (k & Hk & Hyes & Hno).
  { pose proof (Z.mod_pos_bound (i - term) T). rewrite Z2Nat.id; [|lia].
    rewrite Z.add_mod_idemp_r; [|lia]. replace (term + (i - term)) with i by lia.
    by rewrite Z.mod_small. }
  pose proof (Z.mod_pos_bound (i - term) T). pose proof (Z.mod_pos_bound term T).
  assert (∀ j, (term + Z.of_nat j) mod T = (term mod T + Z.of_nat j) mod T) as Hm.
  { intros j. rewrite Z.add_mod_idemp_l; [done|lia]. }
  exists k. split_and!; [|lia|done|done].
  unfold LeaderNodeOfTerm. fold T. destruct (T =? 0) eqn:E; to_prop; [lia|].
  rewrite Z.rem_mod_nonneg; [|lia..]. rewrite wrap32_small; [|unfold i32; lia].
  rewrite (leader_loop_first c k); fold T; try done; [|lia| | |lia].
  - by rewrite -Hm.
  - intros j Hj. rewrite -Hm. auto.
  - by rewrite -Hm.
Qed.

(** When every node is deleted the loop never ends: no amount of fuel
    gives a result. *)
Theorem LeaderNodeOfTerm_loops (c : Cluster) (term : Z) :
  cluster_wf c → ClusterSize c = 0 → 1 ≤ TotalNodeCount c → 0 ≤ term →
  LeaderNodeOfTerm c term = Fault NeverReturns ∧
  ∀ fuel, leader_loop fuel c (wrap32 (Z.rem term (TotalNodeCount c))) = None.
Proof.
  intros Hwf Hs HT Ht. pose proof (wf_bound c Hwf).
  assert (∀ i, ¬ normal_at c i) as Hno.
  { intros i Hi%elem_of_normal_ids; [|done]. pose proof (size_normal_ids c Hwf).
    assert (size (normal_ids c) = 0%nat) as He by lia. apply size_empty_inv in He. set_solver. }
  assert (∀ fuel i, 0 ≤ i < TotalNodeCount c → leader_loop fuel c i = None) as Hl.
  { induction fuel as [|fuel IH]; intros i Hi; [done|]. rewrite leader_loop_step; [|done..].
    destruct (decide _) as [Hn|_]; [by apply Hno in Hn|]. apply IH, Z.mod_pos_bound. lia. }
  pose proof (Z.mod_pos_bound term (TotalNodeCount c)).
  rewrite Z.rem_mod_nonneg; [|lia..]. rewrite wrap32_small; [|unfold i32; lia].
  split; [|intros; apply Hl; lia]. unfold LeaderNodeOfTerm.
  destruct (TotalNodeCount c =? 0) eqn:E; to_prop; [lia|].
  rewrite Z.rem_mod_nonneg; [|lia..]. rewrite wrap32_small; [|unfold i32; lia].
  rewrite Hl; [done|lia].
Qed.
