(* ===== verification/Peers.v ===== *)
(** * Peers and their connection pools (src/cluster/peer_manager.go)

    A node keeps two pools of connections for every other node, one for the messages
    about transactions and one for the rest. A remote call takes a connection out
    of the pool and puts it back afterwards; a connection that is missing or broken is
    dialled again. What the gRPC library answers is an argument: [healthy], the
    state of a connection when it is taken, and [dialled], the result of dialling. *)
From S2P Require Import Prelude.
From S2P Require Import GoLib.
From S2P Require Import Crypto.
From S2P Require Import Cluster.

Section Peers.
Context {Conn : Type}.

Record connPool : Type := { cp_url : string; conns : list (option Conn) }.
Definition set_conns (l : list (option Conn)) (pool : connPool) : connPool := {| cp_url := cp_url pool; conns := l |}.
Definition newConnPool (url : string) (size : nat) : connPool := {| cp_url := url; conns := replicate size None |}.
Definition isCoonExhausted (pool : connPool) : bool := Nat.eqb (length (conns pool)) 0.
(** [None] is an error. A failed dial puts nil back, so that the pool keeps its length. *)
Definition fetchConnectionFromPool (healthy : Conn → bool) (dialled : option Conn) (pool : connPool)
    : option Conn * connPool :=
  match last (conns pool) with
  | None => (None, pool)
  | Some conn =>
      let pool := set_conns (removelast (conns pool)) pool in
      match conn with
      | Some conn =>
          if healthy conn then (Some conn, pool)
          else match dialled with
               | Some conn => (Some conn, pool)
               | None => (None, set_conns (conns pool ++ [None]) pool)
               end
      | None =>
          match dialled with
          | Some conn => (Some conn, pool)
          | None => (None, set_conns (conns pool ++ [None]) pool)
          end
      end
  end.
Definition putConnectionBackToPool (conn : Conn) (pool : connPool) : connPool :=
  set_conns (conns pool ++ [Some conn]) pool.

Record PeerNode : Type := { pn_info : NodeInfo; txConnPool : connPool; blockConnPool : connPool }.
Definition NewPeerNode (nodeInfo : NodeInfo) (txPoolSize blockPoolSize : nat) : PeerNode :=
  {| pn_info := nodeInfo; txConnPool := newConnPool (Url nodeInfo) txPoolSize;
     blockConnPool := newConnPool (Url nodeInfo) blockPoolSize |}.
Definition txMethods : list string := ["/proto.Braft/NotifySignTx"; "/proto.Braft/NotifySignedResult"].
Definition fetchConnPoolByMethod (method : string) (peer : PeerNode) : connPool :=
  if bool_decide (method ∈ txMethods) then txConnPool peer else blockConnPool peer.
Definition set_pool_by_method (method : string) (pool : connPool) (peer : PeerNode) : PeerNode :=
  if bool_decide (method ∈ txMethods)
  then {| pn_info := pn_info peer; txConnPool := pool; blockConnPool := blockConnPool peer |}
  else {| pn_info := pn_info peer; txConnPool := txConnPool peer; blockConnPool := pool |}.
Definition isPoolExhausted (peer : PeerNode) : bool * bool :=
  (isCoonExhausted (txConnPool peer), isCoonExhausted (blockConnPool peer)).

(** [invokeRPC], in two steps: the call in between takes its time. *)
Definition invoke_begin (healthy : Conn → bool) (dialled : option Conn) (method : string) (peer : PeerNode)
    : option Conn * PeerNode :=
  let '(conn, pool) := fetchConnectionFromPool healthy dialled (fetchConnPoolByMethod method peer) in
  (conn, set_pool_by_method method pool peer).
Definition invoke_end (method : string) (conn : Conn) (peer : PeerNode) : PeerNode :=
  set_pool_by_method method (putConnectionBackToPool conn (fetchConnPoolByMethod method peer)) peer.

(** The remote calls; the name of a call is its path. *)
Inductive RpcMethod : Type :=
  | rpc_SyncUp | rpc_WatchSyncUp | rpc_NotifyInitMsg | rpc_NotifyPrepareMsg | rpc_NotifyCommitMsg | rpc_NotifyWeakAccuse
  | rpc_NotifyStrongAccuse | rpc_NotifyVote | rpc_NotifyTxs | rpc_NotifySignTx | rpc_NotifySignedResult | rpc_NotifyLeave
  | rpc_NotifyHeatbeat.
Definition rpc_path (m : RpcMethod) : string :=
  "/proto.Braft/" +:+
  match m with
  | rpc_SyncUp => "SyncUp" | rpc_WatchSyncUp => "WatchSyncUp" | rpc_NotifyInitMsg => "NotifyInitMsg"
  | rpc_NotifyPrepareMsg => "NotifyPrepareMsg" | rpc_NotifyCommitMsg => "NotifyCommitMsg"
  | rpc_NotifyWeakAccuse => "NotifyWeakAccuse" | rpc_NotifyStrongAccuse => "NotifyStrongAccuse"
  | rpc_NotifyVote => "NotifyVote" | rpc_NotifyTxs => "NotifyTxs" | rpc_NotifySignTx => "NotifySignTx"
  | rpc_NotifySignedResult => "NotifySignedResult" | rpc_NotifyLeave => "NotifyLeave" | rpc_NotifyHeatbeat => "NotifyHeatbeat"
  end.

(** ** The manager *)
Definition NewPeerManager (c : Cluster) (txConnPoolSize blockCoonPoolSize : nat) : gmap Z PeerNode :=
  foldl (λ m n, if IsNormal n then <[Id n := NewPeerNode n txConnPoolSize blockCoonPoolSize]> m else m) ∅ (NodeList c).
Definition pm_AddNode (nodeInfo : NodeInfo) (txConnPoolSize blockCoonPoolSize : nat) (peers : gmap Z PeerNode)
    : gmap Z PeerNode := <[Id nodeInfo := NewPeerNode nodeInfo txConnPoolSize blockCoonPoolSize]> peers.
Definition pm_DeleteNode (id : Z) (peers : gmap Z PeerNode) : gmap Z PeerNode := delete id peers.
Definition GetNode (nodeId : Z) (peers : gmap Z PeerNode) : option PeerNode := peers !! nodeId.
(** How a remote call of the node [self] to [nodeId] begins; without a connection it is an error,
    and so is a call to no peer and a synchronisation with itself. *)
Definition rpc_begin (healthy : Conn → bool) (dialled : option Conn) (self : Z) (m : RpcMethod) (nodeId : Z)
    (peers : gmap Z PeerNode) : option Conn * gmap Z PeerNode :=
  match GetNode nodeId peers with
  | None => (None, peers)
  | Some node =>
      if match m with rpc_SyncUp | rpc_WatchSyncUp => nodeId =? self | _ => false end then (None, peers)
      else let '(conn, node) := invoke_begin healthy dialled (rpc_path m) node in (conn, <[nodeId := node]> peers)
  end.
End Peers.
Arguments connPool : clear implicits.
Arguments PeerNode : clear implicits.

(** The nodes whose pool for transactions has a connection left; [exhausted] is that
    of a peer, and [None] for a node that is no peer, which is dereferenced. *)
Fixpoint GetTxConnAvailableCnt (exhausted : Z → option bool) (nodes : list NodeInfo) : pan Z :=
  match nodes with
  | [] => mret 0
  | node :: l =>
      e ← deref (exhausted (Id node));
      cnt ← GetTxConnAvailableCnt exhausted l;
      mret (if e : bool then cnt else cnt + 1)
  end.
Definition tx_exhausted {Conn} (peers : gmap Z (PeerNode Conn)) (id : Z) : option bool :=
  (λ p, (isPoolExhausted p).1) <$> peers !! id.

(** ** Properties *)

Section Pools.
Context {Conn : Type}.
Implicit Types (peer : PeerNode Conn) (pool : connPool Conn).

(** A call begins, or one that has begun ends. [calls] are the calls under way. *)
Definition calls : Type := list (string * Conn).
Inductive CallStep : PeerNode Conn * calls → PeerNode Conn * calls → Prop :=
  | call_begin healthy dialled method peer peer' conn l :
      invoke_begin healthy dialled method peer = (Some conn, peer') → CallStep (peer, l) (peer', (method, conn) :: l)
  | call_error healthy dialled method peer peer' l :
      invoke_begin healthy dialled method peer = (None, peer') → CallStep (peer, l) (peer', l)
  | call_end method conn peer l l' :
      CallStep (peer, l ++ (method, conn) :: l') (invoke_end method conn peer, l ++ l').

(** The calls under way of the methods about transactions, and of the others. *)
Definition under_way (tx : bool) (l : calls) : nat := length (filter (λ e, bool_decide (e.1 ∈ txMethods) = tx) l).
Definition sizes (s : PeerNode Conn * calls) : nat * nat :=
  ((length (conns (txConnPool s.1)) + under_way true s.2)%nat,
   (length (conns (blockConnPool s.1)) + under_way false s.2)%nat).

Lemma removelast_length {A} (l : list A) x : last l = Some x → length l = S (length (removelast l)).
Proof. intros (l' & ->)%last_Some. rewrite removelast_last length_app. cbn. lia. Qed.
Lemma fetch_length healthy dialled pool r pool' : fetchConnectionFromPool healthy dialled pool = (r, pool') →
  length (conns pool) = (length (conns pool') + if r is Some _ then 1 else 0)%nat.
Proof.
  unfold fetchConnectionFromPool. destruct (last (conns pool)) as [conn|] eqn:El; [|by intros [= <- <-]].
  apply removelast_length in El.
  destruct conn as [conn|]; [destruct (healthy conn); [intros [= <- <-]; cbn [conns set_conns]; lia|]|];
    (destruct dialled as [conn'|]; intros [= <- <-]; cbn [conns set_conns]; rewrite ?length_app; cbn [length]; lia).
Qed.
Lemma under_way_cons tx e l :
  under_way tx (e :: l) = ((if Bool.eqb (bool_decide (e.1 ∈ txMethods)) tx then 1 else 0) + under_way tx l)%nat.
Proof. unfold under_way. rewrite filter_cons. by destruct (bool_decide (e.1 ∈ txMethods)), tx. Qed.
Lemma under_way_app tx l l' : under_way tx (l ++ l') = (under_way tx l + under_way tx l')%nat.
Proof. unfold under_way. by rewrite filter_app length_app. Qed.

Lemma CallStep_sizes s s' : CallStep s s' → sizes s' = sizes s.
Proof.
  intros [healthy dialled method peer peer' conn l Hb|healthy dialled method peer peer' l Hb|method conn peer l l'];
    unfold sizes; cbn [fst snd]; rewrite ?under_way_app ?under_way_cons ?under_way_app; cbn [fst].
  - unfold invoke_begin in Hb. destruct (fetchConnectionFromPool _ _ _) as [r pool] eqn:E. injection Hb as -> <-.
    apply fetch_length in E. unfold fetchConnPoolByMethod, set_pool_by_method in *.
    destruct (bool_decide (method ∈ txMethods)); cbn in *; apply (f_equal2 pair); lia.
  - unfold invoke_begin in Hb. destruct (fetchConnectionFromPool _ _ _) as [r pool] eqn:E. injection Hb as -> <-.
    apply fetch_length in E. unfold fetchConnPoolByMethod, set_pool_by_method in *.
    destruct (bool_decide (method ∈ txMethods)); cbn in *; apply (f_equal2 pair); lia.
  - unfold invoke_end, fetchConnPoolByMethod, set_pool_by_method, putConnectionBackToPool.
    destruct (bool_decide (method ∈ txMethods)); cbn; rewrite length_app; cbn; apply (f_equal2 pair); lia.
Qed.
(** C20. Connections are neither lost nor made: whatever calls begin, fail to dial, or end, in
    whatever order, the connections of each pool and the calls that use it are as
    many as the pool had at the start; so a pool is exhausted exactly while as many
    calls of its methods are under way. *)
Theorem pools_conserved info txSize blockSize s :
  rtc CallStep (NewPeerNode info txSize blockSize, []) s →
  sizes s = (txSize, blockSize) ∧
  ((isPoolExhausted s.1).1 = true ↔ under_way true s.2 = txSize) ∧
  ((isPoolExhausted s.1).2 = true ↔ under_way false s.2 = blockSize).
Proof.
  intros Hs. assert (sizes s = (txSize, blockSize)) as He.
  { transitivity (sizes (NewPeerNode info txSize blockSize, [])).
    - induction Hs as [|s s1 s' Hstep _ IH]; [done|]. rewrite IH. by apply CallStep_sizes.
    - unfold sizes. cbn. rewrite !length_replicate. unfold under_way. cbn. apply (f_equal2 pair); lia. }
  split; [done|]. injection He as Ht Hb. unfold isPoolExhausted, isCoonExhausted. cbn [fst snd].
  rewrite !Nat.eqb_eq. lia.
Qed.
End Pools.

(** The calls that use the connections for transactions. *)
Lemma tx_rpc m : rpc_path m ∈ txMethods ↔ m = rpc_NotifySignTx ∨ m = rpc_NotifySignedResult.
Proof.
  split; [|intros [->| ->]; unfold txMethods, rpc_path; cbn; set_solver].
  destruct m; try (by auto); intros Hm; exfalso; revert Hm; apply (bool_decide_unpack _); by vm_compute.
Qed.
(** A call takes nothing from the pools of another peer, and begins as the peer's step. *)
Lemma rpc_begin_peer {Conn} healthy dialled self m i (peers : gmap Z (PeerNode Conn)) conn peers' :
  rpc_begin healthy dialled self m i peers = (Some conn, peers') →
  (∀ j, j ≠ i → peers' !! j = peers !! j) ∧
  ∃ p p', peers !! i = Some p ∧ peers' !! i = Some p' ∧ ∀ l, CallStep (p, l) (p', (rpc_path m, conn) :: l).
Proof.
  unfold rpc_begin, GetNode. destruct (peers !! i) as [p|] eqn:Ep; [|done]. destruct (match m with rpc_SyncUp => _ | _ => _ end); [done|].
  destruct (invoke_begin _ _ _ _) as [c p'] eqn:Eb. intros [= -> <-]. split; [intros j Hj; by rewrite lookup_insert_ne|].
  exists p, p'. split_and!; [done|by rewrite lookup_insert_eq|]. intros l. by econstructor.
Qed.

(** [GetTxConnAvailableCnt] returns when all the nodes are peers. *)
Lemma GetTxConnAvailableCnt_peers exhausted nodes :
  (∀ n, n ∈ nodes → is_Some (exhausted (Id n))) →
  GetTxConnAvailableCnt exhausted nodes =
    Val (Z.of_nat (length (filter (λ n, exhausted (Id n) = Some false) nodes))).
Proof.
  induction nodes as [|n l IH]; intros Hp; [done|]. cbn [GetTxConnAvailableCnt].
  destruct (Hp n) as [e He]; [set_solver|]. rewrite He IH; [|set_solver]. rewrite filter_cons He.
  destruct e; [done|]. cbn [decide mbind pan_bind deref mret pan_ret]. f_equal.
  destruct (decide _) as [_|[]]; [cbn [length]; lia|done].
Qed.
Lemma GetTxConnAvailableCnt_missing exhausted nodes n : n ∈ nodes → exhausted (Id n) = None →
  GetTxConnAvailableCnt exhausted nodes = Fault NilDeref.
Proof.
  induction nodes as [|x l IH]; [by intros ?%not_elem_of_nil|]. intros Hin Hn. cbn.
  destruct (exhausted (Id x)) as [e|] eqn:He; [|done].
  apply elem_of_cons in Hin as [->|Hin]; [congruence|]. cbn. by rewrite IH.
Qed.
