(* ===== verification/Store.v ===== *)
(** * The key-value store and the wire formats

    [src/dgwdb/database.go] wraps goleveldb, and protobuf and JSON encode the
    values. Neither is code of this repository: [KV] states what the wrapper
    relies on (a byte-ordered finite map; I/O errors are not modelled, an absent
    key is the only error of [Get]), [Proto] and [Json] that decoding undoes
    encoding. An encoder may fail ([None]). *)
From S2P Require Import Prelude.
From S2P Require Import GoLib.
From Stdlib Require Import Sorted.

Class KV : Type := {
  db : Type;
  kv_get : db → bytes → option bytes;
  kv_put : db → bytes → bytes → db;
  kv_delete : db → bytes → db;
  (** All entries, in the order an iterator visits them. *)
  kv_entries : db → list (bytes * bytes);
  kv_get_put : ∀ d k v, kv_get (kv_put d k v) k = Some v;
  kv_get_put_ne : ∀ d k k' v, k ≠ k' → kv_get (kv_put d k v) k' = kv_get d k';
  kv_get_delete : ∀ d k, kv_get (kv_delete d k) k = None;
  kv_get_delete_ne : ∀ d k k', k ≠ k' → kv_get (kv_delete d k) k' = kv_get d k';
  kv_entries_sorted : ∀ d, StronglySorted (λ e e' : bytes * bytes, bytes_lt e.1 e'.1) (kv_entries d);
  kv_entries_get : ∀ d k v, (k, v) ∈ kv_entries d ↔ kv_get d k = Some v
}.

(** [proto.Marshal] and [proto.Unmarshal] at one message type. *)
Class Proto (A : Type) : Type := {
  Marshal : A → option bytes;
  Unmarshal : bytes → option A;
  Unmarshal_Marshal : ∀ a b, Marshal a = Some b → Unmarshal b = Some a
}.
(** [json.Marshal] and [json.Unmarshal(data, &x)], which decodes into a value
    and whose error the callers ignore; [json_zero] is the value they start
    from. *)
Class Json (A : Type) : Type := {
  json_zero : A;
  json_Marshal : A → option bytes;
  json_Unmarshal : bytes → A → A;
  json_Unmarshal_Marshal : ∀ a b, json_Marshal a = Some b → json_Unmarshal b json_zero = a
}.

Section Store.
Context `{KV}.

Definition Put (key value : bytes) (d : db) : db := kv_put d key value.
Definition Has (d : db) (key : bytes) : bool := bool_decide (is_Some (kv_get d key)).
Definition Get (d : db) (key : bytes) : option bytes := kv_get d key.
Definition Delete (key : bytes) (d : db) : db := kv_delete d key.
Definition NewIterator (d : db) : list (bytes * bytes) := kv_entries d.
Definition NewIteratorWithPrefix (d : db) (prefix : bytes) : list (bytes * bytes) :=
  filter (λ e, String.prefix prefix e.1 = true) (kv_entries d).
(** The iterator reads a snapshot, so the deletions do not disturb it. *)
Definition DeleteWithPrefix (prefix : bytes) (d : db) : db :=
  foldl (λ d e, Delete e.1 d) d (NewIteratorWithPrefix d prefix).
Definition NewIteraterWithRange (d : db) (start limit : bytes) : list (bytes * bytes) :=
  filter (λ e, negb (bytes_ltb e.1 start) && bytes_ltb e.1 limit = true) (kv_entries d).

(** Two stores that answer every [Get] alike. *)
Definition same_but (ks : bytes → Prop) (d d' : db) : Prop :=
  ∀ k, ¬ ks k → kv_get d' k = kv_get d k.

Lemma same_but_refl ks d : same_but ks d d.
Proof. done. Qed.
Lemma same_but_trans ks d1 d2 d3 : same_but ks d1 d2 → same_but ks d2 d3 → same_but ks d1 d3.
Proof. intros H1 H2 k Hk. by rewrite H2 ?H1. Qed.
Lemma same_but_mono (ks ks' : bytes → Prop) d d' :
  (∀ k, ks k → ks' k) → same_but ks d d' → same_but ks' d d'.
Proof. intros Hs Hd k Hk. apply Hd. auto. Qed.
Lemma same_but_put k v d : same_but (eq k) d (Put k v d).
Proof. intros k' Hk. by apply kv_get_put_ne. Qed.
Lemma same_but_delete k d : same_but (eq k) d (Delete k d).
Proof. intros k' Hk. by apply kv_get_delete_ne. Qed.

Lemma Get_Put k v d : Get (Put k v d) k = Some v.
Proof. apply kv_get_put. Qed.
Lemma Get_Put_ne k k' v d : k ≠ k' → Get (Put k v d) k' = Get d k'.
Proof. apply kv_get_put_ne. Qed.
Lemma Get_Delete k d : Get (Delete k d) k = None.
Proof. apply kv_get_delete. Qed.
Lemma Get_Delete_ne k k' d : k ≠ k' → Get (Delete k d) k' = Get d k'.
Proof. apply kv_get_delete_ne. Qed.

Lemma elem_of_prefix d p k v :
  (k, v) ∈ NewIteratorWithPrefix d p ↔ Get d k = Some v ∧ ∃ r, k = p +:+ r.
Proof.
  unfold NewIteratorWithPrefix. rewrite list_elem_of_filter kv_entries_get /= prefix_true. naive_solver.
Qed.

Lemma Get_deletes (l : list (bytes * bytes)) d k :
  Get (foldl (λ d e, Delete e.1 d) d l) k = if decide (k ∈ l.*1) then None else Get d k.
Proof.
  revert d. induction l as [|[k1 v1] l IH]; intros d; cbn [foldl fmap list_fmap fst]; [done|].
  rewrite IH. destruct (decide (k ∈ l.*1)) as [Hin|Hni].
  - rewrite decide_True; [done|set_solver].
  - destruct (decide (k = k1)) as [->|Hne].
    + rewrite decide_True; [apply Get_Delete|set_solver].
    + rewrite decide_False; [by apply Get_Delete_ne|set_solver].
Qed.

(** [DeleteWithPrefix] removes exactly the keys with the prefix. *)
Theorem DeleteWithPrefix_spec (prefix : bytes) (d : db) (k : bytes) :
  Get (DeleteWithPrefix prefix d) k = if String.prefix prefix k then None else Get d k.
Proof.
  unfold DeleteWithPrefix. rewrite Get_deletes.
  destruct (Get d k) as [v|] eqn:E; destruct (String.prefix prefix k) eqn:Ep.
  - rewrite decide_True; [done|]. apply list_elem_of_fmap. exists (k, v). split; [done|].
    apply elem_of_prefix. split; [done|]. by apply prefix_true.
  - rewrite decide_False; [done|]. intros ([k' v'] & -> & (_ & Hr)%elem_of_prefix)%list_elem_of_fmap.
    apply prefix_true in Hr. cbn in Ep. congruence.
  - by destruct (decide _).
  - by destruct (decide _).
Qed.

Lemma filter_sorted (P : bytes * bytes → Prop) `{∀ x, Decision (P x)} l :
  StronglySorted (λ e e' : bytes * bytes, bytes_lt e.1 e'.1) l →
  StronglySorted (λ e e' : bytes * bytes, bytes_lt e.1 e'.1) (filter P l).
Proof.
  induction 1 as [|e l Hs IH Hf]; [constructor|]. rewrite filter_cons.
  destruct (decide _); [|done]. constructor; [done|].
  apply Forall_forall. intros e' [_ He']%list_elem_of_filter.
  rewrite Forall_forall in Hf. by apply Hf.
Qed.
Lemma iterator_sorted d p :
  StronglySorted (λ e e' : bytes * bytes, bytes_lt e.1 e'.1) (NewIteratorWithPrefix d p).
Proof. apply filter_sorted, kv_entries_sorted. Qed.

#[export] Instance entries_antisymm :
  AntiSymm (=) (λ e e' : bytes * bytes, bytes_lt e.1 e'.1).
Proof.
  intros x y Hx Hy. pose proof (bytes_lt_trans _ _ _ Hx Hy) as Hc.
  unfold bytes_lt in Hc. by rewrite bytes_lt_irrefl in Hc.
Qed.

Lemma entries_NoDup (l : list (bytes * bytes)) :
  StronglySorted (λ e e' : bytes * bytes, bytes_lt e.1 e'.1) l → NoDup l.
Proof.
  induction 1 as [|e l Hs IH Hf]; constructor; [|done]. intros Hin.
  rewrite Forall_forall in Hf. apply Hf in Hin. unfold bytes_lt in Hin.
  by rewrite bytes_lt_irrefl in Hin.
Qed.
(** A list of entries is determined by its elements. *)
Lemma entries_ext (l l' : list (bytes * bytes)) :
  StronglySorted (λ e e' : bytes * bytes, bytes_lt e.1 e'.1) l →
  StronglySorted (λ e e' : bytes * bytes, bytes_lt e.1 e'.1) l' →
  (∀ e, e ∈ l ↔ e ∈ l') → l = l'.
Proof.
  intros Hl Hl' He. apply (StronglySorted_unique (λ e e' : bytes * bytes, bytes_lt e.1 e'.1)); [done|done|].
  apply NoDup_Permutation; [by apply entries_NoDup..|done].
Qed.
Lemma iterator_ext d d' p :
  (∀ r, Get d' (p +:+ r) = Get d (p +:+ r)) →
  NewIteratorWithPrefix d' p = NewIteratorWithPrefix d p.
Proof.
  intros He. apply entries_ext; [apply iterator_sorted..|].
  intros [k v]. rewrite !elem_of_prefix. split; intros [Hg [r ->]]; (split; [|by exists r]).
  - by rewrite -He.
  - by rewrite He.
Qed.

Lemma sorted_last (l : list (bytes * bytes)) e :
  StronglySorted (λ e e' : bytes * bytes, bytes_lt e.1 e'.1) l → last l = Some e →
  e ∈ l ∧ ∀ e', e' ∈ l → e' = e ∨ bytes_lt e'.1 e.1.
Proof.
  intros Hs (l' & ->)%last_Some. split; [set_solver|].
  induction l' as [|x l' IH]; intros e'; cbn; [set_solver|].
  apply StronglySorted_inv in Hs as [Hs Hf]. intros [->|He']%elem_of_cons; [|by apply IH].
  right. rewrite Forall_forall in Hf. apply Hf. set_solver.
Qed.
End Store.
