(* ===== verification/DbOps.v ===== *)
(** * Persistent state (src/primitives/dbops.go)

    One function per Go function, on the store of [Store.v]. A write whose
    encoder fails panics ([assert.ErrorIsNil]) or is dropped, as in the code. *)
From S2P Require Import Prelude.
From S2P Require Import GoLib.
From S2P Require Import Crypto.
From S2P Require Import Messages.
From S2P Require Import Feed.
From S2P Require Import ProtoOps.
From S2P Require Import Cluster.
From S2P Require Import Store.
From Stdlib Require Import Sorted.

(** ** Keys *)
Definition keyTerm : bytes := "NodeState_Term".
Definition keyLastTermAccuse : bytes := "NodeState_LastTermAccuse".
Definition keyWeakAccuses : bytes := "NodeState_WeakAccuses".
Definition keyFresh : bytes := "NodeState_Fresh".
Definition keyVotie : bytes := "NodeState_Votie".
Definition keyLastBchBlockHeader : bytes := "NodeState_LastBchBlockHeader".
Definition keyJoinNodeInfo : bytes := "JoinNodeInfo".
Definition keyLeaveNodeInfo : bytes := "LeaveNodeInfo".
Definition keyETHHeight : bytes := "ETHHeight".
Definition keyETHTxIndex : bytes := "ETHTxIndex".
Definition keyXINHeight : bytes := "XINHeight".
Definition keyXINTxIndex : bytes := "XINTxIndex".
Definition keyMultiSigSnapshot : bytes := "MS".
Definition keyCommitChainPrefix : bytes := "B".
Definition keyCommitHsByIdsPrefix : bytes := "H".
Definition keyTxPrefix : bytes := "T".
Definition keyTxMapPrefix : bytes := "M".
Definition keySignMsgPrefix : bytes := "SM".
Definition keySignFailedPrefix : bytes := "SF".
Definition keyHeightPrefix : bytes := "CH".
Definition keyProposalPrefix : bytes := "PP".
Definition keyFinalAmountPrefix : bytes := "FA".
Definition keyETHTxHashPrefix : bytes := "ETHash".
Definition keyAccuseRecordsPrefix : bytes := "AR".
Definition keyClusterSnapshotPrefix : bytes := "CS".

(** big.Int.Bytes and SetBytes: big-endian, absolute value, no leading zero. *)
Definition big_Bytes (z : Z) : bytes :=
  let n := Z.abs z in be (if n =? 0 then 0%nat else Z.to_nat (Z.log2 n / 8 + 1)) n.
Fixpoint big_SetBytes (acc : Z) (b : bytes) : Z :=
  match b with
  | EmptyString => acc
  | String c b' => big_SetBytes (acc * 256 + byte_val c) b'
  end.

(** The messages the store holds. *)
Class Wire : Type := {
  pb_StrongAccuse :: Proto StrongAccuse;
  pb_WeakAccuses :: Proto WeakAccuses;
  pb_BlockPack :: Proto BlockPack;
  pb_Votie :: Proto Votie;
  pb_TxLookupEntry :: Proto TxLookupEntry;
  pb_SignTxRequest :: Proto SignTxRequest;
  pb_JoinRequest :: Proto JoinRequest;
  pb_LeaveRequest :: Proto LeaveRequest;
  pb_AccuseRecord :: Proto AccuseRecord;
  json_Snapshot :: Json Snapshot;
  json_MultiSigs :: Json (list MultiSigInfo)
}.

Section DbOps.
Context `{KV} `{Wire}.
Implicit Types d : db.

(** Marshal, assert, put. *)
Definition put_pb {A} `{Proto A} (key : bytes) (a : A) (d : db) : pan db :=
  b ← error_is_nil (Marshal a); mret (Put key b d).
(** Get; absent is nil; a value that does not decode panics. *)
Definition get_pb {A} `{Proto A} (key : bytes) (d : db) : pan (option A) :=
  match Get d key with
  | None => mret None
  | Some data => a ← error_is_nil (Unmarshal data); mret (Some a)
  end.

Definition SetNodeTerm (term : Z) (d : db) : pan db :=
  _ ← assert_true (0 <=? term); mret (Put keyTerm (I64ToBytes term) d).
Definition GetNodeTerm (d : db) : pan Z :=
  data ← error_is_nil (Get d keyTerm);
  term ← error_is_nil (BytesToI64 data);
  _ ← assert_true (0 <=? term);
  mret term.

Definition SetLastTermAccuse (accuse : option StrongAccuse) (d : db) : pan db :=
  match accuse with
  | None => mret (Delete keyLastTermAccuse d)
  | Some a => put_pb keyLastTermAccuse a d
  end.
Definition GetLastTermAccuse (d : db) : pan (option StrongAccuse) := get_pb keyLastTermAccuse d.

Definition SetWeakAccuses (weakAccuses : option WeakAccuses) (d : db) : pan db :=
  match weakAccuses with
  | None => mret (Delete keyWeakAccuses d)
  | Some a => put_pb keyWeakAccuses a d
  end.
Definition GetWeakAccuses (d : db) : pan WeakAccuses :=
  r ← get_pb keyWeakAccuses d; mret (default EmptyWeakAccuses r).

Definition SetFresh (fresh : option BlockPack) (d : db) : pan db :=
  match fresh with
  | None => mret (Delete keyFresh d)
  | Some a => put_pb keyFresh a d
  end.
Definition GetFresh (d : db) : pan (option BlockPack) := get_pb keyFresh d.
Definition HasFresh (d : db) : bool := bool_decide (is_Some (Get d keyFresh)).

Definition SetVotie (votie : Votie) (d : db) : pan db := put_pb keyVotie votie d.
Definition GetVotie (d : db) : pan Votie :=
  data ← error_is_nil (Get d keyVotie); error_is_nil (Unmarshal data).

(** *** The chain of committed blocks *)
Definition chain_key (height : Z) : bytes := keyCommitChainPrefix +:+ I64ToBytes height.
Definition id_key (blockId : Digest256) : bytes := keyCommitHsByIdsPrefix +:+ Data blockId.

(** The first [Put] happens before the block id is dereferenced. *)
Definition JustCommitIt (blockPack : BlockPack) : go db unit :=
  bpBytes ← lift (error_is_nil (Marshal blockPack));
  h ← lift (bp_Height blockPack);
  _ ← modify (Put (chain_key h) bpBytes);
  i ← lift (bp_BlockId blockPack);
  i ← lift (deref i);
  modify (Put (id_key i) (I64ToBytes h)).

Definition GetCommitHeight (d : db) : pan Z :=
  match last (NewIteratorWithPrefix d keyCommitChainPrefix) with
  | None => mret (-1)
  | Some (key, _) =>
      height ← error_is_nil (BytesToI64 (String.substring 1 (String.length key - 1) key));
      _ ← assert_true (0 <=? height);
      mret height
  end.
Definition GetCommitTop (d : db) : pan (option BlockPack) :=
  match last (NewIteratorWithPrefix d keyCommitChainPrefix) with
  | None => mret None
  | Some (_, value) => b ← error_is_nil (Unmarshal value); mret (Some b)
  end.
Definition GetCommitByHeight (height : Z) (d : db) : pan (option BlockPack) :=
  _ ← assert_true (0 <=? height); get_pb (chain_key height) d.

Fixpoint unmarshal_all (l : list (bytes * bytes)) : pan (list BlockPack) :=
  match l with
  | [] => mret []
  | (_, value) :: l' =>
      bp ← error_is_nil (Unmarshal value); bps ← unmarshal_all l'; mret (bp :: bps)
  end.
Definition GetCommitsByHeightSec (start end_ : Z) (d : db) : pan (list BlockPack) :=
  if start >=? end_ then mret []
  else unmarshal_all (NewIteraterWithRange d (chain_key start) (chain_key end_)).

Definition IsCommitted (blockId : option Digest256) (d : db) : pan bool :=
  i ← deref blockId; mret (bool_decide (is_Some (Get d (id_key i)))).
Definition GetCommitByID (blockID : option Digest256) (d : db) : pan (option BlockPack) :=
  i ← deref blockID;
  match Get d (id_key i) with
  | None => mret None
  | Some data =>
      match BytesToI64 data with
      | None => Fault (ExplicitPanic "get block height to int64 err")
      | Some height => GetCommitByHeight height d
      end
  end.
Definition GetBlockByID (id : bytes) (d : db) : pan (option BlockPack) :=
  match Get d (keyCommitHsByIdsPrefix +:+ id) with
  | None => mret None
  | Some data =>
      match BytesToI64 data with
      | None => mret None
      | Some height => GetCommitByHeight height d
      end
  end.

(** The conjunction is evaluated from the left and stops at the first
    false test. *)
Definition IsConnectingTop (blockPack : BlockPack) (d : db) : pan bool :=
  top ← GetCommitTop d;
  prev ← bp_PrevBlockId blockPack;
  top ← deref top;
  topId ← bp_BlockId top;
  e ← EqualTo prev topId;
  if negb e then mret false
  else
    t ← bp_Term blockPack; t' ← bp_Term top;
    if negb (t >=? t') then mret false
    else
      h ← bp_Height blockPack; h' ← bp_Height top;
      mret (h =? h' +i64 1).

Definition InitDB (genesis : BlockPack) : go db unit :=
  _ ← modify (Delete keyTerm);
  _ ← modify (Delete keyLastTermAccuse);
  _ ← modify (Delete keyWeakAccuses);
  _ ← modify (Delete keyFresh);
  _ ← modify (Delete keyVotie);
  _ ← modify (Delete keyLastBchBlockHeader);
  _ ← modify (DeleteWithPrefix keyCommitChainPrefix);
  _ ← modify (DeleteWithPrefix keyCommitHsByIdsPrefix);
  _ ← updates (SetNodeTerm 0);
  v ← lift (ToVotie genesis);
  _ ← updates (SetVotie v);
  JustCommitIt genesis.

(** *** Transactions *)
Definition SetTxLookupEntry (txId : option Digest256) (entry : TxLookupEntry) (d : db) : pan db :=
  b ← error_is_nil (Marshal entry);
  i ← deref txId;
  mret (Put (keyTxPrefix +:+ Data i) b d).
Definition GetTxLookupEntry (txId : option Digest256) (d : db) : pan (option TxLookupEntry) :=
  i ← deref txId; get_pb (keyTxPrefix +:+ Data i) d.
Definition SetTxIdMap (scTxId : string) (txId : option Digest256) (d : db) : pan db :=
  i ← deref txId; mret (Put (keyTxMapPrefix +:+ scTxId) (Data i) d).
Definition GetTxIdBySidechainTxId (scTxId : string) (d : db) : option Digest256 :=
  Digest <$> Get d (keyTxMapPrefix +:+ scTxId).

Definition SetSignMsg (msg : SignTxRequest) (msgId : string) (d : db) : pan db :=
  put_pb (keySignMsgPrefix +:+ msgId) msg d.
Definition GetSignMsg (msgId : string) (d : db) : pan (option SignTxRequest) :=
  get_pb (keySignMsgPrefix +:+ msgId) d.
Definition DeleteSignMsg (msgId : string) (d : db) : db := Delete (keySignMsgPrefix +:+ msgId) d.
Definition sign_failed_key (msgId : string) (term : Z) : bytes :=
  keySignFailedPrefix +:+ msgId +:+ "_" +:+ FormatInt term.
Definition MarkFailedSignRecord (msgId : string) (term : Z) (d : db) : db :=
  Put (sign_failed_key msgId term) "0" d.
Definition IsSignFailed (msgId : string) (term : Z) (d : db) : bool :=
  bool_decide (is_Some (Get d (sign_failed_key msgId term))).

Definition SetEthProposal (proposal : string) (d : db) : db := Put (keyProposalPrefix +:+ proposal) "" d.
Definition IsProposalExist (proposal : string) (d : db) : bool :=
  bool_decide (is_Some (Get d (keyProposalPrefix +:+ proposal))).
Definition DeleteEthProposal (proposal : string) (d : db) : db :=
  Delete (keyProposalPrefix +:+ proposal) d.

(** *** Watched heights and amounts: an absent or malformed value reads as 0 *)
Definition get_i64 (key : bytes) (d : db) : Z :=
  match Get d key with Some data => default 0 (BytesToI64 data) | None => 0 end.
Definition get_int (key : bytes) (d : db) : Z :=
  match Get d key with Some data => default 0 (Atoi data) | None => 0 end.

Definition SetCurrentHeight (chainType : string) (height : Z) (d : db) : db :=
  Put (keyHeightPrefix +:+ chainType) (I64ToBytes height) d.
Definition GetCurrentHeight (chainType : string) (d : db) : Z :=
  get_i64 (keyHeightPrefix +:+ chainType) d.
Definition SetETHBlockHeight (height : Z) (d : db) : db := Put keyETHHeight (big_Bytes height) d.
Definition GetETHBlockHeight (d : db) : option Z := big_SetBytes 0 <$> Get d keyETHHeight.
Definition SetETHBlockTxIndex (index : Z) (d : db) : db := Put keyETHTxIndex (FormatInt index) d.
Definition GetETHBlockTxIndex (d : db) : Z := get_int keyETHTxIndex d.
Definition SetXINBlockHeight (height : Z) (d : db) : db := Put keyXINHeight (I64ToBytes height) d.
Definition GetXINBlockHeight (d : db) : Z := get_i64 keyXINHeight d.
Definition SetXINBlockTxIndex (index : Z) (d : db) : db := Put keyXINTxIndex (FormatInt index) d.
Definition GetXINBlockTxIndex (d : db) : Z := get_int keyXINTxIndex d.
Definition SetFinalAmount (amount : Z) (scTxID : string) (d : db) : db :=
  Put (keyFinalAmountPrefix +:+ scTxID) (I64ToBytes amount) d.
Definition GetFinalAmount (scTxID : string) (d : db) : Z :=
  get_i64 (keyFinalAmountPrefix +:+ scTxID) d.
Definition SetETHTxHash (proposal txHash : string) (d : db) : db :=
  Put (keyETHTxHashPrefix +:+ proposal) txHash d.
Definition GetETHTxHash (proposal : string) (d : db) : string :=
  default "" (Get d (keyETHTxHashPrefix +:+ proposal)).

(** *** Join and leave requests: an encoding error drops the write *)
Definition try_put_pb {A} `{Proto A} (key : bytes) (a : A) (d : db) : db :=
  match Marshal a with Some b => Put key b d | None => d end.
Definition SetJoinNodeInfo (msg : JoinRequest) (d : db) : db := try_put_pb keyJoinNodeInfo msg d.
Definition GetJoinNodeInfo (d : db) : pan (option JoinRequest) := get_pb keyJoinNodeInfo d.
Definition DeleteJoinNodeInfo (d : db) : db := Delete keyJoinNodeInfo d.
Definition SetLeaveNodeInfo (msg : LeaveRequest) (d : db) : db := try_put_pb keyLeaveNodeInfo msg d.
Definition GetLeaveNodeInfo (d : db) : pan (option LeaveRequest) := get_pb keyLeaveNodeInfo d.
Definition DeleteLeaveNodeInfo (d : db) : db := Delete keyLeaveNodeInfo d.

(** [timestamp] is [util.NowMs()]. *)
Definition SetAccuseRecord (timestamp : Z) (term localNodeId leaderNodeId accuseType : Z)
    (reason : string) (d : db) : db :=
  try_put_pb (keyAccuseRecordsPrefix +:+ FormatInt timestamp)
    {| ar_Term := term; ar_LocalId := localNodeId; ar_LeaderId := leaderNodeId;
       ar_AccuseType := accuseType; ar_Timestamp := timestamp; ar_Reason := reason |} d.
Definition GetAccuseRecords (d : db) : list (bytes * bytes) :=
  NewIteratorWithPrefix d keyAccuseRecordsPrefix.

(** *** Cluster snapshots *)
Definition SetClusterSnapshot (scriptAddress : string) (snapshot : Snapshot) (d : db) : pan db :=
  data ← error_is_nil (json_Marshal snapshot);
  mret (Put (keyClusterSnapshotPrefix +:+ scriptAddress) data d).
Definition GetClusterSnapshotIter (d : db) : list (bytes * bytes) :=
  NewIteratorWithPrefix d keyClusterSnapshotPrefix.
Definition GetClusterSnapshot (scriptAddress : string) (d : db) : option Snapshot :=
  (λ data, json_Unmarshal data json_zero) <$> Get d (keyClusterSnapshotPrefix +:+ scriptAddress).
Definition SetMultiSigSnapshot (snapshot : list MultiSigInfo) (d : db) : pan db :=
  data ← error_is_nil (json_Marshal snapshot); mret (Put keyMultiSigSnapshot data d).
Definition GetMultiSigSnapshot (d : db) : list MultiSigInfo :=
  match Get d keyMultiSigSnapshot with
  | None => []
  | Some data => json_Unmarshal data json_zero
  end.
End DbOps.

(** * Lemmas *)

(** Distinct keys: two texts that differ in a leading character. *)
Ltac key_ne :=
  let H := fresh in intros H;
  repeat match type of H with ?l = ?r =>
    first [ progress unfold chain_key, id_key, sign_failed_key in H
          | progress (let l' := eval hnf in l in change l with l' in H)
          | progress (let r' := eval hnf in r in change r with r' in H)
          | discriminate H
          | apply (f_equal (λ s, match s with String _ t => t | EmptyString => EmptyString end)) in H;
            cbv beta iota in H ]
  end.

Section DbLemmas.
Context `{KV} `{Wire}.
Implicit Types d : db.

Lemma put_pb_Val {A} `{Proto A} key (a : A) d d' :
  put_pb key a d = Val d' ↔ ∃ b, Marshal a = Some b ∧ d' = Put key b d.
Proof.
  unfold put_pb. rewrite pan_bind_Val. split.
  - intros (b & ?%error_is_nil_Val & [= <-]). by exists b.
  - intros (b & Hb & ->). exists b. by rewrite Hb.
Qed.
Lemma put_pb_same {A} `{Proto A} key (a : A) d d' :
  put_pb key a d = Val d' → same_but (eq key) d d'.
Proof. intros (b & _ & ->)%put_pb_Val. apply same_but_put. Qed.
Lemma get_pb_put_pb {A} `{Proto A} key (a : A) d d' :
  put_pb key a d = Val d' → get_pb key d' = Val (Some a).
Proof.
  intros (b & Hb & ->)%put_pb_Val. unfold get_pb. rewrite Get_Put.
  by rewrite (Unmarshal_Marshal _ _ Hb).
Qed.
Lemma get_pb_ext {A} `{Proto A} key d d' :
  Get d' key = Get d key → get_pb (A:=A) key d' = get_pb key d.
Proof. unfold get_pb. by intros ->. Qed.

Lemma GetNodeTerm_SetNodeTerm term d d' :
  i64 term → SetNodeTerm term d = Val d' → GetNodeTerm d' = Val term ∧ 0 ≤ term.
Proof.
  intros Hi Hs. apply pan_bind_Val in Hs as ([] & Ht%assert_true_Val & [= <-]).
  split; [|by apply Z.leb_le].
  apply pan_bind_Val. exists (I64ToBytes term). split; [apply error_is_nil_Val, Get_Put|].
  apply pan_bind_Val. exists term. split; [by apply error_is_nil_Val, BytesToI64_I64ToBytes|].
  apply pan_bind_Val. exists tt. split; [by apply assert_true_Val|done].
Qed.
Lemma SetNodeTerm_same term d d' : SetNodeTerm term d = Val d' → same_but (eq keyTerm) d d'.
Proof. intros ([] & _ & [= <-])%pan_bind_Val. apply same_but_put. Qed.
Lemma GetNodeTerm_ext d d' : Get d' keyTerm = Get d keyTerm → GetNodeTerm d' = GetNodeTerm d.
Proof. unfold GetNodeTerm. by intros ->. Qed.
Lemma GetNodeTerm_range d t : GetNodeTerm d = Val t → 0 ≤ t ∧ i64 t.
Proof.
  unfold GetNodeTerm. intros (b & _ & (t' & Ht%error_is_nil_Val & ([] & Hp%assert_true_Val & [= <-])
    %pan_bind_Val)%pan_bind_Val)%pan_bind_Val. apply Z.leb_le in Hp. split; [done|].
  unfold BytesToI64 in Ht. apply fmap_Some in Ht as (u & _ & ->). apply wrap64_range.
Qed.

Lemma SetFresh_same f d d' : SetFresh f d = Val d' → same_but (eq keyFresh) d d'.
Proof.
  destruct f; cbn; [apply put_pb_same|]. intros [= <-]. apply same_but_delete.
Qed.
Lemma GetFresh_SetFresh f d d' : SetFresh f d = Val d' → GetFresh d' = Val f.
Proof.
  destruct f; cbn; [apply get_pb_put_pb|]. intros [= <-].
  unfold GetFresh, get_pb. by rewrite Get_Delete.
Qed.
Lemma SetVotie_same v d d' : SetVotie v d = Val d' → same_but (eq keyVotie) d d'.
Proof. apply put_pb_same. Qed.
Lemma GetVotie_SetVotie v d d' : SetVotie v d = Val d' → GetVotie d' = Val v.
Proof.
  intros (b & Hb & ->)%put_pb_Val. unfold GetVotie. rewrite Get_Put /=.
  by rewrite (Unmarshal_Marshal _ _ Hb).
Qed.
Lemma SetWeakAccuses_same a d d' : SetWeakAccuses a d = Val d' → same_but (eq keyWeakAccuses) d d'.
Proof. destruct a; cbn; [apply put_pb_same|]. intros [= <-]. apply same_but_delete. Qed.
Lemma GetWeakAccuses_SetWeakAccuses a d d' :
  SetWeakAccuses a d = Val d' → GetWeakAccuses d' = Val (default EmptyWeakAccuses a).
Proof.
  unfold GetWeakAccuses. destruct a; cbn.
  - intros Hp. by rewrite (get_pb_put_pb _ _ _ _ Hp).
  - intros [= <-]. unfold get_pb. by rewrite Get_Delete.
Qed.
Lemma SetLastTermAccuse_same a d d' :
  SetLastTermAccuse a d = Val d' → same_but (eq keyLastTermAccuse) d d'.
Proof. destruct a; cbn; [apply put_pb_same|]. intros [= <-]. apply same_but_delete. Qed.
Lemma GetLastTermAccuse_SetLastTermAccuse a d d' :
  SetLastTermAccuse a d = Val d' → GetLastTermAccuse d' = Val a.
Proof.
  destruct a; cbn; [apply get_pb_put_pb|]. intros [= <-].
  unfold GetLastTermAccuse, get_pb. by rewrite Get_Delete.
Qed.

(** ** The chain as a list *)

(** The store [d] holds the chain [l]: the block of height [i] under its
    height, its height under its id, ids all different, and nothing else
    under the two prefixes. *)
Record chain_rep d (l : list BlockPack) : Prop := {
  rep_len : Z.of_nat (length l) < 2^63;
  rep_keys : ∀ r v, Get d (keyCommitChainPrefix +:+ r) = Some v →
    ∃ i, (i < length l)%nat ∧ r = I64ToBytes (Z.of_nat i);
  rep_at : ∀ i bp, l !! i = Some bp →
    ∃ b, Get d (chain_key (Z.of_nat i)) = Some b ∧ Unmarshal b = Some bp;
  rep_height : ∀ i bp, l !! i = Some bp → bp_Height bp = Val (Z.of_nat i);
  rep_ids : ∀ i bp, l !! i = Some bp → ∃ x, bp_BlockId bp = Val (Some x);
  rep_id : ∀ x b, Get d (keyCommitHsByIdsPrefix +:+ x) = Some b ↔
    ∃ i bp, l !! i = Some bp ∧ bp_BlockId bp = Val (Some (Digest x)) ∧ b = I64ToBytes (Z.of_nat i);
  rep_uniq : ∀ i j bp bp' x, l !! i = Some bp → l !! j = Some bp' →
    bp_BlockId bp = Val (Some x) → bp_BlockId bp' = Val (Some x) → i = j
}.

Lemma chain_rep_ext d d' l :
  (∀ r, Get d' (keyCommitChainPrefix +:+ r) = Get d (keyCommitChainPrefix +:+ r)) →
  (∀ r, Get d' (keyCommitHsByIdsPrefix +:+ r) = Get d (keyCommitHsByIdsPrefix +:+ r)) →
  chain_rep d l → chain_rep d' l.
Proof.
  intros HB HH [H1 H2 H3 H4 H5 H6 H7]. split; try done.
  - intros r v. rewrite HB. apply H2.
  - intros i bp Hi. unfold chain_key. rewrite HB. by apply H3.
  - intros x b. rewrite HH. apply H6.
Qed.
Lemma chain_rep_same (ks : bytes → Prop) d d' l :
  same_but ks d d' → (∀ r, ¬ ks (keyCommitChainPrefix +:+ r)) →
  (∀ r, ¬ ks (keyCommitHsByIdsPrefix +:+ r)) → chain_rep d l → chain_rep d' l.
Proof. intros Hs HB HH. apply chain_rep_ext; intros r; apply Hs; auto. Qed.

Lemma chain_key_inj i j : i64 i → i64 j → chain_key i = chain_key j → i = j.
Proof. intros Hi Hj E%app_inj_l. by apply I64ToBytes_inj_on. Qed.

Lemma rep_get d l i :
  chain_rep d l → 0 ≤ i < 2^63 →
  (∃ bp b, l !! Z.to_nat i = Some bp ∧ Get d (chain_key i) = Some b ∧ Unmarshal b = Some bp) ∨
  (l !! Z.to_nat i = None ∧ Get d (chain_key i) = None).
Proof.
  intros Hr Hi. destruct (l !! Z.to_nat i) as [bp|] eqn:E.
  - left. destruct (rep_at d l Hr _ _ E) as (b & Hb & Hu). rewrite Z2Nat.id in Hb; [|lia]. eauto 10.
  - right. split; [done|]. destruct (Get d (chain_key i)) as [v|] eqn:Eg; [|done].
    destruct (rep_keys d l Hr _ _ Eg) as (j & Hj & He). pose proof (rep_len d l Hr).
    apply I64ToBytes_inj_on in He; [|unfold i64; lia..]. subst i. rewrite Nat2Z.id in E.
    apply lookup_ge_None in E. lia.
Qed.

(** The entries under the block prefix, in height order. *)
Lemma rep_last d l :
  chain_rep d l →
  match last l with
  | None => last (NewIteratorWithPrefix d keyCommitChainPrefix) = None
  | Some bp => ∃ b, last (NewIteratorWithPrefix d keyCommitChainPrefix) =
                    Some (chain_key (Z.of_nat (length l) - 1), b) ∧ Unmarshal b = Some bp
  end.
Proof.
  intros Hr. pose proof (rep_len d l Hr). pose proof (iterator_sorted d keyCommitChainPrefix) as Hs.
  destruct (last (NewIteratorWithPrefix d keyCommitChainPrefix)) as [[k v]|] eqn:El.
  - apply sorted_last in El as [Hin Hmax]; [|done].
    apply elem_of_prefix in Hin as [Hg [r ->]].
    destruct (rep_keys d l Hr _ _ Hg) as (i & Hi & ->).
    destruct (last l) as [bp|] eqn:Ell; [|apply last_None in Ell; subst; cbn in Hi; lia].
    rewrite last_lookup in Ell.
    destruct (rep_at d l Hr _ _ Ell) as (b & Hb & Hu).
    assert (Nat.pred (length l) = i) as <-.
    { destruct (Hmax (chain_key (Z.of_nat (Nat.pred (length l))), b)) as [Hx|Hx].
      - apply elem_of_prefix. split; [done|]. by eexists.
      - apply (f_equal fst), chain_key_inj in Hx; [lia|unfold i64; lia..].
      - unfold bytes_lt, chain_key in Hx. cbn [fst] in Hx. rewrite bytes_ltb_app in Hx.
        rewrite I64ToBytes_lt in Hx; [|lia..]. to_prop. lia. }
    exists b. split; [|done]. unfold chain_key in Hb. rewrite Hb in Hg. injection Hg as <-.
    do 3 f_equal. unfold chain_key. do 2 f_equal. lia.
  - apply last_None in El. destruct (last l) as [bp|] eqn:Ell; [|done].
    rewrite last_lookup in Ell. destruct (rep_at d l Hr _ _ Ell) as (b & Hb & Hu).
    assert ((chain_key (Z.of_nat (Nat.pred (length l))), b) ∈ NewIteratorWithPrefix d keyCommitChainPrefix)
      as Hin by (apply elem_of_prefix; split; [done|by eexists]).
    rewrite El in Hin. by apply elem_of_nil in Hin.
Qed.
End DbLemmas.

Lemma substring_all s : String.substring 0 (String.length s) s = s.
Proof. induction s as [|c s IH]; [done|]. cbn. by rewrite IH. Qed.

Section ChainQueries.
Context `{KV} `{Wire}.
Implicit Types d : db.

Lemma rep_GetCommitHeight d l :
  chain_rep d l → GetCommitHeight d = Val (Z.of_nat (length l) - 1).
Proof.
  intros Hr. pose proof (rep_last d l Hr) as Hl. pose proof (rep_len d l Hr). unfold GetCommitHeight.
  destruct (last l) as [bp|] eqn:E.
  - destruct Hl as (b & -> & _).
    assert (1 ≤ length l)%nat by (destruct l; [done|cbn; lia]).
    apply pan_bind_Val. exists (Z.of_nat (length l) - 1). split.
    + apply error_is_nil_Val. unfold chain_key. rewrite str_app_cons str_app_nil.
      cbn [String.length String.substring]. rewrite Nat.sub_succ Nat.sub_0_r substring_all.
      apply BytesToI64_I64ToBytes. unfold i64. lia.
    + apply pan_bind_Val. exists tt. split; [|done]. apply assert_true_Val, Z.leb_le. lia.
  - rewrite Hl. apply last_None in E. by subst.
Qed.
Lemma rep_GetCommitTop d l : chain_rep d l → GetCommitTop d = Val (last l).
Proof.
  intros Hr. pose proof (rep_last d l Hr) as Hl. unfold GetCommitTop.
  destruct (last l) as [bp|] eqn:E; [|by rewrite Hl].
  destruct Hl as (b & -> & Hu). by rewrite Hu.
Qed.
Lemma rep_GetCommitByHeight d l h :
  chain_rep d l → 0 ≤ h < 2^63 → GetCommitByHeight h d = Val (l !! Z.to_nat h).
Proof.
  intros Hr Hh. apply pan_bind_Val. exists tt. split; [apply assert_true_Val, Z.leb_le; lia|].
  unfold get_pb. destruct (rep_get d l h Hr Hh) as [(bp & b & Hl & Hg & Hu)|[Hl Hg]]; rewrite Hl Hg.
  - by rewrite Hu.
  - done.
Qed.
Lemma rep_IsCommitted d l x :
  chain_rep d l →
  ∃ r, IsCommitted (Some x) d = Val r ∧
    (r = true ↔ ∃ bp, bp ∈ l ∧ bp_BlockId bp = Val (Some x)).
Proof.
  intros Hr. eexists. split; [reflexivity|]. rewrite bool_decide_eq_true. split.
  - intros [b Hb]. apply (rep_id d l Hr) in Hb as (i & bp & Hl & Hi & _).
    exists bp. split; [by eapply list_elem_of_lookup_2|]. by destruct x.
  - intros (bp & [i Hl]%list_elem_of_lookup & Hi). eexists. apply (rep_id d l Hr).
    exists i, bp. split_and!; [done| |done]. by destruct x.
Qed.
Lemma rep_not_committed d l i :
  chain_rep d l → IsCommitted i d = Val false →
  ∃ x, i = Some x ∧ ∀ bp, bp ∈ l → bp_BlockId bp ≠ Val (Some x).
Proof.
  intros Hr Hc. destruct i as [x|]; [|done]. exists x. split; [done|]. intros bp Hin Hx.
  destruct (rep_IsCommitted d l x Hr) as (r & Hr1 & Hr2). rewrite Hc in Hr1. injection Hr1 as <-.
  enough (false = true) by done. apply Hr2. by exists bp.
Qed.
Lemma rep_GetCommitByID d l x :
  chain_rep d l →
  ∃ r, GetCommitByID (Some x) d = Val r ∧
    (∀ bp, r = Some bp ↔ bp ∈ l ∧ bp_BlockId bp = Val (Some x)).
Proof.
  intros Hr. unfold GetCommitByID. cbn [deref mbind pan_bind]. unfold id_key.
  destruct (Get d (keyCommitHsByIdsPrefix +:+ Data x)) as [b|] eqn:E.
  - pose proof E as E'. apply (rep_id d l Hr) in E' as (i & bp & Hl & Hi & ->).
    apply lookup_lt_Some in Hl as Hlt. pose proof (rep_len d l Hr).
    rewrite BytesToI64_I64ToBytes; [|unfold i64; lia].
    rewrite (rep_GetCommitByHeight d l); [|done|lia]. rewrite Nat2Z.id Hl.
    eexists. split; [reflexivity|]. intros bp'. split.
    + intros [= <-]. split; [by eapply list_elem_of_lookup_2|]. by destruct x.
    + intros [[j Hl']%list_elem_of_lookup Hi'].
      assert (i = j) as <-; [|congruence].
      eapply (rep_uniq d l Hr); [done|done|done|]. by destruct x.
  - eexists. split; [reflexivity|]. intros bp. split; [done|].
    intros [[i Hl]%list_elem_of_lookup Hi]. exfalso.
    assert (Get d (keyCommitHsByIdsPrefix +:+ Data x) = Some (I64ToBytes (Z.of_nat i))) as Hg.
    { apply (rep_id d l Hr). exists i, bp. split_and!; [done| |done]. by destruct x. }
    congruence.
Qed.

(** C36. On a store that holds the chain [l], every query answers as on the
    list: the height is the length less one, the top is the last block, a
    block is found by its height and by its id, and an id is committed
    exactly if a block of the chain has it. *)
Theorem chain_queries (d : db) (l : list BlockPack) :
  chain_rep d l →
  GetCommitHeight d = Val (Z.of_nat (length l) - 1) ∧
  GetCommitTop d = Val (last l) ∧
  (∀ h, 0 ≤ h < 2^63 → GetCommitByHeight h d = Val (l !! Z.to_nat h)) ∧
  (∀ x, ∃ r, IsCommitted (Some x) d = Val r ∧
     (r = true ↔ ∃ bp, bp ∈ l ∧ bp_BlockId bp = Val (Some x))) ∧
  (∀ x, ∃ r, GetCommitByID (Some x) d = Val r ∧
     (∀ bp, r = Some bp ↔ bp ∈ l ∧ bp_BlockId bp = Val (Some x))).
Proof.
  intros Hr. split_and!.
  - by apply rep_GetCommitHeight.
  - by apply rep_GetCommitTop.
  - intros. by apply rep_GetCommitByHeight.
  - intros. by apply rep_IsCommitted.
  - intros. by apply rep_GetCommitByID.
Qed.

(** The two writes of [JustCommitIt]. *)
Lemma JustCommitIt_Ret bp d d' :
  JustCommitIt bp d = Ret tt d' →
  ∃ b h x, Marshal bp = Some b ∧ bp_Height bp = Val h ∧ bp_BlockId bp = Val (Some x) ∧
    d' = Put (id_key x) (I64ToBytes h) (Put (chain_key h) b d).
Proof.
  unfold JustCommitIt, mbind, go_bind, lift, modify.
  destruct (Marshal bp) as [b|]; [|done]. cbn [error_is_nil].
  destruct (bp_Height bp) as [h|]; [|done].
  destruct (bp_BlockId bp) as [[x|]|]; [|done..]. cbn [deref].
  intros [= <-]. by exists b, h, x.
Qed.
Lemma JustCommitIt_same bp d :
  same_but (λ k, ∃ r, k = keyCommitChainPrefix +:+ r ∨ k = keyCommitHsByIdsPrefix +:+ r) d
    (end_state (JustCommitIt bp d)).
Proof.
  unfold JustCommitIt, mbind, go_bind, lift, modify.
  destruct (Marshal bp) as [b|]; [|done]. cbn [error_is_nil].
  destruct (bp_Height bp) as [h|]; [|done].
  assert (same_but (λ k, ∃ r, k = keyCommitChainPrefix +:+ r ∨ k = keyCommitHsByIdsPrefix +:+ r) d
            (Put (chain_key h) b d)) as H1.
  { eapply same_but_mono; [|apply same_but_put]. intros k <-. eexists. by left. }
  destruct (bp_BlockId bp) as [[x|]|]; [|done..]. cbn [deref end_state].
  eapply same_but_trans; [exact H1|]. eapply same_but_mono; [|apply same_but_put].
  intros k <-. eexists. by right.
Qed.

Lemma chain_id_ne r r' : keyCommitChainPrefix +:+ r ≠ keyCommitHsByIdsPrefix +:+ r'.
Proof. key_ne. Qed.

(** Committing the block of the next height, with an id that is new, appends
    it to the chain. *)
Lemma JustCommitIt_rep bp d d' l x :
  chain_rep d l → JustCommitIt bp d = Ret tt d' →
  bp_Height bp = Val (Z.of_nat (length l)) → Z.of_nat (length l) + 1 < 2^63 →
  bp_BlockId bp = Val (Some x) → (∀ bp', bp' ∈ l → bp_BlockId bp' ≠ Val (Some x)) →
  chain_rep d' (l ++ [bp]).
Proof.
  intros [H1 H2 H3 H4 H5 H6 H7] Hj Hh Hb Hx Hnew.
  apply JustCommitIt_Ret in Hj as (b & h & x' & Hm & Hh' & Hx' & ->).
  rewrite Hh in Hh'. injection Hh' as <-. rewrite Hx in Hx'. injection Hx' as <-.
  assert (∀ i, (i < length l)%nat → chain_key (Z.of_nat (length l)) ≠ chain_key (Z.of_nat i)) as Hck.
  { intros i Hi E. apply chain_key_inj in E; [lia|unfold i64; lia..]. }
  assert (∀ y v e, Get (Put (id_key y) v (Put (chain_key (Z.of_nat (length l))) b d))
            (keyCommitChainPrefix +:+ e) =
          Get (Put (chain_key (Z.of_nat (length l))) b d) (keyCommitChainPrefix +:+ e)) as Hgc.
  { intros y v e. apply Get_Put_ne. intros E. symmetry in E. by apply chain_id_ne in E. }
  split.
  - rewrite length_app /=. lia.
  - intros r v. rewrite Hgc length_app /=.
    destruct (decide (chain_key (Z.of_nat (length l)) = keyCommitChainPrefix +:+ r)) as [E|E].
    + intros _. exists (length l). split; [lia|]. by apply app_inj_l in E.
    + rewrite Get_Put_ne; [|done]. intros (i & ? & ->)%H2. exists i. split; [lia|done].
  - intros i bp' [[Hi Hlt]|[-> ->]]%lookup_snoc_cases.
    + unfold chain_key at 2. rewrite Hgc Get_Put_ne; [by apply H3|]. by apply Hck.
    + exists b. unfold chain_key at 2. rewrite Hgc Get_Put.
      split; [done|]. by apply Unmarshal_Marshal.
  - intros i bp' [[Hi _]|[-> ->]]%lookup_snoc_cases; [by apply H4|done].
  - intros i bp' [[Hi _]|[-> ->]]%lookup_snoc_cases; [by eapply H5|by exists x].
  - intros y v. destruct (decide (y = Data x)) as [->|Hne].
    + fold (id_key x). rewrite Get_Put. split.
      * intros [= <-]. exists (length l), bp. rewrite lookup_app_r; [|done].
        rewrite Nat.sub_diag. split_and!; [done| |done]. by destruct x.
      * intros (i & bp' & [[Hi _]|[-> ->]]%lookup_snoc_cases & Hid & ->); [|done].
        exfalso. eapply Hnew; [by eapply list_elem_of_lookup_2|]. by destruct x.
    + assert (id_key x ≠ keyCommitHsByIdsPrefix +:+ y) as Hk by (intros E%app_inj_l; congruence).
      rewrite Get_Put_ne; [|done]. rewrite Get_Put_ne; [|apply chain_id_ne]. rewrite H6. split.
      * intros (i & bp' & Hi & Hid & ->). exists i, bp'. rewrite lookup_app_l; [|by eapply lookup_lt_Some].
        done.
      * intros (i & bp' & [[Hi _]|[-> ->]]%lookup_snoc_cases & Hid & ->); [by exists i, bp'|].
        rewrite Hx in Hid. injection Hid as Hid. destruct Hne. by rewrite Hid.
  - intros i j bp1 bp2 y [[Hi _]|[-> ->]]%lookup_snoc_cases [[Hj _]|[-> ->]]%lookup_snoc_cases Hy1 Hy2; [by eapply H7| | |done].
    + exfalso. rewrite Hx in Hy2. injection Hy2 as <-.
      eapply Hnew; [by eapply list_elem_of_lookup_2|done].
    + exfalso. rewrite Hx in Hy1. injection Hy1 as <-.
      eapply Hnew; [by eapply list_elem_of_lookup_2|done].
Qed.
End ChainQueries.

Section ChainRange.
Context `{KV} `{Wire}.
Implicit Types d : db.

Definition entry_at d (h : Z) : option (bytes * bytes) :=
  b ← Get d (chain_key h); Some (chain_key h, b).

Lemma entries_seq_sorted d n start :
  0 ≤ start → start + Z.of_nat n < 2^63 →
  StronglySorted (λ e e' : bytes * bytes, bytes_lt e.1 e'.1) (omap (entry_at d) (seqZ start (Z.of_nat n))).
Proof.
  revert start. induction n as [|n IH]; intros start Hs Hb; [constructor|].
  rewrite seqZ_cons; [|lia]. replace (Z.pred (Z.of_nat (S n))) with (Z.of_nat n) by lia. cbn.
  specialize (IH (Z.succ start)). destruct (entry_at d start) as [e|] eqn:E; [|apply IH; lia].
  constructor; [apply IH; lia|]. apply Forall_forall. intros e' (h & Hh%elem_of_seqZ & He')%list_elem_of_omap.
  unfold entry_at in *. apply bind_Some in E as (b & _ & [= <-]), He' as (b' & _ & [= <-]). cbn.
  unfold bytes_lt, chain_key. rewrite bytes_ltb_app I64ToBytes_lt; [|lia..]. apply Z.ltb_lt. lia.
Qed.

Lemma range_prefix (a b k : bytes) :
  bytes_ltb k (keyCommitChainPrefix +:+ a) = false →
  bytes_ltb k (keyCommitChainPrefix +:+ b) = true → ∃ r, k = keyCommitChainPrefix +:+ r.
Proof.
  unfold keyCommitChainPrefix. rewrite !str_app_cons !str_app_nil.
  destruct k as [|c k]; [done|]. cbn [bytes_ltb].
  destruct (byte_val c =? byte_val "B") eqn:E.
  - to_prop. apply byte_val_inj in E as ->. intros _ _. exists k. by rewrite str_app_cons.
  - intros H1 H2. to_prop. lia.
Qed.

Lemma unmarshal_all_omap d l (hs : list Z) :
  chain_rep d l → Forall (λ h, 0 ≤ h < 2^63) hs →
  unmarshal_all (omap (entry_at d) hs) = Val (omap (λ h, l !! Z.to_nat h) hs).
Proof.
  intros Hr. induction 1 as [|h hs Hh _ IH]; [done|]. cbn. unfold entry_at at 1.
  destruct (rep_get d l h Hr Hh) as [(bp & b & Hl & Hg & Hu)|[Hl Hg]]; rewrite Hl Hg; cbn; [|done].
  by rewrite Hu /= IH.
Qed.

(** C33. [JustCommitIt] never fails on a block that can be encoded, has the next
    height and a new id: it appends the block to the chain and touches no key
    outside the chain. *)
Theorem JustCommitIt_appends (bp : BlockPack) (d : db) (l : list BlockPack) (x : Digest256) :
  chain_rep d l → is_Some (Marshal bp) →
  bp_Height bp = Val (Z.of_nat (length l)) → Z.of_nat (length l) + 1 < 2^63 →
  bp_BlockId bp = Val (Some x) → (∀ bp', bp' ∈ l → bp_BlockId bp' ≠ Val (Some x)) →
  ∃ d', JustCommitIt bp d = Ret tt d' ∧ chain_rep d' (l ++ [bp]) ∧
    same_but (λ k, ∃ r, k = keyCommitChainPrefix +:+ r ∨ k = keyCommitHsByIdsPrefix +:+ r) d d'.
Proof.
  intros Hr [b Hb] Hh Hlen Hx Hnew.
  assert (∃ d', JustCommitIt bp d = Ret tt d') as [d' Hd'].
  { unfold JustCommitIt. rewrite Hb Hh Hx. by eexists. }
  exists d'. split_and!; [done|by eapply JustCommitIt_rep|].
  pose proof (JustCommitIt_same bp d) as Hs. by rewrite Hd' in Hs.
Qed.

(** The range query returns the blocks of the heights in
    [start, end), in height order. *)
Theorem GetCommitsByHeightSec_spec (d : db) (l : list BlockPack) (start end_ : Z) :
  chain_rep d l → 0 ≤ start → end_ < 2^63 →
  GetCommitsByHeightSec start end_ d =
  Val (omap (λ h, l !! Z.to_nat h) (seqZ start (end_ - start))).
Proof.
  intros Hr Hs He. unfold GetCommitsByHeightSec.
  destruct (start >=? end_) eqn:E; to_prop.
  { rewrite seqZ_nil; [done|lia]. }
  rewrite -(unmarshal_all_omap d l); [|done|].
  2:{ apply Forall_forall. intros h Hh%elem_of_seqZ. lia. }
  f_equal. apply entries_ext.
  - apply filter_sorted, kv_entries_sorted.
  - replace (end_ - start) with (Z.of_nat (Z.to_nat (end_ - start))) by lia.
    apply entries_seq_sorted; lia.
  - intros [k v]. unfold NewIteraterWithRange.
    rewrite list_elem_of_filter kv_entries_get list_elem_of_omap /=. split.
    + intros [Hin Hg]. apply andb_true_iff in Hin as [H1%negb_true_iff H2].
      destruct (range_prefix _ _ _ H1 H2) as [r ->].
      destruct (rep_keys d l Hr _ _ Hg) as (i & Hi & ->). pose proof (rep_len d l Hr).
      unfold chain_key in H1, H2. rewrite bytes_ltb_app I64ToBytes_lt in H1; [|lia..].
      rewrite bytes_ltb_app I64ToBytes_lt in H2; [|lia..]. to_prop.
      exists (Z.of_nat i). rewrite elem_of_seqZ. split; [lia|]. unfold entry_at, chain_key, Get.
      by rewrite Hg.
    + intros (h & Hh%elem_of_seqZ & He'). unfold entry_at in He'.
      apply bind_Some in He' as (b & Hg & [= <- <-]). split; [|done].
      unfold chain_key. rewrite !bytes_ltb_app !I64ToBytes_lt; [|lia..].
      apply andb_true_iff. rewrite negb_true_iff Z.ltb_ge Z.ltb_lt. lia.
Qed.

(** The store that [InitDB] starts from: what it deletes first. *)
Definition cleared d : db :=
  DeleteWithPrefix keyCommitHsByIdsPrefix (DeleteWithPrefix keyCommitChainPrefix
    (Delete keyLastBchBlockHeader (Delete keyVotie (Delete keyFresh (Delete keyWeakAccuses
      (Delete keyLastTermAccuse (Delete keyTerm d))))))).
Lemma cleared_chain d r : Get (cleared d) (keyCommitChainPrefix +:+ r) = None.
Proof.
  unfold cleared. rewrite DeleteWithPrefix_spec (DeleteWithPrefix_spec keyCommitChainPrefix).
  rewrite prefix_app. by destruct (String.prefix _ _).
Qed.
Lemma cleared_ids d r : Get (cleared d) (keyCommitHsByIdsPrefix +:+ r) = None.
Proof. unfold cleared. by rewrite DeleteWithPrefix_spec prefix_app. Qed.
Lemma cleared_other d k :
  String.prefix keyCommitChainPrefix k = false → String.prefix keyCommitHsByIdsPrefix k = false →
  Get (cleared d) k = Get (Delete keyLastBchBlockHeader (Delete keyVotie (Delete keyFresh
    (Delete keyWeakAccuses (Delete keyLastTermAccuse (Delete keyTerm d)))))) k.
Proof. intros H1 H2. unfold cleared. by rewrite !DeleteWithPrefix_spec H1 H2. Qed.
Lemma InitDB_run genesis d x b v bv :
  Marshal genesis = Some b → bp_Height genesis = Val 0 → bp_BlockId genesis = Val (Some x) →
  ToVotie genesis = Val v → Marshal v = Some bv →
  InitDB genesis d =
    JustCommitIt genesis (Put keyVotie bv (Put keyTerm (I64ToBytes 0) (cleared d))) ∧
  JustCommitIt genesis (Put keyVotie bv (Put keyTerm (I64ToBytes 0) (cleared d))) =
    Ret tt (Put (id_key x) (I64ToBytes 0) (Put (chain_key 0) b
      (Put keyVotie bv (Put keyTerm (I64ToBytes 0) (cleared d))))).
Proof.
  intros Hm Hh Hx Hv Hmv. split.
  - unfold InitDB, mbind, go_bind, modify, updates, lift.
    unfold SetNodeTerm. cbn [Z.leb Z.compare assert_true mbind pan_bind mret pan_ret].
    rewrite Hv. unfold SetVotie, put_pb. by rewrite Hmv.
  - unfold JustCommitIt, mbind, go_bind, lift, modify. by rewrite Hm Hh Hx.
Qed.

(** [InitDB] leaves the chain that holds the genesis block alone, term 0,
    the genesis votie and no fresh block or accusation, whatever the store
    held before; the transaction index is kept. *)
Theorem InitDB_spec (genesis : BlockPack) (d : db) (x : Digest256) :
  is_Some (Marshal genesis) → bp_Height genesis = Val 0 → bp_BlockId genesis = Val (Some x) →
  (∃ v, ToVotie genesis = Val v ∧ is_Some (Marshal v)) →
  ∃ d', InitDB genesis d = Ret tt d' ∧ chain_rep d' [genesis] ∧ GetNodeTerm d' = Val 0 ∧
    GetFresh d' = Val None ∧ GetWeakAccuses d' = Val EmptyWeakAccuses ∧
    GetLastTermAccuse d' = Val None ∧ (∃ v, ToVotie genesis = Val v ∧ GetVotie d' = Val v) ∧
    ∀ r, Get d' (keyTxPrefix +:+ r) = Get d (keyTxPrefix +:+ r).
Proof.
  intros [b Hm] Hh Hx (v & Hv & [bv Hmv]).
  destruct (InitDB_run genesis d x b v bv Hm Hh Hx Hv Hmv) as [HI HJ]. rewrite HJ in HI.
  set (d1 := cleared d) in *.
  set (d2 := Put keyVotie bv _) in *. set (d3 := Put (id_key x) (I64ToBytes 0) (Put (chain_key 0) b d2)).
  exists d3. split; [exact HI|].
  assert (∀ k, (∀ y, id_key y ≠ k) → (∀ z, chain_key z ≠ k) → Get d3 k = Get d2 k) as G3.
  { intros k Hi Hc. unfold d3. rewrite Get_Put_ne; [|apply Hi]. apply Get_Put_ne, Hc. }
  assert (∀ k, keyVotie ≠ k → keyTerm ≠ k → Get d2 k = Get d1 k) as G2.
  { intros k Hi Hc. unfold d2. rewrite Get_Put_ne; [|apply Hi]. apply Get_Put_ne, Hc. }
  assert (∀ r, Get d1 (keyCommitChainPrefix +:+ r) = None) as B1 by apply cleared_chain.
  assert (∀ r, Get d1 (keyCommitHsByIdsPrefix +:+ r) = None) as B2 by apply cleared_ids.
  pose proof (cleared_other d) as G1. fold d1 in G1.
  assert (chain_rep d2 []) as Hr2.
  { split; cbn; try done.
    - intros r v'. rewrite G2; [by rewrite B1|key_ne..].
    - intros y v'. rewrite G2; [rewrite B2|key_ne..]. split; [done|]. by intros (i & bp & ? & _).
    }
  split_and!.
  - apply (JustCommitIt_rep genesis d2 d3 [] x); try done.
    by intros bp' ?%elem_of_nil.
  - unfold GetNodeTerm. rewrite G3; [|intros; key_ne..]. unfold d2.
    rewrite Get_Put_ne; [|key_ne]. rewrite Get_Put. by vm_compute.
  - unfold GetFresh, get_pb. rewrite G3; [|intros; key_ne..]. rewrite G2; [|key_ne..].
    rewrite G1; [|done..]. do 2 (rewrite Get_Delete_ne; [|key_ne]). by rewrite Get_Delete.
  - unfold GetWeakAccuses, get_pb. rewrite G3; [|intros; key_ne..]. rewrite G2; [|key_ne..].
    rewrite G1; [|done..]. do 3 (rewrite Get_Delete_ne; [|key_ne]). by rewrite Get_Delete.
  - unfold GetLastTermAccuse, get_pb. rewrite G3; [|intros; key_ne..]. rewrite G2; [|key_ne..].
    rewrite G1; [|done..]. do 4 (rewrite Get_Delete_ne; [|key_ne]). by rewrite Get_Delete.
  - exists v. split; [done|]. unfold GetVotie. rewrite G3; [|intros; key_ne..].
    unfold d2. rewrite Get_Put. cbn [error_is_nil mbind pan_bind]. by rewrite (Unmarshal_Marshal _ _ Hmv).
  - intros r. rewrite G3; [|intros; key_ne..]. rewrite G2; [|key_ne..].
    rewrite G1; [|done..]. by do 6 (rewrite Get_Delete_ne; [|key_ne]).
Qed.
End ChainRange.

Section Misc.
Context `{KV} `{Wire}.
Implicit Types d : db.

Lemma big_SetBytes_app a b acc : big_SetBytes acc (a +:+ b) = big_SetBytes (big_SetBytes acc a) b.
Proof. revert acc. induction a as [|c a IH]; intros acc; [done|]. rewrite str_app_cons /=. auto. Qed.
Lemma big_SetBytes_be n v acc :
  0 ≤ v < 256 ^ Z.of_nat n → big_SetBytes acc (be n v) = acc * 256 ^ Z.of_nat n + v.
Proof.
  revert v acc. induction n as [|n IH]; intros v acc Hv; [cbn in *; lia|].
  rewrite be_snoc big_SetBytes_app. rewrite Nat2Z.inj_succ Z.pow_succ_r in Hv |- *; [|lia..].
  rewrite IH.
  - cbn [big_SetBytes]. rewrite byte_val_byte. pose proof (Z.div_mod v 256 ltac:(lia)). lia.
  - split; [apply Z.div_pos; lia|apply Z.div_lt_upper_bound; lia].
Qed.
Lemma big_SetBytes_Bytes z : big_SetBytes 0 (big_Bytes z) = Z.abs z.
Proof.
  unfold big_Bytes. destruct (Z.abs z =? 0) eqn:E; to_prop; [by rewrite E|].
  pose proof (Z.log2_nonneg (Z.abs z)). pose proof (Z.div_pos (Z.log2 (Z.abs z)) 8).
  rewrite big_SetBytes_be; [lia|]. split; [lia|]. rewrite Z2Nat.id; [|lia].
  change 256 with (2^8). rewrite -Z.pow_mul_r; [|lia..].
  eapply Z.lt_le_trans; [apply (Z.log2_spec (Z.abs z)); lia|].
  apply Z.pow_le_mono_r; [lia|].
  pose proof (Z.div_mod (Z.log2 (Z.abs z)) 8). pose proof (Z.mod_pos_bound (Z.log2 (Z.abs z)) 8). lia.
Qed.

(** The watched heights, transaction indices and final amounts are read
    back as they were written: 64-bit numbers as big-endian bytes, indices as
    decimal text, and the ETH height as an unsigned big integer. *)
Theorem watch_state_roundtrip (d : db) (chain txid : string) (h : Z) :
  i64 h →
  GetCurrentHeight chain (SetCurrentHeight chain h d) = h ∧
  GetXINBlockHeight (SetXINBlockHeight h d) = h ∧
  GetFinalAmount txid (SetFinalAmount h txid d) = h ∧
  GetETHBlockTxIndex (SetETHBlockTxIndex h d) = h ∧
  GetXINBlockTxIndex (SetXINBlockTxIndex h d) = h ∧
  GetETHBlockHeight (SetETHBlockHeight h d) = Some (Z.abs h).
Proof.
  intros Hh. unfold GetCurrentHeight, GetXINBlockHeight, GetFinalAmount, GetETHBlockTxIndex,
    GetXINBlockTxIndex, GetETHBlockHeight, get_i64, get_int.
  rewrite !Get_Put !BytesToI64_I64ToBytes; [|done]. rewrite !Atoi_FormatInt; [|done].
  cbn [default]. split_and!; try done. cbn. by rewrite big_SetBytes_Bytes.
Qed.

(** The key of the multi-signature snapshot lies in the key space of the
    transaction map: recording a chain transaction whose id is S overwrites
    the snapshot; any other id leaves it alone. *)
Theorem SetTxIdMap_multisig_key (d d' : db) (scTxId : string) (x : Digest256) :
  SetTxIdMap scTxId (Some x) d = Val d' →
  GetTxIdBySidechainTxId scTxId d' = Some x ∧
  (scTxId = "S" → Get d' keyMultiSigSnapshot = Some (Data x)) ∧
  (scTxId ≠ "S" → GetMultiSigSnapshot d' = GetMultiSigSnapshot d).
Proof.
  intros [= <-]. split_and!.
  - unfold GetTxIdBySidechainTxId. rewrite Get_Put. by destruct x.
  - intros ->. apply Get_Put.
  - intros Hne. unfold GetMultiSigSnapshot. rewrite Get_Put_ne; [done|].
    intros E. apply Hne. by apply (app_inj_l keyTxMapPrefix scTxId "S") in E.
Qed.
End Misc.
