(* ===== verification/TxPool.v ===== *)
(** * The transaction pool (src/primitives/txstore.go)

    Transactions seen on the watched chains ([watchedTxInfo]), those still to be
    handled ([freshWatchedTxInfo]) and the gateway's own transactions not yet in
    a block ([txInfoById]). The goroutine [Run] receives requests on unbuffered
    channels: [inbox] is the list of requests sent and not yet received, and
    [run_step] is one turn of its loop. The pool shares the store of the node.

    Times are nanoseconds; [time.Now()] is the argument [now]. A fresh entry and
    a watched entry may be the same object in Go, but the timers of a watched
    entry are never read, so [watchedTxInfo] keeps the transaction alone. *)
From S2P Require Import Prelude.
From S2P Require Import GoLib.
From S2P Require Import Crypto.
From S2P Require Import Messages.
From S2P Require Import Feed.
From S2P Require Import ProtoOps.
From S2P Require Import Store.
From S2P Require Import DbOps.

Definition txTTL : Z := 10 * 60 * second.
Definition txWaitingToleranceConst : Z := 60 * 3 * second.
Definition heartbeatInterval : Z := 10 * second.
Definition defaultTxWaitingTolerance : Z := 60 * second.
Definition maxTxWaitingTolerance : Z := 300 * second.

Inductive Validity : Type := NotExist | Valid | Invalid | CheckChain.
#[export] Instance Validity_eq_dec : EqDecision Validity.
Proof. solve_decision. Defined.

(** The type [T] of the transaction is [Transaction] for a pool entry
    ([txWithTimeMs]) and [WatchedTxInfo] for a watched one. *)
Record Timed (T : Type) : Type := MkTimed {
  t_tx : T; t_genTs : Z; t_calcOverdueTs : Z; t_txWaitingTolerance : Z
}.
Arguments MkTimed {T} t_tx t_genTs t_calcOverdueTs t_txWaitingTolerance.
Arguments t_tx {T} t.
Arguments t_genTs {T} t.
Arguments t_calcOverdueTs {T} t.
Arguments t_txWaitingTolerance {T} t.

Definition new_timed {T} (now : Z) (tx : T) : Timed T :=
  MkTimed tx now now defaultTxWaitingTolerance.
Definition set_t_tx {T} (t : Timed T) (tx : T) : Timed T :=
  MkTimed tx (t_genTs t) (t_calcOverdueTs t) (t_txWaitingTolerance t).
(** Both [isOverdue] methods first replace a zero tolerance by the default. *)
Definition fix_tolerance {T} (t : Timed T) : Timed T :=
  if t_txWaitingTolerance t =? 0 then
    MkTimed (t_tx t) (t_genTs t) (t_calcOverdueTs t) defaultTxWaitingTolerance
  else t.
(** [txWithTimeMs.IsOverdue] reads the constant of the package, not the field. *)
Definition IsOverdue (now : Z) (t : Timed Transaction) : bool :=
  now >? t_calcOverdueTs t + txWaitingToleranceConst.
Definition isOverdue (now : Z) (t : Timed WatchedTxInfo) : bool :=
  now >? t_calcOverdueTs t + t_txWaitingTolerance (fix_tolerance t).
Definition IsOutdate {T} (now : Z) (t : Timed T) : bool := now >? t_genTs t + txTTL.
Definition resetWaitingTolerance {T} (now : Z) (t : Timed T) : Timed T :=
  let temp := 2 *i64 t_txWaitingTolerance t in
  MkTimed (t_tx t) (t_genTs t) now
    (if temp >? maxTxWaitingTolerance then maxTxWaitingTolerance else temp).

(** Requests on the channels of [Run]. *)
Inductive Request : Type :=
  | addTxsReq (txs : list Transaction)
  | newCommitReq (txs : list Transaction) (height : Z)
  | addWatchedTxReq (tx : WatchedTxInfo)
  | addFreshReq (tx : WatchedTxInfo)
  | newTermReq (term : Z).

Record TxStore : Type := MkTxStore {
  txInfoById : gmap string (Timed Transaction);
  watchedTxInfo : gmap string WatchedTxInfo;
  freshWatchedTxInfo : gmap string (Timed WatchedTxInfo);
  currTerm : Z;
  inbox : list Request
}.
Definition NewTxStore : TxStore := MkTxStore ∅ ∅ ∅ 0 [].

Definition set_txInfoById (ts : TxStore) m : TxStore :=
  MkTxStore m (watchedTxInfo ts) (freshWatchedTxInfo ts) (currTerm ts) (inbox ts).
Definition set_watchedTxInfo (ts : TxStore) m : TxStore :=
  MkTxStore (txInfoById ts) m (freshWatchedTxInfo ts) (currTerm ts) (inbox ts).
Definition set_fresh (ts : TxStore) m : TxStore :=
  MkTxStore (txInfoById ts) (watchedTxInfo ts) m (currTerm ts) (inbox ts).
Definition set_currTerm (ts : TxStore) t : TxStore :=
  MkTxStore (txInfoById ts) (watchedTxInfo ts) (freshWatchedTxInfo ts) t (inbox ts).
Definition set_inbox (ts : TxStore) q : TxStore :=
  MkTxStore (txInfoById ts) (watchedTxInfo ts) (freshWatchedTxInfo ts) (currTerm ts) q.
Definition send (r : Request) (ts : TxStore) : TxStore := set_inbox ts (inbox ts ++ [r]).

(** A query result; [None] in the list is Go's nil. *)
Record TxQueryResult : Type := {
  q_Tx : Transaction; q_Height : Z; q_BlockID : option Digest256
}.

Section TxPool.
Context `{KV} `{Wire}.
Implicit Types (d : db) (ts : TxStore).

(** The node's store and the pool. *)
Record Pool : Type := MkPool { p_db : db; p_ts : TxStore }.
Definition set_p_db (d : db) (p : Pool) : Pool := MkPool d (p_ts p).
Definition set_p_ts (ts : TxStore) (p : Pool) : Pool := MkPool (p_db p) ts.
Definition modify_ts (f : TxStore → TxStore) : go Pool unit :=
  modify (λ p, set_p_ts (f (p_ts p)) p).
Definition updates_db (f : db → pan db) : go Pool unit := zoom p_db set_p_db (updates f).

(** ** Queries *)
Definition HasTxInMemPool (scTxId : string) (ts : TxStore) : bool :=
  bool_decide (is_Some (txInfoById ts !! scTxId)).
Definition HasTxInDB (scTxId : string) (d : db) : bool :=
  bool_decide (is_Some (GetTxIdBySidechainTxId scTxId d)).
Definition HasWatchedTx (tx : option WatchedTxInfo) (p : Pool) : bool :=
  match tx with
  | Some tx =>
      if bool_decide (wt_Txid tx = "") then false
      else bool_decide (is_Some (watchedTxInfo (p_ts p) !! wt_Txid tx))
           && HasTxInDB (wt_Txid tx) (p_db p)
  | None => false
  end.
Definition HasFreshWatchedTx (ts : TxStore) : bool := 0 <? Z.of_nat (size (freshWatchedTxInfo ts)).
Definition GetMemTxs (o : order) (ts : TxStore) : list Transaction :=
  t_tx <$> (range o 2 (txInfoById ts)).*2.

(** ** Senders *)

(** [Run] does not receive from the channel of the fetchers, so that a call would wait for ever; nothing calls it. *)
Definition FetchTxsChan : go Pool (list Transaction) := λ p, Panic NeverReturns p.
Definition OnNewBlockCommitted (newBlock : BlockPack) : go Pool unit :=
  txsBlock ← lift (IsTxsBlock newBlock);
  when txsBlock
    (b ← lift (bp_Block newBlock); b ← lift (deref b); h ← lift (bp_Height newBlock);
     modify_ts (send (newCommitReq (b_Txs b) h))).
Definition OnTermChanged (term : Z) : go Pool unit := modify_ts (λ ts, set_currTerm ts term).
Definition TestAddTxs (txs : list Transaction) : go Pool unit := modify_ts (send (addTxsReq txs)).
Definition AddWatchedTx (tx : WatchedTxInfo) : go Pool unit :=
  modify_ts (send (addWatchedTxReq tx)).
(** [None]: added; otherwise the error. *)
Definition AddWatchedInfo (tx : WatchedTxInfo) : go Pool (option string) :=
  p ← gets id;
  match watchedTxInfo (p_ts p) !! wt_Txid tx with
  | Some _ => mret (Some "tx exist in mem")
  | None =>
      if HasTxInDB (wt_Txid tx) (p_db p) then mret (Some "tx exist in db")
      else _ ← modify_ts (λ ts, set_watchedTxInfo ts (<[wt_Txid tx := tx]> (watchedTxInfo ts)));
           mret None
  end.
(** [tx.Txid] is read before the test for nil. *)
Definition AddFreshWatchedTx (tx : option WatchedTxInfo) : go Pool unit :=
  tx ← lift (deref tx);
  p ← gets id;
  when (negb (HasTxInDB (wt_Txid tx) (p_db p)) && negb (HasTxInMemPool (wt_Txid tx) (p_ts p)))
    (modify_ts (send (addFreshReq tx))).
Definition WatchedTxToFresh (txId : string) : go Pool unit :=
  p ← gets id;
  match watchedTxInfo (p_ts p) !! txId with
  | Some tx => modify_ts (send (addFreshReq tx))
  | None => mret tt
  end.
Definition DeleteFresh (txId : string) : go Pool unit :=
  modify_ts (λ ts, set_fresh ts (delete txId (freshWatchedTxInfo ts))).
Definition DeleteWatchedTx (txId : string) : go Pool unit :=
  modify_ts (λ ts, set_watchedTxInfo ts (delete txId (watchedTxInfo ts))).

(** [now] is [time.Now().Unix()], in seconds. *)
Definition CreateInnerTx (now : Z) (newlyTxId signMsgId : string) (amount : Z) : go Pool unit :=
  signMsg ← reads (λ p, GetSignMsg signMsgId (p_db p));
  match signMsg with
  | None => mret tt
  | Some signMsg =>
      wt ← lift (deref (sr_WatchedTx signMsg));
      let innerTx := {| tx_Id := None; tx_WatchedTx := Some wt; tx_NewlyTxId := newlyTxId;
        tx_Time := now; tx_Amount := if amount =? 0 then wt_Amount wt else amount |} in
      _ ← modify_ts (λ ts, set_watchedTxInfo ts (delete (wt_Txid wt) (watchedTxInfo ts)));
      _ ← modify_ts (λ ts, set_fresh ts (delete (wt_Txid wt) (freshWatchedTxInfo ts)));
      innerTx ← lift (UpdateId innerTx);
      modify_ts (send (addTxsReq [innerTx]))
  end.

(** *** Fresh transactions for the leader

    The loop over the fresh entries: the entries handed out and the entries
    kept for the next term. *)
Definition fresh_step (d : db) (ts : TxStore) (acc : list (Timed WatchedTxInfo) * list (Timed WatchedTxInfo))
    (v : Timed WatchedTxInfo) : list (Timed WatchedTxInfo) * list (Timed WatchedTxInfo) :=
  let '(rst, reAppend) := acc in
  let txid := wt_Txid (t_tx v) in
  if IsSignFailed txid (currTerm ts) d && negb (IsDistributionTx (t_tx v)) then (rst, reAppend ++ [v])
  else if HasTxInDB txid d || HasTxInMemPool txid ts then (rst, reAppend)
  else (rst ++ [v], reAppend).
Definition GetFreshWatchedTxs (o : order) : go Pool (list (Timed WatchedTxInfo)) :=
  p ← gets id;
  let '(rst, reAppend) :=
    foldl (fresh_step (p_db p) (p_ts p)) ([], []) (range o 3 (freshWatchedTxInfo (p_ts p))).*2 in
  _ ← modify_ts (λ ts, set_fresh ts
        (foldl (λ m v, <[wt_Txid (t_tx v) := v]> m) ∅ reAppend));
  mret rst.

(** ** Handling of requests *)

(** The indices of the transactions that were not added. *)
Fixpoint addTxs_from (now : Z) (idx : Z) (txs : list Transaction) : go Pool (list Z) :=
  match txs with
  | [] => mret []
  | tx :: txs' =>
      wt ← lift (deref (tx_WatchedTx tx));
      p ← gets id;
      added ← (match txInfoById (p_ts p) !! wt_Txid wt with
               | Some _ => mret false
               | None =>
                   e ← reads (λ p, GetTxLookupEntry (tx_Id tx) (p_db p));
                   mret (bool_decide (e = None))
               end);
      _ ← when added (modify_ts (λ ts,
            set_txInfoById ts (<[wt_Txid wt := new_timed now tx]> (txInfoById ts))));
      rest ← addTxs_from now (idx + 1) txs';
      mret (if (added : bool) then rest else idx :: rest)
  end.
Definition addTxs (now : Z) (txs : list Transaction) : go Pool (list Z) := addTxs_from now 0 txs.

Definition drop_tx (txid : string) (ts : TxStore) : TxStore :=
  MkTxStore (delete txid (txInfoById ts)) (delete txid (watchedTxInfo ts))
    (delete txid (freshWatchedTxInfo ts)) (currTerm ts) (inbox ts).
Fixpoint cleanUp_from (idx : Z) (committedTxs : list Transaction) (height : Z) : go Pool unit :=
  match committedTxs with
  | [] => mret tt
  | tx :: txs' =>
      wt ← lift (deref (tx_WatchedTx tx));
      _ ← updates_db (SetTxLookupEntry (tx_Id tx) {| tle_Height := height; tle_Index := wrap32 idx |});
      _ ← updates_db (SetTxIdMap (wt_Txid wt) (tx_Id tx));
      _ ← updates_db (SetTxIdMap (tx_NewlyTxId tx) (tx_Id tx));
      _ ← modify_ts (drop_tx (wt_Txid wt));
      cleanUp_from (idx + 1) txs' height
  end.
Definition cleanUpOnNewCommitted (committedTxs : list Transaction) (height : Z) : go Pool unit :=
  cleanUp_from 0 committedTxs height.

Definition add_watched (now : Z) (tx : WatchedTxInfo) (ts : TxStore) : TxStore :=
  match watchedTxInfo ts !! wt_Txid tx with
  | Some _ => ts
  | None =>
      let ts := set_watchedTxInfo ts (<[wt_Txid tx := tx]> (watchedTxInfo ts)) in
      if IsDistributionTx tx then ts
      else set_fresh ts (<[wt_Txid tx := new_timed now tx]> (freshWatchedTxInfo ts))
  end.
Definition add_fresh (now : Z) (tx : WatchedTxInfo) (ts : TxStore) : TxStore :=
  set_fresh ts (<[wt_Txid tx := new_timed now tx]> (freshWatchedTxInfo ts)).

Definition handle_request (now : Z) (r : Request) : go Pool unit :=
  match r with
  | addTxsReq txs => _ ← addTxs now txs; mret tt
  | newCommitReq txs height => cleanUpOnNewCommitted txs height
  | addWatchedTxReq tx => modify_ts (add_watched now tx)
  | addFreshReq tx => modify_ts (add_fresh now tx)
  | newTermReq term => modify_ts (λ ts, set_currTerm ts term)
  end.
(** One turn of [Run]: receive the first request and handle it. *)
Definition run_step (now : Z) : go Pool unit :=
  p ← gets id;
  match inbox (p_ts p) with
  | [] => mret tt
  | r :: q => _ ← modify_ts (λ ts, set_inbox ts q); handle_request now r
  end.

(** ** Look-ups of committed transactions *)
Definition tx_at_entry (entry : TxLookupEntry) (d : db) : pan (option TxQueryResult) :=
  h ← GetCommitHeight d;
  _ ← assert_true (tle_Height entry <=? h);
  blockPack ← GetCommitByHeight (tle_Height entry) d;
  match blockPack with
  | None => mret None
  | Some bp =>
      b ← bp_Block bp; b ← deref b;
      _ ← assert_true ((tle_Index entry <? Z.of_nat (length (b_Txs b))) && (0 <=? tle_Index entry));
      tx ← deref (b_Txs b !! Z.to_nat (tle_Index entry));
      i ← BlockPack_Id bp;
      mret (Some {| q_Tx := tx; q_Height := tle_Height entry; q_BlockID := Some i |})
  end.
Definition query_tx (scTxId : string) (p : Pool) : pan (option TxQueryResult) :=
  match txInfoById (p_ts p) !! scTxId with
  | Some value => mret (Some {| q_Tx := t_tx value; q_Height := -1; q_BlockID := None |})
  | None =>
      match GetTxIdBySidechainTxId scTxId (p_db p) with
      | None => mret None
      | Some txId =>
          entry ← GetTxLookupEntry (Some txId) (p_db p);
          match entry with
          | None => mret None
          | Some entry => tx_at_entry entry (p_db p)
          end
      end
  end.
Fixpoint queryTxsInfo (scTxIds : list string) (p : Pool) : pan (list (option TxQueryResult)) :=
  match scTxIds with
  | [] => mret []
  | i :: l => r ← query_tx i p; rs ← queryTxsInfo l p; mret (r :: rs)
  end.
Definition QueryTxInfoBySidechainId (scId : string) (p : Pool) : pan (option TxQueryResult) :=
  rst ← queryTxsInfo [scId] p;
  match rst with r :: _ => mret r | [] => Fault IndexOutOfRange end.
(** The id of a chain transaction, or else the hexadecimal id of a gateway
    transaction. *)
Definition GetTx (txid : string) (d : db) : pan (option TxQueryResult) :=
  let dgwTxID := match GetTxIdBySidechainTxId txid d with
                 | Some i => Some i
                 | None => Digest <$> hex_decode txid
                 end in
  match dgwTxID with
  | None => mret None
  | Some i =>
      entry ← GetTxLookupEntry (Some i) d;
      match entry with None => mret None | Some entry => tx_at_entry entry d end
  end.

(** ** The heartbeat *)
Definition beat_fresh (now : Z) (d : db) (acc : TxStore * bool) (e : string * Timed WatchedTxInfo)
    : TxStore * bool :=
  let '(ts, overdue) := acc in
  let '(id, t) := e in
  if isOverdue now t then
    if HasTxInMemPool id ts then (set_fresh ts (<[id := fix_tolerance t]> (freshWatchedTxInfo ts)), overdue)
    else if HasTxInDB id d then
      (set_fresh (set_watchedTxInfo ts (delete id (watchedTxInfo ts)))
                 (delete id (freshWatchedTxInfo ts)), overdue)
    else (set_fresh ts (<[id := resetWaitingTolerance now (fix_tolerance t)]> (freshWatchedTxInfo ts)), true)
  else (set_fresh ts (<[id := fix_tolerance t]> (freshWatchedTxInfo ts)), overdue).
Definition beat_mem (now : Z) (d : db) (acc : TxStore * bool) (e : string * Timed Transaction)
    : TxStore * bool :=
  let '(ts, overdue) := acc in
  let '(id, t) := e in
  if IsOverdue now t then
    if HasTxInDB id d then (set_txInfoById ts (delete id (txInfoById ts)), overdue)
    else (set_txInfoById ts (<[id := resetWaitingTolerance now (fix_tolerance t)]> (txInfoById ts)), true)
  else (set_txInfoById ts (<[id := fix_tolerance t]> (txInfoById ts)), overdue).
(** The term of the [TxOverdueEvent], if one is emitted. *)
Definition doHeartbeat (o : order) (now : Z) : go Pool (option Z) :=
  p ← gets id;
  let '(ts1, watchedTxHasOverdue) :=
    foldl (beat_fresh now (p_db p)) (p_ts p, false) (range o 4 (freshWatchedTxInfo (p_ts p))) in
  let '(ts2, innerTxHasOverdue) :=
    foldl (beat_mem now (p_db p)) (ts1, false) (range o 5 (txInfoById ts1)) in
  _ ← modify_ts (λ _, ts2);
  if innerTxHasOverdue || watchedTxHasOverdue then
    t ← reads (λ p, GetNodeTerm (p_db p)); mret (Some t)
  else mret None.

(** ** Validation

    Comparing with a pool entry refreshes the ids of both transactions: the
    transaction under test comes back with its id, and the entry is updated. *)
Definition ValidateTx (tx : Transaction) : go Pool (Validity * Transaction) :=
  wt ← lift (deref (tx_WatchedTx tx));
  p ← gets id;
  match txInfoById (p_ts p) !! wt_Txid wt with
  | None =>
      match watchedTxInfo (p_ts p) !! wt_Txid wt with
      | None => mret (NotExist, tx)
      | Some watchedTx =>
          if negb (WatchedTxInfo_EqualTo watchedTx wt) then mret (Invalid, tx)
          else mret (CheckChain, tx)
      end
  | Some memTx =>
      '(r, mtx, tx') ← lift (Transaction_EqualTo (t_tx memTx) tx);
      _ ← modify_ts (λ ts, set_txInfoById ts (<[wt_Txid wt := set_t_tx memTx mtx]> (txInfoById ts)));
      mret (if r : bool then Valid else Invalid, tx')
  end.
Definition ValidateWatchedTx (tx : WatchedTxInfo) (ts : TxStore) : Validity :=
  match watchedTxInfo ts !! wt_Txid tx with
  | None => NotExist
  | Some memTx => if WatchedTxInfo_EqualTo tx memTx then Valid else Invalid
  end.
End TxPool.

(** * Invariant *)
Section PoolInvariant.
Context `{KV} `{Wire}.
Implicit Types (d : db) (ts : TxStore) (p : Pool).

(** Every entry is filed under the id of its chain transaction, and no
    waiting tolerance leaves the range the code means it to have. *)
Record pool_wf ts : Prop := {
  wf_watched : ∀ i tx, watchedTxInfo ts !! i = Some tx → wt_Txid tx = i;
  wf_fresh : ∀ i t, freshWatchedTxInfo ts !! i = Some t →
    wt_Txid (t_tx t) = i ∧ 0 < t_txWaitingTolerance t ≤ maxTxWaitingTolerance;
  wf_mem : ∀ i t, txInfoById ts !! i = Some t →
    (∃ wt, tx_WatchedTx (t_tx t) = Some wt ∧ wt_Txid wt = i) ∧
    0 < t_txWaitingTolerance t ≤ maxTxWaitingTolerance
}.

Lemma fix_tolerance_id {T} (t : Timed T) : 0 < t_txWaitingTolerance t → fix_tolerance t = t.
Proof. intros Ht. unfold fix_tolerance. destruct (_ =? 0) eqn:E; to_prop; [lia|done]. Qed.

(** The waiting tolerance doubles up to the maximum: a reset keeps it in
    range, never shortens it, restarts the clock, and the entry is not overdue
    at the time of the reset. *)
Lemma reset_range {T} now (t : Timed T) :
  0 < t_txWaitingTolerance t ≤ maxTxWaitingTolerance →
  let t' := resetWaitingTolerance now t in
  t_txWaitingTolerance t' = Z.min (2 * t_txWaitingTolerance t) maxTxWaitingTolerance ∧
  0 < t_txWaitingTolerance t' ≤ maxTxWaitingTolerance ∧
  t_txWaitingTolerance t ≤ t_txWaitingTolerance t' ∧ t_calcOverdueTs t' = now ∧
  t_tx t' = t_tx t.
Proof.
  unfold maxTxWaitingTolerance, second. intros Ht. cbn.
  rewrite wrap64_small; [|unfold i64; lia].
  unfold maxTxWaitingTolerance, second. destruct (_ >? _) eqn:E; to_prop; repeat split; lia.
Qed.
Lemma reset_not_overdue now (t : Timed WatchedTxInfo) :
  0 < t_txWaitingTolerance t ≤ maxTxWaitingTolerance →
  isOverdue now (resetWaitingTolerance now t) = false.
Proof.
  intros Ht. destruct (reset_range now t Ht) as (_ & Hr & _ & Hc & _). unfold isOverdue.
  rewrite fix_tolerance_id; [|lia]. rewrite Hc Z.gtb_ltb. apply Z.ltb_ge. lia.
Qed.
Lemma reset_not_overdue_mem now (t : Timed Transaction) :
  IsOverdue now (resetWaitingTolerance now t) = false.
Proof.
  unfold IsOverdue, txWaitingToleranceConst, second. cbn. rewrite Z.gtb_ltb. apply Z.ltb_ge. lia.
Qed.

(** *** The loops of the heartbeat *)
Definition late_fresh now d ts (id : string) (t : Timed WatchedTxInfo) : bool :=
  isOverdue now t && negb (HasTxInMemPool id ts) && negb (HasTxInDB id d).
Definition late_mem now d (id : string) (t : Timed Transaction) : bool :=
  IsOverdue now t && negb (HasTxInDB id d).

(** What one turn does to its own entry; [None] when it is removed. *)
Definition beat_fresh_entry now d ts (id : string) (t : Timed WatchedTxInfo) :=
  if isOverdue now t then
    if HasTxInMemPool id ts then Some (fix_tolerance t)
    else if HasTxInDB id d then None else Some (resetWaitingTolerance now (fix_tolerance t))
  else Some (fix_tolerance t).
Definition beat_mem_entry now d (id : string) (t : Timed Transaction) :=
  if IsOverdue now t then
    if HasTxInDB id d then None else Some (resetWaitingTolerance now (fix_tolerance t))
  else Some (fix_tolerance t).

Lemma beat_fresh_loop now d l ts b ts' b' :
  NoDup l.*1 → foldl (beat_fresh now d) (ts, b) l = (ts', b') →
  txInfoById ts' = txInfoById ts ∧ watchedTxInfo ts' ⊆ watchedTxInfo ts ∧
  inbox ts' = inbox ts ∧ currTerm ts' = currTerm ts ∧
  b' = b || existsb (λ e, late_fresh now d ts e.1 e.2) l ∧
  (∀ id t, (id, t) ∈ l → freshWatchedTxInfo ts' !! id = beat_fresh_entry now d ts id t) ∧
  (∀ id, id ∉ l.*1 → freshWatchedTxInfo ts' !! id = freshWatchedTxInfo ts !! id).
Proof.
  revert ts b. induction l as [|[id t] l IH]; intros ts b Hnd Hf.
  { injection Hf as <- <-. rewrite orb_false_r. split_and!; try done. by intros ? ? ?%elem_of_nil. }
  cbn in Hnd. apply NoDup_cons in Hnd as [Hni Hnd]. cbn [foldl] in Hf.
  destruct (beat_fresh now d (ts, b) (id, t)) as [ts1 b1] eqn:E1.
  assert (txInfoById ts1 = txInfoById ts ∧ watchedTxInfo ts1 ⊆ watchedTxInfo ts ∧
    inbox ts1 = inbox ts ∧ currTerm ts1 = currTerm ts ∧ b1 = b || late_fresh now d ts id t ∧
    freshWatchedTxInfo ts1 !! id = beat_fresh_entry now d ts id t ∧
    ∀ id', id' ≠ id → freshWatchedTxInfo ts1 !! id' = freshWatchedTxInfo ts !! id')
    as (Ht & Hw & Hi & Hc & Hb & He & Hn).
  { unfold beat_fresh, late_fresh, beat_fresh_entry in *.
    destruct (isOverdue now t), (HasTxInMemPool id ts), (HasTxInDB id d);
      injection E1 as <- <-; cbn; rewrite ?orb_false_r ?orb_true_r; split_and!; try done;
      first [by rewrite lookup_insert_eq|by rewrite lookup_delete_eq|apply delete_subseteq|idtac];
      intros id' Hid; first [by rewrite lookup_insert_ne|by rewrite lookup_delete_ne]. }
  destruct (IH ts1 b1 Hnd Hf) as (Ht' & Hw' & Hi' & Hc' & Hb' & He' & Hn').
  assert (∀ id t, late_fresh now d ts1 id t = late_fresh now d ts id t) as Hlf.
  { intros. unfold late_fresh, HasTxInMemPool. by rewrite Ht. }
  assert (∀ id t, beat_fresh_entry now d ts1 id t = beat_fresh_entry now d ts id t) as Hbf.
  { intros. unfold beat_fresh_entry, HasTxInMemPool. by rewrite Ht. }
  split_and!; try congruence.
  - by etrans.
  - rewrite Hb' Hb /= -orb_assoc. do 2 f_equal. clear -Hlf. induction l; cbn; congruence.
  - intros id' t' [[= -> ->]|Hin]%elem_of_cons.
    + by rewrite Hn'.
    + rewrite -Hbf. by apply He'.
  - intros id' Hni'. cbn in Hni'. rewrite Hn'; [|set_solver]. apply Hn. set_solver.
Qed.

Lemma beat_mem_loop now d l ts b ts' b' :
  NoDup l.*1 → foldl (beat_mem now d) (ts, b) l = (ts', b') →
  freshWatchedTxInfo ts' = freshWatchedTxInfo ts ∧ watchedTxInfo ts' = watchedTxInfo ts ∧
  inbox ts' = inbox ts ∧ currTerm ts' = currTerm ts ∧
  b' = b || existsb (λ e, late_mem now d e.1 e.2) l ∧
  (∀ id t, (id, t) ∈ l → txInfoById ts' !! id = beat_mem_entry now d id t) ∧
  (∀ id, id ∉ l.*1 → txInfoById ts' !! id = txInfoById ts !! id).
Proof.
  revert ts b. induction l as [|[id t] l IH]; intros ts b Hnd Hf.
  { injection Hf as <- <-. rewrite orb_false_r. split_and!; try done. by intros ? ? ?%elem_of_nil. }
  cbn in Hnd. apply NoDup_cons in Hnd as [Hni Hnd]. cbn [foldl] in Hf.
  destruct (beat_mem now d (ts, b) (id, t)) as [ts1 b1] eqn:E1.
  assert (freshWatchedTxInfo ts1 = freshWatchedTxInfo ts ∧ watchedTxInfo ts1 = watchedTxInfo ts ∧
    inbox ts1 = inbox ts ∧ currTerm ts1 = currTerm ts ∧ b1 = b || late_mem now d id t ∧
    txInfoById ts1 !! id = beat_mem_entry now d id t ∧
    ∀ id', id' ≠ id → txInfoById ts1 !! id' = txInfoById ts !! id')
    as (Ht & Hw & Hi & Hc & Hb & He & Hn).
  { unfold beat_mem, late_mem, beat_mem_entry in *.
    destruct (IsOverdue now t), (HasTxInDB id d);
      injection E1 as <- <-; cbn; rewrite ?orb_false_r ?orb_true_r; split_and!; try done;
      first [by rewrite lookup_insert_eq|by rewrite lookup_delete_eq|idtac];
      intros id' Hid; first [by rewrite lookup_insert_ne|by rewrite lookup_delete_ne]. }
  destruct (IH ts1 b1 Hnd Hf) as (Ht' & Hw' & Hi' & Hc' & Hb' & He' & Hn').
  split_and!; try congruence.
  - by rewrite Hb' Hb /= -orb_assoc.
  - intros id' t' [[= -> ->]|Hin]%elem_of_cons; [by rewrite Hn'|by apply He'].
  - intros id' Hni'. cbn in Hni'. rewrite Hn'; [|set_solver]. apply Hn. set_solver.
Qed.
End PoolInvariant.

(** * The heartbeat *)
Section Heartbeat.
Context `{KV} `{Wire}.
Implicit Types (d : db) (ts : TxStore) (p : Pool).

(** Some transaction waits for longer than its tolerance: a fresh one that
    is neither in the pool nor committed, or a pool entry not committed. *)
Definition overdue_pending now d ts : Prop :=
  (∃ id t, freshWatchedTxInfo ts !! id = Some t ∧ late_fresh now d ts id t = true) ∨
  (∃ id t, txInfoById ts !! id = Some t ∧ late_mem now d id t = true).

Lemma existsb_range {K V} `{Countable K} (o : order) n (m : gmap K V) (f : K * V → bool) :
  existsb f (range o n m) = true ↔ ∃ k v, m !! k = Some v ∧ f (k, v) = true.
Proof.
  rewrite existsb_exists. split.
  - intros ([k v] & Hin & Hf). exists k, v. split; [|done].
    by apply elem_of_range with (o := o) (n := n), list_elem_of_In.
  - intros (k & v & Hk & Hf). exists (k, v). split; [|done]. by apply list_elem_of_In, elem_of_range.
Qed.

(** The state after both loops, and whether they found an overdue entry. *)
Definition beats (o : order) now d ts : TxStore * bool :=
  let '(ts1, b1) := foldl (beat_fresh now d) (ts, false) (range o 4 (freshWatchedTxInfo ts)) in
  let '(ts2, b2) := foldl (beat_mem now d) (ts1, false) (range o 5 (txInfoById ts1)) in
  (ts2, b2 || b1).

Lemma beats_spec o now d ts ts' b :
  beats o now d ts = (ts', b) →
  (b = true ↔ overdue_pending now d ts) ∧ watchedTxInfo ts' ⊆ watchedTxInfo ts ∧
  (∀ id, freshWatchedTxInfo ts' !! id =
     freshWatchedTxInfo ts !! id ≫= beat_fresh_entry now d ts id) ∧
  (∀ id, txInfoById ts' !! id = txInfoById ts !! id ≫= beat_mem_entry now d id).
Proof.
  unfold beats. destruct (foldl (beat_fresh now d) _ _) as [ts1 b1] eqn:E1.
  destruct (foldl (beat_mem now d) _ _) as [ts2 b2] eqn:E2. intros [= <- <-].
  apply beat_fresh_loop in E1 as (Ht & Hw & _ & _ & Hb & He & Hn); [|apply range_NoDup].
  apply beat_mem_loop in E2 as (Hf' & Hw' & _ & _ & Hb' & He' & Hn'); [|apply range_NoDup].
  assert (∀ {V} (m : gmap string V) n id, (∃ v, m !! id = Some v) ∨ (m !! id = None ∧ id ∉ (range o n m).*1))
    as Hcase.
  { intros V m n id. destruct (m !! id) as [v|] eqn:E; [by eauto|]. right. split; [done|].
    intros ([id' v] & -> & Hin%elem_of_range)%list_elem_of_fmap. cbn in E. congruence. }
  split_and!.
  - rewrite Hb Hb' !orb_false_l orb_true_iff !existsb_range Ht. unfold overdue_pending. tauto.
  - by rewrite Hw'.
  - intros id. rewrite Hf'. destruct (Hcase _ (freshWatchedTxInfo ts) 4%nat id) as [[t Hid]|[Hid Hni]].
    + rewrite Hid. cbn. by apply He, elem_of_range.
    + by rewrite Hn // Hid.
  - intros id. destruct (Hcase _ (txInfoById ts1) 5%nat id) as [[t Hid]|[Hid Hni]].
    + rewrite -Ht Hid. cbn. by apply He', elem_of_range.
    + by rewrite Hn' // -Ht Hid.
Qed.

Lemma doHeartbeat_beats o now p :
  doHeartbeat o now p =
  let '(ts', b) := beats o now (p_db p) (p_ts p) in
  if b : bool then
    match GetNodeTerm (p_db p) with
    | Val t => Ret (Some t) (MkPool (p_db p) ts')
    | Fault f => Panic f (MkPool (p_db p) ts')
    end
  else Ret None (MkPool (p_db p) ts').
Proof.
  unfold doHeartbeat, beats, mbind at 1, go_bind, gets, id.
  destruct (foldl (beat_fresh _ _) _ _) as [ts1 b1]. destruct (foldl (beat_mem _ _) _ _) as [ts2 b2].
  unfold modify_ts, modify, mbind, go_bind, set_p_ts. destruct (b2 || b1); [|done].
  unfold reads. cbn [p_db]. by destruct (GetNodeTerm (p_db p)).
Qed.

Lemma beats_quiet o now d ts ts' b :
  pool_wf ts → beats o now d ts = (ts', b) → pool_wf ts' ∧ ¬ overdue_pending now d ts'.
Proof.
  intros Hwf (_ & Hw & Hf & Hm)%beats_spec.
  assert (∀ id t', freshWatchedTxInfo ts' !! id = Some t' →
    ∃ t, freshWatchedTxInfo ts !! id = Some t ∧ beat_fresh_entry now d ts id t = Some t') as Hf'.
  { intros id t'. rewrite Hf. apply bind_Some. }
  assert (∀ id t', txInfoById ts' !! id = Some t' →
    ∃ t, txInfoById ts !! id = Some t ∧ beat_mem_entry now d id t = Some t') as Hm'.
  { intros id t'. rewrite Hm. apply bind_Some. }
  split; [split|].
  - intros i tx Hi. eapply (wf_watched ts Hwf), lookup_weaken; done.
  - intros i t' (t & Hi & He)%Hf'. destruct (wf_fresh ts Hwf i t Hi) as [Hk Hr].
    unfold beat_fresh_entry in He. rewrite fix_tolerance_id in He; [|lia].
    destruct (reset_range now t Hr) as (_ & Hr' & _ & _ & Htx).
    by repeat case_match; simplify_eq.
  - intros i t' (t & Hi & He)%Hm'. destruct (wf_mem ts Hwf i t Hi) as [Hk Hr].
    unfold beat_mem_entry in He. rewrite fix_tolerance_id in He; [|lia].
    destruct (reset_range now t Hr) as (_ & Hr' & _ & _ & Htx).
    by repeat case_match; simplify_eq.
  - intros [(id & t' & (t & Hi & He)%Hf' & Hl)|(id & t' & (t & Hi & He)%Hm' & Hl)].
    + destruct (wf_fresh ts Hwf id t Hi) as [_ Hr]. unfold late_fresh in Hl.
      apply andb_true_iff in Hl as [[Ho Hnm]%andb_true_iff Hnd].
      apply negb_true_iff in Hnm, Hnd. unfold beat_fresh_entry in He.
      rewrite fix_tolerance_id in He; [|lia].
      destruct (isOverdue now t) eqn:Eo; [|congruence].
      destruct (HasTxInMemPool id ts) eqn:Em.
      * unfold HasTxInMemPool in Em, Hnm. to_prop. destruct Em as [m Em]. apply Hnm.
        rewrite Hm Em /=. unfold beat_mem_entry. rewrite Hnd.
        by destruct (IsOverdue now m).
      * rewrite Hnd in He. injection He as <-. by rewrite reset_not_overdue in Ho.
    + unfold late_mem in Hl. apply andb_true_iff in Hl as [Ho Hnd%negb_true_iff].
      destruct (wf_mem ts Hwf id t Hi) as [_ Hr]. unfold beat_mem_entry in He.
      rewrite fix_tolerance_id in He; [|lia]. rewrite Hnd in He.
      destruct (IsOverdue now t) eqn:Eo; [|congruence].
      injection He as <-. by rewrite reset_not_overdue_mem in Ho.
Qed.

(** A heartbeat on a well-formed pool never panics when the node has a
    term; it emits the overdue event, with the node's term, exactly if some
    transaction is overdue; it keeps the invariant; and a second heartbeat at
    the same time emits nothing, so that one delay is accused once. *)
Theorem doHeartbeat_spec (o : order) (now term : Z) (p : Pool) :
  pool_wf (p_ts p) → GetNodeTerm (p_db p) = Val term →
  ∃ r p', doHeartbeat o now p = Ret r p' ∧ p_db p' = p_db p ∧ pool_wf (p_ts p') ∧
    (r = Some term ↔ overdue_pending now (p_db p) (p_ts p)) ∧
    (r = None ↔ ¬ overdue_pending now (p_db p) (p_ts p)) ∧
    ∀ o', ∃ p'', doHeartbeat o' now p' = Ret None p''.
Proof.
  intros Hwf Ht. rewrite doHeartbeat_beats.
  destruct (beats o now (p_db p) (p_ts p)) as [ts' b] eqn:E.
  destruct (beats_quiet _ _ _ _ _ _ Hwf E) as [Hwf' Hq].
  apply beats_spec in E as [Hb _].
  assert (∀ o', ∃ p'', doHeartbeat o' now (MkPool (p_db p) ts') = Ret None p'') as Hq'.
  { intros o'. rewrite doHeartbeat_beats. cbn [p_db p_ts].
    destruct (beats o' now (p_db p) ts') as [ts2 b2] eqn:E2.
    apply beats_spec in E2 as [Hb2 _]. destruct b2; [|by eexists]. exfalso. by apply Hq, Hb2. }
  destruct b.
  - rewrite Ht. eexists _, _. split; [reflexivity|]. split_and!; try done; naive_solver.
  - eexists _, _. split; [reflexivity|]. split_and!; try done; naive_solver.
Qed.
End Heartbeat.

(** * Operations *)
Section PoolOperations.
Context `{KV} `{Wire}.
Implicit Types (d : db) (ts : TxStore) (p : Pool).

(** A fresh transaction kept for the next term, and one to hand out. *)
Definition postponed d ts (v : Timed WatchedTxInfo) : bool :=
  IsSignFailed (wt_Txid (t_tx v)) (currTerm ts) d && negb (IsDistributionTx (t_tx v)).
Definition ready d ts (v : Timed WatchedTxInfo) : bool :=
  negb (postponed d ts v) && negb (HasTxInDB (wt_Txid (t_tx v)) d)
  && negb (HasTxInMemPool (wt_Txid (t_tx v)) ts).

Lemma fresh_step_eq d ts a b v :
  fresh_step d ts (a, b) v =
  (if ready d ts v then a ++ [v] else a, if postponed d ts v then b ++ [v] else b).
Proof.
  unfold ready, fresh_step. fold (postponed d ts v). destruct (postponed d ts v); [done|].
  by destruct (HasTxInDB _ d), (HasTxInMemPool _ ts).
Qed.
Lemma fresh_loop d ts l a b :
  foldl (fresh_step d ts) (a, b) l =
  (a ++ filter (λ v, ready d ts v = true) l, b ++ filter (λ v, postponed d ts v = true) l).
Proof.
  revert a b. induction l as [|v l IH]; intros a b; [by rewrite !app_nil_r|].
  cbn [foldl]. rewrite fresh_step_eq IH !filter_cons.
  destruct (decide (ready d ts v = true)) as [E|E%not_true_is_false];
    destruct (decide (postponed d ts v = true)) as [E'|E'%not_true_is_false];
    by rewrite E E' -?app_assoc.
Qed.

Lemma foldl_insert_lookup (l : list (Timed WatchedTxInfo)) (m : gmap string (Timed WatchedTxInfo)) i :
  foldl (λ m v, <[wt_Txid (t_tx v) := v]> m) m l !! i =
  match last (filter (λ v, wt_Txid (t_tx v) = i) l) with Some v => Some v | None => m !! i end.
Proof.
  revert m. induction l as [|v l IH]; intros m; [done|]. cbn [foldl]. rewrite IH filter_cons.
  destruct (decide (wt_Txid (t_tx v) = i)) as [<-|Hne].
  - rewrite last_cons. destruct (last _); [done|]. by rewrite lookup_insert_eq.
  - destruct (last _); [done|]. by rewrite lookup_insert_ne.
Qed.

(** One call: what is handed out and what is kept. *)
Lemma GetFreshWatchedTxs_run (o : order) (p : Pool) :
  pool_wf (p_ts p) →
  ∃ rst p', GetFreshWatchedTxs o p = Ret rst p' ∧
    (∀ v, v ∈ rst ↔ (∃ i, freshWatchedTxInfo (p_ts p) !! i = Some v) ∧ ready (p_db p) (p_ts p) v = true) ∧
    (∀ i v, freshWatchedTxInfo (p_ts p') !! i = Some v ↔
            freshWatchedTxInfo (p_ts p) !! i = Some v ∧ postponed (p_db p) (p_ts p) v = true) ∧
    p_db p' = p_db p ∧ txInfoById (p_ts p') = txInfoById (p_ts p) ∧
    watchedTxInfo (p_ts p') = watchedTxInfo (p_ts p) ∧ currTerm (p_ts p') = currTerm (p_ts p).
Proof.
  intros Hwf. unfold GetFreshWatchedTxs, mbind, go_bind, gets, id.
  rewrite fresh_loop !app_nil_l. set (l := (range o 3 _).*2).
  assert (∀ v, v ∈ l ↔ ∃ i, freshWatchedTxInfo (p_ts p) !! i = Some v) as Hl.
  { intros v. unfold l. rewrite list_elem_of_fmap. split.
    - intros ([i v'] & -> & Hi%elem_of_range). by exists i.
    - intros [i Hi]. exists (i, v). by rewrite elem_of_range. }
  eexists _, _. split; [reflexivity|]. cbn. split_and!; try done.
  - intros v. rewrite list_elem_of_filter Hl. tauto.
  - intros i v. rewrite foldl_insert_lookup lookup_empty.
    destruct (last (filter (λ v, wt_Txid (t_tx v) = i) _)) as [u|] eqn:Eu.
    + apply last_Some_elem_of in Eu as [Hu [Hp Hul]%list_elem_of_filter]%list_elem_of_filter.
      apply Hl in Hul as [j Hj]. destruct (wf_fresh _ Hwf j u Hj) as [Hk _].
      assert (j = i) as -> by congruence. split.
      * intros [= <-]. done.
      * intros [Hi _]. congruence.
    + apply last_None in Eu. split; [done|]. intros [Hi Hp]. exfalso.
      assert (v ∈ filter (λ v, wt_Txid (t_tx v) = i)
                    (filter (λ v, postponed (p_db p) (p_ts p) v = true) l)) as Hin.
      { rewrite !list_elem_of_filter Hl. destruct (wf_fresh _ Hwf i v Hi) as [Hk _]. eauto. }
      rewrite Eu in Hin. by apply elem_of_nil in Hin.
Qed.

(** What [ValidateTx] answers. A transaction not in the pool is unknown,
    differs from the watched one, or must be checked on its chain; one in the
    pool is valid exactly if it hashes to the id of the pool entry, and then it
    comes back with that id. *)
Theorem ValidateTx_spec (p : Pool) (tx : Transaction) (wt : WatchedTxInfo) :
  tx_WatchedTx tx = Some wt →
  (∀ t, txInfoById (p_ts p) !! wt_Txid wt = Some t → is_Some (tx_WatchedTx (t_tx t))) →
  ∃ r tx' p', ValidateTx tx p = Ret (r, tx') p' ∧ p_db p' = p_db p ∧
    (r = NotExist ↔ txInfoById (p_ts p) !! wt_Txid wt = None ∧
                    watchedTxInfo (p_ts p) !! wt_Txid wt = None) ∧
    (r = CheckChain ↔ txInfoById (p_ts p) !! wt_Txid wt = None ∧
       ∃ w, watchedTxInfo (p_ts p) !! wt_Txid wt = Some w ∧ WatchedTxInfo_EqualTo w wt = true) ∧
    (r = Valid ↔ ∃ t i, txInfoById (p_ts p) !! wt_Txid wt = Some t ∧
       Transaction_hash (t_tx t) = Val i ∧ Transaction_hash tx = Val i ∧ tx_Id tx' = Some i) ∧
    (r ≠ Valid → r ≠ Invalid → tx' = tx).
Proof.
  intros Hwt Hmem. unfold ValidateTx.
  rewrite (bind_lift _ _ _ wt); [|by rewrite Hwt]. rewrite bind_gets_id.
  destruct (txInfoById (p_ts p) !! wt_Txid wt) as [t|] eqn:Em.
  - destruct (Hmem t eq_refl) as [mwt Hmwt].
    assert (∀ t0 w, tx_WatchedTx t0 = Some w → ∃ i, Transaction_hash t0 = Val i) as Hh.
    { intros t0 w Hw. unfold Transaction_hash, hash_of, feedTxFields, feedWatchedTx, feedRecharge.
      rewrite Hw. cbn. assert (∀ l hs, ∃ hs', feed_list (λ hs r,
        mret (FeedInt64Field (FeedTextField hs "Address" (ai_Address r)) "Amount" (ai_Amount r)))
        hs l = Val hs') as Hl.
      { induction l as [|a l IHl]; intros hs; cbn; eauto. }
      destruct (_ <? _); cbn; [|by eexists]. unfold FeedField.
      match goal with |- context [feed_list ?f ?h ?l] => destruct (Hl l h) as [hs' E] end.
      cbn in E |- *. rewrite E /=. by eexists. }
    destruct (Hh _ _ Hmwt) as [i Hi], (Hh _ _ Hwt) as [j Hj].
    assert (Transaction_EqualTo (t_tx t) tx = Val (bool_decide (i = j),
      set_tx_Id (t_tx t) (Some i), set_tx_Id tx (Some j))) as He.
    { unfold Transaction_EqualTo, UpdateId. rewrite Hi Hj. cbn -[EqualTo]. by rewrite EqualTo_Some. }
    rewrite (bind_lift _ _ _ _ He). unfold modify_ts. rewrite bind_modify.
    eexists _, _, _. split; [reflexivity|]. split; [done|]. destruct (decide (i = j)) as [<-|Hne].
    + rewrite bool_decide_true; [|done]. split_and!; naive_solver.
    + rewrite bool_decide_false; [|done]. split_and!; [naive_solver..| |by intros].
      split; [done|]. intros (t' & i' & [= <-] & ? & ? & _). congruence.
  - clear Hmem. destruct (watchedTxInfo (p_ts p) !! wt_Txid wt) as [w|] eqn:Ew.
    + destruct (WatchedTxInfo_EqualTo w wt) eqn:Eq; cbn [negb];
        eexists _, _, _; (split; [reflexivity|]); (split; [reflexivity|]);
          split_and!; try done; split; intros Hx; try discriminate Hx;
          repeat match goal with Hy : _ ∧ _ |- _ => destruct Hy | Hy : ∃ _, _ |- _ => destruct Hy end;
          try congruence; eauto.
    + eexists _, _, _; (split; [reflexivity|]); (split; [reflexivity|]);
        split_and!; try done; split; intros Hx; try discriminate Hx;
        repeat match goal with Hy : _ ∧ _ |- _ => destruct Hy | Hy : ∃ _, _ |- _ => destruct Hy end;
        try congruence; eauto.
Qed.

(** [HasWatchedTx] asks for both records of a transaction: one that is
    only in memory, as every watched transaction is before it is committed, is
    reported as not received. *)
Theorem HasWatchedTx_needs_both (p : Pool) (tx : WatchedTxInfo) :
  wt_Txid tx ≠ "" →
  HasWatchedTx (Some tx) p = true ↔
  is_Some (watchedTxInfo (p_ts p) !! wt_Txid tx) ∧
  is_Some (Get (p_db p) (keyTxMapPrefix +:+ wt_Txid tx)).
Proof.
  intros Hne. unfold HasWatchedTx. rewrite bool_decide_false; [|done].
  rewrite andb_true_iff. unfold HasTxInDB, GetTxIdBySidechainTxId.
  rewrite !bool_decide_eq_true fmap_is_Some. done.
Qed.
End PoolOperations.

(** * Committed transactions *)
Section CleanUp.
Context `{KV} `{Wire}.
Implicit Types (d : db) (ts : TxStore) (p : Pool).

Lemma updates_db_Ret (f : db → pan db) p u p' :
  updates_db f p = Ret u p' → ∃ d', f (p_db p) = Val d' ∧ p' = set_p_db d' p.
Proof.
  unfold updates_db, zoom, updates. destruct (f (p_db p)); [|done]. intros [= <-]. by eexists.
Qed.
Lemma lift_Ret {S A} (x : pan A) (s : S) a s' : lift x s = Ret a s' → x = Val a ∧ s' = s.
Proof. unfold lift. destruct x; [|done]. by intros [= -> ->]. Qed.
Lemma SetTxLookupEntry_Val i e d d' :
  SetTxLookupEntry i e d = Val d' →
  ∃ x b, i = Some x ∧ Marshal e = Some b ∧ d' = Put (keyTxPrefix +:+ Data x) b d.
Proof.
  intros (b & Hb%error_is_nil_Val & (x & Hx%deref_Val & [= <-])%pan_bind_Val)%pan_bind_Val.
  by exists x, b.
Qed.
Lemma SetTxIdMap_Val s i d d' :
  SetTxIdMap s i d = Val d' → ∃ x, i = Some x ∧ d' = Put (keyTxMapPrefix +:+ s) (Data x) d.
Proof. intros (x & Hx%deref_Val & [= <-])%pan_bind_Val. by exists x. Qed.

(** One committed transaction. *)
Lemma cleanUp_cons idx tx txs h p p' :
  cleanUp_from idx (tx :: txs) h p = Ret tt p' →
  ∃ wt x b, tx_WatchedTx tx = Some wt ∧ tx_Id tx = Some x ∧
    Marshal {| tle_Height := h; tle_Index := wrap32 idx |} = Some b ∧
    cleanUp_from (idx + 1) txs h
      (MkPool (Put (keyTxMapPrefix +:+ tx_NewlyTxId tx) (Data x)
                (Put (keyTxMapPrefix +:+ wt_Txid wt) (Data x)
                   (Put (keyTxPrefix +:+ Data x) b (p_db p))))
              (drop_tx (wt_Txid wt) (p_ts p))) = Ret tt p'.
Proof.
  cbn [cleanUp_from]. intros (wt & p0 & [Hwt%deref_Val ->]%lift_Ret & Hk)%bind_Ret_inv.
  apply bind_Ret_inv in Hk as ([] & p1 & (d1 & H1 & ->)%updates_db_Ret & Hk).
  apply bind_Ret_inv in Hk as ([] & p2 & (d2 & H2 & ->)%updates_db_Ret & Hk).
  apply bind_Ret_inv in Hk as ([] & p3 & (d3 & H3 & ->)%updates_db_Ret & Hk).
  apply SetTxLookupEntry_Val in H1 as (x & b & Hx & Hb & ->).
  apply SetTxIdMap_Val in H2 as (x2 & Hx2 & ->), H3 as (x3 & Hx3 & ->).
  rewrite Hx in Hx2. injection Hx2 as <-. rewrite Hx in Hx3. injection Hx3 as <-.
  exists wt, x, b. split_and!; try done.
Qed.

Lemma HasTxInDB_Put s k v d : HasTxInDB s d = true → HasTxInDB s (Put k v d) = true.
Proof.
  unfold HasTxInDB, GetTxIdBySidechainTxId. rewrite !bool_decide_eq_true !fmap_is_Some.
  destruct (decide (k = keyTxMapPrefix +:+ s)) as [->|Hne]; [by rewrite Get_Put|by rewrite Get_Put_ne].
Qed.
Lemma HasTxInDB_Put_eq s v d : HasTxInDB s (Put (keyTxMapPrefix +:+ s) v d) = true.
Proof.
  unfold HasTxInDB, GetTxIdBySidechainTxId. by rewrite bool_decide_eq_true fmap_is_Some Get_Put.
Qed.
Lemma tx_map_ne r r' : keyTxMapPrefix +:+ r ≠ keyTxPrefix +:+ r'.
Proof. key_ne. Qed.

(** The rest of the loop keeps what was recorded and adds nothing to the
    pool; it touches transaction keys alone. *)
Lemma cleanUp_frame txs : ∀ idx h p p',
  cleanUp_from idx txs h p = Ret tt p' →
  (∀ s, HasTxInDB s (p_db p) = true → HasTxInDB s (p_db p') = true) ∧
  (∀ x, Some x ∉ tx_Id <$> txs →
     Get (p_db p') (keyTxPrefix +:+ Data x) = Get (p_db p) (keyTxPrefix +:+ Data x)) ∧
  txInfoById (p_ts p') ⊆ txInfoById (p_ts p) ∧ watchedTxInfo (p_ts p') ⊆ watchedTxInfo (p_ts p) ∧
  freshWatchedTxInfo (p_ts p') ⊆ freshWatchedTxInfo (p_ts p) ∧
  same_but (λ k, ∃ r, k = keyTxPrefix +:+ r ∨ k = keyTxMapPrefix +:+ r) (p_db p) (p_db p').
Proof.
  induction txs as [|tx txs IH]; intros idx h p p' Hc.
  { injection Hc as <-. split_and!; done. }
  apply cleanUp_cons in Hc as (wt & x & b & Hwt & Hx & Hb & Hc).
  apply IH in Hc as (Hdb & Hl & Hm & Hw & Hf & Hs). cbn [p_db p_ts drop_tx txInfoById watchedTxInfo
    freshWatchedTxInfo] in *.
  split_and!.
  - intros s Hin. apply Hdb. by do 3 apply HasTxInDB_Put.
  - intros y Hni. cbn in Hni. rewrite Hl; [|set_solver].
    do 2 (rewrite Get_Put_ne; [|apply tx_map_ne]). apply Get_Put_ne.
    intros E%app_inj_l. apply Hni. rewrite Hx. destruct x, y. cbn in E. subst. left.
  - etrans; [done|]. apply delete_subseteq.
  - etrans; [done|]. apply delete_subseteq.
  - etrans; [done|]. apply delete_subseteq.
  - eapply same_but_trans; [|exact Hs]. eapply same_but_trans.
    { eapply same_but_mono; [|apply same_but_put]. intros k <-. eexists. by left. }
    eapply same_but_trans.
    { eapply same_but_mono; [|apply same_but_put]. intros k <-. eexists. by right. }
    eapply same_but_mono; [|apply same_but_put]. intros k <-. eexists. by right.
Qed.

Lemma cleanUp_from_spec txs : ∀ idx h p p',
  cleanUp_from idx txs h p = Ret tt p' → NoDup (tx_Id <$> txs) →
  0 ≤ idx → idx + Z.of_nat (length txs) < 2^31 →
  ∀ i tx, txs !! i = Some tx →
  ∃ wt x, tx_WatchedTx tx = Some wt ∧ tx_Id tx = Some x ∧
    HasTxInDB (wt_Txid wt) (p_db p') = true ∧ HasTxInDB (tx_NewlyTxId tx) (p_db p') = true ∧
    GetTxLookupEntry (Some x) (p_db p') =
      Val (Some {| tle_Height := h; tle_Index := idx + Z.of_nat i |}) ∧
    txInfoById (p_ts p') !! wt_Txid wt = None ∧ watchedTxInfo (p_ts p') !! wt_Txid wt = None ∧
    freshWatchedTxInfo (p_ts p') !! wt_Txid wt = None.
Proof.
  induction txs as [|tx0 txs IH]; intros idx h p p' Hc Hnd Hi Hb i tx Htx; [done|].
  cbn [length] in Hb. cbn in Hnd. apply NoDup_cons in Hnd as [Hni Hnd].
  apply cleanUp_cons in Hc as (wt & x & b & Hwt & Hx & Hmar & Hc).
  destruct i as [|i]; cbn in Htx.
  - injection Htx as <-. apply cleanUp_frame in Hc as (Hdb & Hl & Hm & Hw & Hf & _).
    cbn [p_db p_ts drop_tx txInfoById watchedTxInfo freshWatchedTxInfo] in *.
    assert (∀ {V} (m m' : gmap string V) k, m' ⊆ delete k m → m' !! k = None) as Hdel.
    { intros V m m' k Hsub. destruct (m' !! k) as [v|] eqn:E; [|done].
      eapply lookup_weaken in E; [|done]. by rewrite lookup_delete_eq in E. }
    exists wt, x. split_and!; [done|done| | | |by eapply Hdel..].
    + apply Hdb, HasTxInDB_Put, HasTxInDB_Put_eq.
    + apply Hdb, HasTxInDB_Put_eq.
    + unfold GetTxLookupEntry. cbn [deref mbind pan_bind]. unfold get_pb.
      rewrite Hl; [|by rewrite -Hx]. do 2 (rewrite Get_Put_ne; [|apply tx_map_ne]).
      rewrite Get_Put. rewrite (Unmarshal_Marshal _ _ Hmar). cbn.
      rewrite wrap32_small; [|unfold i32; lia]. by rewrite Z.add_0_r.
  - destruct (IH _ _ _ _ Hc Hnd ltac:(lia) ltac:(lia) i tx Htx) as (wt' & x' & ? & ? & ? & ? & He & ?).
    exists wt', x'. split_and!; try done; [|by destruct_and!..].
    rewrite He. do 3 f_equal. lia.
Qed.

(** When a block has been committed and cleaned up, each of its
    transactions is on record under its id, with the block's height and its
    index, and under the ids of both chain transactions, and it is gone from
    the pool and from the watched and fresh transactions; the keys of the
    chain and of the consensus state are untouched. *)
Theorem cleanUpOnNewCommitted_spec (p p' : Pool) (txs : list Transaction) (height : Z) :
  cleanUpOnNewCommitted txs height p = Ret tt p' → NoDup (tx_Id <$> txs) →
  Z.of_nat (length txs) < 2^31 →
  (∀ i tx, txs !! i = Some tx →
   ∃ wt x, tx_WatchedTx tx = Some wt ∧ tx_Id tx = Some x ∧
     HasTxInDB (wt_Txid wt) (p_db p') = true ∧ HasTxInDB (tx_NewlyTxId tx) (p_db p') = true ∧
     GetTxLookupEntry (Some x) (p_db p') =
       Val (Some {| tle_Height := height; tle_Index := Z.of_nat i |}) ∧
     txInfoById (p_ts p') !! wt_Txid wt = None ∧ watchedTxInfo (p_ts p') !! wt_Txid wt = None ∧
     freshWatchedTxInfo (p_ts p') !! wt_Txid wt = None) ∧
  same_but (λ k, ∃ r, k = keyTxPrefix +:+ r ∨ k = keyTxMapPrefix +:+ r) (p_db p) (p_db p').
Proof.
  intros Hc Hnd Hb. split.
  - intros i tx Htx. eapply cleanUp_from_spec in Hc as (wt & x & Hc); try done.
    exists wt, x. by rewrite Z.add_0_l in Hc.
  - by apply cleanUp_frame in Hc as (_ & _ & _ & _ & _ & Hs).
Qed.
End CleanUp.

(** * The pool as a transition system *)
Section PoolSteps.
Context `{KV} `{Wire}.
Implicit Types (d : db) (ts : TxStore) (p : Pool).

(** The turns of [Run] and of the heartbeat, and the calls that other parts
    of the node make, in any order; another part may also change the store. *)
Inductive pool_step : Pool → Pool → Prop :=
  | step_run now p p' : run_step now p = Ret tt p' → pool_step p p'
  | step_heartbeat o now r p p' : doHeartbeat o now p = Ret r p' → pool_step p p'
  | step_fetch o r p p' : GetFreshWatchedTxs o p = Ret r p' → pool_step p p'
  | step_validate tx r p p' : ValidateTx tx p = Ret r p' → pool_step p p'
  | step_watched_info tx r p p' : AddWatchedInfo tx p = Ret r p' → pool_step p p'
  | step_fresh tx p p' : AddFreshWatchedTx tx p = Ret tt p' → pool_step p p'
  | step_to_fresh i p p' : WatchedTxToFresh i p = Ret tt p' → pool_step p p'
  | step_delete_fresh i p p' : DeleteFresh i p = Ret tt p' → pool_step p p'
  | step_delete_watched i p p' : DeleteWatchedTx i p = Ret tt p' → pool_step p p'
  | step_create now i s a p p' : CreateInnerTx now i s a p = Ret tt p' → pool_step p p'
  | step_watch tx p p' : AddWatchedTx tx p = Ret tt p' → pool_step p p'
  | step_committed bp p p' : OnNewBlockCommitted bp p = Ret tt p' → pool_step p p'
  | step_term t p p' : OnTermChanged t p = Ret tt p' → pool_step p p'
  | step_store d p : pool_step p (set_p_db d p).

Lemma pool_wf_new : pool_wf NewTxStore.
Proof. split; intros i x; by rewrite lookup_empty. Qed.

(** Only the three maps matter for the invariant, and entries may go. *)
Lemma pool_wf_sub ts ts' :
  txInfoById ts' ⊆ txInfoById ts → watchedTxInfo ts' ⊆ watchedTxInfo ts →
  freshWatchedTxInfo ts' ⊆ freshWatchedTxInfo ts → pool_wf ts → pool_wf ts'.
Proof.
  intros Hm Hw Hf [H1 H2 H3]. split.
  - intros i tx Hi. eapply H1, lookup_weaken; done.
  - intros i t Hi. eapply H2, lookup_weaken; done.
  - intros i t Hi. eapply H3, lookup_weaken; done.
Qed.

(** [GetFreshWatchedTxs] hands out exactly the fresh transactions that
    are neither postponed, nor committed, nor in the pool, and keeps exactly
    the postponed ones (those whose signature failed in this term, other than
    distribution transactions); a second call hands out nothing. *)
Theorem GetFreshWatchedTxs_spec (o : order) (p : Pool) :
  pool_wf (p_ts p) →
  ∃ rst p', GetFreshWatchedTxs o p = Ret rst p' ∧ pool_wf (p_ts p') ∧
    (∀ v, v ∈ rst ↔ (∃ i, freshWatchedTxInfo (p_ts p) !! i = Some v) ∧ ready (p_db p) (p_ts p) v = true) ∧
    (∀ i v, freshWatchedTxInfo (p_ts p') !! i = Some v ↔
            freshWatchedTxInfo (p_ts p) !! i = Some v ∧ postponed (p_db p) (p_ts p) v = true) ∧
    p_db p' = p_db p ∧ txInfoById (p_ts p') = txInfoById (p_ts p) ∧
    watchedTxInfo (p_ts p') = watchedTxInfo (p_ts p) ∧
    ∀ o', ∃ p'', GetFreshWatchedTxs o' p' = Ret [] p''.
Proof.
  intros Hwf. destruct (GetFreshWatchedTxs_run o p Hwf) as (rst & p' & Hg & Hr & Hf & Hd & Hm & Hw & Hc).
  assert (pool_wf (p_ts p')) as Hwf'.
  { apply (pool_wf_sub (p_ts p)); [by rewrite Hm|by rewrite Hw| |exact Hwf].
    apply map_subseteq_spec. intros i v Hi%Hf. by destruct Hi. }
  exists rst, p'. split_and!; try done. intros o'.
  destruct (GetFreshWatchedTxs_run o' p' Hwf') as (rst' & p'' & Hg' & Hr' & _).
  exists p''. rewrite Hg'. f_equal. destruct rst' as [|v l]; [done|]. exfalso.
  destruct (proj1 (Hr' v)) as [(i & Hi) Hv]; [left|]. apply Hf in Hi as [_ Hp].
  unfold ready, postponed in *. rewrite Hd Hc Hp in Hv. done.
Qed.

Lemma tolerance_new {T} now (tx : T) :
  0 < t_txWaitingTolerance (new_timed now tx) ≤ maxTxWaitingTolerance.
Proof. unfold maxTxWaitingTolerance, second. cbn. unfold defaultTxWaitingTolerance, second. lia. Qed.
Lemma wf_insert_fresh now tx ts :
  pool_wf ts → pool_wf (set_fresh ts (<[wt_Txid tx := new_timed now tx]> (freshWatchedTxInfo ts))).
Proof.
  intros [H1 H2 H3]. split; cbn; [done| |done].
  intros i t [[<- <-]|[_ Hi]]%lookup_insert_Some; [|by apply H2].
  split; [done|apply tolerance_new].
Qed.
Lemma wf_insert_watched tx ts :
  pool_wf ts → pool_wf (set_watchedTxInfo ts (<[wt_Txid tx := tx]> (watchedTxInfo ts))).
Proof.
  intros [H1 H2 H3]. split; cbn; [|done|done].
  intros i t [[<- <-]|[_ Hi]]%lookup_insert_Some; [done|by apply H1].
Qed.

Lemma addTxs_wf now txs : ∀ idx p r p',
  pool_wf (p_ts p) → addTxs_from now idx txs p = Ret r p' → pool_wf (p_ts p').
Proof.
  induction txs as [|tx txs IH]; intros idx p r p' Hwf; cbn [addTxs_from].
  { by intros [= _ <-]. }
  intros (wt & p0 & [Hwt%deref_Val ->]%lift_Ret & Hk)%bind_Ret_inv.
  rewrite bind_gets_id in Hk. apply bind_Ret_inv in Hk as (added & p1 & Ha & Hk).
  assert (p1 = p) as ->.
  { destruct (txInfoById (p_ts p) !! wt_Txid wt); [by injection Ha|].
    apply bind_Ret_inv in Ha as (e & p2 & He & [= _ <-]).
    unfold reads in He. destruct (GetTxLookupEntry _ _); [|done]. by injection He. }
  apply bind_Ret_inv in Hk as ([] & p3 & Hw & Hk).
  apply bind_Ret_inv in Hk as (rest & p4 & Hr & [= _ <-]).
  eapply IH; [|exact Hr]. destruct added; injection Hw as <-; [|done].
  destruct Hwf as [H1 H2 H3]. split; cbn; [done|done|].
  intros i t [[<- <-]|[_ Hi]]%lookup_insert_Some; [|by apply H3].
  split; [by eexists|apply tolerance_new].
Qed.

Lemma run_step_wf now p p' :
  pool_wf (p_ts p) → run_step now p = Ret tt p' → pool_wf (p_ts p').
Proof.
  intros Hwf. unfold run_step. rewrite bind_gets_id.
  destruct (inbox (p_ts p)) as [|r q]; [by intros [= <-]|].
  unfold modify_ts. rewrite bind_modify.
  assert (pool_wf (set_inbox (p_ts p) q)) as Hwf1 by (by eapply pool_wf_sub; [..|exact Hwf]).
  destruct r as [txs|txs h|tx|tx|t]; cbn [handle_request].
  - intros (rr & p1 & Ha & [= <-])%bind_Ret_inv. by eapply addTxs_wf in Ha.
  - intros Hc%cleanUp_frame. destruct Hc as (_ & _ & Hm & Hw & Hf & _). by eapply pool_wf_sub.
  - intros [= <-]. cbn. unfold add_watched. destruct (_ !! _); [done|].
    destruct (IsDistributionTx tx); [by apply wf_insert_watched|].
    by apply (wf_insert_fresh now tx (set_watchedTxInfo _ _)), wf_insert_watched.
  - intros [= <-]. cbn. by apply wf_insert_fresh.
  - intros [= <-]. cbn. by eapply pool_wf_sub; [..|exact Hwf].
Qed.

Lemma Transaction_EqualTo_watched a b r a' b' :
  Transaction_EqualTo a b = Val (r, a', b') → tx_WatchedTx a' = tx_WatchedTx a.
Proof.
  unfold Transaction_EqualTo, UpdateId.
  intros (a1 & (i & _ & [= <-])%pan_bind_Val & (b1 & (j & _ & [= <-])%pan_bind_Val
    & (e & _ & [= _ <- _])%pan_bind_Val)%pan_bind_Val)%pan_bind_Val. done.
Qed.

Lemma ValidateTx_wf tx r p p' :
  pool_wf (p_ts p) → ValidateTx tx p = Ret r p' → pool_wf (p_ts p').
Proof.
  intros Hwf. unfold ValidateTx.
  intros (wt & p0 & [Hwt%deref_Val ->]%lift_Ret & Hk)%bind_Ret_inv. rewrite bind_gets_id in Hk.
  destruct (txInfoById (p_ts p) !! wt_Txid wt) as [t|] eqn:Em.
  - apply bind_Ret_inv in Hk as ([[e mtx] tx'] & p1 & [Heq ->]%lift_Ret & Hk).
    apply Transaction_EqualTo_watched in Heq. unfold modify_ts in Hk. rewrite bind_modify in Hk.
    injection Hk as _ <-. destruct (wf_mem _ Hwf _ _ Em) as [Hid Ht]. destruct Hwf as [H1 H2 H3].
    split; cbn; [done|done|]. intros i t' [[<- <-]|[_ Hi]]%lookup_insert_Some; [|by apply H3].
    cbn. by rewrite Heq.
  - destruct (watchedTxInfo (p_ts p) !! wt_Txid wt); [destruct (negb _)|]; by injection Hk as _ <-.
Qed.

Lemma pool_step_wf p p' : pool_wf (p_ts p) → pool_step p p' → pool_wf (p_ts p').
Proof.
  intros Hwf Hs. assert (∀ ts', txInfoById ts' ⊆ txInfoById (p_ts p) →
    watchedTxInfo ts' ⊆ watchedTxInfo (p_ts p) →
    freshWatchedTxInfo ts' ⊆ freshWatchedTxInfo (p_ts p) → pool_wf ts') as Hsub.
  { intros. by eapply pool_wf_sub. }
  destruct Hs as [now p p' Hr|o now r p p' Hr|o r p p' Hr|tx r p p' Hr|tx r p p' Hr|tx p p' Hr|i p p' Hr
    |i p p' Hr|i p p' Hr|now i s a p p' Hr|tx p p' Hr|bp p p' Hr|t p p' Hr|d p]; try done.
  - by eapply run_step_wf.
  - rewrite doHeartbeat_beats in Hr. destruct (beats _ _ _ _) as [ts' b] eqn:E.
    apply beats_quiet in E as [Hq _]; [|done].
    destruct b; [destruct (GetNodeTerm _); [|done]|]; by injection Hr as _ <-.
  - destruct (GetFreshWatchedTxs_run o p Hwf) as (rst & p1 & Hg & _ & Hf & _ & Hm & Hw & _).
    rewrite Hg in Hr. injection Hr as _ <-. apply Hsub; [by rewrite Hm|by rewrite Hw|].
    apply map_subseteq_spec. intros i v Hi%Hf. by destruct Hi.
  - by eapply ValidateTx_wf.
  - unfold AddWatchedInfo in Hr. rewrite bind_gets_id in Hr.
    destruct (_ !! _); [by injection Hr as _ <-|]. destruct (HasTxInDB _ _); [by injection Hr as _ <-|].
    unfold modify_ts in Hr. rewrite bind_modify in Hr. injection Hr as _ <-. by apply wf_insert_watched.
  - unfold AddFreshWatchedTx in Hr. apply bind_Ret_inv in Hr as (x & p0 & [_ ->]%lift_Ret & Hk).
    rewrite bind_gets_id in Hk. destruct (_ && _); injection Hk as <-; by apply Hsub.
  - unfold WatchedTxToFresh in Hr. rewrite bind_gets_id in Hr.
    destruct (_ !! _); injection Hr as <-; by apply Hsub.
  - injection Hr as <-. apply Hsub; [done..|]. apply delete_subseteq.
  - injection Hr as <-. apply Hsub; [done| |done]. apply delete_subseteq.
  - unfold CreateInnerTx in Hr. apply bind_Ret_inv in Hr as (m & p0 & He & Hk).
    unfold reads in He. destruct (GetSignMsg _ _); [|done]. injection He as <- <-.
    destruct a0 as [m|]; [|by injection Hk as <-].
    apply bind_Ret_inv in Hk as (wt & p1 & [_ ->]%lift_Ret & Hk).
    unfold modify_ts in Hk. rewrite !bind_modify in Hk.
    apply bind_Ret_inv in Hk as (tx & p2 & [_ ->]%lift_Ret & [= <-]).
    apply Hsub; [done|apply delete_subseteq..].
  - injection Hr as <-. by apply Hsub.
  - unfold OnNewBlockCommitted in Hr. apply bind_Ret_inv in Hr as (b & p0 & [_ ->]%lift_Ret & Hk).
    destruct b; [|by injection Hk as <-]. cbn [when] in Hk.
    apply bind_Ret_inv in Hk as (b1 & p1 & [_ ->]%lift_Ret & Hk).
    apply bind_Ret_inv in Hk as (b2 & p2 & [_ ->]%lift_Ret & Hk).
    apply bind_Ret_inv in Hk as (b3 & p3 & [_ ->]%lift_Ret & [= <-]). by apply Hsub.
  - injection Hr as <-. by apply Hsub.
Qed.

(** Whatever the pool is asked to do, in whatever order, its invariant
    holds: entries are filed under their own ids and every waiting tolerance
    stays between zero and the maximum. *)
Theorem pool_reachable_wf (d : db) (p : Pool) :
  rtc pool_step (MkPool d NewTxStore) p → pool_wf (p_ts p).
Proof.
  intros Hr. remember (MkPool d NewTxStore) as p0 eqn:E. assert (pool_wf (p_ts p0)) as Hwf.
  { subst. apply pool_wf_new. }
  clear E. induction Hr as [|p1 p2 p3 Hs _ IH]; [done|]. by apply IH, (pool_step_wf p1).
Qed.
End PoolSteps.
