(* ===== verification/Validation.v ===== *)
(** * Validation of received messages (src/node/msg_validation.go)

    Every check runs before a message reaches the consensus handlers. Checking a
    block recomputes its id in place, so a check returns its verdict together
    with the message it leaves behind. A check panics where the code dereferences
    a nil pointer, also in the arguments of a log call. Map entries are never
    nil pointers: protobuf does not decode any. *)
From S2P Require Import Prelude.
From S2P Require Import GoLib.
From S2P Require Import Crypto.
From S2P Require Import Messages.
From S2P Require Import Feed.
From S2P Require Import ProtoOps.
From S2P Require Import Cluster.

Inductive CheckMode : Type := CheckFull | CheckLite.
#[export] Instance CheckMode_eq_dec : EqDecision CheckMode.
Proof. solve_decision. Defined.

Definition checkTerm (term : Z) : bool := 0 <=? term.
Definition checkHeight (height : Z) : bool := 0 <=? height.
Definition checkNodeId (c : Cluster) (id : Z) : bool :=
  (0 <=? id) && (id <? wrap32 (Z.of_nat (length (NodeList c)))).
Definition checkDigest (d : option Digest256) : bool :=
  match d with Some d => IsValid d | None => false end.
Definition checkHost (host : string) : bool := (0 <=? len host) && (len host <? 22).
Definition checkBchBlockHeader (header : option BchBlockHeader) : pan bool :=
  h ← deref header;
  mret ((0 <=? bh_Height h) && checkDigest (bh_BlockId h) && checkDigest (bh_PrevId h)).

(** The block comes back with its id recomputed when it passes. *)
Definition checkBlock (block : option Block) : pan (bool * option Block) :=
  match block with
  | None => mret (false, None)
  | Some b =>
      let update := b' ← UpdateBlockId b; mret (true, Some b') in
      let reject := mret (false, Some b) in
      match b_Type b with
      | GENESIS =>
          if (b_TimestampMs b =? 1534766888) && bool_decide (b_PrevBlockId b = None)
             && bool_decide (length (b_Txs b) = 0%nat) && negb (bool_decide (is_Some (b_Reconfig b)))
          then update else reject
      | TXS | RECONFIG =>
          if checkDigest (b_PrevBlockId b) && negb (bool_decide (is_Some (b_BchBlockHeader b)))
          then update else reject
      | BCH =>
          if checkDigest (b_PrevBlockId b) then
            h ← checkBchBlockHeader (b_BchBlockHeader b);
            if h && negb (bool_decide (is_Some (b_Reconfig b))) then update else reject
          else reject
      | UNKNOWN | Block_Type_other _ => reject
      end
  end.

(** A loop over a map that stops at the first entry that fails, and keeps the
    entries it changed. *)
Fixpoint check_entries {V} (check : Z → V → pan (bool * V)) (l : list (Z * V)) (m : gmap Z V)
    : pan (bool * gmap Z V) :=
  match l with
  | [] => mret (true, m)
  | (k, v) :: l' =>
      '(r, v') ← check k v;
      let m := <[k := v']> m in
      if r : bool then check_entries check l' m else mret (false, m)
  end.
(** The same for checks that change nothing. *)
Fixpoint forall_entries {V} (check : Z → V → pan bool) (l : list (Z * V)) : pan bool :=
  match l with
  | [] => mret true
  | (k, v) :: l' => r ← check k v; if r : bool then forall_entries check l' else mret false
  end.

Section Validation.
Context `{Signatures}.
(** The node list, and the iteration order of maps. *)
Variable c : Cluster.
Variable o : order.

(** crypto.Verify(cluster.NodeList[id].PublicKey, digest, sig). *)
Definition verify_node (id : Z) (digest : pan Digest256) (sig : bytes) : pan bool :=
  n ← node_at c id; i ← digest; mret (Verify (PublicKey n) i sig).

Definition checkPrepare (msg : PrepareMsg) : pan bool :=
  if checkTerm (pm_Term msg) && checkHeight (pm_Height msg) && checkDigest (pm_BlockId msg)
     && checkNodeId c (pm_NodeId msg)
  then verify_node (pm_NodeId msg) (PrepareMsg_Id msg) (pm_Sig msg)
  else mret false.
Definition checkCommit (msg : CommitMsg) : pan bool :=
  if checkTerm (cm_Term msg) && checkHeight (cm_Height msg) && checkDigest (cm_BlockId msg)
     && checkNodeId c (cm_NodeId msg)
  then verify_node (cm_NodeId msg) (CommitMsg_Id msg) (cm_Sig msg)
  else mret false.

(** A prepare or commit for the block [blockId] at the given term and
    height. [DebugString] of a prepare without a block id panics. *)
Definition prepare_for (term height : Z) (blockId : option Digest256) (nodeId : Z)
    (p : PrepareMsg) : pan bool :=
  r ← checkPrepare p;
  if negb r || negb (nodeId =? pm_NodeId p) then mret false
  else if negb (pm_Term p =? term) || negb (pm_Height p =? height) then mret false
  else EqualTo (pm_BlockId p) blockId.
Definition votie_prepare (term height : Z) (blockId : option Digest256) (nodeId : Z)
    (p : PrepareMsg) : pan bool :=
  r ← checkPrepare p;
  if negb r || negb (nodeId =? pm_NodeId p) then _ ← deref (pm_BlockId p); mret false
  else if negb (pm_Term p =? term) || negb (pm_Height p =? height) then mret false
  else EqualTo blockId (pm_BlockId p).
Definition commit_for (term height : Z) (blockId : option Digest256) (nodeId : Z)
    (m : CommitMsg) : pan bool :=
  r ← checkCommit m;
  if negb r || negb (nodeId =? cm_NodeId m) then mret false
  else if negb (cm_Term m =? term) || negb (cm_Height m =? height) then mret false
  else EqualTo (cm_BlockId m) blockId.
Definition votie_commit (term height : Z) (blockId : option Digest256) (nodeId : Z)
    (m : CommitMsg) : pan bool :=
  r ← checkCommit m;
  if negb r || negb (nodeId =? cm_NodeId m) then mret false
  else if negb (cm_Term m =? term) || negb (cm_Height m =? height) then mret false
  else EqualTo blockId (cm_BlockId m).

Definition checkVotie (votie : option Votie) : pan (bool * option Votie) :=
  match votie with
  | None => mret (false, None)
  | Some v =>
      if negb (checkTerm (vi_Term v)) || negb (checkHeight (vi_Height v)) then mret (false, Some v)
      else
        '(r, b) ← checkBlock (vi_Block v);
        let v := set_vi_Block v b in
        if negb r then mret (false, Some v)
        else
          b ← deref b;
          ps ← forall_entries (votie_prepare (vi_Term v) (vi_Height v) (b_Id b))
                 (range o 6 (vi_Prepares v));
          if negb ps then mret (false, Some v)
          else
            cs ← forall_entries (votie_commit (vi_Term v) (vi_Height v) (b_Id b))
                   (range o 7 (vi_Commits v));
            if negb cs then mret (false, Some v)
            else
              let np := Z.of_nat (size (vi_Prepares v)) in
              let nc := Z.of_nat (size (vi_Commits v)) in
              if vi_Height v =? 0 then mret ((vi_Term v =? 0) && (np =? 0) && (nc =? 0), Some v)
              else mret ((np >=? QuorumN c) || (nc >=? QuorumN c), Some v)
  end.

Definition checkVote (vote : Vote) : pan (bool * Vote) :=
  if negb (checkTerm (v_Term vote)) || negb (checkNodeId c (v_NodeId vote)) then mret (false, vote)
  else
    votie ← deref (v_Votie vote);
    if negb (vi_Term votie <=? v_Term vote) then mret (false, vote)
    else
      '(r, v') ← checkVotie (Some votie);
      let vote := set_v_Votie vote v' in
      if negb r then mret (false, vote)
      else ok ← verify_node (v_NodeId vote) (Vote_Id vote) (v_Sig vote); mret (ok, vote).

Definition init_vote (term : Z) (nodeID : Z) (vote : Vote) : pan (bool * Vote) :=
  if negb (checkNodeId c nodeID) || negb (v_Term vote =? term) || negb (v_NodeId vote =? nodeID)
  then mret (false, vote)
  else checkVote vote.

(** The warning after the first test reads [msg.Height]. *)
Definition checkInitMsg (msg : option InitMsg) : pan (bool * InitMsg) :=
  msg ← deref msg;
  if negb (checkTerm (im_Term msg)) || negb (checkHeight (im_Height msg)) then mret (false, msg)
  else
    '(r, b) ← checkBlock (im_Block msg);
    let msg := set_im_Block msg b in
    if negb r || negb (checkNodeId c (im_NodeId msg)) then mret (false, msg)
    else
      '(r, votes) ← check_entries (init_vote (im_Term msg)) (range o 8 (im_Votes msg)) (im_Votes msg);
      let msg := set_im_Votes msg votes in
      if negb r then mret (false, msg)
      else ok ← verify_node (im_NodeId msg) (InitMsg_Id msg) (im_Sig msg); mret (ok, msg).

Definition checkInit (msg : option InitMsg) (mode : CheckMode) : pan (bool * option InitMsg) :=
  match msg with
  | None => mret (false, None)
  | Some msg =>
      if negb (checkTerm (im_Term msg)) || negb (checkHeight (im_Height msg)) then mret (false, Some msg)
      else
        '(r, b) ← checkBlock (im_Block msg);
        let msg := set_im_Block msg b in
        if negb r || negb (checkNodeId c (im_NodeId msg)) then mret (false, Some msg)
        else
          '(r, votes) ←
            (if Z.of_nat (size (im_Votes msg)) >=? QuorumN c then
               if bool_decide (mode = CheckFull) then
                 check_entries (init_vote (im_Term msg)) (range o 9 (im_Votes msg)) (im_Votes msg)
               else mret (true, im_Votes msg)
             else mret (true, ∅));
          let msg := set_im_Votes msg votes in
          if negb r then mret (false, Some msg)
          else if bool_decide (mode = CheckLite) then mret (true, Some msg)
          else ok ← verify_node (im_NodeId msg) (InitMsg_Id msg) (im_Sig msg); mret (ok, Some msg)
  end.

Definition checkWeakAccuse (msg : WeakAccuse) : pan bool :=
  if checkTerm (wa_Term msg) && checkNodeId c (wa_NodeId msg)
  then verify_node (wa_NodeId msg) (WeakAccuse_Id msg) (wa_Sig msg)
  else mret false.
Definition checkStrongAccuse (msg : option StrongAccuse) : pan bool :=
  match msg with
  | None => mret false
  | Some msg =>
      if Z.of_nat (size (sa_WeakAccuses msg)) <? AccuseQuorumN c then mret false
      else forall_entries (λ nodeId wa, r ← checkWeakAccuse wa; mret (r && (nodeId =? wa_NodeId wa)))
             (range o 10 (sa_WeakAccuses msg))
  end.

Definition checkInitedBlockPack (bp : option BlockPack) (mode : CheckMode)
    : pan (bool * option BlockPack) :=
  match bp with
  | None => mret (false, None)
  | Some bp =>
      '(r, init) ← checkInit (bp_Init bp) mode;
      let bp := set_bp_Init bp init in
      if negb r then mret (false, Some bp)
      else if bool_decide (mode = CheckLite) then mret (true, Some bp)
      else
        init ← deref init;
        block ← deref (im_Block init);
        ps ← forall_entries (prepare_for (im_Term init) (im_Height init) (b_Id block))
               (range o 11 (bp_Prepares bp));
        if negb ps then mret (false, Some bp)
        else
          cs ← forall_entries (commit_for (im_Term init) (im_Height init) (b_Id block))
                 (range o 12 (bp_Commits bp));
          mret (cs, Some bp)
  end.

Definition checkPrepares (blockTerm blockHeight : Z) (blockID : option Digest256)
    (prepares : gmap Z PrepareMsg) : pan bool :=
  if Z.of_nat (size prepares) =? 0 then mret false
  else forall_entries (prepare_for blockTerm blockHeight blockID) (range o 13 prepares).
Definition checkCommits (blockTerm blockHeight : Z) (blockID : option Digest256)
    (commits : gmap Z CommitMsg) : pan bool :=
  if Z.of_nat (size commits) =? 0 then mret false
  else forall_entries (commit_for blockTerm blockHeight blockID) (range o 14 commits).

(** *** Requests *)
Definition checkEchoRequest (req : option EchoRequest) : bool :=
  match req with Some r => 0 <=? eq_Nonce r | None => false end.
Definition checkSyncUpRequest (req : option SyncUpRequest) : bool :=
  match req with Some r => 0 <=? su_BaseHeight r | None => false end.
Definition checkSyncUpByHashRequest (req : option SyncUpByHashRequest) : pan bool :=
  match req with
  | None => mret false
  | Some r =>
      match last (sh_Locator r) with
      | None => mret false
      | Some l => g ← GenesisBlockPack; i ← bp_BlockId g; EqualTo (Some l) i
      end
  end.

(** The loop of [checkSyncUpResponse]; [prev] is the height, term and id of
    the block pack before, none before the first. *)
Fixpoint checkCommitChain (prev : option (Z * Z * option Digest256)) (commits : list BlockPack)
    : pan (bool * list BlockPack) :=
  match commits with
  | [] => mret (true, [])
  | commit :: l =>
      let mode := if bool_decide (l = []) then CheckFull else CheckLite in
      '(r, commit') ← checkInitedBlockPack (Some commit) mode;
      commit ← deref commit';
      if negb r then mret (false, commit :: l)
      else
        h ← bp_Height commit; t ← bp_Term commit; i ← bp_BlockId commit;
        ok ← (match prev with
              | None => mret true
              | Some (prevHeight, prevTerm, prevBlockId) =>
                  if prevHeight =? -1 then mret true
                  else if negb (h =? prevHeight +i64 1) then mret false
                  else p ← bp_PrevBlockId commit;
                       e ← EqualTo p prevBlockId;
                       mret (e && negb (prevTerm >? t))
              end);
        if negb ok then mret (false, commit :: l)
        else '(r, l') ← checkCommitChain (Some (h, t, i)) l; mret (r, commit :: l')
  end.
Definition checkSyncUpResponse (msg : option SyncUpResponse) : pan (bool * option SyncUpResponse) :=
  match msg with
  | None => mret (false, None)
  | Some msg =>
      '(r, commits) ← checkCommitChain None (sy_Commits msg);
      let msg := {| sy_Commits := commits; sy_Fresh := sy_Fresh msg;
                    sy_StrongAccuse := sy_StrongAccuse msg; sy_More := sy_More msg |} in
      if negb r then mret (false, Some msg)
      else
        '(r, fresh) ← (match sy_Fresh msg with
                       | Some f => checkInitedBlockPack (Some f) CheckFull
                       | None => mret (true, None)
                       end);
        let msg := {| sy_Commits := sy_Commits msg; sy_Fresh := fresh;
                      sy_StrongAccuse := sy_StrongAccuse msg; sy_More := sy_More msg |} in
        if negb r then mret (false, Some msg)
        else match sy_StrongAccuse msg with
             | Some sa => ok ← checkStrongAccuse (Some sa); mret (ok, Some msg)
             | None => mret (true, Some msg)
             end
  end.

Definition checkSignTxRequest (req : option SignTxRequest) : pan bool :=
  match req with
  | None => mret false
  | Some r =>
      if checkTerm (sr_Term r) && checkNodeId c (sr_NodeId r)
      then verify_node (sr_NodeId r) (SignTxRequest_Id r) (sr_Sig r) else mret false
  end.
Definition checkSignedResult (msg : option SignedResult) : pan bool :=
  match msg with
  | None => mret false
  | Some m =>
      if checkNodeId c (sd_NodeId m) && (0 <? len (sd_TxId m)) && (0 <? len (sd_To m))
         && checkTerm (sd_Term m)
      then verify_node (sd_NodeId m) (SignedResult_Id m) (sd_Sig m) else mret false
  end.
(** The node id is not checked before it indexes the node list. *)
Definition checkChainTxIdMsg (msg : option ChainTxIdMsg) : pan bool :=
  match msg with
  | None => mret false
  | Some m => verify_node (ct_NodeId m) (ChainTxIdMsg_Id m) (ct_Sig m)
  end.

(** The node id of a joining node is the next free one. [DebugString] of a
    vote that fails dereferences its votie. *)
Definition checkJoinVote (vote : Vote) (pubkey : bytes) : pan (bool * Vote) :=
  let reject v := _ ← deref (v_Votie v); mret (false, v) in
  if negb (checkTerm (v_Term vote)) || negb (v_NodeId vote =? wrap32 (TotalNodeCount c))
  then reject vote
  else
    votie ← deref (v_Votie vote);
    if negb (vi_Term votie <=? v_Term vote) then reject vote
    else
      '(r, v') ← checkVotie (Some votie);
      let vote := set_v_Votie vote v' in
      if negb r then reject vote
      else i ← Vote_Id vote; mret (Verify pubkey i (v_Sig vote), vote).
Definition checkJoinRequest (req : option JoinRequest) (host pubkeyHex : string)
    : pan (bool * JoinRequest) :=
  req ← deref req;
  if negb (checkHost (jr_Host req)) || negb (bool_decide (jr_Host req = host))
     || negb (bool_decide (jr_Pubkey req = pubkeyHex))
  then mret (false, req)
  else match jr_Vote req with
  | None => mret (false, req)
  | Some vote =>
      match v_Votie vote, hex_decode (jr_Pubkey req) with
      | Some _, Some pubkey =>
          '(r, vote) ← checkJoinVote vote pubkey;
          let req := {| jr_Host := jr_Host req; jr_Pubkey := jr_Pubkey req; jr_Vote := Some vote;
                        jr_Sig := jr_Sig req |} in
          if negb r then mret (false, req)
          else i ← JoinRequest_Id req; mret (Verify pubkey i (jr_Sig req), req)
      | _, _ => mret (false, req)
      end
  end.
Definition checkLeaveRequest (req : option LeaveRequest) : pan bool :=
  match req with
  | None => mret false
  | Some r =>
      if checkNodeId c (lr_NodeId r)
      then verify_node (lr_NodeId r) (LeaveRequest_Id r) (lr_Sig r) else mret false
  end.
End Validation.

(** * Lemmas *)
Lemma forall_entries_true {V} (check : Z → V → pan bool) l :
  forall_entries check l = Val true ↔ ∀ k v, (k, v) ∈ l → check k v = Val true.
Proof.
  induction l as [|[k v] l IH]; cbn; [split; [by intros _ ? ? ?%elem_of_nil|done]|].
  rewrite pan_bind_Val. split.
  - intros ([] & Hr & Hl); [|done]. intros k' v' [[= -> ->]|Hin]%elem_of_cons; [done|].
    by apply IH.
  - intros Hall. exists true. split; [apply Hall; left|]. apply IH. intros. apply Hall. by right.
Qed.
Lemma forall_range {V} (check : Z → V → pan bool) o n (m : gmap Z V) :
  forall_entries check (range o n m) = Val true ↔ ∀ k v, m !! k = Some v → check k v = Val true.
Proof.
  rewrite forall_entries_true. split; intros Hall k v Hk; apply Hall; by apply elem_of_range in Hk || apply elem_of_range.
Qed.

Lemma check_entries_true {V} (check : Z → V → pan (bool * V)) l m m' :
  NoDup l.*1 → check_entries check l m = Val (true, m') →
  (∀ k v, (k, v) ∈ l → ∃ v', check k v = Val (true, v') ∧ m' !! k = Some v') ∧
  (∀ k, k ∉ l.*1 → m' !! k = m !! k).
Proof.
  revert m. induction l as [|[k v] l IH]; intros m Hnd Hc.
  { injection Hc as <-. split; [by intros ? ? ?%elem_of_nil|done]. }
  cbn in Hnd. apply NoDup_cons in Hnd as [Hni Hnd]. cbn in Hc.
  apply pan_bind_Val in Hc as ([r v'] & Hv & Hc). destruct r; [|done].
  destruct (IH _ Hnd Hc) as [H1 H2]. split.
  - intros k1 v1 [[= -> ->]|Hin]%elem_of_cons; [|by apply H1].
    exists v'. split; [done|]. rewrite H2; [|done]. apply lookup_insert_eq.
  - intros k1 Hk1. cbn in Hk1. rewrite H2; [|set_solver]. apply lookup_insert_ne. set_solver.
Qed.
Lemma check_entries_range {V} (check : Z → V → pan (bool * V)) o n (m m' : gmap Z V) :
  check_entries check (range o n m) m = Val (true, m') →
  ∀ k, match m !! k, m' !! k with
       | Some v, Some v' => check k v = Val (true, v')
       | None, None => True
       | _, _ => False
       end.
Proof.
  intros [H1 H2]%check_entries_true; [|apply range_NoDup]. intros k.
  destruct (m !! k) as [v|] eqn:E.
  - destruct (H1 k v) as (v' & Hv & ->); [by apply elem_of_range|done].
  - rewrite H2 ?E; [done|]. intros ([k' v] & -> & Hin%elem_of_range)%list_elem_of_fmap. cbn in E. congruence.
Qed.

(** A block that passes [checkBlock] has the id of its content: whatever
    id it carried, it leaves with its hash, and it has the fields its type
    requires. *)
Lemma checkBlock_true b b' :
  checkBlock b = Val (true, b') →
  ∃ x i, b = Some x ∧ Block_hash x = Val i ∧ b' = Some (set_b_Id x (Some i)) ∧
    (b_Type x = GENESIS ∨ b_Type x = TXS ∨ b_Type x = RECONFIG ∨ b_Type x = BCH) ∧
    (b_Type x ≠ GENESIS → ∃ p, b_PrevBlockId x = Some p ∧ IsValid p = true).
Proof.
  destruct b as [x|]; [|done]. unfold checkBlock.
  assert ((b' ← UpdateBlockId x; mret (true, Some b')) = Val (true, b') →
    ∃ i, Block_hash x = Val i ∧ b' = Some (set_b_Id x (Some i))) as Hup.
  { intros (b1 & Hb1 & [= <-])%pan_bind_Val. apply pan_bind_Val in Hb1 as (i & Hi & [= <-]). eauto. }
  destruct (b_Type x) eqn:Et; try done.
  - destruct (_ && _); [|done]. intros (i & Hi & ->)%Hup. exists x, i. split_and!; auto. done.
  - destruct (checkDigest _) eqn:Ed; [|done]. destruct (negb _); [|done]. cbn.
    intros (i & Hi & ->)%Hup. exists x, i. split_and!; auto. intros _.
    destruct (b_PrevBlockId x); [by eauto|done].
  - destruct (checkDigest _) eqn:Ed; [|done]. intros (h & _ & Hk)%pan_bind_Val.
    destruct (_ && _); [|done]. apply Hup in Hk as (i & Hi & ->). exists x, i. split_and!; auto. intros _.
    destruct (b_PrevBlockId x); [by eauto|done].
  - destruct (checkDigest _) eqn:Ed; [|done]. destruct (negb _); [|done]. cbn.
    intros (i & Hi & ->)%Hup. exists x, i. split_and!; auto. intros _.
    destruct (b_PrevBlockId x); [by eauto|done].
Qed.

Section Certificates.
Context `{Signatures}.
Implicit Types (c : Cluster) (o : order).

(** The signature [sig] of node [k] on a message id is good. *)
Definition signed_by c (k : Z) (digest : pan Digest256) (sig : bytes) : Prop :=
  ∃ n i, node_at c k = Val n ∧ digest = Val i ∧ Verify (PublicKey n) i sig = true.
(** Node [k] signed the prepare, or commit, message for the block. *)
Definition valid_prepare c (t h : Z) (i : option Digest256) (k : Z) (p : PrepareMsg) : Prop :=
  pm_Term p = t ∧ pm_Height p = h ∧ pm_BlockId p = i ∧ pm_NodeId p = k ∧
  checkNodeId c k = true ∧ signed_by c k (PrepareMsg_Id p) (pm_Sig p).
Definition valid_commit c (t h : Z) (i : option Digest256) (k : Z) (m : CommitMsg) : Prop :=
  cm_Term m = t ∧ cm_Height m = h ∧ cm_BlockId m = i ∧ cm_NodeId m = k ∧
  checkNodeId c k = true ∧ signed_by c k (CommitMsg_Id m) (cm_Sig m).

Lemma verify_node_true c k digest sig :
  verify_node c k digest sig = Val true ↔ signed_by c k digest sig.
Proof.
  unfold verify_node, signed_by. rewrite pan_bind_Val. split.
  - intros (n & Hn & (i & Hi & [= Hv])%pan_bind_Val). eauto.
  - intros (n & i & Hn & Hi & Hv). exists n. split; [done|]. rewrite Hi /=. by rewrite Hv.
Qed.
Lemma checkPrepare_true c p :
  checkPrepare c p = Val true →
  checkNodeId c (pm_NodeId p) = true ∧ signed_by c (pm_NodeId p) (PrepareMsg_Id p) (pm_Sig p) ∧
  is_Some (pm_BlockId p) ∧ 0 ≤ pm_Term p ∧ 0 ≤ pm_Height p.
Proof.
  unfold checkPrepare, checkTerm, checkHeight. destruct (_ && _) eqn:E; [|done]. to_prop.
  intros ?%verify_node_true. split_and!; auto. by destruct (pm_BlockId p).
Qed.
Lemma checkCommit_true c m :
  checkCommit c m = Val true →
  checkNodeId c (cm_NodeId m) = true ∧ signed_by c (cm_NodeId m) (CommitMsg_Id m) (cm_Sig m) ∧
  is_Some (cm_BlockId m) ∧ 0 ≤ cm_Term m ∧ 0 ≤ cm_Height m.
Proof.
  unfold checkCommit, checkTerm, checkHeight. destruct (_ && _) eqn:E; [|done]. to_prop.
  intros ?%verify_node_true. split_and!; auto. by destruct (cm_BlockId m).
Qed.

Lemma votie_prepare_true c t h i k p :
  votie_prepare c t h i k p = Val true → valid_prepare c t h i k p.
Proof.
  unfold votie_prepare. intros (r & Hr & Hk)%pan_bind_Val. destruct r; cbn in Hk.
  - destruct (k =? pm_NodeId p) eqn:Ek; [|apply pan_bind_Val in Hk as (? & _ & [=])].
    cbn in Hk. destruct (_ || _) eqn:E in Hk; [done|]. to_prop.
    apply EqualTo_true in Hk as (x & -> & Hx). apply checkPrepare_true in Hr as (? & ? & _).
    subst k. split_and!; auto; lia.
  - apply pan_bind_Val in Hk as (? & _ & [=]).
Qed.
Lemma prepare_for_true c t h i k p :
  prepare_for c t h i k p = Val true → valid_prepare c t h i k p.
Proof.
  unfold prepare_for. intros (r & Hr & Hk)%pan_bind_Val.
  destruct (_ || _) eqn:E in Hk; [done|]. to_prop. destruct (_ || _) eqn:E in Hk; [done|]. to_prop.
  apply EqualTo_true in Hk as (x & Hx & ->). subst r. apply checkPrepare_true in Hr as (? & ? & _).
  subst k. split_and!; auto; lia.
Qed.
Lemma votie_commit_true c t h i k m :
  votie_commit c t h i k m = Val true → valid_commit c t h i k m.
Proof.
  unfold votie_commit. intros (r & Hr & Hk)%pan_bind_Val.
  destruct (_ || _) eqn:E in Hk; [done|]. to_prop. destruct (_ || _) eqn:E in Hk; [done|]. to_prop.
  apply EqualTo_true in Hk as (x & -> & Hx). subst r. apply checkCommit_true in Hr as (? & ? & _).
  subst k. split_and!; auto; lia.
Qed.
Lemma commit_for_true c t h i k m :
  commit_for c t h i k m = Val true → valid_commit c t h i k m.
Proof.
  unfold commit_for. intros (r & Hr & Hk)%pan_bind_Val.
  destruct (_ || _) eqn:E in Hk; [done|]. to_prop. destruct (_ || _) eqn:E in Hk; [done|]. to_prop.
  apply EqualTo_true in Hk as (x & Hx & ->). subst r. apply checkCommit_true in Hr as (? & ? & _).
  subst k. split_and!; auto; lia.
Qed.
End Certificates.

(** * Theorems *)
Section ValidationTheorems.
Context `{Signatures}.
Implicit Types (c : Cluster) (o : order).

(** C12. A votie that passes [checkVotie] is a certificate for its block: the
    block carries the hash of its content as its id; every prepare and commit
    is signed by the node it is filed under, for this term, height and block;
    and unless it is the genesis votie, which carries none, there are at least
    [QuorumN] prepares or [QuorumN] commits. *)
Theorem checkVotie_certificate (c : Cluster) (o : order) (v : option Votie) (v' : option Votie) :
  checkVotie c o v = Val (true, v') →
  ∃ w b i, v = Some w ∧ vi_Block w = Some b ∧ Block_hash b = Val i ∧
    v' = Some (set_vi_Block w (Some (set_b_Id b (Some i)))) ∧
    0 ≤ vi_Term w ∧ 0 ≤ vi_Height w ∧
    (∀ k p, vi_Prepares w !! k = Some p → valid_prepare c (vi_Term w) (vi_Height w) (Some i) k p) ∧
    (∀ k m, vi_Commits w !! k = Some m → valid_commit c (vi_Term w) (vi_Height w) (Some i) k m) ∧
    (vi_Height w = 0 → vi_Term w = 0 ∧ vi_Prepares w = ∅ ∧ vi_Commits w = ∅) ∧
    (vi_Height w ≠ 0 → QuorumN c ≤ Z.of_nat (size (vi_Prepares w)) ∨
                       QuorumN c ≤ Z.of_nat (size (vi_Commits w))).
Proof.
  destruct v as [w|]; [|done]. cbn [checkVotie]. unfold checkTerm, checkHeight.
  destruct (_ || _) eqn:E; [done|]. to_prop.
  intros ([r b'] & Hb & Hk)%pan_bind_Val. destruct r; [|done]. cbn [negb] in Hk.
  apply checkBlock_true in Hb as (b & i & Hwb & Hi & -> & _ & _).
  cbn [deref mbind pan_bind set_vi_Block vi_Prepares vi_Commits vi_Term vi_Height set_b_Id b_Id] in Hk.
  apply pan_bind_Val in Hk as (ps & Hps & Hk). destruct ps; [|done].
  apply pan_bind_Val in Hk as (cs & Hcs & Hk). destruct cs; [|done]. cbn [negb] in Hk.
  rewrite forall_range in Hps. rewrite forall_range in Hcs.
  exists w, b, i. split_and!; try done.
  - destruct (vi_Height w =? 0); by injection Hk as _ <-.
  - intros k p Hp. by apply votie_prepare_true, Hps.
  - intros k m Hm. by apply votie_commit_true, Hcs.
  - intros Hh. rewrite Hh /= in Hk. injection Hk as Hk _. to_prop.
    split_and!; [done| |]; apply map_size_empty_inv; lia.
  - intros Hh. destruct (vi_Height w =? 0) eqn:E0; to_prop; [done|].
    injection Hk as Hk _. apply orb_true_iff in Hk as [Hk|Hk]; to_prop; auto.
Qed.

Lemma valid_ids_normal c (A : gset Z) :
  cluster_wf c → ClusterSize c = TotalNodeCount c → (∀ k, k ∈ A → checkNodeId c k = true) →
  A ⊆ normal_ids c.
Proof.
  intros Hwf Hall HA k Hk. apply HA in Hk. unfold checkNodeId in Hk.
  pose proof (wf_total c Hwf) as Ht. pose proof (wf_bound c Hwf).
  rewrite wrap32_small in Hk; [|unfold i32; lia]. to_prop.
  apply elem_of_normal_ids; [done|]. destruct (node_at_wf c k Hwf) as (n & Hn & _); [lia|].
  exists n. split; [done|]. apply node_at_Val in Hn as [_ Hn].
  destruct (IsNormal n) eqn:En; [done|]. exfalso.
  pose proof (normals_mark _ _ n true Hn) as Hm. rewrite En in Hm.
  assert (normals (alter (set_normal true) (Z.to_nat k) (NodeList c)) ≤ TotalNodeCount c).
  { rewrite Ht. unfold normals. rewrite -(length_alter (set_normal true) (NodeList c) (Z.to_nat k)).
    apply inj_le, length_filter. }
  rewrite -(wf_size c Hwf) in Hm. lia.
Qed.


(** The certificate of a list of entries for a strong accusation. *)
Lemma checkWeakAccuse_true c wa :
  checkWeakAccuse c wa = Val true →
  0 ≤ wa_Term wa ∧ checkNodeId c (wa_NodeId wa) = true ∧
  signed_by c (wa_NodeId wa) (WeakAccuse_Id wa) (wa_Sig wa).
Proof.
  unfold checkWeakAccuse, checkTerm. destruct (_ && _) eqn:E; [|done]. to_prop.
  by intros ?%verify_node_true.
Qed.

(** A strong accusation that passes has at least [AccuseQuorumN]
    accusations, each signed by the node it is filed under for a term of its
    own: nothing makes the terms agree. *)
Theorem checkStrongAccuse_signers (c : Cluster) (o : order) (sa : option StrongAccuse) :
  checkStrongAccuse c o sa = Val true ↔
  ∃ s, sa = Some s ∧ AccuseQuorumN c ≤ Z.of_nat (size (sa_WeakAccuses s)) ∧
    ∀ k wa, sa_WeakAccuses s !! k = Some wa →
      wa_NodeId wa = k ∧ 0 ≤ wa_Term wa ∧ checkNodeId c k = true ∧
      signed_by c k (WeakAccuse_Id wa) (wa_Sig wa).
Proof.
  destruct sa as [s|]; [|split; [done|naive_solver]]. cbn [checkStrongAccuse].
  destruct (_ <? _) eqn:E; to_prop.
  { split; [done|]. intros (s' & [= <-] & Hs & _). lia. }
  rewrite forall_range. split.
  - intros Hall. exists s. split_and!; [done|done|]. intros k wa Hk. apply Hall in Hk.
    apply pan_bind_Val in Hk as (r & Hr & [= Hk]). to_prop. subst r.
    apply checkWeakAccuse_true in Hr as (? & ? & ?). subst k. done.
  - intros (s' & [= <-] & _ & Hall) k wa Hk. destruct (Hall k wa Hk) as (<- & Ht & Hid & Hs).
    apply pan_bind_Val. exists true. split; [|by rewrite Z.eqb_refl].
    unfold checkWeakAccuse, checkTerm. rewrite Hid.
    destruct (0 <=? _) eqn:E0; to_prop; [|lia]. by apply verify_node_true.
Qed.

(** *** Synchronised chains *)
(** Each pack follows the one before: next height, no smaller term, and the
    previous block's id. *)
Fixpoint linked (prev : option (Z * Z * Digest256)) (l : list BlockPack) : Prop :=
  match l with
  | [] => True
  | p :: l' =>
      ∃ i b x, bp_Init p = Some i ∧ im_Block i = Some b ∧ b_Id b = Some x ∧
        Block_hash b = Val x ∧ 0 ≤ im_Height i ∧ 0 ≤ im_Term i ∧
        match prev with
        | None => True
        | Some (h, t, y) => im_Height i = h +i64 1 ∧ t ≤ im_Term i ∧ b_PrevBlockId b = Some y
        end ∧
        linked (Some (im_Height i, im_Term i, x)) l'
  end.

Lemma checkInit_true c o init mode init' :
  checkInit c o init mode = Val (true, init') →
  ∃ m b x, init = Some m ∧ im_Block m = Some b ∧ Block_hash b = Val x ∧
    0 ≤ im_Term m ∧ 0 ≤ im_Height m ∧
    ∃ m', init' = Some m' ∧ im_Block m' = Some (set_b_Id b (Some x)) ∧
      im_Term m' = im_Term m ∧ im_Height m' = im_Height m ∧ im_NodeId m' = im_NodeId m ∧
      (mode = CheckFull → checkNodeId c (im_NodeId m) = true ∧
         signed_by c (im_NodeId m) (InitMsg_Id m') (im_Sig m')).
Proof.
  destruct init as [m|]; [|done]. cbn [checkInit]. unfold checkTerm, checkHeight.
  destruct (_ || _) eqn:E; [done|]. to_prop.
  intros ([r b'] & Hb & Hk)%pan_bind_Val. destruct r; [|done]. cbn [negb orb] in Hk.
  apply checkBlock_true in Hb as (b & x & Hmb & Hx & -> & _ & _).
  destruct (checkNodeId c _) eqn:En; [|done]. cbn [negb] in Hk.
  apply pan_bind_Val in Hk as ([r votes] & _ & Hk). destruct r; [|done]. cbn [negb] in Hk.
  exists m, b, x. split_and!; try done.
  destruct (bool_decide (mode = CheckLite)) eqn:Em; to_prop.
  - injection Hk as <-. eexists. split; [done|]. cbn. by split_and!; try (intros ->).
  - apply pan_bind_Val in Hk as (ok & Hok & [= -> <-]). apply verify_node_true in Hok.
    eexists. split; [done|]. cbn. cbn in En, Hok. split_and!; done.
Qed.

Lemma checkInitedBlockPack_true c o bp mode bp' :
  checkInitedBlockPack c o bp mode = Val (true, bp') →
  ∃ p p', bp = Some p ∧ bp' = Some p' ∧ bp_Prepares p' = bp_Prepares p ∧
    bp_Commits p' = bp_Commits p ∧
    ∃ m b x, bp_Init p' = Some m ∧ im_Block m = Some b ∧ b_Id b = Some x ∧ Block_hash b = Val x ∧
      0 ≤ im_Height m ∧ 0 ≤ im_Term m ∧
      (mode = CheckFull →
        signed_by c (im_NodeId m) (InitMsg_Id m) (im_Sig m) ∧
        (∀ k q, bp_Prepares p' !! k = Some q → valid_prepare c (im_Term m) (im_Height m) (Some x) k q) ∧
        (∀ k q, bp_Commits p' !! k = Some q → valid_commit c (im_Term m) (im_Height m) (Some x) k q)).
Proof.
  destruct bp as [p|]; [|done]. cbn [checkInitedBlockPack].
  intros ([r init] & Hi & Hk)%pan_bind_Val. destruct r; [|done]. cbn [negb] in Hk.
  apply checkInit_true in Hi as (m & b & x & Hm & Hb & Hx & Ht & Hh & m' & -> & Hb' & Ht' & Hh' & Hn' & Hf).
  assert (Block_hash (set_b_Id b (Some x)) = Val x) as Hx' by exact Hx.
  destruct (bool_decide (mode = CheckLite)) eqn:Em; to_prop.
  - injection Hk as <-. eexists p, _. split_and!; [done..|].
    exists m', (set_b_Id b (Some x)), x. split_and!; try done; try lia. by intros ->.
  - cbn [deref mbind pan_bind set_bp_Init bp_Prepares bp_Commits] in Hk. rewrite Hb' in Hk.
    cbn [deref mbind pan_bind] in Hk.
    apply pan_bind_Val in Hk as (ps & Hps & Hk). destruct ps; [|done]. cbn [negb] in Hk.
    apply pan_bind_Val in Hk as (cs & Hcs & [= -> <-]).
    rewrite forall_range in Hps. rewrite forall_range in Hcs.
    eexists p, _. split_and!; [done..|].
    exists m', (set_b_Id b (Some x)), x. split_and!; try done; try lia.
    intros Hfull. destruct (Hf Hfull) as [_ Hs]. rewrite Hn'. split_and!; [done| |].
    + intros k q Hq. by apply prepare_for_true, Hps.
    + intros k q Hq. by apply commit_for_true, Hcs.
Qed.

(** The leader's signature and every prepare and commit of the pack are good. *)
Definition fully_checked c (p : BlockPack) : Prop :=
  ∃ m b x, bp_Init p = Some m ∧ im_Block m = Some b ∧ Block_hash b = Val x ∧
    signed_by c (im_NodeId m) (InitMsg_Id m) (im_Sig m) ∧
    (∀ k q, bp_Prepares p !! k = Some q → valid_prepare c (im_Term m) (im_Height m) (Some x) k q) ∧
    (∀ k q, bp_Commits p !! k = Some q → valid_commit c (im_Term m) (im_Height m) (Some x) k q).

Lemma checkCommitChain_linked c o l : ∀ prev l',
  checkCommitChain c o prev l = Val (true, l') →
  (∀ h t i, prev = Some (h, t, i) → h ≠ -1) →
  linked ('(h, t, i) ← prev; x ← i; Some (h, t, x)) l' ∧ length l' = length l ∧
  ∀ p, last l' = Some p → fully_checked c p.
Proof.
  induction l as [|p l IH]; intros prev l' Hc Hprev; cbn [checkCommitChain] in Hc; [by injection Hc as <-|].
  apply pan_bind_Val in Hc as ([r p'] & Hp & Hc).
  apply pan_bind_Val in Hc as (p1 & ->%deref_Val & Hc). destruct r; [|done]. cbn [negb] in Hc.
  apply checkInitedBlockPack_true in Hp as
    (p0 & p2 & [= <-] & [= <-] & _ & _ & m & b & x & Hm & Hb & Hx & Hhash & Hh & Ht & Hchk).
  unfold bp_Height, bp_Term, bp_BlockId, bp_Block, bp_PrevBlockId, bp_Block in Hc.
  rewrite Hm in Hc. cbn [deref mbind pan_bind mret pan_ret] in Hc. rewrite Hb in Hc.
  cbn [deref mbind pan_bind mret pan_ret] in Hc. rewrite Hx in Hc.
  apply pan_bind_Val in Hc as (ok & Hok & Hc). destruct ok; [|done]. cbn [negb] in Hc.
  apply pan_bind_Val in Hc as ([r l2] & Hl & [= -> <-]).
  apply IH in Hl as (Hlink & Hlen & Hlast); [|intros ? ? ? [= <- _ _]; lia].
  split_and!; [|cbn; lia|].
  2:{ intros q Hq. destruct l2 as [|q2 l2].
      - injection Hq as <-. destruct l; [|done]. rewrite bool_decide_true in Hchk; [|done].
        destruct (Hchk eq_refl) as (? & ? & ?). exists m, b, x. by split_and!.
      - apply Hlast. done. }
  exists m, b, x. split_and!; try done.
  destruct prev as [[[h t] i]|]; cbn; [|done].
  specialize (Hprev h t i eq_refl). destruct (h =? -1) eqn:E1; to_prop; [done|].
  destruct (negb _) eqn:E2 in Hok; [done|]. to_prop.
  apply pan_bind_Val in Hok as (e & He & [= Hok]). to_prop. subst e.
  apply EqualTo_true in He as (y & Hy & ->). cbn. split_and!; [done|lia|done].
Qed.

(** The blocks of a synchronisation response that passes form a linked
    chain: consecutive heights, terms that never decrease, each block naming
    the id of the one before, and each id the hash of its block. The signatures
    of the last one, and those of the fresh block, are good; the others are not
    looked at. *)
Theorem checkSyncUpResponse_linked (c : Cluster) (o : order) (msg msg' : option SyncUpResponse) :
  checkSyncUpResponse c o msg = Val (true, msg') →
  ∃ m m', msg = Some m ∧ msg' = Some m' ∧ linked None (sy_Commits m') ∧
    length (sy_Commits m') = length (sy_Commits m) ∧ sy_More m' = sy_More m ∧
    (is_Some (sy_Fresh m') ↔ is_Some (sy_Fresh m)) ∧ sy_StrongAccuse m' = sy_StrongAccuse m ∧
    (∀ p, last (sy_Commits m') = Some p → fully_checked c p) ∧
    (∀ p, sy_Fresh m' = Some p → linked None [p] ∧ fully_checked c p).
Proof.
  destruct msg as [m|]; [|done]. cbn [checkSyncUpResponse].
  intros ([r l] & Hl & Hk)%pan_bind_Val. destruct r; [|done]. cbn [negb] in Hk.
  apply checkCommitChain_linked in Hl as (Hlink & Hlen & Hlast); [|done].
  apply pan_bind_Val in Hk as ([r f] & Hf & Hk). destruct r; [|done]. cbn [negb] in Hk.
  cbn [sy_Fresh sy_StrongAccuse sy_Commits sy_More] in Hf, Hk.
  assert ((is_Some f ↔ is_Some (sy_Fresh m)) ∧ ∀ g, f = Some g → linked None [g] ∧ fully_checked c g) as [Hf1 Hf2].
  { destruct (sy_Fresh m) as [g|].
    - apply checkInitedBlockPack_true in Hf as
        (g0 & g1 & [= <-] & -> & _ & _ & i & b & x & ? & ? & ? & ? & ? & ? & Hc).
      destruct (Hc eq_refl) as (? & ? & ?).
      split; [split; by eexists|]. intros ? [= <-]. split; exists i, b, x; by split_and!.
    - injection Hf as <-. split; [done|by intros]. }
  assert (∃ m', msg' = Some m' ∧ m' = {| sy_Commits := l; sy_Fresh := f;
    sy_StrongAccuse := sy_StrongAccuse m; sy_More := sy_More m |}) as (m' & -> & ->).
  { eexists. split; [|reflexivity]. destruct (sy_StrongAccuse m).
    - apply pan_bind_Val in Hk as (ok & _ & Hk). unfold mret, pan_ret in Hk. congruence.
    - unfold mret, pan_ret in Hk. congruence. }
  eexists m, _. split_and!; [done|done|done|done|done|apply Hf1|done|done|done].
Qed.

(** Not every malformed block is turned away: a reconfiguration block
    without its reconfiguration, or a block with a transaction that has no id,
    makes [checkBlock] dereference a nil pointer. *)
Theorem checkBlock_panics (b : Block) (p : Digest256) :
  b_PrevBlockId b = Some p → IsValid p = true → b_BchBlockHeader b = None →
  (b_Type b = RECONFIG ∧ b_Reconfig b = None) ∨
  (b_Type b = TXS ∧ ∃ tx l, b_Txs b = tx :: l ∧ tx_Id tx = None) →
  checkBlock (Some b) = Fault NilDeref.
Proof.
  intros Hp Hv Hh Hcase. unfold checkBlock, checkDigest, UpdateBlockId, Block_hash, hash_of, feedBlockFields,
    FeedField, IsGenesis, Reconfig_Id, hash_of, feedReconfigFields, FeedField, feedTxIds, FeedField.
  rewrite Hp Hh. destruct Hcase as [[Ht Hr]|(Ht & tx & l & Hl & Hx)].
  - by rewrite Ht Hv Hr.
  - by rewrite Ht Hv Hl /= Hx.
Qed.
End ValidationTheorems.
