(* ===== verification/Consensus.v ===== *)
(** * The consensus handlers (src/primitives/blockstore.go)

    [World] is the state that a handler reads and changes: the store and the
    transaction pool, the two caches of messages that came before their block,
    the node list, the events queued for after the handler ([task.Queue]), and
    the goroutines that wait for a join or a leave to happen. Handlers run under
    one mutex, so each is one step. A panic keeps the world it happened in.

    Each evaluation of [msg.Term()] on a strong accusation is an iteration over
    a map of its own, so it has its own iteration order. *)
From S2P Require Import Prelude.
From S2P Require Import GoLib.
From S2P Require Import Crypto.
From S2P Require Import Messages.
From S2P Require Import Feed.
From S2P Require Import ProtoOps.
From S2P Require Import Cluster.
From S2P Require Import Store.
From S2P Require Import DbOps.
From S2P Require Import TxPool.

(** A message with a height, as [handleWrongHeightProgressMsg] receives it. *)
Inductive Progress : Type :=
  | ProgressInit (m : InitMsg)
  | ProgressPrepare (m : PrepareMsg)
  | ProgressCommit (m : CommitMsg).

Inductive Event : Type :=
  | NeedSyncUpEvent (nodeId : Z)
  | NewInitedEvent (fresh : BlockPack)
  | NewPreparedEvent (fresh : BlockPack)
  | NewCommittedEvent (newTop : BlockPack)
  | CommittedInLowerTermEvent (msg : Progress)
  | NewTermEvent (term : Z)
  | NewWeakAccuseEvent (term : Z)
  | NewStrongAccuseEvent (sa : StrongAccuse)
  | StrongAccuseProcessedEvent (sa : StrongAccuse)
  | OnJoinEvent (host : string)
  | JoinedEvent (host : string) (nodeId : Z) (pubkey : string) (vote : option Vote)
  | JoinCancelEvent
  | OnLeaveEvent (nodeId : Z)
  | LeavedEvent (nodeId : Z)
  | LeaveCancelEvent (nodeId : Z)
  | SignHandledEvent (msg : SignedResult)
  | SignedTxEvent (txId msgId chainType : string) (tokenTo : Z).

(** The chain watchers: whether a transaction is found on a chain, and the
    event of an Ethereum transaction (its method, and the proposal and amount
    if it is a mint). *)
Record EthEvent : Type := { ev_Method : Z; ev_Mint : option (string * Z) }.
Class Watchers : Type := {
  bch_GetTxByHash : string → bool;
  btc_GetTxByHash : string → bool;
  xin_GetEventByTxid : string → bool;
  eos_GetEventByTxid : string → bool;
  eth_GetEventByHash : string → option EthEvent;
  VOTE_METHOD_MINT : Z
}.

(** The conditions a waiting goroutine polls when its timer fires. *)
Inductive Watcher : Type :=
  | WatchJoinInfo
  | WatchHost (host : string)
  | WatchLeave (nodeId : Z).
(** A goroutine of [handleJoinRequest] and its siblings: the loop counter and
    whether its timer can still fire. *)
Record Waiting : Type := { wg_kind : Watcher; wg_i : Z; wg_armed : bool }.

Section Consensus.
Context `{KV} `{Wire} `{Watchers}.
Variable o : order.

Record World : Type := MkWorld {
  w_pool : Pool;
  w_prepareCache : gmap Z (gmap Z (list PrepareMsg));
  w_commitCache : gmap Z (gmap Z (list CommitMsg));
  w_cluster : Cluster;
  w_tasks : list Event;
  w_waiting : list Waiting
}.
Definition w_db (w : World) : db := p_db (w_pool w).
Definition set_w_pool (p : Pool) (w : World) : World :=
  MkWorld p (w_prepareCache w) (w_commitCache w) (w_cluster w) (w_tasks w) (w_waiting w).
Definition set_w_db (d : db) (w : World) : World := set_w_pool (set_p_db d (w_pool w)) w.
Definition set_w_prepareCache m (w : World) : World :=
  MkWorld (w_pool w) m (w_commitCache w) (w_cluster w) (w_tasks w) (w_waiting w).
Definition set_w_commitCache m (w : World) : World :=
  MkWorld (w_pool w) (w_prepareCache w) m (w_cluster w) (w_tasks w) (w_waiting w).
Definition set_w_tasks q (w : World) : World :=
  MkWorld (w_pool w) (w_prepareCache w) (w_commitCache w) (w_cluster w) q (w_waiting w).
Definition set_w_waiting q (w : World) : World :=
  MkWorld (w_pool w) (w_prepareCache w) (w_commitCache w) (w_cluster w) (w_tasks w) q.

(** Reading and writing the store, queueing an event. *)
Definition ask {A} (f : db → pan A) : go World A := reads (λ w, f (w_db w)).
Definition tell (f : db → pan db) : go World unit :=
  updates (λ w, d ← f (w_db w); mret (set_w_db d w)).
Definition run_db {A} (m : go db A) : go World A := zoom w_db set_w_db m.
Definition run_pool {A} (m : go Pool A) : go World A := zoom w_pool set_w_pool m.
Definition Add (e : Event) : go World unit := modify (λ w, set_w_tasks (w_tasks w ++ [e]) w).
Definition spawn (k : Watcher) : go World unit :=
  modify (λ w, set_w_waiting (w_waiting w ++ [{| wg_kind := k; wg_i := 0; wg_armed := true |}]) w).

(** ** Terms and progress *)
Definition updateNodeTermWithInit (init : InitMsg) : go World bool :=
  t ← ask GetNodeTerm;
  if im_Term init <=? t then mret false
  else
    c ← gets w_cluster;
    if Z.of_nat (size (im_Votes init)) <? QuorumN c then mret false
    else
      _ ← tell (SetNodeTerm (im_Term init));
      _ ← Add (NewTermEvent (im_Term init));
      _ ← tell (SetLastTermAccuse None);
      _ ← tell (SetWeakAccuses None);
      _ ← tell (SetFresh None);
      mret true.

Definition progress_fields (msg : Progress) : pan (Z * Z * Z * option Digest256) :=
  match msg with
  | ProgressInit m =>
      b ← deref (im_Block m); mret (im_Term m, im_Height m, im_NodeId m, b_Id b)
  | ProgressPrepare m => mret (pm_Term m, pm_Height m, pm_NodeId m, pm_BlockId m)
  | ProgressCommit m => mret (cm_Term m, cm_Height m, cm_NodeId m, cm_BlockId m)
  end.
Definition handleWrongHeightProgressMsg (msg : Progress) : go World unit :=
  '(msgTerm, msgHeight, nodeId, msgBlockId) ← lift (progress_fields msg);
  t ← ask GetNodeTerm;
  _ ← lift (assert_true (msgTerm =? t));
  top ← ask GetCommitTop;
  top ← lift (deref top);
  topHeight ← lift (bp_Height top);
  _ ← lift (assert_true (negb (msgHeight =? topHeight +i64 1)));
  if msgHeight =? topHeight then
    topTerm ← lift (bp_Term top);
    if msgTerm >? topTerm then
      topId ← lift (bp_BlockId top);
      e ← lift (EqualTo msgBlockId topId);
      when e (Add (CommittedInLowerTermEvent msg))
    else mret tt
  else when (msgHeight >? topHeight +i64 1) (Add (NeedSyncUpEvent nodeId)).

Definition updateVotie (candidate : BlockPack) : go World unit :=
  c ← gets w_cluster;
  _ ← lift (assert_true ((Z.of_nat (size (bp_Prepares candidate)) >=? QuorumN c)
                         || (Z.of_nat (size (bp_Commits candidate)) >=? QuorumN c)));
  currentVotie ← ask GetVotie;
  v ← lift (ToVotie candidate);
  when (Votie_HasLessTermHeightThan currentVotie v) (tell (SetVotie v)).

(** ** Commits *)
Definition ShallowCopy (bp : BlockPack) : BlockPack := bp.

(** What [commitBlockWithCheck] does once the block is stored. *)
Definition after_commit (blockPack newTop : BlockPack) (isReconfig : bool) : go World unit :=
  topTerm ← lift (bp_Term newTop);
  t ← ask GetNodeTerm;
  _ ← when (topTerm >? t)
        (_ ← tell (SetNodeTerm topTerm);
         _ ← Add (NewTermEvent topTerm);
         _ ← tell (SetLastTermAccuse None);
         tell (SetWeakAccuses None));
  _ ← tell (SetFresh None);
  _ ← updateVotie newTop;
  _ ← Add (NewCommittedEvent newTop);
  when isReconfig
    (b ← lift (bp_Block blockPack);
     b ← lift (deref b);
     reconfig ← lift (deref (b_Reconfig b));
     if bool_decide (rc_Type reconfig = JOIN) then
       joinInfo ← ask GetJoinNodeInfo;
       when (bool_decide (is_Some joinInfo))
         (Add (JoinedEvent (rc_Host reconfig) (rc_NodeId reconfig) (rc_Pubkey reconfig)
                 (rc_Vote reconfig)))
     else Add (LeavedEvent (rc_NodeId reconfig))).

(** [None] is success, otherwise the text of the error. *)
Definition commitBlockWithCheck (blockPack : BlockPack) : go World (option string) :=
  i ← lift (bp_BlockId blockPack);
  committed ← ask (IsCommitted i);
  if committed : bool then mret (Some "duplicated block id")
  else
    c ← gets w_cluster;
    if Z.of_nat (size (bp_Commits blockPack)) <? QuorumN c then mret (Some "not enough commits")
    else
      connecting ← ask (IsConnectingTop blockPack);
      if negb connecting then
        mret (Some "the block is not connecting to the top of the current chain")
      else
        isTxs ← lift (IsTxsBlock blockPack);
        isReconfig ← lift (IsReconfigBlock blockPack);
        _ ← lift (assert_true (isTxs || isReconfig));
        let newTop := set_bp_Prepares (ShallowCopy blockPack) ∅ in
        _ ← run_db (JustCommitIt newTop);
        _ ← after_commit blockPack newTop isReconfig;
        mret None.

(** [OnNewBlockCommitted] hands the transactions of the block to the pool. *)
Definition CommitSyncBlock (blockPack : BlockPack) : go World (option string) :=
  i ← lift (bp_BlockId blockPack);
  committed ← ask (IsCommitted i);
  if committed : bool then mret (Some "duplicated block id")
  else
    connecting ← ask (IsConnectingTop blockPack);
    if negb connecting then
      mret (Some "the block is not connecting to the top of the current chain")
    else
      isTxs ← lift (IsTxsBlock blockPack);
      isReconfig ← lift (IsReconfigBlock blockPack);
      _ ← lift (assert_true (isTxs || isReconfig));
      let blockPack := set_bp_Prepares blockPack ∅ in
      _ ← run_db (JustCommitIt blockPack);
      _ ← run_pool (OnNewBlockCommitted blockPack);
      mret None.

Definition isInitSupportedByVotes (c : Cluster) (init : InitMsg) (d : db) : pan bool :=
  if Z.of_nat (size (im_Votes init)) <? QuorumN c then mret false
  else
    maxVotie ← GetMaxVotie o (im_Votes init);
    commitTop ← GetCommitTop d;
    maxVotie ← deref maxVotie;
    commitTop ← deref commitTop;
    topVotie ← ToVotie commitTop;
    if Votie_HasLessTermHeightThan maxVotie topVotie then mret true
    else
      b ← deref (vi_Block maxVotie);
      topId ← bp_BlockId commitTop;
      e ← EqualTo (b_Id b) topId;
      if e : bool then mret true
      else
        ib ← deref (im_Block init);
        EqualTo (b_Id b) (b_Id ib).

(** The blocks above [base], at most [maxBlockN], and the block in progress
    when nothing more is left. The loop is bounded by [maxBlockN]. *)
Fixpoint sync_blocks (fuel : nat) (h base commitHeight maxBlockN : Z) (d : db)
    : pan (list (option BlockPack)) :=
  match fuel with
  | O => mret []
  | S fuel =>
      if (h <=? commitHeight) && (h -i64 base <=? maxBlockN) then
        b ← GetCommitByHeight h d;
        l ← sync_blocks fuel (h +i64 1) base commitHeight maxBlockN d;
        mret (b :: l)
      else mret []
  end.
Definition genSyncUpResponse (base maxBlockN : Z) (needFresh : bool) (d : db)
    : pan (list (option BlockPack) * option BlockPack * option StrongAccuse * bool) :=
  commitHeight ← GetCommitHeight d;
  commits ← sync_blocks (Z.to_nat maxBlockN) (base +i64 1) base commitHeight maxBlockN d;
  let more := commitHeight -i64 base >? maxBlockN in
  if negb more && needFresh then
    fresh ← GetFresh d;
    accuse ← GetLastTermAccuse d;
    mret (commits, fresh, accuse, more)
  else mret (commits, None, None, more).

(** ** Validation of a proposed block *)
Definition validateETHTx (txInfo : EthEvent) (scTxInfo : WatchedTxInfo) : pan bool :=
  if negb (ev_Method txInfo =? VOTE_METHOD_MINT) then mret false
  else match ev_Mint txInfo with
  | None => mret false
  | Some (proposal, wad) =>
      if bool_decide (proposal = wt_Txid scTxInfo) then
        match wt_RechargeList scTxInfo with
        | [] => Fault IndexOutOfRange
        | a :: _ => mret (wad =? uwrap64 (ai_Amount a))
        end
      else mret false
  end.
(** The look-up that the goroutine of one transaction makes. *)
Definition check_on_chain (tx : Transaction) : pan bool :=
  wt ← deref (tx_WatchedTx tx);
  if bool_decide (wt_To wt = "bch") then mret (bch_GetTxByHash (tx_NewlyTxId tx))
  else if bool_decide (wt_To wt = "btc") then mret (btc_GetTxByHash (tx_NewlyTxId tx))
  else if bool_decide (wt_To wt = "eth") then
    match eth_GetEventByHash (tx_NewlyTxId tx) with
    | None => mret false
    | Some ev => validateETHTx ev wt
    end
  else if bool_decide (wt_To wt = "xin") then mret (xin_GetEventByTxid (tx_NewlyTxId tx))
  else if bool_decide (wt_To wt = "eos") then mret (eos_GetEventByTxid (tx_NewlyTxId tx))
  else mret false.
(** The goroutines run in parallel; the verdict is [Invalid] if one says so,
    and a panic in one ends the process. *)
Fixpoint check_all_on_chain (txs : list Transaction) : pan bool :=
  match txs with
  | [] => mret true
  | tx :: txs' => r ← check_on_chain tx; rs ← check_all_on_chain txs'; mret (r && rs)
  end.

(** The verdict of the pool on each transaction in turn, with the
    transactions as validation leaves them; the loop stops at the first that
    is invalid or unknown. *)
Fixpoint validate_each (txs : list Transaction)
    : go World (Validity * list Transaction * list Transaction) :=
  match txs with
  | [] => mret (Valid, [], [])
  | tx :: txs' =>
      '(r, tx') ← run_pool (ValidateTx tx);
      match r with
      | Invalid => mret (Invalid, tx' :: txs', [])
      | NotExist => mret (NotExist, tx' :: txs', [])
      | Valid => '(v, l, cs) ← validate_each txs'; mret (v, tx' :: l, cs)
      | CheckChain => '(v, l, cs) ← validate_each txs'; mret (v, tx' :: l, tx' :: cs)
      end
  end.
Definition set_b_Txs (b : Block) (txs : list Transaction) : Block :=
  MkBlock (b_TimestampMs b) (b_PrevBlockId b) (b_Type b) txs (b_BchBlockHeader b) (b_Reconfig b)
    (b_Id b).
(** The verdict, and the block pack with its refreshed transactions. *)
Definition validateTxs (blockPack : BlockPack) : go World (Validity * BlockPack) :=
  init ← lift (deref (bp_Init blockPack));
  b ← lift (deref (im_Block init));
  '(v, txs, checkChainTx) ← validate_each (b_Txs b);
  let blockPack := set_bp_Init blockPack (Some (set_im_Block init (Some (set_b_Txs b txs)))) in
  if bool_decide (v = Valid) then
    ok ← lift (check_all_on_chain checkChainTx);
    mret (if (ok : bool) then Valid else Invalid, blockPack)
  else mret (v, blockPack).

Definition checkReconfigBlock (blockPack : BlockPack) : go World bool :=
  r ← lift (IsReconfigBlock blockPack);
  if negb r then mret true
  else
    b ← lift (bp_Block blockPack);
    b ← lift (deref b);
    match b_Reconfig b with
    | None => mret false
    | Some reconfig =>
        c ← gets w_cluster;
        if bool_decide (rc_Type reconfig = JOIN) then
          msg ← ask GetJoinNodeInfo;
          mret (match msg with
                | Some m => bool_decide (jr_Host m = rc_Host reconfig)
                            && (rc_NodeId reconfig =? wrap32 (TotalNodeCount c))
                | None => false
                end)
        else
          msg ← ask GetLeaveNodeInfo;
          mret (match msg with
                | Some m => lr_NodeId m =? rc_NodeId reconfig
                | None => false
                end)
    end.
End Consensus.
