(* ===== verification/Handlers.v ===== *)
(** * The message handlers (src/primitives/blockstore.go)

    [handleInitMsg], [handlePrepareMsg], [handleCommitMsg], the accusations, and
    the join and leave requests, on the [World] of [Consensus.v]; and the
    goroutines that the join and leave requests start. *)
From S2P Require Import Prelude.
From S2P Require Import GoLib.
From S2P Require Import Crypto.
From S2P Require Import Messages.
From S2P Require Import Feed.
From S2P Require Import ProtoOps.
From S2P Require Import Cluster.
From S2P Require Import Store.
From S2P Require Import DbOps.
From S2P Require Import TxPool.
From S2P Require Import Consensus.

Definition accuseAvailableDuration : Z := 60.

(** The term of a strong accusation as the iteration numbered [site] gives it. *)
Definition accuse_term (o : order) (site : nat) (sa : StrongAccuse) : pan Z :=
  match range o site (sa_WeakAccuses sa) with
  | (_, wa) :: _ => mret (wa_Term wa)
  | [] => Fault (ExplicitPanic "empty strong accuse")
  end.

Section Handlers.
Context `{KV} `{Wire} `{Watchers}.
Variable o : order.

(** ** Proposals *)

(** The cached messages of a term and height, merged into the pack. *)
Definition cached {M} (cache : gmap Z (gmap Z (list M))) (term height : Z) : list M :=
  match cache !! term with
  | Some by_height => default [] (by_height !! height)
  | None => []
  end.
Definition drop_cached {M} (cache : gmap Z (gmap Z (list M))) (term height : Z) :=
  match cache !! term with
  | Some by_height => <[term := delete height by_height]> cache
  | None => cache
  end.
Definition push_cached {M} (cache : gmap Z (gmap Z (list M))) (term height : Z) (msg : M) :=
  <[term := <[height := cached cache term height ++ [msg]]> (default ∅ (cache !! term))]> cache.
Definition merge_caches (w : World) (init : InitMsg) (fresh : BlockPack) : BlockPack :=
  let ps := foldl (λ m msg, <[pm_NodeId msg := msg]> m) (bp_Prepares fresh)
              (cached (w_prepareCache w) (im_Term init) (im_Height init)) in
  let cs := foldl (λ m msg, <[cm_NodeId msg := msg]> m) (bp_Commits fresh)
              (cached (w_commitCache w) (im_Term init) (im_Height init)) in
  set_bp_Commits (set_bp_Prepares fresh ps) cs.
Definition drop_caches (init : InitMsg) (w : World) : World :=
  set_w_commitCache (drop_cached (w_commitCache w) (im_Term init) (im_Height init))
    (set_w_prepareCache (drop_cached (w_prepareCache w) (im_Term init) (im_Height init)) w).

(** Whether the tests on a proposal of the next height pass; they are
    evaluated from the left and stop at the first that fails. *)
Definition proposal_ok (init : InitMsg) (newFresh : BlockPack) (allTxValid : Validity)
    (reconfigValid : bool) : go World bool :=
  b ← lift (deref (im_Block init));
  committed ← ask (IsCommitted (b_Id b));
  if committed : bool then mret false
  else
    connecting ← ask (IsConnectingTop newFresh);
    mret (connecting && bool_decide (allTxValid = Valid) && reconfigValid).

(** The part shared by both cases of the switch. *)
Definition handle_current_init (init : InitMsg) : go World unit :=
  h ← ask GetCommitHeight;
  if negb (im_Height init =? h +i64 1) then handleWrongHeightProgressMsg (ProgressInit init)
  else
    newFresh ← lift (NewBlockPack (Some init));
    '(allTxValid, newFresh) ← validateTxs newFresh;
    reconfigValid ← checkReconfigBlock newFresh;
    ok ← proposal_ok init newFresh allTxValid reconfigValid;
    if ok : bool then
      top ← ask GetCommitTop;
      top ← lift (deref top);
      topTerm ← lift (bp_Term top);
      c ← gets w_cluster;
      supported ← (if im_Term init >? topTerm then ask (isInitSupportedByVotes o c init)
                   else mret true);
      if negb supported then Add (NewWeakAccuseEvent (im_Term init))
      else
        w ← gets id;
        let newFresh := merge_caches w init newFresh in
        _ ← modify (drop_caches init);
        _ ← tell (SetFresh (Some newFresh));
        Add (NewInitedEvent newFresh)
    else if bool_decide (allTxValid = NotExist) then mret tt
    else Add (NewWeakAccuseEvent (im_Term init)).

Definition handleInitMsg (init : InitMsg) : go World unit :=
  t ← ask GetNodeTerm;
  if im_Term init >? t then
    h ← ask GetCommitHeight;
    if im_Height init >? h +i64 1 then Add (NeedSyncUpEvent (im_NodeId init))
    else
      updated ← updateNodeTermWithInit init;
      if negb updated then mret tt else handle_current_init init
  else if im_Term init =? t then handle_current_init init
  else mret tt.

(** ** Prepares and commits *)
Definition handlePrepareMsg (msg : PrepareMsg) : go World unit :=
  t ← ask GetNodeTerm;
  if pm_Term msg >? t then Add (NeedSyncUpEvent (pm_NodeId msg))
  else if negb (pm_Term msg =? t) then mret tt
  else
    h ← ask GetCommitHeight;
    if negb (pm_Height msg =? h +i64 1) then handleWrongHeightProgressMsg (ProgressPrepare msg)
    else
      fresh ← ask GetFresh;
      match fresh with
      | None =>
          modify (λ w, set_w_prepareCache
                    (push_cached (w_prepareCache w) (pm_Term msg) (pm_Height msg) msg) w)
      | Some fresh =>
          i ← lift (bp_BlockId fresh);
          e ← lift (EqualTo (pm_BlockId msg) i);
          if negb e then mret tt
          else
            c ← gets w_cluster;
            if bool_decide (is_Some (bp_Prepares fresh !! pm_NodeId msg))
               || (Z.of_nat (size (bp_Prepares fresh)) >? QuorumN c) then mret tt
            else
              let fresh := set_bp_Prepares fresh (<[pm_NodeId msg := msg]> (bp_Prepares fresh)) in
              _ ← tell (SetFresh (Some fresh));
              when (Z.of_nat (size (bp_Prepares fresh)) >=? QuorumN c)
                (_ ← updateVotie fresh; Add (NewPreparedEvent fresh))
      end.

Definition handleCommitMsg (msg : CommitMsg) : go World unit :=
  t ← ask GetNodeTerm;
  if cm_Term msg >? t then Add (NeedSyncUpEvent (cm_NodeId msg))
  else if negb (cm_Term msg =? t) then mret tt
  else
    h ← ask GetCommitHeight;
    if negb (cm_Height msg =? h +i64 1) then handleWrongHeightProgressMsg (ProgressCommit msg)
    else
      fresh ← ask GetFresh;
      match fresh with
      | None =>
          modify (λ w, set_w_commitCache
                    (push_cached (w_commitCache w) (cm_Term msg) (cm_Height msg) msg) w)
      | Some fresh =>
          i ← lift (bp_BlockId fresh);
          e ← lift (EqualTo (cm_BlockId msg) i);
          if negb e then mret tt
          else if bool_decide (is_Some (bp_Commits fresh !! cm_NodeId msg)) then mret tt
          else
            c ← gets w_cluster;
            let fresh := set_bp_Commits fresh (<[cm_NodeId msg := msg]> (bp_Commits fresh)) in
            _ ← tell (SetFresh (Some fresh));
            when (Z.of_nat (size (bp_Commits fresh)) >=? QuorumN c)
              (err ← commitBlockWithCheck fresh;
               lift (assert_true (bool_decide (err = None))))
      end.

(** ** Accusations; [now] is [time.Now().Unix()] *)
Definition unexpired (now : Z) (wa : WeakAccuse) : bool :=
  negb (now -i64 wa_Time wa >? accuseAvailableDuration).
Definition handleWeakAccuse (now : Z) (msg : WeakAccuse) : go World unit :=
  t ← ask GetNodeTerm;
  if wa_Term msg >? t then Add (NeedSyncUpEvent (wa_NodeId msg))
  else if negb (wa_Term msg =? t) then mret tt
  else
    weakAccuses ← ask GetWeakAccuses;
    c ← gets w_cluster;
    if (WeakAccuses_Size weakAccuses >=? AccuseQuorumN c)
       || bool_decide (is_Some (WeakAccuses_Get weakAccuses (wa_NodeId msg))) then mret tt
    else
      let kept := {| Accuses := filter (λ e, unexpired now e.2 = true) (Accuses weakAccuses) |} in
      let weakAccuses := WeakAccuses_Set kept (wa_NodeId msg) msg in
      _ ← tell (SetWeakAccuses (Some weakAccuses));
      when (WeakAccuses_Size weakAccuses >=? AccuseQuorumN c)
        (Add (NewStrongAccuseEvent (NewStrongAccuse (Accuses weakAccuses)))).

(** [msg.Term()] is called five times: to compare, to set the node term, to
    name the new term in the event, and to drop each cache. *)
Definition handleStrongAccuse (msg : StrongAccuse) : go World unit :=
  t1 ← lift (accuse_term o 20 msg);
  t ← ask GetNodeTerm;
  when (t1 >=? t)
    (t2 ← lift (accuse_term o 21 msg);
     _ ← tell (SetNodeTerm (t2 +i64 1));
     _ ← tell (SetLastTermAccuse (Some msg));
     _ ← tell (SetWeakAccuses None);
     _ ← tell (SetFresh None);
     t3 ← lift (accuse_term o 22 msg);
     _ ← modify (λ w, set_w_prepareCache (delete t3 (w_prepareCache w)) w);
     t4 ← lift (accuse_term o 23 msg);
     _ ← modify (λ w, set_w_commitCache (delete t4 (w_commitCache w)) w);
     t5 ← lift (accuse_term o 24 msg);
     _ ← Add (NewTermEvent (t5 +i64 1));
     Add (StrongAccuseProcessedEvent msg)).

(** ** Joining and leaving *)
Definition handleJoinRequest (msg : JoinRequest) : go World unit :=
  _ ← tell (λ d, mret (SetJoinNodeInfo msg d));
  _ ← Add (OnJoinEvent (jr_Host msg));
  spawn WatchJoinInfo.
(** The getters are nil-safe up to [Height], a field access. *)
Definition handleJoinCheckSyncedRequest (msg : JoinRequest) : go World (option string) :=
  votie ← lift (deref (jr_Vote msg ≫= v_Votie));
  curHeight ← ask GetCommitHeight;
  if vi_Height votie <? curHeight then mret (Some "not synced")
  else
    _ ← tell (λ d, mret (SetJoinNodeInfo msg d));
    _ ← Add (OnJoinEvent (jr_Host msg));
    _ ← spawn (WatchHost (jr_Host msg));
    mret None.
Definition handleLeaveRequest (msg : LeaveRequest) : go World unit :=
  _ ← tell (λ d, mret (SetLeaveNodeInfo msg d));
  _ ← Add (OnLeaveEvent (lr_NodeId msg));
  spawn (WatchLeave (lr_NodeId msg)).

(** A waiting goroutine: what it finds when its timer fires. *)
Definition watch_done (k : Watcher) : go World bool :=
  match k with
  | WatchJoinInfo => i ← ask GetJoinNodeInfo; mret (bool_decide (i = None))
  | WatchHost host =>
      c ← gets w_cluster; mret (existsb (λ n, bool_decide (Url n = host)) (NodeList c))
  | WatchLeave nodeId =>
      c ← gets w_cluster; n ← lift (node_at c nodeId); mret (negb (IsNormal n))
  end.
(** The goroutine [g] when it is scheduled: its next state ([None] when it has
    ended). With [i < 3] it blocks until the timer fires, which
    [time.NewTimer] does once. *)
Definition watch_turn (g : Waiting) : go World (option Waiting) :=
  if wg_i g <? 3 then
    if wg_armed g then
      fin ← watch_done (wg_kind g);
      if fin : bool then mret None
      else
        t ← ask GetNodeTerm;
        _ ← Add (NewWeakAccuseEvent t);
        mret (Some {| wg_kind := wg_kind g; wg_i := wg_i g + 1; wg_armed := false |})
    else mret (Some g)
  else
    _ ← Add (match wg_kind g with
             | WatchLeave nodeId => LeaveCancelEvent nodeId
             | _ => JoinCancelEvent
             end);
    mret None.
End Handlers.
