(* ===== verification/Debug.v ===== *)
(** * The texts of messages for the log (src/proto/pbtypes_ext.go)

    The arguments of a logging call are computed whether or not the line is printed, so a [DebugString] that
    dereferences a part that is not there stops the process. *)
From S2P Require Import Prelude.
From S2P Require Import GoLib.
From S2P Require Import Crypto.
From S2P Require Import Messages.
From S2P Require Import ProtoOps.
From S2P Require Import Handlers.

(** ** fmt: %v of a slice of integers *)
Fixpoint spaced (l : list Z) : string :=
  match l with
  | [] => ""
  | [x] => FormatInt x
  | x :: l => FormatInt x +:+ " " +:+ spaced l
  end.
Definition fmt_ints (l : list Z) : string := "[" +:+ spaced l +:+ "]".

(** ** The texts *)
Definition BlockPack_DebugString (o : order) (bp : BlockPack) : pan string :=
  t ← bp_Term bp; h ← bp_Height bp;
  init ← deref (bp_Init bp);
  let prepares := (λ kp, pm_NodeId kp.2) <$> range o 70 (bp_Prepares bp) in
  let commits := (λ kc, cm_NodeId kc.2) <$> range o 71 (bp_Commits bp) in
  mret ("[Term " +:+ FormatInt t +:+ ", Height " +:+ FormatInt h +:+ "] " +:+
        "[Init from " +:+ FormatInt (im_NodeId init) +:+ "] " +:+
        "[Prepares " +:+ fmt_ints (Int32s prepares false) +:+ "] " +:+
        "[Commits " +:+ fmt_ints (Int32s commits false) +:+ "]").
(** [votie.GetTerm()] of a nil votie is 0, but [votie.Height] panics. The ids are in the order of the iteration. *)
Definition Vote_DebugString (o : order) (vote : Vote) : pan string :=
  votie ← deref (v_Votie vote);
  let prepares := (λ kp, pm_NodeId kp.2) <$> range o 72 (vi_Prepares votie) in
  let commits := (λ kc, cm_NodeId kc.2) <$> range o 73 (vi_Commits votie) in
  mret ("[Vote term: " +:+ FormatInt (v_Term vote) +:+ ", Node Id: " +:+ FormatInt (v_NodeId vote) +:+ "]" +:+
        "[Votie term: " +:+ FormatInt (vi_Term votie) +:+ ", Height: " +:+ FormatInt (vi_Height votie) +:+ "]" +:+
        "[Prepares: " +:+ fmt_ints prepares +:+ "]" +:+ "[Commits: " +:+ fmt_ints commits +:+ "]" +:+
        "[Siglen: " +:+ FormatInt (len (v_Sig vote)) +:+ "]").
Definition PrepareMsg_DebugString (msg : PrepareMsg) : pan string :=
  i ← deref (pm_BlockId msg);
  mret ("[Term: " +:+ FormatInt (pm_Term msg) +:+ ", Height: " +:+ FormatInt (pm_Height msg) +:+
        ", BlockIdLen: " +:+ FormatInt (len (Data i)) +:+ ", NodeId: " +:+ FormatInt (pm_NodeId msg) +:+ "]").
Definition StrongAccuse_DebugString (o : order) (sa : StrongAccuse) : pan string :=
  let voters := Int32s (range o 74 (sa_WeakAccuses sa)).*1 false in
  t ← accuse_term o 75 sa;
  mret ("Term " +:+ FormatInt t +:+ ", Voters " +:+ fmt_ints voters).

(** ** Lemmas *)

(** When the texts panic; the checks of Validation.v read the same parts. *)
Lemma Vote_DebugString_Val o vote : is_Some (v_Votie vote) ↔ ∃ s, Vote_DebugString o vote = Val s.
Proof.
  unfold Vote_DebugString. destruct (v_Votie vote) as [v|]; cbn.
  - split; [by eexists|by eexists].
  - split; [by intros [? ?]|by intros [? ?]].
Qed.
Lemma Vote_DebugString_nil o vote : v_Votie vote = None → Vote_DebugString o vote = Fault NilDeref.
Proof. unfold Vote_DebugString. by intros ->. Qed.
Lemma PrepareMsg_DebugString_reads msg {A} (m : pan A) :
  (_ ← PrepareMsg_DebugString msg; m) = (_ ← deref (pm_BlockId msg); m).
Proof. unfold PrepareMsg_DebugString. by destruct (pm_BlockId msg). Qed.
Lemma range_fmap_perm {V A} (f : Z * V → A) o o' n n' (m : gmap Z V) : f <$> range o n m ≡ₚ f <$> range o' n' m.
Proof. apply fmap_Permutation. unfold range. by rewrite !ord_perm. Qed.
(** The text of a block pack is the same in every run; the text of a vote has the same ids in some order. *)
Lemma BlockPack_DebugString_order o o' bp : BlockPack_DebugString o bp = BlockPack_DebugString o' bp.
Proof.
  unfold BlockPack_DebugString. destruct (bp_Term bp); [|done]. destruct (bp_Height bp); [|done]. destruct (bp_Init bp); [|done].
  cbn [mbind pan_bind deref mret pan_ret]. cbv zeta.
  rewrite (Int32s_perm _ _ (range_fmap_perm (λ kp, pm_NodeId kp.2) o o' 70 70 (bp_Prepares bp))).
  by rewrite (Int32s_perm _ _ (range_fmap_perm (λ kc, cm_NodeId kc.2) o o' 71 71 (bp_Commits bp))).
Qed.
