(* ===== verification/ConsensusProps.v ===== *)
(** * Properties of the consensus handlers

    The first part is a small logic of invariants ([keep]): what every handler
    step leaves alone. The second shows that the chain of a node only grows, by
    blocks that connect and carry a quorum of commits, also when a handler
    panics half way. The third follows the node's term and its votie. *)
From S2P Require Import Prelude.
From S2P Require Import GoLib.
From S2P Require Import Crypto.
From S2P Require Import Messages.
From S2P Require Import Feed.
From S2P Require Import ProtoOps.
From S2P Require Import Cluster.
From S2P Require Import Store.
From S2P Require Import DbOps.
From S2P Require Import TxPool.
From S2P Require Import Consensus.
From S2P Require Import Handlers.

Section Keep.
Context `{KV} `{Wire} `{Watchers}.
Implicit Types (P : World → Prop) (w : World).

(** [m] keeps [P], whether it returns or panics. *)
Definition keep {A} P (m : go World A) : Prop := ∀ w, P w → wp m (λ _, P) P w.
(** [P] does not depend on the keys of [ks], nor on the queues and caches. *)
Record frame P (ks : bytes → Prop) : Prop := {
  frame_db : ∀ w d, same_but ks (w_db w) d → P w → P (set_w_db d w);
  frame_rest : ∀ w w', w_db w' = w_db w → w_cluster w' = w_cluster w → P w → P w'
}.

Lemma keep_end {A} P (m : go World A) w : keep P m → P w → P (end_state (m w)).
Proof. intros Hk Hw. apply wp_end. by apply Hk. Qed.
Lemma keep_ret {A} P (a : A) : keep P (mret a).
Proof. intros w Hw. by apply wp_ret. Qed.
Lemma keep_bind {A B} P (m : go World A) (k : A → go World B) :
  keep P m → (∀ a, keep P (k a)) → keep P (m ≫= k).
Proof.
  intros Hm Hk w Hw. apply wp_bind. eapply wp_mono; [by apply Hm| |done].
  intros a w' Hw'. by apply Hk.
Qed.
Lemma wp_bind_keep {A B} P (m : go World A) (k : A → go World B) Q (E : World → Prop) w :
  keep P m → P w → (∀ w', P w' → E w') → (∀ a w', P w' → wp (k a) Q E w') → wp (m ≫= k) Q E w.
Proof.
  intros Hm Hw HE Hk. apply wp_bind. eapply wp_mono; [by apply Hm| |done]. intros a w'. apply Hk.
Qed.
Lemma keep_lift {A} P (p : pan A) : keep P (lift p).
Proof. intros w Hw. apply wp_lift; auto. Qed.
Lemma keep_gets {A} P (f : World → A) : keep P (gets f).
Proof. intros w Hw. by apply wp_gets. Qed.
Lemma keep_ask {A} P (f : db → pan A) : keep P (ask f).
Proof. intros w Hw. apply wp_reads; auto. Qed.
Lemma keep_when P b m : keep P m → keep P (when b m).
Proof. intros Hm. destruct b; [done|apply keep_ret]. Qed.
Lemma keep_modify P ks f :
  frame P ks → (∀ w, w_db (f w) = w_db w ∧ w_cluster (f w) = w_cluster w) → keep P (modify f).
Proof. intros Hf He w Hw. apply wp_modify. destruct (He w). by eapply (frame_rest P ks Hf w). Qed.
Lemma keep_Add P ks e : frame P ks → keep P (Add e).
Proof. intros Hf. by eapply keep_modify. Qed.
Lemma keep_spawn P ks k : frame P ks → keep P (spawn k).
Proof. intros Hf. by eapply keep_modify. Qed.
Lemma keep_tell P ks (f : db → pan db) :
  frame P ks → (∀ d d', f d = Val d' → same_but ks d d') → keep P (tell f).
Proof.
  intros Hf Hs w Hw. apply wp_updates; [|auto].
  intros w' (d & Hd & [= <-])%pan_bind_Val. apply (frame_db P ks Hf); [by apply Hs|done].
Qed.
Lemma frame_mono P (ks ks' : bytes → Prop) : (∀ k, ks k → ks' k) → frame P ks' → frame P ks.
Proof.
  intros Hks [Hdb Hrest]. split; [|done]. intros w d Hd. apply Hdb. by eapply same_but_mono.
Qed.
Lemma keep_tell_key P ks key (f : db → pan db) :
  frame P ks → (∀ d d', f d = Val d' → same_but (eq key) d d') → ks key → keep P (tell f).
Proof.
  intros Hf Hs Hk. eapply keep_tell; [exact Hf|]. intros d d' Hd.
  eapply same_but_mono; [|by apply Hs]. by intros ? <-.
Qed.

(** Operations of the pool leave the store alone, or write keys of [ks]. *)
Lemma keep_run_pool {A} P ks (m : go Pool A) :
  frame P ks → (∀ p, same_but ks (p_db p) (p_db (end_state (m p)))) → keep P (run_pool m).
Proof.
  intros Hf Hm w Hw. unfold run_pool. apply wp_zoom. apply wp_end.
  specialize (Hm (w_pool w)). set (p' := end_state _) in *.
  eapply (frame_rest P ks Hf (set_w_db (p_db p') w)); [done|done|].
  by apply (frame_db P ks Hf).
Qed.
End Keep.

(** Running a read or a write of the store. *)
Section RunStore.
Context `{KV} `{Wire} `{Watchers}.
Implicit Types w : World.
Lemma bind_tell {B} (f : db → pan db) (k : unit → go World B) w d :
  f (w_db w) = Val d → (tell f ≫= k) w = k () (set_w_db d w).
Proof. intros Hf. apply bind_updates. by rewrite Hf. Qed.
Lemma bind_ask {A B} (f : db → pan A) (k : A → go World B) w a :
  f (w_db w) = Val a → (ask f ≫= k) w = k a w.
Proof. intros Hf. by apply bind_reads. Qed.
End RunStore.

(** Keys by the part of the state they hold. *)
Definition chain_keyspace (k : bytes) : Prop :=
  ∃ r, k = keyCommitChainPrefix +:+ r ∨ k = keyCommitHsByIdsPrefix +:+ r.
Definition not_chain (k : bytes) : Prop := ¬ chain_keyspace k.

Lemma not_chain_term : not_chain keyTerm.
Proof. intros (r & [E|E]); revert E; key_ne. Qed.
Lemma not_chain_fresh : not_chain keyFresh.
Proof. intros (r & [E|E]); revert E; key_ne. Qed.
Lemma not_chain_votie : not_chain keyVotie.
Proof. intros (r & [E|E]); revert E; key_ne. Qed.
Lemma not_chain_weak : not_chain keyWeakAccuses.
Proof. intros (r & [E|E]); revert E; key_ne. Qed.
Lemma not_chain_last : not_chain keyLastTermAccuse.
Proof. intros (r & [E|E]); revert E; key_ne. Qed.
Lemma not_chain_join : not_chain keyJoinNodeInfo.
Proof. intros (r & [E|E]); revert E; key_ne. Qed.
Lemma not_chain_leave : not_chain keyLeaveNodeInfo.
Proof. intros (r & [E|E]); revert E; key_ne. Qed.
#[export] Hint Resolve not_chain_term not_chain_fresh not_chain_votie not_chain_weak not_chain_last
  not_chain_join not_chain_leave : ofgp.

(** ** What the handlers write besides the term and the chain *)
Section KeepHandlers.
Context `{KV} `{Wire} `{Watchers}.
Variables (P : World → Prop) (ks : bytes → Prop).
Hypothesis P_frame : frame P ks.
Hypothesis ks_fresh : ks keyFresh.
Hypothesis keep_votie : ∀ bp, keep P (updateVotie bp).
Hypothesis ks_weak : ks keyWeakAccuses.
Hypothesis ks_last : ks keyLastTermAccuse.
Hypothesis ks_join : ks keyJoinNodeInfo.
Hypothesis ks_leave : ks keyLeaveNodeInfo.

Lemma try_put_same {A} `{Proto A} key (a : A) d d' :
  mret (try_put_pb key a d) = Val d' → same_but (eq key) d d'.
Proof.
  intros [= <-]. unfold try_put_pb. destruct (Marshal a); [apply same_but_put|apply same_but_refl].
Qed.

Ltac keep_step :=
  lazymatch goal with
  | |- keep _ (_ ≫= _) => apply keep_bind; [|intros ?]
  | |- keep _ (mret _) => apply keep_ret
  | |- keep _ (lift _) => apply keep_lift
  | |- keep _ (gets _) => apply keep_gets
  | |- keep _ (ask _) => apply keep_ask
  | |- keep _ (when _ _) => apply keep_when
  | |- keep _ (Add _) => eapply keep_Add; eassumption
  | |- keep _ (spawn _) => eapply keep_spawn; eassumption
  | |- keep _ (modify _) => eapply keep_modify; [eassumption|done]
  | |- keep _ (tell _) =>
      eapply keep_tell_key; [eassumption| |];
      [first [apply SetFresh_same|apply SetVotie_same|apply SetWeakAccuses_same
             |apply SetLastTermAccuse_same|apply try_put_same]|assumption]
  | |- keep _ (if ?b then _ else _) => destruct b
  | |- keep _ (match ?x with _ => _ end) => destruct x
  end.
Ltac keep_all := repeat keep_step.
(** From here on it is enough that the rest of the program keeps [P]. *)
Ltac rest_keeps :=
  lazymatch goal with |- wp ?m _ _ ?w =>
    let Hk := fresh in enough (keep P m) as Hk by (by apply Hk) end.

Lemma keep_handleWrongHeight msg : keep P (handleWrongHeightProgressMsg msg).
Proof. unfold handleWrongHeightProgressMsg. keep_all. Qed.

Lemma ValidateTx_db tx p : p_db (end_state (ValidateTx tx p)) = p_db p.
Proof.
  apply (proj1 (wp_end _ (λ p', p_db p' = p_db p) p)).
  unfold ValidateTx, modify_ts. wp_run; done.
Qed.
Lemma keep_validate_each txs : keep P (validate_each txs).
Proof.
  induction txs as [|tx txs IH]; cbn [validate_each]; [keep_all|].
  apply keep_bind.
  - eapply keep_run_pool; [exact P_frame|]. intros p. rewrite ValidateTx_db. apply same_but_refl.
  - intros [r tx']. destruct r; keep_all; done.
Qed.
Lemma keep_validateTxs bp : keep P (validateTxs bp).
Proof.
  unfold validateTxs. repeat first [apply keep_validate_each|keep_step].
Qed.
Lemma keep_checkReconfigBlock bp : keep P (checkReconfigBlock bp).
Proof. unfold checkReconfigBlock. keep_all. Qed.
Lemma keep_proposal_ok init bp v r : keep P (proposal_ok init bp v r).
Proof. unfold proposal_ok. keep_all. Qed.
Lemma keep_handle_current_init o init : keep P (handle_current_init o init).
Proof.
  unfold handle_current_init.
  repeat first [apply keep_handleWrongHeight|apply keep_validateTxs|apply keep_checkReconfigBlock
               |apply keep_proposal_ok|keep_step].
Qed.
Lemma keep_handlePrepareMsg msg : keep P (handlePrepareMsg msg).
Proof.
  unfold handlePrepareMsg.
  repeat first [apply keep_handleWrongHeight|apply keep_votie|keep_step].
Qed.
Lemma keep_handleWeakAccuse now msg : keep P (handleWeakAccuse now msg).
Proof. unfold handleWeakAccuse. keep_all. Qed.
Lemma keep_handleJoinRequest msg : keep P (handleJoinRequest msg).
Proof. unfold handleJoinRequest. keep_all. Qed.
Lemma keep_handleJoinCheckSyncedRequest msg : keep P (handleJoinCheckSyncedRequest msg).
Proof. unfold handleJoinCheckSyncedRequest. keep_all. Qed.
Lemma keep_handleLeaveRequest msg : keep P (handleLeaveRequest msg).
Proof. unfold handleLeaveRequest. keep_all. Qed.
Lemma keep_watch_turn g : keep P (watch_turn g).
Proof. unfold watch_turn, watch_done. keep_all. Qed.

(** The handlers that raise the term. [okt] is what is known of the new term. *)
Variable okt : Z → Prop.
Hypothesis keep_raise : ∀ x t w, P w → GetNodeTerm (w_db w) = Val t → t < x → okt x →
  wp (tell (SetNodeTerm x)) (λ _, P) P w.

Lemma keep_raise_term {A} (x t : Z) (k : go World A) w :
  P w → GetNodeTerm (w_db w) = Val t → t < x → okt x → keep P k →
  wp (tell (SetNodeTerm x) ≫= λ _, k) (λ _, P) P w.
Proof.
  intros Hw Ht Hx Hok Hk. apply wp_bind. eapply wp_mono; [by eapply keep_raise| |done].
  intros [] w'. apply Hk.
Qed.
Lemma keep_updateNodeTermWithInit init : okt (im_Term init) → keep P (updateNodeTermWithInit init).
Proof.
  intros Hok w Hw. unfold updateNodeTermWithInit. apply wp_bind, wp_reads; [|done]. intros t Ht.
  destruct (_ <=? _) eqn:E; [by apply wp_ret|]. apply wp_bind, wp_gets.
  destruct (_ <? _); [by apply wp_ret|]. to_prop.
  apply wp_bind. eapply wp_mono; [by eapply keep_raise| |done].
  intros u w'. eapply (keep_bind P (Add _)); [keep_step|]. intros _. keep_all.
Qed.
Lemma keep_handleInitMsg o init : okt (im_Term init) → keep P (handleInitMsg o init).
Proof.
  intros Hok. unfold handleInitMsg.
  repeat first [by apply keep_updateNodeTermWithInit|apply keep_handle_current_init|keep_step].
Qed.

(** The handlers that commit. *)
Hypothesis ks_chain : ∀ k, chain_keyspace k → ks k.

Lemma keep_run_JustCommitIt bp : keep P (run_db (JustCommitIt bp)).
Proof.
  intros w Hw. unfold run_db. apply wp_zoom, wp_end. apply (frame_db P ks P_frame); [|done].
  eapply same_but_mono; [exact ks_chain|apply JustCommitIt_same].
Qed.
Lemma keep_after_commit bp new r :
  (∀ t, bp_Term new = Val t → okt t) → keep P (after_commit bp new r).
Proof.
  intros Hok w Hw. unfold after_commit. apply wp_bind, wp_lift; [|done]. intros topTerm Hterm.
  apply wp_bind, wp_reads; [|done]. intros t Ht.
  apply wp_bind. eapply (wp_mono _ (λ _, P) _ P); [| |done].
  - apply wp_when; [|done]. intros Hgt. to_prop. apply (keep_raise_term topTerm t); auto. keep_all.
  - intros [] w1 Hw1. rest_keeps. repeat first [apply keep_votie|keep_step].
Qed.
Lemma keep_commitBlockWithCheck bp :
  (∀ t, bp_Term bp = Val t → okt t) → keep P (commitBlockWithCheck bp).
Proof.
  intros Hok. unfold commitBlockWithCheck.
  repeat first [apply keep_run_JustCommitIt|apply keep_after_commit|keep_step]. exact Hok.
Qed.
(** The only block that [handleCommitMsg] commits is the fresh one. *)
Lemma wp_keep_handleCommitMsg msg w :
  P w → (∀ bp t, GetFresh (w_db w) = Val (Some bp) → bp_Term bp = Val t → okt t) →
  wp (handleCommitMsg msg) (λ _, P) P w.
Proof.
  intros Hw Hok. unfold handleCommitMsg. apply wp_bind, wp_reads; [|done]. intros t _.
  destruct (_ >? _); [rest_keeps; keep_step|].
  destruct (negb _); [by apply wp_ret|]. apply wp_bind, wp_reads; [|done]. intros h _.
  destruct (negb _); [by apply keep_handleWrongHeight|].
  apply wp_bind, wp_reads; [|done]. intros [fresh|] Hf.
  - rest_keeps. repeat first [apply keep_commitBlockWithCheck|keep_step]. intros t' Ht'. by eapply Hok.
  - rest_keeps. keep_step.
Qed.

(** A strong accusation lets the term be set to any successor of a term in it. *)
Lemma keep_handleStrongAccuse o msg :
  (∀ w t1 t2, P w → accuse_term o 20 msg = Val t1 → accuse_term o 21 msg = Val t2 →
     (∃ t, GetNodeTerm (w_db w) = Val t ∧ t ≤ t1) →
     wp (tell (SetNodeTerm (t2 +i64 1))) (λ _, P) P w) →
  keep P (handleStrongAccuse o msg).
Proof.
  intros Hset w Hw. unfold handleStrongAccuse. apply wp_bind, wp_lift; [|done]. intros t1 H1'.
  apply wp_bind, wp_reads; [|done]. intros t Ht. apply wp_when; [|done]. intros Hge. to_prop.
  apply wp_bind, wp_lift; [|done]. intros t2 H2'.
  apply wp_bind. eapply wp_mono; [eapply Hset; eauto| |done].
  intros [] w1 Hw1. rest_keeps. keep_all.
Qed.
End KeepHandlers.

Lemma keep_updateVotie `{KV, Wire, Watchers} P ks bp :
  frame P ks → ks keyVotie → keep P (updateVotie bp).
Proof.
  intros Hf Hk. unfold updateVotie. apply keep_bind; [apply keep_gets|intros c].
  apply keep_bind; [apply keep_lift|intros []]. apply keep_bind; [apply keep_ask|intros v].
  apply keep_bind; [apply keep_lift|intros v']. apply keep_when.
  eapply keep_tell_key; [exact Hf|apply SetVotie_same|exact Hk].
Qed.

(** ** Growth of the chain *)
Section Chain.
Context `{KV} `{Wire} `{Watchers}.
Implicit Types (c : Cluster) (l : list BlockPack) (w : World).

(** [bp] may follow the chain [l] in a cluster with quorum [q]. *)
Record next_block (q : Z) l (bp : BlockPack) : Prop := {
  nb_height : bp_Height bp = Val (Z.of_nat (length l));
  nb_link : ∃ top x t t', last l = Some top ∧ bp_BlockId top = Val (Some x) ∧
    bp_PrevBlockId bp = Val (Some x) ∧ bp_Term top = Val t ∧ bp_Term bp = Val t' ∧ t ≤ t';
  nb_id : ∃ x, bp_BlockId bp = Val (Some x) ∧ ∀ bp', bp' ∈ l → bp_BlockId bp' ≠ Val (Some x);
  nb_type : IsTxsBlock bp = Val true ∨ IsReconfigBlock bp = Val true;
  nb_quorum : q ≤ Z.of_nat (size (bp_Commits bp))
}.

(** The node holds the chain [l] and the node list [c]. *)
Definition holds c l w : Prop := chain_rep (w_db w) l ∧ w_cluster w = c.

Lemma holds_frame c l : frame (holds c l) not_chain.
Proof.
  split.
  - intros w d Hs [Hr Hc]. split; [|done]. eapply chain_rep_same; [exact Hs| | |exact Hr].
    + intros r Hn. apply Hn. exists r. by left.
    + intros r Hn. apply Hn. exists r. by right.
  - intros w w' Hd Hc [Hr Hc']. split; [by rewrite Hd|by rewrite Hc].
Qed.
Lemma holds_SetNodeTerm c l t : keep (holds c l) (tell (SetNodeTerm t)).
Proof.
  eapply keep_tell_key; [apply holds_frame|apply SetNodeTerm_same|apply not_chain_term].
Qed.

Lemma IsConnectingTop_true d l bp :
  chain_rep d l → Z.of_nat (length l) + 1 < 2^63 → IsConnectingTop bp d = Val true →
  bp_Height bp = Val (Z.of_nat (length l)) ∧
  ∃ top x t t', last l = Some top ∧ bp_BlockId top = Val (Some x) ∧
    bp_PrevBlockId bp = Val (Some x) ∧ bp_Term top = Val t ∧ bp_Term bp = Val t' ∧ t ≤ t'.
Proof.
  intros Hr Hlen Hc. unfold IsConnectingTop in Hc. rewrite (rep_GetCommitTop d l Hr) in Hc.
  apply pan_bind_Val in Hc as (top' & [= <-] & Hc).
  apply pan_bind_Val in Hc as (prev & Hprev & Hc).
  apply pan_bind_Val in Hc as (top & Htop%deref_Val & Hc).
  apply pan_bind_Val in Hc as (topId & Htid & Hc).
  apply pan_bind_Val in Hc as (e & He & Hc). destruct e; [|done]. cbn [negb] in Hc.
  apply EqualTo_true in He as (x & -> & ->).
  apply pan_bind_Val in Hc as (t' & Ht' & Hc). apply pan_bind_Val in Hc as (t & Ht & Hc).
  destruct (t' >=? t) eqn:E; [|done]. cbn [negb] in Hc. to_prop.
  apply pan_bind_Val in Hc as (h & Hh & Hc). apply pan_bind_Val in Hc as (h' & Hh' & [= Hc]).
  rewrite last_lookup in Htop. pose proof (lookup_lt_Some _ _ _ Htop).
  rewrite (rep_height d l Hr _ _ Htop) in Hh'. injection Hh' as <-.
  rewrite wrap64_small in Hc; [|unfold i64; lia]. to_prop. subst h.
  split; [rewrite Hh; f_equal; lia|]. exists top, x, t, t'. rewrite last_lookup. by split_and!.
Qed.

Lemma wp_JustCommitIt c l w q bp (Q : unit → World → Prop) :
  holds c l w → Z.of_nat (length l) + 1 < 2^63 → next_block q l bp →
  (∀ w', holds c (l ++ [bp]) w' → Q tt w') →
  wp (run_db (JustCommitIt bp)) Q (holds c l) w.
Proof.
  intros [Hr Hc] Hlen Hn HQ. unfold run_db. apply wp_zoom. unfold wp.
  destruct (nb_id _ _ _ Hn) as (x & Hx & Hnew).
  destruct (JustCommitIt bp (w_db w)) as [[] d'|f d'] eqn:E.
  - apply HQ. split; [|done]. by eapply JustCommitIt_rep; [exact Hr|exact E|apply Hn|..].
  - unfold JustCommitIt, mbind, go_bind, lift, modify in E. rewrite (nb_height _ _ _ Hn) Hx in E.
    destruct (Marshal bp); [done|]. injection E as _ <-. by split.
Qed.

(** The tests of [commitBlockWithCheck] let only a next block through. *)
Lemma checked_next_block c l d bp i isTxs isRec :
  chain_rep d l → Z.of_nat (length l) + 1 < 2^63 → bp_BlockId bp = Val i →
  IsCommitted i d = Val false → QuorumN c ≤ Z.of_nat (size (bp_Commits bp)) →
  IsConnectingTop bp d = Val true → IsTxsBlock bp = Val isTxs → IsReconfigBlock bp = Val isRec →
  isTxs || isRec = true → next_block (QuorumN c) l (set_bp_Prepares bp ∅).
Proof.
  intros Hr Hlen Hi Hcm Hq Hconn Htxs Hrec Hty.
  destruct (IsConnectingTop_true _ _ _ Hr Hlen Hconn) as [Hheight Hlink].
  destruct (rep_not_committed _ _ _ Hr Hcm) as (x & -> & Hnew).
  split; try done.
  - by exists x.
  - unfold IsTxsBlock, IsReconfigBlock, bp_Block in *. cbn.
    apply orb_true_iff in Hty as [E|E]; subst; auto.
Qed.
Lemma frame_and P ks (Q : Prop) : frame P ks → frame (λ w, Q ∧ P w) ks.
Proof.
  intros [Fdb Frest]. split.
  - intros w d Hs [HQ Hw]. split; [done|]. by apply Fdb.
  - intros w w' Hd Hc [HQ Hw]. split; [done|]. by eapply Frest.
Qed.

(** The block that is stored is the pack without its prepares. *)
Lemma wp_commitBlockWithCheck c l w bp :
  holds c l w → Z.of_nat (length l) + 1 < 2^63 →
  let new := set_bp_Prepares bp ∅ in
  let grown w' := next_block (QuorumN c) l new ∧ holds c (l ++ [new]) w' in
  wp (commitBlockWithCheck bp)
     (λ r w', (r = None ∧ grown w') ∨ (is_Some r ∧ w' = w))
     (λ w', holds c l w' ∨ grown w') w.
Proof.
  intros Hh Hlen new grown. pose proof Hh as [Hr Hc]. unfold commitBlockWithCheck.
  apply wp_bind, wp_lift; [|auto]. intros i Hi.
  apply wp_bind, wp_reads; [|auto]. intros [] Hcm; [by apply wp_ret; eauto|].
  apply wp_bind, wp_gets. rewrite Hc.
  destruct (_ <? QuorumN c) eqn:Eq; [by apply wp_ret; eauto|]. to_prop.
  apply wp_bind, wp_reads; [|auto]. intros [] Hconn; [|by apply wp_ret; eauto]. cbn [negb].
  apply wp_bind, wp_lift; [|auto]. intros isTxs Htxs.
  apply wp_bind, wp_lift; [|auto]. intros isRec Hrec.
  apply wp_bind, wp_lift; [|auto]. intros [] Hty%assert_true_Val.
  assert (next_block (QuorumN c) l new) as Hnb by (by eapply checked_next_block).
  assert (frame grown not_chain) as Hf by apply frame_and, holds_frame.
  apply wp_bind. eapply wp_mono.
  { apply (wp_JustCommitIt c l w (QuorumN c) new (λ _, grown)); [done|done|done|].
    intros w' Hw'. exact (conj Hnb Hw'). }
  2:{ intros w' Hw'. by left. }
  cbn beta. intros [] w1 Hg.
  apply (wp_bind_keep grown); [|done|by right|intros; apply wp_ret; by left].
  apply (keep_after_commit grown not_chain Hf) with (okt := λ _, True); auto with ofgp.
  - intros bp'. eapply keep_updateVotie; [exact Hf|auto with ofgp].
  - intros x t w' Hw' _ _ _. revert w' Hw'.
    eapply keep_tell_key; [exact Hf|apply SetNodeTerm_same|auto with ofgp].
Qed.

(** *** Every handler *)

(** The chain after a step: the same, or one block longer. *)
Definition grown_chain c l w : Prop :=
  holds c l w ∨ ∃ bp, next_block (QuorumN c) l bp ∧ holds c (l ++ [bp]) w.
Lemma grown_frame c l : frame (grown_chain c l) not_chain.
Proof.
  split.
  - intros w d Hd [Hh|(bp & Hn & Hh)]; [left|right; exists bp; split; [done|]];
      by apply (frame_db _ _ (holds_frame _ _)).
  - intros w w' Hd Hc [Hh|(bp & Hn & Hh)]; [left|right; exists bp; split; [done|]];
      by eapply (frame_rest _ _ (holds_frame _ _)).
Qed.

Lemma wp_handleCommitMsg c l w msg :
  holds c l w → Z.of_nat (length l) + 1 < 2^63 →
  wp (handleCommitMsg msg) (λ _, grown_chain c l) (grown_chain c l) w.
Proof.
  intros Hh Hlen. unfold handleCommitMsg. set (P := holds c l).
  assert (∀ w', P w' → grown_chain c l w') as HP by (intros; by left).
  apply (wp_bind_keep P); [apply keep_ask|done|done|]. intros t w1 H1'.
  destruct (_ >? _); [eapply wp_mono; [by apply (keep_Add P not_chain), H1'; apply holds_frame|auto..]|].
  destruct (negb _); [by apply wp_ret; auto|].
  apply (wp_bind_keep P); [apply keep_ask|done|done|]. intros h w2 H2'.
  destruct (negb _).
  { eapply wp_mono; [eapply (keep_handleWrongHeight P not_chain); [apply holds_frame|done]|auto..]. }
  apply (wp_bind_keep P); [apply keep_ask|done|done|]. intros [fresh|] w3 H3'.
  - apply (wp_bind_keep P); [apply keep_lift|done|done|]. intros i w4 H4'.
    apply (wp_bind_keep P); [apply keep_lift|done|done|]. intros e w5 H5'.
    destruct (negb e); [by apply wp_ret; auto|]. destruct (bool_decide _); [by apply wp_ret; auto|].
    apply (wp_bind_keep P); [apply keep_gets|done|done|]. intros c' w6 H6'.
    apply (wp_bind_keep P); [|done|done|].
    { eapply keep_tell_key; [apply holds_frame|apply SetFresh_same|apply not_chain_fresh]. }
    intros _ w7 H7'. apply wp_when; [intros _|by left]. apply wp_bind.
    eapply wp_mono; [by apply wp_commitBlockWithCheck| |].
    + intros r w8 Hr. assert (grown_chain c l w8).
      { destruct Hr as [[_ Hg]|[_ ->]]; [right; by eexists|by left]. }
      apply wp_lift; auto.
    + intros w8 [Hk|Hg]; [by left|right; by eexists].
  - apply wp_modify. left. by eapply (frame_rest _ _ (holds_frame c l) w3).
Qed.
End Chain.

(** ** The node as a transition system *)
Section NodeSteps.
Context `{KV} `{Wire} `{Watchers}.
Implicit Types (c : Cluster) (l : list BlockPack) (w : World).

(** After a panic the process starts again: the store survives, what was in
    memory is lost. *)
Definition crash w : World := MkWorld (MkPool (w_db w) NewTxStore) ∅ ∅ (w_cluster w) [] [].
Definition after {A} (r : outcome World A) : World :=
  match r with Ret _ w => w | Panic _ w => crash w end.

(** One step: a message handled, a request received or a heartbeat of the
    pool, a waiting goroutine scheduled, a change of the node list, or the
    events taken from the queue. *)
Inductive Step : Type :=
  | SInit (o : order) (m : InitMsg)
  | SPrepare (m : PrepareMsg)
  | SCommit (m : CommitMsg)
  | SWeakAccuse (now : Z) (m : WeakAccuse)
  | SStrongAccuse (o : order) (m : StrongAccuse)
  | SJoin (m : JoinRequest)
  | SJoinSynced (m : JoinRequest)
  | SLeave (m : LeaveRequest)
  | SWatch (g : Waiting)
  | SPoolRequest (now : Z)
  | SHeartbeat (o : order) (now : Z)
  | SFetch (o : order)
  | SCluster (c : Cluster)
  | SExec.
Definition node_step (s : Step) w : World :=
  match s with
  | SInit o m => after (handleInitMsg o m w)
  | SPrepare m => after (handlePrepareMsg m w)
  | SCommit m => after (handleCommitMsg m w)
  | SWeakAccuse now m => after (handleWeakAccuse now m w)
  | SStrongAccuse o m => after (handleStrongAccuse o m w)
  | SJoin m => after (handleJoinRequest m w)
  | SJoinSynced m => after (handleJoinCheckSyncedRequest m w)
  | SLeave m => after (handleLeaveRequest m w)
  | SWatch g => after (watch_turn g w)
  | SPoolRequest now => after (run_pool (run_step now) w)
  | SHeartbeat o now => after (run_pool (doHeartbeat o now) w)
  | SFetch o => after (run_pool (GetFreshWatchedTxs o) w)
  | SCluster c => MkWorld (w_pool w) (w_prepareCache w) (w_commitCache w) c (w_tasks w) (w_waiting w)
  | SExec => set_w_tasks [] w
  end.
Definition run_steps (ss : list Step) w : World := foldl (λ w s, node_step s w) w ss.

Definition tx_keys (k : bytes) : Prop := ∃ r, k = keyTxPrefix +:+ r ∨ k = keyTxMapPrefix +:+ r.
Lemma tx_not_chain k : tx_keys k → not_chain k.
Proof. intros (r & [->| ->]) (r' & [E|E]); revert E; key_ne. Qed.

Lemma SetTxLookupEntry_same i e d d' : SetTxLookupEntry i e d = Val d' → same_but tx_keys d d'.
Proof.
  intros (x & b & _ & _ & ->)%SetTxLookupEntry_Val.
  eapply same_but_mono; [|apply same_but_put]. intros k E. subst k. eexists. by left.
Qed.
Lemma SetTxIdMap_same s i d d' : SetTxIdMap s i d = Val d' → same_but tx_keys d d'.
Proof.
  intros (x & _ & ->)%SetTxIdMap_Val.
  eapply same_but_mono; [|apply same_but_put]. intros k E. subst k. eexists. by right.
Qed.
Lemma wp_cleanUp_from d txs : ∀ idx h p, same_but tx_keys d (p_db p) →
  wp (cleanUp_from idx txs h) (λ _ q, same_but tx_keys d (p_db q))
     (λ q, same_but tx_keys d (p_db q)) p.
Proof.
  assert (∀ p1 f, same_but tx_keys d (p_db p1) →
    (∀ e e', f e = Val e' → same_but tx_keys e e') →
    wp (updates_db f) (λ _ p2, same_but tx_keys d (p_db p2))
      (λ p2, same_but tx_keys d (p_db p2)) p1) as Hupd.
  { intros p1 f Hs Hf. unfold updates_db. apply wp_zoom, wp_updates; [|done].
    intros d' Hd. eapply same_but_trans; [exact Hs|by apply Hf]. }
  induction txs as [|tx txs IH]; intros idx h p Hp; [done|].
  cbn [cleanUp_from]. apply wp_bind, wp_lift; [|done]. intros wt Hwt. apply wp_bind.
  eapply wp_mono; [apply Hupd; [done|apply SetTxLookupEntry_same]| |done].
  intros [] p1 Hp1. apply wp_bind.
  eapply wp_mono; [apply Hupd; [done|apply SetTxIdMap_same]| |done].
  intros [] p2 Hp2. apply wp_bind.
  eapply wp_mono; [apply Hupd; [done|apply SetTxIdMap_same]| |done].
  intros [] p3 Hp3. apply wp_bind, wp_modify. by apply IH.
Qed.
Lemma cleanUp_same txs idx h p :
  same_but tx_keys (p_db p) (p_db (end_state (cleanUp_from idx txs h p))).
Proof.
  apply (proj1 (wp_end (cleanUp_from idx txs h) (λ q, same_but tx_keys (p_db p) (p_db q)) p)).
  apply wp_cleanUp_from, same_but_refl.
Qed.
Lemma wp_addTxs_from d now txs : ∀ idx p, p_db p = d →
  wp (addTxs_from now idx txs) (λ _ q, p_db q = d) (λ q, p_db q = d) p.
Proof.
  induction txs as [|tx txs IH]; intros idx p Hp; [done|].
  cbn [addTxs_from]. apply wp_bind, wp_lift; [|done]. intros wt Hwt. apply wp_bind, wp_gets.
  apply wp_bind. eapply wp_mono with (Q := λ _ q, p_db q = d) (E := λ q, p_db q = d); [| |done].
  { destruct (_ !! _); [done|]. apply wp_bind, wp_reads; done. }
  intros added p1 Hp1. apply wp_bind, wp_when; intros _.
  - apply wp_modify. apply wp_bind. eapply wp_mono; [by apply IH|done|done].
  - apply wp_bind. eapply wp_mono; [by apply IH|done|done].
Qed.
Lemma addTxs_db now txs idx p : p_db (end_state (addTxs_from now idx txs p)) = p_db p.
Proof.
  apply (proj1 (wp_end (addTxs_from now idx txs) (λ q, p_db q = p_db p) p)).
  by apply wp_addTxs_from.
Qed.
Lemma run_step_same now p : same_but tx_keys (p_db p) (p_db (end_state (run_step now p))).
Proof.
  unfold run_step. rewrite bind_gets_id. destruct (inbox (p_ts p)) as [|r q]; [apply same_but_refl|].
  unfold modify_ts. rewrite bind_modify.
  destruct r as [txs|txs h|tx|tx|t]; cbn [handle_request]; try apply same_but_refl.
  - unfold addTxs. pose proof (addTxs_db now txs 0 (set_p_ts (set_inbox (p_ts p) q) p)) as Hd.
    unfold mbind, go_bind. destruct (addTxs_from _ _ _ _); cbn in Hd |- *; rewrite Hd; apply same_but_refl.
  - unfold cleanUpOnNewCommitted. apply (cleanUp_same txs 0 h (set_p_ts (set_inbox (p_ts p) q) p)).
Qed.
Lemma heartbeat_db o now p : p_db (end_state (doHeartbeat o now p)) = p_db p.
Proof.
  rewrite doHeartbeat_beats. destruct (beats _ _ _ _) as [ts b]. destruct b; [|done].
  by destruct (GetNodeTerm _).
Qed.
Lemma fetch_db o p : p_db (end_state (GetFreshWatchedTxs o p)) = p_db p.
Proof.
  unfold GetFreshWatchedTxs. rewrite bind_gets_id. by destruct (foldl _ _ _).
Qed.

Lemma after_wp {A} P ks w (m : go World A) :
  frame P ks → wp m (λ _, P) P w → P (after (m w)).
Proof.
  intros Hf Hm. apply wp_end in Hm. destruct (m w) as [a w'|f w']; cbn in Hm |- *; [done|].
  by eapply (frame_rest P ks Hf w').
Qed.
Lemma after_keep {A} P ks w (m : go World A) : frame P ks → keep P m → P w → P (after (m w)).
Proof. intros Hf Hm Hw. eapply after_wp; [exact Hf|by apply Hm]. Qed.

(** What is left to show for an invariant [P] of the store and the node list:
    that it survives the votie, the raise of the term, a strong accusation, the
    commit of a block and a change of the node list. *)
Lemma node_step_keeps P ks okt s w :
  frame P ks → (∀ k, not_chain k → k ≠ keyTerm → k ≠ keyVotie → ks k) →
  (∀ bp, keep P (updateVotie bp)) →
  (∀ x t w, P w → GetNodeTerm (w_db w) = Val t → t < x → okt x →
     wp (tell (SetNodeTerm x)) (λ _, P) P w) →
  P w →
  match s with
  | SInit _ m => okt (im_Term m)
  | SCommit m => wp (handleCommitMsg m) (λ _, P) P w
  | SStrongAccuse o m => keep P (handleStrongAccuse o m)
  | SCluster c => P (node_step (SCluster c) w)
  | _ => True
  end → P (node_step s w).
Proof.
  intros Hf Hks Hv Hraise Hw Hs. pose proof tx_not_chain as Htx.
  assert (∀ d d', same_but tx_keys d d' → same_but ks d d') as Htxs.
  { intros d d'. apply same_but_mono. intros k Hk. pose proof Hk as (r & [-> | ->]);
      (apply Hks; [by apply Htx| |]); key_ne. }
  assert (ks keyFresh ∧ ks keyWeakAccuses ∧ ks keyLastTermAccuse ∧ ks keyJoinNodeInfo ∧
    ks keyLeaveNodeInfo) as (? & ? & ? & ? & ?).
  { split_and!; (apply Hks; [by auto with ofgp| |]); key_ne. }
  destruct s; cbn [node_step]; try done.
  - eapply after_keep; [exact Hf| |done]. by eapply keep_handleInitMsg.
  - eapply after_keep; [exact Hf| |done]. by eapply keep_handlePrepareMsg.
  - by eapply after_wp.
  - eapply after_keep; [exact Hf| |done]. by eapply keep_handleWeakAccuse.
  - by eapply after_keep.
  - eapply after_keep; [exact Hf| |done]. by eapply keep_handleJoinRequest.
  - eapply after_keep; [exact Hf| |done]. by eapply keep_handleJoinCheckSyncedRequest.
  - eapply after_keep; [exact Hf| |done]. by eapply keep_handleLeaveRequest.
  - eapply after_keep; [exact Hf| |done]. by eapply keep_watch_turn.
  - eapply after_keep; [exact Hf| |done]. eapply keep_run_pool; [exact Hf|].
    intros p. apply Htxs, run_step_same.
  - eapply after_keep; [exact Hf| |done]. eapply keep_run_pool; [exact Hf|].
    intros p. rewrite heartbeat_db. apply same_but_refl.
  - eapply after_keep; [exact Hf| |done]. eapply keep_run_pool; [exact Hf|].
    intros p. rewrite fetch_db. apply same_but_refl.
  - by eapply (frame_rest P ks Hf w).
Qed.

(** The chain part of a step. *)
Lemma node_step_chain s w l :
  chain_rep (w_db w) l → Z.of_nat (length l) + 1 < 2^63 →
  ∃ l', chain_rep (w_db (node_step s w)) l' ∧
    (l' = l ∨ ∃ bp, l' = l ++ [bp] ∧ next_block (QuorumN (w_cluster w)) l bp).
Proof.
  intros Hr Hlen. assert (holds (w_cluster w) l w) as Hh by done.
  assert (∀ w', grown_chain (w_cluster w) l w' → ∃ l', chain_rep (w_db w') l' ∧
    (l' = l ∨ ∃ bp, l' = l ++ [bp] ∧ next_block (QuorumN (w_cluster w)) l bp)) as Hg.
  { intros w1 [[Hk _]|(bp & Hn & [Hk _])]; [exists l; auto|exists (l ++ [bp]); eauto]. }
  assert (match s with SCommit _ | SCluster _ => True | _ => holds (w_cluster w) l (node_step s w) end)
    as Hother.
  { destruct s; try done; (eapply (node_step_keeps _ not_chain (λ _, True) _ w (holds_frame _ l));
      [done| |intros; by apply holds_SetNodeTerm|exact Hh|try done]);
      try (intros bp; eapply keep_updateVotie; [apply holds_frame|apply not_chain_votie]).
    eapply keep_handleStrongAccuse; try (apply holds_frame); auto with ofgp.
    intros. by apply holds_SetNodeTerm. }
  destruct s; try (apply Hg; by left).
  - apply Hg. cbn [node_step]. eapply after_wp; [apply grown_frame|]. by apply wp_handleCommitMsg.
  - exists l. split; [exact Hr|by left].
Qed.
End NodeSteps.
