(* ===== verification/ChainTx.v ===== *)
(** * Transactions of the connected chains

    What the gateway reads of the chain libraries and of the price service
    ([Chains]), the 64-bit floating-point numbers in which it counts prices
    ([SpecFloat] of the Standard Library, which computes), and the conversion of burns
    on the two EOS chains (src/proto/pbtypes_ext.go). An instance of [Chains] is what the
    libraries answer during one call. *)
From S2P Require Import Prelude.
From S2P Require Import GoLib.
From S2P Require Import Messages.
From S2P Require Import ProtoOps.
From Stdlib Require Import SpecFloat.

(** ** Floating point *)
Definition f64_of_int (z : Z) : spec_float := binary_normalize 53 1024 z 0 false.
(** A float32 is a float64 without loss. *)
Definition f64_of_f32 (f : spec_float) : spec_float :=
  match f with
  | S754_finite s m e => binary_normalize 53 1024 (if s then Z.neg m else Z.pos m) e s
  | f => f
  end.
Definition f64_mul : spec_float → spec_float → spec_float := SFmul 53 1024.
Definition f64_div : spec_float → spec_float → spec_float := SFdiv 53 1024.
(** The integer part; [None] for an infinity or not a number. *)
Definition f64_trunc (f : spec_float) : option Z :=
  match f with
  | S754_zero _ => Some 0
  | S754_finite s m e =>
      let a := if 0 <=? e then Z.pos m * 2 ^ e else Z.pos m / 2 ^ (- e) in Some (if s then - a else a)
  | _ => None
  end.

(** ** The libraries and services *)
Record EOSPushEvent : Type := { ee_TxID : string; ee_Amount : Z; ee_Data : bytes; ee_Height : Z }.
(** An event of the gateway contracts on Ethereum: the method that was called, the flags of
    what happened, the data that goes with it and the place of the transaction. *)
Inductive EthMethod : Type := TOKEN_METHOD_BURN | METHOD_MINT | METHOD_ADDVOTER | METHOD_REMOVEVOTER | OTHER_METHOD.
Inductive EthExtra : Type :=
  | ExtraBurnData (burn : SubTransaction)
  | ExtraMintData (proposal : string)
  | OtherExtra.
Record EthChainEvent : Type := {
  ec_Method : EthMethod; ec_Events : Z; ec_Extra : EthExtra;
  ec_TxHash : string; ec_BlockNumber : Z; ec_TxIndex : Z
}.
(** The type assertion to [ExtraBurnData]. *)
Definition ec_Burn (ev : EthChainEvent) : option SubTransaction :=
  match ec_Extra ev with ExtraBurnData burn => Some burn | _ => None end.
Record PriceInfo : Type := { pi_Price : spec_float; pi_Timestamp : Z; pi_Err : string }.
(** The data of an EOS action that the code asserts the type of. *)
Inductive ActionData : Type :=
  | CreateToken (user : string) (amount : Z)
  | TokenTransfer (to : string) (amount : Z)
  | OtherAction.
Record UtxoInfo : Type := { ut_Address : string }.
(** A transaction found on a Bitcoin chain; one that is no request has no [SubTx]. *)
Record BtcChainTx : Type := { cx_ScTxid : string; cx_Confirmations : Z; cx_SubTx : option SubTransaction }.

Class Chains : Type := {
  (** [wire.MsgTx]; [Deserialize] gives what is left in the value, and whether there was an error. *)
  MsgTx : Type;
  Deserialize : bytes → MsgTx * bool;
  Serialize : MsgTx → option bytes;
  TxIn : MsgTx → list (string * Z);
  TxOut : MsgTx → list (bytes * Z);
  TxHash : MsgTx → string;
  ExtractPkScriptAddr : bytes → string → string;
  DecodeAddress : string → string → bool;
  (** The watchers of "bch" and "btc". *)
  GetTxByHash : string → string → option BtcChainTx;
  GetUtxoInfoByID : string → string → option UtxoInfo;
  SignTx : string → MsgTx → string → list bytes * Z;
  VerifySign : string → MsgTx → list bytes → bytes → bool;
  MergeSignTx : string → MsgTx → list (list bytes) → option MsgTx;
  CreateCoinTx : string → list AddressInfo → Z → Z → option MsgTx;
  TransferAsset : string → string → Z → Z → option MsgTx;
  GetUnspentUtxo : string → string → list UtxoInfo;
  (** The Ethereum watcher; [None] is an error, [Some None] a nil event. *)
  GetEventByHash : string → option (option EthChainEvent);
  TX_STATUS_FAILED : Z;
  VOTE_TX_MINT : Z;
  VOTE_TX_VOTERADDED : Z;
  VOTE_TX_VOTERREMOVED : Z;
  VerifyAppInfo : string → Z → Z → bool;
  HexToAddress : string → bytes;
  EncodeMint : Z → Z → bytes → string → option bytes;
  SendTranxByInput : string → string → bytes → option string;
  (** The watchers of "xin" and "eos". *)
  EosTx : Type;
  Unpack : bytes → option EosTx;
  Pack : EosTx → option bytes;
  Actions : EosTx → list ActionData;
  GetEventByTxid : string → string → option EOSPushEvent;
  PKMSign : string → EosTx → option bytes;
  GetPublickeyFromTx : string → EosTx → bytes → option string;
  (** What is left in the signature, and whether there was an error. *)
  UnmarshalSignature : bytes → bytes * bool;
  NewPublicKey : string → string → option string;
  (** [None] is the transaction that failed to unpack. *)
  MergeSignedTx : string → option EosTx → list bytes → option EosTx;
  EosTxID : EosTx → bytes;
  LastIrreversibleBlockNum : string → Z;
  CreateTokenTx : string → string → string → Z → option EosTx;
  CreateTransferTx : string → string → Z → string → option EosTx;
  (** [json.Unmarshal] of a memo: its chain and address. *)
  UnmarshalMemo : bytes → option (string * string);
  GetPriceByTimestamp : string → Z → bool → option PriceInfo;
  GetCurrPrice : string → bool → option PriceInfo;
  (** What Go leaves to the implementation: an integer conversion out of range. *)
  conversion_overflow : spec_float → Z
}.

(** ** Burns on the EOS chains (src/proto/pbtypes_ext.go) *)

(** [^[a-z1-5.]{1,12}$] *)
Definition eos_char (c : ascii) : bool :=
  let v := byte_val c in
  ((97 <=? v) && (v <=? 122)) || ((49 <=? v) && (v <=? 53)) || (v =? 46).
Fixpoint all_chars (p : ascii → bool) (s : string) : bool :=
  match s with EmptyString => true | String c s => p c && all_chars p s end.
Definition checkEOSAddr (addr : string) : bool :=
  (1 <=? Z.of_nat (String.length addr)) && (Z.of_nat (String.length addr) <=? 12) && all_chars eos_char addr.

Section ChainTx.
Context `{Chains}.
Definition ec_Failed (ev : EthChainEvent) : bool := negb (Z.land (ec_Events ev) TX_STATUS_FAILED =? 0).
Definition to_int64 (f : spec_float) : Z :=
  match f64_trunc f with
  | Some z => if (- 2^63 <=? z) && (z <? 2^63) then z else conversion_overflow f
  | None => conversion_overflow f
  end.
Definition to_uint32 (f : spec_float) : Z :=
  match f64_trunc f with
  | Some z => if (0 <=? z) && (z <? 2^32) then z else conversion_overflow f mod 2^32
  | None => conversion_overflow f mod 2^32
  end.

Definition eos_watched (from chain address : string) (tx : EOSPushEvent) : WatchedTxInfo :=
  {| wt_Txid := ee_TxID tx; wt_Amount := wrap64 (ee_Amount tx);
     wt_RechargeList := [{| ai_Address := address; ai_Amount := wrap64 (ee_Amount tx) |}];
     wt_From := from; wt_To := chain; wt_Fee := 0; wt_TokenFrom := 1; wt_TokenTo := 0 |}.
Definition XINToPbTx (tx : EOSPushEvent) : option WatchedTxInfo :=
  if ee_Amount tx <=? 0 then None
  else
    '(chain, address) ← UnmarshalMemo (ee_Data tx);
    if bool_decide (chain = "btc") || bool_decide (chain = "bch") then
      if DecodeAddress address chain then Some (eos_watched "xin" chain address tx) else None
    else if bool_decide (chain = "eos") then
      if checkEOSAddr address then Some (eos_watched "xin" chain address tx) else None
    else None.
Definition EOSToPbTx (event : EOSPushEvent) : option WatchedTxInfo :=
  if ee_Amount event <=? 0 then None
  else
    '(chain, address) ← UnmarshalMemo (ee_Data event);
    if negb (bool_decide (chain = "xin")) then None
    else if negb (checkEOSAddr address) then None
    else Some (eos_watched "eos" chain address event).

(** ** Amounts *)

(** [int64(float64(amount) * 100000.0 / float64(price))], the coins for an amount of
    the dollar token. *)
Definition coins_for (amount : Z) (price : spec_float) : Z :=
  to_int64 (f64_div (f64_mul (f64_of_int amount) (f64_of_int 100000)) (f64_of_f32 price)).
(** [uint32(float64(amount) * float64(price) * 1000 / coinUnit)] *)
Definition tokens_for (amount : Z) (price : spec_float) (coinUnit : Z) : Z :=
  to_uint32 (f64_div (f64_mul (f64_mul (f64_of_int amount) (f64_of_f32 price)) (f64_of_int 1000))
    (f64_of_int coinUnit)).
Definition getEOSAmountFromXin (xinAmount : Z) (price : spec_float) (coinUnit : Z) : Z :=
  to_int64 (f64_div (f64_mul (f64_of_int xinAmount) (f64_of_int coinUnit))
    (f64_mul (f64_of_int 1000) (f64_of_f32 price))).
(** [amount - amount*rate/10000]; Go divides towards zero. *)
Definition after_fee (amount rate : Z) : Z := amount -i64 Z.quot (amount *i64 rate) 10000.

(** The sign of the fee is that of the amount: with a rate of at most the whole,
    what is paid lies between nothing and the amount. *)
Lemma after_fee_bounds amount rate :
  0 ≤ amount → 0 ≤ rate ≤ 10000 → amount * 10000 < 2^63 → 0 ≤ after_fee amount rate ≤ amount.
Proof.
  intros Ha Hr Hlt. unfold after_fee. rewrite (wrap64_small (amount * rate)); [|unfold i64; nia].
  pose proof (Z.quot_pos (amount * rate) 10000 ltac:(nia) ltac:(lia)).
  assert (Z.quot (amount * rate) 10000 ≤ amount).
  { rewrite Z.quot_div_nonneg; [|nia|lia]. apply Z.div_le_upper_bound; nia. }
  rewrite wrap64_small; unfold i64; lia.
Qed.
End ChainTx.
