(* ===== verification/Remote.v ===== *)
(** * The keystore and the price service (src/crypto, src/price)

    A node has its digests signed by a keystore and asks a service for prices, both over HTTP. What the HTTP
    client, the JSON encoder and the elliptic curves answer are arguments: [http_get] gives [None] for an error,
    else the body of the response; [do n] is the answer to the [n]-th attempt, [Some None] a response whose
    body cannot be read. The text of an error
    of a library is [err]. *)
From S2P Require Import Prelude.
From S2P Require Import GoLib.
From S2P Require Import Crypto.
From S2P Require Import ChainTx.

(** ** Data (src/crypto/secure_signer.go) *)
Record signBody : Type := { InputHex : string; PubHashHex : string; sb_ServiceId : string; Timestamp : Z }.
Record sigContent : Type := { sc_R : string; sc_S : string; SignatureDerHex : string }.
Record signResponse : Type := { sp_Code : Z; sp_Data : sigContent; ErrMsg : string }.
(** The request that is sent: its body and the headers that the code sets. *)
Record Request : Type := { rq_url : string; rq_body : string; rq_signature : string; rq_serviceId : string }.
#[export] Instance Request_eq_dec : EqDecision Request.
Proof. solve_decision. Defined.
(** A [SecureSigner] with the parameters of the keystore. *)
Record KeySigner (PrivKey : Type) : Type := {
  ks_signer : SecureSigner; ksSigner : option PrivKey; ServiceId : string; KsUrl : string; KsPrivKey : string
}.
Arguments ks_signer {_} _.
Arguments ksSigner {_} _.
Arguments ServiceId {_} _.
Arguments KsUrl {_} _.
Arguments KsPrivKey {_} _.

Section Keystore.
(** btcec: the key of some bytes, and the signature of a hash, which may fail. *)
Context {PrivKey : Type} (PrivKeyFromBytes : bytes → PrivKey) (sign_hash : PrivKey → bytes → option bytes).
Context (Marshal : signBody → option string) (Unmarshal : string → option signResponse).
(** [http.NewRequest] accepts the address. *)
Context (address_ok : string → bool).
Context (err : string → string).

(** *** A private key (src/crypto/signer.go) *)
Definition Signer_Sign (privKey : PrivKey) (digest : bytes) : option bytes := sign_hash privKey (Sha256.sum digest).
Definition SignerFromText (text : string) : pan PrivKey :=
  match hex_decode text with
  | None => Fault (ExplicitPanic "decode priv key failed")
  | Some privBytes => mret (PrivKeyFromBytes privBytes)
  end.
(** [elliptic.Unmarshal] gives nil coordinates for what is no point, whose bytes are read then. *)
Definition TextToPub (point : bytes → option (bytes * bytes)) (pub : string) : pan (option bytes) :=
  match hex_decode pub with
  | None => mret None
  | Some b => '(x, y) ← deref (point b); mret (Some (x +:+ y))
  end.

(** *** Signing (src/crypto/secure_signer.go) *)
Definition InitKeystoreParam (ksPrivKey serviceId url : string) (s : SecureSigner) : pan (KeySigner PrivKey) :=
  k ← SignerFromText ksPrivKey;
  mret {| ks_signer := s; ksSigner := Some k; ServiceId := serviceId; KsUrl := url; KsPrivKey := ksPrivKey |}.
(** The nil of a request that cannot be made is handed to the client, which dereferences it. *)
Definition createReq (url jsonBody headerData serviceID : string) : option Request :=
  if address_ok url then
    Some {| rq_url := url; rq_body := jsonBody; rq_signature := headerData; rq_serviceId := serviceID |}
  else None.
(** The attempts from the [n]-th on, at most [more] of them, and the requests that were sent. *)
Fixpoint attempts (do : nat → Request → option (option string)) (req : Request) (n more : nat) : option (option string) * list Request :=
  match more with
  | O => (None, [])
  | S more =>
      match do n req with
      | Some body => (Some body, [req])
      | None => let r := attempts do req (S n) more in (r.1, req :: r.2)
      end
  end.
(** The error of the node's own signature is overwritten: the request is then sent without one. *)
Definition dialKeyStore (do : nat → Request → option (option string)) (now : Z) (digest : bytes) (ksSigner : option PrivKey)
    (serviceId url pubkeyHash : string) : pan ((string + signResponse) * list Request) :=
  let body := {| InputHex := hex_encode digest; PubHashHex := pubkeyHash; sb_ServiceId := serviceId; Timestamp := now |} in
  match Marshal body with
  | None => mret (inl (err "marshal"), [])
  | Some jsonBody =>
      k ← deref ksSigner;
      let headerData := hex_encode (default "" (Signer_Sign k jsonBody)) in
      req ← deref (createReq url jsonBody headerData serviceId);
      let '(res, sent) := attempts do req 0 3 in
      match res with
      | None => mret (inl (err "http"), sent)
      | Some None => mret (inl (err "read"), sent)
      | Some (Some resBody) =>
          match Unmarshal resBody with
          | None => mret (inl (err "unmarshal"), sent)
          | Some sig => mret (inr sig, sent)
          end
      end
  end.
Definition Sign (do : nat → Request → option (option string)) (now : Z) (signer : KeySigner PrivKey) (digest : bytes)
    : pan ((string + bytes) * list Request) :=
  let url := KsUrl signer +:+ "/" +:+ "key/sign" in
  '(sig, sent) ← dialKeyStore do now digest (ksSigner signer) (ServiceId signer) url (PubkeyHash (ks_signer signer));
  mret (match sig with
        | inl e => inl e
        | inr sig =>
            if negb (sp_Code sig =? 0) then inl ("keystore sign failed, err: " +:+ ErrMsg sig)
            else match hex_decode (SignatureDerHex (sp_Data sig)) with
                 | None => inl (err "hex")
                 | Some b => inr b
                 end
        end, sent).

(** *** Verification (src/crypto/verify.go) *)
Definition Verify {PubKey Signature} (ParsePubKey : bytes → option PubKey) (ParseDER : bytes → option Signature)
    (verify : Signature → bytes → PubKey → bool) (pubKey : bytes) (digest : option Digest256) (sig : bytes) : pan bool :=
  match ParsePubKey pubKey, ParseDER sig with
  | Some pk, Some pSig => d ← deref digest; mret (verify pSig (Data d) pk)
  | _, _ => mret false
  end.

(** *** Lemmas *)
Lemma attempts_sent do req n more :
  ∃ k, attempts do req n more = (match k with O => None | S j => do (n + j)%nat req end, replicate k req) ∧ (k ≤ more)%nat ∧
    (∀ j, (S j < k)%nat → do (n + j)%nat req = None) ∧ (k < more → k ≠ O → is_Some (do (n + pred k)%nat req))%nat ∧
    (more ≠ O → k ≠ O).
Proof.
  revert n. induction more as [|more IH]; intros n; [by exists 0%nat; split_and!; [|lia|lia|lia|]|].
  cbn. destruct (do n req) as [body|] eqn:E.
  - exists 1%nat. rewrite !Nat.add_0_r E. split_and!; [done|lia|lia|by eexists|done].
  - destruct (IH (S n)) as (k & Hk & Hle & Hnone & Hsome & H0). rewrite Hk. exists (S k). cbn. split_and!.
    + f_equal. destruct k; [by rewrite Nat.add_0_r|by rewrite Nat.add_succ_r].
    + lia.
    + intros [|j] Hj; [by rewrite Nat.add_0_r|]. rewrite Nat.add_succ_r. apply Hnone. lia.
    + intros Hlt _. destruct k as [|k]; [destruct more; [lia|by destruct H0]|]. rewrite Nat.add_succ_r. apply Hsome; lia.
    + done.
Qed.

(** C32. A signature is asked for with one request, sent at most three times: the first attempt that is answered
    decides, whatever the later ones would be; the node has a signature only when the answer has the code 0 and
    hexadecimal text, which the node takes without checking it. The request goes out even when the
    node's own key fails to sign it, with an empty header in place of the signature. *)
Theorem Sign_asks_keystore do now signer digest k jsonBody :
  ksSigner signer = Some k → address_ok (KsUrl signer +:+ "/" +:+ "key/sign") = true →
  Marshal {| InputHex := hex_encode digest; PubHashHex := PubkeyHash (ks_signer signer);
             sb_ServiceId := ServiceId signer; Timestamp := now |} = Some jsonBody →
  let req := {| rq_url := KsUrl signer +:+ "/" +:+ "key/sign"; rq_body := jsonBody;
                rq_signature := hex_encode (default "" (Signer_Sign k jsonBody)); rq_serviceId := ServiceId signer |} in
  ∃ r n, Sign do now signer digest = Val (r, replicate n req) ∧ (1 ≤ n ≤ 3)%nat ∧
    (∀ j, (S j < n)%nat → do j req = None) ∧ ((n < 3)%nat → is_Some (do (pred n) req)) ∧
    (∀ s, r = inr s ↔ ∃ body sig, do (pred n) req = Some (Some body) ∧ Unmarshal body = Some sig ∧ sp_Code sig = 0 ∧
       hex_decode (SignatureDerHex (sp_Data sig)) = Some s) ∧
    (Signer_Sign k jsonBody = None → rq_signature req = "").
Proof.
  intros Hk Ha Hm req. destruct (attempts_sent do req 0 3) as (n & Hn & Hle & Hnone & Hsome & H0).
  destruct n as [|n]; [by destruct H0|]. unfold Sign, dialKeyStore, createReq. rewrite Hm Hk Ha.
  cbn [deref mbind pan_bind]. fold req. rewrite Hn. cbn [Nat.add pred] in *.
  assert (Signer_Sign k jsonBody = None → rq_signature req = "") as Hh by (cbn; by intros ->).
  destruct (do n req) as [[body|]|] eqn:Eb; [destruct (Unmarshal body) as [sig|] eqn:Eu| |]; eexists _, (S n);
    (split; [reflexivity|]); cbn [pred]; rewrite ?Eb; (split_and!; [lia|lia|exact Hnone|intros Hl; first [by eexists|exfalso; destruct (Hsome Hl ltac:(done)) as [? Hx]; congruence]| |exact Hh]).
  - destruct (sp_Code sig =? 0) eqn:Ec; cbn [negb]; to_prop.
    + destruct (hex_decode _) as [b|] eqn:Ed; intros s; split; try done.
      * intros [= ->]. by exists body, sig.
      * intros (body' & sig' & [= <-] & Hu & _ & Hd). rewrite Eu in Hu. injection Hu as <-. congruence.
      * intros (body' & sig' & [= <-] & Hu & _ & Hd). rewrite Eu in Hu. injection Hu as <-. congruence.
    + intros s. split; [done|]. intros (body' & sig' & [= <-] & Hu & Hc & _). rewrite Eu in Hu. by injection Hu as <-.
  - intros s. split; [done|]. intros (body' & sig' & [= <-] & Hu & _). by rewrite Eu in Hu.
  - intros s. split; [done|]. by intros (body' & sig' & Hb & _).
  - intros s. split; [done|]. by intros (body' & sig' & Hb & _).
Qed.
End Keystore.

(** ** Prices (src/price/price.go) *)
Section Price.
(** [url.Parse], and the address with a query in its place; [http.Get]; the decoding of the body. *)
Context {Url : Type} (parse : string → option Url) (with_query : Url → string → string).
Context (http_get : string → option string) (Unmarshal : string → option PriceInfo).

Definition dial (url : string) : option PriceInfo := body ← http_get url; Unmarshal body.
(** [url.Values] with the one parameter, encoded. *)
Definition forth_query (forth : bool) : string := if forth then "forth=1" else "forth=0".
Definition GetCurrPrice (endpoint symbol : string) (forth : bool) : option PriceInfo :=
  tmp ← parse (endpoint +:+ "/" +:+ "currprice" +:+ "/" +:+ symbol);
  dial (with_query tmp (forth_query forth)).
Definition GetPriceByTimestamp (endpoint symbol : string) (ts : Z) (forth : bool) : option PriceInfo :=
  tmp ← parse (endpoint +:+ "/" +:+ "pricebyts" +:+ "/" +:+ symbol +:+ "/" +:+ FormatInt ts);
  dial (with_query tmp (forth_query forth)).
End Price.
