(* ===== verification/Distribution.v ===== *)
(** * Distribution proposals
    (src/distribution/proposal.go, src/distribution/dbops.go)

    An operator files a proposal, a list of payments out of the federation's
    account, and later tells every node to execute it. Proposals are kept in the
    store under their id, as JSON; the payment itself is a watched transaction of the
    pool. [encoding/json] is a parameter that decodes what it encoded, on values
    it encodes without loss ([dj_ok]). A time is in nanoseconds; [time.Now()] is an
    argument. *)
From S2P Require Import Prelude.
From S2P Require Import GoLib.
From S2P Require Import Messages.
From S2P Require Import ProtoOps.
From S2P Require Import Store.
From S2P Require Import DbOps.
From S2P Require Import TxPool.

Definition keyDistributionProposalPrefix : bytes := "DPP".
Definition proposalStatus : Z := 0.
Definition proposalNew : Z := 1.
Definition proposalDealing : Z := 2.
Definition proposalSuccess : Z := 3.
Definition proposalFailed : Z := 4.

Record Output : Type := { o_Address : string; o_Amount : Z }.
Record Proposal : Type := { pr_Data : list Output; pr_Chain : string; pr_ID : string }.
Record DistributionInfo : Type := MkDist {
  di_Proposal : option Proposal; di_CreateTime : Z; di_Status : Z
}.
#[export] Instance Output_eq_dec : EqDecision Output.
Proof. solve_decision. Defined.
#[export] Instance Proposal_eq_dec : EqDecision Proposal.
Proof. solve_decision. Defined.
#[export] Instance DistributionInfo_eq_dec : EqDecision DistributionInfo.
Proof. solve_decision. Defined.
Definition set_di_Status (s : Z) (di : DistributionInfo) : DistributionInfo :=
  MkDist (di_Proposal di) (di_CreateTime di) s.

(** [utf8.ValidString] on byte values; [json.Marshal] replaces the bytes of a
    string that is not valid. *)
Definition tail_byte (b : Z) : bool := (128 <=? b) && (b <=? 191).
Definition second_byte (b0 b1 : Z) : bool :=
  if b0 =? 224 then (160 <=? b1) && (b1 <=? 191)
  else if b0 =? 237 then (128 <=? b1) && (b1 <=? 159)
  else if b0 =? 240 then (144 <=? b1) && (b1 <=? 191)
  else if b0 =? 244 then (128 <=? b1) && (b1 <=? 143)
  else tail_byte b1.
Fixpoint utf8_ok (l : list Z) : bool :=
  match l with
  | [] => true
  | b0 :: r0 =>
      if b0 <? 128 then utf8_ok r0
      else match r0 with
      | [] => false
      | b1 :: r1 =>
          if negb (second_byte b0 b1) then false
          else if (194 <=? b0) && (b0 <=? 223) then utf8_ok r1
          else match r1 with
          | [] => false
          | b2 :: r2 =>
              if negb (tail_byte b2) then false
              else if (224 <=? b0) && (b0 <=? 239) then utf8_ok r2
              else match r2 with
              | [] => false
              | b3 :: r3 => (240 <=? b0) && (b0 <=? 244) && tail_byte b3 && utf8_ok r3
              end
          end
      end
  end.
Fixpoint byte_vals (s : string) : list Z :=
  match s with EmptyString => [] | String c s => byte_val c :: byte_vals s end.
Definition ValidString (s : string) : bool := utf8_ok (byte_vals s).

(** What JSON keeps without loss: valid strings, amounts in range and a
    time between 1970 and 2262. *)
Definition proposal_ok (p : Proposal) : Prop :=
  ValidString (pr_Chain p) = true ∧ ValidString (pr_ID p) = true ∧
  Forall (λ o, ValidString (o_Address o) = true ∧ i64 (o_Amount o)) (pr_Data p).
Definition dj_ok (di : DistributionInfo) : Prop :=
  (∀ p, di_Proposal di = Some p → proposal_ok p) ∧ 0 ≤ di_CreateTime di < 2^63 ∧ i64 (di_Status di).
Class DistJson : Type := {
  dj_Marshal : DistributionInfo → option bytes;
  dj_Unmarshal : bytes → option DistributionInfo;
  dj_roundtrip : ∀ di, dj_ok di → ∃ b, dj_Marshal di = Some b ∧ dj_Unmarshal b = Some di
}.

Section Distribution.
Context `{KV} `{Wire} `{DistJson}.
Implicit Types (d : db) (p : Proposal) (di : DistributionInfo).

(** ** The store (src/distribution/dbops.go) *)
Definition proposal_key (proposalID : string) : bytes := keyDistributionProposalPrefix +:+ proposalID.
Definition setDistributionProposal di d : pan db :=
  p ← deref (di_Proposal di);
  mret (Put (proposal_key (pr_ID p)) (default "" (dj_Marshal di)) d).
Definition getDistributionProposal (proposalID : string) d : option DistributionInfo :=
  data ← Get d (proposal_key proposalID); dj_Unmarshal data.
Definition getAllDistributionProposal d : list DistributionInfo :=
  omap (λ e, dj_Unmarshal e.2) (NewIteratorWithPrefix d keyDistributionProposalPrefix).
Definition delDistributionProposal (proposalID : string) d : db := Delete (proposal_key proposalID) d.

(** ** The manager (src/distribution/proposal.go) *)
Definition genWatchedTx p : WatchedTxInfo :=
  {| wt_Txid := "DistributionTx" +:+ pr_ID p;
     wt_Amount := foldl (λ a o, a +i64 o_Amount o) 0 (pr_Data p);
     wt_RechargeList := (λ o, {| ai_Address := o_Address o; ai_Amount := o_Amount o |}) <$> pr_Data p;
     wt_From := pr_Chain p; wt_To := pr_Chain p; wt_Fee := 0; wt_TokenFrom := 0; wt_TokenTo := 0 |}.
Definition getStatus (proposalID : string) d : Z :=
  match getDistributionProposal proposalID d with None => proposalStatus | Some info => di_Status info end.
Definition setStatus (proposalID : string) (status : Z) : go Pool unit :=
  pool ← gets id;
  match getDistributionProposal proposalID (p_db pool) with
  | None => mret tt
  | Some info => updates_db (setDistributionProposal (set_di_Status status info))
  end.
Definition AddProposal (now : Z) p : go Pool bool :=
  pool ← gets id;
  match getDistributionProposal (pr_ID p) (p_db pool) with
  | Some _ => mret false
  | None =>
      _ ← updates_db (setDistributionProposal (MkDist (Some p) now proposalNew));
      _ ← AddWatchedTx (genWatchedTx p);
      mret true
  end.
Definition DeleteProposal (proposalID : string) : go Pool bool :=
  pool ← gets id;
  match getDistributionProposal proposalID (p_db pool) with
  | None => mret true
  | Some info =>
      if (di_Status info =? proposalFailed) || (di_Status info =? proposalNew) then
        _ ← updates_db (λ d, mret (delDistributionProposal proposalID d)); mret true
      else mret false
  end.
Definition GetProposal (proposalID : string) d : option DistributionInfo := getDistributionProposal proposalID d.
Definition ListProposal d : list DistributionInfo := getAllDistributionProposal d.
Definition ExecuteProposal (proposalID : string) : go Pool unit :=
  pool ← gets id;
  let currStatus := getStatus proposalID (p_db pool) in
  if negb (currStatus =? proposalFailed) && negb (currStatus =? proposalNew) then mret tt
  else
    _ ← WatchedTxToFresh ("DistributionTx" +:+ proposalID);
    setStatus proposalID proposalDealing.
Definition SetFailed (proposalID : string) : go Pool unit := setStatus proposalID proposalFailed.
Definition SetSuccess (proposalID : string) : go Pool unit := setStatus proposalID proposalSuccess.
Definition SetDealing (proposalID : string) : go Pool unit := setStatus proposalID proposalDealing.
(** One proposal that the start of the process finds in the store. *)
Definition load_one di : go Pool unit :=
  when (negb (di_Status di =? proposalSuccess))
    (p ← lift (deref (di_Proposal di));
     _ ← AddWatchedTx (genWatchedTx p);
     when (di_Status di =? proposalDealing) (setStatus (pr_ID p) proposalFailed)).
Definition LoadFromDB : go Pool unit :=
  pool ← gets id; for_each (getAllDistributionProposal (p_db pool)) load_one.
End Distribution.

(** ** The abstract table of proposals

    What the manager promises: a table from ids to proposals. *)
Definition startable (di : DistributionInfo) : bool :=
  (di_Status di =? proposalFailed) || (di_Status di =? proposalNew).
Inductive DistOp : Type :=
  | DAdd (now : Z) (p : Proposal)
  | DDelete (proposalID : string)
  | DExecute (proposalID : string)
  | DSetStatus (proposalID : string) (status : Z)
  | DRestart.
(** The table after an operation, and its answer. *)
Definition table_step (op : DistOp) (M : gmap string DistributionInfo) : bool * gmap string DistributionInfo :=
  match op with
  | DAdd now p =>
      match M !! pr_ID p with
      | Some _ => (false, M)
      | None => (true, <[pr_ID p := MkDist (Some p) now proposalNew]> M)
      end
  | DDelete i =>
      match M !! i with
      | None => (true, M)
      | Some di => if startable di then (true, delete i M) else (false, M)
      end
  | DExecute i => (true, alter (λ di, if startable di then set_di_Status proposalDealing di else di) i M)
  | DSetStatus i s => (true, alter (set_di_Status s) i M)
  | DRestart => (true, (λ di, if di_Status di =? proposalDealing then set_di_Status proposalFailed di else di) <$> M)
  end.
Fixpoint table_run (ops : list DistOp) (M : gmap string DistributionInfo) : list bool * gmap string DistributionInfo :=
  match ops with
  | [] => ([], M)
  | op :: l => let '(r, M) := table_step op M in let '(rs, M) := table_run l M in (r :: rs, M)
  end.
Definition op_ok (op : DistOp) : Prop :=
  match op with
  | DAdd now p => 0 ≤ now < 2^63 ∧ proposal_ok p
  | DSetStatus _ s => i64 s
  | _ => True
  end.

Section Refinement.
Context `{KV} `{Wire} `{DistJson}.
Implicit Types (d : db) (p : Proposal) (di : DistributionInfo) (M : gmap string DistributionInfo) (s : Pool).

(** The same operations on the store and the pool. *)
Definition dist_do (op : DistOp) : go Pool bool :=
  match op with
  | DAdd now p => AddProposal now p
  | DDelete i => DeleteProposal i
  | DExecute i => _ ← ExecuteProposal i; mret true
  | DSetStatus i s => _ ← setStatus i s; mret true
  | DRestart => _ ← LoadFromDB; mret true
  end.
Fixpoint dist_run (ops : list DistOp) : go Pool (list bool) :=
  match ops with
  | [] => mret []
  | op :: l => r ← dist_do op; rs ← dist_run l; mret (r :: rs)
  end.

(** An entry is filed under the id of its proposal. *)
Definition entry_ok (i : string) di : Prop := dj_ok di ∧ pr_ID <$> di_Proposal di = Some i.
Record tracks d M : Prop := {
  tr_get : ∀ i, match Get d (proposal_key i) with
                | None => M !! i = None
                | Some b => ∃ di, dj_Unmarshal b = Some di ∧ M !! i = Some di
                end;
  tr_ok : ∀ i di, M !! i = Some di → entry_ok i di
}.

Lemma tracks_get d M i : tracks d M → getDistributionProposal i d = M !! i.
Proof.
  intros [Hg _]. unfold getDistributionProposal. specialize (Hg i).
  destruct (Get d (proposal_key i)) as [b|]; cbn; [|done]. by destruct Hg as (di & -> & ->).
Qed.
Lemma tracks_status d M i : tracks d M →
  getStatus i d = match M !! i with None => proposalStatus | Some di => di_Status di end.
Proof. intros Ht. unfold getStatus. by rewrite (tracks_get d M). Qed.
Lemma proposal_key_inj i j : proposal_key i = proposal_key j → i = j.
Proof. unfold proposal_key. by intros ?%String.app_inj. Qed.
Lemma tracks_set d M i di : tracks d M → entry_ok i di →
  ∃ d', setDistributionProposal di d = Val d' ∧ tracks d' (<[i := di]> M).
Proof.
  intros [Hg Ho] [Hok Hid]. unfold setDistributionProposal.
  destruct (di_Proposal di) as [p|] eqn:Ep; [|done]. injection Hid as <-.
  destruct (dj_roundtrip di Hok) as (b & Hm & Hu). rewrite Hm. cbn. eexists. split; [done|].
  split.
  - intros j. destruct (decide (pr_ID p = j)) as [<-|Hne].
    + rewrite Get_Put lookup_insert_eq. by exists di.
    + rewrite Get_Put_ne; [rewrite lookup_insert_ne; [apply Hg|done]|]. by intros ?%proposal_key_inj.
  - intros j dj. destruct (decide (pr_ID p = j)) as [<-|Hne].
    + rewrite lookup_insert_eq. intros [= <-]. split; [done|]. by rewrite Ep.
    + rewrite lookup_insert_ne; [|done]. apply Ho.
Qed.
Lemma tracks_delete d M i : tracks d M → tracks (delDistributionProposal i d) (delete i M).
Proof.
  intros [Hg Ho]. split.
  - intros j. unfold delDistributionProposal. destruct (decide (i = j)) as [<-|Hne].
    + by rewrite Get_Delete lookup_delete_eq.
    + rewrite Get_Delete_ne; [rewrite lookup_delete_ne; [apply Hg|done]|]. by intros ?%proposal_key_inj.
  - intros j dj [_ Hl]%lookup_delete_Some. by apply Ho.
Qed.
Lemma entry_ok_status i di x : i64 x → entry_ok i di → entry_ok i (set_di_Status x di).
Proof. intros Hx [(Hp & Ht & _) Hi]. split; [by split|done]. Qed.

(** A state that differs in the store of the proposals and the inbox of the pool. *)
Definition sends s d' (reqs : list Request) : Pool :=
  MkPool d' (set_inbox (p_ts s) (inbox (p_ts s) ++ reqs)).
Lemma run_setStatus i x s M : tracks (p_db s) M → i64 x →
  ∃ d', setStatus i x s = Ret tt (set_p_db d' s) ∧ tracks d' (alter (set_di_Status x) i M).
Proof.
  intros Ht Hx. unfold setStatus. rewrite bind_gets_id (tracks_get _ M); [|done].
  destruct (M !! i) as [di|] eqn:Hi.
  - destruct (tracks_set (p_db s) M i (set_di_Status x di)) as (d' & Hd & Ht'); [done| |].
    { apply entry_ok_status; [done|]. by apply (tr_ok _ _ Ht). }
    exists d'. unfold updates_db, zoom, updates. rewrite Hd. split; [done|].
    assert (alter (set_di_Status x) i M = <[i := set_di_Status x di]> M) as ->; [|done].
    apply map_eq. intros j. rewrite lookup_alter lookup_insert. case_decide; subst; by rewrite ?Hi.
  - exists (p_db s). split; [by destruct s|].
    assert (alter (set_di_Status x) i M = M) as ->; [|done].
    apply map_eq. intros j. rewrite lookup_alter. case_decide; subst; by rewrite ?Hi.
Qed.

(** *** The start of the process *)
Definition loaded (di : DistributionInfo) : DistributionInfo :=
  if di_Status di =? proposalDealing then set_di_Status proposalFailed di else di.
Definition unfinished (di : DistributionInfo) : bool := negb (di_Status di =? proposalSuccess).
Definition watch_request (di : DistributionInfo) : list Request :=
  if unfinished di then option_list ((λ p, addWatchedTxReq (genWatchedTx p)) <$> di_Proposal di) else [].

Lemma entry_ok_id i j di : entry_ok i di → entry_ok j di → i = j.
Proof. intros [_ Hi] [_ Hj]. rewrite Hi in Hj. by injection Hj. Qed.
Lemma NoDup_omap {A B} (f : A → option B) l :
  (∀ x y z, x ∈ l → y ∈ l → f x = Some z → f y = Some z → x = y) → NoDup l → NoDup (omap f l).
Proof.
  intros Hf. induction 1 as [|x l Hx Hl IH]; [constructor|]. cbn. destruct (f x) as [z|] eqn:E.
  - constructor; [|apply IH; set_solver]. intros (y & Hy & Ez)%list_elem_of_omap.
    assert (x = y) as -> by (apply (Hf x y z); set_solver). done.
  - apply IH. set_solver.
Qed.
Lemma elem_of_getAll d M di : tracks d M → di ∈ getAllDistributionProposal d ↔ ∃ i, M !! i = Some di.
Proof.
  intros [Hg Ho]. unfold getAllDistributionProposal. rewrite list_elem_of_omap. split.
  - intros ([k b] & (Hb & i & ->)%elem_of_prefix & Hu). exists i. specialize (Hg i).
    change (proposal_key i) with (keyDistributionProposalPrefix +:+ i) in Hg. rewrite Hb in Hg.
    destruct Hg as (di' & Hu' & Hm). cbn in Hu. congruence.
  - intros [i Hi]. specialize (Hg i). destruct (Get d (proposal_key i)) as [b|] eqn:Eb; [|congruence].
    destruct Hg as (di' & Hu & Hm). exists (proposal_key i, b). split; [|cbn; congruence].
    apply elem_of_prefix. split; [done|by exists i].
Qed.
Lemma getAll_NoDup d M : tracks d M → NoDup (getAllDistributionProposal d).
Proof.
  intros [Hg Ho]. apply NoDup_omap; [|apply entries_NoDup, iterator_sorted].
  intros [k b] [k' b'] di (Hb & i & ->)%elem_of_prefix (Hb' & i' & ->)%elem_of_prefix Hu Hu'.
  assert (∀ j v, Get d (keyDistributionProposalPrefix +:+ j) = Some v → dj_Unmarshal v = Some di → entry_ok j di) as He.
  { intros j v Hv Hd. specialize (Hg j). change (proposal_key j) with (keyDistributionProposalPrefix +:+ j) in Hg.
    rewrite Hv in Hg. destruct Hg as (dj & Hdj & Hm). apply Ho. congruence. }
  assert (i = i') as <- by (eapply entry_ok_id; eauto). congruence.
Qed.
(** The store lists its table. *)
Lemma ListProposal_table d M : tracks d M → ListProposal d ≡ₚ (map_to_list M).*2.
Proof.
  intros Ht. apply NoDup_Permutation; [by eapply getAll_NoDup| |].
  - apply NoDup_fmap_2_strong; [|apply NoDup_map_to_list].
    intros [i x] [j y] Hx%elem_of_map_to_list Hy%elem_of_map_to_list E. cbn in *. subst y.
    f_equal. eapply entry_ok_id; by eapply (tr_ok _ _ Ht).
  - intros di. rewrite (elem_of_getAll d M di Ht) list_elem_of_fmap. split.
    + intros [i Hi]. exists (i, di). by rewrite elem_of_map_to_list.
    + intros ([i di'] & -> & Hi%elem_of_map_to_list). by exists i.
Qed.

Lemma run_load_one di i s M : tracks (p_db s) M → M !! i = Some di →
  ∃ d', load_one di s = Ret tt (sends s d' (watch_request di)) ∧ tracks d' (alter loaded i M).
Proof.
  intros Ht Hi. pose proof (tr_ok _ _ Ht _ _ Hi) as [_ Hid].
  destruct (di_Proposal di) as [p|] eqn:Ep; [|done]. injection Hid as Hid.
  assert (di_Status di ≠ proposalDealing → alter loaded i M = M) as Hsame.
  { intros Hne. apply map_eq. intros j. rewrite lookup_alter. case_decide; subst; [|done].
    rewrite Hi. cbn. unfold loaded. by rewrite (proj2 (Z.eqb_neq _ _) Hne). }
  unfold load_one, watch_request, unfinished. rewrite Ep.
  destruct (di_Status di =? proposalSuccess) eqn:E; cbn [negb when].
  { apply Z.eqb_eq in E. exists (p_db s). rewrite Hsame; [|by rewrite E].
    split; [|done]. destruct s as [d []]. unfold sends. cbn. by rewrite app_nil_r. }
  rewrite (bind_lift _ _ _ p); [|done]. unfold AddWatchedTx, modify_ts. rewrite bind_modify. cbn [option_list fmap option_fmap option_map].
  destruct (di_Status di =? proposalDealing) eqn:Ed; cbn [when].
  - apply Z.eqb_eq in Ed. set (s1 := set_p_ts _ s). rewrite Hid.
    destruct (run_setStatus i proposalFailed s1 M) as (d' & Hrun & Ht'); [done|by split|].
    exists d'. split; [done|].
    assert (alter loaded i M = alter (set_di_Status proposalFailed) i M) as ->; [|done].
    apply map_eq. intros j. rewrite !lookup_alter. case_decide; subst; [|done].
    rewrite Hi. cbn. unfold loaded. by rewrite Ed.
  - apply Z.eqb_neq in Ed. exists (p_db s). by rewrite Hsame.
Qed.
Lemma sends_sends s d1 r1 d2 r2 : sends (sends s d1 r1) d2 r2 = sends s d2 (r1 ++ r2).
Proof. unfold sends, set_inbox. cbn. by rewrite app_assoc. Qed.
Lemma loaded_loaded di : loaded (loaded di) = loaded di.
Proof. unfold loaded. by destruct (di_Status di =? proposalDealing) eqn:E; cbn; rewrite ?E. Qed.
Lemma run_load L : ∀ s M, tracks (p_db s) M → NoDup L → (∀ di, di ∈ L → ∃ i, M !! i = Some di) →
  ∃ d', for_each L load_one s = Ret tt (sends s d' (L ≫= watch_request)) ∧
    tracks d' ((λ di, if decide (di ∈ L) then loaded di else di) <$> M).
Proof.
  induction L as [|di L IH]; intros s M Ht Hnd HL.
  { exists (p_db s). split.
    - destruct s as [d []]. unfold sends. cbn. by rewrite app_nil_r.
    - enough (Heq : (λ di : DistributionInfo, if decide (di ∈ []) then loaded di else di) <$> M = M) by (rewrite Heq; exact Ht).
      apply map_eq. intros j. rewrite lookup_fmap. by destruct (M !! j). }
  apply NoDup_cons in Hnd as [Hni Hnd]. destruct (HL di) as [i Hi]; [set_solver|].
  destruct (run_load_one di i s M Ht Hi) as (d1 & Hrun & Ht1).
  destruct (IH (sends s d1 (watch_request di)) (alter loaded i M)) as (d2 & Hrun2 & Ht2); [done|done| |].
  { intros dj Hj. destruct (HL dj) as [j Hj']; [set_solver|]. exists j.
    rewrite lookup_alter_ne; [done|]. intros ->. rewrite Hi in Hj'. by injection Hj' as <-. }
  exists d2. split.
  - cbn [for_each mbind list_bind]. unfold mbind, go_bind. rewrite Hrun Hrun2. by rewrite sends_sends.
  - enough (Heq : (λ dx, if decide (dx ∈ di :: L) then loaded dx else dx) <$> M =
            (λ dx, if decide (dx ∈ L) then loaded dx else dx) <$> alter loaded i M) by (by rewrite Heq).
    apply map_eq. intros j. rewrite !lookup_fmap lookup_alter. case_decide as Ej; [subst j|].
    + rewrite Hi. cbn. rewrite decide_True; [|set_solver]. by case_decide; rewrite ?loaded_loaded.
    + destruct (M !! j) as [dj|] eqn:Hj; [|done]. cbn. f_equal.
      assert (dj ≠ di) as Hne.
      { intros ->. apply Ej. eapply entry_ok_id; by eapply (tr_ok _ _ Ht). }
      destruct (decide (dj ∈ L)); [rewrite decide_True|rewrite decide_False]; set_solver.
Qed.

Lemma run_WatchedTxToFresh i s :
  WatchedTxToFresh i s = Ret tt (sends s (p_db s) (option_list (addFreshReq <$> watchedTxInfo (p_ts s) !! i))).
Proof.
  unfold WatchedTxToFresh. rewrite bind_gets_id. destruct (watchedTxInfo (p_ts s) !! i); [done|].
  destruct s as [d []]. unfold sends. cbn. by rewrite app_nil_r.
Qed.

(** What an operation asks of the pool. *)
Definition requests (op : DistOp) (watched : gmap string WatchedTxInfo) M (reqs : list Request) : Prop :=
  match op with
  | DAdd _ p => reqs = if decide (M !! pr_ID p = None) then [addWatchedTxReq (genWatchedTx p)] else []
  | DExecute i =>
      reqs = match M !! i with
             | Some di => if startable di then option_list (addFreshReq <$> watched !! ("DistributionTx" +:+ i)) else []
             | None => []
             end
  | DRestart => reqs ≡ₚ (map_to_list M).*2 ≫= watch_request
  | _ => reqs = []
  end.

Lemma sends_nothing s : s = sends s (p_db s) [].
Proof. destruct s as [d []]. unfold sends. cbn. by rewrite app_nil_r. Qed.
Lemma add_simulates now p s M : tracks (p_db s) M → 0 ≤ now < 2^63 → proposal_ok p →
  ∃ d' reqs, AddProposal now p s = Ret (table_step (DAdd now p) M).1 (sends s d' reqs) ∧
    tracks d' (table_step (DAdd now p) M).2 ∧ requests (DAdd now p) (watchedTxInfo (p_ts s)) M reqs.
Proof.
  intros Ht Hnow Hp. unfold AddProposal. rewrite bind_gets_id (tracks_get _ M); [|done].
  cbn [table_step requests]. destruct (M !! pr_ID p) as [di|] eqn:Hi.
  - exists (p_db s), []. split_and!; [by rewrite -sends_nothing|done|done].
  - destruct (tracks_set (p_db s) M (pr_ID p) (MkDist (Some p) now proposalNew)) as (d' & Hd & Ht'); [done| |].
    { split; [|done]. split_and!; cbn; [by intros ? [= <-]|lia..|done]. }
    exists d', [addWatchedTxReq (genWatchedTx p)]. split; [|split; [exact Ht'|done]].
    unfold mbind, go_bind, updates_db, zoom, updates. by rewrite Hd.
Qed.
Lemma delete_simulates i s M : tracks (p_db s) M →
  ∃ d', DeleteProposal i s = Ret (table_step (DDelete i) M).1 (sends s d' []) ∧
    tracks d' (table_step (DDelete i) M).2.
Proof.
  intros Ht. unfold DeleteProposal. rewrite bind_gets_id (tracks_get _ M); [|done]. cbn [table_step].
  destruct (M !! i) as [di|] eqn:Hi; [|exists (p_db s); split; [by rewrite -sends_nothing|done]].
  fold (startable di). destruct (startable di); [|exists (p_db s); split; [by rewrite -sends_nothing|done]].
  exists (delDistributionProposal i (p_db s)). split; [|by apply tracks_delete].
  destruct s as [d []]. unfold sends. cbn. by rewrite app_nil_r.
Qed.
Lemma execute_simulates i s M : tracks (p_db s) M →
  ∃ d' reqs, ExecuteProposal i s = Ret tt (sends s d' reqs) ∧
    tracks d' (table_step (DExecute i) M).2 ∧ requests (DExecute i) (watchedTxInfo (p_ts s)) M reqs.
Proof.
  intros Ht. unfold ExecuteProposal. rewrite bind_gets_id (tracks_status _ M); [|done].
  cbn [table_step requests snd].
  assert (∀ f, (∀ di, M !! i = Some di → f di = di) → alter f i M = M) as Hsame.
  { intros f Hf. apply map_eq. intros j. rewrite lookup_alter. case_decide; subst; [|done].
    destruct (M !! j); cbn; [by rewrite Hf|done]. }
  destruct (M !! i) as [di|] eqn:Hi.
  - rewrite -negb_orb. fold (startable di). destruct (startable di) eqn:Es; cbn [negb].
    + rewrite /mbind /go_bind run_WatchedTxToFresh.
      destruct (run_setStatus i proposalDealing
        (sends s (p_db s) (option_list (addFreshReq <$> watchedTxInfo (p_ts s) !! ("DistributionTx" +:+ i)))) M)
        as (d' & Hrun & Ht'); [done|done|].
      exists d', (option_list (addFreshReq <$> watchedTxInfo (p_ts s) !! ("DistributionTx" +:+ i))).
      split_and!; [done| |done].
      assert (alter (λ dx, if startable dx then set_di_Status proposalDealing dx else dx) i M =
              alter (set_di_Status proposalDealing) i M) as ->; [|done].
      apply map_eq. intros j. rewrite !lookup_alter. case_decide; subst; [|done]. rewrite Hi. cbn. by rewrite Es.
    + exists (p_db s), []. split_and!; [by rewrite -sends_nothing| |done].
      rewrite Hsame; [done|]. intros dx [= <-]. by rewrite Es.
  - exists (p_db s), []. split_and!; [by rewrite -sends_nothing| |done]. by rewrite Hsame.
Qed.
Lemma dist_do_simulates op s M : tracks (p_db s) M → op_ok op →
  ∃ d' reqs, dist_do op s = Ret (table_step op M).1 (sends s d' reqs) ∧ tracks d' (table_step op M).2 ∧
    requests op (watchedTxInfo (p_ts s)) M reqs.
Proof.
  intros Ht Hok. destruct op as [now p|i|i|i x|]; cbn [dist_do].
  - destruct Hok. by apply add_simulates.
  - destruct (delete_simulates i s M Ht) as (d' & Hr & Ht'). by exists d', [].
  - destruct (execute_simulates i s M Ht) as (d' & reqs & Hr & Ht' & Hq). exists d', reqs.
    split_and!; [|done|done]. by rewrite /mbind /go_bind Hr.
  - destruct (run_setStatus i x s M Ht Hok) as (d' & Hr & Ht'). exists d', []. split_and!; [|done|done].
    rewrite /mbind /go_bind Hr. destruct s as [d []]. unfold sends. cbn. by rewrite app_nil_r.
  - destruct (run_load (getAllDistributionProposal (p_db s)) s M Ht) as (d' & Hr & Ht').
    { by eapply getAll_NoDup. }
    { intros di. by apply elem_of_getAll. }
    exists d', (getAllDistributionProposal (p_db s) ≫= watch_request). split_and!.
    + unfold LoadFromDB. by rewrite /mbind /go_bind /gets /= Hr.
    + enough (Heq : (λ di, if decide (di ∈ getAllDistributionProposal (p_db s)) then loaded di else di) <$> M =
               loaded <$> M) by (by rewrite Heq in Ht').
      apply map_fmap_ext. intros i di Hi. rewrite decide_True; [done|]. apply (elem_of_getAll _ M); eauto.
    + cbn [requests]. rewrite -(ListProposal_table _ M Ht). done.
Qed.

(** C16. Over any operations the manager behaves as its abstract table: the same
    answers, and a store that holds the table. A new id is filed as new; only a new
    or failed proposal can be deleted or executed; at a restart the proposals being
    executed become failed; an id that is taken is refused. *)
Theorem proposals_refine_table ops : ∀ s M, tracks (p_db s) M → Forall op_ok ops →
  ∃ s', dist_run ops s = Ret (table_run ops M).1 s' ∧ tracks (p_db s') (table_run ops M).2 ∧
    ∃ reqs, inbox (p_ts s') = inbox (p_ts s) ++ reqs.
Proof.
  induction ops as [|op ops IH]; intros s M Ht Hok.
  { exists s. split_and!; [done|done|]. exists []. by rewrite app_nil_r. }
  inversion_clear Hok as [|? ? Ho Hos].
  destruct (dist_do_simulates op s M Ht Ho) as (d1 & reqs & Hr & Ht1 & _).
  cbn [table_run dist_run]. destruct (table_step op M) as [r M1]. cbn [fst snd] in *.
  destruct (IH (sends s d1 reqs) M1 Ht1 Hos) as (s' & Hr' & Ht' & reqs' & Hq).
  destruct (table_run ops M1) as [rs M2]. exists s'. split_and!; [|done|].
  - by rewrite /mbind /go_bind Hr Hr'.
  - exists (reqs ++ reqs'). rewrite Hq. cbn. by rewrite app_assoc.
Qed.

(** ** A proposal that is deleted and filed again *)
Definition refile (now : Z) p p' : go Pool unit :=
  _ ← AddProposal now p; _ ← run_step now;
  _ ← DeleteProposal (pr_ID p);
  _ ← AddProposal now p'; _ ← run_step now;
  _ ← ExecuteProposal (pr_ID p); run_step now.

Lemma genWatchedTx_distribution p : IsDistributionTx (genWatchedTx p) = true.
Proof.
  unfold IsDistributionTx. rewrite bool_decide_eq_true_2; [|done]. cbn [wt_Txid genWatchedTx andb].
  apply prefix_true. by exists (pr_ID p).
Qed.
Definition add_watch p ts : TxStore :=
  match watchedTxInfo ts !! wt_Txid (genWatchedTx p) with
  | Some _ => ts
  | None => set_watchedTxInfo ts (<[wt_Txid (genWatchedTx p) := genWatchedTx p]> (watchedTxInfo ts))
  end.
Lemma add_watch_inbox p ts : inbox (add_watch p ts) = inbox ts.
Proof. unfold add_watch. by destruct (watchedTxInfo ts !! _). Qed.
(** The payment that was watched first stays. *)
Lemma add_watch_lookup p ts :
  watchedTxInfo (add_watch p ts) !! ("DistributionTx" +:+ pr_ID p) =
    Some (default (genWatchedTx p) (watchedTxInfo ts !! ("DistributionTx" +:+ pr_ID p))).
Proof.
  unfold add_watch. cbn [wt_Txid genWatchedTx]. destruct (watchedTxInfo ts !! _) eqn:E; [exact E|].
  apply lookup_insert_eq.
Qed.
Lemma run_step_watch now p s d : inbox (p_ts s) = [] →
  run_step now (sends s d [addWatchedTxReq (genWatchedTx p)]) = Ret tt (MkPool d (add_watch p (p_ts s))).
Proof.
  intros Hq. unfold run_step, sends. rewrite bind_gets_id. cbn [p_ts inbox set_inbox]. rewrite Hq. cbn [app].
  unfold modify_ts. rewrite bind_modify. cbn [handle_request]. unfold modify_ts, modify.
  f_equal. unfold set_p_ts, add_watched, add_watch. cbn [p_ts p_db watchedTxInfo set_inbox].
  rewrite genWatchedTx_distribution. destruct s as [d0 [a b c e q]]. cbn in Hq |- *. subst q. by destruct (b !! _).
Qed.

(** Deleting a proposal does not take its payment out of the pool: when another
    proposal is filed under the same id and executed, the store shows the new
    payments and the pool hands the old ones to the leader. *)
Theorem refiled_proposal_pays_old now p p' s M :
  tracks (p_db s) M → M !! pr_ID p = None → inbox (p_ts s) = [] →
  watchedTxInfo (p_ts s) !! ("DistributionTx" +:+ pr_ID p) = None →
  0 ≤ now < 2^63 → proposal_ok p → proposal_ok p' → pr_ID p' = pr_ID p →
  ∃ s', refile now p p' s = Ret tt s' ∧
    getDistributionProposal (pr_ID p) (p_db s') = Some (MkDist (Some p') now proposalDealing) ∧
    freshWatchedTxInfo (p_ts s') !! ("DistributionTx" +:+ pr_ID p) = Some (new_timed now (genWatchedTx p)).
Proof.
  intros Ht Hi Hq Hw Hnow Hp Hp' Hid. unfold refile.
  destruct (add_simulates now p s M Ht Hnow Hp) as (d1 & reqs & Hr & Ht1 & Hreq).
  cbn [table_step requests fst snd] in *. rewrite Hi in Hr, Ht1. rewrite decide_True in Hreq; [|done]. subst reqs.
  rewrite (bind_Ret _ _ _ _ _ Hr) (bind_Ret _ _ _ _ _ (run_step_watch now p s d1 Hq)).
  set (ts1 := add_watch p (p_ts s)). set (M1 := <[pr_ID p := _]> M) in *.
  assert (inbox ts1 = []) as Hq1 by (unfold ts1; by rewrite add_watch_inbox).
  assert (watchedTxInfo ts1 !! ("DistributionTx" +:+ pr_ID p) = Some (genWatchedTx p)) as Hw1.
  { unfold ts1. by rewrite add_watch_lookup Hw. }
  clearbody ts1.
  destruct (delete_simulates (pr_ID p) (MkPool d1 ts1) M1 Ht1) as (d2 & Hr2 & Ht2).
  cbn [table_step] in Hr2, Ht2. unfold M1 in Hr2, Ht2. rewrite lookup_insert_eq in Hr2, Ht2.
  cbn [startable di_Status] in Hr2, Ht2. change (startable _) with true in Hr2, Ht2. cbn [fst snd] in Hr2, Ht2.
  rewrite (bind_Ret _ _ _ _ _ Hr2). set (M2 := delete (pr_ID p) _) in Ht2.
  destruct (add_simulates now p' (sends (MkPool d1 ts1) d2 []) M2 Ht2 Hnow Hp') as (d3 & reqs & Hr3 & Ht3 & Hreq).
  assert (M2 !! pr_ID p' = None) as HM2 by (rewrite Hid; apply lookup_delete_eq).
  cbn [table_step requests fst snd] in *. rewrite HM2 in Hr3, Ht3. rewrite decide_True in Hreq; [|done]. subst reqs.
  rewrite (bind_Ret _ _ _ _ _ Hr3). rewrite (bind_Ret _ _ _ _ _ (run_step_watch now p' (sends (MkPool d1 ts1) d2 []) d3 _)).
  2:{ cbn. by rewrite Hq1. }
  set (ts3 := add_watch p' _).
  assert (inbox ts3 = []) as Hq3 by (unfold ts3; rewrite add_watch_inbox; cbn; by rewrite Hq1).
  assert (watchedTxInfo ts3 !! ("DistributionTx" +:+ pr_ID p) = Some (genWatchedTx p)) as Hw3.
  { unfold ts3. rewrite -Hid add_watch_lookup Hid. cbn [p_ts sends set_inbox watchedTxInfo]. by rewrite Hw1. }
  clearbody ts3. set (M3 := <[pr_ID p' := _]> M2) in Ht3.
  destruct (execute_simulates (pr_ID p) (MkPool d3 ts3) M3 Ht3) as (d4 & reqs & Hr4 & Ht4 & Hreq).
  cbn [table_step requests fst snd] in *. unfold M3 in Ht4, Hreq. rewrite Hid lookup_insert_eq in Hreq.
  change (startable _) with true in Hreq. cbn [p_ts] in Hreq. rewrite Hw3 in Hreq. subst reqs.
  rewrite (bind_Ret _ _ _ _ _ Hr4). eexists. split.
  { unfold run_step, sends. rewrite bind_gets_id. cbn [p_ts inbox set_inbox]. rewrite Hq3. reflexivity. }
  split.
  - cbn [p_db set_p_ts set_inbox handle_request]. rewrite (tracks_get _ _ _ Ht4) lookup_alter_eq Hid lookup_insert_eq. done.
  - apply lookup_insert_eq.
Qed.
End Refinement.
