(* ===== verification/SignTx.v ===== *)
(** * Signing requests (src/primitives/blockstore.go)

    The leader builds a transaction of a connected chain for a watched one and asks
    every node to sign it. [handleSignTx] checks the request against what the node has
    watched itself and answers with a signature share or a refusal. The answers of
    the chain libraries are those of the instance of [Chains]; [now] is the clock in
    seconds. *)
From S2P Require Import Prelude.
From S2P Require Import GoLib.
From S2P Require Import Crypto.
From S2P Require Import Messages.
From S2P Require Import ProtoOps.
From S2P Require Import Cluster.
From S2P Require Import Store.
From S2P Require Import DbOps.
From S2P Require Import TxPool.
From S2P Require Import Consensus.
From S2P Require Import ChainTx.
From Stdlib Require Import SpecFloat.

Definition coinPriceExpire : Z := 120.
Inductive SignCheck : Type := validatePass | wrongInputOutput | alreadySigned.
#[export] Instance SignCheck_eq_dec : EqDecision SignCheck.
Proof. solve_decision. Defined.

Section SignTx.
Context `{KV} `{Wire} `{Watchers} `{Signatures} `{Chains}.
(** The id, key and fee rates of the node, and the time. *)
Variables (self : Z) (signer : SecureSigner) (mintFeeRate burnFeeRate now : Z).

(** ** The watched transaction *)
Definition chain_watched (tx : WatchedTxInfo) : pan (option (option WatchedTxInfo)) :=
  if bool_decide (wt_From tx = "bch") || bool_decide (wt_From tx = "btc") then
    match GetTxByHash (wt_From tx) (wt_Txid tx) with
    | None => mret None
    | Some chainTx => sub ← deref (cx_SubTx chainTx); mret (Some (BtcToPbTx sub))
    end
  else if bool_decide (wt_From tx = "eth") then
    match GetEventByHash (wt_Txid tx) with
    | None => mret None
    | Some chainTx =>
        chainTx ← deref chainTx;
        if ec_Failed chainTx then mret None
        else match ec_Burn chainTx with
             | Some burn => mret (Some (EthToPbTx DecodeAddress burn))
             | None => Fault TypeAssertion
             end
    end
  else if bool_decide (wt_From tx = "xin") then mret (XINToPbTx <$> GetEventByTxid "xin" (wt_Txid tx))
  else if bool_decide (wt_From tx = "eos") then mret (EOSToPbTx <$> GetEventByTxid "eos" (wt_Txid tx))
  else mret None.
(** A conversion that fails gives nil, which the pool and [EqualTo] dereference. *)
Definition validateWatchedTx (tx : WatchedTxInfo) : go World bool :=
  w ← gets id;
  match ValidateWatchedTx tx (p_ts (w_pool w)) with
  | Valid => mret true
  | NotExist =>
      found ← lift (chain_watched tx);
      match found with
      | None => mret false
      | Some newTx =>
          newTx ← lift (deref newTx);
          _ ← run_pool (AddWatchedTx newTx);
          mret (WatchedTxInfo_EqualTo newTx tx)
      end
  | _ => mret false
  end.
Definition baseCheck (wt : WatchedTxInfo) : go World SignCheck :=
  valid ← validateWatchedTx wt;
  if negb valid then mret wrongInputOutput
  else
    w ← gets id;
    if HasTxInMemPool (wt_Txid wt) (p_ts (w_pool w)) || HasTxInDB (wt_Txid wt) (w_db w) then mret alreadySigned
    else
      signMsg ← ask (GetSignMsg (wt_Txid wt));
      mret (match signMsg with Some _ => alreadySigned | None => validatePass end).

(** ** Bitcoin and Bitcoin Cash *)
Definition utxo_id (i : string * Z) : string := i.1 +:+ "_" +:+ FormatInt i.2.
Definition validateTransferSignTx (c : Cluster) (msg : SignTxRequest) (wt : WatchedTxInfo) (newlyTx : MsgTx)
    : SignCheck :=
  match TxOut newlyTx with
  | [out] =>
      if bool_decide (sr_MultisigAddress msg = "") then wrongInputOutput
      else
        let chain := if bool_decide (wt_To wt = "btc") then "btc" else "bch" in
        if forallb (λ i, match GetUtxoInfoByID chain (utxo_id i) with
                         | Some u => bool_decide (ut_Address u = sr_MultisigAddress msg)
                         | None => false
                         end) (TxIn newlyTx)
        then
          let own := if bool_decide (wt_To wt = "btc") then BtcAddress (CurrMultiSig c) else BchAddress (CurrMultiSig c) in
          if bool_decide (ExtractPkScriptAddr out.1 (wt_To wt) = own) then validatePass else wrongInputOutput
        else wrongInputOutput
  | _ => wrongInputOutput
  end.
(** The amount that an output must have; [price] is fetched for the dollar token. *)
Definition output_amount (wt : WatchedTxInfo) (price : spec_float) (amount : Z) : Z :=
  if bool_decide (wt_From wt = "xin") then coins_for amount price
  else if IsDistributionTx wt then amount
  else after_fee amount burnFeeRate.
(** The outputs are compared one by one with the payments; outputs after the last
    payment are not looked at. *)
Fixpoint check_outputs (wt : WatchedTxInfo) (price : spec_float) (l : list AddressInfo) (outs : list (bytes * Z))
    : pan bool :=
  match l with
  | [] => mret true
  | recharge :: l =>
      match outs with
      | [] => Fault IndexOutOfRange
      | out :: outs =>
          if bool_decide (ExtractPkScriptAddr out.1 (wt_To wt) = ai_Address recharge)
             && (out.2 =? output_amount wt price (ai_Amount recharge))
          then check_outputs wt price l outs else mret false
      end
  end.
Definition good_price (p : option PriceInfo) : option spec_float :=
  p ← p; if bool_decide (pi_Err p = "") then Some (pi_Price p) else None.
Definition coin_symbol (chain : string) : option string :=
  if bool_decide (chain = "bch") then Some "BCH-USD"
  else if bool_decide (chain = "btc") then Some "BTC-USD" else None.
(** The price is fetched at the first output. *)
Definition check_payments (wt : WatchedTxInfo) (ts : Z) (symbol : string) (newlyTx : MsgTx) : pan SignCheck :=
  let verdict (b : bool) := if b then validatePass else wrongInputOutput in
  match wt_RechargeList wt with
  | [] => mret validatePass
  | l =>
      if bool_decide (wt_From wt = "xin") then
        match TxOut newlyTx with
        | [] => Fault IndexOutOfRange
        | _ =>
            match good_price (GetPriceByTimestamp symbol ts false) with
            | None => mret wrongInputOutput
            | Some price => r ← check_outputs wt price l (TxOut newlyTx); mret (verdict r)
            end
        end
      else r ← check_outputs wt (S754_zero false) l (TxOut newlyTx); mret (verdict r)
  end.
Definition outputs_count_ok (wt : WatchedTxInfo) (newlyTx : MsgTx) : bool :=
  let n := length (TxOut newlyTx) in
  let m := length (wt_RechargeList wt) in
  Nat.eqb n m || Nat.eqb n (m + 1) || Nat.eqb n (m + 2) || IsDistributionTx wt.
Definition validateBtcSignTx (msg : SignTxRequest) (wt : WatchedTxInfo) : go World SignCheck :=
  newly ← lift (deref (sr_NewlyTx msg));
  let newlyTx := (Deserialize (nt_Data newly)).1 in
  if IsTransferTx wt then
    c ← gets w_cluster; mret (validateTransferSignTx c msg wt newlyTx)
  else
    base ← baseCheck wt;
    if negb (bool_decide (base = validatePass)) then mret base
    else if negb (outputs_count_ok wt newlyTx) then mret wrongInputOutput
    else if bool_decide (wt_From wt = "xin") && (now -i64 nt_Timestamp newly >? coinPriceExpire) then
      mret wrongInputOutput
    else
      match coin_symbol (wt_To wt) with
      | None => mret wrongInputOutput
      | Some symbol => lift (check_payments wt (nt_Timestamp newly) symbol newlyTx)
      end.

(** ** Ethereum *)
Definition validateEthSignTx (msg : SignTxRequest) (wt : WatchedTxInfo) : go World SignCheck :=
  base ← baseCheck wt;
  if negb (bool_decide (base = validatePass)) then mret base
  else
    match wt_RechargeList wt with
    | [recharge] =>
        let amount := after_fee (ai_Amount recharge) mintFeeRate in
        let localInput := default "" (EncodeMint (wt_TokenTo wt) (uwrap64 amount)
                                        (HexToAddress (ai_Address recharge)) (wt_Txid wt)) in
        newly ← lift (deref (sr_NewlyTx msg));
        mret (if bool_decide (nt_Data newly = localInput) then validatePass else wrongInputOutput)
    | _ => mret wrongInputOutput
    end.

(** ** The EOS chains *)
Definition xin_symbol (from : string) : option (string * Z) :=
  if bool_decide (from = "bch") then Some ("BCH-USD", 100000000)
  else if bool_decide (from = "btc") then Some ("BTC-USD", 100000000)
  else if bool_decide (from = "eos") then Some ("EOS-USD", 10000) else None.
Definition eos_symbol (from : string) : option (string * Z) :=
  if bool_decide (from = "xin") then Some ("EOS-USD", 10000) else None.
(** The first payment of the watched transaction. *)
Definition first_recharge (wt : WatchedTxInfo) : pan AddressInfo :=
  match wt_RechargeList wt with a :: _ => mret a | [] => Fault IndexOutOfRange end.
(** Both chains: the one action of the transaction, and the price at the time of the request. *)
Definition validate_eos (symbol_of : string → option (string * Z)) (forth : bool)
    (check : WatchedTxInfo → spec_float → Z → ActionData → pan bool)
    (msg : SignTxRequest) (wt : WatchedTxInfo) : go World SignCheck :=
  base ← baseCheck wt;
  if negb (bool_decide (base = validatePass)) then mret base
  else
    newly ← lift (deref (sr_NewlyTx msg));
    match Unpack (nt_Data newly) with
    | None => mret wrongInputOutput
    | Some newlyTx =>
        match Actions newlyTx with
        | [action] =>
            if now -i64 nt_Timestamp newly >? coinPriceExpire then mret wrongInputOutput
            else match symbol_of (wt_From wt) with
            | None => mret wrongInputOutput
            | Some (symbol, coinUnit) =>
                match good_price (GetPriceByTimestamp symbol (nt_Timestamp newly) forth) with
                | None => mret wrongInputOutput
                | Some price =>
                    r ← lift (check wt price coinUnit action);
                    mret (if (r : bool) then validatePass else wrongInputOutput)
                end
            end
        | _ => mret wrongInputOutput
        end
    end.
Definition xin_action (wt : WatchedTxInfo) (price : spec_float) (coinUnit : Z) (action : ActionData) : pan bool :=
  recharge ← first_recharge wt;
  match action with
  | CreateToken user amount =>
      mret (bool_decide (user = ai_Address recharge) && (amount =? tokens_for (ai_Amount recharge) price coinUnit))
  | _ => Fault TypeAssertion
  end.
Definition eos_action (wt : WatchedTxInfo) (price : spec_float) (coinUnit : Z) (action : ActionData) : pan bool :=
  recharge ← first_recharge wt;
  match action with
  | TokenTransfer to amount =>
      mret (bool_decide (to = ai_Address recharge) && (amount =? getEOSAmountFromXin (ai_Amount recharge) price coinUnit))
  | _ => Fault TypeAssertion
  end.
Definition validateXINSignTx (msg : SignTxRequest) (wt : WatchedTxInfo) : go World SignCheck :=
  validate_eos xin_symbol true xin_action msg wt.
Definition validateEOSSignTx (msg : SignTxRequest) (wt : WatchedTxInfo) : go World SignCheck :=
  validate_eos eos_symbol false eos_action msg wt.

(** ** Signing *)
(** The share, and whether the watcher signed ([status] 0). *)
Definition signBtcBchtx (chain : string) (msg : SignTxRequest) : pan (list bytes * Z) :=
  newly ← deref (sr_NewlyTx msg);
  mret (SignTx chain (Deserialize (nt_Data newly)).1 (PubkeyHash signer)).
Definition signEOSTx (chain : string) (msg : SignTxRequest) : pan (option (list bytes)) :=
  newly ← deref (sr_NewlyTx msg);
  mret (tx ← Unpack (nt_Data newly); sig ← PKMSign chain tx; Some [sig]).
Definition isETHTxOnChain (txHash : string) : bool :=
  match GetEventByHash txHash with Some (Some ev) => negb (ec_Failed ev) | _ => false end.

(** Announce a result; an error of the signature drops it. *)
Definition answer (code : CodeType) (wt : WatchedTxInfo) (data : list bytes) (nodeTerm : Z) : go World unit :=
  signResult ← lift (MakeSignedResult code self (wt_Txid wt) data (wt_To wt) nodeTerm signer);
  match signResult with
  | None => mret tt
  | Some r => Add (SignHandledEvent r)
  end.
(** Remember the request, then answer. *)
Definition save_answer (msg : SignTxRequest) (wt : WatchedTxInfo) (code : CodeType) (data : list bytes) (nodeTerm : Z)
    : go World unit :=
  _ ← tell (SetSignMsg msg (wt_Txid wt)); answer code wt data nodeTerm.
(** What follows the check. *)
Definition btc_rest (msg : SignTxRequest) (wt : WatchedTxInfo) (nodeTerm : Z) (check : SignCheck) : go World unit :=
  if negb (bool_decide (check = validatePass)) then
    _ ← when (bool_decide (check = wrongInputOutput) && negb (IsDistributionTx wt))
          (Add (NewWeakAccuseEvent (sr_Term msg)));
    save_answer msg wt REJECT [] nodeTerm
  else
    '(sig, ok) ← lift (signBtcBchtx (wt_To wt) msg);
    if negb (ok =? 0) then save_answer msg wt REJECT [] nodeTerm
    else save_answer msg wt SIGNED sig nodeTerm.
Definition eth_rest (msg : SignTxRequest) (wt : WatchedTxInfo) (check : SignCheck) : go World unit :=
  if negb (bool_decide (check = validatePass)) then
    _ ← tell (SetSignMsg msg (wt_Txid wt));
    when (bool_decide (check = wrongInputOutput)) (Add (NewWeakAccuseEvent (sr_Term msg)))
  else
    newly ← lift (deref (sr_NewlyTx msg));
    ethTxHash ← ask (λ d, mret (GetETHTxHash (wt_Txid wt) d));
    let done :=
      _ ← run_pool (DeleteFresh (wt_Txid wt));
      _ ← tell (SetSignMsg msg (wt_Txid wt));
      Add (SignedTxEvent (hex_encode (nt_Data newly)) (wt_Txid wt) (wt_To wt) (wt_TokenTo wt)) in
    if bool_decide (ethTxHash = "") || negb (isETHTxOnChain ethTxHash) then
      match SendTranxByInput (PubKeyHex signer) (PubkeyHash signer) (nt_Data newly) with
      | None => tell (SetSignMsg msg (wt_Txid wt))
      | Some h => _ ← tell (λ d, mret (SetETHTxHash (wt_Txid wt) h d)); done
      end
    else done.
(** On "xin" a failed signature is answered as signed, with no share. *)
Definition eos_rest (chain : string) (msg : SignTxRequest) (wt : WatchedTxInfo) (nodeTerm : Z) (check : SignCheck)
    : go World unit :=
  if negb (bool_decide (check = validatePass)) then
    _ ← tell (SetSignMsg msg (wt_Txid wt));
    _ ← when (bool_decide (check = wrongInputOutput)) (Add (NewWeakAccuseEvent (sr_Term msg)));
    answer REJECT wt [] nodeTerm
  else
    signRes ← lift (signEOSTx chain msg);
    match signRes with
    | None => if bool_decide (chain = "xin") then save_answer msg wt SIGNED [] nodeTerm else mret tt
    | Some sig => save_answer msg wt SIGNED sig nodeTerm
    end.
Definition sign_btc (msg : SignTxRequest) (wt : WatchedTxInfo) (nodeTerm : Z) : go World unit :=
  check ← validateBtcSignTx msg wt; btc_rest msg wt nodeTerm check.
Definition sign_eth (msg : SignTxRequest) (wt : WatchedTxInfo) : go World unit :=
  check ← validateEthSignTx msg wt; eth_rest msg wt check.
Definition sign_eos_chain (chain : string) (msg : SignTxRequest) (wt : WatchedTxInfo) (nodeTerm : Z) : go World unit :=
  check ← (if bool_decide (chain = "xin") then validateXINSignTx msg wt else validateEOSSignTx msg wt);
  eos_rest chain msg wt nodeTerm check.
Definition is_btc_chain (chain : string) : bool := bool_decide (chain = "bch") || bool_decide (chain = "btc").
Definition handleSignTx (msg : SignTxRequest) : go World unit :=
  wt ← lift (deref (sr_WatchedTx msg));
  nodeTerm ← ask GetNodeTerm;
  if sr_Term msg >? nodeTerm then
    _ ← Add (NeedSyncUpEvent (sr_NodeId msg));
    if is_btc_chain (wt_To wt) || bool_decide (wt_To wt = "xin") then
      (** The result is made before the request is stored. *)
      r ← lift (MakeSignedResult NEEDSYNC self (wt_Txid wt) [] (wt_To wt) nodeTerm signer);
      _ ← tell (SetSignMsg msg (wt_Txid wt));
      match r with None => mret tt | Some r => Add (SignHandledEvent r) end
    else mret tt
  else if negb (sr_Term msg =? nodeTerm) then mret tt
  else if is_btc_chain (wt_To wt) then sign_btc msg wt nodeTerm
  else if bool_decide (wt_To wt = "eth") then sign_eth msg wt
  else if bool_decide (wt_To wt = "xin") then sign_eos_chain "xin" msg wt nodeTerm
  else if bool_decide (wt_To wt = "eos") then sign_eos_chain "eos" msg wt nodeTerm
  else mret tt.

(** [HandleSignTx] does not take the mutex, so that requests run side by side. These are its two
    parts: up to the verdict of the check, and what follows it; [None] is a request that ends before. *)
Definition sign_begin (msg : SignTxRequest) : go World (option (WatchedTxInfo * Z * SignCheck)) :=
  wt ← lift (deref (sr_WatchedTx msg));
  nodeTerm ← ask GetNodeTerm;
  if sr_Term msg >? nodeTerm then
    _ ← Add (NeedSyncUpEvent (sr_NodeId msg));
    if is_btc_chain (wt_To wt) || bool_decide (wt_To wt = "xin") then
      r ← lift (MakeSignedResult NEEDSYNC self (wt_Txid wt) [] (wt_To wt) nodeTerm signer);
      _ ← tell (SetSignMsg msg (wt_Txid wt));
      match r with None => mret None | Some r => _ ← Add (SignHandledEvent r); mret None end
    else mret None
  else if negb (sr_Term msg =? nodeTerm) then mret None
  else
    let passed (m : go World SignCheck) := check ← m; mret (Some (wt, nodeTerm, check)) in
    if is_btc_chain (wt_To wt) then passed (validateBtcSignTx msg wt)
    else if bool_decide (wt_To wt = "eth") then passed (validateEthSignTx msg wt)
    else if bool_decide (wt_To wt = "xin") then passed (validateXINSignTx msg wt)
    else if bool_decide (wt_To wt = "eos") then passed (validateEOSSignTx msg wt)
    else mret None.
Definition sign_end (msg : SignTxRequest) (wt : WatchedTxInfo) (nodeTerm : Z) (check : SignCheck) : go World unit :=
  if is_btc_chain (wt_To wt) then btc_rest msg wt nodeTerm check
  else if bool_decide (wt_To wt = "eth") then eth_rest msg wt check
  else if bool_decide (wt_To wt = "xin") then eos_rest "xin" msg wt nodeTerm check
  else if bool_decide (wt_To wt = "eos") then eos_rest "eos" msg wt nodeTerm check
  else mret tt.
(** The two parts in a row are the handler. *)
Lemma handleSignTx_split msg w :
  handleSignTx msg w =
  (r ← sign_begin msg; match r with Some (wt, nodeTerm, check) => sign_end msg wt nodeTerm check | None => mret tt end) w.
Proof.
  unfold handleSignTx, sign_begin, sign_end, sign_btc, sign_eth, sign_eos_chain, mbind, go_bind.
  destruct (lift _ w) as [wt w1|]; [|done]. destruct (ask _ w1) as [t w2|]; [|done].
  destruct (sr_Term msg >? t).
  - destruct (Add _ w2) as [[] w3|]; [|done]. destruct (_ || _); [|done]. destruct (lift _ w3) as [r w4|]; [|done].
    destruct (tell _ w4) as [[] w5|]; [|done]. by destruct r.
  - destruct (negb _); [done|]. destruct (is_btc_chain (wt_To wt)) eqn:E0.
    { destruct (validateBtcSignTx _ _ _); [|done]. cbn. by rewrite E0. }
    change (bool_decide ("xin" = "xin")) with true. change (bool_decide ("eos" = "xin")) with false. cbn iota.
    destruct (bool_decide (wt_To wt = "eth")) eqn:E1; [|destruct (bool_decide (wt_To wt = "xin")) eqn:E2;
      [|destruct (bool_decide (wt_To wt = "eos")) eqn:E3; [|done]]].
    + destruct (validateEthSignTx _ _ _); [|done]. cbn. by rewrite E0 E1.
    + destruct (validateXINSignTx _ _ _); [|done]. cbn. by rewrite E0 E1 E2.
    + destruct (validateEOSSignTx _ _ _); [|done]. cbn. by rewrite E0 E1 E2 E3.
Qed.
End SignTx.
