(* ===== verification/Signing.v ===== *)
(** * Collecting signature shares (src/node/node_sign.go, src/node/node.go)

    Every node collects the results of a signing request. With a quorum of verified
    shares it merges them in the order of the node list and sends the transaction;
    with more refusals than faulty nodes it gives the request up. Then it watches the
    chain until the transaction is confirmed.

    The counters of one request live in the heap [sg_heap]: a goroutine that looked up
    a counter keeps it when the entry of the map is deleted. [doSave] runs in a goroutine of
    its own for every result; it is two steps here, [save_begin] and [save_end],
    between which other goroutines run. The answers of the chain libraries are
    those of the instance of [Chains]; the clock [now] is in nanoseconds. *)
From S2P Require Import Prelude.
From S2P Require Import GoLib.
From S2P Require Import Crypto.
From S2P Require Import Messages.
From S2P Require Import ProtoOps.
From S2P Require Import Cluster.
From S2P Require Import Store.
From S2P Require Import DbOps.
From S2P Require Import TxPool.
From S2P Require Import Consensus.
From S2P Require Import ChainTx.
From S2P Require Import Distribution.

Record SignedResultCache : Type := MkCache {
  rs_cache : gmap Z SignedResult;
  rs_totalCount : Z; rs_signedCount : Z; rs_errCnt : Z;
  rs_doneTime : Z; rs_initTime : Z; rs_done : bool
}.
Definition new_cache (now : Z) : SignedResultCache := MkCache ∅ 0 0 0 0 now false.
Definition addTotalCount (k : SignedResultCache) : SignedResultCache :=
  MkCache (rs_cache k) (rs_totalCount k +i32 1) (rs_signedCount k) (rs_errCnt k) (rs_doneTime k) (rs_initTime k) (rs_done k).
Definition addSignedCount (k : SignedResultCache) : SignedResultCache :=
  MkCache (rs_cache k) (rs_totalCount k) (rs_signedCount k +i32 1) (rs_errCnt k) (rs_doneTime k) (rs_initTime k) (rs_done k).
Definition addErrCnt (k : SignedResultCache) : SignedResultCache :=
  MkCache (rs_cache k) (rs_totalCount k) (rs_signedCount k) (rs_errCnt k +i32 1) (rs_doneTime k) (rs_initTime k) (rs_done k).
Definition addCache (nodeID : Z) (signRes : SignedResult) (k : SignedResultCache) : SignedResultCache :=
  MkCache (<[nodeID := signRes]> (rs_cache k)) (rs_totalCount k) (rs_signedCount k) (rs_errCnt k)
    (rs_doneTime k) (rs_initTime k) (rs_done k).
Definition setDone (now : Z) (k : SignedResultCache) : SignedResultCache :=
  MkCache (rs_cache k) (rs_totalCount k) (rs_signedCount k) (rs_errCnt k) now (rs_initTime k) true.

(** A transaction that was sent to a chain and is not confirmed yet. *)
Record waitingConfirmTx : Type := {
  wc_msgId : string; wc_chainType : string; wc_chainTxId : string; wc_TokenTo : Z;
  wc_timestamp : Z; wc_inMem : bool
}.
Definition setInMem (tx : waitingConfirmTx) : waitingConfirmTx :=
  {| wc_msgId := wc_msgId tx; wc_chainType := wc_chainType tx; wc_chainTxId := wc_chainTxId tx;
     wc_TokenTo := wc_TokenTo tx; wc_timestamp := wc_timestamp tx; wc_inMem := true |}.
Definition defaultConfirmTolerance : Z := 3 * 60 * second.
(** [ConfirmTolerance] is the configured number of minutes. *)
Definition isTimeout (ConfirmTolerance now : Z) (tx : waitingConfirmTx) : bool :=
  let tolerance := if ConfirmTolerance =? 0 then defaultConfirmTolerance else ConfirmTolerance * 60 * second in
  now >? wc_timestamp tx + tolerance.

Section Signing.
Context `{KV} `{Wire} `{DistJson} `{Chains}.

Record SignNode : Type := MkSignNode {
  sg_pool : Pool;
  sg_heap : list SignedResultCache;
  sg_cache : gmap string nat;
  sg_waiting : gmap string waitingConfirmTx;
  sg_events : list Event
}.
Definition set_sg_pool p n := MkSignNode p (sg_heap n) (sg_cache n) (sg_waiting n) (sg_events n).
Definition set_sg_heap h n := MkSignNode (sg_pool n) h (sg_cache n) (sg_waiting n) (sg_events n).
Definition set_sg_cache m n := MkSignNode (sg_pool n) (sg_heap n) m (sg_waiting n) (sg_events n).
Definition set_sg_waiting m n := MkSignNode (sg_pool n) (sg_heap n) (sg_cache n) m (sg_events n).
Definition set_sg_events l n := MkSignNode (sg_pool n) (sg_heap n) (sg_cache n) (sg_waiting n) l.
Definition sg_db (n : SignNode) : db := p_db (sg_pool n).
Definition the_pool {A} (m : go Pool A) : go SignNode A := zoom sg_pool set_sg_pool m.
Definition write_db (f : db → pan db) : go SignNode unit := the_pool (updates_db f).
Definition on_cache (loc : nat) (f : SignedResultCache → SignedResultCache) : go SignNode unit :=
  modify (λ n, set_sg_heap (alter f loc (sg_heap n)) n).
Definition hasTxInWaitting (scTxID : string) (n : SignNode) : bool := bool_decide (is_Some (sg_waiting n !! scTxID)).
Definition deleteFromWaiting (i : string) : go SignNode unit :=
  modify (λ n, set_sg_waiting (delete i (sg_waiting n)) n).

(** ** Giving a request up *)
Definition clearOnFail (signReq : SignTxRequest) : go SignNode unit :=
  wt ← lift (deref (sr_WatchedTx signReq));
  _ ← write_db (λ d, mret (MarkFailedSignRecord (wt_Txid wt) (sr_Term signReq) d));
  _ ← modify (λ n, set_sg_cache (delete (wt_Txid wt) (sg_cache n)) n);
  n ← gets id;
  if negb (IsTransferTx wt) && negb (hasTxInWaitting (wt_Txid wt) n) then
    _ ← write_db (λ d, mret (DeleteSignMsg (wt_Txid wt) d));
    if IsDistributionTx wt then the_pool (SetFailed (String.substring 14 (String.length (wt_Txid wt) - 14) (wt_Txid wt)))
    else the_pool (AddFreshWatchedTx (Some wt))
  else the_pool (DeleteWatchedTx (wt_Txid wt)).

(** ** Sending the transaction *)
(** The first entry of each share. *)
Fixpoint first_entries (sigs : list (list bytes)) : pan (list bytes) :=
  match sigs with
  | [] => mret []
  | [] :: _ => Fault IndexOutOfRange
  | (s :: _) :: l => r ← first_entries l; mret ((UnmarshalSignature s).1 :: r)
  end.
Definition sendEOSTxToChain (chain : string) (sigs : list (list bytes)) (req : SignTxRequest) : go SignNode string :=
  tmpSigs ← lift (first_entries sigs);
  newly ← lift (deref (sr_NewlyTx req));
  match MergeSignedTx chain (Unpack (nt_Data newly)) tmpSigs with
  | None => _ ← clearOnFail req; mret ""
  | Some newlyTx => mret (hex_encode (EosTxID newlyTx))
  end.
(** The id is that of the transaction before the shares are merged. *)
Definition sendBtcBchTxToChain (chain : string) (tx : bytes) (sigs : list (list bytes)) (req : SignTxRequest)
    : go SignNode string :=
  let '(newlyTx, ok) := Deserialize tx in
  _ ← lift (assert_true ok);
  match MergeSignTx chain newlyTx sigs with
  | None => _ ← clearOnFail req; mret (TxHash newlyTx)
  | Some _ => mret (TxHash newlyTx)
  end.
Definition sendTxToChain (chain : string) (tx : bytes) (sigs : list (list bytes)) (signResult : SignedResult)
    (signReq : SignTxRequest) : go SignNode unit :=
  let emit i :=
    wt ← lift (deref (sr_WatchedTx signReq));
    modify (λ n, set_sg_events
      (sg_events n ++ [SignedTxEvent i (sd_TxId signResult) (sd_To signResult) (wt_TokenTo wt)]) n) in
  if bool_decide (chain = "btc") || bool_decide (chain = "bch") then
    i ← sendBtcBchTxToChain chain tx sigs signReq; emit i
  else if bool_decide (chain = "xin") || bool_decide (chain = "eos") then
    i ← sendEOSTxToChain chain sigs signReq; emit i
  else mret tt.

(** ** Verifying a share *)
Definition node_key (c : Cluster) (nodeID : Z) : pan bytes := n ← node_at c nodeID; mret (PublicKey n).
Definition verifySign (c : Cluster) (chain : string) (tx : bytes) (sig : list bytes) (nodeID : Z) : pan bool :=
  if bool_decide (chain = "bch") || bool_decide (chain = "btc") then
    let '(newlyTx, ok) := Deserialize tx in
    if negb ok then mret false else k ← node_key c nodeID; mret (VerifySign chain newlyTx sig k)
  else if bool_decide (chain = "xin") || bool_decide (chain = "eos") then
    if bool_decide (chain = "xin") && bool_decide (tx = "") then mret false
    else match Unpack tx with
    | None => mret false
    | Some transfer =>
        match sig with
        | [] => Fault IndexOutOfRange
        | s :: _ =>
            let '(xinSig, ok) := UnmarshalSignature s in
            if negb ok then mret false
            else match GetPublickeyFromTx chain transfer xinSig with
            | None => mret false
            | Some pubkey =>
                k ← node_key c nodeID;
                nodePubkey ← deref (NewPublicKey chain (hex_encode k));
                mret (bool_decide (pubkey = nodePubkey))
            end
        end
    end
  else mret false.

(** ** Saving a result *)
(** The look-ups, up to the verification; the counter and the request go to [save_end].
    A result that comes before its request is counted without verification. *)
Definition save_begin (now : Z) (msg : SignedResult) : go SignNode (option (nat * SignTxRequest)) :=
  n ← gets id;
  if IsSignFailed (sd_TxId msg) (sd_Term msg) (sg_db n) then mret None
  else
    signReqMsg ← lift (GetSignMsg (sd_TxId msg) (sg_db n));
    loc ← (match sg_cache n !! sd_TxId msg with
           | Some loc => mret loc
           | None =>
               let loc := length (sg_heap n) in
               _ ← modify (λ n, set_sg_heap (sg_heap n ++ [new_cache (now / second)]) n);
               _ ← modify (λ n, set_sg_cache (<[sd_TxId msg := loc]> (sg_cache n)) n);
               mret loc
           end);
    n ← gets id;
    let cache := default (new_cache (now / second)) (sg_heap n !! loc) in
    if bool_decide (is_Some (rs_cache cache !! sd_NodeId msg)) then mret None
    else
      _ ← on_cache loc addTotalCount;
      match signReqMsg with
      | None =>
          _ ← on_cache loc (if bool_decide (sd_Code msg = SIGNED)
                            then addCache (sd_NodeId msg) msg ∘ addSignedCount else addErrCnt);
          mret None
      | Some req => mret (Some (loc, req))
      end.
Definition sign_quorums (c : Cluster) (req : SignTxRequest) (wt : WatchedTxInfo) (d : db) : option (Z * Z) :=
  if IsTransferTx wt then
    s ← GetClusterSnapshot (sr_MultisigAddress req) d; Some (wrap32 (sn_QuorumN s), wrap32 (sn_AccuseQuorumN s))
  else Some (wrap32 (QuorumN c), wrap32 (AccuseQuorumN c)).
(** The shares in the order of the node list, the first [quorumN] of them. *)
Fixpoint gather (cache : gmap Z SignedResult) (idx : list Z) (quorumN : Z) (sigs : list (list bytes)) : list (list bytes) :=
  match idx with
  | [] => sigs
  | i :: l =>
      match cache !! i with
      | None => gather cache l quorumN sigs
      | Some result =>
          let sigs := sigs ++ [sd_Data result] in
          if Z.of_nat (length sigs) =? quorumN then sigs else gather cache l quorumN sigs
      end
  end.
Definition node_indices (c : Cluster) : list Z := Z.of_nat <$> seq 0 (length (NodeList c)).
Definition save_end (c : Cluster) (now : Z) (msg : SignedResult) (loc : nat) (req : SignTxRequest) : go SignNode unit :=
  _ ← (if bool_decide (sd_Code msg = SIGNED) then
             newly ← lift (deref (sr_NewlyTx req));
             ok ← lift (verifySign c (sd_To msg) (nt_Data newly) (sd_Data msg) (sd_NodeId msg));
             on_cache loc (if ok : bool then addSignedCount ∘ addCache (sd_NodeId msg) msg else addErrCnt)
           else on_cache loc addErrCnt);
  wt ← lift (deref (sr_WatchedTx req));
  n ← gets id;
  match sign_quorums c req wt (sg_db n) with
  | None => mret tt
  | Some (quorumN, accuseQuorumN) =>
      let cache := default (new_cache (now / second)) (sg_heap n !! loc) in
      if (rs_signedCount cache >=? quorumN) && negb (rs_done cache) then
        _ ← on_cache loc (setDone now);
        newly ← lift (deref (sr_NewlyTx req));
        sendTxToChain (sd_To msg) (nt_Data newly) (gather (rs_cache cache) (node_indices c) quorumN []) msg req
      else when (rs_errCnt cache >? accuseQuorumN) (clearOnFail req)
  end.
Definition doSave (c : Cluster) (now : Z) (msg : SignedResult) : go SignNode unit :=
  r ← save_begin now msg;
  match r with None => mret tt | Some (loc, req) => save_end c now msg loc req end.

(** ** Timers *)
Definition cacheTimeout : Z := 15 * second.
Definition expired (now : Z) (k : option SignedResultCache) : bool :=
  match k with Some k => rs_done k && (now >? rs_doneTime k + cacheTimeout) | None => false end.
(** The tick of [saveSignedResult] drops the counters that are done. *)
Definition clear_done (now : Z) : go SignNode unit :=
  modify (λ n, set_sg_cache (filter (λ e, expired now (sg_heap n !! e.2) = false) (sg_cache n)) n).
Definition time_out (signTimeout now : Z) (e : string * nat) : go SignNode unit :=
  let '(scTxID, loc) := e in
  n ← gets id;
  let cache := default (new_cache (now / second)) (sg_heap n !! loc) in
  when ((now / second -i64 rs_initTime cache >? signTimeout) && negb (rs_done cache))
    (_ ← modify (λ n, set_sg_cache (delete scTxID (sg_cache n)) n);
     signReq ← lift (GetSignMsg scTxID (sg_db n));
     match signReq with
     | None => mret tt
     | Some req =>
         wt ← lift (deref (sr_WatchedTx req));
         if negb (IsTransferTx wt) then
           n ← gets id;
           when (negb (hasTxInWaitting scTxID n))
             (_ ← write_db (λ d, mret (DeleteSignMsg scTxID d)); the_pool (AddFreshWatchedTx (Some wt)))
         else
           _ ← write_db (λ d, mret (DeleteSignMsg scTxID d)); the_pool (DeleteWatchedTx scTxID)
     end).
Definition checkSignTimeout (o : order) (signTimeout now : Z) : go SignNode unit :=
  n ← gets id; for_each (range o 60 (sg_cache n)) (time_out signTimeout now).

(** ** Confirmation on the chain (src/node/node.go) *)
(** What the subscriber of [SignedTxEvent] sends to the goroutine [dealWaitingChan]. *)
Definition waiting_for (now : Z) (txId msgId chainType : string) (tokenTo : Z) : waitingConfirmTx :=
  {| wc_msgId := msgId; wc_chainType := chainType; wc_chainTxId := txId; wc_TokenTo := tokenTo;
     wc_timestamp := now; wc_inMem := false |}.
Definition dealWaitingChan (tx : waitingConfirmTx) : go SignNode unit :=
  modify (λ n, set_sg_waiting (<[wc_msgId tx := tx]> (sg_waiting n)) n).
Definition in_mem (tx : waitingConfirmTx) : go SignNode unit :=
  modify (λ n, set_sg_waiting (alter setInMem (wc_msgId tx) (sg_waiting n)) n).
(** The transaction is confirmed: an inner transaction for the next block. *)
Definition confirm (now : Z) (tx : waitingConfirmTx) (newlyTxId : string) (amount : Z) (isDistribution : bool)
    : go SignNode unit :=
  _ ← the_pool (CreateInnerTx now newlyTxId (wc_msgId tx) amount);
  _ ← when isDistribution (the_pool (SetSuccess (String.substring 14 (String.length (wc_msgId tx) - 14) (wc_msgId tx))));
  deleteFromWaiting (wc_msgId tx).
Definition abandon (tx : waitingConfirmTx) : go SignNode unit :=
  _ ← deleteFromWaiting (wc_msgId tx);
  n ← gets id;
  signReqMsg ← lift (GetSignMsg (wc_msgId tx) (sg_db n));
  match signReqMsg with None => mret tt | Some req => clearOnFail req end.
(** [confirms] is the number of confirmations asked on a Bitcoin chain. *)
Definition checkTxOnChain (ConfirmTolerance now : Z) (confirms : string → Z) (tx : waitingConfirmTx) : go SignNode unit :=
  let seconds := now / second in
  if isTimeout ConfirmTolerance now tx && negb (wc_inMem tx) then abandon tx
  else if bool_decide (wc_chainType tx = "bch") || bool_decide (wc_chainType tx = "btc") then
    match GetTxByHash (wc_chainType tx) (wc_chainTxId tx) with
    | None => mret tt
    | Some chainTx =>
        _ ← in_mem tx;
        when (cx_Confirmations chainTx >=? uwrap64 (confirms (wc_chainType tx)))
          (n ← gets id;
           confirm seconds tx (cx_ScTxid chainTx) (GetFinalAmount (cx_ScTxid chainTx) (sg_db n))
             (String.prefix "DistributionTx" (wc_msgId tx)))
    end
  else if bool_decide (wc_chainType tx = "eth") then
    n ← gets id;
    let txHash := GetETHTxHash (wc_msgId tx) (sg_db n) in
    if bool_decide (txHash = "") then mret tt
    else match GetEventByHash txHash with
    | Some (Some event) => if Z.land (ec_Events event) TX_STATUS_FAILED =? 1 then abandon tx else in_mem tx
    | _ => mret tt
    end
  else if bool_decide (wc_chainType tx = "xin") || bool_decide (wc_chainType tx = "eos") then
    match GetEventByTxid (wc_chainType tx) (wc_chainTxId tx) with
    | None => mret tt
    | Some chainTx =>
        _ ← in_mem tx;
        when (LastIrreversibleBlockNum (wc_chainType tx) >=? ee_Height chainTx)
          (confirm seconds tx (wc_chainTxId tx) 0 false)
    end
  else mret tt.
End Signing.
