(* ===== verification/SigningProps.v ===== *)
(** * Properties of the collection of shares

    The share that completes a quorum sends the transaction with the shares of the
    lowest listed nodes; the counters count refusals and racing results more often
    than nodes. *)
From S2P Require Import Prelude.
From S2P Require Import GoLib.
From S2P Require Import Crypto.
From S2P Require Import Messages.
From S2P Require Import ProtoOps.
From S2P Require Import Cluster.
From S2P Require Import Store.
From S2P Require Import DbOps.
From S2P Require Import TxPool.
From S2P Require Import Consensus.
From S2P Require Import ChainTx.
From S2P Require Import Distribution.
From S2P Require Import Signing.

Section SigningProps.
Context `{KV} `{Wire} `{DistJson} `{Chains}.
Implicit Types (n : SignNode) (k : SignedResultCache) (c : Cluster) (msg : SignedResult) (req : SignTxRequest).

(** A counter that counts its shares: one for each listed node that signed. *)
Record counter_wf c k : Prop := {
  kw_signed : rs_signedCount k = Z.of_nat (size (rs_cache k));
  kw_listed : ∀ i r, rs_cache k !! i = Some r → i ∈ node_indices c
}.
Lemma node_indices_NoDup c : NoDup (node_indices c).
Proof. apply NoDup_fmap_2; [intros ? ? ?; lia|apply NoDup_seq]. Qed.
Lemma elem_of_node_indices c i : i ∈ node_indices c ↔ 0 ≤ i < Z.of_nat (length (NodeList c)).
Proof.
  unfold node_indices. rewrite list_elem_of_fmap. split.
  - intros (j & -> & [_ Hj]%elem_of_seq). lia.
  - intros Hi. exists (Z.to_nat i). rewrite elem_of_seq. lia.
Qed.

(** *** Which shares are merged *)
Definition shares_of (cache : gmap Z SignedResult) (idx : list Z) : list (list bytes) :=
  sd_Data <$> omap (λ i, cache !! i) idx.
Lemma gather_take cache idx q : ∀ sigs,
  Z.of_nat (length sigs) < q →
  gather cache idx q sigs = sigs ++ take (Z.to_nat q - length sigs) (shares_of cache idx).
Proof.
  induction idx as [|i idx IH]; intros sigs Hlt; cbn [gather shares_of omap list_omap].
  { by rewrite take_nil app_nil_r. }
  unfold shares_of. cbn [omap list_omap]. destruct (cache !! i) as [r|]; [|by apply IH].
  rewrite fmap_cons. destruct (_ =? q) eqn:E; to_prop; rewrite length_app in E; cbn [length] in E.
  - replace (Z.to_nat q - length sigs)%nat with 1%nat by lia. done.
  - rewrite IH; [|rewrite length_app /=; lia]. rewrite -app_assoc length_app. cbn [length app].
    replace (Z.to_nat q - length sigs)%nat with (S (Z.to_nat q - (length sigs + 1))) by lia. done.
Qed.
Lemma shares_length cache idx : NoDup idx → (∀ i r, cache !! i = Some r → i ∈ idx) →
  length (shares_of cache idx) = size cache.
Proof.
  unfold shares_of. intros Hnd Hidx. rewrite length_fmap.
  assert (elements (dom cache) ≡ₚ filter (λ i, is_Some (cache !! i)) idx) as Hp.
  { apply NoDup_Permutation; [apply NoDup_elements|by apply NoDup_filter|].
    intros i. rewrite elem_of_elements elem_of_dom list_elem_of_filter. split; [|tauto].
    intros [r Hr]. split; [by exists r|by eapply Hidx]. }
  rewrite -size_dom /size /set_size /= Hp. clear.
  induction idx as [|i idx IH]; [done|]. cbn [omap list_omap]. rewrite filter_cons.
  destruct (decide (is_Some (cache !! i))) as [[r Hr]|Hn].
  - by rewrite Hr /= IH.
  - apply eq_None_not_Some in Hn. by rewrite Hn.
Qed.

(** *** The first half of [doSave] *)
(** The counter of [i], new if there is none. *)
Definition opened (now : Z) (i : string) n : SignNode * nat :=
  match sg_cache n !! i with
  | Some loc => (n, loc)
  | None =>
      (set_sg_cache (<[i := length (sg_heap n)]> (sg_cache n))
         (set_sg_heap (sg_heap n ++ [new_cache (now / second)]) n), length (sg_heap n))
  end.
Definition set_counter (loc : nat) (f : SignedResultCache → SignedResultCache) n : SignNode :=
  set_sg_heap (alter f loc (sg_heap n)) n.
Lemma run_save_begin now msg n req n0 loc k :
  IsSignFailed (sd_TxId msg) (sd_Term msg) (sg_db n) = false →
  GetSignMsg (sd_TxId msg) (sg_db n) = Val (Some req) →
  opened now (sd_TxId msg) n = (n0, loc) → sg_heap n0 !! loc = Some k → rs_cache k !! sd_NodeId msg = None →
  save_begin now msg n = Ret (Some (loc, req)) (set_counter loc addTotalCount n0).
Proof.
  intros Hf Hr Ho Hk Hn. unfold save_begin. rewrite bind_gets_id Hf (bind_lift _ _ _ _ Hr).
  rewrite (bind_Ret _ _ _ loc n0).
  2:{ unfold opened in Ho. by destruct (sg_cache n !! sd_TxId msg); injection Ho as <- <-. }
  rewrite bind_gets_id Hk bool_decide_eq_false_2; [done|]. cbn. rewrite Hn. by intros [? ?].
Qed.
Lemma set_counter_lookup loc f n k : sg_heap n !! loc = Some k → sg_heap (set_counter loc f n) !! loc = Some (f k).
Proof. intros Hk. cbn. by rewrite list_lookup_alter_eq Hk. Qed.

(** *** The second half *)
(** What the verdict on a result does to the counter. *)
Definition counted msg (ok : bool) : SignedResultCache → SignedResultCache :=
  if bool_decide (sd_Code msg = SIGNED) && ok then addSignedCount ∘ addCache (sd_NodeId msg) msg else addErrCnt.
Definition verdict c msg (newly : NewlyTx) : pan bool :=
  if bool_decide (sd_Code msg = SIGNED) then verifySign c (sd_To msg) (nt_Data newly) (sd_Data msg) (sd_NodeId msg)
  else Val true.
Lemma run_save_end c now msg n loc req newly wt k ok q aq :
  sr_NewlyTx req = Some newly → sr_WatchedTx req = Some wt → verdict c msg newly = Val ok →
  sg_heap n !! loc = Some k → sign_quorums c req wt (sg_db n) = Some (q, aq) →
  let k' := counted msg ok k in let n' := set_counter loc (counted msg ok) n in
  save_end c now msg loc req n =
    if (rs_signedCount k' >=? q) && negb (rs_done k') then
      sendTxToChain (sd_To msg) (nt_Data newly) (gather (rs_cache k') (node_indices c) q []) msg req
        (set_counter loc (setDone now) n')
    else when (rs_errCnt k' >? aq) (clearOnFail req) n'.
Proof.
  intros Hnew Hwt Hv Hk Hq k' n'. unfold save_end.
  rewrite (bind_Ret _ _ _ tt n').
  2:{ unfold n', counted, verdict in *. rewrite Hnew. destruct (bool_decide (sd_Code msg = SIGNED)); [|done].
      rewrite (bind_lift _ _ _ newly); [|done]. rewrite (bind_lift _ _ _ ok); [|done]. by destruct ok. }
  rewrite (bind_lift _ _ _ wt); [|by rewrite Hwt]. rewrite bind_gets_id.
  assert (sg_db n' = sg_db n) as -> by done. rewrite Hq.
  assert (sg_heap n' !! loc = Some k') as -> by (by apply set_counter_lookup). cbn [default from_option id].
  destruct (_ && _); [|done]. rewrite (bind_Ret _ _ _ tt (set_counter loc (setDone now) n')); [|done].
  rewrite (bind_lift _ _ _ newly); [done|by rewrite Hnew].
Qed.

(** A result that is not the first of its node, or that comes after the request failed,
    changes nothing. *)
Lemma run_doSave c now msg n req n0 loc k newly wt ok q aq :
  IsSignFailed (sd_TxId msg) (sd_Term msg) (sg_db n) = false →
  GetSignMsg (sd_TxId msg) (sg_db n) = Val (Some req) →
  opened now (sd_TxId msg) n = (n0, loc) → sg_heap n0 !! loc = Some k → rs_cache k !! sd_NodeId msg = None →
  sr_NewlyTx req = Some newly → sr_WatchedTx req = Some wt → verdict c msg newly = Val ok →
  sign_quorums c req wt (sg_db n) = Some (q, aq) →
  let k' := counted msg ok (addTotalCount k) in
  let n' := set_counter loc (counted msg ok) (set_counter loc addTotalCount n0) in
  doSave c now msg n =
    if (rs_signedCount k' >=? q) && negb (rs_done k') then
      sendTxToChain (sd_To msg) (nt_Data newly) (gather (rs_cache k') (node_indices c) q []) msg req
        (set_counter loc (setDone now) n')
    else when (rs_errCnt k' >? aq) (clearOnFail req) n'.
Proof.
  intros Hf Hr Ho Hk Hn Hnew Hwt Hv Hq k' n'. unfold doSave.
  rewrite (bind_Ret _ _ _ _ _ (run_save_begin now msg n req n0 loc k Hf Hr Ho Hk Hn)).
  assert (sg_db n0 = sg_db n) as Hd by (unfold opened in Ho; destruct (_ !! _); by injection Ho as <- <-).
  apply (run_save_end c now msg _ loc req newly wt (addTotalCount k)); [done..| |].
  - by apply set_counter_lookup.
  - assert (sg_db (set_counter loc addTotalCount n0) = sg_db n0) as -> by done. by rewrite Hd.
Qed.

Lemma counter_share c k msg : counter_wf c k → sd_NodeId msg ∈ node_indices c →
  rs_cache k !! sd_NodeId msg = None → Z.of_nat (size (rs_cache k)) + 1 < 2^31 →
  counter_wf c (addSignedCount (addCache (sd_NodeId msg) msg (addTotalCount k))).
Proof.
  intros [Hs Hl] Hi Hn Hlt. split; cbn.
  - rewrite Hs map_size_insert_None; [|done]. rewrite wrap32_small; [lia|unfold i32; lia].
  - intros i r [[<- _]|[_ Hr]]%lookup_insert_Some; [done|by eapply Hl].
Qed.
(** C8. The share that makes the quorum sends the transaction, with the shares of the
    first nodes in the order of the node list, as many as the quorum, and marks the
    counter so that no other result sends it again; a share before only counts. *)
Theorem doSave_share c now msg n req loc k newly wt q aq :
  sg_cache n !! sd_TxId msg = Some loc → sg_heap n !! loc = Some k → counter_wf c k → rs_done k = false →
  rs_cache k !! sd_NodeId msg = None → sd_NodeId msg ∈ node_indices c → sd_Code msg = SIGNED →
  IsSignFailed (sd_TxId msg) (sd_Term msg) (sg_db n) = false →
  GetSignMsg (sd_TxId msg) (sg_db n) = Val (Some req) →
  sr_NewlyTx req = Some newly → sr_WatchedTx req = Some wt →
  verifySign c (sd_To msg) (nt_Data newly) (sd_Data msg) (sd_NodeId msg) = Val true →
  sign_quorums c req wt (sg_db n) = Some (q, aq) → 0 < q → rs_errCnt k ≤ aq →
  Z.of_nat (size (rs_cache k)) + 1 < 2^31 →
  let k' := addSignedCount (addCache (sd_NodeId msg) msg (addTotalCount k)) in
  let shares := take (Z.to_nat q) (shares_of (rs_cache k') (node_indices c)) in
  if Z.of_nat (size (rs_cache k')) <? q then
    (∃ n', doSave c now msg n = Ret tt n' ∧ sg_heap n' !! loc = Some k' ∧ counter_wf c k' ∧ sg_events n' = sg_events n)
  else
    (∃ n', doSave c now msg n = sendTxToChain (sd_To msg) (nt_Data newly) shares msg req n' ∧
      sg_heap n' !! loc = Some (setDone now k') ∧ counter_wf c k' ∧ Z.of_nat (length shares) = q).
Proof.
  intros Hloc Hk Hwf Hd Hni Hli Hcode Hf Hr Hnew Hwt Hv Hq Hq0 He Hlt k' shares.
  assert (counter_wf c k') as Hwf' by (by apply counter_share).
  assert (counted msg true = addSignedCount ∘ addCache (sd_NodeId msg) msg) as Hcnt.
  { unfold counted. by rewrite bool_decide_eq_true_2. }
  pose proof (run_doSave c now msg n req n loc k newly wt true q aq Hf Hr) as Hrun.
  unfold opened, verdict in Hrun. rewrite Hloc in Hrun. rewrite bool_decide_eq_true_2 in Hrun; [|done].
  specialize (Hrun eq_refl Hk Hni Hnew Hwt Hv Hq). cbn zeta in Hrun. rewrite Hcnt in Hrun.
  change ((addSignedCount ∘ addCache (sd_NodeId msg) msg) (addTotalCount k)) with k' in Hrun.
  assert (rs_done k' = false) as Hd' by exact Hd. rewrite (kw_signed _ _ Hwf') Hd' andb_true_r in Hrun.
  set (n' := set_counter loc _ (set_counter loc addTotalCount n)) in Hrun.
  assert (sg_heap n' !! loc = Some k') as Hk'.
  { apply (set_counter_lookup loc (addSignedCount ∘ addCache (sd_NodeId msg) msg) _ (addTotalCount k)).
    by apply set_counter_lookup. }
  rewrite Z.geb_leb Z.leb_antisym in Hrun. destruct (_ <? q) eqn:Eq; cbn [negb] in Hrun; to_prop.
  - exists n'. split_and!; [|done..]. rewrite Hrun.
    assert ((rs_errCnt k' >? aq) = false) as -> by (cbn; lia). done.
  - exists (set_counter loc (setDone now) n'). rewrite Hrun. split_and!.
    + f_equal. rewrite gather_take; [|cbn; lia]. cbn [length app]. by rewrite Nat.sub_0_r.
    + by apply set_counter_lookup.
    + done.
    + unfold shares. rewrite length_take (shares_length _ _ (node_indices_NoDup c) (kw_listed _ _ Hwf')). lia.
Qed.

(** ** One node against a request *)

(** Nothing but the counters has changed since [n]. *)
Definition counters_only n n' : Prop := sg_pool n' = sg_pool n ∧ sg_waiting n' = sg_waiting n.
(** The counter of [i] has [j] refusals and no share. *)
Definition refused (now : Z) (i : string) (j : Z) n : Prop := ∃ n0 loc k,
  opened now i n = (n0, loc) ∧ sg_heap n0 !! loc = Some k ∧ sg_cache n0 !! i = Some loc ∧
  counters_only n n0 ∧ rs_cache k = ∅ ∧ rs_signedCount k = 0 ∧ rs_errCnt k = j.
Lemma refused_0 now i n : sg_cache n !! i = None → refused now i 0 n.
Proof.
  intros Hn. unfold refused, opened. rewrite Hn. eexists _, _, (new_cache (now / second)).
  split; [done|]. split_and!; try done.
  - cbn. rewrite lookup_app_r; [|done]. by rewrite Nat.sub_diag.
  - apply lookup_insert_eq.
Qed.
Section Refuse.
Variables (c : Cluster) (now : Z) (msg : SignedResult) (req : SignTxRequest) (newly : NewlyTx) (wt : WatchedTxInfo).
Variables (q aq : Z) (n : SignNode).
Hypothesis Hfailed : IsSignFailed (sd_TxId msg) (sd_Term msg) (sg_db n) = false.
Hypothesis Hreq : GetSignMsg (sd_TxId msg) (sg_db n) = Val (Some req).
Hypothesis Hnewly : sr_NewlyTx req = Some newly.
Hypothesis Hwt : sr_WatchedTx req = Some wt.
Hypothesis Hq : sign_quorums c req wt (sg_db n) = Some (q, aq).
Hypothesis Hq0 : 0 < q.
Hypothesis Haq : 0 ≤ aq < 2^31 - 1.

Lemma doSave_refuse n1 j : sd_Code msg ≠ SIGNED → counters_only n n1 → refused now (sd_TxId msg) j n1 → 0 ≤ j ≤ aq →
  ∃ n2, counters_only n n2 ∧ refused now (sd_TxId msg) (j + 1) n2 ∧
    doSave c now msg n1 = if j + 1 >? aq then clearOnFail req n2 else Ret tt n2.
Proof.
  intros Hc [Hp Hw] (n0 & loc & k & Ho & Hk & Hi & [Hp0 Hw0] & Hca & Hs & He) Hj.
  assert (sg_db n1 = sg_db n) as Hd by (unfold sg_db; by rewrite Hp).
  pose proof (run_doSave c now msg n1 req n0 loc k newly wt true q aq) as Hrun. rewrite Hd in Hrun.
  specialize (Hrun Hfailed Hreq Ho Hk ltac:(by rewrite Hca) Hnewly Hwt).
  unfold verdict, counted in Hrun. rewrite bool_decide_eq_false_2 in Hrun; [|done].
  specialize (Hrun eq_refl Hq). cbn [andb] in Hrun. cbn zeta in Hrun.
  set (n2 := set_counter loc addErrCnt _) in Hrun. exists n2.
  assert (refused now (sd_TxId msg) (j + 1) n2) as Hr.
  { exists n2, loc, (addErrCnt (addTotalCount k)). split_and!; try done.
    - unfold opened. by rewrite Hi.
    - by apply set_counter_lookup, set_counter_lookup.
    - cbn. rewrite He wrap32_small; [lia|unfold i32; lia]. }
  split; [split; [exact (eq_trans Hp0 Hp)|exact (eq_trans Hw0 Hw)]|]. split; [done|]. rewrite Hrun. 
  assert (rs_errCnt (addErrCnt (addTotalCount k)) = j + 1) as ->.
  { cbn. rewrite He wrap32_small; [lia|unfold i32; lia]. }
  assert ((rs_signedCount (addErrCnt (addTotalCount k)) >=? q) = false) as -> by (cbn; lia).
  cbn [andb]. by destruct (j + 1 >? aq).
Qed.
Lemma refusals n1 j m : sd_Code msg ≠ SIGNED → counters_only n n1 → refused now (sd_TxId msg) j n1 → 0 ≤ j →
  j + Z.of_nat m ≤ aq →
  ∃ n2, counters_only n n2 ∧ refused now (sd_TxId msg) (j + Z.of_nat m) n2 ∧
    for_each (replicate m msg) (doSave c now) n1 = Ret tt n2.
Proof.
  intros Hc. revert n1 j. induction m as [|m IH]; intros n1 j Hn Hr Hj Hm.
  { exists n1. rewrite Z.add_0_r. done. }
  destruct (doSave_refuse n1 j Hc Hn Hr) as (n2 & Hn2 & Hr2 & Hrun); [lia|].
  assert ((j + 1 >? aq) = false) as E by lia. rewrite E in Hrun.
  destruct (IH n2 (j + 1) Hn2 Hr2) as (n3 & Hn3 & Hr3 & Hrun3); [lia..|].
  exists n3. replace (j + Z.of_nat (S m)) with (j + 1 + Z.of_nat m) by lia. split_and!; [done|done|].
  cbn [replicate for_each]. by rewrite (bind_Ret _ _ _ _ _ Hrun).
Qed.
End Refuse.

Lemma run_AddFresh wt p : ∃ p', AddFreshWatchedTx (Some wt) p = Ret tt p' ∧ p_db p' = p_db p.
Proof.
  unfold AddFreshWatchedTx. rewrite (bind_lift _ _ _ wt); [|done]. rewrite bind_gets_id.
  destruct (negb _ && negb _); by eexists.
Qed.
Lemma run_clearOnFail req wt n : sr_WatchedTx req = Some wt → IsTransferTx wt = false → IsDistributionTx wt = false →
  hasTxInWaitting (wt_Txid wt) n = false →
  ∃ n', clearOnFail req n = Ret tt n' ∧
    sg_db n' = DeleteSignMsg (wt_Txid wt) (MarkFailedSignRecord (wt_Txid wt) (sr_Term req) (sg_db n)) ∧
    sg_cache n' = delete (wt_Txid wt) (sg_cache n).
Proof.
  intros Hw Ht Hd Hn. unfold clearOnFail. rewrite (bind_lift _ _ _ wt); [|by rewrite Hw].
  unfold write_db, the_pool, updates_db.
  rewrite (bind_Ret _ _ _ tt (set_sg_pool (set_p_db (MarkFailedSignRecord (wt_Txid wt) (sr_Term req) (sg_db n)) (sg_pool n)) n)); [|done].
  rewrite bind_modify bind_gets_id Ht. unfold hasTxInWaitting in *. cbn [sg_waiting set_sg_cache set_sg_pool].
  rewrite Hn. cbn [negb andb]. rewrite Hd.
  rewrite (bind_Ret _ _ _ tt (set_sg_pool (set_p_db (DeleteSignMsg (wt_Txid wt)
    (MarkFailedSignRecord (wt_Txid wt) (sr_Term req) (sg_db n))) (sg_pool n))
    (set_sg_cache (delete (wt_Txid wt) (sg_cache n)) n))); [|done].
  unfold zoom. cbn [sg_pool set_sg_pool].
  destruct (run_AddFresh wt (set_p_db (DeleteSignMsg (wt_Txid wt)
    (MarkFailedSignRecord (wt_Txid wt) (sr_Term req) (sg_db n))) (sg_pool n))) as (p' & -> & Hp').
  eexists. split; [done|]. by split.
Qed.

(** One node can make any request fail: its refusals are not remembered by node, so
    one more than the number of faulty nodes, all from the same node, count as
    that many nodes. The request is marked as failed, forgotten, and its transaction put
    back. *)
Theorem one_node_fails_request c now msg n req newly wt q aq :
  sd_Code msg ≠ SIGNED → sg_cache n !! sd_TxId msg = None →
  IsSignFailed (sd_TxId msg) (sd_Term msg) (sg_db n) = false →
  GetSignMsg (sd_TxId msg) (sg_db n) = Val (Some req) → sr_NewlyTx req = Some newly →
  sr_WatchedTx req = Some wt → wt_Txid wt = sd_TxId msg → IsTransferTx wt = false → IsDistributionTx wt = false →
  hasTxInWaitting (sd_TxId msg) n = false →
  sign_quorums c req wt (sg_db n) = Some (q, aq) → 0 < q → 0 ≤ aq < 2^31 - 1 →
  ∃ n', for_each (replicate (Z.to_nat (aq + 1)) msg) (doSave c now) n = Ret tt n' ∧
    IsSignFailed (sd_TxId msg) (sr_Term req) (sg_db n') = true ∧
    GetSignMsg (sd_TxId msg) (sg_db n') = Val None ∧ sg_cache n' !! sd_TxId msg = None.
Proof.
  intros Hc Hn Hf Hr Hnew Hwt Hid Ht Hd Hw Hq Hq0 Haq.
  destruct (refusals c now msg req newly wt q aq n Hf Hr Hnew Hwt Hq Hq0 Haq n 0 (Z.to_nat aq))
    as (n1 & Hn1 & Hr1 & Hrun); [done|done|by apply refused_0|lia..|].
  destruct (doSave_refuse c now msg req newly wt q aq n Hf Hr Hnew Hwt Hq Hq0 Haq n1 aq)
    as (n2 & [Hp2 Hw2] & _ & Hrun2); [done|done|by rewrite Z2Nat.id in Hr1; [|lia]|lia|].
  assert ((aq + 1 >? aq) = true) as E by lia. rewrite E in Hrun2.
  destruct (run_clearOnFail req wt n2) as (n' & Hcl & Hdb & Hca); [done..| |].
  { rewrite Hid. unfold hasTxInWaitting in *. by rewrite Hw2. }
  exists n'. split.
  - replace (Z.to_nat (aq + 1)) with (Z.to_nat aq + 1)%nat by lia. rewrite replicate_add for_each_app.
    rewrite (bind_Ret _ _ _ _ _ Hrun). cbn [replicate for_each]. by rewrite (bind_Ret _ _ _ tt n'); [|rewrite Hrun2].
  - rewrite Hdb Hca -Hid lookup_delete_eq. split_and!; [| |done].
    + unfold IsSignFailed, DeleteSignMsg, MarkFailedSignRecord. rewrite Get_Delete_ne; [|key_ne].
      rewrite Get_Put. done.
    + unfold GetSignMsg, DeleteSignMsg, get_pb. by rewrite Get_Delete.
Qed.

(** ** Results that race

    [m] goroutines with the same result: each looks the counter up before any of them
    counts. *)
Fixpoint race c (now : Z) msg (m : nat) : go SignNode unit :=
  match m with
  | O => mret tt
  | S m =>
      r ← save_begin now msg;
      _ ← race c now msg m;
      match r with None => mret tt | Some (loc, req) => save_end c now msg loc req end
  end.
Section Race.
Variables (c : Cluster) (now : Z) (msg : SignedResult) (req : SignTxRequest) (newly : NewlyTx) (wt : WatchedTxInfo).
Variables (q aq : Z) (n : SignNode) (loc : nat).
Hypothesis Hfailed : IsSignFailed (sd_TxId msg) (sd_Term msg) (sg_db n) = false.
Hypothesis Hreq : GetSignMsg (sd_TxId msg) (sg_db n) = Val (Some req).
Hypothesis Hnewly : sr_NewlyTx req = Some newly.
Hypothesis Hwt : sr_WatchedTx req = Some wt.
Hypothesis Hcode : sd_Code msg = SIGNED.
Hypothesis Hverify : verifySign c (sd_To msg) (nt_Data newly) (sd_Data msg) (sd_NodeId msg) = Val true.
Hypothesis Hq : sign_quorums c req wt (sg_db n) = Some (q, aq).
Hypothesis Hq0 : 0 < q < 2^31.

(** [j] of them have counted. *)
Definition raced (j : Z) n' : Prop := ∃ k,
  sg_pool n' = sg_pool n ∧ sg_cache n' !! sd_TxId msg = Some loc ∧ sg_heap n' !! loc = Some k ∧
  rs_cache k = (if j =? 0 then ∅ else {[ sd_NodeId msg := msg ]}) ∧ rs_signedCount k = j ∧
  rs_errCnt k ≤ aq ∧ rs_done k = false.
Lemma race_begin n1 : raced 0 n1 →
  ∃ n2, save_begin now msg n1 = Ret (Some (loc, req)) n2 ∧ raced 0 n2.
Proof.
  intros (k & Hp & Hi & Hk & Hca & Hs & He & Hd).
  assert (sg_db n1 = sg_db n) as Hdb by (unfold sg_db; by rewrite Hp).
  eexists. split.
  - apply (run_save_begin now msg n1 req n1 loc k); [by rewrite Hdb..| |done|by rewrite Hca].
    unfold opened. by rewrite Hi.
  - exists (addTotalCount k). split_and!; try done. by apply set_counter_lookup.
Qed.
Lemma race_end n1 j : raced j n1 → 0 ≤ j < q →
  ∃ n2, if j + 1 <? q then raced (j + 1) n2 ∧ save_end c now msg loc req n1 = Ret tt n2
        else save_end c now msg loc req n1 =
             sendTxToChain (sd_To msg) (nt_Data newly) (gather {[ sd_NodeId msg := msg ]} (node_indices c) q []) msg req n2.
Proof.
  intros (k & Hp & Hi & Hk & Hca & Hs & He & Hd) Hj.
  pose proof (run_save_end c now msg n1 loc req newly wt k true q aq Hnewly Hwt) as Hrun.
  unfold verdict, counted in Hrun. rewrite bool_decide_eq_true_2 in Hrun; [|done].
  specialize (Hrun Hverify Hk). unfold sg_db in Hrun. rewrite Hp in Hrun. specialize (Hrun Hq).
  cbn [andb] in Hrun. cbn zeta in Hrun.
  change ((addSignedCount ∘ addCache (sd_NodeId msg) msg) k) with (addSignedCount (addCache (sd_NodeId msg) msg k)) in Hrun.
  set (k' := addSignedCount _) in Hrun.
  set (n2 := set_counter loc (addSignedCount ∘ addCache (sd_NodeId msg) msg) n1) in Hrun.
  assert (rs_cache k' = {[ sd_NodeId msg := msg ]}) as Hca'.
  { cbn. rewrite Hca. destruct (j =? 0); [done|]. by rewrite -insert_empty insert_insert_eq. }
  assert (rs_signedCount k' = j + 1) as Hs' by (cbn; rewrite Hs wrap32_small; [lia|unfold i32; lia]).
  assert (rs_done k' = false) as Hd' by exact Hd. assert ((rs_errCnt k' >? aq) = false) as He' by (cbn; lia).
  rewrite Hs' Hd' He' Hca' andb_true_r Z.geb_leb Z.leb_antisym in Hrun.
  destruct (j + 1 <? q); cbn [negb] in Hrun.
  - exists n2. split; [|exact Hrun]. exists k'. split_and!; try done.
    + by apply (set_counter_lookup loc (addSignedCount ∘ addCache (sd_NodeId msg) msg)).
    + rewrite Hca'. by assert ((j + 1 =? 0) = false) as -> by lia.
  - by exists (set_counter loc (setDone now) n2).
Qed.
Lemma race_counts n1 m : raced 0 n1 → Z.of_nat m < q →
  ∃ n2, race c now msg m n1 = Ret tt n2 ∧ raced (Z.of_nat m) n2.
Proof.
  revert n1. induction m as [|m IH]; intros n1 Hr Hm; [by exists n1|].
  destruct (race_begin n1 Hr) as (n2 & Hb & Hr2). destruct (IH n2 Hr2) as (n3 & Hrun & Hr3); [lia|].
  destruct (race_end n3 (Z.of_nat m) Hr3) as (n4 & He); [lia|].
  assert ((Z.of_nat m + 1 <? q) = true) as E by lia. rewrite E in He. destruct He as [Hr4 He].
  exists n4. replace (Z.of_nat (S m)) with (Z.of_nat m + 1) by lia. split; [|done].
  cbn [race]. by rewrite (bind_Ret _ _ _ _ _ Hb) (bind_Ret _ _ _ _ _ Hrun).
Qed.
End Race.

(** C34. Results are counted, not nodes: as many copies of one node's result as the quorum,
    if each is looked up before the first is counted, send the transaction with the share
    of that node alone. *)
Theorem racing_copies_make_quorum c now msg n req loc k newly wt q aq :
  sg_cache n !! sd_TxId msg = Some loc → sg_heap n !! loc = Some k → rs_cache k = ∅ → rs_signedCount k = 0 →
  rs_errCnt k ≤ aq → rs_done k = false →
  IsSignFailed (sd_TxId msg) (sd_Term msg) (sg_db n) = false →
  GetSignMsg (sd_TxId msg) (sg_db n) = Val (Some req) → sr_NewlyTx req = Some newly →
  sr_WatchedTx req = Some wt → sd_Code msg = SIGNED → sd_NodeId msg ∈ node_indices c →
  verifySign c (sd_To msg) (nt_Data newly) (sd_Data msg) (sd_NodeId msg) = Val true →
  sign_quorums c req wt (sg_db n) = Some (q, aq) → 0 < q < 2^31 →
  ∃ n', race c now msg (Z.to_nat q) n = sendTxToChain (sd_To msg) (nt_Data newly) [sd_Data msg] msg req n'.
Proof.
  intros Hloc Hk Hca Hs He Hd Hf Hr Hnew Hwt Hc Hi Hv Hq Hq0.
  assert (raced msg aq n loc 0 n) as Hr0 by (exists k; by split_and!).
  destruct (Z.to_nat q) as [|m] eqn:Em; [lia|].
  destruct (race_begin now msg req aq n loc Hf Hr n Hr0) as (n1 & Hb & Hr1).
  destruct (race_counts c now msg req newly wt q aq n loc Hf Hr Hnew Hwt Hc Hv Hq Hq0 n1 m Hr1) as (n2 & Hrun & Hr2); [lia|].
  destruct (race_end c now msg req newly wt q aq n loc Hnew Hwt Hc Hv Hq Hq0 n2 (Z.of_nat m) Hr2) as (n3 & Hend); [lia|].
  assert ((Z.of_nat m + 1 <? q) = false) as E by lia. rewrite E in Hend. exists n3.
  cbn [race]. rewrite (bind_Ret _ _ _ _ _ Hb) (bind_Ret _ _ _ _ _ Hrun) Hend. f_equal.
  rewrite gather_take; [|cbn; lia]. cbn [app length].
  assert (shares_of {[sd_NodeId msg := msg]} (node_indices c) = [sd_Data msg]) as ->.
  2:{ rewrite Nat.sub_0_r Em. by destruct m. }
  unfold shares_of. apply list_elem_of_split in Hi as (l1 & l2 & Hl).
  pose proof (node_indices_NoDup c) as Hnd. rewrite Hl in Hnd |- *.
  assert (∀ l, sd_NodeId msg ∉ l → omap (λ i, ({[sd_NodeId msg := msg]} : gmap Z SignedResult) !! i) l = []) as Ho.
  { induction l as [|i l IH]; [done|]. intros Hni. cbn. rewrite lookup_singleton_ne; [apply IH|]; set_solver. }
  apply NoDup_app in Hnd as (_ & Hd1 & [Hd2 _]%NoDup_cons).
  rewrite omap_app. cbn [omap list_omap]. rewrite Ho; [|set_solver]. rewrite lookup_singleton_eq Ho; [done|done].
Qed.
End SigningProps.
