(* ===== verification/SignProps.v ===== *)
(** * Properties of signing requests

    A node puts its share to a transaction only when it has watched the transfer
    itself, has not signed for it and finds every payment in the outputs; it signs at
    most once for a transfer. Outputs after the payments are not checked, and a
    signature that fails on "xin" ends the processes of the other nodes. *)
From S2P Require Import Prelude.
From S2P Require Import GoLib.
From S2P Require Import Crypto.
From S2P Require Import Messages.
From S2P Require Import ProtoOps.
From S2P Require Import Cluster.
From S2P Require Import Store.
From S2P Require Import DbOps.
From S2P Require Import TxPool.
From S2P Require Import Consensus.
From S2P Require Import ConsensusProps.
From S2P Require Import ChainTx.
From S2P Require Import SignTx.
From S2P Require Import Distribution.
From S2P Require Import Signing.
From Stdlib Require Import SpecFloat.

Section SignProps.
Context `{KV} `{Wire} `{Watchers} `{Signatures} `{Chains}.
Variables (self : Z) (signer : SecureSigner) (mintFeeRate burnFeeRate now : Z).
Implicit Types (w : World) (wt : WatchedTxInfo) (msg : SignTxRequest) (i : string).

(** Nothing but the inbox of the pool has changed. *)
Definition quiet w w' : Prop :=
  w_db w' = w_db w ∧ w_tasks w' = w_tasks w ∧ w_cluster w' = w_cluster w ∧
  watchedTxInfo (p_ts (w_pool w')) = watchedTxInfo (p_ts (w_pool w)) ∧
  txInfoById (p_ts (w_pool w')) = txInfoById (p_ts (w_pool w)).
Lemma quiet_refl w : quiet w w.
Proof. done. Qed.

(** The node knows the transfer: it is in its pool, or else found on the chain. *)
Definition watched_ok wt w : Prop :=
  match watchedTxInfo (p_ts (w_pool w)) !! wt_Txid wt with
  | Some mine => WatchedTxInfo_EqualTo wt mine = true
  | None => ∃ found, chain_watched wt = Val (Some (Some found)) ∧ WatchedTxInfo_EqualTo found wt = true
  end.
(** ... and has not handled it yet. *)
Definition cleared wt w : Prop :=
  watched_ok wt w ∧ HasTxInMemPool (wt_Txid wt) (p_ts (w_pool w)) = false ∧
  HasTxInDB (wt_Txid wt) (w_db w) = false ∧ GetSignMsg (wt_Txid wt) (w_db w) = Val None.

Lemma wp_validateWatchedTx wt w :
  wp (validateWatchedTx wt) (λ r w', quiet w w' ∧ (r = true → watched_ok wt w)) (quiet w) w.
Proof.
  unfold validateWatchedTx, watched_ok. apply wp_bind, wp_gets. cbn [id]. unfold ValidateWatchedTx.
  destruct (_ !! _) as [mine|].
  - destruct (WatchedTxInfo_EqualTo wt mine) eqn:E; by apply wp_ret.
  - apply wp_bind, wp_lift; [|done]. intros [found|] Hf; [|by apply wp_ret].
    apply wp_bind, wp_lift; [|done]. intros new Hn. destruct found; [|done]. injection Hn as ->.
    apply wp_bind, wp_zoom, wp_modify. apply wp_ret. split; [done|]. intros He. by exists new.
Qed.
Lemma wp_baseCheck wt w :
  wp (baseCheck wt) (λ r w', quiet w w' ∧ (r = validatePass → cleared wt w)) (quiet w) w.
Proof.
  unfold baseCheck. apply wp_bind. eapply wp_mono; [apply wp_validateWatchedTx| |done].
  intros [] w1 [Hq Hv]; cbn [negb]; [|by apply wp_ret].
  apply wp_bind, wp_gets. cbn [id]. pose proof Hq as (Hd & _ & _ & _ & Hm).
  unfold HasTxInMemPool. rewrite Hd Hm. fold (HasTxInMemPool (wt_Txid wt) (p_ts (w_pool w))).
  destruct (HasTxInMemPool _ _) eqn:E1; cbn [orb]; [by apply wp_ret|].
  destruct (HasTxInDB _ _) eqn:E2; [by apply wp_ret|].
  apply wp_bind, wp_reads; [|done]. intros s Hs. apply wp_ret. split; [done|].
  destruct s; [done|]. intros _. rewrite Hd in Hs. split_and!; auto.
Qed.

(** Every payment has its output, in order. *)
Definition pays wt (price : spec_float) (l : list AddressInfo) (outs : list (bytes * Z)) : Prop :=
  ∀ (i : nat) a, l !! i = Some a → ∃ out, outs !! i = Some out ∧
    ExtractPkScriptAddr out.1 (wt_To wt) = ai_Address a ∧ out.2 = output_amount burnFeeRate wt price (ai_Amount a).
Lemma check_outputs_pays wt price l : ∀ outs, check_outputs burnFeeRate wt price l outs = Val true → pays wt price l outs.
Proof.
  induction l as [|a l IH]; intros outs Hc i x Hx; [done|]. cbn in Hc.
  destruct outs as [|out outs]; [done|]. destruct (bool_decide _ && _) eqn:E; [|done].
  apply andb_true_iff in E as [Ea Em]. to_prop. destruct i as [|i]; cbn in Hx |- *.
  - injection Hx as <-. exists out. auto.
  - by apply IH.
Qed.
Lemma check_payments_pass wt ts symbol tx :
  check_payments burnFeeRate wt ts symbol tx = Val validatePass → ∃ price, pays wt price (wt_RechargeList wt) (TxOut tx).
Proof.
  unfold check_payments. destruct (wt_RechargeList wt) as [|a l]; [by exists (S754_zero false)|].
  destruct (bool_decide (wt_From wt = "xin")).
  - destruct (TxOut tx) as [|out outs] eqn:Eo; [done|]. destruct (good_price _) as [price|]; [|done].
    intros ([] & Hc & Hr)%pan_bind_Val; [|done]. exists price. by apply check_outputs_pays.
  - intros ([] & Hc & Hr)%pan_bind_Val; [|done]. exists (S754_zero false). by apply check_outputs_pays.
Qed.
(** A request that a node signs for. *)
Definition payable msg wt w : Prop :=
  cleared wt w ∧ ∃ newly price, sr_NewlyTx msg = Some newly ∧
    pays wt price (wt_RechargeList wt) (TxOut (Deserialize (nt_Data newly)).1) ∧
    outputs_count_ok wt (Deserialize (nt_Data newly)).1 = true.
Lemma wp_validateBtcSignTx msg wt w :
  wp (validateBtcSignTx burnFeeRate now msg wt)
     (λ r w', quiet w w' ∧ (r = validatePass → IsTransferTx wt = false → payable msg wt w)) (quiet w) w.
Proof.
  unfold validateBtcSignTx. apply wp_bind, wp_lift; [|done]. intros newly Hnew.
  destruct (sr_NewlyTx msg) as [newly'|] eqn:En; [|done]. injection Hnew as ->.
  destruct (IsTransferTx wt) eqn:Et; [by apply wp_bind, wp_gets, wp_ret|].
  apply wp_bind. eapply wp_mono; [apply wp_baseCheck| |done]. intros base w1 [Hq Hb].
  destruct (bool_decide (base = validatePass)) eqn:Eb; cbn [negb]; to_prop.
  2:{ apply wp_ret. split; [done|]. by intros ->. }
  destruct (outputs_count_ok wt _) eqn:Ec; cbn [negb]; [|by apply wp_ret].
  destruct (_ && _); [by apply wp_ret|]. destruct (coin_symbol _) as [symbol|]; [|by apply wp_ret].
  apply wp_lift; [|done]. intros r Hr. split; [done|]. intros -> _. split; [by apply Hb|].
  apply check_payments_pass in Hr as [price Hp]. by exists newly, price.
Qed.

Lemma wp_validateEthSignTx msg wt w :
  wp (validateEthSignTx mintFeeRate msg wt) (λ r w', quiet w w' ∧ (r = validatePass → cleared wt w)) (quiet w) w.
Proof.
  unfold validateEthSignTx. apply wp_bind. eapply wp_mono; [apply wp_baseCheck| |done]. intros base w1 [Hq Hb].
  destruct (bool_decide (base = validatePass)) eqn:Eb; cbn [negb]; to_prop; [|by apply wp_ret].
  destruct (wt_RechargeList wt) as [|a [|]]; try by apply wp_ret.
  apply wp_bind, wp_lift; [|done]. intros newly _. apply wp_ret. split; [done|]. intros _. by apply Hb.
Qed.
Lemma wp_validate_eos symbol_of forth check msg wt w :
  wp (validate_eos now symbol_of forth check msg wt) (λ r w', quiet w w' ∧ (r = validatePass → cleared wt w)) (quiet w) w.
Proof.
  unfold validate_eos. apply wp_bind. eapply wp_mono; [apply wp_baseCheck| |done]. intros base w1 [Hq Hb].
  destruct (bool_decide (base = validatePass)) eqn:Eb; cbn [negb]; to_prop; [|by apply wp_ret].
  apply wp_bind, wp_lift; [|done]. intros newly _. destruct (Unpack _) as [tx|]; [|by apply wp_ret].
  destruct (Actions tx) as [|act [|]]; try by apply wp_ret. destruct (_ >? _); [by apply wp_ret|].
  destruct (symbol_of _) as [[symbol unit]|]; [|by apply wp_ret].
  destruct (good_price _) as [price|]; [|by apply wp_ret].
  apply wp_bind, wp_lift; [|done]. intros r _. apply wp_ret. split; [done|]. intros _. by apply Hb.
Qed.

(** ** What a request does to the signatures of one transfer *)

(** The event announces a signature for the transfer [i]. *)
Definition puts_share (i : string) (e : Event) : bool :=
  match e with
  | SignHandledEvent r => bool_decide (sd_Code r = SIGNED) && bool_decide (sd_TxId r = i)
  | SignedTxEvent _ msgId _ _ => bool_decide (msgId = i)
  | _ => false
  end.
Definition tally (i : string) w : nat := length (filter (λ e, puts_share i e = true) (w_tasks w)).
(** The store holds a request for [i]. *)
Definition noted (i : string) w : Prop := GetSignMsg i (w_db w) ≠ Val None.
Definition kept i w w' : Prop := noted i w → noted i w'.
Definition idle i w w' : Prop := kept i w w' ∧ tally i w' = tally i w.
(** At most one signature, and only while no request is stored; then one is. *)
Definition signs i w w' : Prop :=
  idle i w w' ∨ ¬ noted i w ∧ noted i w' ∧ tally i w' = S (tally i w).

Lemma signs_kept i w w' : signs i w w' → kept i w w'.
Proof. intros [[Hk _]|(_ & Hn & _)]; [done|by intros _]. Qed.
Lemma idle_signs i w w1 w' : idle i w w1 → signs i w1 w' → signs i w w'.
Proof.
  intros [Hk Ht] [[Hk' Ht']|(Hn & Hn' & Ht')]; [left|right].
  - split; [by intros Hn%Hk%Hk'|congruence].
  - split_and!; [by intros Hn2%Hk|done|congruence].
Qed.
Lemma quiet_idle i w w' : quiet w w' → idle i w w'.
Proof. intros (Hd & Ht & _). unfold idle, kept, noted, tally. by rewrite Hd Ht. Qed.
Lemma quiet_noted i w w' : quiet w w' → noted i w' ↔ noted i w.
Proof. intros (Hd & _). unfold noted. by rewrite Hd. Qed.
Lemma GetSignMsg_Set msg i d d' : SetSignMsg msg i d = Val d' → GetSignMsg i d' = Val (Some msg).
Proof. apply get_pb_put_pb. Qed.

Lemma wp_SetSignMsg i msg j w :
  wp (tell (SetSignMsg msg j)) (λ _ w', idle i w w' ∧ noted j w' ∧ GetSignMsg j (w_db w') = Val (Some msg)) (kept i w) w.
Proof.
  apply wp_updates; [|by intros _ ?]. intros w' (d & Hd & [= <-])%pan_bind_Val.
  pose proof (GetSignMsg_Set _ _ _ _ Hd) as Hg.
  assert (noted j (set_w_db d w)) as Hn by (unfold noted, w_db in *; cbn; by rewrite Hg).
  split_and!; [|done|done]. split; [|done]. intros Hi. destruct (decide (j = i)) as [->|Hne]; [done|].
  unfold noted, GetSignMsg in *. erewrite get_pb_ext; [exact Hi|].
  apply (put_pb_same _ _ _ _ Hd). intros [=]. by simplify_eq.
Qed.
Lemma wp_Add e w (Q : unit → World → Prop) E : Q () (set_w_tasks (w_tasks w ++ [e]) w) → wp (Add e) Q E w.
Proof. done. Qed.
Lemma tally_Add i e w :
  tally i (set_w_tasks (w_tasks w ++ [e]) w) = (tally i w + if puts_share i e then 1 else 0)%nat.
Proof.
  unfold tally. cbn [w_tasks set_w_tasks]. rewrite filter_app length_app. f_equal.
  rewrite filter_cons filter_nil. by destruct (puts_share i e).
Qed.
Lemma idle_Add i e w : puts_share i e = false → idle i w (set_w_tasks (w_tasks w ++ [e]) w).
Proof. intros He. split; [exact id|]. rewrite tally_Add He. lia. Qed.

Lemma wp_answer i code wt data t w :
  wp (answer self signer code wt data t)
     (λ _ w', w_db w' = w_db w ∧
        (tally i w' = tally i w ∨ code = SIGNED ∧ wt_Txid wt = i ∧ tally i w' = S (tally i w)) ∧
        ∀ r, SignHandledEvent r ∈ w_tasks w' → SignHandledEvent r ∉ w_tasks w → sd_Code r = code ∧ sd_TxId r = wt_Txid wt)
     (λ w', w' = w) w.
Proof.
  unfold answer. apply wp_bind, wp_lift; [|done]. intros [r|] Hr.
  2:{ apply wp_ret. split_and!; [done|by left|]. by intros r ? ?. }
  assert (sd_Code r = code ∧ sd_TxId r = wt_Txid wt) as [Hc Ht].
  { unfold MakeSignedResult in Hr. apply pan_bind_Val in Hr as (sig & _ & Hr).
    destruct sig; [|done]. by injection Hr as <-. }
  apply wp_Add. split_and!; [done| |].
  - rewrite tally_Add. cbn [puts_share]. destruct (_ && _) eqn:E; [right|left; lia].
    apply andb_true_iff in E as [E1 E2]. to_prop. split_and!; [congruence..|lia].
  - intros r' [Hin|Hr']%elem_of_app Hni; [done|]. apply list_elem_of_singleton in Hr'. by injection Hr' as ->.
Qed.
Lemma wp_save_answer i msg wt code data t w :
  (code = SIGNED → wt_Txid wt = i → ¬ noted i w) →
  wp (save_answer self signer msg wt code data t) (λ _ w', signs i w w') (kept i w) w.
Proof.
  intros Hn. unfold save_answer. apply wp_bind. eapply wp_mono; [apply wp_SetSignMsg| |done].
  intros _ w1 ((Hk & Ht) & Hj & _). eapply wp_mono; [apply (wp_answer i)| |].
  - intros _ w' (Hd & Hc & _). assert (kept i w w') as Hk'.
    { unfold kept, noted in *. by rewrite Hd. }
    destruct Hc as [Hc|(Hs & Hi & Hc)]; [left|right].
    + split; [done|congruence].
    + split_and!; [by apply Hn| |congruence]. unfold noted in *. rewrite Hd. by rewrite <- Hi.
  - by intros w' ->.
Qed.

(** A bind whose first part is idle. *)
Lemma wp_idle_bind {A B} i (m : go World A) (k : A → go World B) w (Q : A → World → Prop) :
  wp m (λ a w1, idle i w w1 ∧ Q a w1) (kept i w) w →
  (∀ a w1, idle i w w1 → Q a w1 → wp (k a) (λ _ w', signs i w1 w') (kept i w1) w1) →
  wp (m ≫= k) (λ _ w', signs i w w') (kept i w) w.
Proof.
  intros Hm Hk. apply wp_bind. eapply wp_mono; [exact Hm| |done]. intros a w1 [Hi HQ].
  eapply wp_mono; [by apply Hk| |].
  - intros b w'. by apply idle_signs.
  - intros w' Hw Hn. by apply Hw, Hi.
Qed.
Lemma wp_pure_bind {A B} i (p : pan A) (k : A → go World B) w :
  (∀ a, p = Val a → wp (k a) (λ _ w', signs i w w') (kept i w) w) →
  wp (lift p ≫= k) (λ _ w', signs i w w') (kept i w) w.
Proof. intros Hk. by apply wp_bind, wp_lift; [|intros _ ?]. Qed.
Lemma idle_refl i w : idle i w w.
Proof. split; [exact id|done]. Qed.
Lemma signs_refl i w : signs i w w.
Proof. left. apply idle_refl. Qed.
Lemma wp_save_idle i msg j w : wp (tell (SetSignMsg msg j)) (λ _ w', signs i w w') (kept i w) w.
Proof. eapply wp_mono; [apply wp_SetSignMsg| |done]. intros _ w' (Hi & _). by left. Qed.
Lemma wp_save_bind {B} i msg j (k : unit → go World B) w :
  (∀ w1, idle i w w1 → wp (k ()) (λ _ w', signs i w1 w') (kept i w1) w1) →
  wp (tell (SetSignMsg msg j) ≫= k) (λ _ w', signs i w w') (kept i w) w.
Proof.
  intros Hk. apply (wp_idle_bind i _ _ _ (λ _ _, True)).
  - eapply wp_mono; [apply wp_SetSignMsg| |done]. by intros _ w1 (Hi & _).
  - intros [] w1 Hi _. by apply Hk.
Qed.
Lemma wp_when_accuse {B} i b t (k : unit → go World B) w :
  (∀ w1, idle i w w1 → wp (k ()) (λ _ w', signs i w1 w') (kept i w1) w1) →
  wp (when b (Add (NewWeakAccuseEvent t)) ≫= k) (λ _ w', signs i w w') (kept i w) w.
Proof.
  intros Hk. apply (wp_idle_bind i _ _ _ (λ _ _, True)).
  - apply wp_when; intros _; [|by split; [apply idle_refl|]]. apply wp_Add. split; [by apply idle_Add|done].
  - intros [] w1 Hi _. by apply Hk.
Qed.
(** The check of a request, with what it means for the transfer [i]. *)
Lemma wp_check_bind {B} i wt (m : go World SignCheck) (k : SignCheck → go World B) w (c : Prop) :
  wp m (λ r w', quiet w w' ∧ (r = validatePass → c)) (quiet w) w → (c → wt_Txid wt = i → ¬ noted i w) →
  (∀ r w1, (r = validatePass → wt_Txid wt = i → ¬ noted i w1) →
    wp (k r) (λ _ w', signs i w1 w') (kept i w1) w1) →
  wp (m ≫= k) (λ _ w', signs i w w') (kept i w) w.
Proof.
  intros Hm Hc Hk. apply (wp_idle_bind i _ _ _ (λ r w1, quiet w w1 ∧ (r = validatePass → c))).
  - eapply wp_mono; [exact Hm| |]; intros; [|by apply quiet_idle].
    naive_solver eauto using quiet_idle.
  - intros r w1 _ [Hq Hr]. apply Hk. intros Hp Hi. rewrite (quiet_noted i _ _ Hq). by apply Hc; [apply Hr|].
Qed.
Lemma cleared_unnoted i wt w : cleared wt w → wt_Txid wt = i → ¬ noted i w.
Proof. intros (_ & _ & _ & Hg) <- Hn. by apply Hn. Qed.

Lemma wp_sign_btc i msg wt t w : String.prefix "TransferTx" i = false →
  wp (sign_btc self signer burnFeeRate now msg wt t) (λ _ w', signs i w w') (kept i w) w.
Proof.
  intros Hi. unfold sign_btc, btc_rest.
  apply (wp_check_bind i wt _ _ _ (IsTransferTx wt = false → payable msg wt w)).
  { eapply wp_mono; [apply wp_validateBtcSignTx| |done]. intros r w' [Hq Hr]. split; [done|]. intros -> Ht. by apply Hr. }
  { intros Hp He. destruct (IsTransferTx wt) eqn:Et.
    - unfold IsTransferTx in Et. rewrite He Hi andb_false_r in Et. done.
    - eapply cleared_unnoted; [by apply Hp|done]. }
  intros r w1 Hr. destruct (bool_decide (r = validatePass)) eqn:E; cbn [negb]; to_prop.
  - apply wp_pure_bind. intros [sig ok] _. destruct (ok =? 0); cbn [negb]; apply wp_save_answer; [by auto|by intros ?].
  - apply wp_when_accuse. intros w2 _. apply wp_save_answer. by intros ?.
Qed.
Lemma wp_sign_eos_chain i chain msg wt t w :
  wp (sign_eos_chain self signer now chain msg wt t) (λ _ w', signs i w w') (kept i w) w.
Proof.
  unfold sign_eos_chain, eos_rest. apply (wp_check_bind i wt _ _ _ (cleared wt w)).
  { destruct (bool_decide _); apply wp_validate_eos. }
  { apply cleared_unnoted. }
  intros r w1 Hr. destruct (bool_decide (r = validatePass)) eqn:E; cbn [negb]; to_prop.
  - apply wp_pure_bind. intros [sig|] _; [by apply wp_save_answer; auto|].
    destruct (bool_decide (chain = "xin")); [by apply wp_save_answer; auto|]. apply signs_refl.
  - apply wp_save_bind. intros w2 _. apply wp_when_accuse. intros w3 _.
    eapply wp_mono; [apply (wp_answer i)| |by intros w' -> ?].
    intros _ w' (Hd & [Ht|(? & _)] & _); [|done]. left. split; [|done]. unfold kept, noted. by rewrite Hd.
Qed.
Lemma wp_sign_eth i msg wt w :
  wp (sign_eth signer mintFeeRate msg wt) (λ _ w', signs i w w') (kept i w) w.
Proof.
  unfold sign_eth, eth_rest. apply (wp_check_bind i wt _ _ _ (cleared wt w)).
  { apply wp_validateEthSignTx. } { apply cleared_unnoted. }
  intros r w1 Hr. destruct (bool_decide (r = validatePass)) eqn:E; cbn [negb]; to_prop.
  2:{ apply wp_save_bind. intros w2 _. apply wp_when; intros _; [|apply signs_refl]. apply wp_Add. left. by apply idle_Add. }
  apply wp_pure_bind. intros newly _. apply wp_bind, wp_reads; [intros h _|by intros _ ?].
  set (finish := (_ ← run_pool (DeleteFresh _); _)).
  assert (∀ w2, (wt_Txid wt = i → ¬ noted i w2) → wp finish (λ _ w', signs i w2 w') (kept i w2) w2) as Hfin.
  { intros w2 Hn2. unfold finish. apply wp_bind, wp_zoom, wp_modify. apply wp_bind.
    eapply wp_mono; [apply wp_SetSignMsg| |done]. intros _ w3 ((Hk3 & Ht3) & Hj & _). apply wp_Add.
    destruct (decide (wt_Txid wt = i)) as [Hi|Hne].
    - right. split_and!; [by apply Hn2|by rewrite <- Hi|].
      + rewrite tally_Add. cbn [puts_share]. rewrite bool_decide_eq_true_2; [|done]. rewrite Ht3. unfold tally. cbn. lia.
    - left. split; [exact Hk3|]. rewrite tally_Add. cbn [puts_share]. rewrite bool_decide_eq_false_2; [|done].
      rewrite Ht3. unfold tally. cbn. lia. }
  destruct (_ || _); [|by apply Hfin, Hr]. destruct (SendTranxByInput _ _ _) as [hash|]; [|apply wp_save_idle].
  apply (wp_idle_bind i _ _ _ (λ _ w2, noted i w2 ↔ noted i w1)).
  - apply wp_updates; [|by intros _ ?]. intros w2 (d & [= <-] & [= <-])%pan_bind_Val.
    assert (noted i (set_w_db (SetETHTxHash (wt_Txid wt) hash (w_db w1)) w1) ↔ noted i w1) as Hn; [|by split; [split; [exact (proj2 Hn)|]|]].
    unfold noted, GetSignMsg. erewrite get_pb_ext; [done|]. unfold w_db, SetETHTxHash. cbn. apply Get_Put_ne. key_ne.
  - intros [] w2 _ Hn. apply Hfin. rewrite Hn. by apply Hr.
Qed.
Lemma wp_handleSignTx i msg w : String.prefix "TransferTx" i = false →
  wp (handleSignTx self signer mintFeeRate burnFeeRate now msg) (λ _ w', signs i w w') (kept i w) w.
Proof.
  intros Hi. unfold handleSignTx. apply wp_pure_bind. intros wt _. apply wp_bind, wp_reads; [intros t _|by intros _ ?].
  destruct (_ >? t).
  - apply (wp_idle_bind i _ _ _ (λ _ _, True)); [apply wp_Add; split; [by apply idle_Add|done]|].
    intros _ w1 _ _. destruct (_ || _); [|apply signs_refl]. apply wp_pure_bind. intros r Hr.
    apply wp_save_bind. intros w2 _. destruct r as [r|]; [|apply signs_refl]. apply wp_Add. left. apply idle_Add.
    unfold MakeSignedResult in Hr. apply pan_bind_Val in Hr as (sig & _ & Hr). destruct sig; [|done].
    by injection Hr as <-.
  - destruct (_ =? t); cbn [negb]; [|apply signs_refl].
    destruct (is_btc_chain _); [by apply wp_sign_btc|]. destruct (bool_decide _); [apply wp_sign_eth|].
    destruct (bool_decide _); [apply wp_sign_eos_chain|]. destruct (bool_decide _); [apply wp_sign_eos_chain|apply signs_refl].
Qed.

(** ** What a node signs for *)
Lemma wp_save_answer_new msg wt code data t w :
  wp (save_answer self signer msg wt code data t)
     (λ _ w', GetSignMsg (wt_Txid wt) (w_db w') = Val (Some msg) ∧
        ∀ r, SignHandledEvent r ∈ w_tasks w' → SignHandledEvent r ∉ w_tasks w → sd_Code r = code)
     (λ _, True) w.
Proof.
  unfold save_answer. apply wp_bind, wp_updates; [|done]. intros w1 (d & Hd & [= <-])%pan_bind_Val.
  eapply wp_mono; [apply (wp_answer "")| |done]. intros _ w' (Hdb & _ & Hr).
  split; [|by intros r Hin Hni; apply Hr]. rewrite Hdb. exact (GetSignMsg_Set _ _ _ _ Hd).
Qed.
Lemma wp_sign_btc_pays msg wt t w : IsTransferTx wt = false →
  wp (sign_btc self signer burnFeeRate now msg wt t)
     (λ _ w', GetSignMsg (wt_Txid wt) (w_db w') = Val (Some msg) ∧
        ∀ r, SignHandledEvent r ∈ w_tasks w' → SignHandledEvent r ∉ w_tasks w → sd_Code r = SIGNED → payable msg wt w)
     (λ _, True) w.
Proof.
  intros Ht. unfold sign_btc, btc_rest. apply wp_bind. eapply wp_mono; [apply wp_validateBtcSignTx| |done].
  intros r w1 [(_ & Htasks & _) Hr]. destruct (bool_decide (r = validatePass)) eqn:E; cbn [negb]; to_prop.
  - apply wp_bind, wp_lift; [|done]. intros [sig ok] _. destruct (negb _);
      (eapply wp_mono; [apply wp_save_answer_new| |done]); intros _ w' (Hg & Hn); (split; [done|]); intros; by apply Hr.
  - apply wp_bind, wp_when; intros _; [apply wp_Add|];
      (eapply wp_mono; [apply wp_save_answer_new| |done]); intros _ w' (Hg & Hn); (split; [done|]); intros r' Hin Hni Hc.
    + rewrite (Hn r') in Hc; [done..|]. cbn. rewrite Htasks. set_solver.
    + rewrite (Hn r') in Hc; [done..|]. by rewrite Htasks.
Qed.

(** ** What is not checked *)
Lemma check_outputs_app wt price l extra : ∀ outs,
  check_outputs burnFeeRate wt price l outs = Val true → check_outputs burnFeeRate wt price l (outs ++ extra) = Val true.
Proof.
  induction l as [|a l IH]; intros outs Hc; [done|]. cbn in Hc |- *. destruct outs as [|out outs]; [done|].
  cbn [app]. destruct (bool_decide _ && _); [by apply IH|done].
Qed.
Lemma check_payments_app wt ts symbol tx tx' extra : TxOut tx' = TxOut tx ++ extra →
  check_payments burnFeeRate wt ts symbol tx = Val validatePass →
  check_payments burnFeeRate wt ts symbol tx' = Val validatePass.
Proof.
  intros He. unfold check_payments. destruct (wt_RechargeList wt) as [|a l]; [done|].
  assert (∀ price, (r ← check_outputs burnFeeRate wt price (a :: l) (TxOut tx);
                    mret (if r : bool then validatePass else wrongInputOutput)) = Val validatePass →
                   (r ← check_outputs burnFeeRate wt price (a :: l) (TxOut tx');
                    mret (if r : bool then validatePass else wrongInputOutput)) = Val validatePass) as Hc.
  { intros price ([] & Hc & Hr)%pan_bind_Val; [|done]. by rewrite He (check_outputs_app _ _ _ _ _ Hc). }
  destruct (bool_decide _); [|apply Hc]. destruct (TxOut tx) as [|out outs] eqn:Eo; [done|].
  rewrite He. cbn [app]. destruct (good_price _) as [price|]; [|done].
  specialize (Hc price). rewrite He in Hc. exact Hc.
Qed.
(** C35. Only the outputs that pay a recipient are compared: a transaction that passes still
    passes when up to two outputs, of any address and amount, are added after them. *)
Theorem extra_outputs_unchecked msg msg' wt newly newly' extra w w' :
  sr_NewlyTx msg = Some newly → sr_NewlyTx msg' = Some newly' → nt_Timestamp newly' = nt_Timestamp newly →
  TxOut (Deserialize (nt_Data newly')).1 = TxOut (Deserialize (nt_Data newly)).1 ++ extra →
  length (TxOut (Deserialize (nt_Data newly)).1) = length (wt_RechargeList wt) → (length extra ≤ 2)%nat →
  IsTransferTx wt = false →
  validateBtcSignTx burnFeeRate now msg wt w = Ret validatePass w' →
  validateBtcSignTx burnFeeRate now msg' wt w = Ret validatePass w'.
Proof.
  intros Hn Hn' Hts Hout Hlen Hx Ht. unfold validateBtcSignTx. rewrite Hn Hn'.
  rewrite !(bind_lift (deref (Some _)) _ _ _ eq_refl) Ht Hts.
  intros (base & w1 & Hb & Hrun)%bind_Ret_inv. rewrite (bind_Ret _ _ _ _ _ Hb).
  destruct (negb (bool_decide _)); [done|].
  assert (outputs_count_ok wt (Deserialize (nt_Data newly')).1 = true) as ->.
  { unfold outputs_count_ok. rewrite Hout length_app Hlen. destruct (length extra) as [|[|[|]]] eqn:E; [..|lia].
    - by rewrite Nat.add_0_r Nat.eqb_refl.
    - rewrite (Nat.eqb_refl (_ + 1)) orb_true_r. done.
    - rewrite (Nat.eqb_refl (_ + 2)) !orb_true_r. done. }
  destruct (negb (outputs_count_ok _ _)); [done|]. cbn [negb]. destruct (_ && _); [done|].
  destruct (coin_symbol _) as [symbol|]; [|done]. unfold lift in *.
  destruct (check_payments _ _ _ _ (Deserialize (nt_Data newly)).1) as [r|] eqn:Ec; [|done].
  injection Hrun as -> <-. by rewrite (check_payments_app _ _ _ _ _ _ Hout Ec).
Qed.

(** A node whose keystore fails on "xin" announces a signature without a share; the node
    that verifies it for the same request takes the first of no shares, and its
    process ends. *)
Theorem failed_xin_signature_crashes_peers msg wt t w w1 d r newly tx :
  sr_NewlyTx msg = Some newly → nt_Data newly ≠ "" → Unpack (nt_Data newly) = Some tx → PKMSign "xin" tx = None →
  wt_To wt = "xin" → validateXINSignTx now msg wt w = Ret validatePass w1 →
  SetSignMsg msg (wt_Txid wt) (w_db w1) = Val d →
  MakeSignedResult SIGNED self (wt_Txid wt) [] "xin" t signer = Val (Some r) →
  (∃ w', sign_eos_chain self signer now "xin" msg wt t w = Ret tt w' ∧ SignHandledEvent r ∈ w_tasks w') ∧
  ∀ `{DistJson} c now' loc (n : SignNode), save_end c now' r loc msg n = Panic IndexOutOfRange n.
Proof.
  intros Hn Hne Hu Hf Hto Hval Hd Hr. split.
  - eexists. split.
    + unfold sign_eos_chain, eos_rest. change (bool_decide ("xin" = "xin")) with true. cbn iota.
      rewrite (bind_Ret _ _ _ _ _ Hval). rewrite bool_decide_eq_true_2; [|done]. cbn [negb].
      rewrite (bind_lift _ _ _ None). 2:{ unfold signEOSTx. rewrite Hn. cbn. by rewrite Hu /= Hf. }
      unfold save_answer. rewrite (bind_tell _ _ _ _ Hd). unfold answer. rewrite Hto.
      by rewrite (bind_lift _ _ _ _ Hr).
    + cbn. set_solver.
  - intros HJ c now' loc n. apply pan_bind_Val in Hr as (sig & _ & Hr).
    destruct sig as [sig|]; [|done]. injection Hr as <-.
    unfold save_end. cbn [sd_Code sd_To sd_Data sd_NodeId]. rewrite bool_decide_eq_true_2; [|done].
    apply bind_Panic. rewrite Hn. rewrite (bind_lift _ _ _ newly eq_refl). apply bind_Panic.
    unfold lift, verifySign. change (bool_decide ("xin" = "bch") || bool_decide ("xin" = "btc")) with false.
    change (bool_decide ("xin" = "xin")) with true. cbn [orb andb].
    rewrite bool_decide_eq_false_2; [|done]. by rewrite Hu.
Qed.
End SignProps.

(** ** Once for a transfer

    The steps of a node, as far as requests and their signatures for the transfer [i] are
    concerned; every request has its own answers of the chains and its own time.
    [w_tasks] is what has been announced: a request that panics announces nothing.
    Every other step of the node is one that stores requests or leaves the one
    of [i]. *)
Section SignOnce.
Context `{KV} `{Wire} `{Watchers} `{Signatures}.
Variables (self : Z) (signer : SecureSigner) (mintFeeRate burnFeeRate : Z) (i : string).

Inductive SignStep : World → World → Prop :=
  | ss_request (chains : Chains) now msg w w' :
      handleSignTx self signer mintFeeRate burnFeeRate now msg w = Ret tt w' → SignStep w w'
  | ss_crash (chains : Chains) now msg w f w' :
      handleSignTx self signer mintFeeRate burnFeeRate now msg w = Panic f w' → SignStep w (set_w_tasks (w_tasks w) w')
  | ss_other w w' : kept i w w' → tally i w' = tally i w → SignStep w w'.

Lemma SignStep_signs w w' : String.prefix "TransferTx" i = false → SignStep w w' → signs i w w'.
Proof.
  intros Hi [chains now msg w1 w2 Hrun|chains now msg w1 f w2 Hrun|]; [| |by left].
  - exact (wp_Ret _ _ _ _ _ _ (wp_handleSignTx self signer mintFeeRate burnFeeRate now i msg w1 Hi) Hrun).
  - pose proof (wp_handleSignTx self signer mintFeeRate burnFeeRate now i msg w1 Hi) as Hw.
    unfold wp in Hw. rewrite Hrun in Hw. left. by split.
Qed.
(** C3. However often a transfer is requested, by whichever leaders, with whatever
    transactions, and even if the process crashes in between, a node announces at most one
    signature for it as long as the stored request is not deleted and the requests are handled
    one after the other ([racing_requests_sign_twice] is what happens otherwise). *)
Theorem signs_at_most_once w w' :
  String.prefix "TransferTx" i = false → rtc SignStep w w' →
  (tally i w' ≤ S (tally i w))%nat ∧ (noted i w → noted i w' ∧ tally i w' = tally i w).
Proof.
  intros Hi Hsteps. induction Hsteps as [w|w w1 w' Hs _ [IHle IHn]]; [split; [lia|done]|].
  destruct (SignStep_signs _ _ Hi Hs) as [[Hk Ht]|(Hn & Hn1 & Ht)].
  - rewrite -Ht. split; [done|]. intros Hw. by apply IHn, Hk.
  - destruct (IHn Hn1) as [Hn' Ht']. rewrite Ht' Ht. split; [lia|]. by intros ?%Hn.
Qed.

(** *** Requests side by side *)
Context `{Chains}.
Variable now : Z.
#[local] Abbreviation begin := (sign_begin self signer mintFeeRate burnFeeRate now).
#[local] Abbreviation finish := (sign_end self signer).

Lemma wp_any {A} (m : go World A) w : wp m (λ _ _, True) (λ _, True) w.
Proof. unfold wp. by destruct (m w). Qed.
Lemma wp_then {A B} (m : go World A) (k : A → go World B) (Q : B → World → Prop) w :
  (∀ a w1, wp (k a) Q (λ _, True) w1) → wp (m ≫= k) Q (λ _, True) w.
Proof. intros Hk. apply wp_bind. eapply wp_mono; [apply wp_any|intros a w1 _; apply Hk|done]. Qed.
(** A request that comes to its check changes neither the store nor the events before it. *)
Lemma wp_sign_begin msg w :
  wp (begin msg) (λ r w', is_Some r → quiet w w') (λ _, True) w.
Proof.
  unfold sign_begin. apply wp_bind, wp_lift; [|done]. intros wt _. apply wp_bind, wp_reads; [|done]. intros t _.
  destruct (_ >? t).
  - apply wp_then. intros [] w1. destruct (_ || _); [|apply wp_ret; by intros []].
    apply wp_then. intros r w2. apply wp_then. intros [] w3.
    destruct r; [apply wp_then; intros [] w4|]; apply wp_ret; by intros [].
  - destruct (negb _); [apply wp_ret; by intros []|].
    assert (∀ (m : go World SignCheck) (P : SignCheck → Prop), wp m (λ c w', quiet w w' ∧ P c) (quiet w) w →
      wp (check ← m; mret (Some (wt, t, check))) (λ r w', is_Some r → quiet w w') (λ _, True) w) as Hp.
    { intros m P Hm. apply wp_bind. eapply wp_mono; [exact Hm|intros c w1 [Hq _]; by apply wp_ret|done]. }
    destruct (is_btc_chain _); [eapply Hp, wp_validateBtcSignTx|].
    destruct (bool_decide _); [eapply Hp, wp_validateEthSignTx|].
    destruct (bool_decide _); [eapply Hp, wp_validate_eos|].
    destruct (bool_decide _); [eapply Hp, wp_validate_eos|]. apply wp_ret. by intros [].
Qed.
(** A share that can be made is announced. *)
Lemma sign_end_signed msg wt t sig r d w :
  is_btc_chain (wt_To wt) = true → signBtcBchtx signer (wt_To wt) msg = Val (sig, 0) →
  MakeSignedResult SIGNED self (wt_Txid wt) sig (wt_To wt) t signer = Val (Some r) →
  SetSignMsg msg (wt_Txid wt) (w_db w) = Val d →
  finish msg wt t validatePass w = Ret tt (set_w_tasks (w_tasks w ++ [SignHandledEvent r]) (set_w_db d w)).
Proof.
  intros Hbtc Hsig Hr Hd. unfold sign_end, btc_rest. rewrite Hbtc bool_decide_eq_true_2 //. cbn [negb].
  assert (tell (SetSignMsg msg (wt_Txid wt)) w = Ret tt (set_w_db d w)) as Ht.
  { unfold tell, updates, mbind, pan_bind. by rewrite Hd. }
  rewrite Hsig. unfold save_answer, answer, mbind, go_bind, lift. cbn beta iota. change (negb (0 =? 0)) with false.
  cbn beta iota. rewrite Ht. cbn beta iota. by rewrite Hr.
Qed.
Lemma MakeSignedResult_fields code txId data to t r :
  MakeSignedResult code self txId data to t signer = Val (Some r) → sd_Code r = code ∧ sd_TxId r = txId.
Proof.
  intros Hr. unfold MakeSignedResult in Hr. apply pan_bind_Val in Hr as (sig & _ & Hr).
  destruct sig; [|done]. by injection Hr as <-.
Qed.

(** C23. [HandleSignTx] does not take the mutex of the block store, so that two requests for one transfer may
    both pass their check before either is stored. The node then signs for both, whatever
    the two transactions are; handled one after the other, the second would find the first and be refused. *)
Theorem racing_requests_sign_twice m1 m2 wt t sig1 sig2 r1 r2 d1 d2 w w1 w2 :
  is_btc_chain (wt_To wt) = true → wt_Txid wt = i → String.prefix "TransferTx" i = false →
  begin m1 w = Ret (Some (wt, t, validatePass)) w1 → begin m2 w1 = Ret (Some (wt, t, validatePass)) w2 →
  signBtcBchtx signer (wt_To wt) m1 = Val (sig1, 0) → signBtcBchtx signer (wt_To wt) m2 = Val (sig2, 0) →
  MakeSignedResult SIGNED self i sig1 (wt_To wt) t signer = Val (Some r1) →
  MakeSignedResult SIGNED self i sig2 (wt_To wt) t signer = Val (Some r2) →
  SetSignMsg m1 i (w_db w) = Val d1 → SetSignMsg m2 i d1 = Val d2 →
  (∃ w4, (finish m1 wt t validatePass ≫= λ _, finish m2 wt t validatePass) w2 = Ret tt w4 ∧
     w_tasks w4 = w_tasks w ++ [SignHandledEvent r1; SignHandledEvent r2] ∧ tally i w4 = S (S (tally i w))) ∧
  (∀ w3 w4, finish m1 wt t validatePass w1 = Ret tt w3 →
     handleSignTx self signer mintFeeRate burnFeeRate now m2 w3 = Ret tt w4 → tally i w4 = S (tally i w)).
Proof.
  intros Hbtc Hi Hpre Hb1 Hb2 Hs1 Hs2 Hr1 Hr2 Hd1 Hd2.
  pose proof (wp_Ret _ _ _ _ _ _ (wp_sign_begin m1 w) Hb1 ltac:(by eexists)) as (Ed1 & Et1 & _).
  pose proof (wp_Ret _ _ _ _ _ _ (wp_sign_begin m2 w1) Hb2 ltac:(by eexists)) as (Ed2 & Et2 & _).
  destruct (MakeSignedResult_fields _ _ _ _ _ _ Hr1) as [Hc1 Hx1], (MakeSignedResult_fields _ _ _ _ _ _ Hr2) as [Hc2 Hx2].
  assert (∀ r, sd_Code r = SIGNED → sd_TxId r = i → puts_share i (SignHandledEvent r) = true) as Hps.
  { intros r Hc Hx. cbn. by rewrite !bool_decide_eq_true_2. }
  rewrite <- Hi in Hr1, Hr2, Hd1, Hd2. split.
  - eexists. split.
    { unfold mbind, go_bind. rewrite (sign_end_signed m1 wt t sig1 r1 d1); [|done..|by rewrite Ed2 Ed1].
      by rewrite (sign_end_signed m2 wt t sig2 r2 d2). }
    assert (w_tasks w2 ++ [SignHandledEvent r1; SignHandledEvent r2] = w_tasks w ++ [SignHandledEvent r1; SignHandledEvent r2])
      as <- by (by rewrite Et2 Et1).
    split; [cbn; by rewrite -app_assoc|]. unfold tally. cbn. rewrite Et2 Et1 !filter_app !length_app.
    rewrite !filter_cons filter_nil !decide_True; [cbn [length]; lia|by apply Hps..].
  - intros w3 w4 Hw3 Hw4. rewrite (sign_end_signed m1 wt t sig1 r1 d1 w1) in Hw3; [|done..|by rewrite Ed1].
    injection Hw3 as <-. pose proof (wp_Ret _ _ _ _ _ _ (wp_handleSignTx self signer mintFeeRate burnFeeRate now i m2 _ Hpre) Hw4) as Hw.
    assert (noted i (set_w_tasks (w_tasks w1 ++ [SignHandledEvent r1]) (set_w_db d1 w1))) as Hn.
    { unfold noted. apply GetSignMsg_Set in Hd1. rewrite Hi in Hd1. unfold w_db. cbn. by rewrite Hd1. }
    destruct Hw as [[_ Ht]|(Hn' & _)]; [|done]. rewrite Ht. unfold tally. cbn. rewrite Et1 filter_app length_app.
    rewrite filter_cons filter_nil decide_True; [cbn [length]; lia|by apply Hps].
Qed.
End SignOnce.
