(* ===== verification/LeaderTx.v ===== *)
(** * The transactions that a leader creates (src/node/leader.go)

    For each transfer to be handled the leader makes the transaction of the target
    chain and asks the nodes to sign it; for the multi-signature addresses of former
    node lists it makes transactions that move what is left there. The loops over the
    transfers and addresses are in [Node.v]. [None] is the nil that a creation
    returns after an error. *)
From S2P Require Import Prelude.
From S2P Require Import GoLib.
From S2P Require Import Crypto.
From S2P Require Import Messages.
From S2P Require Import ProtoOps.
From S2P Require Import Cluster.
From S2P Require Import Store.
From S2P Require Import DbOps.
From S2P Require Import TxPool.
From S2P Require Import Consensus.
From S2P Require Import ChainTx.
From S2P Require Import SignTx.
From Stdlib Require Import SpecFloat.

(** The accounts of the configuration. *)
Record Accounts : Type := { xin_contract_account : string; xin_transfer_account : string; eos_dgateway_account : string }.

Section LeaderTx.
Context `{KV} `{Wire} `{Chains}.
Variables (mintFeeRate burnFeeRate : Z) (accounts : Accounts).

Definition set_final (amount : Z) (wt : WatchedTxInfo) : go Pool unit :=
  updates_db (λ d, mret (SetFinalAmount amount (wt_Txid wt) d)).
(** The price of a creation, with its time. *)
Definition curr_price (symbol : string) (forth : bool) : option (spec_float * Z) :=
  p ← GetCurrPrice symbol forth; if bool_decide (pi_Err p = "") then Some (pi_Price p, pi_Timestamp p) else None.

(** ** Bitcoin and Bitcoin Cash *)
Definition recharge_amounts (wt : WatchedTxInfo) (price : spec_float) : list AddressInfo :=
  (λ a, {| ai_Address := ai_Address a; ai_Amount := output_amount burnFeeRate wt price (ai_Amount a) |}) <$> wt_RechargeList wt.
(** The price is fetched for the first recipient; the amount that is remembered is that
    of the last one. *)
Definition createBtcTx (c : Cluster) (wt : WatchedTxInfo) (chain : string) : go Pool (option NewlyTx) :=
  let symbol := if bool_decide (chain = "bch") then "BCH-USD" else "BTC-USD" in
  let priced := if bool_decide (wt_From wt = "xin") && negb (bool_decide (wt_RechargeList wt = []))
                then curr_price symbol false else Some (S754_zero false, 0) in
  match priced with
  | None => mret None
  | Some (price, timestamp) =>
      let outs := recharge_amounts wt price in
      let amount := default 0 (ai_Amount <$> last outs) in
      match CreateCoinTx chain outs (QuorumN c) (ClusterSize c) with
      | None => mret None
      | Some newlyTx =>
          match Serialize newlyTx with
          | None => mret None
          | Some data =>
              _ ← set_final amount wt;
              mret (Some {| nt_Data := data; nt_Amount := amount; nt_Timestamp := timestamp |})
          end
      end
  end.
(** What is left at a former address, to the current one; a snapshot that is not found is nil. *)
Definition createTransferTx (chain address : string) (snapshot : option Snapshot) : pan (option NewlyTx) :=
  s ← deref snapshot;
  mret (newlyTx ← TransferAsset chain address (sn_QuorumN s) (sn_ClusterSize s);
        data ← Serialize newlyTx;
        Some {| nt_Data := data; nt_Amount := 0; nt_Timestamp := 0 |}).

(** ** Ethereum *)
Definition createEthInput (wt : WatchedTxInfo) : go Pool (option NewlyTx) :=
  recharge ← lift (first_recharge wt);
  let amount := after_fee (ai_Amount recharge) mintFeeRate in
  match EncodeMint (wt_TokenTo wt) (uwrap64 amount) (HexToAddress (ai_Address recharge)) (wt_Txid wt) with
  | None => mret None
  | Some input =>
      _ ← set_final amount wt;
      mret (Some {| nt_Data := input; nt_Amount := amount; nt_Timestamp := 0 |})
  end.

(** ** The EOS chains *)
Definition packed (timestamp : Z) (transfer : option EosTx) : option NewlyTx :=
  transfer ← transfer; data ← Pack transfer; Some {| nt_Data := data; nt_Amount := 0; nt_Timestamp := timestamp |}.
Definition createXINTx (wt : WatchedTxInfo) : option NewlyTx :=
  '(symbol, coinUnit) ← xin_symbol (wt_From wt);
  '(price, timestamp) ← curr_price symbol true;
  recharge ← head (wt_RechargeList wt);
  packed timestamp (CreateTokenTx (xin_contract_account accounts) (xin_transfer_account accounts)
    (ai_Address recharge) (tokens_for (ai_Amount recharge) price coinUnit)).
Definition createEOSTx (wt : WatchedTxInfo) : pan (option NewlyTx) :=
  match eos_symbol (wt_From wt) with
  | None => mret None
  | Some (symbol, coinUnit) =>
      match curr_price symbol false with
      | None => mret None
      | Some (price, timestamp) =>
          recharge ← first_recharge wt;
          mret (packed timestamp (CreateTransferTx (eos_dgateway_account accounts) (ai_Address recharge)
            (getEOSAmountFromXin (ai_Amount recharge) price coinUnit) (wt_Txid wt)))
      end
  end.

(** The transaction for a transfer, by its target chain; [None] for a target that is no
    chain, [Some None] when the creation failed. *)
Definition create_newly (c : Cluster) (wt : WatchedTxInfo) : go Pool (option (option NewlyTx)) :=
  if bool_decide (wt_To wt = "bch") then n ← createBtcTx c wt "bch"; mret (Some n)
  else if bool_decide (wt_To wt = "eth") then n ← createEthInput wt; mret (Some n)
  else if bool_decide (wt_To wt = "btc") then n ← createBtcTx c wt "btc"; mret (Some n)
  else if bool_decide (wt_To wt = "xin") then mret (Some (createXINTx wt))
  else if bool_decide (wt_To wt = "eos") then n ← lift (createEOSTx wt); mret (Some n)
  else mret None.
End LeaderTx.

(** ** What the leader creates passes the check

    What the chain libraries are documented to do. *)
Class ChainLaws `{Chains} : Prop := {
  cl_Serialize tx data : Serialize tx = Some data → Deserialize data = (tx, true);
  cl_Pack tx data : Pack tx = Some data → Unpack data = Some tx;
  (** The outputs are those asked for, in order, and perhaps the change. *)
  cl_CreateCoinTx chain outs q n tx : CreateCoinTx chain outs q n = Some tx →
    ∃ change, (change ≤ 1)%nat ∧ length (TxOut tx) = (length outs + change)%nat ∧
      ∀ (i : nat) a, outs !! i = Some a →
        ∃ out, TxOut tx !! i = Some out ∧ ExtractPkScriptAddr out.1 chain = ai_Address a ∧ out.2 = ai_Amount a;
  cl_CreateTokenTx contract account user amount tx :
    CreateTokenTx contract account user amount = Some tx → Actions tx = [CreateToken user amount];
  cl_CreateTransferTx account to amount memo tx :
    CreateTransferTx account to amount memo = Some tx → Actions tx = [TokenTransfer to amount];
  (** The price that was current at a time is the price for that time. *)
  cl_price symbol forth p : GetCurrPrice symbol forth = Some p → GetPriceByTimestamp symbol (pi_Timestamp p) forth = Some p
}.

Section Created.
Context `{KV} `{Wire} `{Watchers} `{Chains} `{!ChainLaws}.
Variables (mintFeeRate burnFeeRate now : Z) (accounts : Accounts) (c : Cluster).
Implicit Types (wt : WatchedTxInfo) (msg : SignTxRequest) (w : World).

Lemma curr_price_law symbol forth price ts : curr_price symbol forth = Some (price, ts) →
  good_price (GetPriceByTimestamp symbol ts forth) = Some price.
Proof.
  unfold curr_price, good_price. destruct (GetCurrPrice symbol forth) as [p|] eqn:E; [|done]. cbn.
  destruct (bool_decide (pi_Err p = "")) eqn:Ee; [|done]. intros [= <- <-].
  rewrite (cl_price _ _ _ E). cbn. by rewrite Ee.
Qed.

Lemma check_outputs_created wt price l : ∀ outs,
  (∀ (i : nat) a, l !! i = Some a → ∃ out, outs !! i = Some out ∧
     ExtractPkScriptAddr out.1 (wt_To wt) = ai_Address a ∧ out.2 = output_amount burnFeeRate wt price (ai_Amount a)) →
  check_outputs burnFeeRate wt price l outs = Val true.
Proof.
  induction l as [|a l IH]; intros outs Ho; [done|]. destruct (Ho 0%nat a eq_refl) as (out & Hout & Ha & Hm).
  destruct outs as [|x outs]; [done|]. injection Hout as ->. cbn. rewrite Ha Hm bool_decide_eq_true_2; [|done].
  rewrite Z.eqb_refl. cbn [andb]. apply IH. intros i b Hb. exact (Ho (S i) b Hb).
Qed.
Lemma run_createBtcTx wt chain p newly p' : createBtcTx burnFeeRate c wt chain p = Ret (Some newly) p' →
  ∃ price tx, (if bool_decide (wt_From wt = "xin") && negb (bool_decide (wt_RechargeList wt = []))
               then curr_price (if bool_decide (chain = "bch") then "BCH-USD" else "BTC-USD") false = Some (price, nt_Timestamp newly)
               else nt_Timestamp newly = 0 ∧ price = S754_zero false) ∧
    CreateCoinTx chain (recharge_amounts burnFeeRate wt price) (QuorumN c) (ClusterSize c) = Some tx ∧
    Serialize tx = Some (nt_Data newly).
Proof.
  unfold createBtcTx. destruct (if _ && _ then _ else _) as [[price ts]|] eqn:Ep; [|done].
  destruct (CreateCoinTx _ _ _ _) as [tx|] eqn:Ec; [|done]. destruct (Serialize tx) as [data|] eqn:Es; [|done].
  intros [= <- <-]. exists price, tx. split_and!; [|done|done]. cbn [nt_Timestamp].
  destruct (_ && _); [done|]. by injection Ep as <- <-.
Qed.
Lemma created_payments wt ts symbol price tx :
  coin_symbol (wt_To wt) = Some symbol → 
  (wt_From wt = "xin" → wt_RechargeList wt ≠ [] → good_price (GetPriceByTimestamp symbol ts false) = Some price) →
  (wt_From wt ≠ "xin" → price = S754_zero false) →
  CreateCoinTx (wt_To wt) (recharge_amounts burnFeeRate wt price) (QuorumN c) (ClusterSize c) = Some tx →
  outputs_count_ok wt tx = true ∧ check_payments burnFeeRate wt ts symbol tx = Val validatePass.
Proof.
  intros Hs Hx Hn Hc. apply cl_CreateCoinTx in Hc as (change & Hlen & Hout & Hall).
  unfold recharge_amounts in Hout, Hall. rewrite length_fmap in Hout. split.
  { unfold outputs_count_ok. rewrite Hout. destruct change as [|[|]]; [| |lia].
    - by rewrite Nat.add_0_r Nat.eqb_refl.
    - by rewrite Nat.eqb_refl !orb_true_r. }
  assert (check_outputs burnFeeRate wt price (wt_RechargeList wt) (TxOut tx) = Val true) as Hco.
  { apply check_outputs_created. intros i a Ha. apply (Hall i {| ai_Address := ai_Address a;
      ai_Amount := output_amount burnFeeRate wt price (ai_Amount a) |}). by rewrite list_lookup_fmap Ha. }
  unfold check_payments. destruct (wt_RechargeList wt) as [|a l] eqn:El; [done|].
  destruct (bool_decide (wt_From wt = "xin")) eqn:Ef; to_prop.
  - destruct (TxOut tx) as [|out outs]; [done|]. by rewrite Hx // Hco.
  - rewrite Hn // in Hco. by rewrite Hco.
Qed.

(** The check of a request for a transaction, by its target chain. *)
Definition validate_by_chain (msg : SignTxRequest) (wt : WatchedTxInfo) : go World SignCheck :=
  if is_btc_chain (wt_To wt) then validateBtcSignTx burnFeeRate now msg wt
  else if bool_decide (wt_To wt = "eth") then validateEthSignTx mintFeeRate msg wt
  else if bool_decide (wt_To wt = "xin") then validateXINSignTx now msg wt
  else validateEOSSignTx now msg wt.

Section Passes.
Variables (wt : WatchedTxInfo) (newly : NewlyTx) (msg : SignTxRequest) (w w1 : World).
Hypothesis Hnewly : sr_NewlyTx msg = Some newly.
Hypothesis Hbase : baseCheck wt w = Ret validatePass w1.
Hypothesis Hfresh : wt_From wt = "xin" ∨ wt_To wt = "xin" → now -i64 nt_Timestamp newly ≤ coinPriceExpire.

Lemma btc_passes p p' : IsTransferTx wt = false → is_btc_chain (wt_To wt) = true →
  createBtcTx burnFeeRate c wt (wt_To wt) p = Ret (Some newly) p' →
  validateBtcSignTx burnFeeRate now msg wt w = Ret validatePass w1.
Proof.
  intros Ht Hbtc (price & tx & Hp & Hc & Hs)%run_createBtcTx. apply cl_Serialize in Hs.
  assert (coin_symbol (wt_To wt) = Some (if bool_decide (wt_To wt = "bch") then "BCH-USD" else "BTC-USD")) as Hsym.
  { unfold coin_symbol, is_btc_chain in *. destruct (bool_decide (wt_To wt = "bch")); [done|]. cbn in Hbtc. by rewrite Hbtc. }
  unfold validateBtcSignTx. rewrite Hnewly (bind_lift _ _ _ newly eq_refl) Hs Ht. cbn [fst].
  rewrite (bind_Ret _ _ _ _ _ Hbase) Hsym. change (negb (bool_decide (validatePass = validatePass))) with false. cbn iota.
  destruct (created_payments wt (nt_Timestamp newly) _ price tx Hsym) as [-> Hpay]; [| |done|].
  - intros Hx Hne. rewrite Hx in Hp. rewrite (bool_decide_eq_false_2 (_ = [])) in Hp; [|done]. cbn in Hp.
    by apply curr_price_law.
  - intros Hx. rewrite (bool_decide_eq_false_2 (_ = "xin")) in Hp; [|done]. by destruct Hp as [_ ->].
  - cbn [negb]. destruct (bool_decide (wt_From wt = "xin")) eqn:Ef; cbn [andb]; unfold lift; [|by rewrite Hpay].
    to_prop. assert ((now -i64 nt_Timestamp newly >? coinPriceExpire) = false) as ->; [|by rewrite Hpay].
    specialize (Hfresh (or_introl Ef)). lia.
Qed.
Lemma eth_passes p p' : length (wt_RechargeList wt) = 1%nat → createEthInput mintFeeRate wt p = Ret (Some newly) p' →
  validateEthSignTx mintFeeRate msg wt w = Ret validatePass w1.
Proof.
  intros Hlen. unfold createEthInput, first_recharge. destruct (wt_RechargeList wt) as [|a [|]] eqn:El; try done.
  rewrite (bind_lift _ _ _ a eq_refl). destruct (EncodeMint _ _ _ _) as [input|] eqn:Ee; [|done].
  intros [= <- <-]. unfold validateEthSignTx. rewrite (bind_Ret _ _ _ _ _ Hbase).
  change (negb (bool_decide (validatePass = validatePass))) with false. cbn iota.
  rewrite El Hnewly (bind_lift _ _ _ _ eq_refl) Ee. cbn. by rewrite bool_decide_eq_true_2.
Qed.
(** Both EOS chains: a transaction with the one action that the check computes. *)
Lemma eos_passes symbol_of forth check symbol unit price tx act :
  symbol_of (wt_From wt) = Some (symbol, unit) → curr_price symbol forth = Some (price, nt_Timestamp newly) →
  Pack tx = Some (nt_Data newly) → Actions tx = [act] → check wt price unit act = Val true →
  now -i64 nt_Timestamp newly ≤ coinPriceExpire →
  validate_eos now symbol_of forth check msg wt w = Ret validatePass w1.
Proof.
  intros Hs Hp%curr_price_law Hpack%cl_Pack Ha Hc Hage. unfold validate_eos. rewrite (bind_Ret _ _ _ _ _ Hbase).
  change (negb (bool_decide (validatePass = validatePass))) with false. cbn iota.
  rewrite Hnewly (bind_lift _ _ _ newly eq_refl) Hpack Ha.
  assert ((now -i64 nt_Timestamp newly >? coinPriceExpire) = false) as -> by lia.
  by rewrite Hs Hp (bind_lift _ _ _ _ Hc).
Qed.
End Passes.

(** C4. What an honest leader asks for passes the check of an honest node: whichever the chain, a
    transaction that the leader creates for a transfer is one that a node accepts when it
    knows the transfer and has not handled it, while the price is not two minutes old;
    on Ethereum when the transfer has one recipient. *)
Theorem created_tx_passes wt p newly p' msg w w1 :
  create_newly mintFeeRate burnFeeRate accounts c wt p = Ret (Some (Some newly)) p' →
  sr_NewlyTx msg = Some newly → IsTransferTx wt = false → baseCheck wt w = Ret validatePass w1 →
  (wt_From wt = "xin" ∨ wt_To wt = "xin" → now -i64 nt_Timestamp newly ≤ coinPriceExpire) →
  (wt_To wt = "eth" → length (wt_RechargeList wt) = 1%nat) →
  validate_by_chain msg wt w = Ret validatePass w1.
Proof.
  intros Hrun Hn Ht Hb Hage Heth. unfold create_newly in Hrun. unfold validate_by_chain, is_btc_chain.
  repeat (let E := fresh "Hto" in destruct (bool_decide (wt_To wt = _)) eqn:E in Hrun;
    [apply bool_decide_eq_true_1 in E|clear E]).
  - apply bind_Ret_inv in Hrun as (r & p1 & Hr & [= -> <-]). rewrite Hto. cbn. rewrite -Hto in Hr.
    eapply btc_passes; eauto. by rewrite Hto.
  - apply bind_Ret_inv in Hrun as (r & p1 & Hr & [= -> <-]). rewrite Hto. cbn. by eapply eth_passes; eauto.
  - apply bind_Ret_inv in Hrun as (r & p1 & Hr & [= -> <-]). rewrite Hto. cbn. rewrite -Hto in Hr.
    eapply btc_passes; eauto. by rewrite Hto.
  - injection Hrun as Hx _. rewrite Hto. cbn. unfold createXINTx in Hx.
    apply bind_Some in Hx as ([symbol unit] & Hs & ([price ts] & Hp & (a & Ha & (tx & Hc & (data & Hd & [= <-])%bind_Some)%bind_Some)%bind_Some)%bind_Some).
    eapply (eos_passes _ _ _ _ _ Hn Hb _ _ _ _ _ price tx); [exact Hs|exact Hp|exact Hd|by eapply cl_CreateTokenTx| |auto].
    unfold xin_action, first_recharge. destruct (wt_RechargeList wt) as [|x l]; [done|]. injection Ha as ->. cbn.
    by rewrite bool_decide_eq_true_2 // Z.eqb_refl.
  - apply bind_Ret_inv in Hrun as (r & p1 & Hr & [= -> <-]). rewrite Hto. cbn. unfold createEOSTx, lift in Hr.
    destruct (eos_symbol (wt_From wt)) as [[symbol unit]|] eqn:Es; [|done].
    destruct (curr_price symbol false) as [[price ts]|] eqn:Ep; [|done].
    unfold first_recharge in Hr. destruct (wt_RechargeList wt) as [|a l] eqn:El; [done|]. cbn in Hr.
    injection Hr as Hr <-. apply bind_Some in Hr as (tx & Hc & (data & Hd & [= <-])%bind_Some).
    eapply (eos_passes _ _ _ _ _ Hn Hb _ _ _ _ _ price tx); [exact Es|exact Ep|exact Hd|by eapply cl_CreateTransferTx| |].
    + unfold eos_action, first_recharge. rewrite El. cbn. by rewrite bool_decide_eq_true_2 // Z.eqb_refl.
    + apply Hage. left. unfold eos_symbol in Es. by case_bool_decide.
  - done.
Qed.
End Created.
