(* ===== verification/SignChain.v ===== *)
(** * Signing and the chain

    The operations of signing, of the proposals and of the creation of transactions write
    keys of their own: none of them touches the chain of blocks. *)
From S2P Require Import Prelude.
From S2P Require Import GoLib.
From S2P Require Import Crypto.
From S2P Require Import Messages.
From S2P Require Import ProtoOps.
From S2P Require Import Cluster.
From S2P Require Import Store.
From S2P Require Import DbOps.
From S2P Require Import TxPool.
From S2P Require Import Consensus.
From S2P Require Import ConsensusProps.
From S2P Require Import ChainTx.
From S2P Require Import Distribution.
From S2P Require Import SignTx.
From S2P Require Import Signing.
From S2P Require Import LeaderTx.

Section Mild.
Context `{KV}.

(** [m] leaves the keys of the chain in the store [dbof] of its state, whether it
    returns or panics. *)
Definition mild {S A} (dbof : S → db) (m : go S A) : Prop := ∀ s, same_but not_chain (dbof s) (dbof (end_state (m s))).

Section Rules.
Context {S : Type} (dbof : S → db).
Lemma mild_ret {A} (a : A) : mild dbof (mret a).
Proof. intros s. apply same_but_refl. Qed.
Lemma mild_bind {A B} (m : go S A) (k : A → go S B) :
  mild dbof m → (∀ a, mild dbof (k a)) → mild dbof (m ≫= k).
Proof.
  intros Hm Hk s. specialize (Hm s). unfold mbind, go_bind. destruct (m s) as [a s'|f s']; [|done].
  eapply same_but_trans; [exact Hm|apply Hk].
Qed.
Lemma mild_lift {A} (p : pan A) : mild dbof (lift p).
Proof. intros s. unfold lift. destruct p; apply same_but_refl. Qed.
Lemma mild_gets {A} (f : S → A) : mild dbof (gets f).
Proof. intros s. apply same_but_refl. Qed.
Lemma mild_reads {A} (f : S → pan A) : mild dbof (reads f).
Proof. intros s. unfold reads. destruct (f s); apply same_but_refl. Qed.
Lemma mild_modify (f : S → S) : (∀ s, dbof (f s) = dbof s) → mild dbof (modify f).
Proof. intros Hf s. cbn. rewrite Hf. apply same_but_refl. Qed.
Lemma mild_when b (m : go S unit) : mild dbof m → mild dbof (when b m).
Proof. intros Hm. destruct b; [done|apply mild_ret]. Qed.
Lemma mild_for_each {A} (l : list A) (body : A → go S unit) :
  (∀ x, mild dbof (body x)) → mild dbof (for_each l body).
Proof. intros Hb. induction l; [apply mild_ret|]. by apply mild_bind. Qed.
Lemma mild_zoom {P A} (dbof' : P → db) (get : S → P) (set : P → S → S) (m : go P A) :
  (∀ s, dbof' (get s) = dbof s) → (∀ p s, dbof (set p s) = dbof' p) → mild dbof' m → mild dbof (zoom get set m).
Proof.
  intros Hg Hs Hm s. unfold zoom. specialize (Hm (get s)). rewrite Hg in Hm.
  destruct (m (get s)); cbn [end_state] in *; rewrite Hs; exact Hm.
Qed.
End Rules.
Lemma mild_updates (f : db → pan db) :
  (∀ d d', f d = Val d' → same_but not_chain d d') → mild id (updates f).
Proof. intros Hf d. unfold updates. destruct (f d) eqn:E; [by apply Hf|apply same_but_refl]. Qed.
End Mild.

(** Keys that are not of the chain. *)
Ltac not_chain_key := let E := fresh in intros (? & [E|E]); revert E; key_ne.
Lemma put_not_chain `{KV} k v d : not_chain k → same_but not_chain d (Put k v d).
Proof. intros Hk. eapply same_but_mono; [|apply same_but_put]. by intros ? <-. Qed.
Lemma delete_not_chain `{KV} k d : not_chain k → same_but not_chain d (Delete k d).
Proof. intros Hk. eapply same_but_mono; [|apply same_but_delete]. by intros ? <-. Qed.

Ltac mild_step :=
  lazymatch goal with
  | |- mild _ (_ ≫= _) => apply mild_bind; [|intros ?]
  | |- mild _ (mret _) => apply mild_ret
  | |- mild _ (lift _) => apply mild_lift
  | |- mild _ (gets _) => apply mild_gets
  | |- mild _ (reads _) => apply mild_reads
  | |- mild _ (when _ _) => apply mild_when
  | |- mild _ (modify _) => apply mild_modify; done
  | |- mild _ (for_each _ _) => apply mild_for_each; intros ?
  | |- mild _ (if ?b then _ else _) => destruct b
  | |- mild _ (match ?x with _ => _ end) => destruct x
  end.
Ltac mild_run := repeat mild_step.

(** ** The pool, the proposals and the leader's transactions *)
Section PoolMild.
Context `{KV} `{Wire} `{DistJson} `{Chains}.

Lemma mild_updates_db (f : db → pan db) :
  (∀ d d', f d = Val d' → same_but not_chain d d') → mild p_db (updates_db f).
Proof. intros Hf. apply (mild_zoom p_db id); [done|done|by apply mild_updates]. Qed.
Lemma mild_AddFresh wt : mild p_db (AddFreshWatchedTx wt).
Proof. unfold AddFreshWatchedTx, modify_ts. mild_run. Qed.
Lemma mild_CreateInnerTx now i j a : mild p_db (CreateInnerTx now i j a).
Proof. unfold CreateInnerTx, modify_ts. mild_run. Qed.
Lemma mild_GetFresh o : mild p_db (GetFreshWatchedTxs o).
Proof.
  unfold GetFreshWatchedTxs, modify_ts. apply mild_bind; [apply mild_gets|intros p].
  destruct (foldl _ _ _). mild_run.
Qed.
Lemma mild_setStatus i s : mild p_db (setStatus i s).
Proof.
  unfold setStatus. mild_step; [mild_step|]. destruct (getDistributionProposal _ _); [|mild_step].
  apply mild_updates_db. intros d1 d2 (p & _ & [= <-])%pan_bind_Val. apply put_not_chain.
  unfold proposal_key, keyDistributionProposalPrefix. not_chain_key.
Qed.
Lemma mild_set_final a wt : mild p_db (set_final a wt).
Proof.
  apply mild_updates_db. intros d d' [= <-]. apply put_not_chain. unfold keyFinalAmountPrefix. not_chain_key.
Qed.
Lemma mild_create_newly mint burn accounts c wt : mild p_db (create_newly mint burn accounts c wt).
Proof.
  assert (∀ chain, mild p_db (createBtcTx burn c wt chain)) as Hb.
  { intros chain. unfold createBtcTx. repeat first [apply mild_set_final|mild_step]. }
  unfold create_newly, createEthInput. repeat first [apply Hb|apply mild_set_final|mild_step].
Qed.
End PoolMild.

(** ** The collection of shares *)
Section SignMild.
Context `{KV} `{Wire} `{DistJson} `{Chains}.

Lemma mild_the_pool {A} (m : go Pool A) : mild p_db m → mild sg_db (the_pool m).
Proof. intros Hm. by apply (mild_zoom sg_db p_db). Qed.
Lemma mild_write_db (f : db → pan db) :
  (∀ d d', f d = Val d' → same_but not_chain d d') → mild sg_db (write_db f).
Proof. intros Hf. by apply mild_the_pool, mild_updates_db. Qed.
Lemma mild_forget i : mild sg_db (write_db (λ d, mret (DeleteSignMsg i d))).
Proof.
  apply mild_write_db. intros d d' [= <-]. apply delete_not_chain. unfold keySignMsgPrefix. not_chain_key.
Qed.
Lemma mild_mark i t : mild sg_db (write_db (λ d, mret (MarkFailedSignRecord i t d))).
Proof.
  apply mild_write_db. intros d d' [= <-]. apply put_not_chain. unfold sign_failed_key, keySignFailedPrefix. not_chain_key.
Qed.
Lemma mild_clearOnFail req : mild sg_db (clearOnFail req).
Proof.
  unfold clearOnFail. repeat first
    [apply mild_mark|apply mild_forget|apply mild_the_pool, mild_setStatus|apply mild_the_pool, mild_AddFresh|mild_step].
  apply mild_the_pool. by apply mild_modify.
Qed.
Lemma mild_sendTxToChain chain tx sigs r req : mild sg_db (sendTxToChain chain tx sigs r req).
Proof.
  unfold sendTxToChain, sendBtcBchTxToChain, sendEOSTxToChain.
  repeat first [apply mild_clearOnFail|mild_step].
Qed.
Lemma mild_save_begin now msg : mild sg_db (save_begin now msg).
Proof. unfold save_begin, on_cache. mild_run. Qed.
Lemma mild_save_end c now msg loc req : mild sg_db (save_end c now msg loc req).
Proof.
  unfold save_end, on_cache.
  repeat first [apply mild_sendTxToChain|apply mild_clearOnFail|mild_step].
Qed.
Lemma mild_checkSignTimeout o timeout now : mild sg_db (checkSignTimeout o timeout now).
Proof.
  unfold checkSignTimeout. mild_step; [mild_step|]. apply mild_for_each. intros [i loc]. unfold time_out.
  repeat first [apply mild_forget|apply mild_the_pool, mild_AddFresh|mild_step].
Qed.
Lemma mild_checkTxOnChain tol now confirms tx : mild sg_db (checkTxOnChain tol now confirms tx).
Proof.
  unfold checkTxOnChain, abandon, confirm, in_mem, deleteFromWaiting.
  repeat first [apply mild_clearOnFail|apply mild_the_pool, mild_setStatus|apply mild_the_pool, mild_CreateInnerTx|mild_step].
Qed.
End SignMild.

(** ** Requests *)
Section RequestMild.
Context `{KV} `{Wire} `{Watchers} `{Signatures} `{Chains}.

Lemma mild_run_pool {A} (m : go Pool A) : mild p_db m → mild w_db (run_pool m).
Proof. intros Hm. by apply (mild_zoom w_db p_db). Qed.
Lemma mild_tell (f : db → pan db) :
  (∀ d d', f d = Val d' → same_but not_chain d d') → mild w_db (tell f).
Proof.
  intros Hf w. unfold tell, updates. destruct (f (w_db w)) as [d|] eqn:E; cbn; [by apply Hf|apply same_but_refl].
Qed.
Lemma mild_SetSignMsg msg i : mild w_db (tell (SetSignMsg msg i)).
Proof.
  apply mild_tell. intros d d' (data & _ & ->)%put_pb_Val. apply put_not_chain. unfold keySignMsgPrefix. not_chain_key.
Qed.
Lemma mild_SetETHTxHash i h : mild w_db (tell (λ d, mret (SetETHTxHash i h d))).
Proof.
  apply mild_tell. intros d d' [= <-]. apply put_not_chain. unfold keyETHTxHashPrefix. not_chain_key.
Qed.
Lemma mild_DeleteFresh i : mild w_db (run_pool (DeleteFresh i)).
Proof. apply mild_run_pool. by apply mild_modify. Qed.
Lemma mild_ask {A} (f : db → pan A) : mild w_db (ask f).
Proof. apply mild_reads. Qed.
Lemma mild_Add e : mild w_db (Add e).
Proof. by apply mild_modify. Qed.
Lemma mild_baseCheck wt : mild w_db (baseCheck wt).
Proof.
  unfold baseCheck, validateWatchedTx. repeat first [apply mild_ask|mild_step].
  apply mild_run_pool. by apply mild_modify.
Qed.
Lemma mild_answer self signer code wt data t : mild w_db (answer self signer code wt data t).
Proof. unfold answer. repeat first [apply mild_Add|mild_step]. Qed.
Lemma mild_handleSignTx self signer mint burn now msg : mild w_db (handleSignTx self signer mint burn now msg).
Proof.
  unfold handleSignTx, sign_btc, sign_eth, sign_eos_chain, btc_rest, eth_rest, eos_rest, save_answer, validateBtcSignTx, validateEthSignTx,
    validateXINSignTx, validateEOSSignTx, validate_eos.
  repeat first [apply mild_ask|apply mild_Add|apply mild_baseCheck|apply mild_answer|apply mild_SetSignMsg
               |apply mild_SetETHTxHash|apply mild_DeleteFresh|mild_step].
Qed.
Lemma mild_sign_begin self signer burn mint now msg : mild w_db (sign_begin self signer mint burn now msg).
Proof.
  unfold sign_begin, validateBtcSignTx, validateEthSignTx, validateXINSignTx, validateEOSSignTx, validate_eos.
  repeat first [apply mild_ask|apply mild_Add|apply mild_baseCheck|apply mild_SetSignMsg|mild_step].
Qed.
Lemma mild_sign_end self signer msg wt t check : mild w_db (sign_end self signer msg wt t check).
Proof.
  unfold sign_end, btc_rest, eth_rest, eos_rest, save_answer.
  repeat first [apply mild_ask|apply mild_Add|apply mild_answer|apply mild_SetSignMsg
               |apply mild_SetETHTxHash|apply mild_DeleteFresh|mild_step].
Qed.
End RequestMild.
