(* ===== verification/BlockStoreApi.v ===== *)
(** * The other operations of the block store (src/primitives/blockstore.go)

    The operations that the node calls besides the handlers: they read or write one value of the store or hand
    something to the pool. Some of them take the mutex and some do not; each is one access to the store. The
    fees are a part of the block store that only [SetFeeRate] changes. *)
From S2P Require Import Prelude.
From S2P Require Import GoLib.
From S2P Require Import Crypto.
From S2P Require Import Messages.
From S2P Require Import Cluster.
From S2P Require Import Store.
From S2P Require Import DbOps.
From S2P Require Import TxPool.
From S2P Require Import Consensus.
From S2P Require Import ConsensusProps.
From S2P Require Import SignChain.

Section BlockStore.
Context `{KV} `{Wire} `{Watchers}.

(** The block store: what the handlers work on, and the fees. *)
Record BlockStore : Type := MkBlockStore { bs_world : World; bs_mintFeeRate : Z; bs_burnFeeRate : Z }.
Definition NewBlockStore (d : db) (ts : TxStore) (c : Cluster) : BlockStore :=
  MkBlockStore (MkWorld (MkPool d ts) ∅ ∅ c [] []) 0 0.
Definition SetFeeRate (mintFeeRate burnFeeRate : Z) (bs : BlockStore) : BlockStore :=
  MkBlockStore (bs_world bs) mintFeeRate burnFeeRate.
Definition bs_db (bs : BlockStore) : db := w_db (bs_world bs).
Definition on_bs {A} (m : go World A) : go BlockStore A :=
  zoom bs_world (λ w bs, MkBlockStore w (bs_mintFeeRate bs) (bs_burnFeeRate bs)) m.
Definition bs_get {A} (f : db → pan A) : go BlockStore A := reads (λ bs, f (bs_db bs)).
Definition bs_put (f : db → pan db) : go BlockStore unit := on_bs (tell f).

(** ** Reads *)
Definition GetNodeTerm : go BlockStore Z := bs_get DbOps.GetNodeTerm.
Definition GetFresh : go BlockStore (option BlockPack) := bs_get DbOps.GetFresh.
Definition GetCommitTop : go BlockStore (option BlockPack) := bs_get DbOps.GetCommitTop.
Definition GetCommitHeight : go BlockStore Z := bs_get DbOps.GetCommitHeight.
Definition GetCommitByHeight (height : Z) : go BlockStore (option BlockPack) := bs_get (DbOps.GetCommitByHeight height).
Definition GetBlockByID (id : bytes) : go BlockStore (option BlockPack) := bs_get (DbOps.GetBlockByID id).
Definition GetCommitsByHeightSec (start end_ : Z) : go BlockStore (list BlockPack) :=
  bs_get (DbOps.GetCommitsByHeightSec start end_).
Definition IsCommitted (blockId : option Digest256) : go BlockStore bool := bs_get (DbOps.IsCommitted blockId).
Definition GetVotie : go BlockStore Votie := bs_get DbOps.GetVotie.
Definition GetCurrentHeight (chainType : string) : go BlockStore Z := gets (λ bs, DbOps.GetCurrentHeight chainType (bs_db bs)).
Definition GetSignReqMsg (txId : string) : go BlockStore (option SignTxRequest) := bs_get (GetSignMsg txId).
Definition IsSignFailed (txId : string) (term : Z) : go BlockStore bool := gets (λ bs, DbOps.IsSignFailed txId term (bs_db bs)).
Definition GetETHBlockHeight : go BlockStore (option Z) := gets (λ bs, DbOps.GetETHBlockHeight (bs_db bs)).
Definition GetETHBlockTxIndex : go BlockStore Z := gets (λ bs, DbOps.GetETHBlockTxIndex (bs_db bs)).
Definition GetXINBlockHeight : go BlockStore Z := gets (λ bs, DbOps.GetXINBlockHeight (bs_db bs)).
Definition GetXINBlockTxIndex : go BlockStore Z := gets (λ bs, DbOps.GetXINBlockTxIndex (bs_db bs)).
Definition GetBlockByHash (blockID : option Digest256) : go BlockStore (option BlockPack) := bs_get (GetCommitByID blockID).
Definition GetFinalAmount (scTxID : string) : go BlockStore Z := gets (λ bs, DbOps.GetFinalAmount scTxID (bs_db bs)).
Definition GetETHTxHash (proposal : string) : go BlockStore string := gets (λ bs, DbOps.GetETHTxHash proposal (bs_db bs)).
Definition GetMultiSigSnapshot : go BlockStore (list MultiSigInfo) := gets (λ bs, DbOps.GetMultiSigSnapshot (bs_db bs)).
Definition GetClusterSnapshot (address : string) : go BlockStore (option Snapshot) :=
  gets (λ bs, DbOps.GetClusterSnapshot address (bs_db bs)).
Definition GetJoinRequest : go BlockStore (option JoinRequest) := bs_get GetJoinNodeInfo.
Definition GenSyncUpResponse (base maxBlockN : Z) (needFresh : bool) :=
  bs_get (genSyncUpResponse base maxBlockN needFresh).

(** ** Writes *)
Definition SetNodeTerm (term : Z) : go BlockStore unit := bs_put (DbOps.SetNodeTerm term).
Definition SetCurrentHeight (chainType : string) (height : Z) : go BlockStore unit :=
  bs_put (λ d, mret (DbOps.SetCurrentHeight chainType height d)).
Definition DeleteSignReqMsg (txId : string) : go BlockStore unit := bs_put (λ d, mret (DeleteSignMsg txId d)).
Definition MarkFailedSignRecord (txId : string) (term : Z) : go BlockStore unit :=
  bs_put (λ d, mret (DbOps.MarkFailedSignRecord txId term d)).
Definition AddTransaction (tx : Transaction) : go BlockStore unit := on_bs (run_pool (TestAddTxs [tx])).
Definition DeleteJoinNodeInfo : go BlockStore unit := bs_put (λ d, mret (DbOps.DeleteJoinNodeInfo d)).
Definition DeleteLeaveNodeInfo : go BlockStore unit := bs_put (λ d, mret (DbOps.DeleteLeaveNodeInfo d)).
Definition SetETHBlockHeight (height : Z) : go BlockStore unit := bs_put (λ d, mret (DbOps.SetETHBlockHeight height d)).
Definition SetETHBlockTxIndex (index : Z) : go BlockStore unit := bs_put (λ d, mret (DbOps.SetETHBlockTxIndex index d)).
Definition SetXINBlockHeight (height : Z) : go BlockStore unit := bs_put (λ d, mret (DbOps.SetXINBlockHeight height d)).
Definition SetXINBlockTxIndex (index : Z) : go BlockStore unit := bs_put (λ d, mret (DbOps.SetXINBlockTxIndex index d)).
Definition SetFinalAmount (amount : Z) (scTxID : string) : go BlockStore unit :=
  bs_put (λ d, mret (DbOps.SetFinalAmount amount scTxID d)).
Definition JustCommitIt (blockPack : BlockPack) : go BlockStore unit := on_bs (run_db (DbOps.JustCommitIt blockPack)).
(** The events are emitted after a block that was committed, and dropped with one that was refused. *)
Definition CommitBlockWithCheck (blockPack : BlockPack) : go BlockStore (option string * list Consensus.Event) :=
  on_bs (
    _ ← modify (set_w_tasks []);
    err ← commitBlockWithCheck blockPack;
    tasks ← gets w_tasks;
    _ ← modify (set_w_tasks []);
    mret (err, match err with None => tasks | Some _ => [] end)).

(** ** The writes as one type, for sequences of them *)
Inductive Write : Type :=
  | WFeeRate (mint burn : Z)
  | WNodeTerm (term : Z)
  | WCurrentHeight (chainType : string) (height : Z)
  | WDeleteSignReq (txId : string)
  | WMarkFailed (txId : string) (term : Z)
  | WAddTransaction (tx : Transaction)
  | WDeleteJoin
  | WDeleteLeave
  | WETHHeight (height : Z)
  | WETHIndex (index : Z)
  | WXINHeight (height : Z)
  | WXINIndex (index : Z)
  | WFinalAmount (amount : Z) (scTxID : string).
Definition write (op : Write) : go BlockStore unit :=
  match op with
  | WFeeRate mint burn => modify (SetFeeRate mint burn)
  | WNodeTerm term => SetNodeTerm term
  | WCurrentHeight chainType height => SetCurrentHeight chainType height
  | WDeleteSignReq txId => DeleteSignReqMsg txId
  | WMarkFailed txId term => MarkFailedSignRecord txId term
  | WAddTransaction tx => AddTransaction tx
  | WDeleteJoin => DeleteJoinNodeInfo
  | WDeleteLeave => DeleteLeaveNodeInfo
  | WETHHeight height => SetETHBlockHeight height
  | WETHIndex index => SetETHBlockTxIndex index
  | WXINHeight height => SetXINBlockHeight height
  | WXINIndex index => SetXINBlockTxIndex index
  | WFinalAmount amount scTxID => SetFinalAmount amount scTxID
  end.
(** The keys of the two places that record the progress of a node besides its chain. *)
Definition progress_key (k : bytes) : Prop := k = keyFresh ∨ k = keyVotie.

(** ** Theorem *)
Lemma on_bs_same ks (m : go World unit) bs :
  (∀ w, same_but ks (w_db w) (w_db (end_state (m w)))) → same_but ks (bs_db bs) (bs_db (end_state (on_bs m bs))).
Proof. intros Hm. unfold on_bs, zoom, bs_db. specialize (Hm (bs_world bs)). by destruct (m (bs_world bs)). Qed.
Lemma bs_put_same ks (f : db → pan db) bs :
  (∀ d d', f d = Val d' → same_but ks d d') → same_but ks (bs_db bs) (bs_db (end_state (bs_put f bs))).
Proof.
  intros Hf. apply on_bs_same. intros w. unfold tell, updates, mbind, pan_bind.
  destruct (f (w_db w)) as [d|e] eqn:E; cbn; [by apply Hf|apply same_but_refl].
Qed.
(** Neither of the chain nor of the progress. *)
Definition aside (k : bytes) : Prop := not_chain k ∧ ¬ progress_key k.
Lemma bs_put1_same key (f : db → db) bs :
  (∀ d, same_but (eq key) d (f d)) → aside key → same_but aside (bs_db bs) (bs_db (end_state (bs_put (λ d, mret (f d)) bs))).
Proof.
  intros Hf Ha. apply bs_put_same. intros d d' [= <-]. eapply same_but_mono; [|apply Hf]. by intros k <-.
Qed.
Ltac is_aside := split; [not_chain_key|let E := fresh in intros [E|E]; revert E; unfold keyFresh, keyVotie; by intros [=]].
Lemma write_same op bs : same_but aside (bs_db bs) (bs_db (end_state (write op bs))).
Proof.
  destruct op; cbn [write].
  - apply same_but_refl.
  - apply bs_put_same. intros d d' Hd. eapply same_but_mono; [|by apply (SetNodeTerm_same _ _ _ Hd)].
    intros k <-. unfold keyTerm. is_aside.
  - eapply bs_put1_same; [intros d; apply same_but_put|unfold keyHeightPrefix; is_aside].
  - eapply bs_put1_same; [intros d; apply same_but_delete|unfold keySignMsgPrefix; is_aside].
  - eapply bs_put1_same; [intros d; apply same_but_put|unfold sign_failed_key, keySignFailedPrefix; is_aside].
  - apply on_bs_same. intros w. apply same_but_refl.
  - eapply bs_put1_same; [intros d; apply same_but_delete|unfold keyJoinNodeInfo; is_aside].
  - eapply bs_put1_same; [intros d; apply same_but_delete|unfold keyLeaveNodeInfo; is_aside].
  - eapply bs_put1_same; [intros d; apply same_but_put|unfold keyETHHeight; is_aside].
  - eapply bs_put1_same; [intros d; apply same_but_put|unfold keyETHTxIndex; is_aside].
  - eapply bs_put1_same; [intros d; apply same_but_put|unfold keyXINHeight; is_aside].
  - eapply bs_put1_same; [intros d; apply same_but_put|unfold keyXINTxIndex; is_aside].
  - eapply bs_put1_same; [intros d; apply same_but_put|unfold keyFinalAmountPrefix; is_aside].
Qed.

End BlockStore.
