(* ===== verification/Intake.v ===== *)
(** * Transactions that come in from the connected chains (src/node/node.go, src/node/http_handlers.go)

    [watchNewTx] takes what the chain libraries push and hands the transfers that it
    accepts to the pool; events of the gateway contracts on Ethereum also settle a
    transfer. [AddSideTx] and [manual_AddWatchedTx] are the same by hand, for an operator.
    [ReconfigEvent] is never emitted, so the flag that would pause [watchNewTx] is
    never set and is left out. *)
From S2P Require Import Prelude.
From S2P Require Import GoLib.
From S2P Require Import Crypto.
From S2P Require Import Messages.
From S2P Require Import Feed.
From S2P Require Import ProtoOps.
From S2P Require Import Store.
From S2P Require Import DbOps.
From S2P Require Import TxPool.
From S2P Require Import Consensus.
From S2P Require Import ChainTx.
From S2P Require Import Distribution.
From S2P Require Import SignTx.
From S2P Require Import Signing.
From S2P Require Import LeaderTx.
From S2P Require Import SignChain.

(** The least amounts that a node asks for, of its configuration. *)
Record Minimums : Type := { minBCHMintAmount : Z; minBTCMintAmount : Z; minBurnAmount : Z }.
(** A value on one of the channels of [watchNewTx]. *)
Inductive Push : Type :=
  | BchTxChan (tx : SubTransaction)
  | BtcTxChan (tx : SubTransaction)
  | EthEventChan (ev : EthChainEvent)
  | XinTxChan (ev : EOSPushEvent)
  | EosTxChan (ev : EOSPushEvent).

Section Intake.
Context `{KV} `{Wire} `{DistJson} `{Chains}.
Variable mins : Minimums.

(** ** Watching *)
Definition checkSubTx (tx : SubTransaction) : bool :=
  negb (bool_decide (st_To tx = "eth") && negb (VerifyAppInfo (st_From tx) (st_TokenFrom tx) (st_TokenTo tx))).
Definition coin_watched (minAmount : Z) (tx : SubTransaction) : option WatchedTxInfo :=
  if negb (checkSubTx tx) then None
  else if st_Amount tx <? minAmount then None
  else BtcToPbTx tx.
Definition add_watched (watchedTx : option WatchedTxInfo) : go SignNode unit :=
  match watchedTx with None => mret tt | Some wt => the_pool (AddWatchedTx wt) end.

Definition save_eth_place (ev : EthChainEvent) : go SignNode unit :=
  _ ← write_db (λ d, mret (SetETHBlockHeight (ec_BlockNumber ev) d));
  write_db (λ d, mret (SetETHBlockTxIndex (ec_TxIndex ev) d)).
(** The result is the goroutine that is started, if one is: the hash of the mint and
    the id of the transfer it is for. *)
Definition dealEthEvent (ev : EthChainEvent) : go SignNode (option (string * string)) :=
  match ec_Method ev with
  | TOKEN_METHOD_BURN =>
      if ec_Failed ev then mret None
      else match ec_Burn ev with
           | None => lift (Fault TypeAssertion)
           | Some burnData =>
               if st_Amount burnData <? uwrap64 (minBurnAmount mins) then mret None
               else
                 _ ← add_watched (EthToPbTx DecodeAddress burnData);
                 _ ← save_eth_place ev; mret None
           end
  | METHOD_MINT =>
      if Z.land (ec_Events ev) VOTE_TX_MINT =? 0 then mret None
      else match ec_Extra ev with
           | ExtraMintData proposal => _ ← save_eth_place ev; mret (Some (ec_TxHash ev, proposal))
           | _ => lift (Fault TypeAssertion)
           end
  | METHOD_ADDVOTER =>
      if Z.land (ec_Events ev) VOTE_TX_VOTERADDED =? 0 then mret None
      else _ ← save_eth_place ev; mret None
  | METHOD_REMOVEVOTER =>
      if Z.land (ec_Events ev) VOTE_TX_VOTERREMOVED =? 0 then mret None
      else _ ← save_eth_place ev; mret None
  | OTHER_METHOD => _ ← save_eth_place ev; mret None
  end.
(** The goroutine of a mint; [now] in seconds. *)
Definition mint_done (now : Z) (txHash scTxId : string) : go SignNode unit :=
  n ← gets id;
  _ ← the_pool (CreateInnerTx now txHash scTxId (GetFinalAmount scTxId (sg_db n)));
  deleteFromWaiting scTxId.
Definition dealXINEvent (ev : EOSPushEvent) : go SignNode unit := add_watched (XINToPbTx ev).
Definition dealEOSEvent (ev : EOSPushEvent) : go SignNode unit := add_watched (EOSToPbTx ev).
Definition watchNewTx (p : Push) : go SignNode (option (string * string)) :=
  match p with
  | BchTxChan tx => _ ← add_watched (coin_watched (minBCHMintAmount mins) tx); mret None
  | BtcTxChan tx => _ ← add_watched (coin_watched (minBTCMintAmount mins) tx); mret None
  | EthEventChan ev => dealEthEvent ev
  | XinTxChan ev => _ ← dealXINEvent ev; mret None
  | EosTxChan ev => _ ← dealEOSEvent ev; mret None
  end.

(** ** By hand *)
Definition manual_AddWatchedTx (tx : WatchedTxInfo) : go SignNode (option string) :=
  n ← gets id;
  if negb (HasWatchedTx (Some tx) (sg_pool n)) then _ ← the_pool (AddWatchedTx tx); mret None
  else mret (Some "tx already exist").
(** What is found on the chain, or the error. A watcher that answers with neither an event nor an
    error is taken as one with an error. *)
Definition side_tx (txID chain : string) : pan (option WatchedTxInfo + string) :=
  if bool_decide (chain = "bch") || bool_decide (chain = "btc") then
    match GetTxByHash chain txID with
    | Some chainTx =>
        match cx_SubTx chainTx with
        | Some sub => mret (inl (BtcToPbTx sub))
        | None => mret (inr (chain +:+ " sub tx nil"))
        end
    | None => mret (inr ("get " +:+ chain +:+ " tx nil"))
    end
  else if bool_decide (chain = "eth") then
    match GetEventByHash txID with
    | None => mret (inr "get eth tx nil")
    | Some event =>
        event ← deref event;
        match ec_Method event with
        | TOKEN_METHOD_BURN =>
            if ec_Failed event then mret (inr "burn tx is failed in contract")
            else match ec_Burn event with
                 | None => Fault TypeAssertion
                 | Some burnData =>
                     if st_Amount burnData <? uwrap64 (minBurnAmount mins)
                     then mret (inr "amount is less than minimal amount")
                     else mret (inl (EthToPbTx DecodeAddress burnData))
                 end
        | _ => mret (inl None)
        end
    end
  else if bool_decide (chain = "xin") then
    match GetEventByTxid "xin" txID with
    | None => mret (inr "get xin tx nil")
    | Some event => match XINToPbTx event with
                    | None => mret (inr "xin event to watched err")
                    | Some wt => mret (inl (Some wt))
                    end
    end
  else mret (inl None).
(** [AddWatchedInfo] reads the id of what it is given, which may be nil. *)
Definition AddSideTx (txID chain : string) : go SignNode (option string) :=
  r ← lift (side_tx txID chain);
  match r with
  | inr err => mret (Some err)
  | inl watchedTx => wt ← lift (deref watchedTx); the_pool (AddWatchedInfo wt)
  end.
(** What an operator may ask of a node over HTTP and that changes its state. *)
Inductive OperatorCall : Type :=
  | CallAddWatchedTx (tx : WatchedTxInfo)
  | CallAddSideTx (txID chain : string)
  | CallAddProposal (p : Proposal)
  | CallDeleteProposal (proposalID : string)
  | CallExecuteProposal (proposalID : string).
Definition operator (now : Z) (call : OperatorCall) : go SignNode unit :=
  match call with
  | CallAddWatchedTx tx => _ ← manual_AddWatchedTx tx; mret tt
  | CallAddSideTx txID chain => _ ← AddSideTx txID chain; mret tt
  | CallAddProposal p => _ ← the_pool (AddProposal now p); mret tt
  | CallDeleteProposal i => _ ← the_pool (DeleteProposal i); mret tt
  | CallExecuteProposal i => the_pool (ExecuteProposal i)
  end.
(** The HTTP server recovers from a panic of a request. *)
Definition recovered {S} (m : go S unit) : go S unit := λ s, Ret tt (end_state (m s)).
End Intake.

(** ** The chain of blocks is left alone *)
Section IntakeMild.
Context `{KV} `{Wire} `{DistJson} `{Chains}.

Lemma mild_save_eth_place ev : mild sg_db (save_eth_place ev).
Proof.
  unfold save_eth_place. mild_run; apply mild_write_db; intros d d' [= <-]; apply put_not_chain;
    unfold keyETHHeight, keyETHTxIndex; not_chain_key.
Qed.
Lemma mild_add_watched w : mild sg_db (add_watched w).
Proof. unfold add_watched, AddWatchedTx, modify_ts. mild_step; [|mild_step]. apply mild_the_pool. mild_run. Qed.
Lemma mild_watchNewTx mins p : mild sg_db (watchNewTx mins p).
Proof.
  unfold watchNewTx, dealEthEvent, dealXINEvent, dealEOSEvent.
  repeat first [apply mild_add_watched|apply mild_save_eth_place|mild_step].
Qed.
Lemma mild_mint_done now h i : mild sg_db (mint_done now h i).
Proof. unfold mint_done, deleteFromWaiting. repeat first [apply mild_the_pool, mild_CreateInnerTx|mild_step]. Qed.
Lemma mild_proposal_put (di : DistributionInfo) : mild p_db (updates_db (setDistributionProposal di)).
Proof.
  apply mild_updates_db. intros d d' (p & _ & [= <-])%pan_bind_Val. apply put_not_chain.
  unfold proposal_key, keyDistributionProposalPrefix. not_chain_key.
Qed.
Lemma mild_proposal_del i : mild p_db (updates_db (λ d, mret (delDistributionProposal i d))).
Proof.
  apply mild_updates_db. intros d d' [= <-]. apply delete_not_chain.
  unfold proposal_key, keyDistributionProposalPrefix. not_chain_key.
Qed.
Lemma mild_LoadFromDB : mild p_db LoadFromDB.
Proof.
  unfold LoadFromDB, load_one, AddWatchedTx, modify_ts. repeat first [apply mild_setStatus|mild_step].
Qed.
Lemma mild_operator mins now call : mild sg_db (recovered (operator mins now call)).
Proof.
  intros n. change (end_state (recovered (operator mins now call) n)) with (end_state (operator mins now call n)).
  revert n. change (mild sg_db (operator mins now call)).
  unfold operator, manual_AddWatchedTx, AddSideTx, AddProposal, DeleteProposal, ExecuteProposal, AddWatchedTx,
    AddWatchedInfo, WatchedTxToFresh, modify_ts.
  repeat first [apply mild_the_pool|apply mild_proposal_put|apply mild_proposal_del|apply mild_setStatus|mild_step].
Qed.
End IntakeMild.

(** * Properties *)
Section IntakeProps.
Context `{KV} `{Wire} `{DistJson} `{Chains}.
Implicit Types (n : SignNode) (ev : EthChainEvent).

(** What a step leaves alone, and the transfers that it hands to the pool. *)
Record takes (l : list WatchedTxInfo) n n' : Prop := {
  takes_inbox : inbox (p_ts (sg_pool n')) = inbox (p_ts (sg_pool n)) ++ (addWatchedTxReq <$> l);
  takes_watched : watchedTxInfo (p_ts (sg_pool n')) = watchedTxInfo (p_ts (sg_pool n));
  takes_fresh : freshWatchedTxInfo (p_ts (sg_pool n')) = freshWatchedTxInfo (p_ts (sg_pool n));
  takes_waiting : sg_waiting n' = sg_waiting n;
  takes_cache : sg_cache n' = sg_cache n;
  takes_events : sg_events n' = sg_events n;
  takes_db : same_but (λ k, k = keyETHHeight ∨ k = keyETHTxIndex) (sg_db n) (sg_db n')
}.
Lemma takes_none n : takes [] n n.
Proof. split; first [done|by rewrite app_nil_r|apply same_but_refl]. Qed.
Lemma takes_trans l l' n1 n2 n3 : takes l n1 n2 → takes l' n2 n3 → takes (l ++ l') n1 n3.
Proof.
  intros [A B C D E F G] [A' B' C' D' E' F' G']. split; try congruence.
  - by rewrite A' A fmap_app app_assoc.
  - by eapply same_but_trans.
Qed.
Lemma run_add_watched w n : ∃ n', add_watched w n = Ret tt n' ∧ takes (option_list w) n n'.
Proof.
  destruct w as [wt|]; [|exists n; split; [done|apply takes_none]].
  eexists. split; [reflexivity|]. split; first [done|apply same_but_refl].
Qed.
Lemma run_save_eth_place ev n :
  ∃ n', save_eth_place ev n = Ret tt n' ∧ takes [] n n' ∧
    sg_db n' = SetETHBlockTxIndex (ec_TxIndex ev) (SetETHBlockHeight (ec_BlockNumber ev) (sg_db n)).
Proof.
  eexists. split; [reflexivity|]. split; [|done]. split; try done; [by rewrite app_nil_r|].
  eapply same_but_trans; (eapply same_but_mono; [|apply same_but_put]); intros k <-; auto.
Qed.

(** ** What reaches the pool *)
Definition sound_for (mins : Minimums) (p : Push) (wt : WatchedTxInfo) : Prop :=
  let funded minAmount tx :=
    minAmount ≤ st_Amount tx ∧ wt_Txid wt = st_ScTxid tx ∧ wt_Amount wt = st_Amount tx ∧
    amounts (wt_RechargeList wt) ≤ wt_Amount wt ∧ Forall (λ a, 0 < ai_Amount a) (wt_RechargeList wt) ∧
    (wt_To wt = "eth" → VerifyAppInfo (st_From tx) (st_TokenFrom tx) (st_TokenTo tx) = true) in
  match p with
  | BchTxChan tx => funded (minBCHMintAmount mins) tx
  | BtcTxChan tx => funded (minBTCMintAmount mins) tx
  | EthEventChan ev =>
      ec_Method ev = TOKEN_METHOD_BURN ∧ ec_Failed ev = false ∧ ∃ burn, ec_Extra ev = ExtraBurnData burn ∧
        uwrap64 (minBurnAmount mins) ≤ st_Amount burn ∧ wt_Txid wt = st_ScTxid burn ∧
        Forall (λ a, DecodeAddress (ai_Address a) (wt_To wt) = true) (wt_RechargeList wt)
  | XinTxChan ev =>
      0 < ee_Amount ev ∧ ∃ chain address, wt = eos_watched "xin" chain address ev ∧
        UnmarshalMemo (ee_Data ev) = Some (chain, address) ∧
        if bool_decide (chain = "eos") then checkEOSAddr address = true
        else (chain = "btc" ∨ chain = "bch") ∧ DecodeAddress address chain = true
  | EosTxChan ev =>
      0 < ee_Amount ev ∧ ∃ address, wt = eos_watched "eos" "xin" address ev ∧
        UnmarshalMemo (ee_Data ev) = Some ("xin", address) ∧ checkEOSAddr address = true
  end.
(** The signed amounts of the Bitcoin watchers. *)
Definition push_ok (p : Push) : Prop :=
  match p with
  | BchTxChan tx | BtcTxChan tx => i64 (st_Amount tx) ∧ Forall (λ a, i64 (ai_Amount a)) (st_RechargeList tx)
  | _ => True
  end.

Lemma coin_sound minAmount tx wt : i64 (st_Amount tx) → Forall (λ a, i64 (ai_Amount a)) (st_RechargeList tx) →
  coin_watched minAmount tx = Some wt →
  minAmount ≤ st_Amount tx ∧ wt_Txid wt = st_ScTxid tx ∧ wt_Amount wt = st_Amount tx ∧
  amounts (wt_RechargeList wt) ≤ wt_Amount wt ∧ Forall (λ a, 0 < ai_Amount a) (wt_RechargeList wt) ∧
  (wt_To wt = "eth" → VerifyAppInfo (st_From tx) (st_TokenFrom tx) (st_TokenTo tx) = true).
Proof.
  intros Hi Hl. unfold coin_watched. destruct (checkSubTx tx) eqn:Ec; [|done]. cbn [negb].
  destruct (st_Amount tx <? minAmount) eqn:Em; [done|]. to_prop. unfold BtcToPbTx.
  destruct (st_Amount tx <=? 0) eqn:E; [done|]. to_prop. destruct (st_RechargeList tx) eqn:El; [done|].
  intros (r & Hr & [= <-])%bind_Some. assert (0 < st_Amount tx) as Hpos by lia.
  pose proof (btc_recharge_bound _ _ _ Hpos Hi Hl Hr) as (? & ? & _). cbn.
  split_and!; try done. intros He. unfold checkSubTx in Ec. rewrite bool_decide_eq_true_2 // in Ec.
  by destruct (VerifyAppInfo _ _ _).
Qed.
Lemma eth_recharge_addresses decode to l : ∀ left r, eth_recharge decode to left l = Some r →
  Forall (λ a, decode (ai_Address a) to = true) r.
Proof.
  induction l as [|a l IH]; intros left r; cbn; [by intros [= <-]|].
  destruct (_ <=? 0); [done|]. destruct (decode _ _) eqn:Ed; [|done]. cbn.
  destruct (_ <=? 0); [intros [= <-]; by repeat constructor|].
  intros (r' & Hr & [= <-])%bind_Some. constructor; [done|by eapply IH].
Qed.
Lemma xin_sound (ev : EOSPushEvent) wt : XINToPbTx ev = Some wt →
  0 < ee_Amount ev ∧ ∃ chain address, wt = eos_watched "xin" chain address ev ∧
    UnmarshalMemo (ee_Data ev) = Some (chain, address) ∧
    if bool_decide (chain = "eos") then checkEOSAddr address = true
    else (chain = "btc" ∨ chain = "bch") ∧ DecodeAddress address chain = true.
Proof.
  unfold XINToPbTx. destruct (ee_Amount ev <=? 0) eqn:E; [done|]. to_prop.
  intros ([chain address] & Hm & Hw)%bind_Some. split; [lia|]. exists chain, address.
  destruct (bool_decide (chain = "btc") || bool_decide (chain = "bch")) eqn:Eb.
  - apply orb_true_iff in Eb. rewrite !bool_decide_eq_true in Eb.
    destruct (DecodeAddress address chain) eqn:Ed; [|done]. injection Hw as <-.
    rewrite bool_decide_eq_false_2; [done|]. by destruct Eb as [->| ->].
  - destruct (bool_decide (chain = "eos")) eqn:Ee; [|done]. by destruct (checkEOSAddr address); [injection Hw as <-|].
Qed.
Lemma eos_sound (ev : EOSPushEvent) wt : EOSToPbTx ev = Some wt →
  0 < ee_Amount ev ∧ ∃ address, wt = eos_watched "eos" "xin" address ev ∧
    UnmarshalMemo (ee_Data ev) = Some ("xin", address) ∧ checkEOSAddr address = true.
Proof.
  unfold EOSToPbTx. destruct (ee_Amount ev <=? 0) eqn:E; [done|]. to_prop.
  intros ([chain address] & Hm & Hw)%bind_Some. split; [lia|]. exists address.
  destruct (bool_decide (chain = "xin")) eqn:Ec; [|done]. apply bool_decide_eq_true in Ec as ->.
  by destruct (checkEOSAddr address); [injection Hw as <-|].
Qed.
(** Whether a handler hands on at most one transfer, one that is sound. *)
Definition sound_step (mins : Minimums) (p : Push) {A} (m : go SignNode A) : Prop :=
  ∀ n a n', m n = Ret a n' → ∃ l, takes l n n' ∧ (length l ≤ 1)%nat ∧ Forall (sound_for mins p) l.
Lemma sound_ret mins p {A} (a : A) : sound_step mins p (mret a).
Proof. intros n a' n' [= <- <-]. exists []. split_and!; [apply takes_none|cbn; lia|done]. Qed.
Lemma sound_fault mins p {A} f : sound_step mins p (lift (A := A) (Fault f)).
Proof. by intros n a n' ?. Qed.
Lemma sound_add mins p w : (∀ wt, w = Some wt → sound_for mins p wt) → sound_step mins p (add_watched w).
Proof.
  intros Hw n [] n' Hr. destruct (run_add_watched w n) as (n2 & Hr2 & Ht).
  rewrite Hr2 in Hr. injection Hr as <-. exists (option_list w). split; [done|].
  destruct w as [wt|]; cbn; (split; [lia|]); [constructor; [by apply Hw|done]|done].
Qed.
Lemma sound_then mins p (m : go SignNode unit) {A} (a : A) : sound_step mins p m → sound_step mins p (_ ← m; mret a).
Proof. intros Hm n a' n' ([] & n1 & Hr & [= _ <-])%bind_Ret_inv. by apply (Hm n tt). Qed.
Lemma sound_place mins p ev {A} (m : go SignNode unit) (a : A) :
  sound_step mins p m → sound_step mins p (_ ← m; _ ← save_eth_place ev; mret a).
Proof.
  intros Hm n a' n' ([] & n1 & Hr & (? & n2 & Hs & [= _ <-])%bind_Ret_inv)%bind_Ret_inv.
  destruct (Hm n tt n1 Hr) as (l & Ht & Hl & Hs1). destruct (run_save_eth_place ev n1) as (n3 & Hs3 & Ht3 & _).
  rewrite Hs3 in Hs. injection Hs as _ <-. exists l. split_and!; [|done|done].
  rewrite -(app_nil_r l). by eapply takes_trans.
Qed.
Lemma eth_sound mins ev : sound_step mins (EthEventChan ev) (dealEthEvent mins ev).
Proof.
  assert (∀ g : option (string * string), sound_step mins (EthEventChan ev) (_ ← save_eth_place ev; mret g)) as Hp.
  { intros g. exact (sound_place mins (EthEventChan ev) ev (mret tt) g (sound_ret _ _ tt)). }
  unfold dealEthEvent. destruct (ec_Method ev) eqn:Em.
  - destruct (ec_Failed ev) eqn:Ef; [apply sound_ret|]. unfold ec_Burn.
    destruct (ec_Extra ev) as [burn| |] eqn:Ex; [|apply sound_fault..].
    destruct (st_Amount burn <? _) eqn:Eb; [apply sound_ret|]. to_prop.
    apply sound_place, sound_add. intros wt Hw. split; [done|]. split; [done|]. exists burn. split_and!; try done.
    all: revert Hw; unfold EthToPbTx; destruct (_ <=? 0); try done; destruct (st_RechargeList burn); try done.
    all: intros (r & Hr' & [= <-])%bind_Some; cbn; try done. by eapply eth_recharge_addresses.
  - destruct (_ =? 0); [apply sound_ret|]. destruct (ec_Extra ev); [apply sound_fault|apply Hp|apply sound_fault].
  - destruct (_ =? 0); [apply sound_ret|apply Hp].
  - destruct (_ =? 0); [apply sound_ret|apply Hp].
  - apply Hp.
Qed.

(** C25. What the pool receives from a chain. Whatever is pushed, at most one transfer is handed
    to the pool and nothing else changes but the place reached on Ethereum. A deposit on a
    Bitcoin chain has the least amount, and its payments are positive and together at most the
    deposit; a burn on Ethereum did not fail, has the least amount, and pays to addresses of the
    target chain; a burn on an EOS chain is paid in full to the address and chain of its memo. *)
Theorem watched_transfers_sound mins p n g n' :
  push_ok p → watchNewTx mins p n = Ret g n' →
  ∃ l, takes l n n' ∧ (length l ≤ 1)%nat ∧ Forall (sound_for mins p) l.
Proof.
  intros Hok. revert n g n'. change (sound_step mins p (watchNewTx mins p)).
  destruct p as [tx|tx|ev|ev|ev]; cbn [watchNewTx push_ok] in *.
  - apply sound_then, sound_add. destruct Hok. intros wt. by apply coin_sound.
  - apply sound_then, sound_add. destruct Hok. intros wt. by apply coin_sound.
  - apply eth_sound.
  - apply sound_then, sound_add. intros wt. apply xin_sound.
  - apply sound_then, sound_add. intros wt. apply eos_sound.
Qed.

(** ** Mints *)
Lemma feed_list_total {A} (f : Hasher256 → A → Hasher256) (l : list A) : ∀ hs,
  ∃ h, feed_list (λ hs x, mret (f hs x)) hs l = Val h.
Proof. induction l as [|x l IH]; intros hs; [by eexists|apply IH]. Qed.
Lemma UpdateId_total tx wt : tx_WatchedTx tx = Some wt → ∃ i, UpdateId tx = Val (set_tx_Id tx (Some i)).
Proof.
  intros Hw. assert (∀ hs, ∃ h, feedRecharge hs (wt_RechargeList wt) = Val h) as Hr.
  { intros hs. unfold feedRecharge, FeedField. destruct (0 <? _); [|by eexists].
    cbn. match goal with |- context [feed_list _ ?h ?l] => destruct (feed_list_total
      (λ hs r, FeedInt64Field (FeedTextField hs "Address" (ai_Address r)) "Amount" (ai_Amount r)) l h) as [? Hh] end.
    cbn in Hh. rewrite Hh. by eexists. }
  unfold UpdateId, Transaction_hash, hash_of, feedTxFields, feedWatchedTx, FeedField. rewrite Hw. cbn.
  match goal with |- context [feedRecharge ?hs _] => destruct (Hr hs) as [h ->] end. by eexists.
Qed.
Lemma run_CreateInnerTx now h i a p req wt :
  GetSignMsg i (p_db p) = Val (Some req) → sr_WatchedTx req = Some wt →
  ∃ tx p', CreateInnerTx now h i a p = Ret tt p' ∧ p_db p' = p_db p ∧
    inbox (p_ts p') = inbox (p_ts p) ++ [addTxsReq [tx]] ∧
    tx_WatchedTx tx = Some wt ∧ tx_NewlyTxId tx = h ∧ tx_Time tx = now ∧
    tx_Amount tx = (if a =? 0 then wt_Amount wt else a) ∧
    watchedTxInfo (p_ts p') = delete (wt_Txid wt) (watchedTxInfo (p_ts p)) ∧
    freshWatchedTxInfo (p_ts p') = delete (wt_Txid wt) (freshWatchedTxInfo (p_ts p)).
Proof.
  intros Hr Hw. unfold CreateInnerTx. rewrite (bind_reads (λ p, GetSignMsg i (p_db p)) _ p (Some req) Hr) (bind_lift _ _ _ wt); [|by rewrite Hw].
  cbn zeta. set (tx := {| tx_Id := None |}). destruct (UpdateId_total tx wt eq_refl) as [j Hj].
  eexists _, _. unfold modify_ts. rewrite !bind_modify (bind_lift _ _ _ _ Hj). by split_and!.
Qed.

(** C26. A mint on Ethereum settles the transfer that it names: when the node holds a request for it,
    the pool is given a transaction with the hash of the mint and the final amount (the amount of the
    transfer when none is on record), the transfer is no longer watched, nor fresh, nor
    waited for, and the watch goes on after the place of the event. *)
Theorem mint_event_settles mins ev i now n req wt :
  ec_Method ev = METHOD_MINT → Z.land (ec_Events ev) VOTE_TX_MINT ≠ 0 → ec_Extra ev = ExtraMintData i →
  GetSignMsg i (sg_db n) = Val (Some req) → sr_WatchedTx req = Some wt →
  ∃ n1 n2 tx, watchNewTx mins (EthEventChan ev) n = Ret (Some (ec_TxHash ev, i)) n1 ∧
    GetETHBlockHeight (sg_db n1) = Some (Z.abs (ec_BlockNumber ev)) ∧
    mint_done now (ec_TxHash ev) i n1 = Ret tt n2 ∧
    inbox (p_ts (sg_pool n2)) = inbox (p_ts (sg_pool n)) ++ [addTxsReq [tx]] ∧
    tx_WatchedTx tx = Some wt ∧ tx_NewlyTxId tx = ec_TxHash ev ∧ tx_Time tx = now ∧
    tx_Amount tx = (if GetFinalAmount i (sg_db n) =? 0 then wt_Amount wt else GetFinalAmount i (sg_db n)) ∧
    watchedTxInfo (p_ts (sg_pool n2)) = delete (wt_Txid wt) (watchedTxInfo (p_ts (sg_pool n))) ∧
    freshWatchedTxInfo (p_ts (sg_pool n2)) = delete (wt_Txid wt) (freshWatchedTxInfo (p_ts (sg_pool n))) ∧
    sg_waiting n2 = delete i (sg_waiting n).
Proof.
  intros Hm Hf Hx Hr Hwt. destruct (run_save_eth_place ev n) as (n1 & Hs & Ht & Hd).
  assert (∀ k, k ≠ keyETHHeight → k ≠ keyETHTxIndex → Get (sg_db n1) k = Get (sg_db n) k) as Hg.
  { intros k Hk1 Hk2. apply (takes_db _ _ _ Ht). by intros [?|?]. }
  destruct (run_CreateInnerTx now (ec_TxHash ev) i (GetFinalAmount i (sg_db n1)) (sg_pool n1) req wt)
    as (tx & p' & Hc & _ & Hi & Htw & Hth & Htt & Hta & Hw & Hfr); [|done|].
  { unfold GetSignMsg in *. rewrite -Hr. apply get_pb_ext, Hg; unfold keySignMsgPrefix; key_ne. }
  assert (GetFinalAmount i (sg_db n1) = GetFinalAmount i (sg_db n)) as Ha.
  { unfold GetFinalAmount, get_i64. rewrite Hg; [done|unfold keyFinalAmountPrefix; key_ne..]. }
  exists n1, (set_sg_waiting (delete i (sg_waiting n1)) (set_sg_pool p' n1)), tx.
  cbn [watchNewTx]. unfold dealEthEvent. rewrite Hm Hx. apply Z.eqb_neq in Hf. rewrite Hf (bind_Ret _ _ _ _ _ Hs).
  split; [done|]. split.
  { rewrite Hd. unfold SetETHBlockTxIndex, GetETHBlockHeight, SetETHBlockHeight.
    rewrite Get_Put_ne; [|done]. by rewrite Get_Put /= big_SetBytes_Bytes. }
  split. { unfold mint_done. rewrite bind_gets_id. unfold the_pool, zoom. by rewrite (bind_Ret _ _ _ tt (set_sg_pool p' n1)) ?Hc. }
  rewrite -Ha /= Hi Hw Hfr (takes_inbox _ _ _ Ht) (takes_watched _ _ _ Ht) (takes_fresh _ _ _ Ht) (takes_waiting _ _ _ Ht).
  by rewrite app_nil_r.
Qed.

(** ** The minimum *)

(** The least amount and the check of the application bind the node that watches, and no
    other: a deposit that [watchNewTx] passes over is valid for a node that is asked to sign its
    transfer and finds the deposit on the chain. *)
Theorem minimum_binds_watchers_only `{Watchers} mins tx wt chainTx w n :
  GetTxByHash "bch" (wt_Txid wt) = Some chainTx → cx_SubTx chainTx = Some tx → BtcToPbTx tx = Some wt →
  wt_From wt = "bch" → watchedTxInfo (p_ts (w_pool w)) !! wt_Txid wt = None →
  checkSubTx tx = false ∨ st_Amount tx < minBCHMintAmount mins →
  watchNewTx mins (BchTxChan tx) n = Ret None n ∧
  ∃ w', validateWatchedTx wt w = Ret true w'.
Proof.
  intros Hg Hsub Hwt Hfrom Hn Hsmall. split.
  { cbn [watchNewTx]. unfold coin_watched. destruct (checkSubTx tx); [|done]. destruct Hsmall as [?|Hlt]; [done|].
    apply Z.ltb_lt in Hlt. by rewrite Hlt. }
  unfold validateWatchedTx. rewrite bind_gets_id. unfold ValidateWatchedTx. rewrite Hn.
  rewrite (bind_lift _ _ _ (Some (Some wt))).
  2:{ unfold chain_watched. rewrite Hfrom /= Hg Hsub /=. by rewrite Hwt. }
  eexists. rewrite (bind_lift _ _ _ wt); [|done]. assert (WatchedTxInfo_EqualTo wt wt = true) as ->; [|reflexivity].
  by apply WatchedTxInfo_EqualTo_spec.
Qed.

(** A transfer added by hand must be found on one of four chains: for any other chain, and for
    an event that is no burn, the id of nil is read. *)
Lemma AddSideTx_unknown_chain mins txID chain n :
  chain ∉ ["bch"; "btc"; "eth"; "xin"] → AddSideTx mins txID chain n = Panic NilDeref n.
Proof.
  intros Hc. unfold AddSideTx, side_tx. rewrite !bool_decide_eq_false_2; [done|set_solver..].
Qed.
End IntakeProps.
