(* ===== verification/Views.v ===== *)
(** * What a node shows of itself (src/node/http_handlers.go)

    The views of blocks, transactions and nodes that the HTTP server hands out, and the
    calls of the gateway contract that an operator asks for. The views are computed from the
    store, the list of nodes and the peers; the size of an encoded block is
    [XXX_Size], which is generated code, and the calls of the contract are the
    arguments that the library is given. *)
From S2P Require Import Prelude.
From S2P Require Import GoLib.
From S2P Require Import Crypto.
From S2P Require Import Messages.
From S2P Require Import Feed.
From S2P Require Import ProtoOps.
From S2P Require Import Cluster.
From S2P Require Import Peers.
From S2P Require Import Store.
From S2P Require Import DbOps.
From S2P Require Import TxPool.
From S2P Require Import ChainTx.
From S2P Require Import SignTx.
From S2P Require Import Distribution.
From S2P Require Import Signing.

Definition firstBlockHeight : Z := 0.
Definition defaultCreateUsed : Z := 10.

(** ** Transactions and blocks *)
Record TxView : Type := {
  tv_FromTxHash : string; tv_ToTxHash : string; tv_DGWTxHash : string; tv_From : string; tv_To : string;
  tv_Time : Z; tv_Block : string; tv_BlockHeight : Z; tv_Amount : Z; tv_ToAddrs : list string;
  tv_FromFee : Z; tv_DGWFee : Z; tv_ToFee : Z; tv_TokenCode : Z; tv_AppCode : Z; tv_FinalAmount : Z
}.
Record BlockView : Type := {
  bv_Height : Z; bv_ID : string; bv_PreID : string; bv_TxCnt : Z; bv_Txs : list TxView; bv_Time : Z;
  bv_Size : Z; bv_CreatedUsed : Z; bv_Miner : string
}.
Definition getHexString (digest : option Digest256) : string :=
  match digest with Some i => if bool_decide (Data i = "") then "" else hex_encode (Data i) | None => "" end.
Definition createTxView (blockID : string) (height : Z) (tx : option Transaction) : option TxView :=
  tx ← tx;
  watchedTx ← tx_WatchedTx tx;
  let '(tokenCode, appCode) :=
    if bool_decide (wt_From watchedTx = "eth") || bool_decide (wt_From watchedTx = "xin")
    then (wt_TokenTo watchedTx, wt_TokenFrom watchedTx) else (wt_TokenFrom watchedTx, wt_TokenTo watchedTx) in
  Some {| tv_FromTxHash := wt_Txid watchedTx; tv_DGWTxHash := getHexString (tx_Id tx); tv_ToTxHash := tx_NewlyTxId tx;
          tv_From := wt_From watchedTx; tv_To := wt_To watchedTx; tv_Block := blockID; tv_BlockHeight := height;
          tv_Amount := wt_Amount watchedTx; tv_FromFee := wt_Fee watchedTx;
          tv_ToAddrs := ai_Address <$> wt_RechargeList watchedTx; tv_Time := tx_Time tx; tv_TokenCode := tokenCode;
          tv_AppCode := appCode; tv_FinalAmount := tx_Amount tx; tv_DGWFee := wt_Amount watchedTx -i64 tx_Amount tx;
          tv_ToFee := 0 |}.

Section Views.
Context `{KV} `{Wire} {Conn : Type}.
Variable XXX_Size : BlockPack → Z.
Variable peers : gmap Z (PeerNode Conn).
Implicit Types (d : db) (l : list BlockPack).

(** [None] is a nil view. *)
Definition createBlockView (createdUsed : Z) (blockPack : BlockPack) : pan (option BlockView) :=
  block ← bp_Block blockPack;
  match block with
  | None => mret None
  | Some block =>
      height ← bp_Height blockPack;
      let nodeID := match bp_Init blockPack with Some init => im_NodeId init | None => 0 end in
      let miner := match GetNode nodeID peers with Some p => Name (pn_info p) | None => "" end in
      let txViews := omap (λ tx, createTxView (getHexString (b_Id block)) height (Some tx)) (b_Txs block) in
      mret (Some {| bv_Height := height; bv_ID := getHexString (b_Id block); bv_PreID := getHexString (b_PrevBlockId block);
                    bv_TxCnt := Z.of_nat (length txViews); bv_Txs := txViews; bv_Time := Z.quot (b_TimestampMs block) 1000;
                    bv_Size := XXX_Size blockPack; bv_CreatedUsed := createdUsed; bv_Miner := miner |})
  end.
Definition created_after (pre bp : BlockPack) : pan Z :=
  p ← bp_TimestampMs pre;
  if p =? 0 then mret defaultCreateUsed
  else t ← bp_TimestampMs bp; mret (Z.quot t 1000 -i64 Z.quot p 1000).
Fixpoint views_from (pre : BlockPack) (blockPacks : list BlockPack) : pan (list (option BlockView)) :=
  match blockPacks with
  | [] => mret []
  | bp :: bps =>
      used ← created_after pre bp; v ← createBlockView used bp; vs ← views_from bp bps; mret (v :: vs)
  end.
(** The blocks of the heights in [start, end), with the one before for the time; [None] is a nil slice. *)
Definition GetBlocks (start end_ : Z) d : pan (option (list (option BlockView))) :=
  if (end_ <=? start) || (start <? firstBlockHeight) then mret None
  else
    let start' := if start >? firstBlockHeight then start -i64 1 else start in
    blockPacks ← GetCommitsByHeightSec start' end_ d;
    match blockPacks with
    | [] => mret None
    | pre :: bps =>
        first ← (if start =? firstBlockHeight then v ← createBlockView 0 pre; mret [v] else mret []);
        vs ← views_from pre bps;
        mret (Some (first ++ vs))
    end.
Definition GetBlockBytHeight (height : Z) d : pan (option BlockView) :=
  views ← GetBlocks height (height +i64 1) d;
  match views with Some (v :: _) => mret v | _ => mret None end.
Definition GetBlockCurrent d : pan (option BlockView) := h ← GetCommitHeight d; GetBlockBytHeight h d.
(** [None] is the error. *)
Definition view_by_id (idreal : bytes) d : pan (option BlockView) :=
  block ← GetBlockByID idreal d;
  block ← deref block;
  prev ← bp_PrevBlockId block;
  preBlock ← (match prev with
              | Some i => if 0 <? len (Data i) then GetBlockByID (Data i) d else mret None
              | None => mret None
              end);
  createdUsed ← (match preBlock with
                 | Some pre => t ← bp_TimestampMs block; p ← bp_TimestampMs pre;
                               mret (Z.quot t 1000 -i64 Z.quot p 1000)
                 | None => mret 0
                 end);
  createBlockView createdUsed block.
Definition GetBlockViewByID (id : string) d : pan (option (option BlockView)) :=
  match hex_decode id with
  | None => mret None
  | Some idreal => v ← view_by_id idreal d; mret (Some v)
  end.
Definition GetTransacitonByTxID (txID : string) d : pan (option TxView) :=
  r ← GetTx txID d;
  match r with
  | None => mret None
  | Some r => mret (createTxView (getHexString (q_BlockID r)) (q_Height r) (Some (q_Tx r)))
  end.
Definition GetBlockInfo (height : Z) d : pan BlockInfo :=
  blockPack ← GetCommitByHeight height d; bp ← deref blockPack; bp_BlockInfo bp.
(** For tests: the block is put behind the chain without asking anybody. *)
Definition FakeCommitBlock (blockPack : BlockPack) : go SignNode unit :=
  _ ← the_pool (zoom p_db set_p_db (JustCommitIt blockPack));
  the_pool (OnNewBlockCommitted blockPack).
End Views.

(** ** Nodes *)
Record NodeRuntimeInfo : Type := { nr_NodeID : Z; nr_EthHeight : Z; nr_BchHeight : Z; nr_BtcHeight : Z; nr_LeaderCnt : Z }.
(** [GetBlockNumber] is the height that the watcher of a chain has reached. *)
Definition GetNodeRuntimeInfo (GetBlockNumber : string → Z) (self beComeLeaderCnt : Z) : NodeRuntimeInfo :=
  {| nr_NodeID := self; nr_BtcHeight := GetBlockNumber "btc"; nr_BchHeight := GetBlockNumber "bch";
     nr_EthHeight := GetBlockNumber "eth"; nr_LeaderCnt := beComeLeaderCnt |}.
(** The answers of the peers in the order in which they arrive; [None] is an error. *)
Definition GetNodeRuntimeInfos (answers : list (option NodeRuntimeInfo)) : gmap Z NodeRuntimeInfo :=
  foldl (λ m i, <[nr_NodeID i := i]> m) ∅ (omap id answers).

Record NodeView : Type := {
  nv_id : Z; nv_IP : string; nv_HostName : string; nv_IsLeader : bool; nv_IsOnline : bool; nv_FiredCnt : Z;
  nv_EthHeight : Z; nv_BchHeight : Z; nv_BtcHeight : Z
}.
Fixpoint Split (sep : ascii) (s : string) : list string :=
  match s with
  | EmptyString => [""]
  | String c s' =>
      if bool_decide (c = sep) then "" :: Split sep s'
      else match Split sep s' with [] => [String c ""] | w :: ws => String c w :: ws end
  end.
Definition getHostAndPort (url : string) : string * string :=
  match Split ":" url with host :: port :: _ => (host, port) | _ => ("", "") end.
Definition getHeightAndLeaderCnt (nodeID : Z) (apiDatas : gmap Z NodeRuntimeInfo) : Z * Z * Z * Z :=
  match apiDatas !! nodeID with
  | None => (0, 0, 0, 0)
  | Some d => (nr_EthHeight d, nr_BtcHeight d, nr_BchHeight d, nr_LeaderCnt d)
  end.
Definition node_view (leaderID : Z) (infos : gmap Z NodeRuntimeInfo) (node : NodeInfo) : NodeView :=
  let isLeader := leaderID =? Id node in
  let '(ethH, btcH, bchH, leaderCnt) := getHeightAndLeaderCnt (Id node) infos in
  {| nv_id := 0; nv_IP := (getHostAndPort (Url node)).1; nv_HostName := Name node; nv_IsLeader := isLeader;
     nv_IsOnline := IsNormal node; nv_EthHeight := ethH; nv_BtcHeight := btcH; nv_BchHeight := bchH;
     nv_FiredCnt := if isLeader && (leaderCnt >? 0) then wrap32 (leaderCnt - 1) else leaderCnt |}.
(** [sort.Slice] is an insertion sort up to twelve nodes, which this is for any number. *)
Fixpoint insert_view (v : NodeView) (l : list NodeView) : list NodeView :=
  match l with [] => [v] | w :: l' => if nv_id v <? nv_id w then v :: w :: l' else w :: insert_view v l' end.
Definition GetNodes (term : Z) (infos : gmap Z NodeRuntimeInfo) (c : Cluster) : pan (list NodeView) :=
  leaderID ← LeaderNodeOfTerm c term;
  mret (foldl (λ l v, insert_view v l) [] (node_view leaderID infos <$> NodeList c)).

(** ** Calls of the gateway contract on Ethereum *)
Record ChainRegInfo : Type := { cr_NewChain : string; cr_TargetChain : string }.
Record TokenRegInfo : Type := { tr_ContractAddr : string; tr_Chain : string; tr_ReceptChain : Z; tr_ReceptToken : Z }.
Record ManualMintRequest : Type := { mm_Amount : Z; mm_Address : string; mm_Proposal : string; mm_Chain : Z; mm_Token : Z }.
(** The arguments of [GatewayTransaction] after the keys of the node. *)
Inductive GatewayCall : Type :=
  | VOTE_METHOD_ADDCHAIN (newChain proposal : string)
  | VOTE_METHOD_ADDAPP (addr : bytes) (receptChain receptToken : Z) (proposal : string)
  | VOTE_METHOD_MINT_CALL (token amount : Z) (addr : bytes) (proposal : string).
Section Contract.
Variable HexToAddress : string → bytes.
Variables (GetChainCode GetAppCode : string → Z).
Definition ChainRegister (regInfo : ChainRegInfo) : option GatewayCall :=
  if bool_decide (cr_TargetChain regInfo = "eth")
  then Some (VOTE_METHOD_ADDCHAIN (cr_NewChain regInfo) ("CR_" +:+ cr_TargetChain regInfo +:+ "_" +:+ cr_NewChain regInfo))
  else None.
Definition GetChainRegisterID (newChain targetChain : string) : option Z :=
  if bool_decide (targetChain = "eth") then Some (GetChainCode newChain) else None.
Definition TokenRegister (regInfo : TokenRegInfo) : option GatewayCall :=
  if bool_decide (tr_Chain regInfo = "eth")
  then Some (VOTE_METHOD_ADDAPP (HexToAddress (tr_ContractAddr regInfo)) (tr_ReceptChain regInfo) (tr_ReceptToken regInfo)
               ("TR_" +:+ tr_ContractAddr regInfo))
  else None.
Definition GetTokenRegisterID (chain contractAddr : string) : option Z :=
  if bool_decide (chain = "eth") then Some (GetAppCode contractAddr) else None.
Definition ManualMint (mintInfo : ManualMintRequest) : GatewayCall :=
  VOTE_METHOD_MINT_CALL (mm_Token mintInfo) (uwrap64 (mm_Amount mintInfo)) (HexToAddress (mm_Address mintInfo))
    ("MM_" +:+ mm_Proposal mintInfo).
End Contract.

(** * Properties *)
Section ViewProps.
Context `{KV} `{Wire} {Conn : Type}.
Variable XXX_Size : BlockPack → Z.
Variable peers : gmap Z (PeerNode Conn).
Implicit Types (d : db) (l : list BlockPack).
Notation createBlockView := (createBlockView XXX_Size peers).
Notation views_from := (views_from XXX_Size peers).
Notation GetBlocks := (GetBlocks XXX_Size peers).
Notation GetBlockBytHeight := (GetBlockBytHeight XXX_Size peers).
Notation GetBlockViewByID := (GetBlockViewByID XXX_Size peers).

(** ** What a view of the chain is *)
Definition timestamp (bp : BlockPack) : Z := match bp_TimestampMs bp with Val t => t | Fault _ => 0 end.
Definition seconds (bp : BlockPack) : Z := Z.quot (timestamp bp) 1000.
(** The seconds between a block and the one before it. *)
Definition used_at l (h : Z) : Z :=
  match (if h =? 0 then None else l !! Z.to_nat (h - 1)), l !! Z.to_nat h with
  | Some pre, Some bp => if timestamp pre =? 0 then defaultCreateUsed else seconds bp -i64 seconds pre
  | _, _ => 0
  end.
Definition shown l (h : Z) : option BlockView :=
  bp ← l !! Z.to_nat h; match createBlockView (used_at l h) bp with Val v => v | Fault _ => None end.

(** A block with an id has all that is shown of it. *)
Lemma createBlockView_total used bp i : bp_BlockId bp = Val i →
  ∃ v, createBlockView used bp = Val (Some v) ∧ bp_Height bp = Val (bv_Height v) ∧ bv_ID v = getHexString i ∧
    bv_CreatedUsed v = used.
Proof.
  destruct bp as [[init|] ps cs]; [|done]. unfold bp_BlockId, Views.createBlockView, bp_Height. cbn.
  destruct (im_Block init) as [b|]; [|done]. intros [= <-]. by eexists.
Qed.
Lemma timestamp_total bp i : bp_BlockId bp = Val i → bp_TimestampMs bp = Val (timestamp bp).
Proof.
  destruct bp as [[init|] ps cs]; [|done]. unfold bp_BlockId, timestamp, bp_TimestampMs. cbn.
  by destruct (im_Block init).
Qed.
Lemma created_after_spec pre bp i j : bp_BlockId pre = Val i → bp_BlockId bp = Val j →
  created_after pre bp = Val (if timestamp pre =? 0 then defaultCreateUsed else seconds bp -i64 seconds pre).
Proof.
  intros Hi Hj. unfold created_after. rewrite (timestamp_total _ _ Hi) (timestamp_total _ _ Hj). cbn.
  by destruct (_ =? 0).
Qed.
Lemma shown_at d l h bp : chain_rep d l → l !! h = Some bp →
  ∃ v i, createBlockView (used_at l (Z.of_nat h)) bp = Val (Some v) ∧ shown l (Z.of_nat h) = Some v ∧
    bv_Height v = Z.of_nat h ∧ bp_BlockId bp = Val (Some i) ∧ bv_ID v = getHexString (Some i) ∧
    bv_CreatedUsed v = used_at l (Z.of_nat h).
Proof.
  intros Hr Hl. destruct (rep_ids d l Hr _ _ Hl) as [i Hi].
  destruct (createBlockView_total (used_at l (Z.of_nat h)) _ _ Hi) as (v & Hv & Hh & Hid & Hu).
  rewrite (rep_height d l Hr _ _ Hl) in Hh. injection Hh as Hh. exists v, i. split_and!; try done.
  unfold shown. rewrite Nat2Z.id Hl. cbn. by rewrite Hv.
Qed.
Lemma used_after d l h pre bp : chain_rep d l → l !! h = Some pre → l !! S h = Some bp →
  created_after pre bp = Val (used_at l (Z.of_nat (S h))).
Proof.
  intros Hr Hp Hb. destruct (rep_ids d l Hr _ _ Hp) as [i Hi], (rep_ids d l Hr _ _ Hb) as [j Hj].
  rewrite (created_after_spec _ _ _ _ Hi Hj). unfold used_at.
  replace (Z.of_nat (S h) - 1) with (Z.of_nat h) by lia.
  destruct (Z.eqb_spec (Z.of_nat (S h)) 0); [lia|]. by rewrite !Nat2Z.id Hp Hb.
Qed.
Lemma views_from_spec d l bps : chain_rep d l → ∀ h pre, l !! h = Some pre → bps `prefix_of` drop (S h) l →
  views_from pre bps = Val (shown l <$> seqZ (Z.of_nat (S h)) (Z.of_nat (length bps))).
Proof.
  intros Hr. induction bps as [|bp bps IH]; intros h pre Hp Hpre; [done|].
  assert (l !! S h = Some bp) as Hb.
  { destruct Hpre as [k Hk]. rewrite -(Nat.add_0_r (S h)) -lookup_drop Hk. done. }
  cbn [Views.views_from length]. rewrite (used_after d l h); [|done..]. cbn [mbind pan_bind].
  destruct (shown_at d l (S h) bp Hr Hb) as (v & i & Hv & Hs & _). rewrite Hv. cbn [mbind pan_bind].
  rewrite (IH (S h)); [|done|].
  2:{ destruct Hpre as [k Hk]. exists k. rewrite -(Nat.add_1_r (S h)) -drop_drop Hk. done. }
  cbn [mbind pan_bind mret pan_ret]. rewrite (seqZ_cons _ (Z.of_nat (S (length bps)))); [|lia]. rewrite fmap_cons Hs.
  replace (Z.pred (Z.of_nat (S (length bps)))) with (Z.of_nat (length bps)) by lia.
  by replace (Z.succ (Z.of_nat (S h))) with (Z.of_nat (S (S h))) by lia.
Qed.
Lemma omap_seqZ_take l : ∀ n s, omap (λ h, l !! Z.to_nat h) (seqZ (Z.of_nat s) (Z.of_nat n)) = take n (drop s l).
Proof.
  induction n as [|n IH]; intros s; [done|]. rewrite seqZ_cons; [|lia]. cbn [omap list_omap].
  rewrite Nat2Z.id. replace (Z.succ (Z.of_nat s)) with (Z.of_nat (S s)) by lia.
  replace (Z.pred (Z.of_nat (S n))) with (Z.of_nat n) by lia. change (list_omap _ _ _ _) with
    (omap (λ h, l !! Z.to_nat h) (seqZ (Z.of_nat (S s)) (Z.of_nat n))). rewrite IH.
  destruct (l !! s) as [bp|] eqn:E.
  - by rewrite (drop_S l bp s E).
  - apply lookup_ge_None in E. rewrite (drop_ge l s) ?(drop_ge l (S s)); [|lia..]. by rewrite !take_nil.
Qed.

Lemma packs_spec d l s end_ : chain_rep d l → 0 ≤ s < end_ → end_ < 2^63 →
  GetCommitsByHeightSec s end_ d = Val (take (Z.to_nat (end_ - s)) (drop (Z.to_nat s) l)).
Proof.
  intros Hr Hs He. rewrite (GetCommitsByHeightSec_spec d l); [|done|lia|done]. f_equal.
  rewrite -omap_seqZ_take. do 2 f_equal; lia.
Qed.
Lemma range_views d l s n pre bps : chain_rep d l → take n (drop s l) = pre :: bps →
  l !! s = Some pre ∧ (s < length l)%nat ∧
  views_from pre bps = Val (shown l <$> seqZ (Z.of_nat (S s)) (Z.min (Z.of_nat (s + n)) (Z.of_nat (length l)) - Z.of_nat (S s))).
Proof.
  intros Hr Ht. destruct n as [|n]; [done|].
  assert (l !! s = Some pre) as Hp.
  { rewrite -(Nat.add_0_r s) -lookup_drop. destruct (drop s l); [done|]. cbn in Ht. by injection Ht as -> _. }
  pose proof (lookup_lt_Some _ _ _ Hp) as Hlt. split_and!; [done|done|].
  rewrite (drop_S l pre s Hp) in Ht. cbn in Ht. injection Ht as <-.
  rewrite (views_from_spec d l _ Hr s pre Hp); [|apply prefix_take].
  rewrite length_take length_drop. do 3 f_equal. lia.
Qed.

Lemma range_shows d l start end_ :
  chain_rep d l → l ≠ [] → 0 ≤ start → start < end_ → end_ < 2^63 →
  GetBlocks start end_ d =
    Val (if Z.of_nat (length l) <? start then None
         else Some (shown l <$> seqZ start (Z.min end_ (Z.of_nat (length l)) - start))).
Proof.
  intros Hr Hne Hs He Hb.
  assert (0 < length l)%nat as Hlen by (destruct l; [done|cbn; lia]).
  unfold Views.GetBlocks, firstBlockHeight. destruct (Z.leb_spec end_ start); [lia|].
  destruct (Z.ltb_spec start 0); [lia|]. cbn [orb]. rewrite Z.gtb_ltb.
  destruct (Z.ltb_spec 0 start) as [Hpos|Hz].
  - rewrite wrap64_small; [|unfold i64; lia]. rewrite (packs_spec d l); [|done|lia|done]. cbn [mbind pan_bind].
    destruct (take _ _) as [|pre bps] eqn:Et.
    + destruct (Z.ltb_spec (Z.of_nat (length l)) start); [done|]. exfalso.
      apply (f_equal length) in Et. rewrite length_take length_drop in Et. cbn in Et. lia.
    + apply (range_views d) in Et as (_ & Hlt & ->); [|done]. destruct (Z.eqb_spec start 0); [lia|].
      destruct (Z.ltb_spec (Z.of_nat (length l)) start); [lia|]. cbn. do 4 f_equal; lia.
  - assert (start = 0) as -> by lia. rewrite (packs_spec d l); [|done|lia|done]. cbn [mbind pan_bind].
    destruct (take _ _) as [|pre bps] eqn:Et.
    { apply (f_equal length) in Et. rewrite length_take length_drop in Et. cbn in Et. lia. }
    apply (range_views d) in Et as (Hp & Hlt & ->); [|done]. destruct (Z.ltb_spec (Z.of_nat (length l)) 0); [lia|].
    destruct (shown_at d l 0 pre Hr Hp) as (v & i & Hv & Hsh & _).
    change (used_at l (Z.of_nat 0)) with 0 in Hv. rewrite Hv. cbn [Z.eqb mbind pan_bind mret pan_ret].
    rewrite (seqZ_cons 0); [|lia]. rewrite fmap_cons. change 0 with (Z.of_nat 0) at 3. rewrite Hsh. cbn. do 5 f_equal. lia.
Qed.

(** The blocks that a range query shows: for a chain of [length l] blocks and [start < end_],
    the views of the heights from [start] up to the lesser of [end_] and the length, in order, each with the
    seconds since the block before it, which is also read when it is outside the range;
    nothing (a nil slice) when [start] is more than one above the top. *)
Theorem GetBlocks_shows d l start end_ :
  chain_rep d l → l ≠ [] → 0 ≤ start → start < end_ → end_ < 2^63 →
  GetBlocks start end_ d =
    Val (if Z.of_nat (length l) <? start then None
         else Some (shown l <$> seqZ start (Z.min end_ (Z.of_nat (length l)) - start))) ∧
  ∀ h, 0 ≤ h < Z.of_nat (length l) → ∃ v bp i, shown l h = Some v ∧ l !! Z.to_nat h = Some bp ∧
    bv_Height v = h ∧ bp_BlockId bp = Val (Some i) ∧ bv_ID v = getHexString (Some i) ∧ bv_CreatedUsed v = used_at l h.
Proof.
  intros Hr Hne Hs He Hb. split; [by apply range_shows|].
  intros h Hh. destruct (lookup_lt_is_Some_2 l (Z.to_nat h)) as [bp Hl]; [lia|].
      destruct (shown_at d l _ bp Hr Hl) as (v & i & Hv). rewrite Z2Nat.id in Hv; [|lia].
      destruct Hv as (_ & ? & ? & ? & ? & ?). by exists v, bp, i.
Qed.

(** ** Queries for one block *)
Lemma by_height_shows d l h : chain_rep d l → l ≠ [] → 0 ≤ h → h + 1 < 2^63 →
  GetBlockBytHeight h d = Val (shown l h).
Proof.
  intros Hr Hne Hh Hb. unfold Views.GetBlockBytHeight. rewrite wrap64_small; [|unfold i64; lia].
  rewrite (range_shows d l); [|done|done|lia..]. cbn [mbind pan_bind].
  destruct (Z.ltb_spec (Z.of_nat (length l)) h).
  { unfold shown. rewrite lookup_ge_None_2; [done|lia]. }
  destruct (Z_lt_le_dec h (Z.of_nat (length l))).
  - replace (Z.min (h + 1) (Z.of_nat (length l)) - h) with 1 by lia. rewrite seqZ_cons; [|lia].
    rewrite fmap_cons. cbn. by destruct (shown l h).
  - rewrite seqZ_nil; [|lia]. unfold shown. rewrite lookup_ge_None_2; [done|lia].
Qed.
Lemma current_shows d l : chain_rep d l → l ≠ [] →
  GetBlockCurrent XXX_Size peers d = Val (shown l (Z.of_nat (length l) - 1)).
Proof.
  intros Hr Hne. unfold GetBlockCurrent. rewrite (rep_GetCommitHeight d l); [|done]. cbn [mbind pan_bind].
  pose proof (rep_len d l Hr). assert (0 < length l)%nat by (destruct l; [done|cbn; lia]).
  apply (by_height_shows d l); [done|done|lia..].
Qed.
Lemma block_by_id d l i bp x : chain_rep d l → l !! i = Some bp → bp_BlockId bp = Val (Some x) →
  GetBlockByID (Data x) d = Val (Some bp).
Proof.
  intros Hr Hl Hx. unfold GetBlockByID. assert (i < length l)%nat by by eapply lookup_lt_Some.
  pose proof (rep_len d l Hr).
  assert (Get d (keyCommitHsByIdsPrefix +:+ Data x) = Some (I64ToBytes (Z.of_nat i))) as ->.
  { apply (rep_id d l Hr). exists i, bp. by destruct x. }
  rewrite BytesToI64_I64ToBytes; [|unfold i64; lia]. rewrite (rep_GetCommitByHeight d l); [|done|lia].
  by rewrite Nat2Z.id Hl.
Qed.
(** Every block names the one before it, the first none; ids are not empty. *)
Record linked l : Prop := {
  li_prev : ∀ i pre bp, l !! i = Some pre → l !! S i = Some bp → bp_PrevBlockId bp = bp_BlockId pre;
  li_first : ∀ bp, l !! 0%nat = Some bp → bp_PrevBlockId bp = Val None;
  li_ids : ∀ bp x, bp ∈ l → bp_BlockId bp = Val (Some x) → 0 < len (Data x)
}.
Lemma hex_shown x : 0 < len (Data x) → hex_decode (getHexString (Some x)) = Some (Data x).
Proof.
  intros Hx. unfold getHexString. rewrite bool_decide_false; [apply hex_decode_encode|].
  intros E. by rewrite E in Hx.
Qed.

Lemma hex_prefix_shown x : hex_decode_prefix (getHexString (Some x)) = Data x.
Proof.
  unfold getHexString. case_bool_decide as E; [by rewrite E|]. apply hex_decode_prefix_decode, hex_decode_encode.
Qed.

(** The id that a view shows leads back to the view: on a chain whose blocks name the one before
    them and have a time, the query for the id of a block that the query for a height
    answered gives the same view, the seconds since the block before included. *)
Theorem view_by_id_agrees d l h v :
  chain_rep d l → linked l → (∀ bp, bp ∈ l → timestamp bp ≠ 0) → 0 ≤ h → h + 1 < 2^63 →
  GetBlockBytHeight h d = Val (Some v) → GetBlockViewByID (bv_ID v) d = Val (Some (Some v)).
Proof.
  intros Hr Hl Ht Hh Hb. destruct (decide (l = [])) as [->|Hne].
  { unfold Views.GetBlockBytHeight, Views.GetBlocks. rewrite wrap64_small; [|unfold i64; lia]. unfold firstBlockHeight.
    destruct (Z.leb_spec (h + 1) h); [lia|]. destruct (Z.ltb_spec h 0); [lia|]. cbn [orb]. rewrite (packs_spec d []); [|done| |done].
    - by rewrite drop_nil take_nil.
    - destruct (h >? 0) eqn:E; to_prop; [rewrite wrap64_small; [lia|unfold i64; lia]|lia]. }
  rewrite (by_height_shows d l); [|done..]. intros [= Hv].
  destruct (l !! Z.to_nat h) as [bp|] eqn:El; [|by unfold shown in Hv; rewrite El in Hv].
  destruct (shown_at d l _ bp Hr El) as (v' & x & Hc & Hv' & _ & Hx & Hid & Hu). rewrite Z2Nat.id // in Hc, Hv', Hu.
  rewrite Hv in Hv'. injection Hv' as <-.
  assert (bp ∈ l) as Hin by by eapply list_elem_of_lookup_2.
  unfold Views.GetBlockViewByID. rewrite Hid hex_shown; [|by eapply (li_ids l)]. unfold view_by_id.
  rewrite (block_by_id d l _ _ _ Hr El Hx). cbn [mbind pan_bind deref].
  unfold used_at in Hc. rewrite El in Hc. destruct (Z.eqb_spec h 0) as [->|Hpos].
  { rewrite (li_first l Hl bp El). cbn [mbind pan_bind mret pan_ret]. by rewrite Hc. }
  destruct (lookup_lt_is_Some_2 l (Z.to_nat (h - 1))) as [pre Hp].
  { apply lookup_lt_Some in El. lia. }
  destruct (rep_ids d l Hr _ _ Hp) as [y Hy]. rewrite Hp in Hc.
  rewrite (li_prev l Hl _ pre bp Hp); [|by replace (S (Z.to_nat (h - 1))) with (Z.to_nat h) by lia]. rewrite Hy.
  assert (pre ∈ l) as Hinp by by eapply list_elem_of_lookup_2.
  cbn [mbind pan_bind mret pan_ret]. destruct (Z.ltb_spec 0 (len (Data y))) as [|Hlt]; [|by apply (li_ids l Hl) in Hy; [lia|]].
  rewrite (block_by_id d l _ _ _ Hr Hp Hy). cbn [mbind pan_bind mret pan_ret].
  rewrite (timestamp_total _ _ Hx) (timestamp_total _ _ Hy). cbn [mbind pan_bind mret pan_ret].
  destruct (Z.eqb_spec (timestamp pre) 0); [by apply Ht in Hinp|]. fold (seconds pre) (seconds bp). by rewrite Hc.
Qed.
End ViewProps.
