(* ===== verification/HttpServer.v ===== *)
(** * The HTTP server (src/httpsvr)

    One request at a time: [serve] checks the credentials ([basicAuth]), finds the handler
    (the router of server.go) and runs it on the node. A panic of a handler ends the
    request and not the node. A request is what the router, the form and the JSON decoder
    make of it; an answer is the value that is written, before its encoding as JSON. The text of
    an error that the standard library makes is [parse_error]. *)
From S2P Require Import Prelude.
From S2P Require Import GoLib.
From S2P Require Import Crypto.
From S2P Require Import Messages.
From S2P Require Import Feed.
From S2P Require Import ProtoOps.
From S2P Require Import Cluster.
From S2P Require Import Peers.
From S2P Require Import Store.
From S2P Require Import DbOps.
From S2P Require Import TxPool.
From S2P Require Import ChainTx.
From S2P Require Import Distribution.
From S2P Require Import SignTx.
From S2P Require Import Signing.
From S2P Require Import Intake.
From S2P Require Import Views.

Definition modeErrCode : Z := 403.
Definition paramErrCode : Z := 501.
Definition sysErrCode : Z := 502.
Definition modeErrMsg : string := "firbidden operation".

(** ** What is sent (src/httpsvr/protocol.go) *)
Record TxInfo : Type := {
  ti_Height : Z; ti_PackTime : option (Z * Z); ti_From : string; ti_To : string; ti_Amount : Z; ti_ChainTxId : string;
  ti_AddressAmountMap : gmap string Z
}.
Record BlockInfoJson : Type := { bj_Height : Z; bj_PackTime : Z * Z; bj_Term : Z; bj_Id : string; bj_PrevId : string }.
Record createTxRequest : Type := { ct_Amount : Z; ct_ChainTxId : string; ct_AddressAmountMap : gmap string Z }.
Record fakeTxInfo : Type := {
  ft_From : string; ft_To : string; ft_FromTxHash : string; ft_ToTxHash : string; ft_Amount : Z; ft_ToAddr : string;
  ft_TokenFrom : Z; ft_TokenTo : Z
}.
Record exConfigResponse : Type := {
  ex_BCHMultiAddr : string; ex_BTCMultiAddr : string; ex_MintFeeRate : Z; ex_BurnFeeRate : Z;
  ex_MinBCHMintAmount : Z; ex_MinBTCMintAmount : Z; ex_MinBurnAmount : Z
}.

Definition toTxInfo (tx : option Transaction) (block : option BlockInfo) : pan (option TxInfo) :=
  match tx with
  | None => mret None
  | Some tx =>
      '(h, t) ← (match block with
                 | Some b => bl ← deref (bi_Block b); mret (bi_Height b, Some (MsToTime (b_TimestampMs bl)))
                 | None => mret (-1, None)
                 end);
      wt ← deref (tx_WatchedTx tx);
      mret (Some {| ti_Height := h; ti_PackTime := t; ti_From := wt_From wt; ti_To := wt_To wt; ti_Amount := wt_Amount wt;
                    ti_ChainTxId := wt_Txid wt;
                    ti_AddressAmountMap := foldl (λ m a, <[ai_Address a := ai_Amount a]> m) ∅ (wt_RechargeList wt) |})
  end.
Definition toBlockInfo (block : option BlockInfo) : pan (option BlockInfoJson) :=
  match block with
  | None => mret None
  | Some b =>
      i ← deref (bi_BlockId b);
      bl ← deref (bi_Block b);
      prev ← deref (b_PrevBlockId bl);
      mret (Some {| bj_Height := bi_Height b; bj_Term := bi_Term b; bj_Id := hex_encode (Data i);
                    bj_PrevId := hex_encode (Data prev); bj_PackTime := MsToTime (b_TimestampMs bl) |})
  end.
Definition toWatchedTxInfo (o : order) (req : createTxRequest) : WatchedTxInfo :=
  {| wt_Txid := ct_ChainTxId req; wt_Amount := ct_Amount req; wt_From := "bch"; wt_To := "eth"; wt_Fee := 0;
     wt_TokenFrom := 0; wt_TokenTo := 0;
     wt_RechargeList := (λ e, {| ai_Address := e.1; ai_Amount := e.2 |}) <$> range o 0 (ct_AddressAmountMap req) |}.
(** [now] in nanoseconds. *)
Definition fake_tx (now : Z) (tx : fakeTxInfo) : pan Transaction :=
  let wtx := {| wt_Txid := ft_FromTxHash tx; wt_Amount := ft_Amount tx; wt_From := ft_From tx; wt_To := ft_To tx;
                wt_RechargeList := [{| ai_Address := ft_ToAddr tx; ai_Amount := ft_Amount tx |}]; wt_Fee := 0;
                wt_TokenFrom := 0; wt_TokenTo := 0 |} in
  UpdateId {| tx_WatchedTx := Some wtx; tx_NewlyTxId := ft_ToTxHash tx; tx_Time := now / second; tx_Id := None; tx_Amount := 0 |}.
Fixpoint fake_txs (now : Z) (data : list fakeTxInfo) : pan (list Transaction) :=
  match data with [] => mret [] | tx :: l => t ← fake_tx now tx; ts ← fake_txs now l; mret (t :: ts) end.
Definition toBlockPack (now : Z) (block : list fakeTxInfo) (currBlockHash : Digest256) (height : Z) : pan BlockPack :=
  innerTxs ← fake_txs now block;
  newBlock ← CreateTxsBlock (now / 1000000) (Some currBlockHash) innerTxs;
  NewBlockPack (Some {| im_Term := 1; im_Height := height +i64 1; im_Block := Some newBlock; im_NodeId := 0;
                        im_Sig := ""; im_Votes := ∅ |}).
(** What is built with the script builder of btcd, in order. *)
Inductive ScriptOp : Type := AddOp_RETURN | AddData (data : bytes).
Definition fgp_prefix : bytes :=
  String (byte 0) (String (byte 102) (String (byte 103) (String (byte 112) ""))).
Definition mint_script (chain : string) (app : Z) (addr : string) : list ScriptOp :=
  [AddOp_RETURN; AddData fgp_prefix; AddData chain; AddData (put_be 4 app ""); AddData addr].

(** ** Answers *)
Inductive ApiValue : Type :=
  | NoValue
  | BlockHeightValue (h : Z)
  | TxInfoValue (tx : option TxInfo)
  | BlockInfoValue (b : option BlockInfoJson)
  | TxMapValue (l : list (string * string))
  | FakeBlockValue (height : Z) (id : string)
  | NodesValue (l : list NodeView)
  | BlockValue (b : option BlockView)
  | BlocksValue (l : option (list (option BlockView)))
  | TxValue (tx : option TxView)
  | RegIDValue (i : option Z)
  | ExConfigValue (c : exConfigResponse)
  | MintPayloadValue (payload : string)
  | ProposalValue (di : option DistributionInfo)
  | ProposalsValue (l : list DistributionInfo).
Record apiData : Type := newData { ad_Code : Z; ad_Msg : string; ad_Data : ApiValue }.
Definition newOKData (data : ApiValue) : apiData := newData 200 "ok" data.
Inductive Response : Type :=
  | Api (d : apiData)
  | PlainText (s : string)
  | StatusUnauthorized
  | Aborted.
Definition ok (data : ApiValue) : Response := Api (newOKData data).
Definition param_err (msg : string) : Response := Api (newData paramErrCode msg NoValue).
Definition sys_err (msg : string) : Response := Api (newData sysErrCode msg NoValue).
Definition mode_err : Response := Api (newData modeErrCode modeErrMsg NoValue).

(** ** Requests (the routes of src/httpsvr/server.go); a body is what decoding it gives, or the error *)
Inductive Route : Type :=
  | GetRoot
  | GetBlockheight
  | GetTransactionByScid (txid : string)
  | GetBlockbyheight (height : string)
  | GetTxsByBlockRange (start end_ : string)
  | PostCreateBlock (body : string + list fakeTxInfo)
  | PostWatchedTx (body : string + WatchedTxInfo)
  | GetNodesRoute
  | GetBlockCurrentRoute
  | GetBlocksRoute (start end_ : string)
  | GetBlockHeightRoute (height : string)
  | GetBlockIDRoute (blockID : string)
  | GetTransaciton (txid : string)
  | PostChainReg (body : string + ChainRegInfo)
  | GetChainReg (newchain targetchain : string)
  | PostTokenReg (body : string + TokenRegInfo)
  | GetTokenReg (chain contractaddr : string)
  | PostManualMint (body : string + ManualMintRequest)
  | GetExConfig
  | GetMintPayload (fromchain tochain app addr : string)
  | PostProposal (body : string + Proposal)
  | GetProposalRoute (proposal_id : string)
  | GetProposalList
  | DeleteProposalRoute (proposal_id : string)
  | PostExecProposal (proposal_id : string)
  | PostSideTx (chain txid : string).
Record HttpRequest : Type := { hr_auth : option (string * string); hr_route : Route }.
(** What the handlers read besides the store and the pool. *)
Record Env : Type := {
  en_mode : Mode; en_cluster : Cluster; en_infos : gmap Z NodeRuntimeInfo; en_mins : Minimums;
  en_mintFeeRate : Z; en_burnFeeRate : Z; en_now : Z
}.

Section Server.
Context `{KV} `{Wire} `{DistJson} `{Chains} {Conn : Type}.
Variable XXX_Size : BlockPack → Z.
Variable peers : gmap Z (PeerNode Conn).
Variable HexToAddress : string → bytes.
Variables (GetChainCode GetAppCode : string → Z).
(** The encoding of a script; [None] is an error with its text. *)
Variable Script : list ScriptOp → string + bytes.
Variable parse_error : string → string.
Variable env : Env.
(** A handler: the answer, and the call of the gateway contract if it makes one. *)
Definition handler : Type := go SignNode (Response * option GatewayCall).
Definition answer (r : Response) : handler := mret (r, None).
Definition look (f : db → pan Response) : handler := r ← reads (λ n, f (sg_db n)); answer r.
Definition ParseInt (s : string) : option Z := Atoi s.

(** *** Blocks and transactions *)
Definition h_GetBlockHeight : handler := look (λ d, h ← GetCommitHeight d; mret (ok (BlockHeightValue h))).
Definition h_GetTxBySidechainTxId (txid : string) : handler :=
  if Nat.eqb (String.length txid) 0 then answer (param_err "need param txid")
  else
    n ← gets id;
    tx ← lift (QueryTxInfoBySidechainId txid (sg_pool n));
    match tx with
    | None => answer (sys_err "transaction is not found")
    | Some tx =>
        block ← lift (if q_Height tx >? 0 then b ← GetBlockInfo (q_Height tx) (sg_db n); mret (Some b) else mret None);
        res ← lift (toTxInfo (Some (q_Tx tx)) block);
        answer (ok (TxInfoValue res))
    end.
Definition block_info (height : Z) : handler :=
  look (λ d, block ← GetBlockInfo height d; res ← toBlockInfo (Some block); mret (ok (BlockInfoValue res))).
Definition h_getBlockByHeight (h : string) : handler :=
  match ParseInt h with
  | None => answer (param_err "input is not correct")
  | Some height => if height <? 0 then answer (param_err "input is not correct") else block_info height
  end.
(** Here a negative number is answered with the text of the error, which is nil. *)
Definition h_getBlockViewByHeight (h : string) : handler :=
  match ParseInt h with
  | None => answer (param_err (parse_error h))
  | Some height => if height <? 0 then lift (Fault NilDeref) else block_info height
  end.
Fixpoint txs_from (n : nat) (start : Z) (d : db) : pan (list (string * string)) :=
  match n with
  | O => mret []
  | S n =>
      block ← GetBlockInfo start d;
      b ← deref (bi_Block block);
      here ← (fix go (txs : list Transaction) : pan (list (string * string)) :=
                match txs with
                | [] => mret []
                | tx :: l => wt ← deref (tx_WatchedTx tx); r ← go l; mret ((wt_Txid wt, tx_NewlyTxId tx) :: r)
                end) (b_Txs b);
      rest ← txs_from n (start + 1) d;
      mret (here ++ rest)
  end.
Definition h_getBlockTxsBySec (startStr endStr : string) : handler :=
  match ParseInt startStr with
  | None => answer (param_err (parse_error startStr))
  | Some start =>
      if start <? 0 then lift (Fault NilDeref)
      else match ParseInt endStr with
           | None => answer (param_err (parse_error endStr))
           | Some end_ =>
               if end_ <? 0 then lift (Fault NilDeref)
               else if end_ >? start +i64 1000 then answer (param_err "must less than 1000 blocks")
               else look (λ d, l ← txs_from (Z.to_nat (end_ - start)) start d; mret (ok (TxMapValue l)))
           end
  end.
Definition h_createBlock (body : string + list fakeTxInfo) : handler :=
  if negb (bool_decide (en_mode env = ModeTest)) then answer mode_err
  else match body with
       | inl err => answer (param_err err)
       | inr param =>
           currBlock ← reads (λ n, b ← GetBlockCurrent XXX_Size peers (sg_db n); deref b);
           let digest := hex_decode_prefix (bv_ID currBlock) in
           bp ← lift (toBlockPack (en_now env) param (Digest digest) (bv_Height currBlock));
           _ ← FakeCommitBlock bp;
           height ← lift (bp_Height bp);
           i ← lift (bp_BlockId bp);
           i ← lift (deref i);
           answer (ok (FakeBlockValue height (hex_encode (Data i))))
       end.
(** No route leads here. *)
Definition h_createTx (o : order) (body : string + createTxRequest) : go SignNode Response :=
  match body with
  | inl err => mret (sys_err err)
  | inr param => _ ← manual_AddWatchedTx (toWatchedTxInfo o param); mret (PlainText "")
  end.
Definition h_GetBlocksByHeightSec (startStr endStr : string) : handler :=
  match ParseInt startStr with
  | None => answer (param_err "start is not num")
  | Some start =>
      match ParseInt endStr with
      | None => answer (param_err "end is not num")
      | Some end_ =>
          if (start <? 0) || (end_ <? 0) || (start >=? end_)
          then answer (param_err "start,end must > 0 and start must < end")
          else look (λ d, l ← GetBlocks XXX_Size peers start end_ d; mret (ok (BlocksValue l)))
      end
  end.
Definition h_GetBlockByHeight (heightStr : string) : handler :=
  match ParseInt heightStr with
  | None => answer (param_err "height is not number")
  | Some height =>
      if height <? 0 then answer (param_err "height < 0")
      else look (λ d, b ← GetBlockBytHeight XXX_Size peers height d; mret (ok (BlockValue b)))
  end.
(** An empty id is answered with an error and then looked up. *)
Definition h_GetBlockByID (id : string) : handler :=
  look (λ d, r ← GetBlockViewByID XXX_Size peers id d;
    match r with None => mret (sys_err "get block err") | Some b => mret (ok (BlockValue b)) end).
Definition h_addTx (body : string + WatchedTxInfo) : handler :=
  match body with
  | inl err => answer (param_err err)
  | inr tx =>
      if bool_decide (wt_Txid tx = "") || (wt_Amount tx <? 0) || bool_decide (wt_From tx = "") || bool_decide (wt_To tx = "")
         || (wt_Fee tx <? 0) || (wt_TokenFrom tx <? 0) || (wt_TokenTo tx <? 0)
      then answer (param_err "tx param err")
      else if Nat.eqb (length (wt_RechargeList tx)) 0 then answer (param_err "rechargelist empty")
      else if existsb (λ a, bool_decide (ai_Address a = "") || (ai_Amount a <=? 0)) (wt_RechargeList tx)
      then answer (param_err "rechargelist data err")
      else
        err ← manual_AddWatchedTx tx;
        match err with Some e => answer (sys_err e) | None => answer (ok NoValue) end
  end.
Definition h_addWatchedTx (chain txID : string) : handler :=
  if bool_decide (chain = "") || bool_decide (txID = "") then answer (param_err "chain or txid is nil")
  else if negb (bool_decide (chain = "btc")) && negb (bool_decide (chain = "bch")) && negb (bool_decide (chain = "eth"))
          && negb (bool_decide (chain = "xin"))
  then answer (param_err "chain err")
  else
    err ← AddSideTx (en_mins env) txID chain;
    match err with Some e => answer (sys_err e) | None => answer (ok NoValue) end.

(** *** The gateway contract; only a node of the federation *)
Definition in_federation : bool := bool_decide (en_mode env = ModeNormal) || bool_decide (en_mode env = ModeJoin).
Definition contract_call {A} (body : string + A) (call : A → option GatewayCall) : handler :=
  if negb in_federation then answer mode_err
  else match body with
       | inl err => answer (param_err err)
       | inr param => mret (ok NoValue, call param)
       end.
Definition h_chainRegister (body : string + ChainRegInfo) : handler := contract_call body ChainRegister.
Definition h_getChainRegisterID (newChain targetChain : string) : handler :=
  answer (if negb in_federation then mode_err else ok (RegIDValue (GetChainRegisterID GetChainCode newChain targetChain))).
Definition h_tokenRegister (body : string + TokenRegInfo) : handler := contract_call body (TokenRegister HexToAddress).
Definition h_getTokenRegisterID (chain contractAddr : string) : handler :=
  answer (if negb in_federation then mode_err else ok (RegIDValue (GetTokenRegisterID GetAppCode chain contractAddr))).
Definition h_manualMint (body : string + ManualMintRequest) : handler :=
  contract_call body (λ m, Some (ManualMint HexToAddress m)).

(** *** Configuration and proposals *)
Definition h_getExConfig : handler :=
  answer (ok (ExConfigValue
    {| ex_BCHMultiAddr := BchAddress (CurrMultiSig (en_cluster env)); ex_BTCMultiAddr := BtcAddress (CurrMultiSig (en_cluster env));
       ex_MintFeeRate := en_mintFeeRate env; ex_BurnFeeRate := en_burnFeeRate env;
       ex_MinBCHMintAmount := minBCHMintAmount (en_mins env); ex_MinBTCMintAmount := minBTCMintAmount (en_mins env);
       ex_MinBurnAmount := minBurnAmount (en_mins env) |})).
Definition newBCHMintPayload (chain : string) (app : Z) (addr : string) : string + string :=
  match Script (mint_script chain app addr) with inl err => inl err | inr payload => inr (hex_encode payload) end.
Definition h_getMintPayload (fromChain toChain app addr : string) : handler :=
  match Atoi app with
  | None => answer (param_err "param illegal")
  | Some appNumber =>
      answer (
        if Nat.eqb (String.length fromChain) 0 || Nat.eqb (String.length toChain) 0 || Nat.eqb (String.length addr) 0
           || (appNumber <=? 0) then param_err "param illegal"
        else if bool_decide (fromChain = "btc") || bool_decide (fromChain = "bch") then
          match newBCHMintPayload toChain (appNumber mod 2^32) addr with
          | inl err => sys_err err
          | inr payload => ok (MintPayloadValue payload)
          end
        else param_err "chain not support")
  end.
Definition h_addProposal (body : string + Proposal) : handler :=
  match body with
  | inl err => answer (param_err err)
  | inr param =>
      r ← the_pool (AddProposal (en_now env) param);
      answer (if r : bool then ok NoValue else sys_err "proposal exist")
  end.
Definition h_deleteProposal (proposalID : string) : handler :=
  r ← the_pool (DeleteProposal proposalID);
  answer (if r : bool then ok NoValue else sys_err "delete failed").
Definition h_executeProposal (proposalID : string) : handler :=
  _ ← the_pool (ExecuteProposal proposalID); answer (ok NoValue).

(** ** The router *)
Definition dispatch (r : Route) : handler :=
  match r with
  | GetRoot => answer (PlainText "just a test")
  | GetBlockheight => h_GetBlockHeight
  | GetTransactionByScid txid => h_GetTxBySidechainTxId txid
  | GetBlockbyheight h => h_getBlockByHeight h
  | GetTxsByBlockRange s e => h_getBlockTxsBySec s e
  | PostCreateBlock body => h_createBlock body
  | PostWatchedTx body => h_addTx body
  | GetNodesRoute => look (λ d, t ← GetNodeTerm d; l ← GetNodes t (en_infos env) (en_cluster env); mret (ok (NodesValue l)))
  | GetBlockCurrentRoute => look (λ d, b ← GetBlockCurrent XXX_Size peers d; mret (ok (BlockValue b)))
  | GetBlocksRoute s e => h_GetBlocksByHeightSec s e
  | GetBlockHeightRoute h => h_GetBlockByHeight h
  | GetBlockIDRoute i => h_GetBlockByID i
  | GetTransaciton txid => look (λ d, tx ← GetTransacitonByTxID txid d; mret (ok (TxValue tx)))
  | PostChainReg body => h_chainRegister body
  | GetChainReg newchain targetchain => h_getChainRegisterID newchain targetchain
  | PostTokenReg body => h_tokenRegister body
  | GetTokenReg chain addr => h_getTokenRegisterID chain addr
  | PostManualMint body => h_manualMint body
  | GetExConfig => h_getExConfig
  | GetMintPayload f t app addr => h_getMintPayload f t app addr
  | PostProposal body => h_addProposal body
  | GetProposalRoute i => look (λ d, mret (ok (ProposalValue (GetProposal i d))))
  | GetProposalList => look (λ d, mret (ok (ProposalsValue (ListProposal d))))
  | DeleteProposalRoute i => h_deleteProposal i
  | PostExecProposal i => h_executeProposal i
  | PostSideTx chain txid => h_addWatchedTx chain txid
  end.
Definition basicAuth (requiredUser requiredPassword : string) (auth : option (string * string)) (h : handler) : handler :=
  if bool_decide (requiredUser = "") || bool_decide (requiredPassword = "") then h
  else if bool_decide (auth = Some (requiredUser, requiredPassword)) then h
  else answer StatusUnauthorized.
(** The HTTP library recovers from a panic and drops the connection. *)
Definition serve (user pwd : string) (rq : HttpRequest) : handler := λ n,
  match basicAuth user pwd (hr_auth rq) (dispatch (hr_route rq)) n with
  | Ret a n' => Ret a n'
  | Panic _ n' => Ret (Aborted, None) n'
  end.
End Server.

(** * Properties *)
Section ServerProps.
Context `{KV} `{Wire} `{DistJson} `{Chains} {Conn : Type}.
Variable XXX_Size : BlockPack → Z.
Variable peers : gmap Z (PeerNode Conn).
Variable HexToAddress : string → bytes.
Variables (GetChainCode GetAppCode : string → Z).
Variable Script : list ScriptOp → string + bytes.
Variable parse_error : string → string.
Implicit Types (env : Env) (n : SignNode) (d : db) (l : list BlockPack).
Notation dispatch := (dispatch XXX_Size peers HexToAddress GetChainCode GetAppCode Script parse_error).
Notation serve := (serve XXX_Size peers HexToAddress GetChainCode GetAppCode Script parse_error).

(** ** What a request can change *)
(** The handler leaves the node alone; only [call] may come out of it. *)
Definition looks (h : handler) (call : option GatewayCall) : Prop :=
  ∀ n, match h n with Ret (_, c) n' => n' = n ∧ c = call | Panic _ n' => n' = n end.
(** The handler does what [m] does. *)
Definition does (h : handler) (m : go SignNode unit) : Prop :=
  ∀ n, end_state (h n) = end_state (m n) ∧ ∀ a, returned (h n) = Some a → a.2 = None.

Lemma looks_answer r : looks (answer r) None.
Proof. intros n. done. Qed.
Lemma looks_look f : looks (look f) None.
Proof. intros n. unfold look, reads, mbind, go_bind. by destruct (f (sg_db n)). Qed.
Lemma looks_fault f : looks (lift (Fault f)) None.
Proof. intros n. done. Qed.
Lemma looks_call r c : looks (mret (r, c)) c.
Proof. intros n. done. Qed.
Lemma does_then {A} (m : go SignNode A) (op : go SignNode unit) (k : A → handler) :
  (∀ n, end_state (op n) = end_state (m n)) → (∀ a, looks (k a) None) → does (a ← m; k a) op.
Proof.
  intros Hm Hk n. rewrite Hm. unfold mbind, go_bind. destruct (m n) as [a n1|f n1]; [|done].
  pose proof (Hk a n1) as Hka. destruct (k a n1) as [[r c] n2|f n2]; [|by subst].
  destruct Hka as [-> ->]. split; [done|]. by intros ? [= <-].
Qed.
Lemma end_then_ret {A} (m : go SignNode A) n : end_state ((_ ← m; mret tt) n) = end_state (m n).
Proof. unfold mbind, go_bind. by destruct (m n). Qed.
Lemma looks_info h : looks (block_info h) None.
Proof. apply looks_look. Qed.

(** What the route is for an operator, if it is a call that changes the node. *)
Definition call_of (r : Route) : option OperatorCall :=
  match r with
  | PostWatchedTx (inr tx) => Some (CallAddWatchedTx tx)
  | PostSideTx chain txid => Some (CallAddSideTx txid chain)
  | PostProposal (inr p) => Some (CallAddProposal p)
  | DeleteProposalRoute i => Some (CallDeleteProposal i)
  | PostExecProposal i => Some (CallExecuteProposal i)
  | _ => None
  end.
Definition contract_of (r : Route) : option GatewayCall :=
  match r with
  | PostChainReg (inr p) => ChainRegister p
  | PostTokenReg (inr p) => TokenRegister HexToAddress p
  | PostManualMint (inr p) => Some (ManualMint HexToAddress p)
  | _ => None
  end.
Ltac looks_step := first
  [apply looks_answer|apply looks_look|apply looks_fault|apply looks_info|apply looks_call|progress case_match].
Ltac looks_all := repeat looks_step.
Lemma looks_contract {A} env (body : string + A) call : ∃ c,
  looks (contract_call env body call) c ∧
  (is_Some c → in_federation env = true ∧ ∃ p, body = inr p ∧ c = call p).
Proof.
  unfold contract_call. destruct (in_federation env); cbn [negb]; [|exists None; split; [apply looks_answer|by intros []]].
  destruct body as [e|p]; [exists None; split; [apply looks_answer|by intros []]|].
  exists (call p). split; [apply looks_call|]. intros _. split; [done|]. by exists p.
Qed.
Lemma looks_by_scid txid : looks (h_GetTxBySidechainTxId txid) None.
Proof.
  intros n. unfold h_GetTxBySidechainTxId. destruct (Nat.eqb _ _); [done|].
  rewrite bind_gets_id. unfold mbind, go_bind, lift. destruct (QueryTxInfoBySidechainId _ _) as [[q|]|]; [|done..].
  destruct (if _ >? 0 then _ else _) as [b|]; [|done]. by destruct (toTxInfo _ _).
Qed.
Ltac answers := left; exists None; split; [apply looks_answer|by intros []].
Lemma dispatch_effect env r : en_mode env ≠ ModeTest ∨ (∀ body, r ≠ PostCreateBlock body) →
  (∃ c, looks (dispatch env r) c ∧ (is_Some c → in_federation env = true ∧ contract_of r = c)) ∨
  ∃ op, call_of r = Some op ∧ does (dispatch env r) (operator (en_mins env) (en_now env) op).
Proof.
  intros Ht. destruct r as [| | | | |body|body| | | | | | |body| |body| |body| | |body| | |i|i|chain txid];
    try (left; exists None; split; [|by intros []]; cbn [HttpServer.dispatch];
         unfold h_GetBlockHeight, h_getBlockByHeight, h_getBlockTxsBySec, h_GetBlocksByHeightSec, h_GetBlockByHeight,
           h_GetBlockByID, h_getChainRegisterID, h_getTokenRegisterID, h_getExConfig, h_getMintPayload;
         first [apply looks_by_scid|by looks_all]).
  - left. exists None. split; [|by intros []]. cbn. unfold h_createBlock.
    rewrite bool_decide_false; [apply looks_answer|]. destruct Ht as [?|Ht]; [done|by destruct (Ht body)].
  - destruct body as [e|tx]; [answers|].
    cbn [HttpServer.dispatch h_addTx]. case_match; [answers|].
    case_match; [answers|].
    case_match; [answers|].
    right. exists (CallAddWatchedTx tx). split; [done|]. apply does_then; [apply end_then_ret|]. intros [?|]; apply looks_answer.
  - left. destruct (looks_contract env body ChainRegister) as (c & Hl & Hc). exists c. split; [done|].
    intros (Hf & p & -> & ->)%Hc. done.
  - left. destruct (looks_contract env body (TokenRegister HexToAddress)) as (c & Hl & Hc). exists c. split; [done|].
    intros (Hf & p & -> & ->)%Hc. done.
  - left. destruct (looks_contract env body (λ m, Some (ManualMint HexToAddress m))) as (c & Hl & Hc). exists c. split; [done|].
    intros (Hf & p & -> & ->)%Hc. done.
  - destruct body as [e|p]; [answers|].
    right. exists (CallAddProposal p). split; [done|]. apply does_then; [apply end_then_ret|]. intros a; apply looks_answer.
  - right. exists (CallDeleteProposal i). split; [done|]. apply does_then; [apply end_then_ret|]. intros a; apply looks_answer.
  - right. exists (CallExecuteProposal i). split; [done|]. apply does_then; [done|]. intros a; apply looks_answer.
  - cbn [HttpServer.dispatch]. unfold h_addWatchedTx.
    case_match; [answers|].
    case_match; [answers|].
    right. exists (CallAddSideTx txid chain). split; [done|]. apply does_then; [apply end_then_ret|].
    intros [?|]; apply looks_answer.
Qed.

Definition authorised (user pwd : string) (rq : HttpRequest) : Prop :=
  user = "" ∨ pwd = "" ∨ hr_auth rq = Some (user, pwd).
Lemma basicAuth_cases user pwd rq h :
  (authorised user pwd rq ∧ basicAuth user pwd (hr_auth rq) h = h) ∨
  (¬ authorised user pwd rq ∧ basicAuth user pwd (hr_auth rq) h = answer StatusUnauthorized).
Proof.
  unfold basicAuth, authorised. destruct (bool_decide (user = "")) eqn:Eu; to_prop; [left; auto|].
  destruct (bool_decide (pwd = "")) eqn:Ep; to_prop; [left; auto|]. cbn [orb].
  case_bool_decide; [left; auto|right; naive_solver].
Qed.


(** ** Block queries *)
Lemma block_info_at d l h bp : chain_rep d l → l !! Z.to_nat h = Some bp → 0 ≤ h →
  GetBlockInfo h d = bp_BlockInfo bp.
Proof.
  intros Hr Hl Hh. unfold GetBlockInfo. pose proof (rep_len d l Hr). pose proof (lookup_lt_Some _ _ _ Hl).
  rewrite (rep_GetCommitByHeight d l); [|done|lia]. by rewrite Hl.
Qed.
Lemma bp_BlockInfo_total bp h t x : bp_Height bp = Val h → bp_Term bp = Val t → bp_BlockId bp = Val (Some x) → 0 ≤ h → 0 ≤ t →
  ∃ b, bp_BlockInfo bp = Val {| bi_Term := t; bi_Height := h; bi_BlockId := Some x; bi_Block := Some b |} ∧
    bp_PrevBlockId bp = Val (b_PrevBlockId b) ∧ b_TimestampMs b = timestamp bp.
Proof.
  destruct bp as [[init|] ps cs]; [|done]. unfold bp_Height, bp_Term, bp_BlockId, bp_BlockInfo, bp_PrevBlockId, timestamp, bp_TimestampMs. cbn.
  destruct (im_Block init) as [b|]; [|done]. cbn. intros [= ->] [= ->] [= Hx] Hh Ht. exists b. split; [|done].
  unfold NewBlockInfoFull. rewrite !(proj2 (Z.leb_le _ _)) //=. by rewrite Hx.
Qed.

(** The query for a block by its height (getblockbyheight) answers for the blocks above the
    first one only: with the height, the term, the id, the id of the block before and
    the time; a text that is no number and a negative number are refused, but the
    height of the genesis block, which has no block before it, and every height above the top
    make the handler panic, where an answer without data is meant. *)
Theorem block_info_answers env h height n l :
  chain_rep (sg_db n) l → linked l → (∀ bp, bp ∈ l → ∃ t, bp_Term bp = Val t ∧ 0 ≤ t) → l ≠ [] →
  ParseInt h = Some height → height < 2^63 →
  dispatch env (GetBlockbyheight h) n =
    if height <? 0 then Ret (param_err "input is not correct", None) n
    else match l !! Z.to_nat height, (if height =? 0 then None else l !! Z.to_nat (height - 1)) with
         | Some bp, Some pre =>
             match bp_Term bp, bp_BlockId bp, bp_BlockId pre with
             | Val t, Val (Some x), Val (Some y) =>
                 Ret (ok (BlockInfoValue (Some {| bj_Height := height; bj_Term := t; bj_Id := hex_encode (Data x);
                   bj_PrevId := hex_encode (Data y); bj_PackTime := MsToTime (timestamp bp) |})), None) n
             | _, _, _ => Panic NilDeref n
             end
         | _, _ => Panic NilDeref n
         end.
Proof.
  intros Hr Hl Ht Hne Hp Hb. cbn [HttpServer.dispatch]. unfold h_getBlockByHeight. rewrite Hp.
  destruct (Z.ltb_spec height 0) as [|Hh]; [done|]. unfold block_info, look, answer, reads.
  unfold mbind at 1, go_bind at 1.
  destruct (l !! Z.to_nat height) as [bp|] eqn:El.
  2:{ unfold GetBlockInfo. rewrite (rep_GetCommitByHeight _ l); [|done|lia]. by rewrite El. }
  assert (bp ∈ l) as Hin by by eapply list_elem_of_lookup_2. destruct (Ht bp Hin) as (t & Hbt & Htp).
  destruct (rep_ids _ l Hr _ _ El) as [x Hx]. pose proof (rep_height _ l Hr _ _ El) as Hbh. rewrite Z2Nat.id in Hbh; [|done].
  destruct (bp_BlockInfo_total bp height t x Hbh Hbt Hx Hh Htp) as (b & Hi & Hpv & Hts).
  rewrite (block_info_at _ l height bp) // Hi Hbt Hx. cbn [mbind pan_bind toBlockInfo bi_BlockId bi_Block deref].
  destruct (Z.eqb_spec height 0) as [->|Hn0].
  { rewrite (li_first l Hl bp El) in Hpv. by injection Hpv as <-. }
  destruct (lookup_lt_is_Some_2 l (Z.to_nat (height - 1))) as [pre Hpre].
  { apply lookup_lt_Some in El. lia. }
  destruct (rep_ids _ l Hr _ _ Hpre) as [y Hy]. rewrite Hpre Hy.
  rewrite (li_prev l Hl _ pre bp Hpre) in Hpv; [|by replace (S (Z.to_nat (height - 1))) with (Z.to_nat height) by lia].
  rewrite Hy in Hpv. injection Hpv as <-. cbn. by rewrite Hts.
Qed.

(** ** A transfer given by hand *)
Definition transfer_ok (tx : WatchedTxInfo) : Prop :=
  wt_Txid tx ≠ "" ∧ 0 ≤ wt_Amount tx ∧ wt_From tx ≠ "" ∧ wt_To tx ≠ "" ∧ 0 ≤ wt_Fee tx ∧ 0 ≤ wt_TokenFrom tx ∧
  0 ≤ wt_TokenTo tx ∧ wt_RechargeList tx ≠ [] ∧ Forall (λ a, ai_Address a ≠ "" ∧ 0 < ai_Amount a) (wt_RechargeList tx).
Lemma recharge_ok_spec (rl : list AddressInfo) :
  existsb (λ a, bool_decide (ai_Address a = "") || (ai_Amount a <=? 0)) rl = false ↔
  Forall (λ a, ai_Address a ≠ "" ∧ 0 < ai_Amount a) rl.
Proof.
  induction rl as [|a rl IH]; [split; [constructor|done]|]. cbn. rewrite orb_false_iff orb_false_iff IH Forall_cons.
  rewrite bool_decide_eq_false Z.leb_gt. done.
Qed.
Definition queued (tx : WatchedTxInfo) n : SignNode :=
  set_sg_pool (set_p_ts (send (addWatchedTxReq tx) (p_ts (sg_pool n))) (sg_pool n)) n.

Lemma run_manual tx n : manual_AddWatchedTx tx n =
  if HasWatchedTx (Some tx) (sg_pool n) then Ret (Some "tx already exist") n else Ret None (queued tx n).
Proof. unfold manual_AddWatchedTx. rewrite bind_gets_id. by destruct (HasWatchedTx _ _). Qed.

(** A transfer that is posted (watchedtx) is refused, and nothing changes, unless it names a transaction, the
    two chains and at least one recipient, all amounts to recipients are positive
    and its amount and fee are not negative; that the recipients get no more than the amount is
    not asked. A good one is handed to the pool, to be paid, even when it was paid
    before: it is refused as known only if it is both still watched and in the store, where
    a transfer that is paid is in the store and not watched any more. *)
Theorem addTx_answers env tx n :
  let known := is_Some (watchedTxInfo (p_ts (sg_pool n)) !! wt_Txid tx) ∧ HasTxInDB (wt_Txid tx) (sg_db n) = true in
  (transfer_ok tx → ¬ known → dispatch env (PostWatchedTx (inr tx)) n = Ret (ok NoValue, None) (queued tx n)) ∧
  (transfer_ok tx → known → dispatch env (PostWatchedTx (inr tx)) n = Ret (sys_err "tx already exist", None) n) ∧
  (¬ transfer_ok tx → ∃ msg, dispatch env (PostWatchedTx (inr tx)) n = Ret (param_err msg, None) n).
Proof.
  intros known.
  assert (transfer_ok tx → dispatch env (PostWatchedTx (inr tx)) n =
    (err ← manual_AddWatchedTx tx; match err with Some e => answer (sys_err e) | None => answer (ok NoValue) end) n) as Hok.
  { intros (Hi & Ha & Hf & Ht & Hfee & Htf & Htt & Hl & Hr). cbn [HttpServer.dispatch]. unfold h_addTx.
    rewrite !bool_decide_false // !(proj2 (Z.ltb_ge _ _)) //. cbn [orb].
    destruct (Nat.eqb_spec (length (wt_RechargeList tx)) 0) as [E|_]; [by apply length_zero_iff_nil in E|].
    by rewrite (proj2 (recharge_ok_spec _) Hr). }
  assert (transfer_ok tx → HasWatchedTx (Some tx) (sg_pool n) = bool_decide known) as Hk.
  { intros (Hi & _). cbn. rewrite bool_decide_false //. unfold known, sg_db.
    destruct (HasTxInDB _ _) eqn:E; [rewrite andb_true_r|rewrite andb_false_r].
    - apply bool_decide_ext. naive_solver.
    - rewrite bool_decide_false; naive_solver. }
  split_and!.
  - intros Ho Hn. rewrite (Hok Ho). rewrite (bind_Ret _ _ n None (queued tx n)); [done|].
    rewrite run_manual (Hk Ho). by rewrite bool_decide_false.
  - intros Ho Hn. rewrite (Hok Ho). rewrite (bind_Ret _ _ n (Some "tx already exist") n); [done|].
    rewrite run_manual (Hk Ho). by rewrite bool_decide_true.
  - intros Hn. cbn [HttpServer.dispatch]. unfold h_addTx. case_match eqn:E1; [by eexists|]. case_match eqn:E2; [by eexists|]. case_match eqn:E3; [by eexists|]. exfalso.
    apply Hn. unfold transfer_ok. rewrite -recharge_ok_spec. to_prop.
    apply Nat.eqb_neq in E2. split_and!; try done; try lia. by intros E; rewrite E in E2.
Qed.

(** The amount of a mint by hand (manualmint) is signed in the request and unsigned in the vote, and not looked
    at in between: a request for a negative amount is answered with ok, and is a vote for
    minting at least 2^63. *)
Theorem manual_mint_amount env m n :
  in_federation env = true → i64 (mm_Amount m) →
  ∃ amount, dispatch env (PostManualMint (inr m)) n =
    Ret (ok NoValue, Some (VOTE_METHOD_MINT_CALL (mm_Token m) amount (HexToAddress (mm_Address m)) ("MM_" +:+ mm_Proposal m))) n ∧
    u64 amount ∧ (0 ≤ mm_Amount m → amount = mm_Amount m) ∧
    (mm_Amount m < 0 → amount = 2^64 + mm_Amount m ∧ 2^63 ≤ amount).
Proof.
  intros Hf Hi. exists (uwrap64 (mm_Amount m)). split_and!.
  - cbn. unfold h_manualMint, contract_call. by rewrite Hf.
  - apply uwrap64_range.
  - intros Hp. unfold uwrap64. apply Z.mod_small. unfold i64 in Hi. lia.
  - intros Hneg. unfold uwrap64, i64 in *. rewrite -(Z.mod_add _ 1); [|lia].
    rewrite Z.mod_small; lia.
Qed.

(** ** Blocks made up for a test *)
Lemma fake_txs_total now data : ∃ txs, fake_txs now data = Val txs ∧ length txs = length data ∧
  Forall (λ t, is_Some (tx_Id t)) txs.
Proof.
  induction data as [|f data (txs & Htx & Hl & Hf)]; [by exists []|]. cbn [fake_txs]. unfold fake_tx at 1.
  edestruct UpdateId_total as [i ->]; [done|]. cbn [mbind pan_bind]. rewrite Htx. eexists. split; [reflexivity|].
  cbn. split; [by rewrite Hl|]. by constructor.
Qed.
Lemma feedTxIds_total txs hs : Forall (λ t, is_Some (tx_Id t)) txs → ∃ h, feedTxIds hs txs = Val h.
Proof.
  intros Hf. unfold feedTxIds, FeedField.
  assert (∀ hs, ∃ h, feed_list (λ h tx, FeedDigestField h "TxId" (tx_Id tx)) hs txs = Val h) as Hl.
  { induction Hf as [|t txs [i Hi] _ IH]; intros hs'; [by eexists|]. cbn [feed_list]. rewrite Hi. apply IH. }
  destruct (Hl (FeedText hs ("<" +:+ "TxIds" +:+ " "))) as [h Hh]. rewrite Hh. by eexists.
Qed.
Lemma CreateTxsBlock_total ts prev txs : Forall (λ t, is_Some (tx_Id t)) txs →
  ∃ i, CreateTxsBlock ts (Some prev) txs = Val (MkBlock ts (Some prev) TXS txs None None (Some i)).
Proof.
  intros Hf. unfold CreateTxsBlock, UpdateBlockId, Block_hash, hash_of, feedBlockFields, FeedField.
  assert (IsGenesis (MkBlock ts (Some prev) TXS txs None None None) = false) as -> by done.
  cbn [b_TimestampMs b_Type b_Txs b_PrevBlockId FeedDigestField deref mbind pan_bind mret pan_ret].
  match goal with |- context [feedTxIds ?h txs] => destruct (feedTxIds_total txs h Hf) as [? Hh]; rewrite Hh end.
  by eexists.
Qed.
Lemma toBlockPack_total now data digest height : ∃ init b i txs,
  toBlockPack now data digest height = Val {| bp_Init := Some init; bp_Prepares := ∅; bp_Commits := ∅ |} ∧
  im_Term init = 1 ∧ im_Height init = height +i64 1 ∧ im_Block init = Some b ∧
  b_PrevBlockId b = Some digest ∧ b_Type b = TXS ∧ b_Id b = Some i ∧ b_Txs b = txs ∧ length txs = length data.
Proof.
  unfold toBlockPack. destruct (fake_txs_total now data) as (txs & -> & Hl & Hf). cbn [mbind pan_bind].
  destruct (CreateTxsBlock_total (now / 1000000) digest txs Hf) as [i ->]. cbn [mbind pan_bind].
  eexists _, _, i, txs. split; [reflexivity|]. by split_and!.
Qed.

(** On a test node a block can be made up (createblock): on a chain with at least one
    block, the block that is made of the transfers in the request has the next height, names the block on top, which is
    found by the id that its view shows, and holds as many transactions; when it can be
    encoded and its id is new the chain ends with it, the pool is told, and the answer is its height and
    id. On every other node the request is refused. *)
Theorem fake_block_appends env data n l top y :
  chain_rep (sg_db n) l → last l = Some top → bp_BlockId top = Val (Some y) → Z.of_nat (length l) + 1 < 2^63 →
  (en_mode env ≠ ModeTest → dispatch env (PostCreateBlock (inr data)) n = Ret (mode_err, None) n) ∧
  (en_mode env = ModeTest → ∃ bp b i, toBlockPack (en_now env) data y (Z.of_nat (length l) - 1) = Val bp ∧ bp_Block bp = Val (Some b) ∧
     bp_Height bp = Val (Z.of_nat (length l)) ∧ b_PrevBlockId b = Some y ∧ b_Type b = TXS ∧
     b_Id b = Some i ∧ length (b_Txs b) = length data ∧
     (is_Some (Marshal bp) → (∀ bp', bp' ∈ l → bp_BlockId bp' ≠ Val (Some i)) →
      ∃ n', dispatch env (PostCreateBlock (inr data)) n =
          Ret (ok (FakeBlockValue (Z.of_nat (length l)) (hex_encode (Data i))), None) n' ∧
        chain_rep (sg_db n') (l ++ [bp]) ∧
        inbox (p_ts (sg_pool n')) = inbox (p_ts (sg_pool n)) ++ [newCommitReq (b_Txs b) (Z.of_nat (length l))])).
Proof.
  intros Hr Hlast Hy Hb. split; intros Hm; cbn [HttpServer.dispatch]; unfold h_createBlock.
  { by rewrite bool_decide_false. }
  destruct (toBlockPack_total (en_now env) data y (Z.of_nat (length l) - 1)) as (init & b & i & txs & Htb & Ht & Hh & Hbl & Hp & Hty & Hi & Htx & Hln).
  rewrite wrap64_small in Hh; [|unfold i64; lia]. replace (Z.of_nat (length l) - 1 + 1) with (Z.of_nat (length l)) in Hh by lia.
  set (bp := {| bp_Init := Some init; bp_Prepares := ∅; bp_Commits := ∅ |}) in *.
  assert (bp_Height bp = Val (Z.of_nat (length l))) as Hbh by (unfold bp_Height; cbn; by rewrite Hh).
  assert (bp_Block bp = Val (Some b)) as Hbb by (unfold bp_Block; cbn; by rewrite Hbl).
  assert (bp_BlockId bp = Val (Some i)) as Hbi by (unfold bp_BlockId; rewrite Hbb; cbn; by rewrite Hi).
  exists bp, b, i. split_and!; try done; [by rewrite Htx|].
  intros Hmar Hnew. rewrite bool_decide_true //. cbn [negb].
  assert (∃ d', JustCommitIt bp (sg_db n) = Ret tt d') as [d' Hj].
  { destruct Hmar as [bytes Hmar]. unfold JustCommitIt. rewrite Hmar Hbh Hbi. by eexists. }
  assert (l ≠ []) as Hne by (by intros ->). assert (l !! (length l - 1)%nat = Some top) as Htop.
  { rewrite -Hlast last_lookup. f_equal. lia. }
  destruct (shown_at XXX_Size peers _ l _ top Hr Htop) as (v & y' & _ & Hv & Hvh & Hy' & Hvi & _).
  rewrite Hy in Hy'. injection Hy' as <-. pose proof (lookup_lt_Some _ _ _ Htop).
  replace (Z.of_nat (length l - 1)) with (Z.of_nat (length l) - 1) in Hv, Hvh by lia.
  rewrite (bind_reads _ _ n v); [|by rewrite (current_shows XXX_Size peers _ l) // Hv].
  rewrite Hvi Hvh hex_prefix_shown. destruct y as [y]. cbn [Data]. rewrite (bind_lift _ _ n bp Htb).
  pose (n' := set_sg_pool (set_p_ts (send (newCommitReq (b_Txs b) (Z.of_nat (length l))) (p_ts (sg_pool n)))
    (set_p_db d' (sg_pool n))) n).
  exists n'. split_and!; [|by eapply JustCommitIt_rep|done].
  rewrite (bind_Ret _ _ n tt n').
  2:{ unfold FakeCommitBlock. rewrite (bind_Ret _ _ n tt (set_sg_pool (set_p_db d' (sg_pool n)) n)).
      - unfold the_pool, zoom, OnNewBlockCommitted, IsTxsBlock. rewrite Hbb. cbn [mbind pan_bind deref mret pan_ret].
        unfold Block_IsTxsBlock. rewrite Hty Hbh bool_decide_true //.
      - unfold the_pool, zoom. fold (sg_db n). by rewrite Hj. }
  rewrite (bind_lift _ _ n' _ Hbh) (bind_lift _ _ n' _ Hbi). done.
Qed.
End ServerProps.
