(* ===== verification/Instances.v ===== *)
(** * Concrete parameters

    The classes that stand for code outside the repository, instantiated by
    functions one can run: a key-value store as a sorted finite map, and a
    self-delimiting encoding of every message the store holds. They show that
    the laws of [KV] and [Wire] can hold together, and the witnesses compute
    with them. *)
From S2P Require Import Prelude.
From S2P Require Import GoLib.
From S2P Require Import Crypto.
From S2P Require Import Messages.
From S2P Require Import Feed.
From S2P Require Import ProtoOps.
From S2P Require Import Cluster.
From S2P Require Import Store.
From S2P Require Import DbOps.
From S2P Require Import TxPool.
From S2P Require Import Consensus.
From S2P Require Import ChainTx.
From S2P Require Import SignTx.
From S2P Require Import LeaderTx.
From S2P Require Import Distribution.
From Stdlib Require Import Sorted.
From Stdlib Require Import SpecFloat.

(** ** The store *)
Definition mem_le (e e' : bytes * bytes) : Prop := bytes_ltb e'.1 e.1 = false.
#[export] Instance mem_le_dec e e' : Decision (mem_le e e').
Proof. unfold mem_le. apply _. Defined.
#[export] Instance mem_le_trans : Transitive mem_le.
Proof.
  intros [a ?] [b ?] [c ?]. unfold mem_le. cbn. intros Hab Hbc.
  destruct (bytes_ltb c a) eqn:E; [|done].
  destruct (bytes_lt_total a b) as [H|[->|H]]; [|by rewrite E in Hbc|].
  - pose proof (bytes_lt_trans _ _ _ E H) as H'. unfold bytes_lt in H'. by rewrite H' in Hbc.
  - unfold bytes_lt in H. by rewrite H in Hab.
Qed.
#[export] Instance mem_le_total : Total mem_le.
Proof.
  intros [a ?] [b ?]. unfold mem_le. cbn.
  destruct (bytes_lt_total a b) as [H|[->|H]].
  - left. destruct (bytes_ltb b a) eqn:E; [|done].
    pose proof (bytes_lt_trans _ _ _ H E) as H'. unfold bytes_lt in H'. by rewrite bytes_lt_irrefl in H'.
  - left. apply bytes_lt_irrefl.
  - right. destruct (bytes_ltb a b) eqn:E; [|done].
    pose proof (bytes_lt_trans _ _ _ H E) as H'. unfold bytes_lt in H'. by rewrite bytes_lt_irrefl in H'.
Qed.

Definition mem_entries (d : gmap string string) : list (bytes * bytes) :=
  merge_sort mem_le (map_to_list d).

Lemma mem_entries_sorted d :
  StronglySorted (λ e e' : bytes * bytes, bytes_lt e.1 e'.1) (mem_entries d).
Proof.
  assert (NoDup (mem_entries d).*1) as Hnd.
  { unfold mem_entries. rewrite merge_sort_Permutation. apply NoDup_fst_map_to_list. }
  assert (StronglySorted mem_le (mem_entries d)) as Hs by (apply StronglySorted_merge_sort; apply _).
  induction Hs as [|e l Hl IH Hall]; [constructor|].
  cbn in Hnd. apply NoDup_cons in Hnd as [Hni Hnd]. constructor; [by apply IH|].
  rewrite Forall_forall in Hall. apply Forall_forall. intros e' Hin.
  destruct (bytes_lt_total e.1 e'.1) as [H|[H|H]]; [done| |].
  - destruct Hni. rewrite H. by apply list_elem_of_fmap_2.
  - specialize (Hall e' Hin). unfold mem_le in Hall. unfold bytes_lt in H. by rewrite H in Hall.
Qed.
Lemma mem_entries_get (d : gmap string string) k v : (k, v) ∈ mem_entries d ↔ d !! k = Some v.
Proof. unfold mem_entries. rewrite merge_sort_Permutation. apply elem_of_map_to_list. Qed.

Definition mem_KV : KV := {|
  db := gmap string string;
  kv_get d k := d !! k;
  kv_put d k v := <[k := v]> d;
  kv_delete d k := delete k d;
  kv_entries := mem_entries;
  kv_get_put d k v := lookup_insert_eq d k v;
  kv_get_put_ne d k k' v := lookup_insert_ne d k k' v;
  kv_get_delete d k := lookup_delete_eq d k;
  kv_get_delete_ne d k k' := lookup_delete_ne d k k';
  kv_entries_sorted := mem_entries_sorted;
  kv_entries_get := mem_entries_get
|}.

(** ** Encodings: prefix codes, written in front of the rest of the text *)
Class Enc (A : Type) : Type := {
  ser : A → bytes → bytes;
  de : bytes → option (A * bytes);
  de_ser : ∀ a r, de (ser a r) = Some (a, r)
}.

Fixpoint ser_string (s r : bytes) : bytes :=
  match s with
  | EmptyString => String ";" r
  | String c s => String "." (String c (ser_string s r))
  end.
Fixpoint de_string (b : bytes) : option (bytes * bytes) :=
  match b with
  | String ";" r => Some ("", r)
  | String "." (String c b) => p ← de_string b; Some (String c p.1, p.2)
  | _ => None
  end.
#[export] Instance Enc_string : Enc string.
Proof.
  refine {| ser := ser_string; de := de_string |}.
  intros s r. induction s as [|c s IH]; [done|]. cbn. by rewrite IH.
Defined.

Fixpoint ser_positive (p : positive) (r : bytes) : bytes :=
  match p with
  | xH => String ";" r
  | xO p => String "0" (ser_positive p r)
  | xI p => String "1" (ser_positive p r)
  end.
Fixpoint de_positive (b : bytes) : option (positive * bytes) :=
  match b with
  | String ";" r => Some (xH, r)
  | String "0" b => p ← de_positive b; Some (xO p.1, p.2)
  | String "1" b => p ← de_positive b; Some (xI p.1, p.2)
  | _ => None
  end.
Lemma de_ser_positive p r : de_positive (ser_positive p r) = Some (p, r).
Proof. induction p as [p IH|p IH|]; cbn; [by rewrite IH..|done]. Qed.
#[export] Instance Enc_Z : Enc Z.
Proof.
  refine {| ser z r := match z with
              | Z0 => String "0" r
              | Zpos p => String "+" (ser_positive p r)
              | Zneg p => String "-" (ser_positive p r)
              end;
            de b := match b with
              | String "0" r => Some (0, r)
              | String "+" b => p ← de_positive b; Some (Zpos p.1, p.2)
              | String "-" b => p ← de_positive b; Some (Zneg p.1, p.2)
              | _ => None
              end |}.
  intros [|p|p] r; cbn; by rewrite ?de_ser_positive.
Defined.
#[export] Instance Enc_bool : Enc bool.
Proof.
  refine {| ser (b : bool) r := if (b : bool) then String "t" r else String "f" r;
            de b := match b with
              | String "t" r => Some (true, r) | String "f" r => Some (false, r) | _ => None end |}.
  by intros [] r.
Defined.

Fixpoint ser_nat (n : nat) (r : bytes) : bytes :=
  match n with O => String ";" r | S n => String "." (ser_nat n r) end.
Fixpoint de_nat (b : bytes) : option (nat * bytes) :=
  match b with
  | String ";" r => Some (O, r)
  | String "." b => p ← de_nat b; Some (S p.1, p.2)
  | _ => None
  end.
Lemma de_ser_nat n r : de_nat (ser_nat n r) = Some (n, r).
Proof. induction n as [|n IH]; cbn; [done|]. by rewrite IH. Qed.

Definition ser_option {A} (f : A → bytes → bytes) (o : option A) (r : bytes) : bytes :=
  match o with None => String ";" r | Some a => String "." (f a r) end.
Definition de_option {A} (g : bytes → option (A * bytes)) (b : bytes) : option (option A * bytes) :=
  match b with
  | String ";" r => Some (None, r)
  | String "." b => p ← g b; Some (Some p.1, p.2)
  | _ => None
  end.
Lemma de_ser_option {A} (f : A → bytes → bytes) (g : bytes → option (A * bytes)) o r :
  (∀ a r, o = Some a → g (f a r) = Some (a, r)) → de_option g (ser_option f o r) = Some (o, r).
Proof. intros Hfg. destruct o as [a|]; [|done]. cbn. by rewrite (Hfg a). Qed.
#[export] Instance Enc_option `{Enc A} : Enc (option A).
Proof.
  refine {| ser := ser_option ser; de := de_option de |}.
  intros a r. apply de_ser_option. intros; apply de_ser.
Defined.
#[export] Instance Enc_pair `{Enc A, Enc B} : Enc (A * B).
Proof.
  refine {| ser p r := ser p.1 (ser p.2 r);
            de b := p ← de b; q ← de p.2; Some ((p.1, q.1), q.2) |}.
  intros [a b] r. by rewrite /= de_ser /= de_ser.
Defined.

(** A list: its length, then its elements. *)
Fixpoint de_times {A} (g : bytes → option (A * bytes)) (n : nat) (b : bytes) : option (list A * bytes) :=
  match n with
  | O => Some ([], b)
  | S n => p ← g b; q ← de_times g n p.2; Some (p.1 :: q.1, q.2)
  end.
#[export] Instance Enc_list `{Enc A} : Enc (list A).
Proof.
  refine {| ser l r := ser_nat (length l) (foldr ser r l);
            de b := p ← de_nat b; de_times de p.1 p.2 |}.
  intros l r. rewrite de_ser_nat. cbn. induction l as [|a l IH]; [done|]. cbn. by rewrite de_ser /= IH.
Defined.
#[export] Instance Enc_map `{Enc A} : Enc (gmap Z A).
Proof.
  refine {| ser m r := ser (map_to_list m : list (Z * A)) r;
            de b := p ← (de b : option (list (Z * A) * bytes)); Some (list_to_map p.1, p.2) |}.
  intros m r. rewrite de_ser. cbn. by rewrite list_to_map_to_list.
Defined.

(** An encoding of [A] from one of [B] and two maps. *)
Definition Enc_by {A B} `{Enc B} (f : A → B) (g : B → A) (Hg : ∀ a, g (f a) = a) : Enc A.
Proof.
  refine {| ser a := ser (f a); de b := p ← (de b : option (B * bytes)); Some (g p.1, p.2) |}.
  intros a r. by rewrite de_ser /= Hg.
Defined.

(** ** Messages *)
Definition num_Reconfig_Type (z : Z * bool) : Reconfig_Type :=
  if z.2 then Reconfig_Type_other z.1 else if z.1 =? 0 then JOIN else LEAVE.
#[export] Instance Enc_Reconfig_Type : Enc Reconfig_Type.
Proof.
  apply (Enc_by (B := Z * bool)
    (λ t, match t with JOIN => (0, false) | LEAVE => (1, false) | Reconfig_Type_other n => (n, true) end)
    num_Reconfig_Type).
  by intros [].
Defined.
Definition num_Block_Type (z : Z * bool) : Block_Type :=
  if z.2 then Block_Type_other z.1
  else if z.1 =? 0 then UNKNOWN else if z.1 =? 1 then GENESIS else if z.1 =? 2 then TXS
  else if z.1 =? 3 then BCH else RECONFIG.
#[export] Instance Enc_Block_Type : Enc Block_Type.
Proof.
  apply (Enc_by (B := Z * bool)
    (λ t, match t with UNKNOWN => (0, false) | GENESIS => (1, false) | TXS => (2, false)
          | BCH => (3, false) | RECONFIG => (4, false) | Block_Type_other n => (n, true) end)
    num_Block_Type).
  by intros [].
Defined.

Ltac enc_record f g := apply (Enc_by f g); by intros [].

#[export] Instance Enc_Digest : Enc Digest256.
Proof. enc_record (λ d, Data d) (λ b : bytes, Digest b). Defined.
#[export] Instance Enc_BchBlockHeader : Enc BchBlockHeader.
Proof.
  enc_record (λ h, (bh_Height h, bh_BlockId h, bh_PrevId h))
    (λ '(a, b, c), {| bh_Height := a; bh_BlockId := b; bh_PrevId := c |}).
Defined.
#[export] Instance Enc_AddressInfo : Enc AddressInfo.
Proof.
  enc_record (λ i, (ai_Address i, ai_Amount i))
    (λ '(a, b), {| ai_Address := a; ai_Amount := b |}).
Defined.
#[export] Instance Enc_WatchedTxInfo : Enc WatchedTxInfo.
Proof.
  enc_record
    (λ w, (wt_Txid w, wt_Amount w, wt_RechargeList w, (wt_From w, wt_To w, wt_Fee w),
           (wt_TokenFrom w, wt_TokenTo w)))
    (λ '(a, b, c, (d, e, f), (g, h)), 
      {| wt_Txid := a; wt_Amount := b; wt_RechargeList := c; wt_From := d; wt_To := e;
         wt_Fee := f; wt_TokenFrom := g; wt_TokenTo := h |}).
Defined.
#[export] Instance Enc_NewlyTx : Enc NewlyTx.
Proof.
  enc_record (λ t, (nt_Data t, nt_Amount t, nt_Timestamp t))
    (λ '(a, b, c), {| nt_Data := a; nt_Amount := b; nt_Timestamp := c |}).
Defined.
#[export] Instance Enc_Transaction : Enc Transaction.
Proof.
  enc_record (λ t, (tx_Id t, tx_WatchedTx t, (tx_NewlyTxId t, tx_Time t, tx_Amount t)))
    (λ '(a, b, (c, d, e)), 
      {| tx_Id := a; tx_WatchedTx := b; tx_NewlyTxId := c; tx_Time := d; tx_Amount := e |}).
Defined.
#[export] Instance Enc_TxLookupEntry : Enc TxLookupEntry.
Proof.
  enc_record (λ e, (tle_Height e, tle_Index e))
    (λ '(a, b), {| tle_Height := a; tle_Index := b |}).
Defined.
#[export] Instance Enc_PrepareMsg : Enc PrepareMsg.
Proof.
  enc_record (λ m, (pm_Term m, pm_Height m, pm_BlockId m, (pm_NodeId m, pm_Sig m)))
    (λ '(a, b, c, (d, e)), 
      {| pm_Term := a; pm_Height := b; pm_BlockId := c; pm_NodeId := d; pm_Sig := e |}).
Defined.
#[export] Instance Enc_CommitMsg : Enc CommitMsg.
Proof.
  enc_record (λ m, (cm_Term m, cm_Height m, cm_BlockId m, (cm_NodeId m, cm_Sig m)))
    (λ '(a, b, c, (d, e)), 
      {| cm_Term := a; cm_Height := b; cm_BlockId := c; cm_NodeId := d; cm_Sig := e |}).
Defined.
#[export] Instance Enc_WeakAccuse : Enc WeakAccuse.
Proof.
  enc_record (λ a, (wa_Term a, wa_NodeId a, wa_Sig a, wa_Time a))
    (λ '(a, b, c, d), {| wa_Term := a; wa_NodeId := b; wa_Sig := c; wa_Time := d |}).
Defined.

(** Blocks, votes and voties contain each other. *)
Fixpoint ser_Block (b : Block) (z : bytes) : bytes :=
  match b with
  | MkBlock t p ty txs h r i =>
      ser t (ser p (ser ty (ser txs (ser h (ser i
        match r with None => String ";" z | Some r => String "." (ser_Reconfig r z) end)))))
  end
with ser_Reconfig (r : Reconfig) (z : bytes) : bytes :=
  match r with
  | MkReconfig ty host n k v =>
      ser ty (ser host (ser n (ser k
        match v with None => String ";" z | Some v => String "." (ser_Vote v z) end)))
  end
with ser_Vote (v : Vote) (z : bytes) : bytes :=
  match v with
  | MkVote t i n s =>
      ser t (ser n (ser s
        match i with None => String ";" z | Some i => String "." (ser_Votie i z) end))
  end
with ser_Votie (v : Votie) (z : bytes) : bytes :=
  match v with
  | MkVotie t h b ps cs =>
      ser t (ser h (ser ps (ser cs
        match b with None => String ";" z | Some b => String "." (ser_Block b z) end)))
  end.

(** Each level of nesting uses one unit of fuel. *)
Inductive node_kind : Type := KBlock | KReconfig | KVote | KVotie.
Definition kind_type (k : node_kind) : Type :=
  match k with KBlock => Block | KReconfig => Reconfig | KVote => Vote | KVotie => Votie end.
Fixpoint de_node (fuel : nat) (k : node_kind) (z : bytes) : option (kind_type k * bytes) :=
  match fuel with
  | O => None
  | S fuel =>
      match k as k return option (kind_type k * bytes) with
      | KBlock =>
          '(t, z) ← de z; '(p, z) ← de z; '(ty, z) ← de z; '(txs, z) ← de z; '(h, z) ← de z;
          '(i, z) ← de z; '(r, z) ← de_option (de_node fuel KReconfig) z;
          Some (MkBlock t p ty txs h r i, z)
      | KReconfig =>
          '(ty, z) ← de z; '(host, z) ← de z; '(n, z) ← de z; '(k, z) ← de z;
          '(v, z) ← de_option (de_node fuel KVote) z; Some (MkReconfig ty host n k v, z)
      | KVote =>
          '(t, z) ← de z; '(n, z) ← de z; '(s, z) ← de z;
          '(i, z) ← de_option (de_node fuel KVotie) z; Some (MkVote t i n s, z)
      | KVotie =>
          '(t, z) ← de z; '(h, z) ← de z; '(ps, z) ← de z; '(cs, z) ← de z;
          '(b, z) ← de_option (de_node fuel KBlock) z; Some (MkVotie t h b ps cs, z)
      end
  end.

Fixpoint depth_Block (b : Block) : nat :=
  S (match b_Reconfig b with None => 0 | Some r => depth_Reconfig r end)
with depth_Reconfig (r : Reconfig) : nat :=
  S (match rc_Vote r with None => 0 | Some v => depth_Vote v end)
with depth_Vote (v : Vote) : nat :=
  S (match v_Votie v with None => 0 | Some i => depth_Votie i end)
with depth_Votie (v : Votie) : nat :=
  S (match vi_Block v with None => 0 | Some b => depth_Block b end).

Definition ser_node (k : node_kind) : kind_type k → bytes → bytes :=
  match k with KBlock => ser_Block | KReconfig => ser_Reconfig | KVote => ser_Vote
             | KVotie => ser_Votie end.
Definition depth_node (k : node_kind) : kind_type k → nat :=
  match k with KBlock => depth_Block | KReconfig => depth_Reconfig | KVote => depth_Vote
             | KVotie => depth_Votie end.

Lemma de_ser_node fuel : ∀ k (x : kind_type k) z,
  (depth_node k x ≤ fuel)%nat → de_node fuel k (ser_node k x z) = Some (x, z).
Proof.
  induction fuel as [|fuel IH]; intros k x z Hd.
  { destruct k; destruct x; cbn in Hd; lia. }
  assert (∀ k' (y : option (kind_type k')) z,
    (∀ x', y = Some x' → (depth_node k' x' ≤ fuel)%nat) →
    de_option (de_node fuel k')
      match y with None => String ";" z | Some x' => String "." (ser_node k' x' z) end = Some (y, z)) as Hopt.
  { intros k' [x'|] z' Hy; [|done]. cbn [de_option]. rewrite IH; [done|by apply Hy]. }
  destruct k; destruct x; cbn [ser_node ser_Block ser_Reconfig ser_Vote ser_Votie de_node];
    repeat (rewrite de_ser; cbn [mbind option_bind]);
    [rewrite (Hopt KReconfig)|rewrite (Hopt KVote)|rewrite (Hopt KVotie)|rewrite (Hopt KBlock)];
    try done; intros x' ->; cbn in Hd |- *; lia.
Qed.

Definition Enc_node (k : node_kind) : Enc (kind_type k).
Proof.
  refine {| ser x z := ser_nat (depth_node k x) (ser_node k x z);
            de z := p ← de_nat z; de_node p.1 k p.2 |}.
  intros x z. rewrite de_ser_nat. cbn [mbind option_bind fst snd]. by apply de_ser_node.
Defined.
#[export] Instance Enc_Block : Enc Block := Enc_node KBlock.
#[export] Instance Enc_Vote : Enc Vote := Enc_node KVote.
#[export] Instance Enc_Votie : Enc Votie := Enc_node KVotie.

#[export] Instance Enc_InitMsg : Enc InitMsg.
Proof.
  enc_record (λ m, (im_Term m, im_Height m, im_Block m, (im_NodeId m, im_Sig m, im_Votes m)))
    (λ '(a, b, c, (d, e, f)), 
      {| im_Term := a; im_Height := b; im_Block := c; im_NodeId := d; im_Sig := e; im_Votes := f |}).
Defined.
#[export] Instance Enc_BlockPack : Enc BlockPack.
Proof.
  enc_record (λ m, (bp_Init m, bp_Prepares m, bp_Commits m))
    (λ '(a, b, c), {| bp_Init := a; bp_Prepares := b; bp_Commits := c |}).
Defined.
#[export] Instance Enc_StrongAccuse : Enc StrongAccuse.
Proof. enc_record (λ m, sa_WeakAccuses m) (λ a, {| sa_WeakAccuses := a |}). Defined.
#[export] Instance Enc_WeakAccuses : Enc WeakAccuses.
Proof. enc_record (λ m, Accuses m) (λ a, {| Accuses := a |}). Defined.
#[export] Instance Enc_SignTxRequest : Enc SignTxRequest.
Proof.
  enc_record
    (λ m, (sr_Term m, sr_NodeId m, sr_MultisigAddress m,
           (sr_WatchedTx m, sr_NewlyTx m, sr_Sig m, sr_Time m)))
    (λ '(a, b, c, (d, e, f, g)), 
      {| sr_Term := a; sr_NodeId := b; sr_MultisigAddress := c; sr_WatchedTx := d; sr_NewlyTx := e;
         sr_Sig := f; sr_Time := g |}).
Defined.
#[export] Instance Enc_JoinRequest : Enc JoinRequest.
Proof.
  enc_record (λ m, (jr_Host m, jr_Pubkey m, jr_Vote m, jr_Sig m))
    (λ '(a, b, c, d), {| jr_Host := a; jr_Pubkey := b; jr_Vote := c; jr_Sig := d |}).
Defined.
#[export] Instance Enc_LeaveRequest : Enc LeaveRequest.
Proof.
  enc_record (λ m, (lr_NodeId m, lr_Msg m, lr_Sig m))
    (λ '(a, b, c), {| lr_NodeId := a; lr_Msg := b; lr_Sig := c |}).
Defined.
#[export] Instance Enc_AccuseRecord : Enc AccuseRecord.
Proof.
  enc_record
    (λ m, (ar_Term m, ar_LocalId m, ar_LeaderId m, (ar_AccuseType m, ar_Timestamp m, ar_Reason m)))
    (λ '(a, b, c, (d, e, f)), 
      {| ar_Term := a; ar_LocalId := b; ar_LeaderId := c; ar_AccuseType := d; ar_Timestamp := e;
         ar_Reason := f |}).
Defined.
#[export] Instance Enc_NodeInfo : Enc NodeInfo.
Proof.
  enc_record (λ n, (Id n, Name n, Url n, (PublicKey n, IsNormal n)))
    (λ '(a, b, c, (d, e)), {| Id := a; Name := b; Url := c; PublicKey := d; IsNormal := e |}).
Defined.
#[export] Instance Enc_MultiSigInfo : Enc MultiSigInfo.
Proof.
  enc_record (λ m, (BtcAddress m, BtcRedeemScript m, BchAddress m, BchRedeemScript m))
    (λ '(a, b, c, d), 
      {| BtcAddress := a; BtcRedeemScript := b; BchAddress := c; BchRedeemScript := d |}).
Defined.
#[export] Instance Enc_Snapshot : Enc Snapshot.
Proof.
  enc_record
    (λ s, (sn_NodeList s, sn_ClusterSize s, sn_TotalNodeCount s, (sn_QuorumN s, sn_AccuseQuorumN s)))
    (λ '(a, b, c, (d, e)), 
      {| sn_NodeList := a; sn_ClusterSize := b; sn_TotalNodeCount := c; sn_QuorumN := d;
         sn_AccuseQuorumN := e |}).
Defined.

(** ** The wire formats *)
Definition code `{Enc A} (a : A) : bytes := ser a "".
Definition decode_all `{Enc A} (b : bytes) : option A := fst <$> de b.
Lemma decode_code `{Enc A} (a : A) : decode_all (code a) = Some a.
Proof. unfold decode_all, code. by rewrite de_ser. Qed.

Definition enc_Proto (A : Type) `{Enc A} : Proto A.
Proof.
  refine {| Marshal a := Some (code a); Unmarshal := decode_all |}.
  intros a b [= <-]. apply decode_code.
Defined.
Definition enc_Json (A : Type) `{Enc A} (zero : A) : Json A.
Proof.
  refine {| json_zero := zero; json_Marshal a := Some (code a);
            json_Unmarshal b z := default z (decode_all b) |}.
  intros a b [= <-]. by rewrite decode_code.
Defined.

Definition mem_Wire : Wire := {|
  pb_StrongAccuse := enc_Proto _;
  pb_WeakAccuses := enc_Proto _;
  pb_BlockPack := enc_Proto _;
  pb_Votie := enc_Proto _;
  pb_TxLookupEntry := enc_Proto _;
  pb_SignTxRequest := enc_Proto _;
  pb_JoinRequest := enc_Proto _;
  pb_LeaveRequest := enc_Proto _;
  pb_AccuseRecord := enc_Proto _;
  json_Snapshot := enc_Json _
    {| sn_NodeList := []; sn_ClusterSize := 0; sn_TotalNodeCount := 0; sn_QuorumN := 0;
       sn_AccuseQuorumN := 0 |};
  json_MultiSigs := enc_Json _ []
|}.

(** Nothing is found on any chain. *)
Definition no_Watchers : Watchers := {|
  bch_GetTxByHash _ := false; btc_GetTxByHash _ := false; xin_GetEventByTxid _ := false;
  eos_GetEventByTxid _ := false; eth_GetEventByHash _ := None; VOTE_METHOD_MINT := 1
|}.
(** A signature scheme in which the signature of a digest under a key is their
    concatenation. *)
Definition toy_Signatures : Signatures := {|
  Verify pub h sig := bool_decide (sig = pub +:+ Data h);
  Sign s b := Some (Pubkey s +:+ b)
|}.

(** ** Proposals *)
#[export] Instance Enc_Output : Enc Output.
Proof. enc_record (λ x, (o_Address x, o_Amount x)) (λ '(a, b), {| o_Address := a; o_Amount := b |}). Defined.
#[export] Instance Enc_Proposal : Enc Proposal.
Proof.
  enc_record (λ p, (pr_Data p, pr_Chain p, pr_ID p)) (λ '(a, b, c), {| pr_Data := a; pr_Chain := b; pr_ID := c |}).
Defined.
#[export] Instance Enc_DistributionInfo : Enc DistributionInfo.
Proof. enc_record (λ d, (di_Proposal d, di_CreateTime d, di_Status d)) (λ '(a, b, c), MkDist a b c). Defined.
Definition mem_DistJson : DistJson.
Proof.
  refine {| dj_Marshal di := Some (code di); dj_Unmarshal := decode_all |}.
  intros di _. exists (code di). split; [done|apply decode_code].
Defined.

(** ** The chains

    A transaction is its inputs and outputs, an EOS transaction its one action, and a
    share the public key of its node. A unit of every coin costs two dollars. [found]: the
    transactions of the Bitcoin chains are found on them, with one confirmation; nothing
    else is found. [pkm] is what the keystore answers on an EOS chain. *)
#[export] Instance Enc_ActionData : Enc ActionData.
Proof.
  refine {| ser a := ser (match a with
              | CreateToken u x => Some (u, x, true) | TokenTransfer u x => Some (u, x, false)
              | OtherAction => None end);
            de b := match de b with
              | Some (Some (u, x, true), r) => Some (CreateToken u x, r)
              | Some (Some (u, x, false), r) => Some (TokenTransfer u x, r)
              | Some (None, r) => Some (OtherAction, r)
              | None => None end |}.
  intros [u x|u x|] r; by rewrite de_ser.
Defined.
Definition toy_price : PriceInfo := {| pi_Price := f64_of_int 2; pi_Timestamp := 100; pi_Err := "" |}.
Definition toy_deposit : SubTransaction :=
  {| st_ScTxid := "deposit"; st_Amount := 5; st_From := "bch"; st_To := "eth"; st_TokenFrom := 1; st_TokenTo := 1;
     st_RechargeList := [{| ai_Address := "alice"; ai_Amount := 3 |}] |}.
Definition toy_Chains (found : bool) (pkm : option bytes) : Chains := {|
  MsgTx := list (string * Z) * list (bytes * Z);
  Deserialize b := match decode_all b with Some tx => (tx, true) | None => (([], []), false) end;
  Serialize tx := Some (code tx);
  TxIn := fst;
  TxOut := snd;
  TxHash tx := hex_encode (code tx);
  ExtractPkScriptAddr script _ := script;
  DecodeAddress _ _ := true;
  GetTxByHash _ h := if found then Some {| cx_ScTxid := h; cx_Confirmations := 1;
                                     cx_SubTx := if bool_decide (h = "deposit") then Some toy_deposit else None |} else None;
  GetUtxoInfoByID _ _ := None;
  SignTx _ _ key := ([key], 0);
  VerifySign _ _ share key := bool_decide (share = [key]);
  MergeSignTx _ tx _ := Some tx;
  CreateCoinTx _ outs _ _ := Some ([], (λ a, (ai_Address a, ai_Amount a)) <$> outs);
  TransferAsset _ _ _ _ := None;
  GetUnspentUtxo _ _ := [];
  GetEventByHash _ := None;
  TX_STATUS_FAILED := 1;
  VOTE_TX_MINT := 2;
  VOTE_TX_VOTERADDED := 4;
  VOTE_TX_VOTERREMOVED := 8;
  VerifyAppInfo _ _ _ := true;
  HexToAddress s := s;
  EncodeMint token amount address txid := Some (code (token, amount, address, txid));
  SendTranxByInput _ _ _ := Some "hash";
  EosTx := ActionData;
  Unpack := decode_all;
  Pack tx := Some (code tx);
  Actions tx := [tx];
  GetEventByTxid _ _ := None;
  PKMSign _ _ := pkm;
  GetPublickeyFromTx _ _ _ := None;
  UnmarshalSignature b := (b, true);
  NewPublicKey _ key := Some key;
  MergeSignedTx _ tx _ := tx;
  EosTxID tx := code tx;
  LastIrreversibleBlockNum _ := 0;
  CreateTokenTx _ _ user amount := Some (CreateToken user amount);
  CreateTransferTx _ to amount _ := Some (TokenTransfer to amount);
  UnmarshalMemo _ := None;
  GetPriceByTimestamp _ _ _ := Some toy_price;
  GetCurrPrice _ _ := Some toy_price;
  conversion_overflow _ := - 2^63
|}.
Lemma toy_laws found pkm : @ChainLaws (toy_Chains found pkm).
Proof.
  split; cbn -[decode_all code].
  - intros tx data [= <-]. by rewrite decode_code.
  - intros tx data [= <-]. exact (decode_code tx).
  - intros chain outs q n tx [= <-]. exists 0%nat. cbn [snd]. rewrite length_fmap. split; [lia|]. split; [lia|].
    intros i a Ha. exists (ai_Address a, ai_Amount a). by rewrite list_lookup_fmap Ha.
  - by intros _ _ user amount tx [= <-].
  - by intros _ to amount _ tx [= <-].
  - by intros _ _ p [= <-].
Qed.
