(* ===== verification/NodeProps.v ===== *)
(** * Properties of a running node

    Runs of [node_step] from any store that holds a chain: the chain only grows,
    the term and the votie never go back; what the handlers of the accusations,
    of proposals and of commits do. *)
From S2P Require Import Prelude.
From S2P Require Import GoLib.
From S2P Require Import Crypto.
From S2P Require Import Messages.
From S2P Require Import Feed.
From S2P Require Import ProtoOps.
From S2P Require Import Cluster.
From S2P Require Import Store.
From S2P Require Import DbOps.
From S2P Require Import TxPool.
From S2P Require Import Consensus.
From S2P Require Import Handlers.
From S2P Require Import ConsensusProps.

(** ** Definitions *)
Section Invariants.
Context `{KV} `{Wire} `{Watchers}.
Implicit Types (w : World).

(** The node's term is [t] at least; its votie is not before [v]. *)
Definition term_above (t : Z) w : Prop := ∃ t', GetNodeTerm (w_db w) = Val t' ∧ t ≤ t'.
Definition votie_above (v : Votie) w : Prop :=
  ∃ v', GetVotie (w_db w) = Val v' ∧ Votie_HasLessTermHeightThan v' v = false.

(** The states of a goroutine of [handleJoinRequest] and its siblings. *)
Definition watch_state (k : Watcher) (g : Waiting) : Prop :=
  g = {| wg_kind := k; wg_i := 0; wg_armed := true |} ∨
  g = {| wg_kind := k; wg_i := 1; wg_armed := false |}.
Definition not_cancel (e : Event) : Prop :=
  match e with JoinCancelEvent | LeaveCancelEvent _ => False | _ => True end.

(** What the Go types and an agreeing accusation give: terms are [int64], and
    all the accusations of a strong accusation name the same term. *)
Definition step_terms_ok (s : Step) w : Prop :=
  match s with
  | SInit _ m => i64 (im_Term m)
  | SCommit _ => ∀ bp t, GetFresh (w_db w) = Val (Some bp) → bp_Term bp = Val t → i64 t
  | SStrongAccuse _ m => ∃ t, t < max_i64 ∧
      ∀ i wa, sa_WeakAccuses m !! i = Some wa → wa_Term wa = t
  | _ => True
  end.
End Invariants.

(** ** Lemmas *)
Section NodeLemmas.
Context `{KV} `{Wire} `{Watchers}.
Implicit Types (w : World).

Lemma run_steps_snoc ss s w : run_steps (ss ++ [s]) w = node_step s (run_steps ss w).
Proof. unfold run_steps. by rewrite foldl_app. Qed.

Lemma term_above_frame t : frame (term_above t) (λ k, k ≠ keyTerm).
Proof.
  split.
  - intros w d Hs (t' & Ht & Hle). exists t'. split; [|done]. rewrite -Ht.
    apply GetNodeTerm_ext, Hs. auto.
  - intros w w' Hd _ (t' & Ht & Hle). exists t'. by rewrite Hd.
Qed.
Lemma wp_SetNodeTerm_above t x w :
  term_above t w → t ≤ x → i64 x → wp (tell (SetNodeTerm x)) (λ _, term_above t) (term_above t) w.
Proof.
  intros Hw Hx Hi. apply wp_updates; [|done].
  intros w' (d & Hd & [= <-])%pan_bind_Val.
  destruct (GetNodeTerm_SetNodeTerm _ _ _ Hi Hd). by exists x.
Qed.
Lemma accuse_term_In o site sa t :
  accuse_term o site sa = Val t → ∃ i wa, sa_WeakAccuses sa !! i = Some wa ∧ wa_Term wa = t.
Proof.
  unfold accuse_term. destruct (range _ _ _) as [|[i wa] l] eqn:E; [done|]. intros [= <-].
  exists i, wa. split; [|done]. apply (elem_of_range o site). rewrite E. set_solver.
Qed.

Lemma accuse_term_total o site site' sa t :
  accuse_term o site sa = Val t → ∃ t', accuse_term o site' sa = Val t'.
Proof.
  unfold accuse_term. intros Ht. destruct (range o site' _) as [|[i wa] l] eqn:E; [|by eexists].
  apply range_nil in E. destruct (range o site (sa_WeakAccuses sa)) as [|x l] eqn:E'; [done|].
  by rewrite (proj2 (range_nil o site _) E) in E'.
Qed.
(** *** A commit, step by step *)
Lemma IsConnectingTop_next d l q bp :
  chain_rep d l → Z.of_nat (length l) < 2^63 → next_block q l bp → IsConnectingTop bp d = Val true.
Proof.
  intros Hr Hlen [Hh (top & x & t & t' & Hl & Hi & Hp & Ht & Ht' & Hle) _ _ _].
  unfold IsConnectingTop. rewrite (rep_GetCommitTop d l Hr) Hl Hp. cbn [mbind pan_bind deref].
  rewrite Hi. cbn [mbind pan_bind]. rewrite EqualTo_Some bool_decide_true; [|done].
  cbn [mbind pan_bind negb]. rewrite Ht Ht'. cbn [mbind pan_bind].
  rewrite (proj2 (Z.geb_le t' t) Hle). cbn [negb]. rewrite Hh. cbn [mbind pan_bind].
  rewrite last_lookup in Hl. pose proof (lookup_lt_Some _ _ _ Hl).
  rewrite (rep_height d l Hr _ _ Hl). cbn [mbind pan_bind mret pan_ret]. f_equal.
  apply Z.eqb_eq. rewrite wrap64_small; [lia|unfold i64; lia].
Qed.
Lemma updateVotie_run bp w cur v b :
  (QuorumN (w_cluster w) ≤ Z.of_nat (size (bp_Prepares bp))
   ∨ QuorumN (w_cluster w) ≤ Z.of_nat (size (bp_Commits bp))) →
  GetVotie (w_db w) = Val cur → ToVotie bp = Val v → Marshal v = Some b →
  updateVotie bp w = Ret () (if Votie_HasLessTermHeightThan cur v
                             then set_w_db (Put keyVotie b (w_db w)) w else w).
Proof.
  intros Hq Hc Hv Hb. unfold updateVotie. rewrite bind_gets.
  rewrite (bind_lift _ _ _ ()); [|apply assert_true_Val, orb_true_iff; rewrite !Z.geb_le; lia].
  rewrite (bind_ask _ _ _ _ Hc) (bind_lift _ _ _ _ Hv).
  destruct (Votie_HasLessTermHeightThan cur v); [|done]. cbn [when].
  unfold tell, updates, SetVotie, put_pb. by rewrite Hb.
Qed.
Lemma JustCommitIt_run d l q bp b :
  next_block q l bp → Marshal bp = Some b → ∃ d', JustCommitIt bp d = Ret () d'.
Proof.
  intros Hn Hb. destruct (nb_id _ _ _ Hn) as (x & Hx & _). unfold JustCommitIt.
  rewrite Hb (nb_height _ _ _ Hn) Hx. by eexists.
Qed.
Lemma IsCommitted_new d l x :
  chain_rep d l → (∀ bp, bp ∈ l → bp_BlockId bp ≠ Val (Some x)) → IsCommitted (Some x) d = Val false.
Proof.
  intros Hr Hnew. destruct (rep_IsCommitted d l x Hr) as (r & -> & Hx). f_equal.
  destruct r; [|done]. destruct (proj1 Hx eq_refl) as (bp & Hin & Hid). by destruct (Hnew bp Hin).
Qed.
Lemma IsTxsBlock_not_reconfig bp : IsTxsBlock bp = Val true → IsReconfigBlock bp = Val false.
Proof.
  unfold IsTxsBlock, IsReconfigBlock, Block_IsTxsBlock, Block_IsReconfig.
  destruct (bp_Block bp) as [ob|]; [|done]. cbn. destruct ob as [b|]; [|done]. cbn.
  intros [= E]. to_prop. by rewrite E.
Qed.
Lemma GetVotie_ext d d' : Get d' keyVotie = Get d keyVotie → GetVotie d' = GetVotie d.
Proof. unfold GetVotie. by intros ->. Qed.
Lemma set_w_db_id w : set_w_db (w_db w) w = w.
Proof. by destruct w as [[]]. Qed.
(** The keys written when a commit raises the term. *)
Definition term_keys (k : bytes) : Prop :=
  k = keyTerm ∨ k = keyLastTermAccuse ∨ k = keyWeakAccuses.
Lemma raise_run ft t w :
  GetNodeTerm (w_db w) = Val t → i64 ft →
  ∃ d, when (ft >? t)
         (_ ← tell (SetNodeTerm ft); _ ← Add (NewTermEvent ft);
          _ ← tell (SetLastTermAccuse None); tell (SetWeakAccuses None)) w =
       Ret () (set_w_tasks (w_tasks w ++ if ft >? t then [NewTermEvent ft] else []) (set_w_db d w)) ∧
    GetNodeTerm d = Val (Z.max t ft) ∧ same_but term_keys (w_db w) d.
Proof.
  intros Ht Hi. destruct (GetNodeTerm_range _ _ Ht) as [Hpos _].
  destruct (ft >? t) eqn:E; to_prop.
  2:{ exists (w_db w). rewrite app_nil_r set_w_db_id. split_and!; [by destruct w| |apply same_but_refl].
      rewrite Ht. f_equal. lia. }
  set (d1 := Put keyTerm (I64ToBytes ft) (w_db w)).
  assert (SetNodeTerm ft (w_db w) = Val d1) as Hs.
  { unfold SetNodeTerm. rewrite (proj2 (Z.leb_le 0 ft)); [done|lia]. }
  exists (Delete keyWeakAccuses (Delete keyLastTermAccuse d1)). cbn [when].
  rewrite (bind_tell _ _ _ _ Hs). split_and!; [done| |].
  - destruct (GetNodeTerm_SetNodeTerm _ _ _ Hi Hs) as [Hg _]. rewrite Z.max_r; [|lia].
    rewrite -Hg. apply GetNodeTerm_ext. rewrite !Get_Delete_ne; first [done|solve [key_ne]].
  - intros k Hk. unfold term_keys in Hk. unfold Delete, d1, Put.
    rewrite !kv_get_delete_ne ?kv_get_put_ne; [done|naive_solver..].
Qed.

Lemma node_step_term t s w : step_terms_ok s w → term_above t w → term_above t (node_step s w).
Proof.
  intros Hok Hw. pose proof (term_above_frame t) as Hf.
  assert (∀ x t' w, term_above t w → GetNodeTerm (w_db w) = Val t' → t' < x → i64 x →
    wp (tell (SetNodeTerm x)) (λ _, term_above t) (term_above t) w) as Hraise.
  { intros x t' w1 Hw1 Ht' Hx Hi. apply wp_SetNodeTerm_above; [done| |done].
    destruct Hw1 as (t1 & Ht1 & Hle). rewrite Ht' in Ht1. injection Ht1 as ->. lia. }
  assert (∀ bp, keep (term_above t) (updateVotie bp)) as Hv.
  { intros bp. eapply keep_updateVotie; [exact Hf|]. key_ne. }
  eapply node_step_keeps; [exact Hf| |exact Hv|exact Hraise|exact Hw|].
  { by intros k _ Hk _. }
  destruct s; try done.
  - eapply (wp_keep_handleCommitMsg _ _ Hf) with (okt := i64);
      first [exact Hv|exact Hraise|exact Hw|exact Hok|solve [key_ne]|intros k (r & [-> | ->]); key_ne].
  - destruct Hok as (T & HT & Hall). eapply keep_handleStrongAccuse; [exact Hf|..]; try solve [key_ne].
    intros w1 t1 t2 Hw1 (i & wa & Hi & <-)%accuse_term_In (j & wb & Hj & <-)%accuse_term_In
      (t' & Ht' & Hle).
    apply Hall in Hi, Hj. rewrite Hj. rewrite Hi in Hle.
    destruct (GetNodeTerm_range _ _ Ht') as [Hpos _].
    rewrite wrap64_small; [|unfold i64, max_i64 in *; lia].
    apply wp_SetNodeTerm_above; [done| |unfold i64, max_i64 in *; lia].
    destruct Hw1 as (t0 & Ht0 & Hle0). rewrite Ht' in Ht0. injection Ht0 as ->. lia.
Qed.

Lemma votie_above_frame v : frame (votie_above v) (λ k, k ≠ keyVotie).
Proof.
  split.
  - intros w d Hs (v' & Hv & Hle). exists v'. split; [|done]. rewrite -Hv.
    unfold GetVotie, Get. f_equal. cbn. rewrite Hs; [done|auto].
  - intros w w' Hd _ (v' & Hv & Hle). exists v'. by rewrite Hd.
Qed.
Lemma keep_updateVotie_above v bp : keep (votie_above v) (updateVotie bp).
Proof.
  intros w Hw. unfold updateVotie. apply wp_bind, wp_gets. apply wp_bind, wp_lift; [intros [] _|done].
  apply wp_bind, wp_reads; [intros cur Hcur|done]. apply wp_bind, wp_lift; [intros new _|done].
  apply wp_when; [intros Hless|done].
  apply wp_updates; [|done]. intros w' (d & Hd & [= <-])%pan_bind_Val.
  exists new. split; [by apply GetVotie_SetVotie in Hd|].
  destruct Hw as (v' & Hv' & Hle). rewrite Hcur in Hv'. injection Hv' as ->.
  unfold Votie_HasLessTermHeightThan in *. apply less_term_height_spec in Hless.
  rewrite less_term_height_false in Hle. rewrite less_term_height_false. lia.
Qed.
Lemma node_step_votie v s w : votie_above v w → votie_above v (node_step s w).
Proof.
  intros Hw. pose proof (votie_above_frame v) as Hf. pose proof (keep_updateVotie_above v) as Hv.
  assert (∀ t, keep (votie_above v) (tell (SetNodeTerm t))) as Ht.
  { intros t. eapply keep_tell_key; [exact Hf|apply SetNodeTerm_same|key_ne]. }
  assert (∀ x t w, votie_above v w → GetNodeTerm (w_db w) = Val t → t < x → True →
    wp (tell (SetNodeTerm x)) (λ _, votie_above v) (votie_above v) w) as Hraise.
  { intros. by apply Ht. }
  eapply node_step_keeps; [exact Hf| |exact Hv|exact Hraise|exact Hw|].
  { by intros k _ _ Hk. }
  destruct s; try done.
  - eapply (wp_keep_handleCommitMsg _ _ Hf) with (okt := (λ _, True));
      first [exact Hv|exact Hraise|exact Hw|done|solve [key_ne]|intros k (r & [-> | ->]); key_ne].
  - eapply keep_handleStrongAccuse; [exact Hf|..]; try solve [key_ne].
    intros. by apply Ht.
Qed.
(** *** A proposal *)

(** Validation changes the pool at most, and not its store. *)
Definition pool_only w w' : Prop := ∃ p, w' = set_w_pool p w ∧ p_db p = w_db w.
Lemma pool_only_refl w : pool_only w w.
Proof. exists (w_pool w). split; [by destruct w|done]. Qed.
Lemma pool_only_trans w1 w2 w3 : pool_only w1 w2 → pool_only w2 w3 → pool_only w1 w3.
Proof. intros (p & -> & Hp) (p' & -> & Hp'). exists p'. split; [done|]. by rewrite Hp'. Qed.
Lemma pool_only_db w w' : pool_only w w' → w_db w' = w_db w.
Proof. by intros (p & -> & Hp). Qed.

Lemma wp_validate_each txs : ∀ w,
  wp (validate_each txs) (λ _, pool_only w) (pool_only w) w.
Proof.
  induction txs as [|tx txs IH]; intros w; cbn [validate_each]; [apply wp_ret, pool_only_refl|].
  apply wp_bind. unfold run_pool. apply wp_zoom.
  eapply wp_mono with (Q := λ _ p, p_db p = w_db w) (E := λ p, p_db p = w_db w).
  - apply wp_end. apply ValidateTx_db.
  - intros [r tx'] p Hp. assert (pool_only w (set_w_pool p w)) as Hpo by (by exists p).
    destruct r; try (by apply wp_ret); apply wp_bind;
      (eapply wp_mono; [apply IH|..]; [intros [[v l] cs] w' Hw'; apply wp_ret|intros w' Hw'];
       by eapply pool_only_trans).
  - intros p Hp. by exists p.
Qed.
(** The pack of the verdict differs in its transactions only. *)
Lemma wp_validateTxs bp w :
  wp (validateTxs bp)
    (λ r w', pool_only w w' ∧ bp_Term r.2 = bp_Term bp ∧ bp_Height r.2 = bp_Height bp ∧
      bp_BlockId r.2 = bp_BlockId bp ∧ bp_PrevBlockId r.2 = bp_PrevBlockId bp ∧
      bp_Prepares r.2 = bp_Prepares bp ∧ bp_Commits r.2 = bp_Commits bp)
    (pool_only w) w.
Proof.
  unfold validateTxs. apply wp_bind, wp_lift; [|intros _; apply pool_only_refl]. intros init Hi%deref_Val.
  apply wp_bind, wp_lift; [|intros _; apply pool_only_refl]. intros b Hb%deref_Val.
  apply wp_bind. eapply wp_mono; [apply wp_validate_each| |done].
  intros [[v txs] cs] w' Hw'. cbn zeta beta.
  assert (∀ v' : Validity, (λ (r : Validity * BlockPack) w', pool_only w w' ∧ bp_Term r.2 = bp_Term bp ∧
    bp_Height r.2 = bp_Height bp ∧ bp_BlockId r.2 = bp_BlockId bp ∧
    bp_PrevBlockId r.2 = bp_PrevBlockId bp ∧
    bp_Prepares r.2 = bp_Prepares bp ∧ bp_Commits r.2 = bp_Commits bp)
    (v', set_bp_Init bp (Some (set_im_Block init (Some (set_b_Txs b txs))))) w') as Hsame.
  { intros v'. unfold bp_Term, bp_Height, bp_BlockId, bp_PrevBlockId, bp_Block. cbn.
    rewrite Hi. cbn. rewrite Hb. by split_and!. }
  destruct (bool_decide _); [|by apply wp_ret].
  apply wp_bind, wp_lift; [|done]. intros ok _. by apply wp_ret.
Qed.
(** What an accepted proposal satisfies, for a node with the chain [l], the
    node list [c] and the caches [pc] and [cc]. *)
Record accepted (o : order) l c (pc : gmap Z (gmap Z (list PrepareMsg)))
    (cc : gmap Z (gmap Z (list CommitMsg))) (init : InitMsg) (fresh : BlockPack) w' : Prop := {
  ac_term : GetNodeTerm (w_db w') = Val (im_Term init);
  ac_fresh : GetFresh (w_db w') = Val (Some fresh);
  ac_height : bp_Height fresh = Val (Z.of_nat (length l)) ∧ im_Height init = Z.of_nat (length l);
  ac_new : ∃ b x, im_Block init = Some b ∧ b_Id b = Some x ∧ bp_BlockId fresh = Val (Some x) ∧
    ∀ bp, bp ∈ l → bp_BlockId bp ≠ Val (Some x);
  ac_link : ∃ top x t, last l = Some top ∧ bp_BlockId top = Val (Some x) ∧
    bp_PrevBlockId fresh = Val (Some x) ∧ bp_Term top = Val t ∧ t ≤ im_Term init ∧
    (t < im_Term init → ∃ d, chain_rep d l ∧ isInitSupportedByVotes o c init d = Val true);
  ac_valid : ∃ bp w1 w2 bp', NewBlockPack (Some init) = Val bp ∧
    validateTxs bp w1 = Ret (Valid, bp') w2 ∧ bp_Init fresh = bp_Init bp';
  ac_prepares : bp_Prepares fresh =
    foldl (λ m msg, <[pm_NodeId msg := msg]> m) ∅ (cached pc (im_Term init) (im_Height init));
  ac_commits : bp_Commits fresh =
    foldl (λ m msg, <[cm_NodeId msg := msg]> m) ∅ (cached cc (im_Term init) (im_Height init))
}.
Definition no_inited (es : list Event) : Prop := ∀ bp, NewInitedEvent bp ∉ es.
Lemma no_inited_snoc es e : no_inited es → (∀ bp, e ≠ NewInitedEvent bp) → no_inited (es ++ [e]).
Proof. intros Hes He bp [Hin|Hin%list_elem_of_singleton]%elem_of_app; [by eapply Hes|by eapply He]. Qed.
(** The event of an accepted proposal is queued only for one. *)
Definition announces o l c pc cc init w' : Prop :=
  ∀ fresh, NewInitedEvent fresh ∈ w_tasks w' → accepted o l c pc cc init fresh w'.
Lemma announces_none o l c pc cc init w : no_inited (w_tasks w) → announces o l c pc cc init w.
Proof. intros Hn fresh Hin. by destruct (Hn fresh). Qed.

Lemma handleWrongHeight_tasks msg w :
  no_inited (w_tasks w) →
  wp (handleWrongHeightProgressMsg msg) (λ _ w', no_inited (w_tasks w')) (λ w', no_inited (w_tasks w')) w.
Proof.
  intros Hn. unfold handleWrongHeightProgressMsg, ask, Add.
  wp_run; try done; cbn [w_tasks set_w_tasks]; by apply no_inited_snoc.
Qed.

Lemma NewBlockPack_fields init bp :
  NewBlockPack (Some init) = Val bp → bp_Init bp = Some init ∧ bp_Prepares bp = ∅ ∧ bp_Commits bp = ∅.
Proof. unfold NewBlockPack. by intros (? & _ & [= <-])%pan_bind_Val. Qed.
Lemma wp_checkReconfigBlock bp w : wp (checkReconfigBlock bp) (λ _, eq w) (eq w) w.
Proof. unfold checkReconfigBlock, ask. wp_run; done. Qed.
(** The tests on a proposal change nothing, and let only a new, linked block
    with valid transactions through. *)
Lemma wp_proposal_ok init bp v r l w :
  chain_rep (w_db w) l → Z.of_nat (length l) + 1 < 2^63 →
  wp (proposal_ok init bp v r)
    (λ ok w', w' = w ∧ (ok = true → v = Valid ∧
      (∃ b x, im_Block init = Some b ∧ b_Id b = Some x ∧
         ∀ bp', bp' ∈ l → bp_BlockId bp' ≠ Val (Some x)) ∧
      bp_Height bp = Val (Z.of_nat (length l)) ∧
      ∃ top x t t', last l = Some top ∧ bp_BlockId top = Val (Some x) ∧
        bp_PrevBlockId bp = Val (Some x) ∧ bp_Term top = Val t ∧ bp_Term bp = Val t' ∧ t ≤ t'))
    (λ _, True) w.
Proof.
  intros Hr Hlen. unfold proposal_ok. apply wp_bind, wp_lift; [|done]. intros b Hb%deref_Val.
  apply wp_bind, wp_reads; [|done]. intros [] Hcm; [by apply wp_ret|].
  apply wp_bind, wp_reads; [|done]. intros conn Hconn. apply wp_ret. split; [done|]. intros Hok.
  to_prop. subst. destruct (rep_not_committed _ _ _ Hr Hcm) as (x & Hx & Hnew).
  destruct (IsConnectingTop_true _ _ _ Hr Hlen Hconn) as [Hh Hl]. split_and!; eauto.
Qed.
(** The pack that [handle_current_init] stores when all tests passed. *)
Lemma accepted_fresh o init l w w1 bp0 bp1 b x top y t d :
  chain_rep (w_db w) l → GetNodeTerm (w_db w) = Val (im_Term init) → pool_only w w1 →
  NewBlockPack (Some init) = Val bp0 → validateTxs bp0 w = Ret (Valid, bp1) w1 →
  im_Height init = Z.of_nat (length l) →
  im_Block init = Some b → b_Id b = Some x → (∀ bp', bp' ∈ l → bp_BlockId bp' ≠ Val (Some x)) →
  bp_Height bp1 = Val (Z.of_nat (length l)) → last l = Some top → bp_BlockId top = Val (Some y) →
  bp_PrevBlockId bp1 = Val (Some y) → bp_Term top = Val t → t ≤ im_Term init →
  (t < im_Term init → isInitSupportedByVotes o (w_cluster w) init (w_db w1) = Val true) →
  let fresh := merge_caches w1 init bp1 in
  SetFresh (Some fresh) (w_db w1) = Val d →
  accepted o l (w_cluster w) (w_prepareCache w) (w_commitCache w) init fresh
    (set_w_tasks (w_tasks w1 ++ [NewInitedEvent fresh]) (set_w_db d (drop_caches init w1))).
Proof.
  intros Hr Ht Hpo Hbp0 Hv Hh Hb Hx Hnew Hbh Hl Hy Hp Htop Hle Hsup fresh Hd.
  destruct (NewBlockPack_fields _ _ Hbp0) as (Hi0 & Hp0 & Hc0).
  pose proof (wp_Ret _ _ _ _ _ _ (wp_validateTxs bp0 w) Hv) as (_ & E1 & E2 & E3 & E4 & E5 & E6).
  cbn [snd] in *. pose proof (pool_only_db _ _ Hpo) as Hdb.
  assert (w_prepareCache w1 = w_prepareCache w ∧ w_commitCache w1 = w_commitCache w) as [Hpc Hcc]
    by (by destruct Hpo as (p & -> & _)).
  subst fresh. unfold merge_caches in *.
  split; cbn [w_db w_pool set_w_tasks set_w_db set_w_pool p_db set_p_db];
    unfold bp_Height, bp_BlockId, bp_PrevBlockId, bp_Block in *; cbn [bp_Init bp_Prepares bp_Commits
      set_bp_Prepares set_bp_Commits] in *.
  - rewrite -Ht -Hdb. apply GetNodeTerm_ext, (SetFresh_same _ _ _ Hd). key_ne.
  - by apply GetFresh_SetFresh in Hd.
  - done.
  - exists b, x. split_and!; [done|done| |done]. rewrite E3 Hi0. cbn. rewrite Hb. cbn. by rewrite Hx.
  - exists top, y, t. split_and!; try done. intros Hlt. exists (w_db w1). rewrite {1}Hdb. auto.
  - by exists bp0, w, w1, bp1.
  - by rewrite E5 Hp0 Hpc.
  - by rewrite E6 Hc0 Hcc.
Qed.
Lemma wp_handle_current_init o init l w :
  chain_rep (w_db w) l → Z.of_nat (length l) + 1 < 2^63 → no_inited (w_tasks w) →
  GetNodeTerm (w_db w) = Val (im_Term init) →
  wp (handle_current_init o init)
    (λ _, announces o l (w_cluster w) (w_prepareCache w) (w_commitCache w) init)
    (λ _, True) w.
Proof.
  intros Hr Hlen Hn Ht. unfold handle_current_init.
  apply wp_bind, wp_reads; [|done]. intros h Hh. rewrite (rep_GetCommitHeight _ _ Hr) in Hh.
  injection Hh as <-. rewrite wrap64_small; [|unfold i64; lia].
  destruct (negb _) eqn:Eh; to_prop.
  { eapply wp_mono; [by apply handleWrongHeight_tasks| |done]. intros ? ? ?. by apply announces_none. }
  apply wp_bind, wp_lift; [|done]. intros bp0 Hbp0.
  apply wp_bind. unfold wp at 1. pose proof (wp_validateTxs bp0 w) as Hv. unfold wp in Hv.
  destruct (validateTxs bp0 w) as [[v bp1] w1|] eqn:Ev; [|done].
  destruct Hv as (Hpo & E1 & _). cbn [snd] in E1. pose proof (pool_only_db _ _ Hpo) as Hdb.
  assert (no_inited (w_tasks w1)) as Hn1 by (by destruct Hpo as (p & -> & _)).
  assert (w_cluster w1 = w_cluster w) as Hcl by (by destruct Hpo as (p & -> & _)).
  set (A := announces o l (w_cluster w) (w_prepareCache w) (w_commitCache w) init).
  assert (∀ t, A (set_w_tasks (w_tasks w1 ++ [NewWeakAccuseEvent t]) w1)) as Hweak.
  { intros t. apply announces_none. by apply no_inited_snoc. }
  apply wp_bind. eapply wp_mono; [apply wp_checkReconfigBlock| |done]. intros rv ? <-.
  apply wp_bind. eapply wp_mono; [apply (wp_proposal_ok _ _ _ _ l); by rewrite ?Hdb| |done].
  intros ok ? [-> Hok]. destruct ok; cycle 1.
  { destruct (bool_decide _); [by apply wp_ret, announces_none|]. apply wp_modify, Hweak. }
  destruct (Hok eq_refl) as (-> & (b & x & Hb & Hx & Hnew) & Hbh & top & y & t & t' & L1 & L2 & L3 & L4 & L5 & L6).
  apply wp_bind, wp_reads; [|done]. intros top' Htop'. rewrite Hdb (rep_GetCommitTop _ _ Hr) L1 in Htop'.
  injection Htop' as <-. apply wp_bind, wp_lift; [|done]. intros ? [= <-].
  apply wp_bind, wp_lift; [|done]. intros ? Htt. rewrite L4 in Htt. injection Htt as <-.
  assert (t' = im_Term init) as ->.
  { destruct (NewBlockPack_fields _ _ Hbp0) as (Hi0 & _). rewrite E1 in L5. unfold bp_Term in L5.
    rewrite Hi0 in L5. by injection L5. }
  apply wp_bind, wp_gets. rewrite Hcl. apply wp_bind. eapply wp_mono with (E := λ _, True)
    (Q := λ s w2, w2 = w1 ∧ (s = true → t < im_Term init →
       isInitSupportedByVotes o (w_cluster w) init (w_db w1) = Val true)); [| |done].
  { destruct (_ >? _) eqn:Egt; to_prop.
    - apply wp_reads; [|done]. intros s Hs. split; [done|]. by intros ->.
    - apply wp_ret. split; [done|]. lia. }
  intros s ? [-> Hsup]. destruct s; cbn [negb]; [|apply wp_modify, Hweak].
  apply wp_bind, wp_gets, wp_bind, wp_modify.
  apply wp_bind, wp_updates; [|done]. intros w3 (d & Hd & [= <-])%pan_bind_Val. apply wp_modify.
  intros fresh [Hin|[= ->]%list_elem_of_singleton]%elem_of_app; [by destruct (Hn1 fresh)|].
  refine (accepted_fresh o init l w w1 bp0 bp1 b x top y t d Hr Ht Hpo Hbp0 Ev _ Hb Hx Hnew Hbh
    L1 L2 L3 L4 L6 (Hsup eq_refl) Hd). lia.
Qed.
(** What a move to the term of a proposal leaves as it was. *)
Lemma updateNodeTermWithInit_run init w r w' :
  i64 (im_Term init) → updateNodeTermWithInit init w = Ret r w' →
  (r = false ∧ w' = w) ∨
  (r = true ∧ QuorumN (w_cluster w) ≤ Z.of_nat (size (im_Votes init)) ∧
   GetNodeTerm (w_db w') = Val (im_Term init) ∧
   same_but (λ k, term_keys k ∨ k = keyFresh) (w_db w) (w_db w') ∧
   w_cluster w' = w_cluster w ∧ w_prepareCache w' = w_prepareCache w ∧
   w_commitCache w' = w_commitCache w ∧ w_tasks w' = w_tasks w ++ [NewTermEvent (im_Term init)]).
Proof.
  intros Hi. unfold updateNodeTermWithInit.
  intros (t & w1 & Ht & Hk)%bind_Ret_inv. unfold ask, reads in Ht.
  destruct (GetNodeTerm (w_db w)) as [t'|] eqn:Et; [|done]. injection Ht as -> <-.
  destruct (_ <=? _) eqn:E; [injection Hk as <- <-; by left|]. rewrite bind_gets in Hk.
  destruct (_ <? _) eqn:Eq; [injection Hk as <- <-; by left|]. to_prop.
  destruct (GetNodeTerm_range _ _ Et) as [Hpos _]. right.
  set (d1 := Put keyTerm (I64ToBytes (im_Term init)) (w_db w)).
  assert (SetNodeTerm (im_Term init) (w_db w) = Val d1) as Hs.
  { unfold SetNodeTerm. rewrite (proj2 (Z.leb_le 0 (im_Term init))); [done|lia]. }
  rewrite (bind_tell _ _ _ _ Hs) in Hk.
  change (_ = Ret r w') with (Ret true (set_w_db
    (Delete keyFresh (Delete keyWeakAccuses (Delete keyLastTermAccuse d1)))
    (set_w_tasks (w_tasks w ++ [NewTermEvent (im_Term init)]) w)) = Ret r w') in Hk.
  injection Hk as <- <-. split_and!; try done.
  - destruct (GetNodeTerm_SetNodeTerm _ _ _ Hi Hs) as [<- _]. apply GetNodeTerm_ext.
    change (w_db _) with (Delete keyFresh (Delete keyWeakAccuses (Delete keyLastTermAccuse d1))).
    clearbody d1. rewrite !Get_Delete_ne; first [done|solve [key_ne]].
  - intros k Hk. unfold term_keys in Hk.
    change (w_db (set_w_db _ _)) with (Delete keyFresh (Delete keyWeakAccuses (Delete keyLastTermAccuse d1))).
    unfold Delete, d1, Put. rewrite !kv_get_delete_ne ?kv_get_put_ne; [done|naive_solver..].
Qed.

(** The store after [commitBlockWithCheck]. *)
Record committed (l : list BlockPack) (bp : BlockPack) (v : Votie) (t : Z) (d : db) : Prop := {
  cd_chain : chain_rep d (l ++ [bp]);
  cd_fresh : GetFresh d = Val None;
  cd_term : GetNodeTerm d = Val t;
  cd_votie : GetVotie d = Val v
}.
Definition later_votie (cur v : Votie) : Votie := if Votie_HasLessTermHeightThan cur v then v else cur.
(** Once the block is stored: the term, the block in progress and the votie. *)
Lemma after_commit_run bp new w t ft cur v :
  GetNodeTerm (w_db w) = Val t → bp_Term new = Val ft → i64 ft →
  GetVotie (w_db w) = Val cur → ToVotie new = Val v → is_Some (Marshal v) →
  QuorumN (w_cluster w) ≤ Z.of_nat (size (bp_Commits new)) →
  ∃ w', after_commit bp new false w = Ret () w' ∧
    same_but (λ k, term_keys k ∨ k = keyFresh ∨ k = keyVotie) (w_db w) (w_db w') ∧
    GetFresh (w_db w') = Val None ∧ GetNodeTerm (w_db w') = Val (Z.max t ft) ∧
    GetVotie (w_db w') = Val (later_votie cur v) ∧
    w_cluster w' = w_cluster w ∧ w_prepareCache w' = w_prepareCache w ∧
    w_commitCache w' = w_commitCache w ∧
    w_tasks w' = w_tasks w ++ (if ft >? t then [NewTermEvent ft] else []) ++ [NewCommittedEvent new].
Proof.
  intros Ht Hft Hi Hcur Hv [bv Hbv] Hq. unfold after_commit, later_votie.
  rewrite (bind_lift _ _ _ _ Hft) (bind_ask _ _ _ _ Ht).
  destruct (raise_run ft t w Ht Hi) as (d2 & Hw2 & Ht2 & Hs2). rewrite (bind_Ret _ _ _ _ _ Hw2).
  set (w2 := set_w_tasks _ _). rewrite (bind_tell _ _ _ (Delete keyFresh d2)); [|done].
  set (w3 := set_w_db (Delete keyFresh d2) w2).
  assert (GetVotie (w_db w3) = Val cur) as Hc3.
  { rewrite -Hcur. apply GetVotie_ext. cbn. rewrite Get_Delete_ne; [|key_ne].
    apply Hs2. intros [E|[E|E]]; revert E; key_ne. }
  rewrite (bind_Ret _ _ _ _ _ (updateVotie_run new w3 cur v bv (or_intror Hq) Hc3 Hv Hbv)).
  assert (∀ d, same_but (eq keyVotie) (w_db w3) d →
    same_but (λ k, term_keys k ∨ k = keyFresh ∨ k = keyVotie) (w_db w) d ∧
    GetFresh d = Val None ∧ GetNodeTerm d = Val (Z.max t ft)) as Hd.
  { intros d Hs. split_and!.
    - intros k Hk. rewrite Hs; [|naive_solver]. cbn. unfold Delete.
      rewrite kv_get_delete_ne; [|naive_solver]. apply Hs2. naive_solver.
    - transitivity (GetFresh (w_db w3)); [apply get_pb_ext, Hs; key_ne|].
      unfold GetFresh, get_pb. cbn. by rewrite Get_Delete.
    - rewrite -Ht2. apply GetNodeTerm_ext. rewrite /Get Hs; [|key_ne]. cbn. unfold Delete.
      rewrite kv_get_delete_ne; [done|key_ne]. }
  destruct (Votie_HasLessTermHeightThan cur v); (eexists; split; [reflexivity|]).
  - destruct (Hd (Put keyVotie bv (w_db w3))) as (? & ? & ?); [apply same_but_put|].
    split_and!; try done; [|by rewrite /= -app_assoc].
    unfold GetVotie. cbn. rewrite Get_Put. cbn. by rewrite (Unmarshal_Marshal _ _ Hbv).
  - destruct (Hd (w_db w3)) as (? & ? & ?); [apply same_but_refl|].
    split_and!; try done. by rewrite /= -app_assoc.
Qed.
Lemma commit_run l bp w t ft cur v :
  let new := set_bp_Prepares bp ∅ in
  (∀ x : BlockPack, is_Some (Marshal x)) → (∀ x : Votie, is_Some (Marshal x)) →
  chain_rep (w_db w) l → Z.of_nat (length l) + 1 < 2^63 → next_block (QuorumN (w_cluster w)) l new →
  IsTxsBlock bp = Val true → GetNodeTerm (w_db w) = Val t → bp_Term bp = Val ft → i64 ft →
  GetVotie (w_db w) = Val cur → ToVotie new = Val v →
  ∃ w', commitBlockWithCheck bp w = Ret None w' ∧
    committed l new (later_votie cur v) (Z.max t ft) (w_db w') ∧
    w_tasks w' = w_tasks w ++ (if ft >? t then [NewTermEvent ft] else []) ++ [NewCommittedEvent new].
Proof.
  intros new HMb HMv Hr Hlen Hn Htx Ht Hft Hi Hcur Hv. unfold commitBlockWithCheck.
  destruct (nb_id _ _ _ Hn) as (x & Hx & Hnew).
  rewrite (bind_lift _ _ _ (Some x)); [|exact Hx].
  rewrite (bind_ask _ _ _ false); [|by eapply IsCommitted_new]. cbn iota. rewrite bind_gets.
  destruct (_ <? _) eqn:E; to_prop; [pose proof (nb_quorum _ _ _ Hn) as Hq; cbn in Hq; lia|].
  rewrite (bind_ask _ _ _ true); [|apply (IsConnectingTop_next _ l (QuorumN (w_cluster w)) new); [done|lia|done]].
  cbn [negb]. rewrite (bind_lift _ _ _ _ Htx) (bind_lift _ _ _ _ (IsTxsBlock_not_reconfig _ Htx)).
  rewrite (bind_lift _ _ _ ()); [|done]. unfold ShallowCopy. fold new. cbn zeta.
  destruct (HMb new) as [b Hb]. destruct (JustCommitIt_run (w_db w) l _ new b Hn Hb) as [d1 Hd1].
  unfold run_db. rewrite (bind_Ret _ _ _ () (set_w_db d1 w)); [|unfold zoom; by rewrite Hd1].
  pose proof (JustCommitIt_same new (w_db w)) as Hs1. rewrite Hd1 in Hs1. cbn in Hs1.
  destruct (after_commit_run bp new (set_w_db d1 w) t ft cur v) as
    (w' & Hw' & Hs & Hfr & Ht' & Hv' & _ & _ & _ & Hta); try done.
  - rewrite -Ht. apply GetNodeTerm_ext, Hs1. apply not_chain_term.
  - rewrite -Hcur. apply GetVotie_ext, Hs1. apply not_chain_votie.
  - exists w'. rewrite (bind_Ret _ _ _ _ _ Hw'). split_and!; [done| |done]. split; [|done..].
    eapply chain_rep_same; [exact Hs|..]; [intros r [[E'|[E'|E']]|[E'|E']]; revert E'; key_ne..|].
    eapply JustCommitIt_rep; [exact Hr|exact Hd1|apply Hn|exact Hlen|exact Hx|exact Hnew].
Qed.
(** *** Synchronisation *)
Lemma sync_blocks_spec d l base n fuel : ∀ h,
  chain_rep d l → Z.of_nat (length l) + n + 1 < 2^63 → -1 ≤ base → base < Z.of_nat (length l) →
  base + 1 ≤ h ≤ base + 1 + n → n - (h - base - 1) ≤ Z.of_nat fuel →
  sync_blocks fuel h base (Z.of_nat (length l) - 1) n d =
  Val (Some <$> take (Z.to_nat (n - (h - base - 1))) (drop (Z.to_nat h) l)).
Proof.
  induction fuel as [|fuel IH]; intros h Hr Hlen Hb Hb' Hh Hf; cbn [sync_blocks].
  { replace (n - (h - base - 1)) with 0 by lia. done. }
  rewrite wrap64_small; [|unfold i64; lia].
  destruct (_ && _) eqn:E.
  - to_prop. rewrite (rep_GetCommitByHeight _ _ _ Hr); [|lia]. cbn [mbind pan_bind].
    rewrite wrap64_small; [|unfold i64; lia]. rewrite IH; [|done|lia..]. cbn [mbind pan_bind].
    destruct (lookup_lt_is_Some_2 l (Z.to_nat h)) as [bp Hbp]; [lia|].
    rewrite Hbp (drop_S _ _ _ Hbp).
    replace (Z.to_nat (n - (h - base - 1))) with (S (Z.to_nat (n - (h + 1 - base - 1)))) by lia.
    by replace (Z.to_nat (h + 1)) with (S (Z.to_nat h)) by lia.
  - apply andb_false_iff in E as [E|E]; to_prop.
    + rewrite drop_ge; [by rewrite take_nil|lia].
    + by replace (Z.to_nat (n - (h - base - 1))) with 0%nat by lia.
Qed.
End NodeLemmas.

(** ** Theorems *)
Section NodeTheorems.
Context `{KV} `{Wire} `{Watchers}.
Implicit Types (w : World).

(** Safety of the chain under any sequence of messages, requests, timers,
    crashes and changes of the node list: the committed blocks are never
    replaced or removed, and each block added has the next height, names the
    block before it, has no lower term, a new id and a proper type, and carries
    the commits of [q] nodes at least, if the quorum never was below [q]. *)
Theorem node_chain_grows (ss : list Step) (w : World) (l : list BlockPack) (q : Z) :
  chain_rep (w_db w) l → Z.of_nat (length l) + Z.of_nat (length ss) < 2^63 →
  (∀ i, q ≤ QuorumN (w_cluster (run_steps (take i ss) w))) →
  ∃ l', chain_rep (w_db (run_steps ss w)) (l ++ l') ∧ (length l' ≤ length ss)%nat ∧
    ∀ i bp, l' !! i = Some bp → next_block q (l ++ take i l') bp.
Proof.
  intros Hr. induction ss as [|s ss IH] using rev_ind; intros Hlen Hq.
  { exists []. rewrite app_nil_r. by split_and!. }
  rewrite length_app /= in Hlen. destruct IH as (l' & Hr' & Hl' & Hnext); [lia| |].
  { intros i. destruct (decide (i ≤ length ss)%nat) as [Hi|Hi].
    - specialize (Hq i). by rewrite take_app_le in Hq.
    - specialize (Hq (length ss)). rewrite take_app_length in Hq. by rewrite take_ge; [|lia]. }
  rewrite run_steps_snoc.
  destruct (node_step_chain s _ _ Hr') as (l1 & Hr1 & [->|(bp & -> & Hn)]).
  { rewrite length_app. lia. }
  { exists l'. rewrite length_app. split_and!; [done|lia|done]. }
  exists (l' ++ [bp]). rewrite app_assoc !length_app /=. split_and!; [done|lia|].
  intros i bp' [Hi|[Hge Hi]]%lookup_app_Some.
  { pose proof (lookup_lt_Some _ _ _ Hi). rewrite take_app_le; [|lia]. by apply Hnext. }
  assert (i = length l' ∧ bp' = bp) as [-> ->].
  { destruct (i - length l')%nat eqn:E; [|done]. cbn in Hi. injection Hi as ->. split; [lia|done]. }
  rewrite take_app_length. destruct Hn as [N1 N2 N3 N4 N5]. split; try done.
  specialize (Hq (length ss)). rewrite take_app_length in Hq. lia.
Qed.


(** C15. The votie, the certificate a node shows when it votes for a new leader,
    never goes back to a lower term and height. *)
Theorem node_votie_never_goes_back (ss : list Step) (w : World) (v : Votie) :
  votie_above v w → votie_above v (run_steps ss w).
Proof.
  intros Hw. induction ss as [|s ss IH] using rev_ind; [done|].
  rewrite run_steps_snoc. by apply node_step_votie.
Qed.

(** The verdict on the votes of a proposal, by their greatest votie. *)
Lemma supported_by_max (o : order) (c : Cluster) (init : InitMsg) (d : db)
    (l : list BlockPack) (top : BlockPack) (topTerm topHeight : Z) (topId initId : Digest256)
    (b : Block) :
  chain_rep d l → last l = Some top → bp_Term top = Val topTerm → bp_Height top = Val topHeight →
  bp_BlockId top = Val (Some topId) → im_Block init = Some b → b_Id b = Some initId →
  1 ≤ QuorumN c →
  map_Forall (λ _ v, ∃ m mb, v_Votie v = Some m ∧ vi_Block m = Some mb ∧ is_Some (b_Id mb))
    (im_Votes init) →
  (Z.of_nat (size (im_Votes init)) < QuorumN c ∧ isInitSupportedByVotes o c init d = Val false) ∨
  (QuorumN c ≤ Z.of_nat (size (im_Votes init)) ∧
   ∃ k v m mb mid, im_Votes init !! k = Some v ∧ v_Votie v = Some m ∧ vi_Block m = Some mb ∧
     b_Id mb = Some mid ∧
     (∀ k' v' m', im_Votes init !! k' = Some v' → v_Votie v' = Some m' → votie_le m' m) ∧
     isInitSupportedByVotes o c init d =
       Val (less_term_height (vi_Term m) (vi_Height m) topTerm topHeight
            || bool_decide (mid = topId) || bool_decide (mid = initId))).
Proof.
  intros Hr Htop Ht Hh Hid Hb Hbid Hq Hv. unfold isInitSupportedByVotes.
  destruct (_ <? _) eqn:E; to_prop; [by left|]. right. split; [done|].
  destruct (GetMaxVotie_max o (im_Votes init)) as [[He _]|(k & v & m & Hk & Hm & Hmax & Hle)].
  { intros k v Hk. destruct (Hv k v Hk) as (m & mb & Hm & _). by eexists. }
  { rewrite He map_size_empty in E. lia. }
  destruct (Hv k v Hk) as (m1 & mb & Hm1 & Hmb & mid & Hmid). simplify_eq.
  exists k, v, m, mb, mid. split_and!; try done.
  rewrite Hmax (rep_GetCommitTop d l Hr) Htop. cbn [mbind pan_bind deref].
  assert (∃ bb, bp_Block top = Val bb) as (bb & Hbb).
  { unfold bp_Block, bp_Term in *. destruct (bp_Init top); [by eexists|done]. }
  unfold ToVotie. rewrite Ht Hh Hbb. cbn [mbind pan_bind mret pan_ret].
  unfold Votie_HasLessTermHeightThan. cbn [vi_Term vi_Height].
  destruct (less_term_height _ _ _ _); [done|].
  rewrite Hmb Hid. cbn [mbind pan_bind deref]. rewrite Hmid EqualTo_Some. cbn [mbind pan_bind].
  destruct (bool_decide (mid = topId)); [done|].
  rewrite Hb. cbn [mbind pan_bind deref]. by rewrite Hbid EqualTo_Some.
Qed.
(** C18. What a proposal of a new term needs: the votes of a quorum, and of the
    greatest votie [m] among them, that it is before the top of the chain, or
    for the top, or for the very block that is proposed. *)
Theorem isInitSupportedByVotes_spec (o : order) (c : Cluster) (init : InitMsg) (d : db)
    (l : list BlockPack) (top : BlockPack) (topTerm topHeight : Z) (topId initId : Digest256)
    (b : Block) :
  chain_rep d l → last l = Some top → bp_Term top = Val topTerm → bp_Height top = Val topHeight →
  bp_BlockId top = Val (Some topId) → im_Block init = Some b → b_Id b = Some initId →
  1 ≤ QuorumN c →
  map_Forall (λ _ v, ∃ m mb, v_Votie v = Some m ∧ vi_Block m = Some mb ∧ is_Some (b_Id mb))
    (im_Votes init) →
  (Z.of_nat (size (im_Votes init)) < QuorumN c ∧ isInitSupportedByVotes o c init d = Val false) ∨
  (QuorumN c ≤ Z.of_nat (size (im_Votes init)) ∧
   ∃ k v m mb mid, im_Votes init !! k = Some v ∧ v_Votie v = Some m ∧ vi_Block m = Some mb ∧
     b_Id mb = Some mid ∧
     (∀ k' v' m', im_Votes init !! k' = Some v' → v_Votie v' = Some m' → votie_le m' m) ∧
     isInitSupportedByVotes o c init d =
       Val (less_term_height (vi_Term m) (vi_Height m) topTerm topHeight
            || bool_decide (mid = topId) || bool_decide (mid = initId))).
Proof. apply supported_by_max. Qed.

(** A strong accusation of a past term is ignored; any other moves the node
    to a term after one of the accusations, which depends on the iteration
    order when they differ, keeps the accusation as its proof, and drops the
    block in progress and the weak accusations. *)
Theorem handleStrongAccuse_spec (o : order) (msg : StrongAccuse) (w : World) (t t1 t2 : Z) (b : bytes) :
  GetNodeTerm (w_db w) = Val t → accuse_term o 20 msg = Val t1 → accuse_term o 21 msg = Val t2 →
  0 ≤ t2 < max_i64 → Marshal msg = Some b →
  (t1 < t ∧ handleStrongAccuse o msg w = Ret () w) ∨
  (t ≤ t1 ∧ ∃ w', handleStrongAccuse o msg w = Ret () w' ∧
     GetNodeTerm (w_db w') = Val (t2 + 1) ∧ GetLastTermAccuse (w_db w') = Val (Some msg) ∧
     GetWeakAccuses (w_db w') = Val EmptyWeakAccuses ∧ GetFresh (w_db w') = Val None ∧
     ∃ t5, accuse_term o 24 msg = Val t5 ∧
       w_tasks w' = w_tasks w ++ [NewTermEvent (t5 +i64 1); StrongAccuseProcessedEvent msg]).
Proof.
  intros Ht H1' H2' Hi Hb. unfold handleStrongAccuse.
  rewrite (bind_lift _ _ _ _ H1') (bind_ask _ _ _ _ Ht).
  destruct (t1 >=? t) eqn:E; to_prop; [right; split; [done|]|by left].
  destruct (accuse_term_total o 20 22 _ _ H1') as [t3 H3'].
  destruct (accuse_term_total o 20 23 _ _ H1') as [t4 H4'].
  destruct (accuse_term_total o 20 24 _ _ H1') as [t5 H5'].
  cbn [when]. rewrite (bind_lift _ _ _ _ H2').
  rewrite wrap64_small; [|unfold i64, max_i64 in *; lia].
  set (d1 := Put keyTerm (I64ToBytes (t2 + 1)) (w_db w)).
  set (d2 := Put keyLastTermAccuse b d1). set (d3 := Delete keyWeakAccuses d2).
  set (d4 := Delete keyFresh d3).
  assert (SetNodeTerm (t2 + 1) (w_db w) = Val d1) as Hs1.
  { unfold SetNodeTerm. rewrite (proj2 (Z.leb_le 0 (t2 + 1))); [done|lia]. }
  assert (SetLastTermAccuse (Some msg) d1 = Val d2) as Hs2.
  { cbn [SetLastTermAccuse]. unfold put_pb. by rewrite Hb. }
  rewrite (bind_tell _ _ _ _ Hs1). rewrite (bind_tell _ _ _ d2); [|exact Hs2].
  rewrite (bind_tell _ _ _ d3); [|done]. rewrite (bind_tell _ _ _ d4); [|done].
  rewrite (bind_lift _ _ _ _ H3') bind_modify (bind_lift _ _ _ _ H4') bind_modify
    (bind_lift _ _ _ _ H5'). eexists. split; [reflexivity|].
  cbn [w_tasks w_pool set_w_tasks set_w_db set_w_pool set_w_prepareCache set_w_commitCache].
  change (w_db _) with d4.
  assert (GetNodeTerm d1 = Val (t2 + 1)) as Hg1.
  { apply (GetNodeTerm_SetNodeTerm (t2 + 1) (w_db w) d1); [unfold i64, max_i64 in *; lia|done]. }
  split_and!.
  - rewrite -Hg1. apply GetNodeTerm_ext. unfold d4, d3, d2. clearbody d1.
    rewrite !Get_Delete_ne ?Get_Put_ne; first [done|solve [key_ne]].
  - rewrite -(GetLastTermAccuse_SetLastTermAccuse _ _ _ Hs2). apply get_pb_ext. unfold d4, d3.
    rewrite !Get_Delete_ne; first [done|solve [key_ne]].
  - unfold GetWeakAccuses, get_pb, d4, d3. rewrite Get_Delete_ne; [by rewrite Get_Delete|key_ne].
  - unfold GetFresh, get_pb, d4. by rewrite Get_Delete.
  - exists t5. split; [done|]. by rewrite -app_assoc.
Qed.
(** The answer to a synchronisation request from [base] holds the blocks
    above it, in order and at most [n], and says whether there are more; the
    block in progress and the last accusation are added when nothing is left
    out and the caller asks for them. *)
Theorem genSyncUpResponse_spec (d : db) (l : list BlockPack) (base n : Z) (needFresh : bool)
    (fresh : option BlockPack) (accuse : option StrongAccuse) :
  chain_rep d l → Z.of_nat (length l) + n + 1 < 2^63 → -1 ≤ base < Z.of_nat (length l) → 0 ≤ n →
  GetFresh d = Val fresh → GetLastTermAccuse d = Val accuse →
  let more := Z.of_nat (length l) - 1 - base >? n in
  let extra := negb more && needFresh in
  genSyncUpResponse base n needFresh d =
  Val (Some <$> take (Z.to_nat n) (drop (Z.to_nat (base + 1)) l),
       if extra then fresh else None, if extra then accuse else None, more).
Proof.
  intros Hr Hlen Hb Hn Hf Ha. unfold genSyncUpResponse. rewrite (rep_GetCommitHeight _ _ Hr).
  cbn [mbind pan_bind]. rewrite !wrap64_small; [|unfold i64; lia..].
  rewrite (sync_blocks_spec d l base n); [|done|lia..]. cbn [mbind pan_bind].
  replace (n - (base + 1 - base - 1)) with n by lia.
  destruct (negb _ && needFresh); [|done]. by rewrite Hf Ha.
Qed.

(** A weak accusation of the current term by a new accuser joins those that
    have not expired; the accusations become a strong one exactly when they
    reach the accusation quorum. Otherwise it changes nothing, and a later term
    asks for a synchronisation. *)
Theorem handleWeakAccuse_spec (now : Z) (msg : WeakAccuse) (w : World) (t : Z) (was : WeakAccuses) :
  (∀ x : WeakAccuses, is_Some (Marshal x)) →
  GetNodeTerm (w_db w) = Val t → GetWeakAccuses (w_db w) = Val was →
  let n := AccuseQuorumN (w_cluster w) in
  let kept := filter (λ e, unexpired now e.2 = true) (Accuses was) in
  let new := <[wa_NodeId msg := msg]> kept in
  ∃ w', handleWeakAccuse now msg w = Ret () w' ∧
    w_tasks w' = w_tasks w ++
      (if wa_Term msg >? t then [NeedSyncUpEvent (wa_NodeId msg)]
       else if (wa_Term msg =? t) && (Z.of_nat (size (Accuses was)) <? n)
               && bool_decide (Accuses was !! wa_NodeId msg = None)
               && (n <=? Z.of_nat (size new))
       then [NewStrongAccuseEvent {| sa_WeakAccuses := new |}] else []) ∧
    GetWeakAccuses (w_db w') = Val
      (if (wa_Term msg =? t) && (Z.of_nat (size (Accuses was)) <? n)
          && bool_decide (Accuses was !! wa_NodeId msg = None)
       then {| Accuses := new |} else was).
Proof.
  intros HM Ht Hw n kept new. unfold handleWeakAccuse. rewrite (bind_ask _ _ _ _ Ht).
  destruct (wa_Term msg >? t) eqn:E.
  { exists (set_w_tasks (w_tasks w ++ [NeedSyncUpEvent (wa_NodeId msg)]) w). split_and!; [done..|].
    rewrite (proj2 (Z.eqb_neq _ _)); [done|to_prop; lia]. }
  destruct (wa_Term msg =? t); cbn [negb]; [|exists w; by rewrite app_nil_r].
  rewrite (bind_ask _ _ _ _ Hw) bind_gets. unfold WeakAccuses_Size, WeakAccuses_Get.
  rewrite Z.geb_leb. fold n.
  destruct (Z.leb_spec n (Z.of_nat (size (Accuses was)))) as [Hle|Hlt].
  { exists w. rewrite (proj2 (Z.ltb_ge _ _) Hle) app_nil_r. done. }
  rewrite (proj2 (Z.ltb_lt _ _) Hlt). cbn [orb andb].
  destruct (Accuses was !! wa_NodeId msg) eqn:Hg.
  { exists w. rewrite bool_decide_true; [|by eexists]. by rewrite app_nil_r. }
  rewrite bool_decide_false; [|by intros [? ?]]. rewrite bool_decide_true; [|done]. cbn [andb].
  destruct (HM {| Accuses := new |}) as [b Hb].
  rewrite (bind_tell _ _ _ (Put keyWeakAccuses b (w_db w))).
  2:{ cbn [SetWeakAccuses]. unfold put_pb, WeakAccuses_Set. fold kept. cbn [Accuses]. fold new.
      by rewrite Hb. }
  unfold WeakAccuses_Set. cbn [Accuses]. fold kept new. rewrite Z.geb_leb. fold n.
  set (w1 := set_w_db _ w).
  assert (GetWeakAccuses (w_db w1) = Val {| Accuses := new |}) as Hg1.
  { unfold w1, GetWeakAccuses, get_pb. cbn. rewrite Get_Put. cbn.
    by rewrite (Unmarshal_Marshal _ _ Hb). }
  destruct (_ <=? _); cbn [when]; [by eexists|exists w1; by rewrite app_nil_r].
Qed.

(** A goroutine that waits for a join or a leave polls at most once: its
    timer fires once, after which it blocks for ever, so the events that cancel
    the request are never queued. *)
Theorem watch_turn_never_cancels (k : Watcher) (g : Waiting) (w : World) :
  watch_state k g →
  wp (watch_turn g)
    (λ r w', (r = None ∨ ∃ g', r = Some g' ∧ watch_state k g') ∧
       ∃ es, w_tasks w' = w_tasks w ++ es ∧ Forall not_cancel es)
    (λ w', w_tasks w' = w_tasks w) w ∧
  (wg_armed g = false → watch_turn g w = Ret (Some g) w).
Proof.
  intros [-> | ->]; (split; [|done]); unfold watch_turn; cbn [wg_i wg_armed wg_kind].
  - change (0 <? 3) with true. cbn iota.
    assert (wp (watch_done k) (λ _, eq w) (eq w) w) as Hd by (unfold watch_done, ask; wp_run; done).
    apply wp_bind. eapply wp_mono; [exact Hd| |by intros ? <-]. intros fin ? <-.
    destruct fin; [apply wp_ret; split; [by left|by exists []; rewrite app_nil_r]|].
    apply wp_bind, wp_reads; [|done]. intros t _. apply wp_bind, wp_modify, wp_ret. split.
    + right. eexists. split; [done|]. by right.
    + exists [NewWeakAccuseEvent t]. split; [done|]. by constructor.
  - change (1 <? 3) with true. cbn iota. apply wp_ret. split; [right; eexists; split; [done|by right]|].
    exists []. by rewrite app_nil_r.
Qed.
End NodeTheorems.
