(* ===== verification/Accuser.v ===== *)
(** * The accuser (src/accuser/accuser.go)

    One goroutine that receives triggers and broadcasts weak accusations, at
    most one per [AccuseInterval]. A [time.Time] is a number of nanoseconds;
    each evaluation of [time.Now()] is a reading of its own, since the code
    reads the clock again and again while it handles one trigger. *)
From S2P Require Import Prelude.
From S2P Require Import GoLib.
From S2P Require Import Crypto.
From S2P Require Import Messages.
From S2P Require Import Feed.
From S2P Require Import ProtoOps.

Definition Second : Z := 1000000000.
Definition Unix (t : Z) : Z := t / Second.
Definition heartbeatInterval : Z := 2 * Second.
Definition accuseCooldown : Z := 10 * Second.
Definition defaultHeatbeatIntervalTolerance : Z := 60 * Second.
Definition maxHeatbeatIntervalTolerance : Z := 3 * 60 * Second.

(** The fields of the accuser that change, and the package variable
    [AccuseInterval], zero until the configuration or the first accusation
    sets it. *)
Record Accuser : Type := MkAccuser {
  AccuseInterval : Z;
  lastAccuseTime : Z;
  lastAccuseTerm : Z;
  termToAccuse : Z;
  hasHeatbeatInCurrentTerm : bool;
  lastHeatbeatTime : Z;
  heartbeatIntervalTolerance : Z
}.
Definition set_interval (i : Z) (ac : Accuser) : Accuser :=
  MkAccuser i (lastAccuseTime ac) (lastAccuseTerm ac) (termToAccuse ac) (hasHeatbeatInCurrentTerm ac)
    (lastHeatbeatTime ac) (heartbeatIntervalTolerance ac).
Definition set_lastAccuse (time term : Z) (ac : Accuser) : Accuser :=
  MkAccuser (AccuseInterval ac) time term (termToAccuse ac) (hasHeatbeatInCurrentTerm ac)
    (lastHeatbeatTime ac) (heartbeatIntervalTolerance ac).
Definition set_termToAccuse (term : Z) (ac : Accuser) : Accuser :=
  MkAccuser (AccuseInterval ac) (lastAccuseTime ac) (lastAccuseTerm ac) term
    (hasHeatbeatInCurrentTerm ac) (lastHeatbeatTime ac) (heartbeatIntervalTolerance ac).
Definition set_heatbeat (time : Z) (ac : Accuser) : Accuser :=
  MkAccuser (AccuseInterval ac) (lastAccuseTime ac) (lastAccuseTerm ac) (termToAccuse ac) true
    time (heartbeatIntervalTolerance ac).
Definition set_tolerance (d : Z) (ac : Accuser) : Accuser :=
  MkAccuser (AccuseInterval ac) (lastAccuseTime ac) (lastAccuseTerm ac) (termToAccuse ac)
    (hasHeatbeatInCurrentTerm ac) (lastHeatbeatTime ac) d.

(** [now] and [now'] are the two readings of the constructor. *)
Definition NewAccuser (interval now now' : Z) : Accuser :=
  MkAccuser interval (now - 2 * accuseCooldown) (-1) 0 false now' defaultHeatbeatIntervalTolerance.

(** The readings of the clock, in the order in which one trigger takes them:
    when it is received, for [accuseTime], for the cooldown, for
    [lastAccuseTime] and in [MakeWeakAccuse]. *)
Record Readings : Type := {
  r_received : Z;
  r_accuse : Z;
  r_cooldown : Z;
  r_stored : Z;
  r_signed : Z
}.
Definition in_order (r : Readings) : Prop :=
  r_received r ≤ r_accuse r ∧ r_accuse r ≤ r_cooldown r ∧ r_cooldown r ≤ r_stored r ∧
  r_stored r ≤ r_signed r.

(** What the goroutine selects on. *)
Inductive Trigger : Type :=
  | TriggerByBlockStore (term : Z)
  | TriggerByTxStore (term : Z)
  | OnHeatbeatFail
  | OnHeatbeatSuc (msg : HeatbeatMsg)
  | OnTermChange (newTerm : Z)
  | HeartbeatTimer.

Section Accuser.
Context `{Signatures}.
Variables (localNode : Z) (signer : SecureSigner).

(** The state afterwards, and the accusation broadcast. *)
Definition accuse (r : Readings) (term : Z) (ac : Accuser) : pan (Accuser * option WeakAccuse) :=
  if term <? lastAccuseTerm ac then mret (ac, None)
  else if (term =? lastAccuseTerm ac) && (r_cooldown r <? lastAccuseTime ac + accuseCooldown)
  then mret (ac, None)
  else
    let ac := if AccuseInterval ac =? 0 then set_interval 180 ac else ac in
    if Unix (r_accuse r) -i64 Unix (lastAccuseTime ac) <? AccuseInterval ac then mret (ac, None)
    else
      let ac := set_lastAccuse (r_stored r) term ac in
      wa ← MakeWeakAccuse (Unix (r_signed r)) term localNode signer;
      mret (ac, wa).

(** The reference: the interval alone. *)
Definition accuse_plain (r : Readings) (term : Z) (ac : Accuser) : pan (Accuser * option WeakAccuse) :=
  if term <? lastAccuseTerm ac then mret (ac, None)
  else
    let ac := if AccuseInterval ac =? 0 then set_interval 180 ac else ac in
    if Unix (r_accuse r) -i64 Unix (lastAccuseTime ac) <? AccuseInterval ac then mret (ac, None)
    else
      wa ← MakeWeakAccuse (Unix (r_signed r)) term localNode signer;
      mret (set_lastAccuse (r_stored r) term ac, wa).

Definition ac_step (e : Readings * Trigger) (ac : Accuser) : pan (Accuser * option WeakAccuse) :=
  let '(r, t) := e in
  match t with
  | TriggerByBlockStore term | TriggerByTxStore term => accuse r term ac
  | OnHeatbeatFail => accuse r (termToAccuse ac) ac
  | OnHeatbeatSuc msg =>
      mret (set_heatbeat (r_received r) (set_termToAccuse (hb_Term msg) ac), None)
  | OnTermChange newTerm => mret (set_termToAccuse newTerm ac, None)
  | HeartbeatTimer =>
      if lastHeatbeatTime ac + heartbeatIntervalTolerance ac <? r_received r then
        let ac :=
          if negb (hasHeatbeatInCurrentTerm ac) && (lastAccuseTerm ac <? termToAccuse ac) then
            let d := heartbeatIntervalTolerance ac *i64 2 in
            set_tolerance (if maxHeatbeatIntervalTolerance <? d then maxHeatbeatIntervalTolerance else d) ac
          else ac in
        accuse r (termToAccuse ac) ac
      else mret (ac, None)
  end.

(** A run, with what each step broadcast. *)
Fixpoint ac_run (es : list (Readings * Trigger)) (ac : Accuser)
    : pan (Accuser * list (Readings * WeakAccuse)) :=
  match es with
  | [] => mret (ac, [])
  | e :: es' =>
      '(ac1, out) ← ac_step e ac;
      '(ac2, outs) ← ac_run es' ac1;
      mret (ac2, match out with Some wa => (e.1, wa) :: outs | None => outs end)
  end.
End Accuser.

(** ** Lemmas *)
Definition interval_of (ac : Accuser) : Z := if AccuseInterval ac =? 0 then 180 else AccuseInterval ac.
(** The clock is between 1970 and the end of [int64] nanoseconds. *)
Definition clock_ok (t : Z) : Prop := 0 ≤ t < 2^63.
Definition readings_ok (r : Readings) : Prop :=
  in_order r ∧ clock_ok (r_received r) ∧ clock_ok (r_signed r).
(** The state is one that the clock can have produced; the time of the last
    accusation may lie up to the cooldown before the clock started. *)
Definition accuser_ok (ac : Accuser) : Prop :=
  - 2^62 ≤ lastAccuseTime ac < 2^63 ∧
  defaultHeatbeatIntervalTolerance ≤ heartbeatIntervalTolerance ac ≤ maxHeatbeatIntervalTolerance.
(** Of two accusations of one run, the later is not for an earlier term, and
    [interval] seconds or more lie between them. *)
Definition spaced (interval : Z) (a b : Readings * WeakAccuse) : Prop :=
  wa_Term a.2 ≤ wa_Term b.2 ∧ Unix (r_stored a.1) + interval ≤ Unix (r_accuse b.1).

Lemma Unix_mono a b : a ≤ b → Unix a ≤ Unix b.
Proof. apply Z.div_le_mono. done. Qed.
Lemma Unix_range t : - 2^62 ≤ t < 2^63 → - 2^62 ≤ Unix t < 2^62.
Proof.
  unfold Unix, Second. intros Ht. split.
  - apply Z.div_le_lower_bound; lia.
  - apply Z.div_lt_upper_bound; lia.
Qed.
Lemma elapsed r ac :
  readings_ok r → accuser_ok ac →
  Unix (r_accuse r) -i64 Unix (lastAccuseTime ac) = Unix (r_accuse r) - Unix (lastAccuseTime ac).
Proof.
  intros [(O1 & O2 & O3 & O4) [C1 C2]] [Ht _]. unfold clock_ok in *.
  pose proof (Unix_range (r_accuse r)). pose proof (Unix_range (lastAccuseTime ac) Ht).
  apply wrap64_small. unfold i64. lia.
Qed.

Section AccuserLemmas.
Context `{Signatures}.
Variables (localNode : Z) (signer : SecureSigner).
Implicit Types (ac : Accuser) (r : Readings) (e : Readings * Trigger).

Lemma MakeWeakAccuse_Val now term nodeId s :
  ∃ wa, MakeWeakAccuse now term nodeId s = Val wa ∧
    ∀ m, wa = Some m → wa_Term m = term ∧ wa_NodeId m = nodeId ∧ wa_Time m = now.
Proof.
  unfold MakeWeakAccuse, signed. eexists. split; [reflexivity|].
  intros m Hm. destruct (Sign _ _); [|done]. by injection Hm as <-.
Qed.
(** An accusation is held back, or it is made and remembered. *)
Lemma accuse_cases r term ac :
  ∃ ac' out, accuse localNode signer r term ac = Val (ac', out) ∧
    interval_of ac' = interval_of ac ∧
    termToAccuse ac' = termToAccuse ac ∧ hasHeatbeatInCurrentTerm ac' = hasHeatbeatInCurrentTerm ac ∧
    lastHeatbeatTime ac' = lastHeatbeatTime ac ∧
    heartbeatIntervalTolerance ac' = heartbeatIntervalTolerance ac ∧
    ((out = None ∧ lastAccuseTime ac' = lastAccuseTime ac ∧ lastAccuseTerm ac' = lastAccuseTerm ac) ∨
     (lastAccuseTime ac' = r_stored r ∧ lastAccuseTerm ac' = term ∧ lastAccuseTerm ac ≤ term ∧
      interval_of ac ≤ Unix (r_accuse r) -i64 Unix (lastAccuseTime ac) ∧
      ∀ m, out = Some m → wa_Term m = term ∧ wa_NodeId m = localNode ∧ wa_Time m = Unix (r_signed r))).
Proof.
  unfold accuse. destruct (_ <? _) eqn:E; [eexists _, _; split; [done|]; split_and!; auto|].
  destruct (_ && _); [eexists _, _; split; [done|]; split_and!; auto|]. to_prop.
  set (ac1 := if AccuseInterval ac =? 0 then set_interval 180 ac else ac).
  assert (AccuseInterval ac1 = interval_of ac ∧ interval_of ac1 = interval_of ac ∧
    lastAccuseTime ac1 = lastAccuseTime ac ∧ lastAccuseTerm ac1 = lastAccuseTerm ac ∧
    termToAccuse ac1 = termToAccuse ac ∧ hasHeatbeatInCurrentTerm ac1 = hasHeatbeatInCurrentTerm ac ∧
    lastHeatbeatTime ac1 = lastHeatbeatTime ac ∧
    heartbeatIntervalTolerance ac1 = heartbeatIntervalTolerance ac)
    as (I1 & I2 & I3 & I4 & I5 & I6 & I7 & I8).
  { unfold ac1, interval_of. by destruct (AccuseInterval ac =? 0) eqn:E0; cbn; rewrite ?E0. }
  rewrite I1 I3. clearbody ac1. destruct (_ <? interval_of ac) eqn:E1.
  { eexists _, _. split; [done|]. split_and!; auto. }
  destruct (MakeWeakAccuse_Val (Unix (r_signed r)) term localNode signer) as (wa & -> & Hwa).
  to_prop. eexists _, _. split; [done|]. split_and!; auto. right. by split_and!.
Qed.

Lemma NewAccuser_ok i now now' : clock_ok now → accuser_ok (NewAccuser i now now').
Proof.
  unfold clock_ok. intros Hn. split; cbn; [|done]. unfold accuseCooldown, Second. lia.
Qed.
(** The doubled tolerance stays in its range. *)
Lemma doubled_ok ac :
  accuser_ok ac →
  accuser_ok (set_tolerance
    (if maxHeatbeatIntervalTolerance <? heartbeatIntervalTolerance ac *i64 2
     then maxHeatbeatIntervalTolerance else heartbeatIntervalTolerance ac *i64 2) ac).
Proof.
  intros [K1 K2]. split; [done|]. cbn.
  unfold defaultHeatbeatIntervalTolerance, maxHeatbeatIntervalTolerance, Second in *.
  rewrite wrap64_small; [|unfold i64; lia]. destruct (_ <? _) eqn:E; to_prop; lia.
Qed.

(** What every step does to the last accusation and the tolerance. *)
Lemma ac_step_spec e ac :
  readings_ok e.1 → accuser_ok ac →
  ∃ ac' out, ac_step localNode signer e ac = Val (ac', out) ∧ accuser_ok ac' ∧
    interval_of ac' = interval_of ac ∧
    ((out = None ∧ lastAccuseTime ac' = lastAccuseTime ac ∧ lastAccuseTerm ac' = lastAccuseTerm ac) ∨
     (lastAccuseTime ac' = r_stored e.1 ∧ lastAccuseTerm ac ≤ lastAccuseTerm ac' ∧
      Unix (lastAccuseTime ac) + interval_of ac ≤ Unix (r_accuse e.1) ∧
      ∀ m, out = Some m → wa_Term m = lastAccuseTerm ac')).
Proof.
  intros Hr Hok. destruct e as [r t]. cbn [fst] in *.
  assert (∀ term ac1, accuser_ok ac1 → interval_of ac1 = interval_of ac →
    lastAccuseTime ac1 = lastAccuseTime ac → lastAccuseTerm ac1 = lastAccuseTerm ac →
    ∃ ac' out, accuse localNode signer r term ac1 = Val (ac', out) ∧ accuser_ok ac' ∧
    interval_of ac' = interval_of ac ∧
    ((out = None ∧ lastAccuseTime ac' = lastAccuseTime ac ∧ lastAccuseTerm ac' = lastAccuseTerm ac) ∨
     (lastAccuseTime ac' = r_stored r ∧ lastAccuseTerm ac ≤ lastAccuseTerm ac' ∧
      Unix (lastAccuseTime ac) + interval_of ac ≤ Unix (r_accuse r) ∧
      ∀ m, out = Some m → wa_Term m = lastAccuseTerm ac'))) as Hacc.
  { intros term ac1 Hok1 Hi Ht Hm.
    destruct (accuse_cases r term ac1) as (ac' & out & Hrun & I1 & I2 & I3 & I4 & I5 & Hcase).
    exists ac', out. split; [done|]. rewrite elapsed in Hcase; [|done..]. rewrite Hi Ht Hm in Hcase.
    destruct Hr as [(O1 & O2 & O3 & O4) [C1 C2]]. destruct Hok1 as [K1 K2]. unfold clock_ok in *.
    destruct Hcase as [(-> & E1 & E2)|(E1 & E2 & E3 & E4 & Hm')].
    - split_and!; [split; [lia|by rewrite I5]|lia|by left].
    - split_and!; [split; [lia|by rewrite I5]|lia|right]. split_and!; [done|lia|lia|].
      intros m Hout. destruct (Hm' m Hout) as (? & _). lia. }
  destruct t; cbn [ac_step].
  - by apply Hacc.
  - by apply Hacc.
  - by apply Hacc.
  - eexists _, _. split; [done|]. split; [by destruct Hok|]. split; [done|]. by left.
  - eexists _, _. split; [done|]. split; [by destruct Hok|]. split; [done|]. by left.
  - destruct (_ <? _); [|eexists _, _; split; [done|]; split_and!; auto].
    destruct (_ && _); [|by apply Hacc]. apply Hacc; try done. by apply doubled_ok.
Qed.

(** The cooldown decides nothing when the interval is longer. *)
Lemma cooldown_elapsed r ac :
  readings_ok r → accuser_ok ac → 10 < interval_of ac →
  r_cooldown r < lastAccuseTime ac + accuseCooldown →
  Unix (r_accuse r) - Unix (lastAccuseTime ac) < interval_of ac.
Proof.
  intros Hr Hok Hi Hc. destruct Hr as [(O1 & O2 & O3 & O4) _].
  pose proof (Unix_mono (r_accuse r) (lastAccuseTime ac + 10 * Second)) as Hm.
  unfold accuseCooldown in Hc. unfold Unix in *. rewrite Z.div_add in Hm; [|done]. lia.
Qed.
Lemma accuse_due r term ac :
  readings_ok r → accuser_ok ac → 10 < interval_of ac →
  let due := (lastAccuseTerm ac <=? term) &&
    (interval_of ac <=? Unix (r_accuse r) - Unix (lastAccuseTime ac)) in
  ∃ ac' out, accuse localNode signer r term ac = Val (ac', out) ∧
    (due = false → out = None ∧ lastAccuseTime ac' = lastAccuseTime ac ∧
                   lastAccuseTerm ac' = lastAccuseTerm ac) ∧
    (due = true → lastAccuseTime ac' = r_stored r ∧ lastAccuseTerm ac' = term ∧
       MakeWeakAccuse (Unix (r_signed r)) term localNode signer = Val out).
Proof.
  intros Hr Hok Hi. cbn zeta. unfold accuse.
  destruct (term <? lastAccuseTerm ac) eqn:E; to_prop.
  { eexists _, _. split; [done|]. rewrite (proj2 (Z.leb_gt _ _) E). by split. }
  rewrite (proj2 (Z.leb_le _ _) E). cbn [andb].
  destruct ((_ =? _) && _) eqn:Ec; to_prop.
  { eexists _, _. split; [done|]. pose proof (cooldown_elapsed r ac Hr Hok Hi).
    rewrite (proj2 (Z.leb_gt _ _)); [by split|lia]. }
  pose proof (elapsed r ac Hr Hok) as He.
  assert (∀ i, (Unix (r_accuse r) -i64 Unix (lastAccuseTime ac) <? i) =
    negb (i <=? Unix (r_accuse r) - Unix (lastAccuseTime ac))) as Hd.
  { intros i. rewrite He. apply Z.ltb_antisym. }
  destruct (MakeWeakAccuse_Val (Unix (r_signed r)) term localNode signer) as (wa & Hwa & _).
  set (ac1 := if AccuseInterval ac =? 0 then set_interval 180 ac else ac).
  assert (AccuseInterval ac1 = interval_of ac ∧ lastAccuseTime ac1 = lastAccuseTime ac ∧
    lastAccuseTerm ac1 = lastAccuseTerm ac) as (I1 & I2 & I3).
  { unfold ac1, interval_of. by destruct (AccuseInterval ac =? 0) eqn:E0. }
  rewrite I1 I2 Hd. clearbody ac1. destruct (_ <=? _); cbn [negb]; rewrite ?Hwa;
    eexists _, _; (split; [reflexivity|]); rewrite ?I2 ?I3; by split.
Qed.

(** ** Theorems *)

(** C19. A run never panics, and the accusations it broadcasts are for terms that
    never go back and at least the interval apart. *)
Theorem accusations_spaced (es : list (Readings * Trigger)) (ac : Accuser) :
  Forall (λ e, readings_ok e.1) es → accuser_ok ac → 0 ≤ interval_of ac →
  ∃ ac' outs, ac_run localNode signer es ac = Val (ac', outs) ∧
    StronglySorted (spaced (interval_of ac)) outs ∧
    Forall (λ b, lastAccuseTerm ac ≤ wa_Term b.2 ∧
                 Unix (lastAccuseTime ac) + interval_of ac ≤ Unix (r_accuse b.1)) outs.
Proof.
  revert ac. induction es as [|e es IH]; intros ac Hr Hok Hi; cbn [ac_run].
  { eexists _, _. split; [done|]. by split; constructor. }
  apply Forall_cons in Hr as [He Hr].
  destruct (ac_step_spec e ac He Hok) as (ac1 & out & -> & Hok1 & Hi1 & Hcase).
  destruct (IH ac1 Hr Hok1) as (ac2 & outs & Hrun & Hs & Hf); [lia|]. rewrite Hi1 in Hs, Hf.
  cbn [mbind pan_bind]. rewrite Hrun. cbn [mbind pan_bind]. eexists _, _. split; [done|].
  destruct He as [(O1 & O2 & O3 & O4) _].
  pose proof (Unix_mono (r_accuse e.1) (r_stored e.1)).
  destruct Hcase as [(-> & E1 & E2)|(E1 & E2 & E3 & Hout)].
  { rewrite E1 E2 in Hf. by split. }
  rewrite E1 in Hf.
  assert (Forall (λ b, lastAccuseTerm ac ≤ wa_Term b.2 ∧
    Unix (lastAccuseTime ac) + interval_of ac ≤ Unix (r_accuse b.1)) outs) as Hf'.
  { eapply Forall_impl; [exact Hf|]. cbn. intros b. lia. }
  destruct out as [m|]; [|done]. specialize (Hout m eq_refl). split.
  - constructor; [done|]. eapply Forall_impl; [exact Hf|]. unfold spaced. cbn. intros b. lia.
  - constructor; [|done]. cbn. lia.
Qed.

(** The cooldown never decides: with an interval of more than ten seconds the
    accusation and the state afterwards are what they are without it. *)
Theorem accuse_without_cooldown (r : Readings) (term : Z) (ac : Accuser) :
  readings_ok r → accuser_ok ac → 10 < AccuseInterval ac →
  accuse localNode signer r term ac = accuse_plain localNode signer r term ac.
Proof.
  intros Hr Hok Hi. unfold accuse, accuse_plain. destruct (term <? lastAccuseTerm ac); [done|].
  destruct (_ && _) eqn:E; [|done]. to_prop.
  assert (interval_of ac = AccuseInterval ac) as Hint.
  { unfold interval_of. destruct (AccuseInterval ac =? 0) eqn:E0; to_prop; lia. }
  destruct (AccuseInterval ac =? 0) eqn:E0; to_prop; [lia|].
  rewrite elapsed; [|done..]. rewrite (proj2 (Z.ltb_lt _ _)); [done|].
  rewrite -Hint. apply cooldown_elapsed; [done..|by rewrite Hint|done].
Qed.

(** Nothing ever clears [hasHeatbeatInCurrentTerm]: after the first heartbeat
    the tolerance stays what it is, whatever terms come, and the doubling for
    terms without a heartbeat never happens again. *)
Theorem tolerance_frozen_by_first_heartbeat (es : list (Readings * Trigger)) (ac ac' : Accuser)
    (outs : list (Readings * WeakAccuse)) :
  hasHeatbeatInCurrentTerm ac = true → ac_run localNode signer es ac = Val (ac', outs) →
  hasHeatbeatInCurrentTerm ac' = true ∧
  heartbeatIntervalTolerance ac' = heartbeatIntervalTolerance ac.
Proof.
  revert ac outs. induction es as [|e es IH]; intros ac outs Hh Hrun; cbn [ac_run] in Hrun.
  { by injection Hrun as <- <-. }
  apply pan_bind_Val in Hrun as ([ac1 out] & Hstep & ([ac2 outs2] & Hrun & [= <- _])%pan_bind_Val).
  assert (hasHeatbeatInCurrentTerm ac1 = true ∧
    heartbeatIntervalTolerance ac1 = heartbeatIntervalTolerance ac) as [H1 H2].
  { assert (∀ r term, accuse localNode signer r term ac = Val (ac1, out) →
      hasHeatbeatInCurrentTerm ac1 = true ∧
      heartbeatIntervalTolerance ac1 = heartbeatIntervalTolerance ac) as Hacc.
    { intros r term Ha. destruct (accuse_cases r term ac) as (ac1' & out' & Hrun' & _ & _ & I1 & _ & I2 & _).
      rewrite Ha in Hrun'. injection Hrun' as <- <-. by rewrite I1 I2. }
    destruct e as [r []]; cbn [ac_step] in Hstep; try (by eapply Hacc); try (by injection Hstep as <- <-).
    rewrite Hh in Hstep. cbn [negb andb] in Hstep.
    destruct (_ <? _); [by eapply Hacc|by injection Hstep as <- <-]. }
  rewrite -H2. by eapply IH.
Qed.

(** The timer makes an accusation of the current term exactly when no heartbeat
    came for longer than the tolerance, the term was not passed by an accusation
    already, and the last accusation is the interval or more ago. *)
Theorem heartbeat_timer_spec (r : Readings) (ac : Accuser) :
  readings_ok r → accuser_ok ac → 10 < interval_of ac → (∀ x, is_Some (Sign signer x)) →
  let due := (lastHeatbeatTime ac + heartbeatIntervalTolerance ac <? r_received r) &&
    (lastAccuseTerm ac <=? termToAccuse ac) &&
    (interval_of ac <=? Unix (r_accuse r) - Unix (lastAccuseTime ac)) in
  ∃ ac' out, ac_step localNode signer (r, HeartbeatTimer) ac = Val (ac', out) ∧
    (due = false → out = None ∧ lastAccuseTime ac' = lastAccuseTime ac) ∧
    (due = true → ∃ wa, out = Some wa ∧ wa_Term wa = termToAccuse ac ∧ wa_NodeId wa = localNode ∧
       lastAccuseTime ac' = r_stored r ∧ lastAccuseTerm ac' = termToAccuse ac).
Proof.
  intros Hr Hok Hi Hs. cbn zeta. cbn [ac_step].
  destruct (lastHeatbeatTime ac + heartbeatIntervalTolerance ac <? r_received r) eqn:Et.
  2:{ eexists _, _. split; [done|]. by split. }
  set (ac1 := if negb _ && _ then _ else _). cbn [andb].
  assert (termToAccuse ac1 = termToAccuse ac ∧ lastAccuseTerm ac1 = lastAccuseTerm ac ∧
    lastAccuseTime ac1 = lastAccuseTime ac ∧ interval_of ac1 = interval_of ac) as (E1 & E2 & E3 & E4).
  { unfold ac1. by destruct (_ && _). }
  assert (accuser_ok ac1) as Hok1.
  { unfold ac1. destruct (_ && _); [by apply doubled_ok|done]. }
  rewrite -E4 in Hi. destruct (accuse_due r (termToAccuse ac1) ac1 Hr Hok1 Hi) as (ac' & out & Hrun & Hno & Hyes).
  rewrite E1 E2 E3 E4 in Hno, Hyes. exists ac', out. split; [exact Hrun|]. split.
  - intros Hd. by destruct (Hno Hd) as (-> & -> & _).
  - intros Hd. destruct (Hyes Hd) as (-> & -> & Hm).
    unfold MakeWeakAccuse, signed in Hm. cbn in Hm. injection Hm as Hm.
    match type of Hm with option_map _ (Sign signer ?x) = _ => destruct (Hs x) as [sig Hsig] end.
    rewrite Hsig in Hm. cbn in Hm. subst out. by eexists.
Qed.
End AccuserLemmas.
