(* ===== verification/Leader.v ===== *)
(** * The leader (src/node/leader.go)

    One goroutine collects the votes of the current term and, while its node is
    the leader of the term and a quorum voted for it, proposes blocks. [Leader]
    is its state; each case of the [select] in [Run] is an operation. The block
    store that it asks is the argument [d], the node list [c]. What the goroutine
    emits or broadcasts is appended to [ld_out].

    The transactions that it makes for the connected chains are in [LeaderTx.v]; the
    goroutines [createTransaction] and [watchFormerMultisig] are steps of a node
    ([Node.v]). *)
From S2P Require Import Prelude.
From S2P Require Import GoLib.
From S2P Require Import Crypto.
From S2P Require Import Messages.
From S2P Require Import Feed.
From S2P Require Import ProtoOps.
From S2P Require Import Cluster.
From S2P Require Import Store.
From S2P Require Import DbOps.

Definition votePoolTermRange : Z := 500.

Inductive LeaderOut : Type :=
  | BecomeLeaderEvent (term : Z)
  | RetireEvent (newTerm : Z)
  | NewInitEvent (init : InitMsg)
  | BroadcastHeatbeat (msg : HeatbeatMsg).

Record Leader : Type := MkLeader {
  ld_term : Z;
  ld_votes : gmap Z Vote;
  initing : option InitMsg;
  votePool : gmap Z (gmap Z Vote);
  newNodeHost : string;
  leavingNodeId : Z;
  ld_out : list LeaderOut
}.
Definition set_term (t : Z) (ld : Leader) : Leader :=
  MkLeader t (ld_votes ld) (initing ld) (votePool ld) (newNodeHost ld) (leavingNodeId ld) (ld_out ld).
Definition set_votes (v : gmap Z Vote) (ld : Leader) : Leader :=
  MkLeader (ld_term ld) v (initing ld) (votePool ld) (newNodeHost ld) (leavingNodeId ld) (ld_out ld).
Definition set_initing (i : option InitMsg) (ld : Leader) : Leader :=
  MkLeader (ld_term ld) (ld_votes ld) i (votePool ld) (newNodeHost ld) (leavingNodeId ld) (ld_out ld).
Definition set_votePool (p : gmap Z (gmap Z Vote)) (ld : Leader) : Leader :=
  MkLeader (ld_term ld) (ld_votes ld) (initing ld) p (newNodeHost ld) (leavingNodeId ld) (ld_out ld).
Definition set_newNodeHost (h : string) (ld : Leader) : Leader :=
  MkLeader (ld_term ld) (ld_votes ld) (initing ld) (votePool ld) h (leavingNodeId ld) (ld_out ld).
Definition set_leavingNodeId (i : Z) (ld : Leader) : Leader :=
  MkLeader (ld_term ld) (ld_votes ld) (initing ld) (votePool ld) (newNodeHost ld) i (ld_out ld).
Definition set_ld_out (e : list LeaderOut) (ld : Leader) : Leader :=
  MkLeader (ld_term ld) (ld_votes ld) (initing ld) (votePool ld) (newNodeHost ld) (leavingNodeId ld) e.

Section Leader.
Context `{KV} `{Wire} `{Signatures}.
(** The node's id and key, the node list, the store, the iteration order. *)
Variables (self : Z) (signer : SecureSigner) (c : Cluster) (d : db) (o : order).

Definition NewLeader : pan Leader :=
  t ← GetNodeTerm d; mret (MkLeader t ∅ None ∅ "" (-1) []).

Definition emit (e : LeaderOut) : go Leader unit := modify (λ ld, set_ld_out (ld_out ld ++ [e]) ld).

Definition isInCharge (ld : Leader) : pan bool :=
  l ← LeaderNodeOfTerm c (ld_term ld);
  mret ((l =? self) && (Z.of_nat (size (ld_votes ld)) >=? QuorumN c)).
Definition readyToInitNewBlock (ld : Leader) : pan bool :=
  r ← isInCharge ld; mret (r && bool_decide (initing ld = None)).

Definition doHeatbeat : go Leader unit :=
  ld ← gets id;
  emit (BroadcastHeatbeat {| hb_Term := ld_term ld; hb_Votes := (range o 31 (ld_votes ld)).*2 |}).

(** ** Votes *)

(** Whether a leader with [commitTop] can use the vote: its votie is before
    the top, or the top, or a block on the top. *)
Definition usable (commitTop : option BlockPack) (vote : Vote) : pan bool :=
  votie ← deref (v_Votie vote);
  commitTop ← deref commitTop;
  topVotie ← ToVotie commitTop;
  if Votie_HasLessTermHeightThan votie topVotie then mret true
  else
    b ← deref (vi_Block votie);
    topId ← bp_BlockId commitTop;
    e ← EqualTo (b_Id b) topId;
    if e : bool then mret true else EqualTo (b_PrevBlockId b) topId.

Definition scan_vote (commitTop : option BlockPack) (e : Z * Vote) : go Leader unit :=
  let '(nodeId, vote) := e in
  ld ← gets id;
  if bool_decide (is_Some (ld_votes ld !! nodeId)) then mret tt
  else
    u ← lift (usable commitTop vote);
    when u (modify (λ ld, set_votes (<[nodeId := vote]> (ld_votes ld)) ld)).
Definition pool_of (ld : Leader) : gmap Z Vote := default ∅ (votePool ld !! ld_term ld).

Definition scanVotePool : go Leader unit :=
  _ ← modify (λ ld, set_votePool (filter (λ e, negb (e.1 <? ld_term ld) = true) (votePool ld)) ld);
  inCharge ← reads isInCharge;
  if inCharge : bool then mret tt
  else
    commitTop ← lift (GetCommitTop d);
    ld ← gets id;
    _ ← for_each (range o 30 (pool_of ld)) (scan_vote commitTop);
    inCharge ← reads isInCharge;
    when inCharge
      (ld ← gets id;
       _ ← emit (BecomeLeaderEvent (ld_term ld));
       _ ← lift (assert_true (bool_decide (initing ld = None)));
       doHeatbeat).

Definition pool_vote (vote : Vote) (ld : Leader) : Leader :=
  set_votePool (<[v_Term vote := <[v_NodeId vote := vote]> (default ∅ (votePool ld !! v_Term vote))]>
                  (votePool ld)) ld.
Definition addVote (vote : Vote) : go Leader unit :=
  ld ← gets id;
  when ((ld_term ld <=? v_Term vote) && (v_Term vote <=? ld_term ld +i64 votePoolTermRange))
    (_ ← modify (pool_vote vote); scanVotePool).

(** The vote of a node that just joined, moved to the current term: the code
    writes the term into the message, whose signature is for another. *)
Definition justAddVote (vote : Vote) : go Leader unit :=
  ld ← gets id;
  let vote := set_v_Term vote (ld_term ld) in
  _ ← modify (pool_vote vote);
  if bool_decide (is_Some (ld_votes ld !! v_NodeId vote)) then mret tt
  else
    commitTop ← lift (GetCommitTop d);
    u ← lift (usable commitTop vote);
    when u (modify (λ ld, set_votes (<[v_NodeId vote := vote]> (ld_votes ld)) ld)).

Definition updateTerm (newTerm : Z) : go Leader unit :=
  ld ← gets id;
  if newTerm <=? ld_term ld then mret tt
  else
    wasInCharge ← reads isInCharge;
    _ ← modify (λ ld, set_initing None (set_votes ∅ (set_term newTerm ld)));
    _ ← scanVotePool;
    if wasInCharge : bool then
      inCharge ← reads isInCharge;
      when (negb inCharge) (emit (RetireEvent newTerm))
    else mret tt.

(** ** Proposals; [now] is [util.NowMs()] *)

(** The block to propose: the block of the greatest votie if it is ahead of the
    top, otherwise a new one. *)
Definition block_to_init (now : Z) (txs : list Transaction) (top : BlockPack) (maxVotie : Votie)
    (ld : Leader) : pan (option Block) :=
  topVotie ← ToVotie top;
  reinit ← (if Votie_HasLessTermHeightThan topVotie maxVotie then
              b ← deref (vi_Block maxVotie);
              topId ← bp_BlockId top; e ← EqualTo (b_Id b) topId; mret (negb e)
            else mret false);
  if reinit : bool then
    b ← deref (vi_Block maxVotie);
    topId ← bp_BlockId top;
    e ← EqualTo (b_PrevBlockId b) topId;
    mret (if e : bool then Some b else None)
  else if 0 <? len (newNodeHost ld) then
    joinReq ← GetJoinNodeInfo d;
    match joinReq with
    | None => mret None
    | Some r =>
        topId ← bp_BlockId top;
        b ← CreateJoinReconfigBlock now topId JOIN (newNodeHost ld)
              (wrap32 (Z.of_nat (length (NodeList c)))) (jr_Pubkey r) (jr_Vote r);
        mret (Some b)
    end
  else if 0 <=? leavingNodeId ld then
    topId ← bp_BlockId top;
    b ← CreateLeaveReconfigBlock now topId LEAVE (leavingNodeId ld); mret (Some b)
  else
    topId ← bp_BlockId top;
    b ← CreateTxsBlock now topId txs; mret (Some b).

(** The votes go along with the first block of a term, and with a block on the
    block of the greatest votie. *)
Definition needs_votes (top : BlockPack) (maxVotie : Votie) (b : Block) (ld : Leader) : pan bool :=
  topTerm ← bp_Term top;
  if topTerm <? ld_term ld then mret true
  else mb ← deref (vi_Block maxVotie); EqualTo (b_PrevBlockId b) (b_Id mb).

Definition tryCreateBlockImpl (now : Z) (txs : list Transaction) : go Leader unit :=
  ld ← gets id;
  t ← lift (GetNodeTerm d);
  if negb (t =? ld_term ld) then mret tt
  else
    fresh ← lift (GetFresh d);
    if bool_decide (is_Some fresh) then mret tt
    else
      top ← lift (GetCommitTop d);
      maxVotie ← lift (GetMaxVotie o (ld_votes ld));
      top ← lift (deref top);
      maxVotie ← lift (deref maxVotie);
      blockToInit ← lift (block_to_init now txs top maxVotie ld);
      match blockToInit with
      | None => mret tt
      | Some b =>
          h ← lift (bp_Height top);
          withVotes ← lift (needs_votes top maxVotie b ld);
          let init := {| im_Term := ld_term ld; im_Height := h +i64 1; im_Block := Some b;
                         im_NodeId := self; im_Sig := "";
                         im_Votes := if withVotes : bool then ld_votes ld else ∅ |} in
          i ← lift (InitMsg_Id init);
          match Sign signer (Data i) with
          | None => mret tt
          | Some sig =>
              let init := set_im_Sig init sig in
              _ ← modify (set_initing (Some init));
              emit (NewInitEvent init)
          end
      end.
Definition tryCreateBlock (now : Z) (txs : list Transaction) : go Leader unit :=
  ready ← reads readyToInitNewBlock;
  _ ← lift (assert_true ready);
  tryCreateBlockImpl now txs.

(** ** The cases of [Run]; [txs] is what [GetMemTxs] returns *)
Definition on_tick (now : Z) (txs : list Transaction) : go Leader unit :=
  ready ← reads readyToInitNewBlock;
  when ready
    (_ ← when (0 <? Z.of_nat (length txs)) (tryCreateBlock now txs);
     doHeatbeat).
Definition on_committed (committed : BlockPack) : go Leader unit :=
  inCharge ← reads isInCharge;
  if inCharge : bool then
    ld ← gets id;
    match initing ld with
    | None => mret tt
    | Some init =>
        i ← lift (bp_BlockId committed);
        b ← lift (deref (im_Block init));
        e ← lift (EqualTo i (b_Id b));
        when e (modify (set_initing None))
    end
  else scanVotePool.
End Leader.

(** ** The state of a leader *)

(** Every vote is filed under its term and node; the pool has no past terms and
    none too far ahead; the counted votes are for the current term. *)
Record leader_wf (ld : Leader) : Prop := {
  lw_term : i64 (ld_term ld);
  lw_votes : map_Forall (λ k v, v_Term v = ld_term ld ∧ v_NodeId v = k) (ld_votes ld);
  lw_pool : map_Forall (λ t, map_Forall (λ k v, v_Term v = t ∧ v_NodeId v = k)) (votePool ld);
  lw_range : map_Forall (λ t _, ld_term ld ≤ t ≤ ld_term ld + votePoolTermRange) (votePool ld)
}.
(** The operations of the goroutine, with what each reads from outside. *)
Section Steps.
Context `{KV} `{Wire} `{Signatures}.
Variables (self : Z) (signer : SecureSigner).
Inductive leader_step : Leader → Leader → Prop :=
  | step_tick (c : Cluster) (d : db) (o : order) now txs ld ld' :
      on_tick self signer c d o now txs ld = Ret () ld' → leader_step ld ld'
  | step_term (c : Cluster) (d : db) (o : order) t ld ld' :
      i64 t → updateTerm self c d o t ld = Ret () ld' → leader_step ld ld'
  | step_committed (c : Cluster) (d : db) (o : order) bp ld ld' :
      on_committed self c d o bp ld = Ret () ld' → leader_step ld ld'
  | step_vote (c : Cluster) (d : db) (o : order) v ld ld' :
      addVote self c d o v ld = Ret () ld' → leader_step ld ld'
  | step_just (d : db) v ld ld' :
      justAddVote d v ld = Ret () ld' → leader_step ld ld'
  | step_host h ld : leader_step ld (set_newNodeHost h ld)
  | step_leave n ld : leader_step ld (set_leavingNodeId n ld).
End Steps.
