(* ===== verification/LeaderProps.v ===== *)
(** * Properties of the leader

    The invariant of the votes, what a scan of the vote pool counts, what a
    proposal is, and that the other nodes find a proposal of a new term supported
    by its votes. *)
From S2P Require Import Prelude.
From S2P Require Import GoLib.
From S2P Require Import Crypto.
From S2P Require Import Messages.
From S2P Require Import Feed.
From S2P Require Import ProtoOps.
From S2P Require Import Cluster.
From S2P Require Import Store.
From S2P Require Import DbOps.
From S2P Require Import TxPool.
From S2P Require Import Consensus.
From S2P Require Import Handlers.
From S2P Require Import ConsensusProps.
From S2P Require Import NodeProps.
From S2P Require Import Leader.

(** ** The invariant *)
Section LeaderInvariant.
Context `{KV} `{Wire} `{Signatures}.
Variables (self : Z) (signer : SecureSigner).
Implicit Types (ld : Leader) (c : Cluster) (d : db) (o : order).

(** The invariant without the lower bound on the terms of the pool, which
    holds again after a scan. *)
Definition leader_pre ld : Prop :=
  i64 (ld_term ld) ∧
  map_Forall (λ k v, v_Term v = ld_term ld ∧ v_NodeId v = k) (ld_votes ld) ∧
  map_Forall (λ t, map_Forall (λ k v, v_Term v = t ∧ v_NodeId v = k)) (votePool ld) ∧
  map_Forall (λ t _, t ≤ ld_term ld + votePoolTermRange) (votePool ld).

Lemma wf_pre ld : leader_wf ld → leader_pre ld.
Proof. intros [H1' H2' H3' H4']. split_and!; try done. intros t m Hm. by apply H4' in Hm as []. Qed.
Lemma pre_filter ld :
  leader_pre ld →
  leader_wf (set_votePool (filter (λ e, negb (e.1 <? ld_term ld) = true) (votePool ld)) ld).
Proof.
  intros (H1' & H2' & H3' & H4'). split; cbn; try done.
  - intros t m [Hm _]%map_lookup_filter_Some. by apply H3'.
  - intros t m [Hm Ht]%map_lookup_filter_Some. cbn in Ht. to_prop. apply H4' in Hm. cbn in Hm. lia.
Qed.
Lemma wf_out e ld : leader_wf ld → leader_wf (set_ld_out e ld).
Proof. by intros []. Qed.
Lemma wf_initing i ld : leader_wf ld → leader_wf (set_initing i ld).
Proof. by intros []. Qed.
Lemma wf_add_vote k v ld :
  leader_wf ld → v_Term v = ld_term ld → v_NodeId v = k →
  leader_wf (set_votes (<[k := v]> (ld_votes ld)) ld).
Proof. intros [] Ht Hn. split; cbn; try done. by apply map_Forall_insert_2. Qed.
Lemma pool_vote_wf v ld :
  leader_wf ld → ld_term ld ≤ v_Term v ≤ ld_term ld + votePoolTermRange → leader_wf (pool_vote v ld).
Proof.
  intros [H1' H2' H3' H4'] Hv. split; cbn; try done; apply map_Forall_insert_2; try done.
  apply map_Forall_insert_2; [done|]. destruct (votePool ld !! v_Term v) as [m|] eqn:Hm; cbn.
  - by apply (H3' _ _ Hm).
  - apply map_Forall_empty.
Qed.
Lemma pool_of_vote ld k v :
  leader_wf ld → pool_of ld !! k = Some v → v_Term v = ld_term ld ∧ v_NodeId v = k.
Proof.
  intros Hwf Hk. unfold pool_of in Hk. destruct (votePool ld !! ld_term ld) as [m|] eqn:Hm; [|done].
  by apply (lw_pool ld Hwf _ _ Hm).
Qed.

Lemma wp_emit e ld : leader_wf ld → wp (emit e) (λ _, leader_wf) (λ _, True) ld.
Proof. intros Hwf. apply wp_modify. by apply wf_out. Qed.
Lemma wp_doHeatbeat o ld : leader_wf ld → wp (doHeatbeat o) (λ _, leader_wf) (λ _, True) ld.
Proof. intros Hwf. apply wp_bind, wp_gets. by apply wp_emit. Qed.
Lemma wp_scanVotePool c d o ld :
  leader_pre ld → wp (scanVotePool self c d o) (λ _ ld', leader_wf ld' ∧ ld_term ld' = ld_term ld) (λ _, True) ld.
Proof.
  intros Hpre. unfold scanVotePool. apply wp_bind, wp_modify.
  set (ld0 := set_votePool _ ld). pose proof (pre_filter ld Hpre : leader_wf ld0) as Hwf.
  apply wp_bind, wp_reads; [intros ic _|done]. destruct ic; [by apply wp_ret|].
  apply wp_bind, wp_lift; [intros top _|done]. apply wp_bind, wp_gets. apply wp_bind.
  eapply wp_mono; [apply wp_for_each with
    (I := λ ld', leader_wf ld' ∧ ld_term ld' = ld_term ld) (E := λ _, True)| |done].
  - done.
  - intros [k v] ld1 Hin%elem_of_range [Hwf1 Ht1]. unfold scan_vote.
    apply wp_bind, wp_gets. destruct (bool_decide _); [by apply wp_ret|].
    apply wp_bind, wp_lift; [intros u _|done]. apply wp_when; [intros _|done]. apply wp_modify.
    destruct (pool_of_vote ld0 k v Hwf Hin) as [Hvt Hvn].
    split; [|done]. apply wf_add_vote; [done|rewrite Hvt Ht1; done|done].
  - intros [] ld1 [Hwf1 Ht1]. apply wp_bind, wp_reads; [intros ic _|done].
    apply wp_when; [intros _|done]. apply wp_bind, wp_gets. apply wp_bind, wp_modify.
    apply wp_bind, wp_lift; [intros _ _|done]. apply wp_bind, wp_gets, wp_modify.
    split; [by do 2 apply wf_out|done].
Qed.
Lemma wp_tryCreateBlock c d o now txs ld :
  leader_wf ld → wp (tryCreateBlock self signer c d o now txs) (λ _, leader_wf) (λ _, True) ld.
Proof.
  intros Hwf. unfold tryCreateBlock, tryCreateBlockImpl. apply wp_bind, wp_reads; [intros r _|done].
  wp_run; try done; by apply wf_out, wf_initing.
Qed.
Lemma leader_step_wf ld ld' : leader_step self signer ld ld' → leader_wf ld → leader_wf ld'.
Proof.
  intros Hs Hwf. destruct Hs as [c d o now txs ld ld' Hr|c d o t ld ld' Hi Hr|c d o bp ld ld' Hr|
    c d o v ld ld' Hr|d v ld ld' Hr|h ld|n ld].
  - refine (wp_Ret _ (λ _, leader_wf) (λ _, True) _ _ _ _ Hr). unfold on_tick.
    apply wp_bind, wp_reads; [intros r _|done]. apply wp_when; [intros _|done]. apply wp_bind.
    eapply wp_mono with (Q := λ _, leader_wf) (E := λ _, True);
      [|intros ? ? ?; by apply wp_doHeatbeat|done].
    apply wp_when; [intros _; by apply wp_tryCreateBlock|done].
  - refine (wp_Ret _ (λ _, leader_wf) (λ _, True) _ _ _ _ Hr). unfold updateTerm.
    apply wp_bind, wp_gets. destruct (_ <=? _) eqn:E; [by apply wp_ret|]. to_prop. cbn [id] in E.
    apply wp_bind, wp_reads; [intros was _|done]. apply wp_bind, wp_modify. apply wp_bind.
    eapply wp_mono; [apply wp_scanVotePool| |done].
    + destruct Hwf as [W1 W2 W3 W4]. split_and!; cbn; [done|apply map_Forall_empty|done|].
      intros t' m Hm. apply W4 in Hm. cbn in Hm. lia.
    + intros [] ld1 [Hwf1 _]. destruct was; [|by apply wp_ret].
      apply wp_bind, wp_reads; [intros ic _|done]. apply wp_when; [intros _; by apply wp_emit|done].
  - refine (wp_Ret _ (λ _, leader_wf) (λ _, True) _ _ _ _ Hr). unfold on_committed.
    apply wp_bind, wp_reads; [intros [] _|done].
    + apply wp_bind, wp_gets. cbn [id]. destruct (initing ld); [|by apply wp_ret].
      wp_run; try done. by apply wf_initing.
    + eapply wp_mono; [apply wp_scanVotePool; by apply wf_pre| |done]. by intros [] ? [? _].
  - refine (wp_Ret _ (λ _, leader_wf) (λ _, True) _ _ _ _ Hr). unfold addVote.
    apply wp_bind, wp_gets. apply wp_when; [intros E|done]. to_prop. apply wp_bind, wp_modify.
    eapply wp_mono; [apply wp_scanVotePool, wf_pre, pool_vote_wf; [done|]| |done].
    + cbn [id] in *. pose proof (lw_term ld Hwf). unfold votePoolTermRange, i64 in *.
      pose proof (wrap64_le (ld_term ld + 500)). lia.
    + by intros [] ? [? _].
  - refine (wp_Ret _ (λ _, leader_wf) (λ _, True) _ _ _ _ Hr). unfold justAddVote.
    apply wp_bind, wp_gets. cbn [id]. apply wp_bind, wp_modify.
    assert (leader_wf (pool_vote (set_v_Term v (ld_term ld)) ld)) as Hwf1.
    { apply pool_vote_wf; [done|]. cbn. unfold votePoolTermRange. lia. }
    destruct (bool_decide _); [by apply wp_ret|]. apply wp_bind, wp_lift; [intros top _|done].
    apply wp_bind, wp_lift; [intros u _|done]. apply wp_when; [intros _|done]. apply wp_modify.
    by apply wf_add_vote.
  - by destruct Hwf.
  - by destruct Hwf.
Qed.
End LeaderInvariant.

(** ** A scan of the vote pool *)
Section Scan.
Context `{KV} `{Wire} `{Signatures}.
Variables (self : Z) (c : Cluster) (d : db) (o : order).
Implicit Types (ld : Leader).

(** The votes that count after a scan: those that did, and the usable votes of
    the pool by nodes that had none. *)
Definition counted (top : option BlockPack) (votes pool votes' : gmap Z Vote) : Prop :=
  ∀ k v, votes' !! k = Some v ↔
    votes !! k = Some v ∨ (votes !! k = None ∧ pool !! k = Some v ∧ usable top v = Val true).
Definition in_charge (leader : Z) (votes : gmap Z Vote) : bool :=
  (leader =? self) && (Z.of_nat (size votes) >=? QuorumN c).

Lemma scan_loop us top l ld :
  NoDup l.*1 → (∀ e, e ∈ l → usable top e.2 = Val (us e.2)) →
  ∃ vs, for_each l (scan_vote top) ld = Ret () (set_votes vs ld) ∧
    ∀ k v, vs !! k = Some v ↔
      ld_votes ld !! k = Some v ∨ (ld_votes ld !! k = None ∧ (k, v) ∈ l ∧ us v = true).
Proof.
  revert ld. induction l as [|[k0 v0] l IH]; intros ld Hnd Hus.
  { exists (ld_votes ld). split; [by destruct ld|]. intros k v. set_solver. }
  cbn in Hnd. apply NoDup_cons in Hnd as [Hk0 Hnd].
  assert (∀ v, (k0, v) ∉ l) as Hnot.
  { intros v Hin. apply Hk0. apply list_elem_of_fmap. by exists (k0, v). }
  assert (∃ vs0, scan_vote top (k0, v0) ld = Ret () (set_votes vs0 ld) ∧
    ∀ k v, vs0 !! k = Some v ↔
      ld_votes ld !! k = Some v ∨ (ld_votes ld !! k = None ∧ k = k0 ∧ v = v0 ∧ us v = true))
    as (vs0 & Hstep & Hvs0).
  { unfold scan_vote. rewrite bind_gets. cbn [id]. destruct (ld_votes ld !! k0) as [w|] eqn:E.
    - exists (ld_votes ld). rewrite bool_decide_true; [|by eexists]. split; [by destruct ld|].
      intros k v. split; [auto|]. intros [?|(? & -> & _)]; [done|congruence].
    - rewrite bool_decide_false; [|by intros [? ?]].
      rewrite (bind_lift _ _ _ (us v0)); [|by apply (Hus (k0, v0)); left].
      destruct (us v0) eqn:Eu; cbn [when].
      + eexists. split; [reflexivity|]. intros k v. rewrite lookup_insert_Some. split.
        * intros [[<- <-]|[_ ?]]; [by right|by left].
        * intros [Hv|(_ & -> & -> & _)]; [right|by left]. split; [congruence|done].
      + exists (ld_votes ld). split; [by destruct ld|]. intros k v. split; [auto|].
        intros [?|(_ & _ & -> & ?)]; [done|congruence]. }
  destruct (IH (set_votes vs0 ld) Hnd) as (vs & Hrun & Hvs).
  { intros e He. apply Hus. by right. }
  exists vs. cbn [for_each]. rewrite (bind_Ret _ _ _ _ _ Hstep) Hrun. split; [done|].
  intros k v. rewrite Hvs. cbn. rewrite Hvs0. destruct (decide (k = k0)) as [->|Hne].
  - specialize (Hnot v). rewrite elem_of_cons. split.
    + intros [[?|(? & _ & -> & ?)]|(_ & ? & _)]; [by left| |done]. right. auto.
    + intros [?|(? & [[= ->]|?] & ?)]; [by left; left|left; right; auto|done].
  - assert (vs0 !! k = ld_votes ld !! k) as Hk.
    { apply option_eq. intros v'. rewrite Hvs0. naive_solver. }
    rewrite Hk elem_of_cons. clear Hvs Hvs0 IH. naive_solver.
Qed.

Lemma pool_of_filter ld :
  pool_of (set_votePool (filter (λ e, negb (e.1 <? ld_term ld) = true) (votePool ld)) ld) = pool_of ld.
Proof.
  unfold pool_of. cbn. f_equal. apply option_eq. intros m. rewrite map_lookup_filter_Some. cbn.
  rewrite Z.ltb_irrefl. naive_solver.
Qed.
Lemma isInCharge_run ld leader :
  LeaderNodeOfTerm c (ld_term ld) = Val leader → isInCharge self c ld = Val (in_charge leader (ld_votes ld)).
Proof. intros Hl. unfold isInCharge. by rewrite Hl. Qed.
Lemma scan_run ld leader top :
  LeaderNodeOfTerm c (ld_term ld) = Val leader → GetCommitTop d = Val top →
  (∀ k v, pool_of ld !! k = Some v → ∃ b, usable top v = Val b) → initing ld = None →
  ∃ vs, (if in_charge leader (ld_votes ld) then vs = ld_votes ld
         else counted top (ld_votes ld) (pool_of ld) vs) ∧
    scanVotePool self c d o ld = Ret ()
      (set_ld_out (ld_out ld ++
         if negb (in_charge leader (ld_votes ld)) && in_charge leader vs
         then [BecomeLeaderEvent (ld_term ld);
               BroadcastHeatbeat {| hb_Term := ld_term ld; hb_Votes := (range o 31 vs).*2 |}] else [])
        (set_votes vs (set_votePool
          (filter (λ e, negb (e.1 <? ld_term ld) = true) (votePool ld)) ld))).
Proof.
  intros Hl Htop Hus Hi. unfold scanVotePool. rewrite bind_modify. pose proof (pool_of_filter ld) as Hp.
  set (ld0 := set_votePool _ ld) in *.
  rewrite (bind_reads _ _ _ (in_charge leader (ld_votes ld))); [|by apply (isInCharge_run ld0)].
  destruct (in_charge leader (ld_votes ld)) eqn:Eic.
  { exists (ld_votes ld). split; [done|]. cbn [negb andb]. rewrite app_nil_r. done. }
  cbn [negb andb]. rewrite (bind_lift _ _ _ _ Htop) bind_gets. cbn [id]. rewrite Hp.
  set (us := λ v, match usable top v with Val b => b | Fault _ => false end).
  destruct (scan_loop us top (range o 30 (pool_of ld)) ld0 (range_NoDup _ _ _)) as (vs & Hrun & Hvs).
  { intros [k v] Hin%elem_of_range. destruct (Hus k v Hin) as [b Hb]. unfold us. cbn. by rewrite Hb. }
  exists vs. split.
  { intros k v. rewrite Hvs elem_of_range. split; intros [?|(? & Hk & Hu)]; auto; right; split_and!; auto.
    - unfold us in Hu. destruct (Hus k v Hk) as [b Hb]. rewrite Hb in Hu |- *. by rewrite Hu.
    - unfold us. by rewrite Hu. }
  rewrite (bind_Ret _ _ _ _ _ Hrun).
  rewrite (bind_reads _ _ _ (in_charge leader vs)); [|by apply (isInCharge_run (set_votes vs ld0))].
  destruct (in_charge leader vs); cbn [when]; [|by rewrite app_nil_r].
  unfold emit, doHeatbeat, mbind, go_bind, gets, modify, lift. cbn. rewrite Hi. cbn.
  unfold emit, modify. cbn. by rewrite -app_assoc.
Qed.
End Scan.

(** ** A proposal *)
Section Proposal.
Context `{KV} `{Wire} `{Watchers} `{Signatures}.
Implicit Types (ld : Leader) (d : db) (l : list BlockPack) (c : Cluster).

(** What a leader with the chain [l] proposes. *)
Record proposes (self : Z) (signer : SecureSigner) c d o l ld (init : InitMsg) : Prop := {
  pr_leader : LeaderNodeOfTerm c (ld_term ld) = Val self;
  pr_quorum : QuorumN c ≤ Z.of_nat (size (ld_votes ld));
  pr_idle : initing ld = None ∧ GetNodeTerm d = Val (ld_term ld) ∧ GetFresh d = Val None;
  pr_head : im_Term init = ld_term ld ∧ im_Height init = Z.of_nat (length l) ∧ im_NodeId init = self;
  pr_sig : ∃ i, InitMsg_Id (set_im_Sig init "") = Val i ∧ Sign signer (Data i) = Some (im_Sig init);
  pr_link : ∃ b top x, im_Block init = Some b ∧ last l = Some top ∧
    bp_BlockId top = Val (Some x) ∧ b_PrevBlockId b = Some x ∧ is_Some (b_Id b);
  pr_votes : ∃ top t, last l = Some top ∧ bp_Term top = Val t ∧
    (t < ld_term ld → im_Votes init = ld_votes ld);
  pr_block : ∃ top topVotie x m, last l = Some top ∧ ToVotie top = Val topVotie ∧
    bp_BlockId top = Val (Some x) ∧ GetMaxVotie o (ld_votes ld) = Val (Some m) ∧
    (Votie_HasLessTermHeightThan topVotie m = true →
     ∀ mb y, vi_Block m = Some mb → b_Id mb = Some y → y ≠ x → im_Block init = Some mb)
}.
Definition no_init (es : list LeaderOut) : Prop := ∀ i, NewInitEvent i ∉ es.
Lemma no_init_snoc es e : no_init es → (∀ i, e ≠ NewInitEvent i) → no_init (es ++ [e]).
Proof. intros Hes He i [Hin|Hin%list_elem_of_singleton]%elem_of_app; [by eapply Hes|by eapply He]. Qed.

Lemma UpdateBlockId_prev b b' :
  UpdateBlockId b = Val b' → b_PrevBlockId b' = b_PrevBlockId b ∧ is_Some (b_Id b').
Proof. unfold UpdateBlockId. intros (i & _ & [= <-])%pan_bind_Val. split; [done|by eexists]. Qed.
(** Whatever the leader proposes is a block on the top, and it is the block of
    the greatest votie when that is ahead of the top and another block. *)
Lemma block_to_init_spec c d now txs top topVotie x m ld b :
  ToVotie top = Val topVotie → bp_BlockId top = Val (Some x) →
  block_to_init c d now txs top m ld = Val (Some b) →
  b_PrevBlockId b = Some x ∧ is_Some (b_Id b) ∧
  (Votie_HasLessTermHeightThan topVotie m = true →
   ∀ mb y, vi_Block m = Some mb → b_Id mb = Some y → y ≠ x → b = mb).
Proof.
  intros Hv Hx Hb. unfold block_to_init in Hb. rewrite Hv Hx in Hb. cbn [mbind pan_bind] in Hb.
  apply pan_bind_Val in Hb as (re & Hre & Hb). destruct re.
  - apply pan_bind_Val in Hb as (mb & Hmb%deref_Val & (e & He & [= Hb])%pan_bind_Val).
    destruct e; [|done]. injection Hb as ->. apply EqualTo_true in He as (? & -> & [= ->]).
    split; [done|]. split.
    { destruct (Votie_HasLessTermHeightThan _ _); [|done]. rewrite Hmb in Hre. cbn in Hre.
      destruct (b_Id b); [by eexists|done]. }
    intros _ mb' y Hmb' _ _. congruence.
  - rewrite and_assoc. split.
    + destruct (0 <? _).
      * apply pan_bind_Val in Hb as ([r|] & _ & Hb); [|done].
        by apply pan_bind_Val in Hb as (b' & []%UpdateBlockId_prev & [= <-]).
      * destruct (0 <=? _); by apply pan_bind_Val in Hb as (b' & []%UpdateBlockId_prev & [= <-]).
    + intros Hless mb y Hmb Hy Hne. rewrite Hless Hmb in Hre. cbn in Hre.
      rewrite Hy /= in Hre. destruct y as [y], x as [x]. cbn in Hre.
      destruct (decide (y = x)) as [->|Hn]; [done|]. rewrite bool_decide_false in Hre; done.
Qed.
Lemma wp_tryCreateBlockImpl self signer c d o now txs l ld :
  chain_rep d l → Z.of_nat (length l) < 2^63 - 1 → no_init (ld_out ld) →
  LeaderNodeOfTerm c (ld_term ld) = Val self → QuorumN c ≤ Z.of_nat (size (ld_votes ld)) →
  initing ld = None →
  wp (tryCreateBlockImpl self signer c d o now txs)
    (λ _ ld', ∀ i, NewInitEvent i ∈ ld_out ld' → proposes self signer c d o l ld i) (λ _, True) ld.
Proof.
  intros Hr Hlen Hn Hl Hq Hi. unfold tryCreateBlockImpl.
  assert (∀ i, NewInitEvent i ∈ ld_out ld → proposes self signer c d o l ld i) as Hnone.
  { intros i Hin. by destruct (Hn i). }
  apply wp_bind, wp_gets. cbn [id]. apply wp_bind, wp_lift; [intros t Ht|done].
  destruct (negb _) eqn:E; [by apply wp_ret|]. to_prop. subst t.
  apply wp_bind, wp_lift; [intros fresh Hf|done].
  destruct (bool_decide _) eqn:Ef; [by apply wp_ret|].
  assert (fresh = None) as -> by (destruct fresh; [by rewrite bool_decide_true in Ef|done]).
  apply wp_bind, wp_lift; [intros top' Htop|done]. rewrite (rep_GetCommitTop _ _ Hr) in Htop.
  injection Htop as <-. apply wp_bind, wp_lift; [intros m' Hm|done].
  apply wp_bind, wp_lift; [intros top Htop%deref_Val|done].
  apply wp_bind, wp_lift; [intros m ->%deref_Val|done].
  apply wp_bind, wp_lift; [intros ob Hb|done]. destruct ob as [b|]; [|by apply wp_ret].
  apply wp_bind, wp_lift; [intros h Hh|done]. apply wp_bind, wp_lift; [intros wv Hwv|done].
  apply wp_bind, wp_lift; [intros id Hid|done].
  destruct (Sign signer (Data id)) as [sig|] eqn:Hsig; [|by apply wp_ret].
  apply wp_bind, wp_modify, wp_modify. intros i [Hin|Hin%list_elem_of_singleton]%elem_of_app;
    [by destruct (Hn i)|]. injection Hin as ->.
  pose proof Htop as Htl. rewrite last_lookup in Htl.
  rewrite (rep_height d l Hr _ _ Htl) in Hh. injection Hh as <-. pose proof (lookup_lt_Some _ _ _ Htl).
  destruct (rep_ids d l Hr _ _ Htl) as (x & Hx).
  pose proof Hb as Hb'. unfold block_to_init in Hb'. apply pan_bind_Val in Hb' as (tv & Htv & _).
  destruct (block_to_init_spec c d now txs top tv x m ld b Htv Hx Hb) as (Hprev & Hbid & Hmax).
  assert (∃ t, bp_Term top = Val t) as (t & Htt).
  { unfold bp_Term. unfold bp_BlockId, bp_Block in Hx. destruct (bp_Init top); [by eexists|done]. }
  split; cbn; try done.
  - split_and!; [done| |done]. rewrite wrap64_small; [lia|unfold i64; lia].
  - by exists id.
  - by exists b, top, x.
  - exists top, t. split_and!; [done..|]. intros Hlt. unfold needs_votes in Hwv. rewrite Htt in Hwv.
    cbn in Hwv. rewrite (proj2 (Z.ltb_lt _ _) Hlt) in Hwv. by injection Hwv as <-.
  - exists top, tv, x, m. split_and!; try done. intros Hless mb y Hmb Hy Hne. f_equal. by eapply Hmax.
Qed.

Lemma readyToInitNewBlock_true self c ld :
  readyToInitNewBlock self c ld = Val true →
  LeaderNodeOfTerm c (ld_term ld) = Val self ∧ QuorumN c ≤ Z.of_nat (size (ld_votes ld)) ∧
  initing ld = None.
Proof.
  unfold readyToInitNewBlock, isInCharge. intros (r & (le & Hl & [= Hr])%pan_bind_Val & [= Hok])%pan_bind_Val.
  subst r. to_prop. subst. by split_and!.
Qed.
Lemma wp_on_tick self signer c d o now txs l ld :
  chain_rep d l → Z.of_nat (length l) < 2^63 - 1 → no_init (ld_out ld) →
  wp (on_tick self signer c d o now txs)
    (λ _ ld', ∀ i, NewInitEvent i ∈ ld_out ld' → proposes self signer c d o l ld i) (λ _, True) ld.
Proof.
  intros Hr Hlen Hn. unfold on_tick.
  assert (∀ i, NewInitEvent i ∈ ld_out ld → proposes self signer c d o l ld i) as Hnone.
  { intros i Hin. by destruct (Hn i). }
  apply wp_bind, wp_reads; [intros r Hrd|done]. apply wp_when; [intros ->|done].
  destruct (readyToInitNewBlock_true _ _ _ Hrd) as (Hl & Hq & Hi). apply wp_bind.
  eapply wp_mono with (E := λ _, True)
    (Q := λ _ ld', ∀ i, NewInitEvent i ∈ ld_out ld' → proposes self signer c d o l ld i); [| |done].
  - apply wp_when; [intros _|done]. unfold tryCreateBlock. apply wp_bind, wp_reads; [intros r _|done].
    apply wp_bind, wp_lift; [intros _ _|done]. by apply wp_tryCreateBlockImpl.
  - intros [] ld1 H1'. apply wp_bind, wp_gets, wp_modify.
    intros i [Hin|[=]%list_elem_of_singleton]%elem_of_app. by apply H1'.
Qed.

(** The voties of the votes have blocks with ids, and those of one term and
    height, the top of the chain included, are for one block. *)
Record agreed (votes : gmap Z Vote) (t h : Z) (x : Digest256) : Prop := {
  ag_block : map_Forall (λ _ v, ∃ m mb, v_Votie v = Some m ∧ vi_Block m = Some mb ∧ is_Some (b_Id mb)) votes;
  ag_same : ∀ k v m mb k' v' m' mb', votes !! k = Some v → votes !! k' = Some v' →
    v_Votie v = Some m → v_Votie v' = Some m' → vi_Block m = Some mb → vi_Block m' = Some mb' →
    vi_Term m = vi_Term m' → vi_Height m = vi_Height m' → b_Id mb = b_Id mb';
  ag_top : ∀ k v m mb, votes !! k = Some v → v_Votie v = Some m → vi_Block m = Some mb →
    vi_Term m = t → vi_Height m = h → b_Id mb = Some x
}.
Lemma proposes_supported self signer c d o o' l ld init top t h x :
  chain_rep d l → 1 ≤ QuorumN c → proposes self signer c d o l ld init →
  last l = Some top → bp_Term top = Val t → bp_Height top = Val h → bp_BlockId top = Val (Some x) →
  t < im_Term init → agreed (ld_votes ld) t h x →
  isInitSupportedByVotes o' c init d = Val true.
Proof.
  intros Hr Hq [_ Hquo _ (Et & _ & _) _ Hlink Hvotes Hblock] Hl Ht Hh Hx Hlt [A1 A2 A3].
  destruct Hlink as (b & top1 & x1 & Hb & E1 & _ & _ & [bid Hbid]). rewrite Hl in E1. injection E1 as <-.
  destruct Hvotes as (top2 & t2 & E2 & E3 & Hv). rewrite Hl in E2. injection E2 as <-.
  rewrite Ht in E3. injection E3 as <-. rewrite Et in Hlt. specialize (Hv Hlt).
  destruct Hblock as (top3 & tv & x3 & m & E4 & Htv & E5 & Hm & Hre). rewrite Hl in E4. injection E4 as <-.
  rewrite Hx in E5. injection E5 as <-.
  assert (vi_Term tv = t ∧ vi_Height tv = h) as [Ett Eth].
  { unfold ToVotie in Htv. rewrite Ht Hh in Htv. cbn [mbind pan_bind] in Htv.
    apply pan_bind_Val in Htv as (? & _ & [= <-]). done. }
  destruct (supported_by_max o' c init d l top t h x bid b Hr Hl Ht Hh Hx Hb Hbid Hq) as
    [[Hno _]|(_ & k & v & m' & mb' & mid & Hk & Hvm & Hmb & Hmid & Hmax & ->)].
  { rewrite Hv. exact A1. }
  { rewrite Hv in Hno. lia. }
  rewrite Hv in Hk, Hmax. f_equal.
  destruct (less_term_height (vi_Term m') (vi_Height m') t h) eqn:Eless; [done|].
  destruct (bool_decide (mid = x)) eqn:Ex; [done|]. apply bool_decide_eq_false in Ex. cbn [orb].
  apply bool_decide_true. apply less_term_height_false in Eless.
  destruct (GetMaxVotie_max o (ld_votes ld)) as [[He _]|(k2 & v2 & m2 & Hk2 & Hvm2 & Hm2 & Hmax2)].
  { intros k0 v0 Hk0. destruct (A1 k0 v0 Hk0) as (m0 & _ & Hm0 & _). by eexists. }
  { by rewrite He in Hk. }
  rewrite Hm in Hm2. injection Hm2 as <-.
  pose proof (Hmax _ _ _ Hk2 Hvm2) as L1. pose proof (Hmax2 _ _ _ Hk Hvm) as L2.
  apply less_term_height_false in L1, L2.
  destruct (A1 k2 v2 Hk2) as (m2 & mb2 & Hm2' & Hmb2 & [y Hy]). rewrite Hvm2 in Hm2'. injection Hm2' as <-.
  assert (vi_Term m' = vi_Term m ∧ vi_Height m' = vi_Height m) as [S1 S2] by (split; lia).
  pose proof (A2 k v m' mb' k2 v2 m mb2 Hk Hk2 Hvm Hvm2 Hmb Hmb2 S1 S2) as Hsame.
  rewrite Hmid Hy in Hsame. injection Hsame as <-.
  assert (Votie_HasLessTermHeightThan tv m = true) as Hless.
  { apply less_term_height_spec. rewrite Ett Eth -S1 -S2.
    destruct (decide (vi_Term m' = t ∧ vi_Height m' = h)) as [[Q1 Q2]|Hn]; [|lia].
    pose proof (A3 k v m' mb' Hk Hvm Hmb Q1 Q2). congruence. }
  specialize (Hre Hless mb2 mid Hmb2 Hy Ex). rewrite Hb in Hre. injection Hre as ->.
  rewrite Hbid in Hy. by injection Hy as ->.
Qed.
End Proposal.

(** ** Theorems *)
Section LeaderTheorems.
Context `{KV} `{Wire} `{Watchers} `{Signatures}.

(** In every state the goroutine reaches, the counted votes are for the current
    term and filed under their nodes, and the pool has votes of the current term
    and the next [votePoolTermRange] terms only. *)
Theorem leader_reachable_wf (self : Z) (signer : SecureSigner) (d : db) (ld0 ld : Leader) :
  NewLeader d = Val ld0 → rtc (leader_step self signer) ld0 ld → leader_wf ld.
Proof.
  intros Hn Hs. apply pan_bind_Val in Hn as (t & Ht & [= <-]).
  assert (leader_wf (MkLeader t ∅ None ∅ "" (-1) [])) as Hwf.
  { apply GetNodeTerm_range in Ht as [_ Hi]. split; [exact Hi|apply map_Forall_empty..]. }
  induction Hs; eauto using leader_step_wf.
Qed.

(** A scan of the vote pool drops the votes of past terms. Unless the node is in
    charge already, it counts the usable votes of the current term by nodes that
    had none, no matter in which order; when the node comes into charge it says
    so, once, with a heartbeat of the counted votes. *)
Theorem scanVotePool_spec (self : Z) (c : Cluster) (d : db) (o : order) (ld : Leader) (leader : Z)
    (top : option BlockPack) :
  LeaderNodeOfTerm c (ld_term ld) = Val leader → GetCommitTop d = Val top →
  (∀ k v, pool_of ld !! k = Some v → ∃ b, usable top v = Val b) → initing ld = None →
  ∃ vs, (if in_charge self c leader (ld_votes ld) then vs = ld_votes ld
         else counted top (ld_votes ld) (pool_of ld) vs) ∧
    scanVotePool self c d o ld = Ret ()
      (set_ld_out (ld_out ld ++
         if negb (in_charge self c leader (ld_votes ld)) && in_charge self c leader vs
         then [BecomeLeaderEvent (ld_term ld);
               BroadcastHeatbeat {| hb_Term := ld_term ld; hb_Votes := (range o 31 vs).*2 |}] else [])
        (set_votes vs (set_votePool
          (filter (λ e, negb (e.1 <? ld_term ld) = true) (votePool ld)) ld))).
Proof. apply scan_run. Qed.

(** A leader proposes only while it is in charge and has no proposal in
    progress, in its own term, which is that of its node: a signed block of the
    next height on the top of its chain; the block of the greatest votie if that
    is ahead of the top; with its votes in a term after that of the top. *)
Theorem on_tick_proposes (self : Z) (signer : SecureSigner) (c : Cluster) (d : db) (o : order)
    (now : Z) (txs : list Transaction) (l : list BlockPack) (ld ld' : Leader) (init : InitMsg) :
  chain_rep d l → Z.of_nat (length l) < 2^63 - 1 → no_init (ld_out ld) →
  on_tick self signer c d o now txs ld = Ret () ld' → NewInitEvent init ∈ ld_out ld' →
  proposes self signer c d o l ld init.
Proof.
  intros Hr Hlen Hn Hrun Hin.
  exact (wp_Ret _ _ _ _ _ _ (wp_on_tick self signer c d o now txs l ld Hr Hlen Hn) Hrun init Hin).
Qed.

End LeaderTheorems.
