(* ===== verification/SyncDaemon.v ===== *)
(** * Synchronisation (src/node/sync_daemon.go)

    A node that is behind asks a peer for blocks and stores those that pass
    [checkBlockPack]. The check asks all peers whether they committed the block
    ([GetCommitedCnt]); what they answer, and the address of the federation that
    the coin libraries compute ([getFederationAddress]), are parameters. The
    answer of the peer also carries its block in progress and its last
    accusation, which go to the handlers of [Handlers.v].

    An event that the code emits at once is appended to [w_tasks], like the ones
    that the handlers queue. *)
From S2P Require Import Prelude.
From S2P Require Import GoLib.
From S2P Require Import Crypto.
From S2P Require Import Messages.
From S2P Require Import Feed.
From S2P Require Import ProtoOps.
From S2P Require Import Cluster.
From S2P Require Import Store.
From S2P Require Import DbOps.
From S2P Require Import TxPool.
From S2P Require Import Validation.
From S2P Require Import Consensus.
From S2P Require Import Handlers.

Inductive SyncResult : Type := SyncDone | SyncFailed | SyncRunning.

Section SyncDaemon.
Context `{KV} `{Wire} `{Watchers} `{Signatures}.
Variable o : order.
Variable GetCommitedCnt : option Digest256 → Z.
Variable getFederationAddress : Cluster → MultiSigInfo.

(** The pack comes back with what the checks changed in it. *)
Definition checkBlockPack (blockPack : option BlockPack) (accuseQuorumN : Z) (c : Cluster) (d : db)
    : pan (bool * option BlockPack) :=
  match blockPack with
  | None => mret (false, None)
  | Some bp =>
      b ← bp_Block bp;
      if bool_decide (b = None) then mret (false, Some bp)
      else
        '(r, init) ← checkInitMsg c o (bp_Init bp);
        let bp := set_bp_Init bp (Some init) in
        if negb r then mret (false, Some bp)
        else
          term ← bp_Term bp;
          height ← bp_Height bp;
          blockID ← bp_BlockId bp;
          b ← deref (im_Block init);
          b ← UpdateBlockId b;
          let bp := set_bp_Init bp (Some (set_im_Block init (Some b))) in
          e ← EqualTo blockID (b_Id b);
          if negb e then mret (false, Some bp)
          else
            ok ← checkCommits c o term height blockID (bp_Commits bp);
            if negb ok then mret (false, Some bp)
            else
              preID ← bp_PrevBlockId bp;
              pre ← IsCommitted preID d;
              if negb pre then mret (false, Some bp)
              else
                dup ← IsCommitted blockID d;
                if dup : bool then mret (false, Some bp)
                else
                  preBlock ← GetCommitByID preID d;
                  preBlock ← deref preBlock;
                  preHeight ← bp_Height preBlock;
                  if negb (height =? preHeight +i64 1) then mret (false, Some bp)
                  else mret (negb (GetCommitedCnt (b_Id b) <? accuseQuorumN), Some bp)
  end.

(** The blocks of a response, up to the first that fails the check. *)
Fixpoint sync_commits (accuseQuorumN : Z) (commits : list BlockPack) : go World unit :=
  match commits with
  | [] => mret tt
  | block :: l =>
      c ← gets w_cluster;
      '(r, block) ← ask (checkBlockPack (Some block) accuseQuorumN c);
      if negb r then mret tt
      else
        block ← lift (deref block);
        _ ← run_db (JustCommitIt block);
        _ ← Add (NewCommittedEvent block);
        sync_commits accuseQuorumN l
  end.
Definition processSyncUpResponse (rsp : SyncUpResponse) (accuseQuorumN : Z) : go World unit :=
  _ ← sync_commits accuseQuorumN (sy_Commits rsp);
  _ ← (match sy_Fresh rsp with
       | None => mret tt
       | Some fresh =>
           h ← lift (bp_Height fresh);
           ch ← ask GetCommitHeight;
           when (h >? ch)
             (_ ← (match bp_Init fresh with Some init => handleInitMsg o init | None => mret tt end);
              _ ← for_each (range o 40 (bp_Prepares fresh)).*2 handlePrepareMsg;
              for_each (range o 41 (bp_Commits fresh)).*2 handleCommitMsg)
       end);
  match sy_StrongAccuse rsp with
  | None => mret tt
  | Some sa => handleStrongAccuse o sa
  end.

(** ** Nodes that watch or join *)

(** The change of the node list that a reconfiguration block brings. *)
Definition reconfigure (reConfig : Reconfig) (c : Cluster) : pan Cluster :=
  c ← (if bool_decide (rc_Type reConfig = JOIN) && negb (IsNodeExist c (rc_NodeId reConfig)) then
         mret (AddNodeInfo {| Id := rc_NodeId reConfig; Name := "server" +:+ FormatInt (rc_NodeId reConfig);
                              Url := rc_Host reConfig; PublicKey := hex_decode_prefix (rc_Pubkey reConfig);
                              IsNormal := true |} c)
       else DeleteNode (rc_NodeId reConfig) c);
  mret (SetCurrMultiSig (getFederationAddress c) c).
Definition set_w_cluster (c : Cluster) (w : World) : World :=
  MkWorld (w_pool w) (w_prepareCache w) (w_commitCache w) c (w_tasks w) (w_waiting w).

(** The transaction index of a block, written by the synchronisation itself. *)
Fixpoint index_txs (idx : Z) (txs : list Transaction) (height : Z) : go World unit :=
  match txs with
  | [] => mret tt
  | tx :: l =>
      wt ← lift (deref (tx_WatchedTx tx));
      _ ← tell (SetTxLookupEntry (tx_Id tx) {| tle_Height := height; tle_Index := wrap32 idx |});
      _ ← tell (SetTxIdMap (wt_Txid wt) (tx_Id tx));
      _ ← tell (SetTxIdMap (tx_NewlyTxId tx) (tx_Id tx));
      index_txs (idx + 1) l height
  end.
Fixpoint simple_sync_commits (accuseQuorumN : Z) (commits : list BlockPack) : go World unit :=
  match commits with
  | [] => mret tt
  | block :: l =>
      c ← gets w_cluster;
      '(r, block) ← ask (checkBlockPack (Some block) accuseQuorumN c);
      if negb r then mret tt
      else
        block ← lift (deref block);
        reconfig ← lift (IsReconfigBlock block);
        height ← lift (bp_Height block);
        b ← lift (bp_Block block);
        b ← lift (deref b);
        _ ← when (reconfig && (initNodeHeight c <? height))
              (reConfig ← lift (deref (b_Reconfig b));
               updates (λ w, c ← reconfigure reConfig (w_cluster w); mret (set_w_cluster c w)));
        _ ← run_db (JustCommitIt block);
        term ← lift (bp_Term block);
        _ ← tell (SetNodeTerm term);
        _ ← index_txs 0 (b_Txs b) height;
        simple_sync_commits accuseQuorumN l
  end.
Definition processSimpleSyncUpResponse (rsp : SyncUpResponse) (accuseQuorumN : Z) : go World unit :=
  simple_sync_commits accuseQuorumN (sy_Commits rsp).

(** ** The loop

    [rsps] is what the peer answers to each request, [None] an error of the call;
    [SyncRunning] when the answers end before the loop does. *)
Fixpoint doSyncUp (startMode : Mode) (rsps : list (option SyncUpResponse)) : go World SyncResult :=
  match rsps with
  | [] => mret SyncRunning
  | None :: _ => mret SyncFailed
  | Some rsp :: l =>
      c ← gets w_cluster;
      _ ← (if bool_decide (startMode = ModeWatch)
           then processSimpleSyncUpResponse rsp (AccuseQuorumN c)
           else processSyncUpResponse rsp (AccuseQuorumN c));
      if negb (sy_More rsp) then mret SyncDone else doSyncUp startMode l
  end.
(** In join mode the quorum is that of the cluster snapshot. *)
Fixpoint doJoinSyncUp (rsps : list (option SyncUpResponse)) : go World SyncResult :=
  match rsps with
  | [] => mret SyncRunning
  | None :: _ => mret SyncFailed
  | Some rsp :: l =>
      c ← gets w_cluster;
      s ← lift (deref (ClusterSnapshot c));
      _ ← processSimpleSyncUpResponse rsp (sn_AccuseQuorumN s);
      if negb (sy_More rsp) then mret SyncDone else doJoinSyncUp l
  end.

(** One synchronisation at a time: [canRun] is a compare-and-swap of the flag. *)
Definition canRun (runSate : Z) : bool * Z := if runSate =? 0 then (true, 1) else (false, runSate).
Definition finish (runSate : Z) : Z := 0.
End SyncDaemon.
