(* ===== verification/SyncProps.v ===== *)
(** * Properties of the synchronisation (src/node/sync_daemon.go)

    A node that stores only what enough peers say they committed follows their
    ledger, whatever the peer that answers sends. What a bad answer does to the
    loop, and a join that is applied to a node that is already listed. *)
From S2P Require Import Prelude.
From S2P Require Import GoLib.
From S2P Require Import Crypto.
From S2P Require Import Messages.
From S2P Require Import Feed.
From S2P Require Import ProtoOps.
From S2P Require Import Cluster.
From S2P Require Import Store.
From S2P Require Import DbOps.
From S2P Require Import TxPool.
From S2P Require Import Validation.
From S2P Require Import Consensus.
From S2P Require Import Handlers.
From S2P Require Import ConsensusProps.
From S2P Require Import SyncDaemon.

(** ** Definitions *)

(** The blocks that the federation committed, by height: each names the one
    before it, and no id occurs twice. *)
Record ledger (G : list Block) : Prop := {
  lg_hash : ∀ i g, G !! i = Some g → ∃ x, Block_hash g = Val x;
  lg_linked : ∀ i g g' x, G !! i = Some g → G !! S i = Some g' → Block_hash g = Val x →
    b_PrevBlockId g' = Some x;
  lg_ids : ∀ i j g g' x, G !! i = Some g → G !! j = Some g' →
    Block_hash g = Val x → Block_hash g' = Val x → i = j;
  lg_bound : Z.of_nat (length G) < 2^63
}.
(** The chain [l] holds the first blocks of [G]. *)
Definition follows (G : list Block) (l : list BlockPack) : Prop :=
  ∀ i bp, l !! i = Some bp → ∃ g x, G !! i = Some g ∧ Block_hash g = Val x ∧ bp_BlockId bp = Val (Some x).
(** The blocks of an answer have the id of a block of [G] only if they name the
    same block before them: no collision of SHA-256 among these blocks. *)
Definition no_clash (G : list Block) (packs : list BlockPack) : Prop :=
  ∀ bp b g x, bp ∈ packs → bp_Block bp = Val (Some b) → g ∈ G → Block_hash b = Val x →
    Block_hash g = Val x → b_PrevBlockId b = b_PrevBlockId g.

Section SyncDefs.
Context `{KV} `{Wire} `{Watchers}.
(** The chain starts with [l] and holds first blocks of [G]. *)
Definition synced (G : list Block) (l : list BlockPack) (w : World) : Prop :=
  ∃ l', follows G (l ++ l') ∧ chain_rep (w_db w) (l ++ l').
End SyncDefs.

(** ** Lemmas *)
Section SyncLemmas.
Context `{KV} `{Wire} `{Watchers} `{Signatures}.
Variable o : order.
Variable GetCommitedCnt : option Digest256 → Z.
Variable getFederationAddress : Cluster → MultiSigInfo.
Implicit Types (w : World) (d : db) (c : Cluster).

Lemma checkInitMsg_true c init init' :
  checkInitMsg c o init = Val (true, init') →
  ∃ m b x, init = Some m ∧ im_Block m = Some b ∧ Block_hash b = Val x ∧
    im_Block init' = Some (set_b_Id b (Some x)) ∧ im_Height init' = im_Height m.
Proof.
  unfold checkInitMsg. intros (m & ->%deref_Val & Hk)%pan_bind_Val.
  destruct (_ || _); [done|].
  apply pan_bind_Val in Hk as ([r b'] & Hb & Hk). destruct r; [|done]. cbn [negb orb] in Hk.
  apply checkBlock_true in Hb as (b & x & Hmb & Hx & -> & _).
  destruct (negb (checkNodeId _ _)); [done|].
  apply pan_bind_Val in Hk as ([r votes] & _ & Hk). destruct r; [|done]. cbn [negb] in Hk.
  apply pan_bind_Val in Hk as (ok & _ & [= _ <-]).
  exists m, b, x. by split_and!.
Qed.

(** What the check finds out about a pack, and what it leaves in it. *)
Lemma checkBlockPack_true bp aq c d bp' :
  checkBlockPack o GetCommitedCnt (Some bp) aq c d = Val (true, bp') →
  ∃ b p x prev pre h, bp_Block bp = Val (Some b) ∧ Block_hash b = Val x ∧ bp' = Some p ∧
    bp_BlockId p = Val (Some x) ∧ IsCommitted (Some x) d = Val false ∧
    b_PrevBlockId b = Some prev ∧ GetCommitByID (Some prev) d = Val (Some pre) ∧
    bp_Height pre = Val h ∧ bp_Height p = Val (h +i64 1) ∧ aq ≤ GetCommitedCnt (Some x).
Proof.
  cbn [checkBlockPack]. intros (b0 & Hb0 & Hk)%pan_bind_Val.
  destruct (bool_decide (b0 = None)); [done|].
  apply pan_bind_Val in Hk as ([r init] & Hi & Hk). destruct r; [|done]. cbn [negb] in Hk.
  apply checkInitMsg_true in Hi as (m & b & x & Hm & Hb & Hx & Hib & Hh).
  apply pan_bind_Val in Hk as (term & _ & Hk).
  apply pan_bind_Val in Hk as (height & [= <-] & Hk).
  apply pan_bind_Val in Hk as (i & Hid & Hk).
  assert (i = Some x) as ->.
  { unfold bp_BlockId, bp_Block in Hid. cbn in Hid. rewrite Hib in Hid. by injection Hid as <-. }
  rewrite Hib in Hk. apply pan_bind_Val in Hk as (b1 & [= <-] & Hk).
  apply pan_bind_Val in Hk as (b2 & Hb2 & Hk).
  unfold UpdateBlockId in Hb2. change (Block_hash (set_b_Id b (Some x))) with (Block_hash b) in Hb2.
  rewrite Hx in Hb2. injection Hb2 as <-.
  apply pan_bind_Val in Hk as (e & _ & Hk). destruct e; [|done]. cbn [negb] in Hk.
  apply pan_bind_Val in Hk as (ok & _ & Hk). destruct ok; [|done]. cbn [negb] in Hk.
  apply pan_bind_Val in Hk as (prev & [= <-] & Hk).
  apply pan_bind_Val in Hk as (r & Hpre & Hk). destruct r; [|done]. cbn [negb] in Hk.
  apply pan_bind_Val in Hk as (r & Hdup & Hk). destruct r; [done|].
  apply pan_bind_Val in Hk as (pre & Hget & Hk).
  apply pan_bind_Val in Hk as (pre' & ->%deref_Val & Hk).
  apply pan_bind_Val in Hk as (h & Hh' & Hk).
  destruct (negb _) eqn:E; [done|]. to_prop. injection Hk as Hk <-. to_prop.
  destruct (b_PrevBlockId b) as [prev|] eqn:Ep; [|done].
  eexists b, _, x, prev, pre', h. split_and!; try done.
  - unfold bp_Block. by rewrite Hm -Hb.
  - unfold bp_Height. cbn. by rewrite E.
Qed.

(** A pack that passes is the next block of the ledger. *)
Lemma checked_follows G l aq c d bp bp' :
  ledger G → follows G l → chain_rep d l → no_clash G [bp] →
  (∀ x, aq ≤ GetCommitedCnt (Some x) → ∃ g, g ∈ G ∧ Block_hash g = Val x) →
  checkBlockPack o GetCommitedCnt (Some bp) aq c d = Val (true, bp') →
  ∃ p x, bp' = Some p ∧ bp_BlockId p = Val (Some x) ∧ bp_Height p = Val (Z.of_nat (length l)) ∧
    (∀ q, q ∈ l → bp_BlockId q ≠ Val (Some x)) ∧ follows G (l ++ [p]) ∧
    Z.of_nat (length l) + 1 < 2^63.
Proof.
  intros HG Hf Hr Hc Hpeers Hk.
  apply checkBlockPack_true in Hk as (b & p & x & prev & pre & h & Hb & Hx & -> & Hi & Hdup & Hprev & Hget & Hh & Hp & Hn).
  destruct (Hpeers x Hn) as (g & Hg & Hgx).
  pose proof (Hc bp b g x ltac:(set_solver) Hb Hg Hx Hgx) as Hsame.
  apply list_elem_of_lookup in Hg as [i Hg].
  destruct (rep_not_committed d l _ Hr Hdup) as (? & [= <-] & Hnew).
  destruct (rep_GetCommitByID d l prev Hr) as (r & Hr1 & Hr2). rewrite Hget in Hr1. injection Hr1 as <-.
  destruct (proj1 (Hr2 pre) eq_refl) as [[k Hpre]%list_elem_of_lookup Hpi].
  rewrite (rep_height d l Hr k pre Hpre) in Hh. injection Hh as <-.
  destruct (Hf k pre Hpre) as (gk & xk & Hgk & Hxk & Hpi'). rewrite Hpi in Hpi'. injection Hpi' as <-.
  assert (∀ q, l !! i = Some q → False) as Hout.
  { intros q Hq. destruct (Hf i q Hq) as (g' & x' & Hg' & Hx' & Hq').
    rewrite Hg in Hg'. injection Hg' as <-. rewrite Hgx in Hx'. injection Hx' as <-.
    by apply (Hnew q); [eapply list_elem_of_lookup_2|]. }
  assert (i = S k) as ->.
  { destruct i as [|j].
    - exfalso. destruct l as [|q l]; [done|]. by apply (Hout q).
    - destruct (lookup_lt_is_Some_2 G j) as [gj Hgj]; [apply lookup_lt_Some in Hg; lia|].
        destruct (lg_hash G HG j gj Hgj) as [xj Hxj].
      pose proof (lg_linked G HG j gj g xj Hgj Hg Hxj) as Hlink.
      f_equal. apply (lg_ids G HG j k gj gk xj); try done. congruence. }
  apply lookup_lt_Some in Hpre as Hlt. pose proof (lg_bound G HG). apply lookup_lt_Some in Hg as Hlg.
  assert (S k = length l) as Hlen.
  { destruct (decide (S k < length l)%nat) as [Hl|]; [|lia].
    apply lookup_lt_is_Some_2 in Hl as [q Hq]. by destruct (Hout q). }
  eexists _, x. split_and!; [done|done| |done| |lia].
  - rewrite Hp. f_equal. rewrite wrap64_small; [lia|unfold i64; lia].
  - intros j q [[Hj _]|[-> ->]]%lookup_snoc_cases; [by apply Hf|]. exists g, x. by rewrite -Hlen.
Qed.

(** *** The loop over an answer *)
Lemma synced_frame G l : frame (synced G l) not_chain.
Proof.
  split.
  - intros w d Hs (l' & Hf & Hr). exists l'. split; [done|].
    eapply chain_rep_same; [exact Hs|intros r Hn; apply Hn; exists r; auto..|exact Hr].
  - intros w w' Hd Hc (l' & Hf & Hr). exists l'. by rewrite Hd.
Qed.
Lemma wp_append l w p x (Q : unit → World → Prop) (E : World → Prop) :
  chain_rep (w_db w) l → bp_BlockId p = Val (Some x) → bp_Height p = Val (Z.of_nat (length l)) →
  (∀ q, q ∈ l → bp_BlockId q ≠ Val (Some x)) → Z.of_nat (length l) + 1 < 2^63 →
  (∀ w', chain_rep (w_db w') (l ++ [p]) → w_cluster w' = w_cluster w → Q tt w') →
  (∀ w', chain_rep (w_db w') l → E w') →
  wp (run_db (JustCommitIt p)) Q E w.
Proof.
  intros Hr Hx Hh Hnew Hlen HQ HE. unfold run_db. apply wp_zoom. unfold wp.
  destruct (JustCommitIt p (w_db w)) as [[] d'|f d'] eqn:Ej.
  - apply HQ; [|done]. by eapply JustCommitIt_rep; [exact Hr|exact Ej|..].
  - apply HE. unfold JustCommitIt, mbind, go_bind, lift, modify in Ej. rewrite Hh Hx in Ej.
    destruct (Marshal p); [done|]. by injection Ej as _ <-.
Qed.

Section Loop.
Variables (G : list Block) (l : list BlockPack) (aq : Z).
Hypothesis G_ledger : ledger G.
Hypothesis peers : ∀ x, aq ≤ GetCommitedCnt (Some x) → ∃ g, g ∈ G ∧ Block_hash g = Val x.

(** One block: the check, and the append if it passes. *)
Lemma wp_sync_one {A} bp (k : option BlockPack → go World A) (no : go World A) w :
  no_clash G [bp] → synced G l w →
  (∀ w', synced G l w' → wp no (λ _, synced G l) (synced G l) w') →
  (∀ p w', (∀ Q, (∀ w'', synced G l w'' → Q tt w'') → ∀ w1, w_db w1 = w_db w' →
              wp (run_db (JustCommitIt p)) Q (synced G l) w1) →
     synced G l w' → wp (k (Some p)) (λ _, synced G l) (synced G l) w') →
  wp (c ← gets w_cluster;
      '(r, block) ← ask (checkBlockPack o GetCommitedCnt (Some bp) aq c);
      if negb r then no else k block) (λ _, synced G l) (synced G l) w.
Proof.
  intros Hc Hw Hno Hk. apply wp_bind, wp_gets, wp_bind, wp_reads; [|done].
  intros [[] bp'] Hchk; cbn [negb]; [|by apply Hno].
  pose proof Hw as (l' & Hf & Hr).
  destruct (checked_follows G (l ++ l') aq _ _ bp bp' G_ledger Hf Hr Hc peers Hchk)
    as (p & x & -> & Hx & Hh & Hnew & Hf' & Hlen).
  apply Hk; [|done]. intros Q HQ w1 Hw1.
  apply (wp_append (l ++ l') w1 p x); try done; [by rewrite Hw1| |].
  - intros w2 Hr2 _. apply HQ. exists (l' ++ [p]). by rewrite !assoc_L.
  - intros w2 Hr2. by exists l'.
Qed.
Lemma wp_sync_commits packs : ∀ w, no_clash G packs → synced G l w →
  wp (sync_commits o GetCommitedCnt aq packs) (λ _, synced G l) (synced G l) w.
Proof.
  induction packs as [|bp packs IH]; intros w Hc Hw; [done|]. cbn [sync_commits].
  apply wp_sync_one; [|done|by intros|].
  { intros q b g x Hq. apply Hc. set_solver. }
  intros p w1 Hp Hw1. cbn [deref]. apply wp_bind, wp_lift; [intros ? [= <-]|done].
  apply wp_bind, Hp; [|done]. intros w2 Hw2.
  apply (wp_bind_keep (synced G l)); [apply (keep_Add _ not_chain), synced_frame|done|done|].
  intros [] w3 Hw3. apply IH; [|done]. intros q b g x Hq. apply Hc. set_solver.
Qed.

Lemma keep_tx_write (f : db → pan db) :
  (∀ d d', f d = Val d' → same_but tx_keys d d') → keep (synced G l) (tell f).
Proof.
  intros Hf. eapply keep_tell; [apply synced_frame|]. intros d d' Hd.
  eapply same_but_mono; [apply tx_not_chain|by apply Hf].
Qed.
Lemma keep_index_txs txs : ∀ idx h, keep (synced G l) (index_txs idx txs h).
Proof.
  induction txs as [|tx txs IH]; intros idx h; [apply keep_ret|]. cbn [index_txs].
  apply keep_bind; [apply keep_lift|intros wt].
  apply keep_bind; [apply keep_tx_write; intros ??; apply SetTxLookupEntry_same|intros _].
  apply keep_bind; [apply keep_tx_write; intros ??; apply SetTxIdMap_same|intros _].
  apply keep_bind; [apply keep_tx_write; intros ??; apply SetTxIdMap_same|intros _]. apply IH.
Qed.
Lemma wp_simple_sync_commits packs : ∀ w, no_clash G packs → synced G l w →
  wp (simple_sync_commits o GetCommitedCnt getFederationAddress aq packs)
     (λ _, synced G l) (synced G l) w.
Proof.
  induction packs as [|bp packs IH]; intros w Hc Hw; [done|]. cbn [simple_sync_commits].
  apply wp_sync_one; [|done|by intros|].
  { intros q b g x Hq. apply Hc. set_solver. }
  intros p w1 Hp Hw1. cbn [deref].
  apply wp_bind, wp_lift; [intros block [= <-]|done].
  apply wp_bind, wp_lift; [intros reconfig _|done].
  apply wp_bind, wp_lift; [intros height _|done].
  apply wp_bind, wp_lift; [intros b _|done].
  apply wp_bind, wp_lift; [intros b' _|done].
  apply wp_bind. apply (wp_mono _ (λ _ w2, w_db w2 = w_db w1) _ (synced G l)); [|intros [] w2 Hw2|done].
  { apply wp_when; [intros _|done]. apply wp_bind, wp_lift; [intros rc _|done].
    apply wp_updates; [|done]. by intros w2 (c' & _ & [= <-])%pan_bind_Val. }
  apply wp_bind, Hp; [|done]. intros w3 Hw3.
  apply (wp_bind_keep (synced G l)); [apply keep_lift|done|done|]. intros term w4 Hw4.
  apply (wp_bind_keep (synced G l)); [|done|done|].
  { eapply keep_tell_key; [apply synced_frame|apply SetNodeTerm_same|apply not_chain_term]. }
  intros _ w5 Hw5. apply (wp_bind_keep (synced G l)); [apply keep_index_txs|done|done|].
  intros _ w6 Hw6. apply IH; [|done]. intros q g b'' x Hq. apply Hc. set_solver.
Qed.
End Loop.

(** ** Theorems *)


(** A peer whose answers promise more but begin with a block that fails the
    check keeps the synchronisation running for ever: each round leaves the node as
    it was, so the next request is the same, and while the loop holds the flag no
    other synchronisation can start. *)
Theorem bad_peer_blocks_sync (startMode : Mode) (rsp : SyncUpResponse) (w : World) (n : nat) :
  sy_More rsp = true → sy_Fresh rsp = None → sy_StrongAccuse rsp = None →
  (∀ bp, head (sy_Commits rsp) = Some bp → ∃ p,
     checkBlockPack o GetCommitedCnt (Some bp) (AccuseQuorumN (w_cluster w)) (w_cluster w) (w_db w)
       = Val (false, p)) →
  doSyncUp o GetCommitedCnt getFederationAddress startMode (replicate n (Some rsp)) w = Ret SyncRunning w ∧
  canRun (canRun 0).2 = (false, 1).
Proof.
  intros Hm Hfr Hsa Hc. split; [|done].
  assert (sync_commits o GetCommitedCnt (AccuseQuorumN (w_cluster w)) (sy_Commits rsp) w = Ret tt w ∧
          simple_sync_commits o GetCommitedCnt getFederationAddress (AccuseQuorumN (w_cluster w))
            (sy_Commits rsp) w = Ret tt w) as [Hf Hs].
  { destruct (sy_Commits rsp) as [|bp l]; [done|]. destruct (Hc bp eq_refl) as [p Hp].
    cbn [sync_commits simple_sync_commits].
    split; rewrite bind_gets; by rewrite (bind_ask _ _ _ _ Hp). }
  induction n as [|n IH]; [done|]. cbn [replicate doSyncUp]. rewrite bind_gets Hm.
  rewrite (bind_Ret _ _ w () w); [exact IH|]. destruct (bool_decide _); [exact Hs|].
  unfold processSyncUpResponse. rewrite (bind_Ret _ _ w () w); [|exact Hf]. by rewrite Hfr Hsa.
Qed.

(** A block that lets a node join deletes the node when it is already listed
    and normal: the test that should skip the addition chooses the branch of a
    leave. *)
Theorem join_of_listed_node_deletes (rc : Reconfig) (c : Cluster) :
  cluster_wf c → rc_Type rc = JOIN → IsNodeExist c (rc_NodeId rc) = true →
  node_at c (rc_NodeId rc) ≫= (λ n, mret (IsNormal n)) = Val true →
  ∃ c', reconfigure getFederationAddress rc c = Val c' ∧
    ClusterSize c' = ClusterSize c - 1 ∧
    node_at c' (rc_NodeId rc) ≫= (λ n, mret (IsNormal n)) = Val false.
Proof.
  intros Hwf Hj He Hn. destruct (DeleteNode_spec c (rc_NodeId rc) Hwf) as (c1 & Hd & _ & Hdel & _).
  destruct (Hdel Hn) as [Hs Hb]. exists (SetCurrMultiSig (getFederationAddress c1) c1).
  split; [|by split]. unfold reconfigure. by rewrite He andb_false_r Hd.
Qed.
End SyncLemmas.
