(* ===== verification/Node.v ===== *)
(** * A node: its entry points, its events and its goroutines
    (src/node/node.go, src/node/rpc_handlers.go, src/cluster/peer_manager.go)

    [Node] puts the parts together: the block store with its pool and node list
    ([World]), the leader, the accuser, and what the other goroutines wait for.
    An event of the block store calls its subscribers one after the other, and a
    subscriber that calls a handler emits that handler's events before it goes
    on; so a goroutine is a list of [Work] still to do, of which an item may put
    others in front of the rest. A request for a signature, which does not take the mutex of the block
    store, is two items. [node_run] lets one goroutine do its first item:
    its orders are the interleavings of the goroutines.

    A send on a channel of another goroutine is put into the mailbox of that
    goroutine and the sender goes on, where the code waits until the message is
    taken. Packets are appended to [nd_out]. What the
    connected chains push is in [Intake.v], the joining of a federation in [Join.v].
    The configuration file that a join or leave rewrites and the contract calls are not
    modelled. *)
From S2P Require Import Prelude.
From S2P Require Import GoLib.
From S2P Require Import Crypto.
From S2P Require Import Messages.
From S2P Require Import Feed.
From S2P Require Import ProtoOps.
From S2P Require Import Cluster.
From S2P Require Import Store.
From S2P Require Import DbOps.
From S2P Require Import TxPool.
From S2P Require Import Validation.
From S2P Require Import Consensus.
From S2P Require Import Handlers.
From S2P Require Import Debug.
From S2P Require Import Accuser.
From S2P Require Import Leader.
From S2P Require Import SyncDaemon.
From S2P Require Import Peers.
From S2P Require Import ChainTx.
From S2P Require Import SignTx.
From S2P Require Import LeaderTx.
From S2P Require Import Distribution.
From S2P Require Import Signing.
From S2P Require Import Intake.

Definition syncUpBatchSize : Z := 100.
(** [util.NowMs()] at a time in nanoseconds. *)
Definition NowMs (now : Z) : Z := now / 1000000.

(** What one node sends to another; the name of the constructor is the name of
    the remote call. *)
Inductive Msg : Type :=
  | NotifyInitMsg (m : InitMsg)
  | NotifyPrepareMsg (m : PrepareMsg)
  | NotifyCommitMsg (m : CommitMsg)
  | NotifyWeakAccuse (m : WeakAccuse)
  | NotifyStrongAccuse (m : StrongAccuse)
  | NotifyVote (m : Vote)
  | NotifyJoin (m : JoinRequest)
  | NotifyJoinCheckSynced (m : JoinRequest)
  | NotifyLeave (m : LeaveRequest)
  | NotifyHeatbeat (m : HeatbeatMsg)
  | NotifySignTx (m : SignTxRequest)
  | NotifySignedResult (m : SignedResult).
Record Packet : Type := { pk_to : Z; pk_msg : Msg }.

(** The channels of the leader. *)
Inductive LeaderIn : Type :=
  | newTermChan (t : Z)
  | newCommittedChan (bp : BlockPack)
  | voteChan (v : Vote)
  | nodeHostChan (h : string)
  | leaveNodeChan (i : Z).

(** What a goroutine still has to do. *)
Inductive Work : Type :=
  | HandleInitMsg (m : InitMsg)
  | HandlePrepareMsg (m : PrepareMsg)
  | HandleCommitMsg (m : CommitMsg)
  | HandleWeakAccuse (m : WeakAccuse)
  | HandleStrongAccuse (m : StrongAccuse)
  | HandleJoinRequest (m : JoinRequest)
  | HandleJoinCheckSyncedRequest (m : JoinRequest)
  | HandleLeaveRequest (m : LeaveRequest)
  | Emit (e : Event)
  | Broadcast (m : Msg) (excludeSelf : bool)
  | SettleJoin (host : string) (nodeId : Z) (pubkey : string)
  | SettleLeave (nodeId : Z)
  | SyncAnswer (rsp : SyncUpResponse)
  | SyncCommits (accuseQuorumN : Z) (commits : list BlockPack)
  | SyncFresh (fresh : option BlockPack)
  | HandleSignTx (m : SignTxRequest)
  | SignEnd (m : SignTxRequest) (wt : WatchedTxInfo) (nodeTerm : Z) (check : SignCheck)
  | DoSave (m : SignedResult)
  | SaveEnd (m : SignedResult) (loc : nat) (req : SignTxRequest)
  | CheckTx (tx : waitingConfirmTx)
  | SignFresh (txs : list WatchedTxInfo)
  | SendSign (tx : WatchedTxInfo) (newly : NewlyTx)
  | BroadcastSign (req : SignTxRequest) (nodes : list NodeInfo) (quorumN : Z)
  | FormerSigs (sigs : list MultiSigInfo)
  | FormerChains (todo : list (string * string)) (sigs : list MultiSigInfo)
  | FormerTurn (k : nat) (todo : list (string * string)) (sigs : list MultiSigInfo)
  | MintDone (txHash scTxId : string).

(** An index below the length of a slice panics when it is negative. *)
Definition assert_index (i : Z) : pan unit := if 0 <=? i then mret tt else Fault IndexOutOfRange.

(** The configuration of a node as far as it is read here. *)
Record Config : Type := {
  cf_newNodeHost : string; cf_newNodePubkey : string;
  cf_mintFeeRate : Z; cf_burnFeeRate : Z; cf_accounts : Accounts;
  cf_ConfirmTolerance : Z; cf_signTimeout : Z; cf_confirms : string → Z;
  cf_minimums : Minimums
}.

(** ** The start of the goroutines ([Run]) *)
Inductive Goroutine : Type :=
  | GTxStore | GAccuser | GLeader | GSaveSignedResult | GCheckSignTimeout | GSyncDaemon | GWatchNewTx | GVoteDaemon
  | GDealWaitingChan | GWatchWaitingConfirmTx | GRegularSyncUp.
(** In the order in which they are started; an observer takes no part in the consensus, a test node does
    not even synchronise. *)
Definition Run (startMode : Mode) : list Goroutine :=
  let acts := negb (bool_decide (startMode = ModeWatch)) && negb (bool_decide (startMode = ModeTest)) in
  let syncs := negb (bool_decide (startMode = ModeTest)) in
  [GTxStore] ++ (if acts then [GAccuser; GLeader; GSaveSignedResult; GCheckSignTimeout] else []) ++
  (if syncs then [GSyncDaemon] else []) ++
  (if acts then [GWatchNewTx; GVoteDaemon; GDealWaitingChan; GWatchWaitingConfirmTx] else []) ++
  (if syncs then [GRegularSyncUp] else []).
(** What the interrupt signal does (src/server.go): whether the node asks to leave first. *)
Definition leaves_on_interrupt (startMode : Mode) : bool :=
  negb (bool_decide (startMode = ModeWatch)) && negb (bool_decide (startMode = ModeTest)).

Section Node.
Context `{KV} `{Wire} `{Watchers} `{Signatures} `{DistJson} `{Chains}.
(** The id and key of the node, its configuration, the peers whose connections for
    transactions are all in use, the answers of the peers to [IsCommited], the
    address that the coin libraries compute. *)
Variables (self : Z) (signer : SecureSigner) (conf : Config) (exhausted : gset Z).
Variable GetCommitedCnt : option Digest256 → Z.
Variable getFederationAddress : Cluster → MultiSigInfo.

(** [nd_heap] and [nd_cache] are the counters of [Signing.v], [nd_waiting] what waits for
    its confirmation, [nd_signIn] and [nd_txIn] the channels of these goroutines;
    [nd_former]: the goroutine of the former addresses is in its loop. *)
Record Node : Type := MkNode {
  nd_world : World;
  nd_peers : gset Z;
  nd_leader : Leader;
  nd_accuser : Accuser;
  nd_threads : list (list Work);
  nd_leaderIn : list LeaderIn;
  nd_accuserIn : list Trigger;
  nd_voteIn : list Z;
  nd_voteTimer : bool;
  nd_syncIn : list Z;
  nd_heap : list SignedResultCache;
  nd_cache : gmap string nat;
  nd_waiting : gmap string waitingConfirmTx;
  nd_signIn : list SignedResult;
  nd_txIn : list waitingConfirmTx;
  nd_hasTxToSign : bool;
  nd_former : bool;
  nd_leaderCnt : Z;
  nd_out : list Packet
}.
Definition set_world w n := MkNode w (nd_peers n) (nd_leader n) (nd_accuser n) (nd_threads n) (nd_leaderIn n)
  (nd_accuserIn n) (nd_voteIn n) (nd_voteTimer n) (nd_syncIn n) (nd_heap n) (nd_cache n) (nd_waiting n)
  (nd_signIn n) (nd_txIn n) (nd_hasTxToSign n) (nd_former n) (nd_leaderCnt n) (nd_out n).
Definition set_peers p n := MkNode (nd_world n) p (nd_leader n) (nd_accuser n) (nd_threads n) (nd_leaderIn n)
  (nd_accuserIn n) (nd_voteIn n) (nd_voteTimer n) (nd_syncIn n) (nd_heap n) (nd_cache n) (nd_waiting n)
  (nd_signIn n) (nd_txIn n) (nd_hasTxToSign n) (nd_former n) (nd_leaderCnt n) (nd_out n).
Definition set_leader l n := MkNode (nd_world n) (nd_peers n) l (nd_accuser n) (nd_threads n) (nd_leaderIn n)
  (nd_accuserIn n) (nd_voteIn n) (nd_voteTimer n) (nd_syncIn n) (nd_heap n) (nd_cache n) (nd_waiting n)
  (nd_signIn n) (nd_txIn n) (nd_hasTxToSign n) (nd_former n) (nd_leaderCnt n) (nd_out n).
Definition set_accuser a n := MkNode (nd_world n) (nd_peers n) (nd_leader n) a (nd_threads n) (nd_leaderIn n)
  (nd_accuserIn n) (nd_voteIn n) (nd_voteTimer n) (nd_syncIn n) (nd_heap n) (nd_cache n) (nd_waiting n)
  (nd_signIn n) (nd_txIn n) (nd_hasTxToSign n) (nd_former n) (nd_leaderCnt n) (nd_out n).
Definition set_threads t n := MkNode (nd_world n) (nd_peers n) (nd_leader n) (nd_accuser n) t (nd_leaderIn n)
  (nd_accuserIn n) (nd_voteIn n) (nd_voteTimer n) (nd_syncIn n) (nd_heap n) (nd_cache n) (nd_waiting n)
  (nd_signIn n) (nd_txIn n) (nd_hasTxToSign n) (nd_former n) (nd_leaderCnt n) (nd_out n).
Definition set_leaderIn q n := MkNode (nd_world n) (nd_peers n) (nd_leader n) (nd_accuser n) (nd_threads n) q
  (nd_accuserIn n) (nd_voteIn n) (nd_voteTimer n) (nd_syncIn n) (nd_heap n) (nd_cache n) (nd_waiting n)
  (nd_signIn n) (nd_txIn n) (nd_hasTxToSign n) (nd_former n) (nd_leaderCnt n) (nd_out n).
Definition set_accuserIn q n := MkNode (nd_world n) (nd_peers n) (nd_leader n) (nd_accuser n) (nd_threads n)
  (nd_leaderIn n) q (nd_voteIn n) (nd_voteTimer n) (nd_syncIn n) (nd_heap n) (nd_cache n) (nd_waiting n)
  (nd_signIn n) (nd_txIn n) (nd_hasTxToSign n) (nd_former n) (nd_leaderCnt n) (nd_out n).
Definition set_vote q b n := MkNode (nd_world n) (nd_peers n) (nd_leader n) (nd_accuser n) (nd_threads n)
  (nd_leaderIn n) (nd_accuserIn n) q b (nd_syncIn n) (nd_heap n) (nd_cache n) (nd_waiting n) (nd_signIn n)
  (nd_txIn n) (nd_hasTxToSign n) (nd_former n) (nd_leaderCnt n) (nd_out n).
Definition set_syncIn q n := MkNode (nd_world n) (nd_peers n) (nd_leader n) (nd_accuser n) (nd_threads n)
  (nd_leaderIn n) (nd_accuserIn n) (nd_voteIn n) (nd_voteTimer n) q (nd_heap n) (nd_cache n) (nd_waiting n)
  (nd_signIn n) (nd_txIn n) (nd_hasTxToSign n) (nd_former n) (nd_leaderCnt n) (nd_out n).
Definition set_heap h n := MkNode (nd_world n) (nd_peers n) (nd_leader n) (nd_accuser n) (nd_threads n)
  (nd_leaderIn n) (nd_accuserIn n) (nd_voteIn n) (nd_voteTimer n) (nd_syncIn n) h (nd_cache n) (nd_waiting n)
  (nd_signIn n) (nd_txIn n) (nd_hasTxToSign n) (nd_former n) (nd_leaderCnt n) (nd_out n).
Definition set_cache m n := MkNode (nd_world n) (nd_peers n) (nd_leader n) (nd_accuser n) (nd_threads n)
  (nd_leaderIn n) (nd_accuserIn n) (nd_voteIn n) (nd_voteTimer n) (nd_syncIn n) (nd_heap n) m (nd_waiting n)
  (nd_signIn n) (nd_txIn n) (nd_hasTxToSign n) (nd_former n) (nd_leaderCnt n) (nd_out n).
Definition set_waiting m n := MkNode (nd_world n) (nd_peers n) (nd_leader n) (nd_accuser n) (nd_threads n)
  (nd_leaderIn n) (nd_accuserIn n) (nd_voteIn n) (nd_voteTimer n) (nd_syncIn n) (nd_heap n) (nd_cache n) m
  (nd_signIn n) (nd_txIn n) (nd_hasTxToSign n) (nd_former n) (nd_leaderCnt n) (nd_out n).
Definition set_signIn q n := MkNode (nd_world n) (nd_peers n) (nd_leader n) (nd_accuser n) (nd_threads n)
  (nd_leaderIn n) (nd_accuserIn n) (nd_voteIn n) (nd_voteTimer n) (nd_syncIn n) (nd_heap n) (nd_cache n)
  (nd_waiting n) q (nd_txIn n) (nd_hasTxToSign n) (nd_former n) (nd_leaderCnt n) (nd_out n).
Definition set_txIn q n := MkNode (nd_world n) (nd_peers n) (nd_leader n) (nd_accuser n) (nd_threads n)
  (nd_leaderIn n) (nd_accuserIn n) (nd_voteIn n) (nd_voteTimer n) (nd_syncIn n) (nd_heap n) (nd_cache n)
  (nd_waiting n) (nd_signIn n) q (nd_hasTxToSign n) (nd_former n) (nd_leaderCnt n) (nd_out n).
Definition set_hasTxToSign b n := MkNode (nd_world n) (nd_peers n) (nd_leader n) (nd_accuser n) (nd_threads n)
  (nd_leaderIn n) (nd_accuserIn n) (nd_voteIn n) (nd_voteTimer n) (nd_syncIn n) (nd_heap n) (nd_cache n)
  (nd_waiting n) (nd_signIn n) (nd_txIn n) b (nd_former n) (nd_leaderCnt n) (nd_out n).
Definition set_former b n := MkNode (nd_world n) (nd_peers n) (nd_leader n) (nd_accuser n) (nd_threads n)
  (nd_leaderIn n) (nd_accuserIn n) (nd_voteIn n) (nd_voteTimer n) (nd_syncIn n) (nd_heap n) (nd_cache n)
  (nd_waiting n) (nd_signIn n) (nd_txIn n) (nd_hasTxToSign n) b (nd_leaderCnt n) (nd_out n).
Definition set_leaderCnt k n := MkNode (nd_world n) (nd_peers n) (nd_leader n) (nd_accuser n) (nd_threads n)
  (nd_leaderIn n) (nd_accuserIn n) (nd_voteIn n) (nd_voteTimer n) (nd_syncIn n) (nd_heap n) (nd_cache n)
  (nd_waiting n) (nd_signIn n) (nd_txIn n) (nd_hasTxToSign n) (nd_former n) k (nd_out n).
Definition set_out q n := MkNode (nd_world n) (nd_peers n) (nd_leader n) (nd_accuser n) (nd_threads n)
  (nd_leaderIn n) (nd_accuserIn n) (nd_voteIn n) (nd_voteTimer n) (nd_syncIn n) (nd_heap n) (nd_cache n)
  (nd_waiting n) (nd_signIn n) (nd_txIn n) (nd_hasTxToSign n) (nd_former n) (nd_leaderCnt n) q.

Definition on_world {A} (m : go World A) : go Node A := zoom nd_world set_world m.
Definition on_leader {A} (m : go Leader A) : go Node A := zoom nd_leader set_leader m.
Definition on_pool {A} (m : go Pool A) : go Node A := on_world (run_pool m).
Definition to_leader (x : LeaderIn) : go Node unit := modify (λ n, set_leaderIn (nd_leaderIn n ++ [x]) n).
Definition to_accuser (x : Trigger) : go Node unit := modify (λ n, set_accuserIn (nd_accuserIn n ++ [x]) n).
Definition node_db (n : Node) : db := w_db (nd_world n).
Definition the_cluster (n : Node) : Cluster := w_cluster (nd_world n).

(** A handler of the block store in one step, as under the mutex, with its events. *)
Definition locked (m : go World unit) : go Node (list Work) :=
  _ ← on_world (modify (set_w_tasks []));
  _ ← on_world m;
  es ← on_world (gets w_tasks);
  _ ← on_world (modify (set_w_tasks []));
  mret (Emit <$> es).

(** ** Sending (src/cluster/peer_manager.go) *)

(** The peers that get a broadcast, in the order of the map. *)
Fixpoint targets (c : Cluster) (ids : list Z) (excludeSelf selectSome : bool) (sentN : Z) : pan (list Z) :=
  match ids with
  | [] => mret []
  | nodeId :: l =>
      n ← node_at c nodeId;
      if negb (IsNormal n) then targets c l excludeSelf selectSome sentN
      else if excludeSelf && (nodeId =? self) then targets c l excludeSelf selectSome sentN
      else if selectSome && (AccuseQuorumN c + 2 <=? sentN) then mret []
      else ids ← targets c l excludeSelf selectSome (sentN + 1); mret (nodeId :: ids)
  end.
Definition send_to (ids : list Z) (m : Msg) : go Node unit :=
  modify (λ n, set_out (nd_out n ++ ((λ i, {| pk_to := i; pk_msg := m |}) <$> ids)) n).
Definition broadcast (o : order) (m : Msg) (excludeSelf selectSome : bool) : go Node unit :=
  n ← gets id;
  ids ← lift (targets (the_cluster n) (ord o 50 (elements (nd_peers n))) excludeSelf selectSome 0);
  send_to ids m.
(** The calls of one peer; nothing is sent to a node that is not a peer. *)
Definition notify (nodeId : Z) (m : Msg) : go Node unit :=
  n ← gets id; when (bool_decide (nodeId ∈ nd_peers n)) (send_to [nodeId] m).
Definition SignalSyncUp (nodeId : Z) : go Node unit :=
  when (negb (nodeId =? self)) (modify (λ n, set_syncIn (nd_syncIn n ++ [nodeId]) n)).
(** The peers that answered that they committed the block. *)
Definition count_commited (answers : list (option bool)) : Z :=
  Z.of_nat (length (filter (λ a, a = Some true) answers)).

(** ** The subscribers of the events *)
Definition accuse_record (now term term' kind : Z) (reason : string) : go Node unit :=
  n ← gets id;
  l ← lift (LeaderNodeOfTerm (the_cluster n) term');
  on_world (tell (λ d, mret (SetAccuseRecord now term self l kind reason d))).
Definition SaveSnapshot (snapshot : Snapshot) : go Node unit :=
  n ← gets id;
  _ ← on_world (tell (DbOps.SetMultiSigSnapshot (MultiSigSnapshot (the_cluster n))));
  match GetLatestSigInfo (the_cluster n) with
  | None => mret tt
  | Some multiSig =>
      _ ← on_world (tell (SetClusterSnapshot (BchAddress multiSig) snapshot));
      on_world (tell (SetClusterSnapshot (BtcAddress multiSig) snapshot))
  end.
Definition on_cluster (f : Cluster → pan Cluster) : go Node unit :=
  on_world (updates (λ w, c ← f (w_cluster w); mret (set_w_cluster c w))).
Definition drop_waiting (txs : list Transaction) (m : gmap string waitingConfirmTx)
    : pan (gmap string waitingConfirmTx) :=
  foldl (λ m tx, m ← m; wt ← deref (tx_WatchedTx tx); mret (delete (wt_Txid wt) m)) (mret m) txs.
(** The locked map is as the panic of the loop leaves it, and lost with it. *)
Definition onNewBlockCommitted (pack : BlockPack) : go Node unit :=
  b ← lift (bp_Block pack);
  match b with
  | None => mret tt
  | Some b => updates (λ n, m ← drop_waiting (b_Txs b) (nd_waiting n); mret (set_waiting m n))
  end.

Definition on_inited (o : order) (fresh : BlockPack) : go Node (list Work) :=
  init ← lift (deref (bp_Init fresh));
  _ ← when (im_NodeId init =? self) (broadcast o (NotifyInitMsg init) true false);
  info ← lift (bp_BlockInfo fresh);
  prepare ← lift (MakePrepareMsg info self signer);
  mret (match prepare with
        | None => []
        | Some p => [HandlePrepareMsg p; Broadcast (NotifyPrepareMsg p) true]
        end).
Definition on_prepared (fresh : BlockPack) : go Node (list Work) :=
  info ← lift (bp_BlockInfo fresh);
  commit ← lift (MakeCommitMsg info self signer);
  mret (match commit with
        | None => []
        | Some m => [HandleCommitMsg m; Broadcast (NotifyCommitMsg m) true]
        end).
Definition on_lower_term (msg : Progress) : go Node (list Work) :=
  match msg with
  | ProgressInit _ => mret []
  | ProgressPrepare m =>
      info ← lift (NewBlockInfoLite (pm_Term m) (pm_Height m) (pm_BlockId m));
      p ← lift (MakePrepareMsg info self signer);
      p ← lift (error_is_nil p);
      _ ← notify (pm_NodeId m) (NotifyPrepareMsg p); mret []
  | ProgressCommit m =>
      info ← lift (NewBlockInfoLite (cm_Term m) (cm_Height m) (cm_BlockId m));
      p ← lift (MakeCommitMsg info self signer);
      p ← lift (error_is_nil p);
      _ ← notify (cm_NodeId m) (NotifyCommitMsg p); mret []
  end.
(** The first half of a join: what comes before the node waits until no fresh
    transaction is left. *)
Definition on_joined (host : string) (nodeId : Z) (pubkey : string) (vote : option Vote)
    : go Node (list Work) :=
  _ ← on_world (tell (λ d, mret (DeleteJoinNodeInfo d)));
  vote ← lift (deref vote);
  n ← gets id;
  _ ← on_leader (justAddVote (node_db n) vote);
  _ ← to_leader (nodeHostChan "");
  _ ← on_cluster (λ c, mret (AddMultiSigInfo (CurrMultiSig c) c));
  n ← gets id;
  _ ← SaveSnapshot (GetSnapshot (the_cluster n));
  mret [SettleJoin host nodeId pubkey].
Definition settled (n : Node) : bool :=
  negb (HasFreshWatchedTx (p_ts (w_pool (nd_world n))) || nd_hasTxToSign n).
Definition settle_join (host : string) (nodeId : Z) (pubkey : string) : go Node (list Work) :=
  _ ← on_cluster (λ c, AddNode host nodeId pubkey "" c);
  _ ← on_cluster (λ c, mret (SetCurrMultiSig (getFederationAddress c) c));
  n ← gets id;
  info ← lift (node_at (the_cluster n) nodeId);
  _ ← modify (λ n, set_peers ({[ Id info ]} ∪ nd_peers n) n);
  mret [].
Definition mark_left (nodeId : Z) (s : Snapshot) : Snapshot :=
  {| sn_NodeList := mark nodeId false (sn_NodeList s); sn_ClusterSize := sn_ClusterSize s;
     sn_TotalNodeCount := sn_TotalNodeCount s; sn_QuorumN := sn_QuorumN s;
     sn_AccuseQuorumN := sn_AccuseQuorumN s |}.
Definition on_left (nodeId : Z) : go Node (list Work) :=
  _ ← on_world (tell (λ d, mret (DeleteLeaveNodeInfo d)));
  _ ← to_leader (leaveNodeChan (-1));
  _ ← on_cluster (λ c, mret (AddMultiSigInfo (CurrMultiSig c) c));
  n ← gets id;
  _ ← when (bool_decide (ClusterSnapshot (the_cluster n) = None)) (on_cluster (λ c, mret (CreateSnapShot c)));
  n ← gets id;
  s ← lift (deref (ClusterSnapshot (the_cluster n)));
  _ ← (if nodeId <? Z.of_nat (length (sn_NodeList s)) then
         _ ← lift (assert_index nodeId);
         _ ← on_cluster (λ c, mret (set_snapshot c (Some (mark_left nodeId s))));
         SaveSnapshot (mark_left nodeId s)
       else mret tt);
  mret [SettleLeave nodeId].
Definition settle_leave (nodeId : Z) : go Node (list Work) :=
  _ ← on_cluster (λ c, DeleteNode nodeId c);
  _ ← on_cluster (λ c, mret (DelSnapShot c));
  n ← gets id;
  _ ← lift (node_at (the_cluster n) nodeId);
  _ ← on_cluster (λ c, mret (SetCurrMultiSig (getFederationAddress c) c));
  mret [].

(** The subscribers of an event, in the order of their subscription. *)
Definition emitted (o : order) (now : Z) (e : Event) : go Node (list Work) :=
  match e with
  | NeedSyncUpEvent nodeId => _ ← SignalSyncUp nodeId; mret []
  | NewInitedEvent fresh => on_inited o fresh
  | NewPreparedEvent fresh => on_prepared fresh
  | NewCommittedEvent newTop =>
      _ ← to_leader (newCommittedChan newTop);
      _ ← onNewBlockCommitted newTop;
      _ ← on_pool (OnNewBlockCommitted newTop); mret []
  | CommittedInLowerTermEvent msg => on_lower_term msg
  | NewTermEvent term =>
      _ ← to_leader (newTermChan term);
      _ ← modify (λ n, set_vote (nd_voteIn n ++ [term]) (nd_voteTimer n) n); mret []
  | NewWeakAccuseEvent term =>
      _ ← accuse_record (NowMs now) term term 1 "bs accuse"; _ ← to_accuser (TriggerByBlockStore term); mret []
  | NewStrongAccuseEvent sc =>
      _ ← lift (StrongAccuse_DebugString o sc);
      t ← lift (accuse_term o 51 sc); t' ← lift (accuse_term o 54 sc);
      _ ← accuse_record (NowMs now) t t' 2 ""; mret [HandleStrongAccuse sc; Broadcast (NotifyStrongAccuse sc) true]
  | StrongAccuseProcessedEvent sc =>
      _ ← lift (StrongAccuse_DebugString o sc);
      t ← lift (accuse_term o 52 sc);
      _ ← on_pool (OnTermChanged (t +i64 1));
      t ← lift (accuse_term o 53 sc);
      _ ← to_accuser (OnTermChange (t +i64 1)); mret []
  | OnJoinEvent host => _ ← to_leader (nodeHostChan host); mret []
  | JoinedEvent host nodeId pubkey vote => on_joined host nodeId pubkey vote
  | JoinCancelEvent => _ ← to_leader (nodeHostChan ""); mret []
  | OnLeaveEvent nodeId =>
      _ ← on_cluster (λ c, mret (CreateSnapShot c));
      _ ← on_cluster (λ c, DeleteNode nodeId c);
      _ ← to_leader (leaveNodeChan nodeId); mret []
  | LeavedEvent nodeId => on_left nodeId
  | LeaveCancelEvent nodeId =>
      _ ← on_cluster (λ c, RecoverNode nodeId c); _ ← to_leader (leaveNodeChan (-1)); mret []
  | SignHandledEvent msg =>
      _ ← on_pool (DeleteFresh (sd_TxId msg)); _ ← broadcast o (NotifySignedResult msg) false false; mret []
  | SignedTxEvent txId msgId chainType tokenTo =>
      _ ← modify (λ n, set_txIn (nd_txIn n ++ [waiting_for now txId msgId chainType tokenTo]) n); mret []
  end.

(** ** Signing (src/node/node_sign.go, src/node/leader.go)

    The part of the node that collects shares; the events that it emits are put in
    front of what the goroutine has to do. *)
Definition sign_view (n : Node) : SignNode :=
  MkSignNode (w_pool (nd_world n)) (nd_heap n) (nd_cache n) (nd_waiting n) [].
Definition set_sign (s : SignNode) (n : Node) : Node :=
  set_waiting (sg_waiting s) (set_cache (sg_cache s) (set_heap (sg_heap s)
    (set_world (set_w_pool (sg_pool s) (nd_world n)) n))).
Definition signing {A} (m : go SignNode A) : go Node (A * list Event) :=
  zoom sign_view set_sign (a ← m; es ← gets sg_events; mret (a, es)).
Definition signing_work (m : go SignNode unit) : go Node (list Work) :=
  '(_, es) ← signing m; mret (Emit <$> es).

Definition in_charge : go Node bool :=
  n ← gets id; lift (isInCharge self (the_cluster n) (nd_leader n)).
(** One transfer of the loop of [createTransaction]; at the end of the loop the goroutine
    waits for its next tick. *)
Definition sign_fresh (txs : list WatchedTxInfo) : go Node (list Work) :=
  match txs with
  | [] => _ ← modify (set_hasTxToSign false); mret []
  | tx :: l =>
      charge ← in_charge;
      if negb charge then _ ← on_pool (AddFreshWatchedTx (Some tx)); mret [SignFresh l]
      else
        n ← gets id;
        newly ← on_pool (create_newly (cf_mintFeeRate conf) (cf_burnFeeRate conf) (cf_accounts conf) (the_cluster n) tx);
        match newly with
        | None => mret [SignFresh l]
        | Some None =>
            _ ← when (negb (IsDistributionTx tx)) (on_pool (AddFreshWatchedTx (Some tx))); mret [SignFresh l]
        | Some (Some newly) => mret [SendSign tx newly; SignFresh l]
        end
  end.
Definition sign_request (now : Z) (tx : WatchedTxInfo) (newly : NewlyTx) (address : string)
    : go Node (option SignTxRequest) :=
  n ← gets id;
  t ← lift (GetNodeTerm (node_db n));
  lift (MakeSignTxMsg (Unix now) t self (Some tx) (Some newly) address signer).
Definition send_sign (now : Z) (tx : WatchedTxInfo) (newly : NewlyTx) : go Node (list Work) :=
  req ← sign_request now tx newly "";
  match req with
  | None => mret []
  | Some req =>
      charge ← in_charge;
      if negb charge then _ ← on_pool (AddFreshWatchedTx (Some tx)); mret []
      else n ← gets id; mret [BroadcastSign req (NodeList (the_cluster n)) (QuorumN (the_cluster n))]
  end.
(** Whether the connections of a node for transactions are in use; [None] for a node that
    is no peer. *)
Definition peer_exhausted (n : Node) (nodeId : Z) : option bool :=
  if bool_decide (nodeId ∈ nd_peers n) then Some (bool_decide (nodeId ∈ exhausted)) else None.
(** The goroutine sleeps and asks again until enough nodes are available. *)
Definition broadcast_sign (req : SignTxRequest) (nodes : list NodeInfo) (quorumN : Z) : go Node (list Work) :=
  n ← gets id;
  availableCnt ← lift (GetTxConnAvailableCnt (peer_exhausted n) nodes);
  if availableCnt <? quorumN then mret [BroadcastSign req nodes quorumN]
  else
    _ ← for_each nodes (λ node, when (IsNormal node) (notify (Id node) (NotifySignTx req)));
    mret [].
(** The loops of [watchFormerMultisig]: over the former addresses, over the two chains,
    and over the transactions that empty an address. *)
Definition former_sigs (o : order) (sigs : list MultiSigInfo) : go Node (list Work) :=
  match sigs with
  | [] => _ ← modify (set_former false); mret []
  | multiSig :: l =>
      charge ← in_charge;
      if negb charge then _ ← modify (set_former false); mret []
      else mret [FormerChains (ord o 61 [("bch", BchAddress multiSig); ("btc", BtcAddress multiSig)]) l]
  end.
Definition former_chains (todo : list (string * string)) (sigs : list MultiSigInfo) : go Node (list Work) :=
  match todo with
  | [] => mret [FormerSigs sigs]
  | (chainType, address) :: _ => mret [FormerTurn (length (GetUnspentUtxo chainType address)) todo sigs]
  end.
(** A creation that fails is repeated with the outputs that were found before. *)
Definition former_turn (now : Z) (k : nat) (todo : list (string * string)) (sigs : list MultiSigInfo)
    : go Node (list Work) :=
  match k, todo with
  | S _, (chainType, address) :: _ =>
      let tx := {| wt_Txid := "TransferTx" +:+ FormatInt (NowMs now); wt_Amount := 0; wt_RechargeList := [];
                   wt_From := chainType; wt_To := chainType; wt_Fee := 0; wt_TokenFrom := 0; wt_TokenTo := 0 |} in
      n ← gets id;
      let snapshot := GetClusterSnapshot address (node_db n) in
      newly ← lift (createTransferTx chainType address snapshot);
      match newly with
      | None => mret [FormerTurn k todo sigs]
      | Some newly =>
          req ← sign_request now tx newly address;
          match req with
          | None => mret [FormerTurn k todo sigs]
          | Some req =>
              charge ← in_charge;
              if negb charge then _ ← modify (set_former false); mret []
              else
                s ← lift (deref snapshot);
                mret [BroadcastSign req (sn_NodeList s) (sn_QuorumN s); FormerChains todo sigs]
          end
      end
  | _, _ => mret [FormerChains (tail todo) sigs]
  end.

(** An answer of a peer, as [processSyncUpResponse] takes it: each block with its
    event, then each message of the block in progress, then the accusation. *)
Definition sync_block (o : order) (accuseQuorumN : Z) (commits : list BlockPack) : go Node (list Work) :=
  match commits with
  | [] => mret []
  | block :: l =>
      n ← gets id;
      '(r, block) ← lift (checkBlockPack o GetCommitedCnt (Some block) accuseQuorumN (the_cluster n) (node_db n));
      if negb r then mret []
      else
        block ← lift (deref block);
        _ ← on_world (run_db (JustCommitIt block));
        mret [Emit (NewCommittedEvent block); SyncCommits accuseQuorumN l]
  end.
Definition sync_fresh (o : order) (fresh : option BlockPack) : go Node (list Work) :=
  match fresh with
  | None => mret []
  | Some fresh =>
      n ← gets id;
      h ← lift (bp_Height fresh);
      ch ← lift (GetCommitHeight (node_db n));
      mret (if h >? ch then
              option_list (HandleInitMsg <$> bp_Init fresh) ++
              (HandlePrepareMsg <$> (range o 40 (bp_Prepares fresh)).*2) ++
              (HandleCommitMsg <$> (range o 41 (bp_Commits fresh)).*2)
            else [])
  end.

(** One item of work. *)
Definition do_work (o : order) (now : Z) (k : Work) : go Node (list Work) :=
  match k with
  | HandleInitMsg m => locked (handleInitMsg o m)
  | HandlePrepareMsg m => locked (handlePrepareMsg m)
  | HandleCommitMsg m => locked (handleCommitMsg m)
  | HandleWeakAccuse m => locked (handleWeakAccuse (Unix now) m)
  | HandleStrongAccuse m => locked (handleStrongAccuse o m)
  | HandleJoinRequest m => locked (handleJoinRequest m)
  | HandleJoinCheckSyncedRequest m => locked (_ ← handleJoinCheckSyncedRequest m; mret tt)
  | HandleLeaveRequest m => locked (handleLeaveRequest m)
  | Emit e => emitted o now e
  | Broadcast m excludeSelf => _ ← broadcast o m excludeSelf false; mret []
  | SettleJoin host nodeId pubkey =>
      n ← gets id; if settled n then settle_join host nodeId pubkey else mret [k]
  | SettleLeave nodeId => n ← gets id; if settled n then settle_leave nodeId else mret [k]
  | SyncAnswer rsp =>
      n ← gets id;
      mret (SyncCommits (AccuseQuorumN (the_cluster n)) (sy_Commits rsp) :: SyncFresh (sy_Fresh rsp) ::
            option_list (HandleStrongAccuse <$> sy_StrongAccuse rsp))
  | SyncCommits accuseQuorumN commits => sync_block o accuseQuorumN commits
  | SyncFresh fresh => sync_fresh o fresh
  | HandleSignTx m =>
      _ ← on_world (modify (set_w_tasks []));
      r ← on_world (sign_begin self signer (cf_mintFeeRate conf) (cf_burnFeeRate conf) (Unix now) m);
      es ← on_world (gets w_tasks);
      _ ← on_world (modify (set_w_tasks []));
      mret (match r with Some (wt, t, check) => [SignEnd m wt t check] | None => [] end ++ (Emit <$> es))
  | SignEnd m wt t check => locked (sign_end self signer m wt t check)
  | DoSave m =>
      '(r, _) ← signing (save_begin now m);
      mret (match r with Some (loc, req) => [SaveEnd m loc req] | None => [] end)
  | SaveEnd m loc req => n ← gets id; signing_work (save_end (the_cluster n) now m loc req)
  | CheckTx tx => signing_work (checkTxOnChain (cf_ConfirmTolerance conf) now (cf_confirms conf) tx)
  | SignFresh txs => sign_fresh txs
  | SendSign tx newly => send_sign now tx newly
  | BroadcastSign req nodes quorumN => broadcast_sign req nodes quorumN
  | FormerSigs sigs => former_sigs o sigs
  | FormerChains todo sigs => former_chains todo sigs
  | FormerTurn k todo sigs => former_turn now k todo sigs
  | MintDone txHash scTxId => signing_work (mint_done (Unix now) txHash scTxId)
  end.

(** ** Entry points (src/node/rpc_handlers.go)

    What a call from the network makes the node do; a message that fails its check
    is answered with an error and dropped. *)
Fixpoint votes_ok (c : Cluster) (o : order) (votes : list Vote) : pan bool :=
  match votes with
  | [] => mret true
  | v :: l => '(r, _) ← checkVote c o v; if r : bool then votes_ok c o l else mret false
  end.
Definition received (o : order) (m : Msg) : go Node (list Work) :=
  n ← gets id;
  let c := the_cluster n in
  match m with
  | NotifyInitMsg m =>
      '(r, m) ← lift (checkInit c o (Some m) CheckFull);
      m ← lift (deref m); mret (if r : bool then [HandleInitMsg m] else [])
  | NotifyPrepareMsg m => r ← lift (checkPrepare c m); mret (if r : bool then [HandlePrepareMsg m] else [])
  | NotifyCommitMsg m => r ← lift (checkCommit c m); mret (if r : bool then [HandleCommitMsg m] else [])
  | NotifyWeakAccuse m => r ← lift (checkWeakAccuse c m); mret (if r : bool then [HandleWeakAccuse m] else [])
  | NotifyStrongAccuse m =>
      r ← lift (checkStrongAccuse c o (Some m)); mret (if r : bool then [HandleStrongAccuse m] else [])
  | NotifyVote v =>
      '(r, v) ← lift (checkVote c o v);
      _ ← (if r : bool then to_leader (voteChan v) else _ ← lift (Vote_DebugString o v); mret tt); mret []
  | NotifyJoin m =>
      '(r, m) ← lift (checkJoinRequest c o (Some m) (cf_newNodeHost conf) (cf_newNodePubkey conf));
      mret (if r : bool then [HandleJoinRequest m] else [])
  | NotifyJoinCheckSynced m =>
      '(r, m) ← lift (checkJoinRequest c o (Some m) (cf_newNodeHost conf) (cf_newNodePubkey conf));
      mret (if r : bool then [HandleJoinCheckSyncedRequest m] else [])
  | NotifyLeave m =>
      r ← lift (checkLeaveRequest c (Some m)); mret (if r : bool then [HandleLeaveRequest m] else [])
  | NotifyHeatbeat m =>
      r ← lift (votes_ok c o (hb_Votes m));
      _ ← to_accuser (if r : bool then OnHeatbeatSuc m else OnHeatbeatFail); mret []
  | NotifySignTx m => r ← lift (checkSignTxRequest c (Some m)); mret (if r : bool then [HandleSignTx m] else [])
  | NotifySignedResult m =>
      r ← lift (checkSignedResult c (Some m));
      _ ← when r (modify (λ n, set_signIn (nd_signIn n ++ [m]) n)); mret []
  end.

(** The calls that only answer; [None] is the error for an invalid request. *)
Definition Echo (req : option EchoRequest) : option EchoResponse :=
  if checkEchoRequest req then (λ r, {| er_Nonce := eq_Nonce r |}) <$> req else None.
Definition SyncUp (msg : option SyncUpRequest) (needFresh : bool) (d : db)
    : pan (option (list (option BlockPack) * option BlockPack * option StrongAccuse * bool)) :=
  if checkSyncUpRequest msg then
    m ← deref msg; r ← genSyncUpResponse (su_BaseHeight m) syncUpBatchSize needFresh d; mret (Some r)
  else mret None.
Definition pb_node (n : NodeInfo) : PbNodeInfo :=
  {| ni_NodeId := Id n; ni_Name := Name n; ni_Pubkey := hex_encode (PublicKey n); ni_Host := Url n;
     ni_IsNormal := IsNormal n |}.
Definition pb_multisig (m : MultiSigInfo) : PbMultiSigInfo :=
  {| pms_BtcAddress := BtcAddress m; pms_BtcRedeemScript := BtcRedeemScript m;
     pms_BchAddress := BchAddress m; pms_BchRedeemScript := BchRedeemScript m |}.
Definition GetClusterNodes (n : Node) : pan PbNodeList :=
  h ← GetCommitHeight (node_db n);
  mret {| nl_NodeList := pb_node <$> NodeList (the_cluster n);
          nl_MultiSigInfoList := pb_multisig <$> GetMultiSigSnapshot (node_db n);
          nl_LeaderId := 0; nl_QuorumN := wrap32 (QuorumN (the_cluster n)); nl_BlockHeight := h |}.
Definition IsCommited (msg : option Digest256) (n : Node) : pan (option bool) :=
  if checkDigest msg then r ← IsCommitted msg (node_db n); mret (Some r) else mret None.

(** ** The goroutines *)
Definition do_leader_out (o : order) (e : LeaderOut) : go Node unit :=
  match e with
  | BecomeLeaderEvent _ => modify (λ n, set_leaderCnt (nd_leaderCnt n +i32 1) n)
  | RetireEvent _ => mret tt
  | NewInitEvent init => modify (λ n, set_threads (nd_threads n ++ [[HandleInitMsg init]]) n)
  | BroadcastHeatbeat m => broadcast o (NotifyHeatbeat m) false false
  end.
Definition leader_do (o : order) (m : Cluster → db → go Leader unit) : go Node unit :=
  n ← gets id;
  _ ← on_leader (m (the_cluster n) (node_db n));
  n ← gets id;
  _ ← on_leader (modify (set_ld_out []));
  for_each (ld_out (nd_leader n)) (do_leader_out o).
Definition leader_case (o : order) (x : LeaderIn) (c : Cluster) (d : db) : go Leader unit :=
  match x with
  | newTermChan t => updateTerm self c d o t
  | newCommittedChan bp => on_committed self c d o bp
  | voteChan v => addVote self c d o v
  | nodeHostChan h => modify (set_newNodeHost h)
  | leaveNodeChan i => modify (set_leavingNodeId i)
  end.
Definition leader_turn (o : order) : go Node unit :=
  n ← gets id;
  match nd_leaderIn n with
  | [] => mret tt
  | x :: q => _ ← modify (set_leaderIn q); leader_do o (leader_case o x)
  end.
Definition leader_tick (o : order) (now : Z) : go Node unit :=
  n ← gets id;
  leader_do o (λ c d, on_tick self signer c d o now (GetMemTxs o (p_ts (w_pool (nd_world n))))).

(** The vote of the node for the leader of its term, sent while the node has no
    block in progress and its term has no block yet. *)
Definition make_vote : go Node unit :=
  n ← gets id;
  let d := node_db n in
  fresh ← lift (GetFresh d);
  vote ← (if bool_decide (fresh = None) then
            t ← lift (GetNodeTerm d);
            top ← lift (GetCommitTop d); top ← lift (deref top);
            h ← lift (bp_Height top);
            wanted ← (if h =? 0 then mret true else tt' ← lift (bp_Term top); mret (t >? tt'));
            if wanted : bool then
              votie ← lift (GetVotie d); v ← lift (MakeVote t (Some votie) self signer); mret (Some v)
            else mret None
          else mret None);
  match vote with
  | None => modify (λ n, set_vote (nd_voteIn n) false n)
  | Some None => modify (λ n, set_vote (nd_voteIn n) true n)
  | Some (Some v) =>
      l ← lift (LeaderNodeOfTerm (the_cluster n) (v_Term v));
      _ ← notify l (NotifyVote v);
      modify (λ n, set_vote (nd_voteIn n) true n)
  end.
Definition vote_turn (timer : bool) : go Node unit :=
  n ← gets id;
  if timer then
    when (nd_voteTimer n) (_ ← modify (set_vote (nd_voteIn n) false); make_vote)
  else
    match nd_voteIn n with
    | [] => mret tt
    | _ :: q => _ ← modify (set_vote q (nd_voteTimer n)); make_vote
    end.

Definition accuser_do (o : order) (r : Readings) (t : Trigger) : go Node unit :=
  n ← gets id;
  '(ac, out) ← lift (ac_step self signer (r, t) (nd_accuser n));
  _ ← modify (set_accuser ac);
  match out with
  | Some wa => broadcast o (NotifyWeakAccuse wa) false false
  | None => mret tt
  end.
Definition accuser_turn (o : order) (r : Readings) : go Node unit :=
  n ← gets id;
  match nd_accuserIn n with
  | [] => mret tt
  | t :: q => _ ← modify (set_accuserIn q); accuser_do o r t
  end.

(** The heartbeat of the pool, whose event accuses the leader. *)
Definition pool_heartbeat (o : order) (now : Z) : go Node unit :=
  overdue ← on_pool (doHeartbeat o now);
  match overdue with
  | Some term => _ ← accuse_record (NowMs now) term term 1 "tx accuse"; to_accuser (TriggerByTxStore term)
  | None => mret tt
  end.
(** The goroutine [i] that waits for a join or a leave. *)
Definition watcher_turn (i : nat) : go Node unit :=
  n ← gets id;
  match w_waiting (nd_world n) !! i with
  | None => mret tt
  | Some g =>
      _ ← on_world (modify (set_w_tasks []));
      r ← on_world (watch_turn g);
      es ← on_world (gets w_tasks);
      _ ← on_world (modify (set_w_tasks []));
      _ ← on_world (modify (λ w, set_w_waiting
            (match r with Some g => <[i := g]> (w_waiting w) | None => delete i (w_waiting w) end) w));
      modify (λ n, set_threads (nd_threads n ++ [Emit <$> es]) n)
  end.
(** What the goroutines of signing do at their ticks. *)
Definition spawn_work (l : list Work) : go Node unit := modify (λ n, set_threads (nd_threads n ++ [l]) n).
Definition create_tick (o : order) : go Node unit :=
  n ← gets id;
  charge ← in_charge;
  when (charge && negb (nd_hasTxToSign n))
    (txs ← on_pool (GetFreshWatchedTxs o);
     when (negb (Nat.eqb (length txs) 0))
       (_ ← modify (set_hasTxToSign true); spawn_work [SignFresh (t_tx <$> txs)])).
Definition former_tick : go Node unit :=
  n ← gets id;
  when (negb (nd_former n))
    (_ ← modify (set_former true); spawn_work [FormerSigs (MultiSigSnapshot (the_cluster n))]).
Definition sign_turn : go Node unit :=
  n ← gets id;
  match nd_signIn n with
  | [] => mret tt
  | m :: q => _ ← modify (set_signIn q); spawn_work [DoSave m]
  end.
Definition confirm_turn : go Node unit :=
  n ← gets id;
  match nd_txIn n with
  | [] => mret tt
  | tx :: q => _ ← modify (set_txIn q); _ ← signing (dealWaitingChan tx); mret tt
  end.
(** [getWaitingTxCh]: each transaction that waits is checked by one of some goroutines. *)
Definition check_tick (o : order) : go Node unit :=
  n ← gets id; for_each (range o 62 (nd_waiting n)).*2 (λ tx, spawn_work [CheckTx tx]).
Definition push_turn (p : Push) : go Node unit :=
  '(mint, _) ← signing (watchNewTx (cf_minimums conf) p);
  match mint with None => mret tt | Some (txHash, scTxId) => spawn_work [MintDone txHash scTxId] end.
(** One tick of [regularSyncUp]; [perm] is the random order of the nodes. *)
Definition regularSyncUp (perm : list nat) : go Node unit :=
  n ← gets id;
  let nodes := NodeList (the_cluster n) in
  let numSync := if (5 <? length nodes)%nat then 5%nat else length nodes in
  for_each (take numSync perm) (λ k,
    node ← lift (match nodes !! k with Some node => mret node | None => Fault IndexOutOfRange end);
    when (IsNormal node) (SignalSyncUp (Id node))).
(** The process ends: its goroutines do nothing more. *)
Definition Stop : go Node unit := modify (set_threads []).
(** The handler of the interrupt signal; a request that cannot be signed is not sent, and the process
    ends after the handler all the same. *)
Definition LeaveCluster (o : order) : go Node unit :=
  msg ← lift (MakeLeaveRequest self "" signer);
  match msg with
  | None => mret tt
  | Some msg => _ ← broadcast o (NotifyLeave msg) true false; Stop
  end.
Definition node_run (o : order) (now : Z) (i : nat) : go Node unit :=
  n ← gets id;
  match nd_threads n !! i with
  | Some (k :: l) =>
      new ← do_work o now k;
      modify (λ n, set_threads (<[i := new ++ l]> (nd_threads n)) n)
  | _ => mret tt
  end.
Definition node_receive (o : order) (m : Msg) : go Node unit :=
  new ← received o m; modify (λ n, set_threads (nd_threads n ++ [new]) n).

(** ** Steps of a node

    Every step has a clock reading [now] in nanoseconds and the iteration order
    of the maps; the accuser reads the clock several times. *)
Inductive NodeStep : Type :=
  | NReceive (m : Msg)
  | NRun (i : nat)
  | NLeader
  | NTick
  | NVote (timer : bool)
  | NAccuser (r : Readings)
  | NAccuserTimer (r : Readings)
  | NPool
  | NHeartbeat
  | NWatch (i : nat)
  | NSync (rsp : SyncUpResponse)
  | NCreate
  | NFormer
  | NSign
  | NClearDone
  | NSignTimeout
  | NConfirm
  | NCheck
  | NPush (p : Push)
  | NOperator (call : OperatorCall)
  | NRegularSync (perm : list nat)
  | NInterrupt.
Definition node_do (o : order) (now : Z) (s : NodeStep) : go Node unit :=
  match s with
  | NReceive m => node_receive o m
  | NRun i => node_run o now i
  | NLeader => leader_turn o
  | NTick => leader_tick o (NowMs now)
  | NVote timer => vote_turn timer
  | NAccuser r => accuser_turn o r
  | NAccuserTimer r => accuser_do o r HeartbeatTimer
  | NPool => on_pool (run_step now)
  | NHeartbeat => pool_heartbeat o now
  | NWatch i => watcher_turn i
  | NSync rsp => spawn_work [SyncAnswer rsp]
  | NCreate => create_tick o
  | NFormer => former_tick
  | NSign => sign_turn
  | NClearDone => _ ← signing (clear_done now); mret tt
  | NSignTimeout => _ ← signing (checkSignTimeout o (cf_signTimeout conf) now); mret tt
  | NConfirm => confirm_turn
  | NCheck => check_tick o
  | NPush p => push_turn p
  | NOperator call => _ ← signing (recovered (operator (cf_minimums conf) now call)); mret tt
  | NRegularSync perm => regularSyncUp perm
  | NInterrupt => LeaveCluster o
  end.

(** A process that starts on a store: nothing in memory but the node list. *)
Definition NewBraftNode (interval now : Z) (d : db) (c : Cluster) : pan Node :=
  ld ← NewLeader d;
  t ← GetNodeTerm d;
  mret (MkNode (MkWorld (MkPool d NewTxStore) ∅ ∅ c [] [])
    (list_to_set (Id <$> filter (λ n, IsNormal n = true) (NodeList c)))
    ld (NewAccuser interval now now) [] [] [OnTermChange t] [] true [] [] ∅ ∅ [] [] false false 0 []).
(** The former addresses are those of the store, the current one is computed; [Run] reads the
    proposals of the store before anything else happens. *)
Definition node_start (interval now : Z) (d : db) (c : Cluster) : pan Node :=
  let c := Cluster.SetMultiSigSnapshot (GetMultiSigSnapshot d) c in
  n ← NewBraftNode interval now d (SetCurrMultiSig (getFederationAddress c) c);
  match on_pool LoadFromDB n with Ret _ n => mret n | Panic f _ => Fault f end.
End Node.

(** What a step takes from its surroundings: the iteration order of the maps, the time,
    the answers of the chains, and the peers whose connections for transactions are all in use. *)
Record Around : Type := { ar_order : order; ar_now : Z; ar_chains : Chains; ar_exhausted : gset Z }.

Section Runs.
Context `{KV} `{Wire} `{Watchers} `{Signatures} `{DistJson}.
Variables (self : Z) (signer : SecureSigner) (conf : Config).
Variable GetCommitedCnt : option Digest256 → Z.
Variable getFederationAddress : Cluster → MultiSigInfo.

(** A panic ends the process. It starts again on what the store holds, and what was
    sent stays sent; [None] when the start itself panics. *)
Definition node_next (a : Around) (s : NodeStep) (n : Node) : option Node :=
  let chains := ar_chains a in
  match node_do self signer conf (ar_exhausted a) GetCommitedCnt getFederationAddress (ar_order a) (ar_now a) s n with
  | Ret _ n' => Some n'
  | Panic _ n' =>
      match node_start getFederationAddress (AccuseInterval (nd_accuser n')) (ar_now a) (node_db n') (the_cluster n') with
      | Val fresh => Some (set_out (nd_out n') fresh)
      | Fault _ => None
      end
  end.
Fixpoint node_steps (ss : list (Around * NodeStep)) (n : Node) : option Node :=
  match ss with
  | [] => Some n
  | (a, s) :: l => n' ← node_next a s n; node_steps l n'
  end.
End Runs.
