(* ===== verification/NodeSign.v ===== *)
(** * Signing in a running node

    The leader asks for signatures only once enough nodes can be reached. A node of the list
    that is no peer, as a node that has left is after a restart, ends its process
    there. *)
From S2P Require Import Prelude.
From S2P Require Import GoLib.
From S2P Require Import Crypto.
From S2P Require Import Messages.
From S2P Require Import ProtoOps.
From S2P Require Import Cluster.
From S2P Require Import Peers.
From S2P Require Import Store.
From S2P Require Import DbOps.
From S2P Require Import TxPool.
From S2P Require Import Consensus.
From S2P Require Import ChainTx.
From S2P Require Import Distribution.
From S2P Require Import Signing.
From S2P Require Import Leader.
From S2P Require Import Accuser.
From S2P Require Import Node.

Section NodeSign.
Context `{KV} `{Wire} `{Watchers} `{Signatures} `{DistJson} `{Chains}.
Variables (self : Z) (signer : SecureSigner) (conf : Config) (exhausted : gset Z).
Variable GetCommitedCnt : option Digest256 → Z.
Variable getFederationAddress : Cluster → MultiSigInfo.
Implicit Types (n : Node) (o : order) (nodes : list NodeInfo).

Lemma started_peers interval now d c n : node_start getFederationAddress interval now d c = Val n →
  nd_peers n = list_to_set (Id <$> filter (λ m, IsNormal m = true) (NodeList c)).
Proof.
  unfold node_start, NewBraftNode. intros (n0 & (ld & _ & (t & _ & [= <-])%pan_bind_Val)%pan_bind_Val & Hn)%pan_bind_Val.
  revert Hn. unfold on_pool, on_world, zoom. destruct (run_pool LoadFromDB _) as [[] w|f w]; [|done]. by intros [= <-].
Qed.
(** An item of work that panics ends the step. *)
Lemma run_panics o now i k l f n :
  nd_threads n !! i = Some (k :: l) →
  do_work self signer conf exhausted GetCommitedCnt getFederationAddress o now k n = Panic f n →
  node_do self signer conf exhausted GetCommitedCnt getFederationAddress o now (NRun i) n = Panic f n.
Proof.
  intros Hi Hk. cbn [node_do]. unfold node_run. rewrite bind_gets_id Hi. by apply bind_Panic.
Qed.
(** A node that has left stays in the node list, but it is no peer of a process that
    starts later: the first request for signatures of such a leader counts the free
    connections of every listed node and dereferences nil, whatever the request. *)
Theorem left_node_stops_signing interval now0 d c n0 n left o now i req q l :
  node_start getFederationAddress interval now0 d c = Val n0 → nd_peers n = nd_peers n0 →
  left ∈ NodeList c → (∀ m, m ∈ NodeList c → Id m = Id left → IsNormal m = false) →
  nd_threads n !! i = Some (BroadcastSign req (NodeList c) q :: l) →
  node_do self signer conf exhausted GetCommitedCnt getFederationAddress o now (NRun i) n = Panic NilDeref n.
Proof.
  intros Hp%started_peers Heq Hin Hleft Hi. eapply run_panics; [exact Hi|].
  cbn [do_work]. unfold broadcast_sign. rewrite bind_gets_id. apply bind_Panic. unfold lift.
  rewrite (GetTxConnAvailableCnt_missing _ _ left); [done|done|].
  unfold peer_exhausted. rewrite bool_decide_eq_false_2; [done|]. rewrite Heq Hp elem_of_list_to_set.
  intros (m & Hm & [Hnm Hin'] %list_elem_of_filter)%list_elem_of_fmap. by rewrite (Hleft m) in Hnm.
Qed.
Lemma filter_peers n nodes : (∀ m, m ∈ nodes → Id m ∈ nd_peers n) →
  filter (λ m, peer_exhausted exhausted n (Id m) = Some false) nodes = filter (λ m, Id m ∉ exhausted) nodes.
Proof.
  induction nodes as [|m l IH]; intros Hall; [done|]. rewrite !filter_cons IH; [|set_solver].
  assert (peer_exhausted exhausted n (Id m) = Some (bool_decide (Id m ∈ exhausted))) as ->.
  { unfold peer_exhausted. rewrite bool_decide_eq_true_2; [done|]. apply Hall. set_solver. }
  destruct (decide (Some _ = _)) as [Hs|Hs]; destruct (decide (Id m ∉ exhausted)) as [Hx|Hx]; try done; exfalso.
  - apply Hx. intros Hin. by rewrite bool_decide_eq_true_2 in Hs.
  - apply Hs. by rewrite bool_decide_eq_false_2.
Qed.
Lemma run_notify_all nodes m : ∀ n, (∀ x, x ∈ nodes → Id x ∈ nd_peers n) →
  for_each nodes (λ x, when (IsNormal x) (notify (Id x) m)) n =
    Ret tt (set_out (nd_out n ++ ((λ x, {| pk_to := Id x; pk_msg := m |}) <$> filter (λ x, IsNormal x = true) nodes)) n).
Proof.
  induction nodes as [|x l IH]; intros n Hall; [by destruct n; unfold set_out; cbn; rewrite app_nil_r|].
  cbn [for_each]. rewrite filter_cons. destruct (IsNormal x) eqn:E; cbn [when].
  - rewrite (bind_Ret _ _ _ tt (set_out (nd_out n ++ [{| pk_to := Id x; pk_msg := m |}]) n)).
    2:{ unfold notify. rewrite bind_gets_id bool_decide_eq_true_2; [done|]. apply Hall. set_solver. }
    rewrite IH; [|intros y Hy; apply Hall; set_solver]. by rewrite /set_out /= -app_assoc.
  - rewrite bind_ret. apply IH. intros y Hy. apply Hall. set_solver.
Qed.
(** With every listed node a peer and a quorum of them reachable, the request goes to
    exactly the normal nodes, in the order of the list; with fewer the goroutine waits and
    nothing is sent. *)
Theorem sign_request_sent req nodes q n :
  (∀ m, m ∈ nodes → Id m ∈ nd_peers n) →
  let free := length (filter (λ m, Id m ∉ exhausted) nodes) in
  broadcast_sign exhausted req nodes q n =
    if Z.of_nat free <? q then Ret [BroadcastSign req nodes q] n
    else Ret [] (set_out (nd_out n ++ ((λ m, {| pk_to := Id m; pk_msg := NotifySignTx req |}) <$>
                                         filter (λ m, IsNormal m = true) nodes)) n).
Proof.
  intros Hall free. unfold broadcast_sign. rewrite bind_gets_id.
  rewrite (bind_lift _ _ _ (Z.of_nat free)).
  2:{ rewrite GetTxConnAvailableCnt_peers; [by rewrite filter_peers|]. intros m Hm. unfold peer_exhausted.
      rewrite bool_decide_eq_true_2; eauto. }
  destruct (_ <? q); [done|]. by rewrite (bind_Ret _ _ _ _ _ (run_notify_all nodes (NotifySignTx req) n Hall)).
Qed.
End NodeSign.
