(* ===== verification/Join.v ===== *)
(** * Joining the federation (src/node/node.go)

    A new node asks a member for the node list, copies it ([InitJoin]), stores the
    blocks of the members ([syncBeforeSendJoinReq]), asks the members to let it in until enough of
    them answer that it is up to date ([sendJoinCheckSyncedRequest]), waits until it is listed
    ([checkJoinSuccess]) and adds itself to its list ([RunNew]). What the members answer is an
    argument: a loop takes one round of answers per turn. *)
From S2P Require Import Prelude.
From S2P Require Import GoLib.
From S2P Require Import Crypto.
From S2P Require Import Messages.
From S2P Require Import Feed.
From S2P Require Import ProtoOps.
From S2P Require Import Cluster.
From S2P Require Import Store.
From S2P Require Import DbOps.
From S2P Require Import TxPool.
From S2P Require Import Consensus.
From S2P Require Import SyncDaemon.
From S2P Require Import ChainTx.
From S2P Require Import Distribution.
From S2P Require Import Node.

Record JoinMsg : Type := { jm_LocalID : Z; jm_MultiSigInfos : list MultiSigInfo }.
Definition SetInitNodeHeight (height : Z) (c : Cluster) : Cluster :=
  {| ClusterSize := ClusterSize c; TotalNodeCount := TotalNodeCount c; QuorumN := QuorumN c;
     AccuseQuorumN := AccuseQuorumN c; MaxFaultyN := MaxFaultyN c; NodeList := NodeList c;
     ClusterSnapshot := ClusterSnapshot c; NodeSigners := NodeSigners c; MultiSigSnapshot := MultiSigSnapshot c;
     CurrMultiSig := CurrMultiSig c; initNodeHeight := height |}.

(** ** The node list of a member *)
Section Start.
(** [coinmanager.GetMultiSigAddress]: the address and its script, for some keys, the number
    of signatures and the chain; [None] is an error. *)
Variable GetMultiSigAddress : list string → Z → string → option (string * bytes).

Definition getFederationAddressUsePubkeys (pubKeys : list string) (quorumN : Z) : pan MultiSigInfo :=
  '(btc, btcRedeem) ← error_is_nil (GetMultiSigAddress pubKeys quorumN "btc");
  '(bch, bchRedeem) ← error_is_nil (GetMultiSigAddress pubKeys quorumN "bch");
  mret {| BtcAddress := btc; BtcRedeemScript := btcRedeem; BchAddress := bch; BchRedeemScript := bchRedeem |}.
Definition getFederationAddress (c : Cluster) : pan MultiSigInfo :=
  getFederationAddressUsePubkeys (GetPubkeyList c) (QuorumN c).
Definition multisig_of_pb (m : PbMultiSigInfo) : MultiSigInfo :=
  {| BtcAddress := pms_BtcAddress m; BtcRedeemScript := pms_BtcRedeemScript m;
     BchAddress := pms_BchAddress m; BchRedeemScript := pms_BchRedeemScript m |}.

(** [nodeList] is the answer of the member [initHost], nil when the call fails. *)
Definition InitObserver (initHost : string) (nodeList : option PbNodeList) (c : Cluster)
    : pan (option string * Cluster) :=
  if bool_decide (initHost = "") then mret (Some "init_node_host is empty", c)
  else
    nl ← deref nodeList;
    let c := SetInitNodeHeight (nl_BlockHeight nl) c in
    if Nat.eqb (length (nl_NodeList nl)) 0 then mret (Some "get nodelist fail", c)
    else c ← InitWithNodeList nl c; mret (None, c).
Definition InitJoin (startMode : Mode) (initHost : string) (nodeList : option PbNodeList) (c : Cluster)
    : pan (JoinMsg * Cluster) :=
  if Nat.eqb (String.length initHost) 0 then mret ({| jm_LocalID := -1; jm_MultiSigInfos := [] |}, c)
  else
    nl ← deref nodeList;
    let c := SetInitNodeHeight (nl_BlockHeight nl) c in
    multiSig ← getFederationAddressUsePubkeys (GetPubkeys nl) (nl_QuorumN nl);
    let infos := (multisig_of_pb <$> nl_MultiSigInfoList nl) ++ [multiSig] in
    c ← InitWithNodeList nl c;
    if bool_decide (startMode = ModeJoin) then
      mret ({| jm_LocalID := wrap32 (Z.of_nat (length (nl_NodeList nl))); jm_MultiSigInfos := infos |}, CreateSnapShot c)
    else mret ({| jm_LocalID := 0; jm_MultiSigInfos := infos |}, c).
(** The configuration that [onJoined] also writes is not kept. *)
Definition onJoined (nodeInfo : NodeInfo) (c : Cluster) : Cluster := AddNodeInfo nodeInfo c.
(** The host and its status in the lists that the member answers, one per second. *)
Fixpoint check_polls (localHost : string) (polls : list (option PbNodeList)) : pan bool :=
  match polls with
  | [] => mret false
  | nodeList :: l =>
      nl ← deref nodeList;
      if existsb (λ n, bool_decide (ni_Host n = localHost) && ni_IsNormal n) (nl_NodeList nl) then mret true
      else check_polls localHost l
  end.
Definition checkJoinSuccess (localHost : string) (polls : list (option PbNodeList)) : pan bool :=
  check_polls localHost (take 20 polls).

(** The addresses that the watchers of the two Bitcoin chains are given, in order. *)
Definition changeFederationAddrs (hasBtc hasBch : bool) (latest : MultiSigInfo) (multiSigs : list MultiSigInfo)
    : list (string * string * bytes) :=
  let change m :=
    (if hasBtc then [("btc", BtcAddress m, BtcRedeemScript m)] else []) ++
    (if hasBch then [("bch", BchAddress m, BchRedeemScript m)] else []) in
  concat (change <$> multiSigs) ++
  if negb (bool_decide (BchAddress latest = "")) && negb (bool_decide (BtcAddress latest = ""))
  then change latest else [].
(** ** The start of the process (src/server.go) *)
Definition start_panic {A} (msg : string) : pan A := Fault (ExplicitPanic msg).
Definition require_set (s msg : string) : pan unit := if bool_decide (s = "") then start_panic msg else mret tt.
(** The node, its id and the old addresses that [RunNew] is given. *)
Definition server_run (v : Viper) (startMode : Mode) (nodeList : option PbNodeList)
    : pan (NodeInfo * Z * list MultiSigInfo * Cluster) :=
  let nodeId := GetInt v "DGW.local_id" in
  let initHost := GetString v "DGW.init_node_host" in
  '(nodeInfo, nodeId, multiSigs, c) ←
    (match startMode with
     | ModeNormal =>
         c ← Init v zeroCluster; nodeInfo ← node_at c nodeId; mret (nodeInfo, nodeId, [], c)
     | ModeJoin =>
         '(joinMsg, c) ← InitJoin ModeJoin initHost nodeList zeroCluster;
         let nodeId := jm_LocalID joinMsg in
         if nodeId >? Z.of_nat (length (NodeList c)) then start_panic "join invalid nodeid"
         else
           let host := GetString v "DGW.local_host" in
           _ ← require_set host "join not set local_host";
           let pubKey := GetString v "DGW.local_pubkey" in
           _ ← require_set pubKey "join not set local_pubkey";
           let pubKeyHash := GetString v "KEYSTORE.local_pubkey_hash" in
           _ ← require_set pubKeyHash "join not set pubkeyHash";
           '(nodeInfo, c) ← NewNodeInfo host nodeId pubKey pubKeyHash c;
           mret (nodeInfo, nodeId, jm_MultiSigInfos joinMsg, c)
     | ModeWatch | ModeTest =>
         '(err, c) ← InitObserver initHost nodeList zeroCluster;
         match err with
         | Some e => start_panic ("init observer err:" +:+ e)
         | None => mret ({| Id := 0; Name := ""; Url := ""; PublicKey := ""; IsNormal := false |}, nodeId, [], c)
         end
     end);
  _ ← (match startMode with
       | ModeNormal | ModeJoin => require_set (Url nodeInfo) "get no node info"
       | ModeWatch | ModeTest => mret tt
       end);
  if nodeId <? 0 then start_panic "Invalid nodeid" else mret (nodeInfo, nodeId, multiSigs, c).
End Start.

(** ** Coming up to date *)
Section Loops.
Context `{KV} `{Wire} `{Watchers} `{Signatures}.
Variables (self : Z) (signer : SecureSigner) (o : order).
Variable GetCommitedCnt : option Digest256 → Z.
Variable getFederationAddress : Cluster → MultiSigInfo.
(** The nodes that are peers. *)
Variable peers : gset Z.
Implicit Types (nodes : list NodeInfo) (finished synced : gset Z).

Definition join_sync (nodeId : Z) (rsps : list (option SyncUpResponse)) : go World SyncResult :=
  if bool_decide (nodeId ∈ peers) then doJoinSyncUp o GetCommitedCnt getFederationAddress rsps else mret SyncFailed.
Definition snapshot_quorum : go World Z :=
  c ← gets w_cluster; s ← lift (deref (ClusterSnapshot c)); mret (sn_QuorumN s).

(** One turn over the node list; [None]: a node still answers. *)
Fixpoint before_round (answers : Z → list (option SyncUpResponse)) nodes finished (syncedCnt : Z)
    : go World (option (gset Z * Z)) :=
  match nodes with
  | [] => mret (Some (finished, syncedCnt))
  | node :: l =>
      if negb (Id node =? self) then
        err ← (if bool_decide (Id node ∈ finished) then mret SyncDone else join_sync (Id node) (answers (Id node)));
        match err with
        | SyncFailed => before_round answers l finished syncedCnt
        | SyncDone => before_round answers l ({[ Id node ]} ∪ finished) (syncedCnt + 1)
        | SyncRunning => mret None
        end
      else before_round answers l finished syncedCnt
  end.
(** [None]: the loop has not ended when the rounds of answers have. *)
Fixpoint before_loop (rounds : list (Z → list (option SyncUpResponse))) finished (syncedCnt : Z)
    : go World (option (gset Z * Z)) :=
  quorum ← snapshot_quorum;
  if negb (syncedCnt <? quorum) then mret (Some (finished, syncedCnt))
  else match rounds with
  | [] => mret None
  | answers :: l =>
      c ← gets w_cluster;
      r ← before_round answers (NodeList c) finished syncedCnt;
      match r with None => mret None | Some (finished, syncedCnt) => before_loop l finished syncedCnt end
  end.
Definition syncBeforeSendJoinReq (rounds : list (Z → list (option SyncUpResponse))) : go World (option (gset Z * Z)) :=
  before_loop rounds ∅ 0.

(** *** The request to join *)
Definition createJoinReq (host pubkey : string) (d : db) : pan (option JoinRequest) :=
  curBlockPack ← GetCommitTop d;
  match curBlockPack with
  | None => mret None
  | Some bp =>
      term ← bp_Term bp;
      votie ← ToVotie bp;
      vote ← MakeVote term (Some votie) self signer;
      match vote with None => mret None | Some v => MakeJoinRequest host pubkey (Some v) signer end
  end.
(** A member answers the request with its id and whether the node is up to date, [None] is an
    error or nil; then come its answers to a synchronisation. *)
Definition Reply : Type := option JoinResponse * list (option SyncUpResponse).
Fixpoint check_round (host pubkey : string) (answers : Z → Reply) nodes synced (syncedCnt : Z)
    : go World (option (gset Z * Z)) :=
  match nodes with
  | [] => mret (Some (synced, syncedCnt))
  | node :: l =>
      if (Id node =? self) || negb (IsNormal node) || bool_decide (Id node ∈ synced)
      then check_round host pubkey answers l synced syncedCnt
      else
        msg ← ask (createJoinReq host pubkey);
        match msg with
        | None => check_round host pubkey answers l synced syncedCnt
        | Some _ =>
            let '(joinRes, rsps) := answers (Id node) in
            match joinRes with
            | None => check_round host pubkey answers l synced syncedCnt
            | Some res =>
                if negb (jp_Synced res) then
                  err ← join_sync (jp_NodeID res) rsps;
                  match err with
                  | SyncRunning => mret None
                  | _ => check_round host pubkey answers l synced syncedCnt
                  end
                else check_round host pubkey answers l ({[ jp_NodeID res ]} ∪ synced) (syncedCnt + 1)
            end
        end
  end.
Fixpoint check_loop (host pubkey : string) (rounds : list (Z → Reply)) synced (syncedCnt : Z)
    : go World (option (gset Z * Z)) :=
  quorum ← snapshot_quorum;
  if negb (syncedCnt <? quorum) then mret (Some (synced, syncedCnt))
  else match rounds with
  | [] => mret None
  | answers :: l =>
      c ← gets w_cluster;
      r ← check_round host pubkey answers (NodeList c) synced syncedCnt;
      match r with None => mret None | Some (synced, syncedCnt) => check_loop host pubkey l synced syncedCnt end
  end.
Definition sendJoinCheckSyncedRequest (host pubkey : string) (rounds : list (Z → Reply))
    : go World (option (gset Z * Z)) := check_loop host pubkey rounds ∅ 0.

End Loops.

(** ** The rest of [RunNew] *)
Section RunNew.
Context `{KV} `{Wire} `{Watchers} `{Signatures} `{DistJson} `{Chains}.
Variable getFederationAddress : Cluster → MultiSigInfo.
Definition run_joined (nodeInfo : NodeInfo) (multiSigInfos : list MultiSigInfo) : go Node unit :=
  _ ← on_cluster (λ c, mret (Cluster.SetMultiSigSnapshot multiSigInfos c));
  n ← gets id;
  s ← lift (deref (ClusterSnapshot (the_cluster n)));
  _ ← SaveSnapshot s;
  _ ← on_cluster (λ c, mret (onJoined nodeInfo c));
  on_cluster (λ c, mret (SetCurrMultiSig (getFederationAddress c) c)).
End RunNew.

(** * Properties *)

(** ** The copy of the node list *)
Lemma init_pb_nodes_copy l : ∀ c i, i = Z.of_nat (length (NodeList c)) →
  i + Z.of_nat (length l) < 2^31 → (∀ j n, l !! j = Some n → Id n = i + Z.of_nat j) →
  ∃ signers, init_pb_nodes i (pb_node <$> l) c =
    Val (set_nodes c (NodeList c ++ l) signers (ClusterSize c + normals l) (TotalNodeCount c)).
Proof.
  induction l as [|n l IH]; intros c i Hi Hb Hids.
  { exists (NodeSigners c). cbn. rewrite app_nil_r. unfold normals. cbn. rewrite Z.add_0_r. by destruct c. }
  cbn [fmap list_fmap init_pb_nodes pb_node ni_NodeId ni_Pubkey ni_Name ni_Host ni_IsNormal].
  cbn [length] in Hb. assert (Id n = i) as Hid by (rewrite (Hids 0%nat n); [lia|done]).
  rewrite wrap32_small; [|unfold i32; lia]. rewrite Hid Z.eqb_refl. cbn.
  unfold NewSecureSigner. rewrite hex_decode_encode. cbn.
  edestruct (IH (set_nodes c (NodeList c ++ [n]) (<[i := Signer (PublicKey n) (hex_encode (PublicKey n)) ""]> (NodeSigners c))
    (if IsNormal n then ClusterSize c + 1 else ClusterSize c) (TotalNodeCount c)) (i + 1)) as [signers Hs].
  { cbn. rewrite length_app. cbn. lia. }
  { lia. }
  { intros j m Hm. rewrite (Hids (S j) m); [lia|done]. }
  exists signers. replace {| Id := i; Name := Name n; Url := Url n; PublicKey := PublicKey n; IsNormal := IsNormal n |} with n
    by (destruct n; cbn in *; congruence).
  rewrite Hs. unfold set_nodes. cbn. rewrite -app_assoc. cbn.
  change (n :: l) with ([n] ++ l). rewrite normals_app normals_one. do 2 f_equal. destruct (IsNormal n); lia.
Qed.

(** The id of the configuration is an index before it is compared with the length of the list,
    so that the panic that names the bad id is never reached. *)
Lemma bad_local_id_panics getaddr v nl c : Init v zeroCluster = Val c →
  GetInt v "DGW.local_id" < 0 ∨ Z.of_nat (length (NodeList c)) ≤ GetInt v "DGW.local_id" →
  server_run getaddr v ModeNormal nl = Fault IndexOutOfRange.
Proof.
  intros Hc Hi. unfold server_run. rewrite Hc. cbn [mbind pan_bind]. unfold node_at.
  destruct (Z.ltb_spec (GetInt v "DGW.local_id") 0) as [|Hp]; [done|].
  rewrite lookup_ge_None_2; [done|]. lia.
Qed.

Section JoinAgrees.
Context `{KV} `{Wire} `{Watchers} `{Signatures} `{DistJson} `{Chains}.
Variable GetMultiSigAddress : list string → Z → string → option (string * bytes).

Lemma InitJoin_copies (c : Cluster) (h : Z) (sigs : list PbMultiSigInfo) (leader q : Z) initHost jm c1 :
  cluster_wf c → 0 < Z.of_nat (String.length initHost) →
  InitJoin GetMultiSigAddress ModeJoin initHost
    (Some {| nl_NodeList := pb_node <$> NodeList c; nl_MultiSigInfoList := sigs; nl_LeaderId := leader;
             nl_QuorumN := q; nl_BlockHeight := h |}) zeroCluster = Val (jm, c1) →
  jm_LocalID jm = TotalNodeCount c ∧ NodeList c1 = NodeList c ∧ ClusterSize c1 = ClusterSize c ∧
  TotalNodeCount c1 = TotalNodeCount c ∧ QuorumN c1 = QuorumN c ∧ AccuseQuorumN c1 = AccuseQuorumN c ∧
  MaxFaultyN c1 = MaxFaultyN c ∧ initNodeHeight c1 = h ∧ ClusterSnapshot c1 = Some (GetSnapshot c1).
Proof.
  intros Hwf Hh. unfold InitJoin. destruct (Nat.eqb _ 0) eqn:E; [apply Nat.eqb_eq in E; lia|].
  cbn [nl_NodeList nl_BlockHeight nl_QuorumN nl_MultiSigInfoList]. intros (nl & [= <-] & H')%pan_bind_Val.
  apply pan_bind_Val in H' as (ms & _ & (c2 & Hi & H')%pan_bind_Val). cbn in H'. injection H' as <- <-.
  unfold InitWithNodeList in Hi. apply pan_bind_Val in Hi as (c3 & Hp & [= <-]). cbn [nl_NodeList] in *.
  pose proof (wf_total c Hwf) as Ht. pose proof (wf_bound c Hwf) as Hb.
  destruct (init_pb_nodes_copy (NodeList c) (set_nodes (SetInitNodeHeight h zeroCluster) [] ∅ 0 0) 0)
    as [signers Hs]; [| | |rewrite Hs in Hp; injection Hp as <-].
  { done. }
  { cbn. lia. }
  { intros j n Hn. apply (wf_ids c Hwf) in Hn. lia. }
  cbn. rewrite length_fmap.
  rewrite (wf_accuse c Hwf) (wf_quorum c Hwf) (wf_faulty c Hwf) (wf_size c Hwf) Ht.
  split_and!; try done. rewrite wrap32_small; [done|unfold i32; lia].
Qed.

(** C28. A node that joins ends with the list of the member that it asked: its copy of the
    node list, the size and the thresholds, taken from what the member answers, is the
    member's, its id is the next one, and after it added itself and the member added it the
    two lists are equal, and so are the sizes and the numbers of faulty nodes. Its quorum, which is computed
    by another formula, is the same unless the number of nodes is a multiple of three, when it
    takes one node less for a quorum than the others. *)
Theorem joined_node_agrees (n : Node) host pubkey hash initHost nl jm c1 ni c2 cm :
  cluster_wf (the_cluster n) → 0 < Z.of_nat (String.length initHost) →
  GetClusterNodes n = Val nl →
  InitJoin GetMultiSigAddress ModeJoin initHost (Some nl) zeroCluster = Val (jm, c1) →
  NewNodeInfo host (jm_LocalID jm) pubkey hash c1 = Val (ni, c2) →
  AddNode host (jm_LocalID jm) pubkey "" (the_cluster n) = Val cm →
  let c3 := onJoined ni c2 in
  jm_LocalID jm = TotalNodeCount (the_cluster n) ∧
  NodeList c1 = NodeList (the_cluster n) ∧ QuorumN c1 = QuorumN (the_cluster n) ∧
  NodeList c3 = NodeList cm ∧ ClusterSize c3 = ClusterSize cm ∧ TotalNodeCount c3 = TotalNodeCount cm ∧
  MaxFaultyN c3 = MaxFaultyN cm ∧ AccuseQuorumN c3 = AccuseQuorumN cm ∧
  QuorumN c3 = QuorumN cm - (if ClusterSize cm mod 3 =? 0 then 1 else 0).
Proof.
  intros Hwf Hh (h & _ & [= <-])%pan_bind_Val Hj Hn Ha.
  apply (InitJoin_copies (the_cluster n)) in Hj as (Hid & Hl & Hs & Ht & Hq & _ & _ & _ & _); [|done..].
  pose proof (wf_total _ Hwf). pose proof (wf_bound _ Hwf). pose proof (wf_size _ Hwf). pose proof (normals_nonneg (NodeList (the_cluster n))).
  rewrite Hid in Hn, Ha. unfold NewNodeInfo in Hn. unfold AddNode in Ha.
  rewrite Ht in Hn. rewrite wrap32_small in Hn, Ha; [|unfold i32; lia..]. rewrite Z.eqb_refl in Hn, Ha. cbn [negb] in Hn, Ha.
  unfold NewSecureSigner in Hn, Ha. destruct (hex_decode pubkey) as [key|]; [|done]. cbn in Hn, Ha.
  injection Hn as <- <-. injection Ha as <-.
  cbn. rewrite Hl Hs Hq quorum_half_minus; [|lia]. by split_and!.
Qed.
End JoinAgrees.

(** ** What ends the loops *)
Section LoopProps.
Context `{KV} `{Wire} `{Watchers} `{Signatures}.
Variables (self : Z) (signer : SecureSigner) (o : order).
Variable GetCommitedCnt : option Digest256 → Z.
Variable getFederationAddress : Cluster → MultiSigInfo.
Variable peers : gset Z.
Implicit Types (nodes : list NodeInfo) (finished synced : gset Z) (w : World).
Notation before_round := (before_round self o GetCommitedCnt getFederationAddress peers).
Notation before_loop := (before_loop self o GetCommitedCnt getFederationAddress peers).
Notation check_round := (check_round self signer o GetCommitedCnt getFederationAddress peers).
Notation check_loop := (check_loop self signer o GetCommitedCnt getFederationAddress peers).

(** A response without blocks, the end of a synchronisation. *)
Definition nothing_new : SyncUpResponse :=
  {| sy_Commits := []; sy_Fresh := None; sy_StrongAccuse := None; sy_More := false |}.
(** Only [p] answers. *)
Definition only (p i : Z) : list (option SyncUpResponse) := if i =? p then [Some nothing_new] else [None].

Lemma join_sync_only p i w s : ClusterSnapshot (w_cluster w) = Some s →
  join_sync o GetCommitedCnt getFederationAddress peers i (only p i) w =
    Ret (if bool_decide (i ∈ peers) && (i =? p) then SyncDone else SyncFailed) w.
Proof.
  intros Hs. unfold join_sync, only. destruct (bool_decide (i ∈ peers)); [|done].
  destruct (i =? p); [|done]. cbn [andb doJoinSyncUp]. unfold mbind at 1, go_bind at 1. cbn [gets].
  rewrite (bind_lift _ _ _ s); [done|by rewrite Hs].
Qed.
Lemma before_round_only p nodes w s fin cnt : ClusterSnapshot (w_cluster w) = Some s →
  p ∈ peers → p ≠ self → NoDup (Id <$> nodes) → fin ⊆ {[ p ]} →
  before_round (only p) nodes fin cnt w =
    Ret (Some (if bool_decide (p ∈ Id <$> nodes) then ({[ p ]}, cnt + 1) else (fin, cnt))) w.
Proof.
  intros Hs Hp Hself. revert fin cnt. induction nodes as [|n l IH]; intros fin cnt Hnd Hf.
  { done. }
  cbn [fmap list_fmap] in Hnd. apply NoDup_cons in Hnd as [Hni Hnd].
  cbn [Join.before_round fmap list_fmap].
  destruct (Id n =? self) eqn:Es; cbn [negb]; to_prop.
  { rewrite IH; [|done..]. rewrite (bool_decide_ext (p ∈ Id n :: (Id <$> l)) (p ∈ Id <$> l)); [done|].
    rewrite elem_of_cons. naive_solver. }
  destruct (decide (Id n = p)) as [E|E].
  - subst p. rewrite (bool_decide_eq_true_2 (Id n ∈ Id n :: (Id <$> l))); [|left].
    assert (∃ b : bool, (if bool_decide (Id n ∈ fin) then mret SyncDone
        else join_sync o GetCommitedCnt getFederationAddress peers (Id n) (only (Id n) (Id n))) w = Ret SyncDone w) as [_ Hr].
    { exists true. destruct (bool_decide (Id n ∈ fin)); [done|]. rewrite (join_sync_only _ _ _ s); [|done].
      by rewrite Z.eqb_refl bool_decide_eq_true_2. }
    rewrite (bind_Ret _ _ _ _ _ Hr). rewrite IH; [|done|]; [|set_solver].
    rewrite bool_decide_eq_false_2; [|done]. do 4 f_equal. set_solver.
  - rewrite (bind_Ret _ _ _ SyncFailed w).
    2:{ rewrite bool_decide_eq_false_2; [|set_solver]. rewrite (join_sync_only _ _ _ s); [|done].
        destruct (Z.eqb_spec (Id n) p); [done|]. by rewrite andb_false_r. }
    rewrite IH; [|done..]. rewrite (bool_decide_ext (p ∈ Id n :: (Id <$> l)) (p ∈ Id <$> l)); [done|].
    rewrite elem_of_cons. naive_solver.
Qed.

Lemma before_loop_step rounds answers s fin cnt w : ClusterSnapshot (w_cluster w) = Some s → cnt < sn_QuorumN s →
  before_loop (answers :: rounds) fin cnt w =
  (r ← before_round answers (NodeList (w_cluster w)) fin cnt;
   match r with None => mret None | Some (fin, cnt) => before_loop rounds fin cnt end) w.
Proof.
  intros Hs Hc. cbn [Join.before_loop]. rewrite (bind_Ret _ _ _ (sn_QuorumN s) w).
  2:{ unfold snapshot_quorum, mbind, go_bind. cbn [gets]. by rewrite Hs. }
  destruct (Z.ltb_spec cnt (sn_QuorumN s)); [|lia]. done.
Qed.
Lemma check_loop_step host pubkey rounds answers s syn cnt w :
  ClusterSnapshot (w_cluster w) = Some s → cnt < sn_QuorumN s →
  check_loop host pubkey (answers :: rounds) syn cnt w =
  (r ← check_round host pubkey answers (NodeList (w_cluster w)) syn cnt;
   match r with None => mret None | Some (syn, cnt) => check_loop host pubkey rounds syn cnt end) w.
Proof.
  intros Hs Hc. cbn [Join.check_loop]. rewrite (bind_Ret _ _ _ (sn_QuorumN s) w).
  2:{ unfold snapshot_quorum, mbind, go_bind. cbn [gets]. by rewrite Hs. }
  destruct (Z.ltb_spec cnt (sn_QuorumN s)); [|lia]. done.
Qed.
(** At the quorum both loops end. *)
Lemma before_loop_end rounds s fin cnt w : ClusterSnapshot (w_cluster w) = Some s → sn_QuorumN s ≤ cnt →
  before_loop rounds fin cnt w = Ret (Some (fin, cnt)) w.
Proof.
  intros Hs Hc. destruct rounds; cbn [Join.before_loop]; (rewrite (bind_Ret _ _ _ (sn_QuorumN s) w);
    [destruct (Z.ltb_spec cnt (sn_QuorumN s)); [lia|done]|unfold snapshot_quorum, mbind, go_bind; cbn [gets]; by rewrite Hs]).
Qed.
Lemma check_loop_end host pubkey rounds s syn cnt w : ClusterSnapshot (w_cluster w) = Some s → sn_QuorumN s ≤ cnt →
  check_loop host pubkey rounds syn cnt w = Ret (Some (syn, cnt)) w.
Proof.
  intros Hs Hc. destruct rounds; cbn [Join.check_loop]; (rewrite (bind_Ret _ _ _ (sn_QuorumN s) w);
    [destruct (Z.ltb_spec cnt (sn_QuorumN s)); [lia|done]|unfold snapshot_quorum, mbind, go_bind; cbn [gets]; by rewrite Hs]).
Qed.

(** A joining node stores the blocks of as many members as make a quorum of the old
    federation before it asks to be let in, but the count is taken again from all the nodes that it has finished with
    at every round: one member that answers is enough. After as many rounds as the quorum has nodes, in which nobody
    else answered, the loop ends with that one member. *)
Theorem one_peer_ends_join_sync p w s q :
  ClusterSnapshot (w_cluster w) = Some s → sn_QuorumN s = Z.of_nat q → (0 < q)%nat →
  p ∈ peers → p ≠ self → NoDup (Id <$> NodeList (w_cluster w)) → p ∈ Id <$> NodeList (w_cluster w) →
  syncBeforeSendJoinReq self o GetCommitedCnt getFederationAddress peers (replicate q (only p)) w =
    Ret (Some ({[ p ]}, Z.of_nat q)) w.
Proof.
  intros Hs Hq Hq0 Hp Hself Hnd Hin. unfold syncBeforeSendJoinReq.
  assert (∀ k fin cnt, fin ⊆ {[ p ]} → cnt + Z.of_nat k = sn_QuorumN s → (k = 0%nat → fin = {[ p ]}) →
    before_loop (replicate k (only p)) fin cnt w = Ret (Some ({[ p ]}, Z.of_nat q)) w) as Hk.
  { induction k as [|k IH]; intros fin cnt Hf Hc Hfin.
    { rewrite (before_loop_end _ s); [|done|lia]. rewrite Hfin; [|done]. do 3 f_equal. lia. }
    cbn [replicate]. rewrite (before_loop_step _ _ s); [|done|lia].
    rewrite (bind_Ret _ _ _ _ _ (before_round_only p _ w s fin cnt Hs Hp Hself Hnd Hf)).
    rewrite bool_decide_eq_true_2; [|done]. apply IH; [done|lia|done]. }
  apply Hk; [set_solver|lia|lia].
Qed.

(** ** The members that let the node in *)
Lemma check_round_spec host pubkey answers :
  (∀ i res rsps, answers i = (Some res, rsps) → jp_Synced res = true → jp_NodeID res = i) →
  ∀ nodes syn cnt w r w', Z.of_nat (size syn) = cnt →
  check_round host pubkey answers nodes syn cnt w = Ret (Some r) w' →
  Z.of_nat (size r.1) = r.2 ∧
  ∀ i, i ∈ r.1 → i ∈ syn ∨ i ≠ self ∧ ∃ res rsps, answers i = (Some res, rsps) ∧ jp_Synced res = true.
Proof.
  intros Hown. induction nodes as [|n l IH]; intros syn cnt w r w' Hsz Hr; cbn [Join.check_round] in Hr.
  { injection Hr as <- <-. split; [done|by left]. }
  destruct (_ || _ || _) eqn:E; [by eapply IH|]. apply orb_false_iff in E as [[E1 E2]%orb_false_iff E3].
  apply bool_decide_eq_false in E3. apply Z.eqb_neq in E1.
  apply bind_Ret_inv in Hr as (msg & w1 & _ & Hr).
  destruct msg as [msg|]; [|by eapply IH]. destruct (answers (Id n)) as [[res|] rsps] eqn:Ea; [|by eapply IH].
  destruct (jp_Synced res) eqn:Es; cbn [negb] in Hr.
  - rewrite (Hown _ _ _ Ea Es) in Hr. apply IH in Hr as [Hr1 Hr2].
    2:{ rewrite size_union; [|set_solver]. rewrite size_singleton. lia. }
    split; [done|]. intros i Hi. apply Hr2 in Hi as [Hi|Hi]; [|by right].
    apply elem_of_union in Hi as [->%elem_of_singleton|Hi]; [|by left]. right. split; [done|]. by exists res, rsps.
  - apply bind_Ret_inv in Hr as (err & w2 & _ & Hr). destruct err; first [done|by eapply IH].
Qed.

(** C29. The members that a node waits for are different ones: when every member that says that
    the node is up to date says it under its own id, the node leaves the loop only when at least as many
    different members as the quorum of the old federation said so, none of them itself. *)
Theorem join_check_counts_members host pubkey rounds w synced cnt w' :
  (∀ answers, answers ∈ rounds → ∀ i res rsps, answers i = (Some res, rsps) → jp_Synced res = true → jp_NodeID res = i) →
  sendJoinCheckSyncedRequest self signer o GetCommitedCnt getFederationAddress peers host pubkey rounds w =
    Ret (Some (synced, cnt)) w' →
  (∃ s, ClusterSnapshot (w_cluster w') = Some s ∧ sn_QuorumN s ≤ Z.of_nat (size synced)) ∧
  ∀ i, i ∈ synced → i ≠ self ∧ ∃ answers res rsps, answers ∈ rounds ∧ answers i = (Some res, rsps) ∧ jp_Synced res = true.
Proof.
  unfold sendJoinCheckSyncedRequest. intros Hown.
  assert (∀ syn cnt0, Z.of_nat (size syn) = cnt0 →
    check_loop host pubkey rounds syn cnt0 w = Ret (Some (synced, cnt)) w' →
    (∃ s, ClusterSnapshot (w_cluster w') = Some s ∧ sn_QuorumN s ≤ Z.of_nat (size synced)) ∧
    ∀ i, i ∈ synced → i ∈ syn ∨ i ≠ self ∧ ∃ answers res rsps, answers ∈ rounds ∧ answers i = (Some res, rsps) ∧ jp_Synced res = true)
    as Hloop.
  { clear -Hown. revert w. induction rounds as [|a l IH]; intros w syn cnt0 Hsz Hr; cbn [Join.check_loop] in Hr;
      apply bind_Ret_inv in Hr as (q & w1 & Hq & Hr);
      apply bind_Ret_inv in Hq as (c & w2 & [= <- <-] & (s & ? & Hs & [= <- <-])%bind_Ret_inv);
      (destruct (ClusterSnapshot (w_cluster w)) as [s'|] eqn:Esn; [|done]); injection Hs as -> ->;
      destruct (_ <? _) eqn:El; cbn [negb] in Hr; to_prop.
    - done.
    - injection Hr as <- <- <-. split; [|by left]. exists s. split; [done|lia].
    - apply bind_Ret_inv in Hr as (c & ? & [= <- <-] & Hr). apply bind_Ret_inv in Hr as (r & w2 & Hr & Hl).
      destruct r as [[syn' cnt']|]; [|done].
      apply check_round_spec in Hr as [Hsz' Hin]; [|apply Hown; left|done].
      apply IH in Hl as [Hq Hl]; [|intros; eapply Hown; [right|..]; done|done].
      split; [done|]. intros i Hi. apply Hl in Hi as [Hi|(Hi & a' & res & rsps & ? & ?)].
      + apply Hin in Hi as [Hi|(Hi & res & rsps & ?)]; [by left|]. right. split; [done|]. exists a, res, rsps. split; [left|done].
      + right. split; [done|]. exists a', res, rsps. split; [by right|done].
    - injection Hr as <- <- <-. split; [|by left]. exists s. split; [done|lia]. }
  intros Hr. apply Hloop in Hr as [Hq Hr]; [|done]. split; [done|]. intros i Hi. apply Hr in Hi as [Hi|Hi]; [set_solver|done].
Qed.

(** [p] answers that the node is up to date, under the id [x]; the others do not answer. *)
Definition says_synced (p x i : Z) : Reply :=
  if i =? p then (Some {| jp_NodeID := x; jp_Synced := true |}, []) else (None, []).
Lemma check_round_lie host pubkey p x w m : 
  createJoinReq self signer host pubkey (w_db w) = Val (Some m) → p ≠ self →
  ∀ nodes syn cnt, (∀ n, n ∈ nodes → Id n = p → IsNormal n = true) →
  NoDup (Id <$> nodes) → x ∉ Id <$> nodes → syn ⊆ {[ x ]} → p ≠ x →
  check_round host pubkey (says_synced p x) nodes syn cnt w =
    Ret (Some (if bool_decide (p ∈ Id <$> nodes) then ({[ x ]}, cnt + 1) else (syn, cnt))) w.
Proof.
  intros Hm Hself. induction nodes as [|n l IH]; intros syn cnt Hn Hnd Hx Hsyn Hpx.
  { done. }
  cbn [fmap list_fmap] in Hnd, Hx. apply NoDup_cons in Hnd as [Hni Hnd]. apply not_elem_of_cons in Hx as [Hxn Hx].
  assert (∀ syn cnt, syn ⊆ {[ x ]} → check_round host pubkey (says_synced p x) l syn cnt w =
    Ret (Some (if bool_decide (p ∈ Id <$> l) then ({[ x ]}, cnt + 1) else (syn, cnt))) w) as IHl.
  { intros. apply IH; [|done..]. intros. apply Hn; [by right|done]. }
  clear IH. cbn [Join.check_round fmap list_fmap].
  destruct (decide (Id n = p)) as [E|E].
  - rewrite (Hn n); [|left|done]. rewrite (bool_decide_eq_true_2 (p ∈ Id n :: _)); [|rewrite E; left].
    destruct (Z.eqb_spec (Id n) self); [congruence|]. rewrite (bool_decide_eq_false_2 (Id n ∈ syn)); [|set_solver]. cbn [orb negb].
    rewrite (bind_Ret _ _ _ (Some m) w). 2:{ unfold ask, reads. by rewrite Hm. }
    unfold says_synced at 1. rewrite E Z.eqb_refl. cbn [jp_Synced jp_NodeID negb]. rewrite IHl; [|set_solver].
    rewrite bool_decide_eq_false_2; [|by rewrite -E]. do 4 f_equal. set_solver.
  - rewrite (bool_decide_ext (p ∈ Id n :: (Id <$> l)) (p ∈ Id <$> l)).
    2:{ rewrite elem_of_cons. naive_solver. }
    destruct (_ || _ || _); [by apply IHl|]. rewrite (bind_Ret _ _ _ (Some m) w). 2:{ unfold ask, reads. by rewrite Hm. }
    unfold says_synced at 1. destruct (Z.eqb_spec (Id n) p); [done|]. by apply IHl.
Qed.

(** The id under which a member answers is not checked: one normal member that answers with an id of
    nobody is asked again at every round and counted again, so that a node goes on to join after as many
    rounds as the quorum of the old federation has nodes, up to date with nobody. *)
Theorem one_member_ends_join_check host pubkey p x w s m q :
  ClusterSnapshot (w_cluster w) = Some s → sn_QuorumN s = Z.of_nat q → (0 < q)%nat → p ≠ self →
  createJoinReq self signer host pubkey (w_db w) = Val (Some m) →
  (∀ n, n ∈ NodeList (w_cluster w) → Id n = p → IsNormal n = true) →
  NoDup (Id <$> NodeList (w_cluster w)) → p ∈ Id <$> NodeList (w_cluster w) → x ∉ Id <$> NodeList (w_cluster w) →
  sendJoinCheckSyncedRequest self signer o GetCommitedCnt getFederationAddress peers host pubkey
    (replicate q (says_synced p x)) w = Ret (Some ({[ x ]}, Z.of_nat q)) w.
Proof.
  intros Hs Hq Hq0 Hself Hm Hn Hnd Hin Hx. unfold sendJoinCheckSyncedRequest.
  assert (p ≠ x) as Hpx by (intros ->; done).
  assert (∀ k syn cnt, syn ⊆ {[ x ]} → cnt + Z.of_nat k = sn_QuorumN s → (k = 0%nat → syn = {[ x ]}) →
    check_loop host pubkey (replicate k (says_synced p x)) syn cnt w = Ret (Some ({[ x ]}, Z.of_nat q)) w) as Hk.
  { induction k as [|k IH]; intros syn cnt Hf Hc Hfin.
    { rewrite (check_loop_end _ _ _ s); [|done|lia]. rewrite Hfin; [|done]. do 3 f_equal. lia. }
    cbn [replicate]. rewrite (check_loop_step _ _ _ _ s); [|done|lia].
    rewrite (bind_Ret _ _ _ _ _ (check_round_lie host pubkey p x w m Hm Hself _ syn cnt Hn Hnd Hx Hf Hpx)).
    rewrite bool_decide_eq_true_2; [|done]. apply IH; [done|lia|done]. }
  apply Hk; [set_solver|lia|lia].
Qed.
End LoopProps.
