(* ===== verification/Settings.v ===== *)
(** * The settings of the process
    (src/util/flags.go, src/server.go, src/node/node.go, src/cluster/params.go)

    The settings are kept by viper, a library: [ViperLib] says what the code relies on. A value that is set goes
    before the configuration file and is read back by the getter of its type, under a key that is the
    same but for upper and lower case; the file itself is read again when the process restarts, and what
    was set before is gone, since nothing writes it. The file modelled here is the part of the code that sets and
    reads settings: the command line, the heights from the store, and what a join or leave saves. *)
From S2P Require Import Prelude.
From S2P Require Import GoLib.
From S2P Require Import Crypto.
From S2P Require Import Messages.
From S2P Require Import Cluster.
From S2P Require Import Store.
From S2P Require Import DbOps.
From S2P Require Import Consensus.
From S2P Require Import Intake.
From S2P Require Import Join.

(** ** The library *)
Inductive Setting : Type :=
  | SInt (n : Z)
  | SString (s : string)
  | SBool (b : bool).
Definition lower_char (c : ascii) : ascii :=
  let v := byte_val c in if (65 <=? v) && (v <=? 90) then byte (v + 32) else c.
Fixpoint lower (s : string) : string :=
  match s with EmptyString => "" | String c s => String (lower_char c) (lower s) end.
(** What a reader gives for a key. *)
Definition at_key (v : Viper) (k : string) : Z * string * bool := (GetInt v k, GetString v k, GetBool v k).
Definition holds (v : Viper) (k : string) (x : Setting) : Prop :=
  match x with SInt n => GetInt v k = n | SString s => GetString v k = s | SBool b => GetBool v k = b end.

(** [Set] of the library is [viper_set]; [restart] is a new process on the same file. *)
Class ViperLib (V : Type) : Type := {
  viper_set : string → Setting → V → V;
  reader : V → Viper;
  restart : V → V;
  set_here k x v : holds (reader (viper_set k x v)) k x;
  set_other k k' x v : lower k ≠ lower k' → at_key (reader (viper_set k x v)) k' = at_key (reader v) k';
  set_gone k x v : restart (viper_set k x v) = restart v
}.

Section settings.
Context {V : Type} `{!ViperLib V} `{KV}.

Fixpoint set_all (l : list (string * Setting)) (v : V) : V :=
  match l with [] => v | (k, x) :: l => set_all l (viper_set k x v) end.

(** ** The command line (src/util/flags.go) *)
Inductive FlagKind : Type := StringFlag | IntFlag | Int64Flag.
Definition Flags : gmap string (FlagKind * string) :=
  list_to_map [("p2p_port", (IntFlag, "p2p_port")); ("http_port", (IntFlag, "http_port")); ("dbpath", (StringFlag, "dbpath"));
    ("bch_host", (StringFlag, "bch-host")); ("bch_height", (Int64Flag, "bch-height")); ("loglevel", (StringFlag, "loglevel"))].
(** The values given on the command line, by the name of the flag; "" or 0 where it is not given. *)
Record CliContext := { GlobalString : string → string; GlobalInt : string → Z }.
Definition flag_setting (ctx : CliContext) (flag : FlagKind * string) : list (string * Setting) :=
  let key := "DGW." +:+ flag.2 in
  match flag.1 with
  | StringFlag => let value := GlobalString ctx flag.2 in if 0 <? len value then [(key, SString value)] else []
  | IntFlag | Int64Flag => let value := GlobalInt ctx flag.2 in if negb (value =? 0) then [(key, SInt value)] else []
  end.
Definition ReadConfigToViper (o : order) (ctx : CliContext) (v : V) : V :=
  set_all (concat ((λ kf, flag_setting ctx kf.2) <$> range o 0 Flags)) v.

(** The keys that the program reads, besides those of the nodes. *)
Definition program_keys : list string :=
  ["BCH.rpc_server"; "BTC.rpc_server"; "BUS.burn_fee_rate"; "BUS.min_bch_mint_amount"; "BUS.min_btc_mint_amount";
   "BUS.min_burn_amount"; "BUS.mint_fee_rate"; "DGW.accuse_interval"; "DGW.bch_confirms"; "DGW.bch_height";
   "DGW.block_coon_pool_size"; "DGW.btc_confirms"; "DGW.btc_height"; "DGW.check_onchain_cur"; "DGW.check_onchain_interval";
   "DGW.confirm_tolerance"; "DGW.dbpath"; "DGW.eos_client_url"; "DGW.eos_dgateway_account"; "DGW.eos_height";
   "DGW.eos_tran_idx"; "DGW.eth_client_url"; "DGW.eth_confirm_count"; "DGW.eth_confirms"; "DGW.eth_height"; "DGW.eth_tran_idx";
   "DGW.init_node_host"; "DGW.local_host"; "DGW.local_http_port"; "DGW.local_http_pwd"; "DGW.local_http_user"; "DGW.local_id";
   "DGW.local_p2p_port"; "DGW.local_pubkey"; "DGW.new_node_host"; "DGW.new_node_pubkey"; "DGW.pprof_host"; "DGW.price_server";
   "DGW.start_mode"; "DGW.tx_conn_pool_size"; "DGW.utxo_lock_time"; "DGW.xin_client_url"; "DGW.xin_contract_account";
   "DGW.xin_height"; "DGW.xin_tran_idx"; "DGW.xin_transfer_account"; "KEYSTORE.count"; "KEYSTORE.keystore_private_key";
   "KEYSTORE.local_pubkey_hash"; "KEYSTORE.service_id"; "KEYSTORE.url"; "LEVELDB.eos_db_path"; "LEVELDB.eosmain_db_path";
   "METRICS.db"; "METRICS.influxdb_uri"; "METRICS.interval"; "METRICS.need_metrics"; "METRICS.password"; "METRICS.user"; "loglevel"].

(** ** What the process reads at its start (src/server.go) *)
Record RunSettings := {
  BtcConfirms : Z; BchConfirms : Z; EthConfirms : Z; ConfirmTolerance : Z; CheckOnChainCur : Z;
  CheckOnChainInterval : Z; AccuseInterval : Z
}.
Definition run_settings (v : Viper) : RunSettings := {|
  BtcConfirms := GetInt v "DGW.btc_confirms"; BchConfirms := GetInt v "DGW.bch_confirms";
  EthConfirms := GetInt v "DGW.eth_confirms"; ConfirmTolerance := GetInt v "DGW.confirm_tolerance";
  CheckOnChainCur := GetInt v "DGW.check_onchain_cur"; CheckOnChainInterval := GetInt v "DGW.check_onchain_interval";
  AccuseInterval := GetInt v "DGW.accuse_interval"
|}.

(** ** The node (src/node/node.go) *)

(** [initWatchHeight]. *)
Definition initWatchHeight (d : db) (v : V) : V :=
  let bch := GetCurrentHeight "bch" d in
  let v := if bch >? 0 then viper_set "DGW.bch_height" (SInt bch) v else v in
  let eth := GetCurrentHeight "eth" d in
  if eth >? 0 then viper_set "DGW.eth_height" (SInt eth) v else v.
(** Where the watchers of Ethereum, XIN and EOS start, block and index (the beginning of [watchNewTx]). *)
Definition eth_start (v : Viper) (d : db) : Z * Z :=
  match GetETHBlockHeight d with
  | Some h => (h, GetETHBlockTxIndex d)
  | None => (GetInt v "DGW.eth_height", GetInt v "DGW.eth_tran_idx")
  end.
Definition uwrap32 (n : Z) : Z := n mod 2^32.
Definition xin_start (v : Viper) (d : db) : Z * Z :=
  let xinHeight := GetXINBlockHeight d in
  if xinHeight =? 0 then (uwrap32 (GetInt v "DGW.xin_height"), uwrap32 (GetInt v "DGW.xin_tran_idx"))
  else (uwrap32 xinHeight, uwrap32 (GetXINBlockTxIndex d)).
Definition eos_start (v : Viper) : Z * Z :=
  (uwrap32 (GetInt v "DGW.eos_height"), uwrap32 (GetInt v "DGW.eos_tran_idx")).
(** What [OnConfigChange] reads: the fees of the leader and the block store, and the smallest amounts. *)
Definition fee_rates (v : Viper) : Z * Z := (GetInt v "BUS.mint_fee_rate", GetInt v "BUS.burn_fee_rate").
Definition minimums (v : Viper) : Minimums := {|
  minBCHMintAmount := GetInt v "BUS.min_bch_mint_amount"; minBTCMintAmount := GetInt v "BUS.min_btc_mint_amount";
  minBurnAmount := GetInt v "BUS.min_burn_amount"
|}.

(** [saveNewConfig]: the settings of one node, and all of them in order. *)
Definition key_of (i : Z) : string := "KEYSTORE.key_" +:+ FormatInt i.
Definition host_of (i : Z) : string := "DGW.host_" +:+ FormatInt i.
Definition status_of (i : Z) : string := "DGW.status_" +:+ FormatInt i.
Definition node_settings (i : Z) (n : NodeInfo) : list (string * Setting) :=
  [(key_of i, SString (hex_encode (PublicKey n))); (host_of i, SString (Url n)); (status_of i, SBool (IsNormal n))].
Fixpoint nodes_settings (i : Z) (l : list NodeInfo) : list (string * Setting) :=
  match l with [] => [] | n :: l => node_settings i n ++ nodes_settings (i + 1) l end.
Definition count_settings (localId : Z) (c : Cluster) : list (string * Setting) :=
  [("KEYSTORE.count", SInt (TotalNodeCount c)); ("DGW.count", SInt (TotalNodeCount c)); ("DGW.local_id", SInt localId)].
(** The next start is a normal one. *)
Definition mode_settings (startMode : Mode) : list (string * Setting) :=
  if bool_decide (startMode = ModeJoin) then [("DGW.start_mode", SInt 1)] else [].
Definition new_settings : list (string * Setting) := [("DGW.new_node_host", SString ""); ("DGW.new_node_pubkey", SString "")].
Definition saveNewConfig (startMode : Mode) (localId : Z) (c : Cluster) : V → V :=
  set_all (count_settings localId c ++ mode_settings startMode ++ nodes_settings 0 (NodeList c) ++ new_settings).

(** What a join or leave asks of the gateway contract, with the list of nodes after it; the name of a vote is made of
    the host and the key without anything between them, and the address is computed by the Ethereum library. *)
Inductive VoterCall : Type :=
  | VOTE_METHOD_ADDVOTER (address proposal : string)
  | VOTE_METHOD_REMOVEVOTER (address proposal : string).
Definition joined_call (GetAddressFromPub : string → string) (host pubkey : string) : VoterCall :=
  VOTE_METHOD_ADDVOTER (GetAddressFromPub pubkey) ("J_" +:+ host +:+ pubkey).
Definition left_call (GetAddressFromPub : string → string) (c : Cluster) (nodeId : Z) : pan VoterCall :=
  n ← node_at c nodeId;
  let pubkey := hex_encode (PublicKey n) in
  mret (VOTE_METHOD_REMOVEVOTER (GetAddressFromPub pubkey) ("L_" +:+ Url n +:+ pubkey)).

(** ** Lemmas *)
Lemma lower_app a b : lower (a +:+ b) = lower a +:+ lower b.
Proof. induction a as [|c a IH]; [done|]. by rewrite str_app_cons /= IH str_app_cons. Qed.
Lemma lower_pretty_go x s : lower s = s → lower (pretty_N_go x s) = pretty_N_go x s.
Proof.
  revert s. induction (N.lt_wf_0 x) as [x _ IH]; intros s Hs.
  destruct (decide (x = 0)%N) as [->|Hx]; [by rewrite pretty_N_go_0|].
  rewrite pretty_N_go_step; [|lia]. apply IH; [apply N.div_lt; lia|].
  cbn. rewrite Hs. f_equal. unfold pretty_N_char. by repeat case_match.
Qed.
Lemma lower_FormatInt n : lower (FormatInt n) = FormatInt n.
Proof.
  assert (∀ x : N, lower (pretty x) = pretty x) as HN.
  { intros x. unfold pretty, pretty_N. case_decide; [done|]. by apply lower_pretty_go. }
  unfold FormatInt, pretty, pretty_Z. destruct n; cbn; try done.
  - apply (HN (N.pos _)).
  - rewrite (lower_app "-"). f_equal. apply (HN (N.pos _)).
Qed.

(** A part of the settings that does not touch a key. *)
Definition misses (k : string) (l : list (string * Setting)) : Prop := Forall (λ kx, lower kx.1 ≠ lower k) l.
Lemma set_all_app l l' v : set_all (l ++ l') v = set_all l' (set_all l v).
Proof. revert v. induction l as [|[k x] l IH]; intros v; [done|]. apply IH. Qed.
Lemma set_all_misses k l v : misses k l → at_key (reader (set_all l v)) k = at_key (reader v) k.
Proof.
  intros Hl. revert v. induction Hl as [|[k' x] l Hk _ IH]; intros v; [done|]. cbn. rewrite IH. by apply set_other.
Qed.
Lemma at_key_holds v v' k x : at_key v k = at_key v' k → holds v' k x → holds v k x.
Proof. intros [= ? ? ?]. destruct x; cbn; congruence. Qed.
(** The last setting of a key is the one that is read. *)
Lemma set_all_holds k x l1 l2 v : misses k l2 → holds (reader (set_all (l1 ++ (k, x) :: l2) v)) k x.
Proof.
  intros Hl. rewrite set_all_app. cbn. eapply at_key_holds; [by apply set_all_misses|apply set_here].
Qed.
Lemma set_all_gone l v : restart (set_all l v) = restart v.
Proof. revert v. induction l as [|[k x] l IH]; intros v; [done|]. cbn. by rewrite IH set_gone. Qed.

(** The keys of the nodes: two of them are the same only for the same node and kind. *)
Lemma node_keys_differ (f g : Z → string) i j :
  f ∈ [key_of; host_of; status_of] → g ∈ [key_of; host_of; status_of] →
  (f 0 = g 0 → i ≠ j) → lower (f i) ≠ lower (g j).
Proof.
  intros Hf Hg Hd. set_unfold.
  destruct Hf as [->|[->|[->|[]]]], Hg as [->|[->|[->|[]]]]; unfold key_of, host_of, status_of; rewrite !lower_app !lower_FormatInt;
    cbn; intros Heq; simplify_eq; by apply Hd.
Qed.
Lemma nodes_settings_app i l l' :
  nodes_settings i (l ++ l') = nodes_settings i l ++ nodes_settings (i + Z.of_nat (length l)) l'.
Proof.
  revert i. induction l as [|n l IH]; intros i; cbn [app nodes_settings length].
  - by rewrite Z.add_0_r.
  - rewrite IH -app_assoc. do 3 f_equal. lia.
Qed.
Lemma misses_nodes f i j l : f ∈ [key_of; host_of; status_of] → i < j → misses (f i) (nodes_settings j l).
Proof.
  intros Hf. revert j. induction l as [|n l IH]; intros j Hij; [constructor|].
  repeat (constructor; [apply node_keys_differ; [set_solver|done|lia]|]). apply IH. lia.
Qed.

(** What is read of a node after a save. *)
Lemma node_saved startMode localId c v i n :
  NodeList c !! i = Some n →
  let r := reader (saveNewConfig startMode localId c v) in
  GetString r (key_of (Z.of_nat i)) = hex_encode (PublicKey n) ∧
  GetString r (host_of (Z.of_nat i)) = Url n ∧ GetBool r (status_of (Z.of_nat i)) = IsNormal n.
Proof.
  intros Hn r. subst r. unfold saveNewConfig. rewrite -(take_drop_middle _ _ _ Hn) nodes_settings_app.
  pose proof (lookup_lt_Some _ _ _ Hn). rewrite length_take Nat.min_l; [|lia]. cbn [nodes_settings]. rewrite Z.add_0_l.
  set (l1 := nodes_settings 0 _). set (l2 := nodes_settings (Z.of_nat i + 1) _).
  assert (∀ f, f ∈ [key_of; host_of; status_of] → misses (f (Z.of_nat i)) (l2 ++ new_settings)) as Hl.
  { intros f Hf. apply Forall_app. split; [apply misses_nodes; [done|lia]|]. set_unfold.
    destruct Hf as [->|[->|[->|[]]]]; repeat constructor; cbn; unfold key_of, host_of, status_of;
      rewrite lower_app; by intros [=]. }
  assert (∀ k x l0 l3, node_settings (Z.of_nat i) n = l0 ++ (k, x) :: l3 → misses k (l3 ++ l2 ++ new_settings) →
    holds (reader (set_all (count_settings localId c ++ mode_settings startMode ++
      (l1 ++ node_settings (Z.of_nat i) n ++ l2) ++ new_settings) v)) k x) as Hh.
  { intros k x l0 l3 -> Hm.
    replace (count_settings localId c ++ _) with
      ((count_settings localId c ++ mode_settings startMode ++ l1 ++ l0) ++ (k, x) :: (l3 ++ l2 ++ new_settings));
      [by apply set_all_holds|by rewrite -!app_assoc]. }
  assert (∀ f g, f ∈ [key_of; host_of; status_of] → g ∈ [key_of; host_of; status_of] → f 0 ≠ g 0 →
    lower (f (Z.of_nat i)) ≠ lower (g (Z.of_nat i))) as Hd by (intros; by apply node_keys_differ).
  split_and!.
  - apply (Hh _ (SString _) [] _ eq_refl). repeat (constructor; [apply Hd; [set_solver..|done]|]). apply Hl. set_solver.
  - apply (Hh _ (SString _) [_] _ eq_refl). repeat (constructor; [apply Hd; [set_solver..|done]|]). apply Hl. set_solver.
  - apply (Hh _ (SBool _) [_; _] _ eq_refl). apply Hl. set_solver.
Qed.
Lemma misses_nodes_fixed k i l :
  (∀ f j, f ∈ [key_of; host_of; status_of] → lower (f j) ≠ lower k) → misses k (nodes_settings i l).
Proof.
  intros Hk. revert i. induction l as [|n l IH]; intros i; [constructor|].
  repeat (constructor; [apply Hk; set_solver|]). apply IH.
Qed.
Ltac no_node_key :=
  let f := fresh in let j := fresh in let Hf := fresh in
  intros f j Hf; set_unfold; destruct Hf as [->|[->|[->|[]]]]; unfold key_of, host_of, status_of;
  rewrite lower_app; by intros [=].
Lemma count_saved startMode localId c v :
  let r := reader (saveNewConfig startMode localId c v) in
  GetInt r "KEYSTORE.count" = TotalNodeCount c ∧ GetInt r "DGW.local_id" = localId.
Proof.
  intros r. subst r. unfold saveNewConfig.
  assert (∀ k, k = "KEYSTORE.count" ∨ k = "DGW.local_id" → misses k
    (mode_settings startMode ++ nodes_settings 0 (NodeList c) ++ new_settings)) as Hm.
  { intros k Hk. apply Forall_app. split; [unfold mode_settings; case_bool_decide; repeat constructor; by destruct Hk as [->| ->]|].
    apply Forall_app. split; [apply misses_nodes_fixed; destruct Hk as [->| ->]; no_node_key|].
    repeat constructor; by destruct Hk as [->| ->]. }
  split.
  - apply (set_all_holds _ (SInt _) []). repeat (constructor; [done|]). apply Hm. by left.
  - apply (set_all_holds _ (SInt _) [_; _]). apply Hm. by right.
Qed.

(** [Init] reads the nodes one after the other. *)
Lemma init_nodes_list r k l c :
  (∀ i n, l !! i = Some n → ∃ s, init_node r (k + Z.of_nat i) = Val (n, s)) →
  ∃ signers, init_nodes r (seqZ k (Z.of_nat (length l))) c =
    Val (set_nodes c (NodeList c ++ l) signers (ClusterSize c) (TotalNodeCount c)).
Proof.
  revert k c. induction l as [|n l IH]; intros k c Hl.
  - exists (NodeSigners c). cbn. rewrite app_nil_r. by destruct c.
  - replace (Z.of_nat (length (n :: l))) with (Z.succ (Z.of_nat (length l))) by (cbn [length]; lia).
    rewrite seqZ_cons; [|lia]. rewrite Z.pred_succ. cbn [init_nodes].
    destruct (Hl 0%nat n eq_refl) as [s Hs]. rewrite Z.add_0_r in Hs. rewrite Hs. cbn.
    destruct (IH (Z.succ k) (set_nodes c (NodeList c ++ [n]) (<[wrap32 k:=s]> (NodeSigners c)) (ClusterSize c) (TotalNodeCount c)))
      as [sg Hsg].
    { intros i m Hm. destruct (Hl (S i) m Hm) as [s' Hs']. exists s'. rewrite -Hs'. f_equal. lia. }
    exists sg. unfold mbind, pan_bind. rewrite Hsg. cbn. by rewrite -app_assoc.
Qed.

(** A node that leaves is voted out under the address and name of its join, up to the case of its key. *)
Lemma left_call_joined G host pubkey c c' b :
  cluster_wf c → TotalNodeCount c + 1 < 2^31 → hex_decode pubkey = Some b →
  AddNode host (TotalNodeCount c) pubkey "" c = Val c' →
  left_call G c' (TotalNodeCount c) = Val (VOTE_METHOD_REMOVEVOTER (G (hex_encode b)) ("L_" +:+ host +:+ hex_encode b)).
Proof.
  intros Hwf Hlt Hb Ha. destruct (AddNode_wf c c' host _ pubkey "" Hwf Hlt Ha) as (_ & _ & Hn).
  destruct (Hn eq_refl) as (_ & n & Hl & _ & Hu & _ & Hk). assert (PublicKey n = b) as <- by congruence.
  assert (node_at c' (TotalNodeCount c) = Val n) as Hat.
  { apply node_at_Val. rewrite Hl (wf_total c Hwf) Nat2Z.id. split; [lia|]. by apply list_lookup_middle. }
  unfold left_call. rewrite Hat. cbn. by rewrite Hu.
Qed.


(** Nothing writes the saved settings: a process that restarts after a join or leave starts on the file
    it started on before, with the node list of that time. *)
Theorem restart_forgets_reconfig getaddr startMode localId c v mode nl :
  server_run getaddr (reader (restart (saveNewConfig startMode localId c v))) mode nl =
  server_run getaddr (reader (restart v)) mode nl.
Proof. unfold saveNewConfig. by rewrite set_all_gone. Qed.

Lemma Flags_range o k f : (k, f) ∈ range o 0 Flags → f ∈ [(IntFlag, "p2p_port"); (IntFlag, "http_port"); (StringFlag, "dbpath");
  (StringFlag, "bch-host"); (Int64Flag, "bch-height"); (StringFlag, "loglevel")] ∧ (f.2 = "dbpath" → k = "dbpath").
Proof.
  rewrite elem_of_range. unfold Flags. intros H1%elem_of_list_to_map_2. set_unfold.
  destruct H1 as [H1|[H1|[H1|[H1|[H1|[H1|[]]]]]]]; simplify_eq; (split; [by auto 10|done]).
Qed.
Lemma flag_setting_keys ctx f : Forall (λ kx, kx.1 = "DGW." +:+ f.2) (flag_setting ctx f).
Proof. unfold flag_setting. destruct f as [[] n]; cbn; case_match; by repeat constructor. Qed.
Lemma flags_miss ctx k (l : list (string * (FlagKind * string))) :
  (∀ kf, kf ∈ l → lower ("DGW." +:+ kf.2.2) ≠ lower k) → misses k (concat ((λ kf, flag_setting ctx kf.2) <$> l)).
Proof.
  induction l as [|kf l IH]; intros Hl; [constructor|]. apply Forall_app. split; [|apply IH; set_solver].
  eapply Forall_impl; [apply flag_setting_keys|]. intros kx ->. apply Hl. set_solver.
Qed.

(** Of the flags of the command line only [dbpath] reaches the program: every other key that the
    program reads has the value of the configuration file, since the flags are saved under
    names that nobody reads ("DGW.p2p_port" for "DGW.local_p2p_port", "DGW.bch-height" for "DGW.bch_height",
    "DGW.loglevel" for "loglevel"). *)
Theorem flags_reach_only_dbpath o ctx v :
  (∀ k, k ∈ program_keys → k ≠ "DGW.dbpath" → at_key (reader (ReadConfigToViper o ctx v)) k = at_key (reader v) k) ∧
  (∀ f i, f ∈ [key_of; host_of; status_of] → 0 ≤ i →
    at_key (reader (ReadConfigToViper o ctx v)) (f i) = at_key (reader v) (f i)) ∧
  (GlobalString ctx "dbpath" ≠ "" → GetString (reader (ReadConfigToViper o ctx v)) "DGW.dbpath" = GlobalString ctx "dbpath").
Proof.
  split_and!.
  - intros k Hk Hd. apply set_all_misses, flags_miss. intros [k' f] [Hf _]%Flags_range. cbn [snd].
    assert (forallb (λ n, forallb (λ k, negb (bool_decide (lower ("DGW." +:+ n) = lower k)) || bool_decide (k = "DGW.dbpath"))
      program_keys) ["p2p_port"; "http_port"; "dbpath"; "bch-host"; "bch-height"; "loglevel"] = true) as Ht by by_vm.
    rewrite forallb_forall in Ht. specialize (Ht f.2). rewrite forallb_forall in Ht.
    specialize (Ht ltac:(apply list_elem_of_In; clear -Hf; set_solver) k ltac:(by apply list_elem_of_In)).
    apply orb_true_iff in Ht as [Ht|Ht]; [|by apply bool_decide_eq_true in Ht].
    apply negb_true_iff, bool_decide_eq_false in Ht. exact Ht.
  - intros f i Hf Hi. apply set_all_misses, flags_miss. intros [k' g] [Hg _]%Flags_range. cbn [snd]. set_unfold.
    destruct Hf as [->|[->|[->|[]]]]; unfold key_of, host_of, status_of; rewrite !lower_app;
      destruct Hg as [->|[->|[->|[->|[->|[->|[]]]]]]]; by intros [=].
  - intros Hne. unfold ReadConfigToViper.
    assert (("dbpath", (StringFlag, "dbpath")) ∈ range o 0 Flags) as Hin by (rewrite elem_of_range; by_vm).
    pose proof (range_NoDup o 0 Flags) as Hnd. apply list_elem_of_split in Hin as (l1 & l2 & Hr).
    assert (∀ kf, kf ∈ l2 → lower ("DGW." +:+ kf.2.2) ≠ lower "DGW.dbpath") as Hl.
    { intros [k f] Hkf. destruct (Flags_range o k f) as [Hf Hk]; [rewrite Hr; set_solver|]. cbn [snd].
      assert (k ≠ "dbpath") as Hkd.
      { rewrite Hr fmap_app fmap_cons in Hnd. apply NoDup_app in Hnd as (_ & _ & Hnd). apply NoDup_cons in Hnd as [Hnd _].
        intros ->. apply Hnd. apply list_elem_of_fmap. by exists ("dbpath", f). }
      set_unfold. destruct Hf as [->|[->|[->|[->|[->|[->|[]]]]]]]; try (by intros [=]). by destruct Hkd; apply Hk. }
    rewrite Hr fmap_app concat_app fmap_cons. cbn [concat flag_setting fst snd].
    assert ((0 <? len (GlobalString ctx "dbpath")) = true) as ->
      by (destruct (GlobalString ctx "dbpath"); [done|unfold len; cbn [String.length]; apply Z.ltb_lt; lia]).
    apply (set_all_holds _ (SString _)). by apply flags_miss.
Qed.
End settings.
