(* ===== verification/Network.v ===== *)
(** * A federation of nodes

    Several nodes of [Node.v] and the packets between them. A packet that a node
    sent may be delivered at any time, any number of times, or never. The
    nodes of [byz] do not run the program: they say anything, but what they say is
    signed by themselves. *)
From S2P Require Import Prelude.
From S2P Require Import GoLib.
From S2P Require Import Crypto.
From S2P Require Import Messages.
From S2P Require Import Feed.
From S2P Require Import ProtoOps.
From S2P Require Import Cluster.
From S2P Require Import Store.
From S2P Require Import DbOps.
From S2P Require Import TxPool.
From S2P Require Import Validation.
From S2P Require Import Consensus.
From S2P Require Import Handlers.
From S2P Require Import Accuser.
From S2P Require Import Leader.
From S2P Require Import SyncDaemon.
From S2P Require Import Distribution.
From S2P Require Import Node.

(** Who signs a message; a strong accusation has no signature of its own. *)
Definition author (m : Msg) : option Z :=
  match m with
  | NotifyInitMsg m => Some (im_NodeId m)
  | NotifyPrepareMsg m => Some (pm_NodeId m)
  | NotifyCommitMsg m => Some (cm_NodeId m)
  | NotifyWeakAccuse m => Some (wa_NodeId m)
  | NotifyVote v => Some (v_NodeId v)
  | NotifyLeave m => Some (lr_NodeId m)
  | NotifySignTx m => Some (sr_NodeId m)
  | NotifySignedResult m => Some (sd_NodeId m)
  | _ => None
  end.

Section Network.
Context `{KV} `{Wire} `{Watchers} `{Signatures} `{DistJson}.
Variable signer_of : Z → SecureSigner.
Variable conf : Config.
Variable GetCommitedCnt : option Digest256 → Z.
Variable getFederationAddress : Cluster → MultiSigInfo.
Variable byz : gset Z.

Definition Fed : Type := gmap Z Node.
(** What happens next: an honest node does a step of its own, a packet [k] of the
    node [from] arrives, or a node of [byz] makes [to] receive a message. *)
Inductive Act : Type :=
  | Do (i : Z) (s : NodeStep)
  | Deliver (from : Z) (k : nat)
  | Forge (to : Z) (m : Msg).
Definition own_step (s : NodeStep) : bool := match s with NReceive _ => false | _ => true end.
Definition at_node (x : Around) (i : Z) (s : NodeStep) (f : Fed) : option Fed :=
  n ← f !! i;
  n' ← node_next i (signer_of i) conf GetCommitedCnt getFederationAddress x s n;
  Some (<[i := n']> f).
Definition fed_next (x : Around) (a : Act) (f : Fed) : option Fed :=
  match a with
  | Do i s => if own_step s then at_node x i s f else None
  | Deliver from k =>
      n ← f !! from; p ← nd_out n !! k; at_node x (pk_to p) (NReceive (pk_msg p)) f
  | Forge to m =>
      i ← author m; if bool_decide (i ∈ byz) then at_node x to (NReceive m) f else None
  end.
Fixpoint fed_run (acts : list (Around * Act)) (f : Fed) : option Fed :=
  match acts with
  | [] => Some f
  | (x, a) :: l => f' ← fed_next x a f; fed_run l f'
  end.
End Network.
