(* ===== verification/NodeChain.v ===== *)
(** * The chain of a running node

    Whatever a node receives and in whatever order its goroutines run, the events
    are emitted and the process restarts, its chain only grows, by blocks with a
    quorum of commits. The last section says so of every honest node of a
    federation. *)
From S2P Require Import Prelude.
From S2P Require Import GoLib.
From S2P Require Import Crypto.
From S2P Require Import Messages.
From S2P Require Import Feed.
From S2P Require Import ProtoOps.
From S2P Require Import Cluster.
From S2P Require Import Store.
From S2P Require Import DbOps.
From S2P Require Import TxPool.
From S2P Require Import Validation.
From S2P Require Import Consensus.
From S2P Require Import Handlers.
From S2P Require Import ConsensusProps.
From S2P Require Import Accuser.
From S2P Require Import Leader.
From S2P Require Import SyncDaemon.
From S2P Require Import ChainTx.
From S2P Require Import SignTx.
From S2P Require Import LeaderTx.
From S2P Require Import Distribution.
From S2P Require Import Signing.
From S2P Require Import SignChain.
From S2P Require Import Intake.
From S2P Require Import Node.
From S2P Require Import Network.

Section NodeChain.
Context `{KV} `{Wire} `{Watchers} `{Signatures} `{DistJson} `{Chains}.
Variables (self : Z) (signer : SecureSigner) (conf : Config) (exhausted : gset Z).
Variable GetCommitedCnt : option Digest256 → Z.
Variable getFederationAddress : Cluster → MultiSigInfo.
Implicit Types (w : World) (n : Node) (o : order).

(** The node holds exactly the chain [l]. *)
Definition on_chain (l : list BlockPack) w : Prop := chain_rep (w_db w) l.
Lemma on_chain_frame l : frame (on_chain l) not_chain.
Proof.
  split.
  - intros w d Hs Hr. eapply chain_rep_same; [exact Hs|intros r Hn; apply Hn; exists r; auto..|exact Hr].
  - intros w w' Hd _ Hr. unfold on_chain. by rewrite Hd.
Qed.

(** Work that does not come from a peer's synchronisation answer. *)
Definition own_work (k : Work) : Prop := match k with SyncAnswer _ | SyncCommits _ _ => False | _ => True end.
Definition no_sync n : Prop := Forall (Forall own_work) (nd_threads n).
Definition calm (l : list BlockPack) n : Prop := on_chain l (nd_world n) ∧ no_sync n.

(** [m] leaves the chain and the goroutines alone, whether it returns or panics. *)
Definition nkeep {A} (l : list BlockPack) (m : go Node A) : Prop := ∀ n,
  calm l n → wp m (λ _, calm l) (calm l) n.
(** [m] returns work of the node's own. *)
Definition own (m : go Node (list Work)) : Prop := ∀ n, wp m (λ ks _, Forall own_work ks) (λ _, True) n.

Section Keep.
Variable l : list BlockPack.

Lemma nkeep_bind {A B} (m : go Node A) (k : A → go Node B) :
  nkeep l m → (∀ a, nkeep l (k a)) → nkeep l (m ≫= k).
Proof.
  intros Hm Hk n Hn. apply wp_bind. eapply wp_mono; [by apply Hm| |done]. intros a n'. apply Hk.
Qed.
Lemma nkeep_ret {A} (a : A) : nkeep l (mret a).
Proof. intros n Hn. exact Hn. Qed.
Lemma nkeep_lift {A} (p : pan A) : nkeep l (lift p).
Proof. intros n Hn. by apply wp_lift. Qed.
Lemma nkeep_gets {A} (f : Node → A) : nkeep l (gets f).
Proof. intros n Hn. exact Hn. Qed.
Lemma nkeep_when b m : nkeep l m → nkeep l (when b m).
Proof. intros Hm n Hn. apply wp_when; [|done]. intros _. by apply Hm. Qed.
(** The state is as the chain and the goroutines see it. *)
Definition looks n n' : Prop :=
  w_db (nd_world n') = w_db (nd_world n) ∧ nd_threads n' = nd_threads n.
Lemma calm_looks n n' : looks n n' → calm l n → calm l n'.
Proof. unfold calm, on_chain, no_sync. by intros [-> ->]. Qed.
Lemma nkeep_modify (f : Node → Node) : (∀ n, looks n (f n)) → nkeep l (modify f).
Proof. intros Hf n Hn. apply wp_modify. by eapply calm_looks. Qed.
Lemma nkeep_updates (f : Node → pan Node) :
  (∀ n n', f n = Val n' → looks n n') → nkeep l (updates f).
Proof. intros Hf n Hn. apply wp_updates; [|done]. intros n' E. by eapply calm_looks; [apply Hf|]. Qed.
Lemma nkeep_for_each {A} (xs : list A) (body : A → go Node unit) :
  (∀ x, nkeep l (body x)) → nkeep l (for_each xs body).
Proof. intros Hb. induction xs; [apply nkeep_ret|]. by apply nkeep_bind. Qed.
Lemma nkeep_on_world {A} (m : go World A) : keep (on_chain l) m → nkeep l (on_world m).
Proof.
  intros Hm n [Hc Ht]. apply wp_zoom. eapply wp_mono; [by apply Hm|by split..].
Qed.
Lemma nkeep_on_leader {A} (m : go Leader A) : nkeep l (on_leader m).
Proof. intros n Hn. apply wp_zoom, wp_end. exact Hn. Qed.
Lemma nkeep_on_cluster f : nkeep l (on_cluster f).
Proof.
  apply nkeep_on_world. intros w Hw. apply wp_updates; [|done].
  by intros w' (c & _ & [= <-])%pan_bind_Val.
Qed.
Lemma keep_set_tasks q : keep (on_chain l) (modify (set_w_tasks q)).
Proof. intros w Hw. exact Hw. Qed.
Lemma nkeep_locked m : keep (on_chain l) m → nkeep l (locked m).
Proof.
  intros Hm. unfold locked.
  apply nkeep_bind; [apply nkeep_on_world, keep_set_tasks|intros _].
  apply nkeep_bind; [by apply nkeep_on_world|intros _].
  apply nkeep_bind; [apply nkeep_on_world, keep_gets|intros es].
  apply nkeep_bind; [apply nkeep_on_world, keep_set_tasks|intros _]. apply nkeep_ret.
Qed.
(** A write of a key that is not of the chain. *)
Lemma nkeep_tell (f : db → pan db) (key : bytes) :
  (∀ d d', f d = Val d' → same_but (eq key) d d') → not_chain key → nkeep l (on_world (tell f)).
Proof. intros Hf Hk. apply nkeep_on_world. eapply keep_tell_key; [apply on_chain_frame|exact Hf|exact Hk]. Qed.
(** Operations of the parts that are mild. *)
Lemma nkeep_on_pool {A} (m : go Pool A) : mild p_db m → nkeep l (on_pool m).
Proof. intros Hm. apply nkeep_on_world. eapply keep_run_pool; [apply on_chain_frame|exact Hm]. Qed.
Lemma nkeep_pool_txs {A} (m : go Pool A) :
  (∀ p, same_but tx_keys (p_db p) (p_db (end_state (m p)))) → nkeep l (on_pool m).
Proof.
  intros Hm. apply nkeep_on_pool. intros p. eapply same_but_mono; [apply tx_not_chain|apply Hm].
Qed.
Lemma keep_mild {A} (m : go World A) : mild w_db m → keep (on_chain l) m.
Proof.
  intros Hm w Hw. apply wp_end. eapply chain_rep_same; [apply Hm|intros r Hn; apply Hn; exists r; auto..|exact Hw].
Qed.
Lemma nkeep_signing {A} (m : go SignNode A) : mild sg_db m → nkeep l (signing m).
Proof.
  intros Hm n [Hc Ht]. apply wp_zoom, wp_end.
  assert (mild sg_db (a ← m; es ← gets sg_events; mret (a, es))) as Hm'.
  { apply mild_bind; [exact Hm|intros a]. apply mild_bind; [apply mild_gets|intros es; apply mild_ret]. }
  split; [|exact Ht]. unfold on_chain.
  eapply chain_rep_same; [apply (Hm' (sign_view n))|intros r Hn; apply Hn; exists r; auto..|exact Hc].
Qed.
Lemma nkeep_signing_work m : mild sg_db m → nkeep l (signing_work m).
Proof.
  intros Hm. apply nkeep_bind; [by apply nkeep_signing|intros [? es]; apply nkeep_ret].
Qed.
End Keep.

Lemma not_chain_records r : not_chain (keyAccuseRecordsPrefix +:+ r).
Proof. intros (r' & [E|E]); revert E; key_ne. Qed.
Lemma not_chain_snapshot r : not_chain (keyClusterSnapshotPrefix +:+ r).
Proof. intros (r' & [E|E]); revert E; key_ne. Qed.
Lemma not_chain_multisig : not_chain keyMultiSigSnapshot.
Proof. intros (r' & [E|E]); revert E; key_ne. Qed.

Lemma on_new_block_db bp p : p_db (end_state (OnNewBlockCommitted bp p)) = p_db p.
Proof.
  apply (proj1 (wp_end _ (λ p', p_db p' = p_db p) p)). unfold OnNewBlockCommitted, modify_ts. by wp_run.
Qed.

(** What the parts of a node do to the chain. *)
Ltac nk_step :=
  lazymatch goal with
  | |- nkeep _ (_ ≫= _) => apply nkeep_bind; [|intros ?]
  | |- nkeep _ (mret _) => apply nkeep_ret
  | |- nkeep _ (lift _) => apply nkeep_lift
  | |- nkeep _ (gets _) => apply nkeep_gets
  | |- nkeep _ (when _ _) => apply nkeep_when
  | |- nkeep _ (modify _) => apply nkeep_modify; done
  | |- nkeep _ (on_leader _) => apply nkeep_on_leader
  | |- nkeep _ (on_cluster _) => apply nkeep_on_cluster
  | |- nkeep _ (on_world (modify (set_w_tasks _))) => apply nkeep_on_world, keep_set_tasks
  | |- nkeep _ (on_world (gets _)) => apply nkeep_on_world, keep_gets
  | |- nkeep _ (for_each _ _) => apply nkeep_for_each; intros ?
  | |- nkeep _ (if ?b then _ else _) => destruct b
  | |- nkeep _ (match ?x with _ => _ end) => destruct x
  end.

Section Parts.
Variable l : list BlockPack.
Lemma nkeep_broadcast o m ex some : nkeep l (broadcast self o m ex some).
Proof. unfold broadcast, send_to. repeat nk_step. Qed.
Lemma nkeep_notify i m : nkeep l (notify i m).
Proof. unfold notify, send_to. repeat nk_step. Qed.
Lemma nkeep_accuse_record now t t' k r : nkeep l (accuse_record self now t t' k r).
Proof.
  unfold accuse_record. repeat nk_step. eapply nkeep_tell; [|apply not_chain_records].
  intros d d'. apply try_put_same.
Qed.
Lemma nkeep_SaveSnapshot s : nkeep l (SaveSnapshot s).
Proof.
  assert (∀ a, nkeep l (on_world (tell (SetClusterSnapshot a s)))) as Hc.
  { intros a. eapply nkeep_tell; [|apply (not_chain_snapshot a)].
    intros d d' (data & _ & [= <-])%pan_bind_Val. apply same_but_put. }
  unfold SaveSnapshot. apply nkeep_bind; [apply nkeep_gets|intros n]. apply nkeep_bind.
  - eapply nkeep_tell; [|apply not_chain_multisig].
    intros d d' (data & _ & [= <-])%pan_bind_Val. apply same_but_put.
  - intros _. repeat first [apply Hc|nk_step].
Qed.
Lemma nkeep_onNewBlockCommitted bp : nkeep l (onNewBlockCommitted bp).
Proof.
  unfold onNewBlockCommitted. apply nkeep_bind; [apply nkeep_lift|intros b]. nk_step; [|apply nkeep_ret].
  apply nkeep_updates. by intros n n' (m & _ & [= <-])%pan_bind_Val.
Qed.
Lemma nkeep_delete key : not_chain key → nkeep l (on_world (tell (λ d, mret (Delete key d)))).
Proof.
  intros Hk. eapply nkeep_tell; [|exact Hk]. intros d d' [= <-]. apply same_but_delete.
Qed.
Lemma nkeep_emitted o now e : nkeep l (emitted self signer o now e).
Proof.
  destruct e; cbn [emitted];
    unfold SignalSyncUp, on_inited, on_prepared, on_lower_term, on_joined, on_left, to_leader, to_accuser;
    repeat first [apply nkeep_broadcast|apply nkeep_notify|apply nkeep_accuse_record
                 |apply nkeep_SaveSnapshot|apply nkeep_onNewBlockCommitted
                 |apply nkeep_delete; by auto with ofgp|nk_step].
  - apply nkeep_pool_txs. intros p. rewrite on_new_block_db. apply same_but_refl.
  - apply nkeep_on_pool. by apply mild_modify.
  - apply nkeep_on_pool. by apply mild_modify.
Qed.
(** The goroutines of signing. *)
Lemma nkeep_in_charge : nkeep l (in_charge self).
Proof. unfold in_charge. repeat nk_step. Qed.
Lemma nkeep_sign_request now tx newly a : nkeep l (sign_request self signer now tx newly a).
Proof. unfold sign_request. repeat nk_step. Qed.
Lemma nkeep_AddFresh tx : nkeep l (on_pool (AddFreshWatchedTx tx)).
Proof. apply nkeep_on_pool, mild_AddFresh. Qed.
Lemma nkeep_sign_fresh txs : nkeep l (sign_fresh self conf txs).
Proof.
  unfold sign_fresh. repeat first
    [apply nkeep_in_charge|apply nkeep_AddFresh|apply nkeep_on_pool, mild_create_newly|nk_step].
Qed.
Lemma nkeep_send_sign now tx newly : nkeep l (send_sign self signer now tx newly).
Proof.
  unfold send_sign. repeat first [apply nkeep_in_charge|apply nkeep_AddFresh|apply nkeep_sign_request|nk_step].
Qed.
Lemma nkeep_former_turn now k todo sigs : nkeep l (former_turn self signer now k todo sigs).
Proof.
  unfold former_turn. repeat first [apply nkeep_in_charge|apply nkeep_sign_request|nk_step].
Qed.

(** The handlers but that of a commit leave the chain alone. *)
Let F := on_chain_frame l.
Lemma chain_votie bp : keep (on_chain l) (updateVotie bp).
Proof. eapply keep_updateVotie; [exact F|apply not_chain_votie]. Qed.
Lemma chain_raise x t w : on_chain l w → GetNodeTerm (w_db w) = Val t → t < x → True →
  wp (tell (SetNodeTerm x)) (λ _, on_chain l) (on_chain l) w.
Proof. intros Hw _ _ _. by eapply keep_tell_key; [exact F|apply SetNodeTerm_same|auto with ofgp|]. Qed.
Lemma chain_accuse o msg : keep (on_chain l) (handleStrongAccuse o msg).
Proof.
  eapply keep_handleStrongAccuse; try exact F; auto with ofgp.
  intros. by eapply keep_tell_key; [exact F|apply SetNodeTerm_same|auto with ofgp|].
Qed.
Definition commits (k : Work) : Prop := match k with HandleCommitMsg _ => True | _ => False end.
Lemma nkeep_do_work o now k : own_work k → ¬ commits k →
  nkeep l (do_work self signer conf exhausted GetCommitedCnt getFederationAddress o now k).
Proof.
  intros Hk Hc. destruct k; cbn [do_work]; try done; try apply nkeep_locked.
  - eapply keep_handleInitMsg with (okt := λ _, True); try exact F; auto with ofgp.
    intros. by eapply chain_raise.
  - eapply keep_handlePrepareMsg; try exact F; auto with ofgp. apply chain_votie.
  - eapply keep_handleWeakAccuse; try exact F; auto with ofgp.
  - apply chain_accuse.
  - eapply keep_handleJoinRequest; try exact F; auto with ofgp.
  - apply keep_bind; [|intros _; apply keep_ret].
    eapply keep_handleJoinCheckSyncedRequest; try exact F; auto with ofgp.
  - eapply keep_handleLeaveRequest; try exact F; auto with ofgp.
  - apply nkeep_emitted.
  - apply nkeep_bind; [apply nkeep_broadcast|intros _; apply nkeep_ret].
  - unfold settle_join. repeat nk_step.
  - unfold settle_leave. repeat nk_step.
  - unfold sync_fresh. repeat nk_step.
  - nk_step; [apply nkeep_on_world, keep_set_tasks|]. nk_step; [apply nkeep_on_world, keep_mild, mild_sign_begin|].
    repeat nk_step.
  - apply keep_mild, mild_sign_end.
  - apply nkeep_bind; [apply nkeep_signing, mild_save_begin|]. intros [[[loc req]|] es]; apply nkeep_ret.
  - apply nkeep_bind; [apply nkeep_gets|intros n]. apply nkeep_signing_work, mild_save_end.
  - apply nkeep_signing_work, mild_checkTxOnChain.
  - apply nkeep_sign_fresh.
  - apply nkeep_send_sign.
  - unfold broadcast_sign. repeat first [apply nkeep_notify|nk_step].
  - unfold former_sigs. repeat first [apply nkeep_in_charge|nk_step].
  - unfold former_chains. repeat nk_step.
  - apply nkeep_former_turn.
  - apply nkeep_signing_work, mild_mint_done.
Qed.
End Parts.

(** ** The work that an item of work leaves *)
Lemma own_ret ks : Forall own_work ks → own (mret ks).
Proof. intros Hk n. exact Hk. Qed.
Lemma own_bind {A} (m : go Node A) k : (∀ a, own (k a)) → own (m ≫= k).
Proof.
  intros Hk n. apply wp_bind. unfold wp at 1. destruct (m n) as [a n'|f n']; [apply Hk|exact I].
Qed.
Lemma own_locked m : own (locked m).
Proof.
  unfold locked. do 4 (apply own_bind; intros ?). apply own_ret. by apply Forall_fmap, Forall_true.
Qed.
Ltac own_step :=
  lazymatch goal with
  | |- own (_ ≫= _) => apply own_bind; intros ?
  | |- own (mret (match ?x with _ => _ end)) => destruct x
  | |- own (mret _) => apply own_ret; repeat constructor
  | |- own (if ?b then _ else _) => destruct b
  | |- own (match ?x with _ => _ end) => destruct x
  end.
Lemma own_option {A} (f : A → Work) a : (∀ a, own_work (f a)) → Forall own_work (option_list (f <$> a)).
Proof. intros Hf. destruct a; repeat constructor. apply Hf. Qed.
Lemma own_sync_fresh o fresh : own (sync_fresh o fresh).
Proof.
  unfold sync_fresh. repeat own_step.
  repeat (apply Forall_app; split); [by apply own_option|by apply Forall_fmap, Forall_true..].
Qed.
Lemma own_emits es : own (mret (Emit <$> es)).
Proof. apply own_ret. by apply Forall_fmap, Forall_true. Qed.
Lemma own_sign_events m (r : option (WatchedTxInfo * Z * SignCheck)) es :
  own (mret (match r with Some (wt, t, check) => [SignEnd m wt t check] | None => [] end ++ (Emit <$> es))).
Proof.
  apply own_ret, Forall_app. split; [destruct r as [[[]]|]; by repeat constructor|by apply Forall_fmap, Forall_true].
Qed.
Lemma own_do_work o now k : own_work k →
  own (do_work self signer conf exhausted GetCommitedCnt getFederationAddress o now k).
Proof.
  intros Hk. destruct k; cbn [do_work]; try destruct e; cbn [emitted]; try done;
    unfold on_inited, on_prepared, on_lower_term, on_joined, on_left, settle_join, settle_leave, sign_fresh, send_sign,
      broadcast_sign, former_sigs, former_chains, former_turn, signing_work;
    repeat first [apply own_locked|apply own_emits|apply own_sign_events|apply own_sync_fresh|own_step].
Qed.
Lemma own_received o m : own (received conf o m).
Proof. unfold received. apply own_bind; intros n. destruct m; repeat own_step. Qed.

(** ** A step of a node *)
Section Grow.
Variables (l : list BlockPack) (q : Z).
(** The chain is as before, or one committed block longer. *)
Definition grew n : Prop := calm l n ∨ ∃ bp, next_block q l bp ∧ calm (l ++ [bp]) n.

Lemma wp_own {A} (m : go Node (list A)) (P : list A → Prop) (I : Node → Prop) n :
  wp m (λ _, I) I n → wp m (λ ks _, P ks) (λ _, True) n → wp m (λ ks n', I n' ∧ P ks) I n.
Proof. unfold wp. by destruct (m n). Qed.
Lemma grew_threads n t : grew n → Forall (Forall own_work) t → grew (set_threads t n).
Proof.
  intros [[Hc _]|(bp & Hn & [Hc _])] Ht; [by left|right; exists bp]. split; [done|by split].
Qed.
Lemma grew_commit o now m n :
  q = QuorumN (the_cluster n) → calm l n → Z.of_nat (length l) + 1 < 2^63 →
  wp (do_work self signer conf exhausted GetCommitedCnt getFederationAddress o now (HandleCommitMsg m)) (λ _, grew) grew n.
Proof.
  intros Hq [Hc Ht] Hlen. cbn [do_work]. unfold locked.
  apply wp_bind, wp_zoom, wp_modify. apply wp_bind, wp_zoom.
  assert (∀ w, grown_chain (w_cluster (nd_world n)) l w →
            grew (set_world w (set_world (set_w_tasks [] (nd_world n)) n))) as Hg.
  { unfold the_cluster in Hq. intros w [[Hw _]|(bp & Hn & [Hw _])]; [by left; split|].
    right. exists bp. rewrite Hq. split; [done|by split]. }
  eapply wp_mono; [apply (wp_handleCommitMsg (w_cluster (nd_world n)) l); [by split|done]| |].
  - intros [] w Hw. cbn. apply wp_bind, wp_zoom, wp_gets. apply wp_bind, wp_zoom, wp_modify.
    apply wp_ret. by apply Hg in Hw.
  - intros w Hw. by apply Hg.
Qed.
Lemma grew_node_run o now i n :
  q = QuorumN (the_cluster n) → calm l n → Z.of_nat (length l) + 1 < 2^63 →
  wp (node_run self signer conf exhausted GetCommitedCnt getFederationAddress o now i) (λ _, grew) grew n.
Proof.
  intros Hq Hn Hlen. unfold node_run. apply wp_bind, wp_gets.
  cbn [id]. destruct (nd_threads n !! i) as [[|k ks]|] eqn:Ei; [by left| |by left].
  assert (Forall own_work (k :: ks)) as Hw.
  { eapply (Forall_lookup_1 _ (nd_threads n) i); [apply Hn|exact Ei]. }
  inversion_clear Hw as [|? ? Hk Hks].
  apply wp_bind. eapply wp_mono with (E := grew); [apply (wp_own _ (Forall own_work) grew)| |done].
  - assert (commits k ∨ ¬ commits k) as [Hc|Hc] by (destruct k; cbn; tauto).
    + destruct k; try done. by apply grew_commit.
    + eapply wp_mono; [by apply (nkeep_do_work l)| |]; [intros ? n' Hn'|intros n' Hn']; by left.
  - by apply own_do_work.
  - intros new n' [Hg Hnew]. apply wp_modify. apply grew_threads; [done|].
    assert (no_sync n') as Ht by (by destruct Hg as [[_ ?]|(? & _ & [_ ?])]).
    apply Forall_insert; [exact Ht|]. by apply Forall_app.
Qed.

(** The other steps leave the chain alone. *)
Lemma nkeep_add_thread ks : Forall own_work ks →
  nkeep l (modify (λ n, set_threads (nd_threads n ++ [ks]) n)).
Proof.
  intros Hks n [Hc Ht]. apply wp_modify. split; [exact Hc|].
  apply Forall_app; split; [exact Ht|by repeat constructor].
Qed.
Lemma nkeep_leader_do o m : nkeep l (leader_do self o m).
Proof.
  unfold leader_do. repeat nk_step.
  destruct x; cbn [do_leader_out]; repeat first [apply nkeep_broadcast|nk_step].
  apply nkeep_add_thread. repeat constructor.
Qed.
Lemma nkeep_make_vote : nkeep l (make_vote self signer).
Proof. unfold make_vote. repeat first [apply nkeep_notify|nk_step]. Qed.
Lemma nkeep_accuser_do o r t : nkeep l (accuser_do self signer o r t).
Proof. unfold accuser_do. repeat first [apply nkeep_broadcast|nk_step]. Qed.
Lemma nkeep_pool_heartbeat o now : nkeep l (pool_heartbeat self o now).
Proof.
  unfold pool_heartbeat, to_accuser. apply nkeep_bind.
  - apply nkeep_pool_txs. intros p. rewrite heartbeat_db. apply same_but_refl.
  - intros b. repeat first [apply nkeep_accuse_record|nk_step].
Qed.
Lemma nkeep_watcher_turn i : nkeep l (watcher_turn i).
Proof.
  unfold watcher_turn. repeat nk_step.
  - apply nkeep_on_world. eapply keep_watch_turn; try apply on_chain_frame; auto with ofgp.
  - apply nkeep_on_world. intros w0 Hw. apply wp_modify. exact Hw.
  - apply nkeep_add_thread. by apply Forall_fmap, Forall_true.
Qed.
Lemma nkeep_create_tick o : nkeep l (create_tick self o).
Proof.
  unfold create_tick. repeat first
    [apply nkeep_in_charge|apply nkeep_on_pool, mild_GetFresh|apply nkeep_add_thread; by repeat constructor|nk_step].
Qed.
Lemma nkeep_former_tick : nkeep l former_tick.
Proof. unfold former_tick. repeat first [apply nkeep_add_thread; by repeat constructor|nk_step]. Qed.
Lemma nkeep_receive o m : nkeep l (received conf o m).
Proof.
  unfold received, to_leader, to_accuser. apply nkeep_bind; [apply nkeep_gets|intros n].
  destruct m; repeat nk_step.
Qed.

Lemma nkeep_node_receive o m : nkeep l (node_receive conf o m).
Proof.
  intros n Hn. unfold node_receive. apply wp_bind. eapply wp_mono.
  - by apply (wp_own _ (Forall own_work) (calm l)); [apply nkeep_receive|apply own_received].
  - intros ks n' [Hn' Hks]. by apply nkeep_add_thread.
  - done.
Qed.
Lemma nkeep_Stop : nkeep l Stop.
Proof. intros n [Hc _]. apply wp_modify. split; [exact Hc|constructor]. Qed.
Lemma nkeep_regularSyncUp perm : nkeep l (regularSyncUp self perm).
Proof. unfold regularSyncUp, SignalSyncUp. repeat nk_step. Qed.
Lemma nkeep_LeaveCluster o : nkeep l (LeaveCluster self signer o).
Proof. unfold LeaveCluster. repeat first [apply nkeep_broadcast|apply nkeep_Stop|nk_step]. Qed.
Lemma grew_node_do o now s n :
  (∀ rsp, s ≠ NSync rsp) → q = QuorumN (the_cluster n) → calm l n → Z.of_nat (length l) + 1 < 2^63 →
  wp (node_do self signer conf exhausted GetCommitedCnt getFederationAddress o now s)
     (λ _, grew) grew n.
Proof.
  intros Hs Hq Hn Hlen.
  assert (∀ m : go Node unit, nkeep l m → wp m (λ _, grew) grew n) as Hk.
  { intros m Hm. eapply wp_mono; [by apply Hm| |]; [intros ? n' Hn'|intros n' Hn']; by left. }
  destruct s; cbn [node_do]; try (by destruct (Hs rsp)).
  - apply Hk, nkeep_node_receive.
  - by apply grew_node_run.
  - apply Hk. unfold leader_turn. repeat first [apply nkeep_leader_do|nk_step].
  - apply Hk. unfold leader_tick. repeat first [apply nkeep_leader_do|nk_step].
  - apply Hk. unfold vote_turn. repeat first [apply nkeep_make_vote|nk_step].
  - apply Hk. unfold accuser_turn. repeat first [apply nkeep_accuser_do|nk_step].
  - apply Hk, nkeep_accuser_do.
  - apply Hk, nkeep_pool_txs. intros p. apply run_step_same.
  - apply Hk, nkeep_pool_heartbeat.
  - apply Hk, nkeep_watcher_turn.
  - apply Hk, nkeep_create_tick.
  - apply Hk, nkeep_former_tick.
  - apply Hk. unfold sign_turn. repeat first [apply nkeep_add_thread; by repeat constructor|nk_step].
  - apply Hk, nkeep_bind; [|intros; apply nkeep_ret]. apply nkeep_signing. by apply mild_modify.
  - apply Hk, nkeep_bind; [|intros; apply nkeep_ret]. apply nkeep_signing, mild_checkSignTimeout.
  - apply Hk. unfold confirm_turn. repeat nk_step. apply nkeep_signing. by apply mild_modify.
  - apply Hk. unfold check_tick. repeat first [apply nkeep_add_thread; by repeat constructor|nk_step].
  - apply Hk. unfold push_turn. apply nkeep_bind; [apply nkeep_signing, mild_watchNewTx|intros [[[]|] ?]].
    + apply nkeep_add_thread. by repeat constructor.
    + apply nkeep_ret.
  - apply Hk, nkeep_bind; [|intros; apply nkeep_ret]. apply nkeep_signing, mild_operator.
  - apply Hk, nkeep_regularSyncUp.
  - apply Hk, nkeep_LeaveCluster.
Qed.
End Grow.

End NodeChain.

(** ** Every honest node of a federation *)
Section FedChain.
Context `{KV} `{Wire} `{Watchers} `{Signatures} `{DistJson}.
Variable signer_of : Z → SecureSigner.
Variable conf : Config.
Variable GetCommitedCnt : option Digest256 → Z.
Variable getFederationAddress : Cluster → MultiSigInfo.
Variable byz : gset Z.
Notation fed_run := (fed_run signer_of conf GetCommitedCnt getFederationAddress byz).
Notation fed_next := (fed_next signer_of conf GetCommitedCnt getFederationAddress byz).

(** A process that ends on a panic starts again on the same chain. *)
(** A process that starts has the chain of its store. *)
Lemma started_calm l interval now d c n1 n2 out : calm l n1 → d = node_db n1 →
  node_start getFederationAddress interval now d c = Val n2 → calm l (set_out out n2).
Proof.
  intros [Hc _] -> (n0 & Hn0 & Hn)%pan_bind_Val. revert Hn.
  assert (calm l n0) as Hn0'.
  { revert Hn0. unfold NewBraftNode. destruct (NewLeader _), (GetNodeTerm _); try discriminate. intros [= <-].
    split; [exact Hc|constructor]. }
  pose proof (nkeep_on_pool l LoadFromDB mild_LoadFromDB n0 Hn0') as Hp. unfold wp in Hp.
  destruct (on_pool LoadFromDB n0) as [[] n3|f n3]; [|done]. by intros [= ->].
Qed.
Lemma grew_node_next self l a s n n' :
  (∀ rsp, s ≠ NSync rsp) → calm l n → Z.of_nat (length l) + 1 < 2^63 →
  node_next self (signer_of self) conf GetCommitedCnt getFederationAddress a s n = Some n' →
  grew l (QuorumN (the_cluster n)) n'.
Proof.
  intros Hs Hn Hlen Hnext. destruct a as [o now chains exhausted].
  pose proof (grew_node_do self (signer_of self) conf exhausted GetCommitedCnt getFederationAddress
    l (QuorumN (the_cluster n)) o now s n Hs eq_refl Hn Hlen) as Hg.
  unfold node_next in Hnext. cbn [ar_order ar_now ar_chains ar_exhausted] in Hnext. unfold wp in Hg.
  destruct (node_do _ _ _ _ _ _ _ _ _ _) as [[] n1|f n1].
  - by injection Hnext as <-.
  - assert (∀ l1, calm l1 n1 → calm l1 n') as Hc.
    { intros l1 Hc1. destruct (node_start _ _ _ _ _) as [n2|] eqn:E; [|done]. injection Hnext as <-.
      by eapply started_calm. }
    destruct Hg as [Hg|(bp & Hb & Hg)]; [left|right; exists bp; split; [done|]]; by apply Hc.
Qed.
(** [l'] is [l] with further blocks, each with commits of [q] nodes at least. *)
Inductive extends (q : Z) (l : list BlockPack) : list BlockPack → Prop :=
  | extends_refl : extends q l l
  | extends_block l' bp : extends q l l' → next_block q l' bp → extends q l (l' ++ [bp]).
Lemma next_block_mono q q' l bp : q ≤ q' → next_block q' l bp → next_block q l bp.
Proof. intros Hq [? ? ? ? ?]. split; try done. lia. Qed.
Lemma extends_trans q l1 l2 l3 : extends q l1 l2 → extends q l2 l3 → extends q l1 l3.
Proof. intros H12. induction 1; [done|by constructor]. Qed.

(** The node [i] takes no answer of the synchronisation daemon. *)
Definition no_answer (i : Z) (a : Act) : bool :=
  match a with Do j (NSync _) => negb (j =? i) | _ => true end.
(** The node [i] has a quorum of [q] in [f], where it runs. *)
Definition quorum_at (q i : Z) (f : Fed) : Prop :=
  ∀ n, f !! i = Some n → q ≤ QuorumN (the_cluster n).

Lemma fed_next_node x a f f' i n l q :
  fed_next x a f = Some f' → no_answer i a = true → f !! i = Some n → calm l n →
  quorum_at q i f → Z.of_nat (length l) + 1 < 2^63 →
  ∃ n' l', f' !! i = Some n' ∧ calm l' n' ∧ extends q l l' ∧ Z.of_nat (length l') ≤ Z.of_nat (length l) + 1.
Proof.
  intros Hf Ha Hi Hn Hq Hlen.
  assert (∃ j s, at_node signer_of conf GetCommitedCnt getFederationAddress x j s f = Some f' ∧
    (j = i → ∀ rsp, s ≠ NSync rsp)) as (j & s & Hj & Hs).
  { destruct a as [j s|from k|to m]; cbn in Hf, Ha.
    - destruct (own_step s) eqn:Es; [|done]. exists j, s. split; [exact Hf|]. intros -> rsp ->.
      by rewrite Z.eqb_refl in Ha.
    - destruct (f !! from) as [n0|]; [|done]. cbn in Hf. destruct (nd_out n0 !! k) as [p|]; [|done].
      eexists _, _. by split; [exact Hf|].
    - destruct (author m) as [b|]; [|done]. cbn in Hf. destruct (bool_decide _); [|done].
      eexists _, _. by split; [exact Hf|]. }
  unfold at_node in Hj. destruct (f !! j) as [n0|] eqn:E0; [|done]. cbn in Hj.
  destruct (node_next _ _ _ _ _ _ _ _) as [n1|] eqn:En; [|done]. injection Hj as <-.
  destruct (decide (j = i)) as [->|Hne].
  - rewrite Hi in E0. injection E0 as <-. exists n1.
    apply grew_node_next with (l := l) in En as Hg; [|by auto|done|done].
    destruct Hg as [Hg|(bp & Hb & Hg)].
    + exists l. rewrite lookup_insert_eq. split_and!; [done|done|apply extends_refl|lia].
    + exists (l ++ [bp]). rewrite lookup_insert_eq length_app. cbn [length].
      split_and!; [done|done| |lia]. apply extends_block; [apply extends_refl|].
      eapply next_block_mono; [|exact Hb]. by apply Hq.
  - exists n, l. rewrite lookup_insert_ne; [|done]. split_and!; [done|done|apply extends_refl|lia].
Qed.

(** C1. In a run of a federation, whatever packets arrive, in whatever order and
    however often, whatever the faulty nodes say, whatever the interleaving of the
    goroutines and however often a panic restarts a process: the chain of an honest
    node only ever grows, by blocks that follow its top and carry the commits of a
    quorum of nodes, as long as it runs no answer of the synchronisation daemon. *)
Theorem federation_chain_grows acts : ∀ f f' i n l q,
  f !! i = Some n → chain_rep (node_db n) l → no_sync n →
  Forall (λ x, no_answer i x.2 = true) acts →
  (∀ pre f1, pre `prefix_of` acts → fed_run pre f = Some f1 → quorum_at q i f1) →
  Z.of_nat (length l) + Z.of_nat (length acts) < 2^63 →
  fed_run acts f = Some f' →
  ∃ n' l', f' !! i = Some n' ∧ chain_rep (node_db n') l' ∧ extends q l l'.
Proof.
  induction acts as [|[x a] acts IH]; intros f f' i n l q Hi Hl Hn Ha Hq Hlen Hrun.
  { injection Hrun as <-. exists n, l. split_and!; [done|done|apply extends_refl]. }
  cbn in Hrun. destruct (fed_next x a f) as [f1|] eqn:E1; [|done]. cbn in Hrun.
  inversion_clear Ha as [|? ? Ha1 Ha2]. cbn [length] in Hlen.
  assert (quorum_at q i f) as Hq0 by (apply (Hq [] f); [apply prefix_nil|done]).
  destruct (fed_next_node x a f f1 i n l q) as (n1 & l1 & Hi1 & [Hl1 Hn1] & He & Hlen1); auto; [by split|lia|].
  destruct (IH f1 f' i n1 l1 q) as (n' & l' & Hi' & Hl' & He'); auto; [|lia|].
  - intros pre f2 Hpre Hrun2. apply (Hq ((x, a) :: pre) f2); [by apply prefix_cons|].
    cbn. by rewrite E1.
  - exists n', l'. split_and!; [done|done|by eapply extends_trans].
Qed.
End FedChain.
