(* ===== verification/Daemons.v ===== *)
(** * The synchronisation in the background (src/node/node.go, src/node/sync_daemon.go)

    Once a minute a node asks a few random members for the blocks that it may have missed; the
    synchronisation daemon takes these requests, and those of the handlers, one by one. *)
From S2P Require Import Prelude.
From S2P Require Import GoLib.
From S2P Require Import Crypto.
From S2P Require Import Messages.
From S2P Require Import Cluster.
From S2P Require Import Store.
From S2P Require Import DbOps.
From S2P Require Import Consensus.
From S2P Require Import ChainTx.
From S2P Require Import Distribution.
From S2P Require Import SyncDaemon.
From S2P Require Import Node.

Section Daemons.
Context `{KV} `{Wire} `{Watchers} `{Signatures} `{DistJson} `{Chains}.
Variable self : Z.

(** The members that a permutation names, of which those are asked that are normal and not the node. *)
Definition asked (l : list NodeInfo) (perm : list nat) : list Z :=
  Id <$> filter (λ n, IsNormal n = true ∧ Id n ≠ self) (omap (λ k, l !! k) (take 5 perm)).

Lemma SignalSyncUp_run i n :
  SignalSyncUp self i n = Ret tt (if bool_decide (i = self) then n else set_syncIn (nd_syncIn n ++ [i]) n).
Proof. unfold SignalSyncUp, when. case_bool_decide as E; destruct (Z.eqb_spec i self); by cbn. Qed.
Lemma set_syncIn_app l l' n :
  set_syncIn (nd_syncIn (set_syncIn (nd_syncIn n ++ l) n) ++ l') (set_syncIn (nd_syncIn n ++ l) n) =
  set_syncIn (nd_syncIn n ++ (l ++ l')) n.
Proof. unfold set_syncIn. cbn. by rewrite app_assoc. Qed.
Lemma set_syncIn_nil n : set_syncIn (nd_syncIn n ++ []) n = n.
Proof. rewrite app_nil_r. by destruct n. Qed.
Lemma ask_one (l : list NodeInfo) k x n : l !! k = Some x →
  (node ← lift (match l !! k with Some node => mret node | None => Fault IndexOutOfRange end);
   when (IsNormal node) (SignalSyncUp self (Id node))) n =
  Ret tt (if decide (IsNormal x = true ∧ Id x ≠ self) then set_syncIn (nd_syncIn n ++ [Id x]) n else n).
Proof.
  intros ->. transitivity (when (IsNormal x) (SignalSyncUp self (Id x)) n); [done|]. unfold when at 1.
  destruct (IsNormal x); [|case_decide; naive_solver].
  rewrite SignalSyncUp_run. case_bool_decide; case_decide; naive_solver.
Qed.
Lemma ask_loop (l : list NodeInfo) ks n : Forall (λ k, (k < length l)%nat) ks →
  for_each ks (λ k, node ← lift (match l !! k with Some node => mret node | None => Fault IndexOutOfRange end);
    when (IsNormal node) (SignalSyncUp self (Id node))) n =
  Ret tt (set_syncIn (nd_syncIn n ++ (Id <$> filter (λ n, IsNormal n = true ∧ Id n ≠ self) (omap (λ k, l !! k) ks))) n).
Proof.
  intros Hk. revert n. induction Hk as [|k ks Hk _ IH]; intros n; [by rewrite set_syncIn_nil|].
  apply lookup_lt_is_Some_2 in Hk as [x Hx]. cbn [for_each omap list_omap]. rewrite (bind_Ret _ _ _ _ _ (ask_one l k x n Hx)) IH Hx.
  cbn [filter list_filter]. case_decide; [|done]. by rewrite set_syncIn_app.
Qed.

Lemma NoDup_fmap_filter {A B} (f : A → B) (P : A → Prop) `{!∀ x, Decision (P x)} (l : list A) :
  NoDup (f <$> l) → NoDup (f <$> filter P l).
Proof.
  induction l as [|x l IH]; [done|]. cbn. intros [Hx Hl]%NoDup_cons. cbn [filter list_filter].
  case_decide; [|by apply IH]. cbn. apply NoDup_cons. split; [|by apply IH].
  intros (y & E & [_ Hy]%list_elem_of_filter)%list_elem_of_fmap. apply Hx, list_elem_of_fmap. by exists y.
Qed.
Lemma fmap_omap_lookup (l : list NodeInfo) ks :
  (∀ i n, l !! i = Some n → Id n = Z.of_nat i) → Forall (λ k, (k < length l)%nat) ks →
  Id <$> omap (λ k, l !! k) ks = Z.of_nat <$> ks.
Proof.
  intros Hid. induction 1 as [|k ks Hk _ IH]; [done|]. apply lookup_lt_is_Some_2 in Hk as [x Hx].
  cbn [omap list_omap fmap list_fmap]. rewrite Hx. cbn. by rewrite (Hid _ _ Hx) IH.
Qed.

(** A tick of the regular synchronisation asks at most five different members, all of them normal and
    none of them the node itself, in the random order, and changes nothing else. *)
Theorem regularSyncUp_asks perm n :
  cluster_wf (the_cluster n) → perm ≡ₚ seq 0 (length (NodeList (the_cluster n))) →
  let ids := asked (NodeList (the_cluster n)) perm in
  regularSyncUp self perm n = Ret tt (set_syncIn (nd_syncIn n ++ ids) n) ∧
  (length ids ≤ 5)%nat ∧ NoDup ids ∧
  ∀ i, i ∈ ids → i ≠ self ∧ i ∈ normal_ids (the_cluster n).
Proof.
  intros Hwf Hp ids. set (l := NodeList (the_cluster n)) in *.
  assert (take (if (5 <? length l)%nat then 5%nat else length l) perm = take 5 perm) as Ht.
  { destruct (5 <? length l)%nat eqn:E; [done|]. apply Nat.ltb_ge in E.
    apply Permutation_length in Hp. rewrite length_seq in Hp. rewrite !take_ge //; lia. }
  assert (Forall (λ k, (k < length l)%nat) (take 5 perm)) as Hlt.
  { apply Forall_take, Forall_forall. intros k Hk. rewrite Hp in Hk. apply elem_of_seq in Hk. lia. }
  split_and!.
  - unfold regularSyncUp. rewrite bind_gets_id. fold l. cbn zeta. rewrite Ht. by apply ask_loop.
  - unfold ids, asked. rewrite length_fmap. etrans; [apply length_filter|].
    rewrite -(length_fmap Id) (fmap_omap_lookup l _ (wf_ids _ Hwf) Hlt) length_fmap length_take. lia.
  - apply NoDup_fmap_filter. rewrite (fmap_omap_lookup l _ (wf_ids _ Hwf) Hlt). apply NoDup_fmap; [apply _|].
    apply (sublist_NoDup _ perm); [|apply sublist_take]. rewrite Hp. apply NoDup_seq.
  - intros i (x & -> & [[Hn Hs] (k & _ & Hx)%list_elem_of_omap]%list_elem_of_filter)%list_elem_of_fmap. split; [done|].
    unfold normal_ids. apply elem_of_list_to_set, list_elem_of_fmap. exists x. split; [done|].
    apply list_elem_of_filter. split; [done|]. by eapply list_elem_of_lookup_2.
Qed.
End Daemons.

(** ** The synchronisation daemon *)
Section SyncRun.
Context `{KV} `{Wire} `{Watchers} `{Signatures}.
Variables (o : order) (GetCommitedCnt : option Digest256 → Z) (getFederationAddress : Cluster → MultiSigInfo).
(** The mode of the process, and the peers that the peer manager knows. *)
Variables (startMode : Mode) (peers : gset Z).

(** What the daemon works on, its flag, and the peers that its goroutines synchronise with. *)
Record Daemon : Type := MkDaemon { dm_world : World; dm_runSate : Z; dm_busy : list Z }.
Definition on_dm_world {A} (m : go World A) : go Daemon A :=
  zoom dm_world (λ w d, MkDaemon w (dm_runSate d) (dm_busy d)) m.
(** [Run] takes a peer from its channel, or one of the goroutines gets an answer, [None] an error. *)
Inductive DaemonStep : Type := TakePeer (peer : Z) | GetAnswer (i : nat) (rsp : option SyncUpResponse).
Definition run_take (peer : Z) : go Daemon unit :=
  modify (λ d, let r := canRun (dm_runSate d) in
    MkDaemon (dm_world d) r.2 (if r.1 then dm_busy d ++ [peer] else dm_busy d)).
Definition ask_peer (peer : Z) (rsp : option SyncUpResponse) : go Daemon SyncResult :=
  if bool_decide (peer ∈ peers) then on_dm_world (doSyncUp o GetCommitedCnt getFederationAddress startMode [rsp])
  else mret SyncFailed.
(** The goroutine ends and gives the flag back, or goes on to the next request. *)
Definition sync_round (i : nat) (rsp : option SyncUpResponse) : go Daemon unit :=
  d ← gets id;
  match dm_busy d !! i with
  | None => mret tt
  | Some peer =>
      r ← ask_peer peer rsp;
      match r with
      | SyncRunning => mret tt
      | SyncDone | SyncFailed => modify (λ d, MkDaemon (dm_world d) (finish (dm_runSate d)) (delete i (dm_busy d)))
      end
  end.
Definition daemon_do (s : DaemonStep) : go Daemon unit :=
  match s with TakePeer peer => run_take peer | GetAnswer i rsp => sync_round i rsp end.

(** The flag is set while a goroutine synchronises, and no two do. *)
Definition serial (d : Daemon) : Prop :=
  dm_runSate d = 0 ∧ dm_busy d = [] ∨ dm_runSate d = 1 ∧ ∃ peer, dm_busy d = [peer].

Lemma daemon_do_serial s d : serial d → serial (end_state (daemon_do s d)).
Proof.
  intros Hs. destruct s as [peer|i rsp]; cbn [daemon_do].
  - unfold run_take, canRun, modify. cbn. destruct Hs as [[-> ->]|[-> (p & ->)]]; [right|right]; cbn; by eauto.
  - unfold sync_round. rewrite bind_gets_id. destruct (dm_busy d !! i) as [peer|] eqn:Hi; [|done].
    destruct Hs as [[_ Hb]|[Hr (p & Hb)]]; rewrite Hb in Hi; [done|]. destruct i; [|done].
    assert (∀ (m : go Daemon SyncResult), (∃ m', m = on_dm_world m') ∨ m = mret SyncFailed →
      serial (end_state ((r ← m; match r with SyncRunning => mret tt | SyncDone | SyncFailed =>
        modify (λ d, MkDaemon (dm_world d) (finish (dm_runSate d)) (delete 0%nat (dm_busy d))) end) d))) as Hm.
    { intros m Hm. assert (∃ w, match m d with Ret _ d' | Panic _ d' => d' = MkDaemon w 1 [p] end) as (w & Hd).
      { destruct Hm as [[m' ->]| ->].
        - unfold on_dm_world, zoom. rewrite Hr Hb. destruct (m' (dm_world d)); by eexists.
        - exists (dm_world d). cbn. rewrite -Hr -Hb. by destruct d. }
      unfold mbind, go_bind. destruct (m d) as [[] d'|e d']; subst d'; cbn; unfold serial; cbn; eauto. }
    apply Hm. unfold ask_peer. case_bool_decide; eauto.
Qed.

(** C24. Whatever peers are named to the daemon and whatever they answer: it synchronises with at most one at a time,
    the flag tells whether it does, and a request that comes while it does is dropped. *)
Theorem one_sync_at_a_time steps w :
  let d := foldl (λ d s, end_state (daemon_do s d)) (MkDaemon w 0 []) steps in
  serial d ∧ (dm_runSate d = 1 → ∀ peer, daemon_do (TakePeer peer) d = Ret tt d) ∧
  (dm_runSate d = 0 → ∀ peer, daemon_do (TakePeer peer) d = Ret tt (MkDaemon (dm_world d) 1 [peer])).
Proof.
  intros d. assert (serial d) as Hs.
  { subst d. assert (serial (MkDaemon w 0 [])) as Hs by by left. revert Hs. generalize (MkDaemon w 0 []).
    induction steps as [|s steps IH]; intros d Hs; [done|]. cbn. by apply IH, daemon_do_serial. }
  split; [exact Hs|]. destruct d as [w' r b]. destruct Hs as [[Hr Hb]|[Hr (p & Hb)]]; cbn in Hr, Hb; subst r b; by split.
Qed.
End SyncRun.
