(* ===== verification/Robust.v ===== *)
(** * Which messages stop a node (src/node/rpc_handlers.go, src/node/msg_validation.go)

    A panic in the handler of a call ends the process, so whoever can make one stops the node. The checks
    dereference parts of a message before they know that they are there; [complete] says which parts these
    are. A complete message, signed or not, is always answered. *)
From S2P Require Import Prelude.
From S2P Require Import GoLib.
From S2P Require Import Crypto.
From S2P Require Import Messages.
From S2P Require Import Feed.
From S2P Require Import Cluster.
From S2P Require Import Store.
From S2P Require Import DbOps.
From S2P Require Import Validation.
From S2P Require Import Consensus.
From S2P Require Import Handlers.
From S2P Require Import Debug.
From S2P Require Import ChainTx.
From S2P Require Import Distribution.
From S2P Require Import Node.

(** ** Messages with all the parts that the checks read *)
Definition complete_block (block : option Block) : Prop :=
  match block with
  | None => True
  | Some b =>
      match b_Type b with
      | TXS => Forall (λ tx, is_Some (tx_Id tx)) (b_Txs b)
      | BCH => Forall (λ tx, is_Some (tx_Id tx)) (b_Txs b) ∧ is_Some (b_BchBlockHeader b)
      | RECONFIG => is_Some (b_Reconfig b)
      | GENESIS | UNKNOWN | Block_Type_other _ => True
      end
  end.
Definition complete_votie (v : Votie) : Prop :=
  complete_block (vi_Block v) ∧ map_Forall (λ _ p, is_Some (pm_BlockId p)) (vi_Prepares v).
Definition complete_vote (v : Vote) : Prop :=
  match v_Votie v with Some votie => complete_votie votie | None => False end.
Definition complete (m : Msg) : Prop :=
  match m with
  | NotifyInitMsg m => complete_block (im_Block m) ∧ map_Forall (λ _, complete_vote) (im_Votes m)
  | NotifyVote v => complete_vote v
  | NotifyJoin m | NotifyJoinCheckSynced m =>
      match jr_Vote m with
      | Some v => match v_Votie v with Some votie => complete_votie votie | None => True end
      | None => True
      end
  | NotifyHeatbeat m => Forall complete_vote (hb_Votes m)
  | NotifySignTx m => is_Some (sr_WatchedTx m) ∧ is_Some (sr_NewlyTx m)
  | NotifyPrepareMsg _ | NotifyCommitMsg _ | NotifyWeakAccuse _ | NotifyStrongAccuse _ | NotifyLeave _
  | NotifySignedResult _ => True
  end.

(** ** Computations that do not panic *)
Definition gives {A} (m : pan A) (P : A → Prop) : Prop := match m with Val a => P a | Fault _ => False end.
Lemma gives_ret {A} (a : A) (P : A → Prop) : P a → gives (mret a) P.
Proof. done. Qed.
Lemma gives_bind {A B} (m : pan A) (k : A → pan B) P : gives m (λ a, gives (k a) P) → gives (m ≫= k) P.
Proof. by destruct m. Qed.
Lemma gives_mono {A} (m : pan A) (P Q : A → Prop) : gives m P → (∀ a, P a → Q a) → gives m Q.
Proof. destruct m; cbn; auto. Qed.
Lemma gives_and {A} (m : pan A) (P : A → Prop) : gives m (λ _, True) → (∀ a, m = Val a → P a) → gives m P.
Proof. destruct m; cbn; auto. Qed.
Lemma gives_deref {A} (p : option A) (P : A → Prop) : is_Some p → (∀ a, p = Some a → P a) → gives (deref p) P.
Proof. intros [a ->] HP. by apply HP. Qed.
Definition total {A} (m : pan A) : Prop := gives m (λ _, True).
Lemma total_bind {A B} (m : pan A) (k : A → pan B) : total m → (∀ a, total (k a)) → total (m ≫= k).
Proof. intros Hm Hk. apply gives_bind. eapply gives_mono; [exact Hm|]. intros a _. apply Hk. Qed.
Lemma total_Val {A} (m : pan A) : total m ↔ ∃ a, m = Val a.
Proof. unfold total. destruct m; cbn; [naive_solver|]. split; [done|by intros [? ?]]. Qed.

(** ** Hashing *)
Lemma total_FeedField hs f fn : (∀ hs, total (fn hs)) → total (FeedField hs f fn).
Proof. intros Hf. apply total_bind; [apply Hf|by intros]. Qed.
Lemma total_FeedDigest hs f d : is_Some d → total (FeedDigestField hs f d).
Proof. by intros [? ->]. Qed.
Lemma total_feed_list {A} (f : Hasher256 → A → pan Hasher256) hs l :
  (∀ hs x, x ∈ l → total (f hs x)) → total (feed_list f hs l).
Proof.
  revert hs. induction l as [|x l IH]; intros hs Hl; [done|]. apply total_bind; [apply Hl; by left|].
  intros hs'. apply IH. intros. apply Hl. by right.
Qed.
Lemma total_hash_of feed : (∀ hs, total (feed hs)) → total (hash_of feed).
Proof. intros Hf. apply total_bind; [apply Hf|by intros]. Qed.
Lemma elem_of_sorted_keys {V} (m : gmap Z V) k : k ∈ sorted_keys m → is_Some (m !! k).
Proof.
  unfold sorted_keys. rewrite Int32s_permutation. intros ([k' v] & -> & Hv%elem_of_map_to_list)%list_elem_of_fmap. by exists v.
Qed.

Lemma total_PrepareMsg_Id p : is_Some (pm_BlockId p) → total (PrepareMsg_Id p).
Proof. intros [d Hd]. apply total_hash_of. intros hs. apply total_FeedField. intros hs'. by rewrite Hd. Qed.
Lemma total_CommitMsg_Id m : is_Some (cm_BlockId m) → total (CommitMsg_Id m).
Proof. intros [d Hd]. apply total_hash_of. intros hs. apply total_FeedField. intros hs'. by rewrite Hd. Qed.
Lemma total_BchBlockHeader_Id h :
  is_Some (bh_BlockId h) → is_Some (bh_PrevId h) → total (BchBlockHeader_Id (Some h)).
Proof. intros [d Hd] [p Hp]. apply total_hash_of. intros hs. apply total_FeedField. intros hs'. cbn [mbind pan_bind deref]. by rewrite Hd Hp. Qed.
Lemma total_feedTxIds hs txs : Forall (λ tx, is_Some (tx_Id tx)) txs → total (feedTxIds hs txs).
Proof.
  intros Ht. apply total_FeedField. intros h. apply total_feed_list. intros h' tx Hx.
  apply total_FeedDigest. by apply (proj1 (Forall_forall _ _) Ht).
Qed.
(** The ids that an entry of a map adds, when every entry has one. *)
Lemma total_feed_ids {V} (i : V → pan Digest256) name (m : gmap Z V) hs :
  map_Forall (λ _ v, total (i v)) m →
  total (feed_list (λ hs k, v ← deref (m !! k); d ← i v; FeedDigestField hs name (Some d)) hs (sorted_keys m)).
Proof.
  intros Hm. apply total_feed_list. intros hs' k [v Hk]%elem_of_sorted_keys. rewrite Hk. cbn [mbind pan_bind deref].
  apply total_bind; [by apply (Hm k)|done].
Qed.
Lemma total_Votie_Id v b :
  vi_Block v = Some b → is_Some (b_Id b) → map_Forall (λ _ p, is_Some (pm_BlockId p)) (vi_Prepares v) →
  map_Forall (λ _ m, is_Some (cm_BlockId m)) (vi_Commits v) → total (Votie_Id (Some v)).
Proof.
  intros Hb Hi Hp Hc. apply total_hash_of. intros hs. apply total_FeedField. intros hs'. cbn [mbind pan_bind deref]. rewrite Hb. cbn [mbind pan_bind deref].
  apply total_bind; [by apply total_FeedDigest|]. intros h1. apply total_bind.
  - apply total_FeedField. intros h2. apply total_feed_ids. intros k p Hk. apply total_PrepareMsg_Id. by apply (Hp k).
  - intros h2. apply total_FeedField. intros h3. apply total_feed_ids. intros k m Hk. apply total_CommitMsg_Id. by apply (Hc k).
Qed.
Lemma total_Vote_Id v : total (Votie_Id (v_Votie v)) → total (Vote_Id v).
Proof.
  intros Hv. apply total_hash_of. intros hs. apply total_FeedField. intros h. cbn [mbind pan_bind deref].
  apply total_bind; [exact Hv|]. intros i. cbn [mbind pan_bind deref]. done.
Qed.
Lemma total_InitMsg_Id m b :
  im_Block m = Some b → is_Some (b_Id b) → map_Forall (λ _ v, total (Vote_Id v)) (im_Votes m) → total (InitMsg_Id m).
Proof.
  intros Hb Hi Hv. apply total_hash_of. intros hs. apply total_FeedField. intros h. cbn [mbind pan_bind deref]. rewrite Hb. cbn [mbind pan_bind deref].
  apply total_bind; [by apply total_FeedDigest|]. intros h1. cbv zeta. case_match; [|done].
  apply total_FeedField. intros h2. by apply total_feed_ids.
Qed.
Lemma total_JoinRequest_Id r v : jr_Vote r = Some v → total (Vote_Id v) → total (JoinRequest_Id r).
Proof.
  intros Hv Hi. apply total_hash_of. intros hs. apply total_FeedField. intros h. cbn [mbind pan_bind deref]. rewrite Hv. cbn [mbind pan_bind deref].
  apply total_bind; [exact Hi|]. done.
Qed.
Lemma total_feedWatchedTx hs wt : is_Some wt → total (feedWatchedTx hs wt).
Proof.
  intros [tx ->]. apply total_FeedField. intros h. cbn [mbind pan_bind deref]. unfold feedRecharge. case_match; [|done].
  apply total_FeedField. intros h'. by apply total_feed_list.
Qed.
Lemma total_SignTxRequest_Id r : is_Some (sr_WatchedTx r) → is_Some (sr_NewlyTx r) → total (SignTxRequest_Id r).
Proof.
  intros Hw [n Hn]. apply total_hash_of. intros hs. apply total_FeedField. intros h. cbn [mbind pan_bind deref].
  apply total_bind; [by apply total_feedWatchedTx|]. intros h'. by rewrite Hn.
Qed.
Lemma total_SignedResult_Id r : total (SignedResult_Id r).
Proof.
  apply total_hash_of. intros hs. apply total_FeedField. intros h. cbn [mbind pan_bind deref]. case_match; [|done].
  apply total_FeedField. intros h'. by apply total_feed_list.
Qed.

(** ** Checks *)
Section Robust.
Context `{Signatures}.
Variables (c : Cluster) (o : order).
Hypothesis Hwf : cluster_wf c.

Lemma gives_verify_node id digest sig (P : bool → Prop) :
  checkNodeId c id = true → total digest → (∀ r, P r) → gives (verify_node c id digest sig) P.
Proof.
  unfold checkNodeId. intros Hid [i ->]%total_Val HP.
  pose proof (wf_total c Hwf) as Ht. pose proof (wf_bound c Hwf) as Hb.
  rewrite wrap32_small in Hid; [|unfold i32; lia]. to_prop. destruct (node_at_wf c id Hwf) as (n & Hn & _); [lia|].
  unfold verify_node. rewrite Hn. cbn. apply HP.
Qed.
Lemma total_checkPrepare p : total (checkPrepare c p).
Proof.
  unfold checkPrepare. destruct (_ && _) eqn:E; [|done]. to_prop. apply gives_verify_node; [done| |done].
  apply total_PrepareMsg_Id. by destruct (pm_BlockId p).
Qed.
Lemma total_checkCommit m : total (checkCommit c m).
Proof.
  unfold checkCommit. destruct (_ && _) eqn:E; [|done]. to_prop. apply gives_verify_node; [done| |done].
  apply total_CommitMsg_Id. by destruct (cm_BlockId m).
Qed.
Lemma total_forall_entries {V} (check : Z → V → pan bool) l :
  (∀ k v, (k, v) ∈ l → total (check k v)) → total (forall_entries check l).
Proof.
  induction l as [|[k v] l IH]; intros Hl; [done|]. apply total_bind; [apply Hl; by left|].
  intros []; [|done]. apply IH. intros. apply Hl. by right.
Qed.
Lemma total_forall_range {V} (check : Z → V → pan bool) n (m : gmap Z V) :
  (∀ k v, m !! k = Some v → total (check k v)) → total (forall_entries check (range o n m)).
Proof. intros Hm. apply total_forall_entries. intros k v Hk%elem_of_range. by apply Hm. Qed.
Lemma total_check_entries {V} (check : Z → V → pan (bool * V)) l m :
  (∀ k v, (k, v) ∈ l → total (check k v)) → total (check_entries check l m).
Proof.
  revert m. induction l as [|[k v] l IH]; intros m Hl; [done|]. apply total_bind; [apply Hl; by left|].
  intros [[] v']; [|done]. apply IH. intros. apply Hl. by right.
Qed.

Lemma total_EqualTo_Some a b : is_Some a → is_Some b → total (EqualTo a b).
Proof. by intros [? ->] [? ->]. Qed.

Lemma total_Block_hash b :
  complete_block (Some b) → (b_Type b ≠ GENESIS → is_Some (b_PrevBlockId b)) →
  (b_Type b = BCH → ∃ h, b_BchBlockHeader b = Some h ∧ is_Some (bh_BlockId h) ∧ is_Some (bh_PrevId h)) →
  b_Type b = GENESIS ∨ b_Type b = TXS ∨ b_Type b = RECONFIG ∨ b_Type b = BCH → total (Block_hash b).
Proof.
  intros Hc Hp Hh Ht. apply total_hash_of. intros hs. apply total_FeedField. intros h.
  cbn [complete_block] in Hc. unfold IsGenesis. destruct Ht as [Ht|[Ht|[Ht|Ht]]]; rewrite Ht in Hc Hp Hh |- *.
  - done.
  - apply total_bind; [apply total_FeedDigest, Hp; done|]. intros h'. by apply total_feedTxIds.
  - apply total_bind; [apply total_FeedDigest, Hp; done|]. intros h'. apply total_bind; [|done].
    destruct Hc as [r ->]. done.
  - apply total_bind; [apply total_FeedDigest, Hp; done|]. intros h'. apply total_bind; [apply total_feedTxIds, Hc|].
    intros h2. destruct (Hh eq_refl) as (hd & -> & ? & ?). apply total_bind; [by apply total_BchBlockHeader_Id|done].
Qed.
Lemma checkDigest_Some d : checkDigest d = true → is_Some d.
Proof. by destruct d. Qed.
(** A block that passes comes back with an id. *)
Lemma gives_checkBlock b :
  complete_block b → gives (checkBlock b) (λ r, r.1 = true → ∃ x, r.2 = Some x ∧ is_Some (b_Id x)).
Proof.
  intros Hc. destruct b as [b|]; [|done].
  assert (∀ m, total (Block_hash b) → m = (b' ← UpdateBlockId b; mret (true, Some b')) →
    gives m (λ r, r.1 = true → ∃ x, r.2 = Some x ∧ is_Some (b_Id x))) as Hu.
  { intros m [i Hi]%total_Val ->. unfold UpdateBlockId. rewrite Hi. cbn. intros _. by exists (set_b_Id b (Some i)). }
  assert (∀ m, m = mret (false, Some b) → gives m (λ r, r.1 = true → ∃ x, r.2 = Some x ∧ is_Some (b_Id x))) as Hr
    by (by intros ? ->).
  assert (∀ p, checkDigest (b_PrevBlockId b) && p = true → is_Some (b_PrevBlockId b)) as Hp
    by (intros p [Hp _]%andb_true_iff; by apply checkDigest_Some).
  unfold checkBlock. destruct (b_Type b) eqn:Et; try (by apply Hr).
  - destruct (_ && _) eqn:E; [|by apply Hr]. eapply Hu; [|done].
    apply total_Block_hash; rewrite ?Et; [done|done|done|auto].
  - destruct (_ && _) eqn:E; [|by apply Hr]. eapply Hu; [|done].
    apply total_Block_hash; rewrite ?Et; [done|intros _; by eapply Hp|done|auto].
  - destruct (checkDigest (b_PrevBlockId b)) eqn:E; [|by apply Hr].
    assert (is_Some (b_BchBlockHeader b)) as [h Hh] by (cbn [complete_block] in Hc; rewrite Et in Hc; apply Hc).
    rewrite Hh. unfold checkBchBlockHeader. cbn [deref mbind pan_bind mret pan_ret].
    destruct (_ && negb _) eqn:E2; [|by apply Hr]. to_prop. eapply Hu; [|done].
    apply total_Block_hash; rewrite ?Et; [done|intros _; by apply checkDigest_Some| |auto].
    intros _. exists h. split_and!; [done|by apply checkDigest_Some..].
  - destruct (_ && _) eqn:E; [|by apply Hr]. eapply Hu; [|done].
    apply total_Block_hash; rewrite ?Et; [done|intros _; by eapply Hp|done|auto].
Qed.

(** ** Votes *)
Lemma total_votie_prepare t h i k p :
  is_Some i → is_Some (pm_BlockId p) → total (votie_prepare c t h i k p).
Proof.
  intros Hi Hp. apply total_bind; [apply total_checkPrepare|]. intros r. case_match.
  - apply total_bind; [by apply gives_deref|done].
  - case_match; [done|]. by apply total_EqualTo_Some.
Qed.
Lemma total_votie_commit t h i k m : is_Some i → total (votie_commit c t h i k m).
Proof.
  intros Hi. unfold votie_commit. apply gives_bind, gives_and; [apply total_checkCommit|]. intros r Hr.
  destruct r; cbn [negb orb]; [|done]. case_match; [done|]. case_match; [done|]. apply total_EqualTo_Some; [done|].
  by apply checkCommit_true in Hr as (_ & _ & ? & _).
Qed.
Lemma gives_checkVotie v :
  complete_votie v → gives (checkVotie c o (Some v)) (λ r, is_Some r.2 ∧ (r.1 = true → total (Votie_Id r.2))).
Proof.
  intros [Hb Hp]. unfold checkVotie. case_match; [by split|]. apply gives_bind.
  eapply gives_mono; [by apply gives_checkBlock|]. intros [r b] Hr. cbn [fst snd] in *. destruct r; [|by split].
  cbn [negb]. destruct (Hr eq_refl) as (x & -> & Hx). cbn [deref mbind pan_bind]. apply gives_bind, gives_and.
  { apply total_forall_range. intros k p Hk. apply total_votie_prepare; [done|by apply (Hp k)]. }
  intros ps _. destruct ps; [|by split]. cbn [negb]. apply gives_bind, gives_and.
  { apply total_forall_range. intros k m _. by apply total_votie_commit. }
  intros cs Hcs. destruct cs; [|by split]. cbn [negb]. cbv zeta.
  assert (total (Votie_Id (Some (set_vi_Block v (Some x))))) as Ht.
  { eapply total_Votie_Id; [done|done|exact Hp|]. intros k m Hk.
    pose proof (proj1 (forall_range _ _ _ _) Hcs k m Hk) as (_ & _ & -> & _)%votie_commit_true. done. }
  case_match; by split.
Qed.
Lemma gives_checkVote v :
  complete_vote v → gives (checkVote c o v) (λ r, is_Some (v_Votie r.2) ∧ (r.1 = true → total (Vote_Id r.2))).
Proof.
  unfold complete_vote. intros Hv. destruct (v_Votie v) as [votie|] eqn:E; [|done].
  assert (is_Some (v_Votie v)) as Hs by (rewrite E; done).
  unfold checkVote. case_match; [by split|]. rewrite E. cbn [deref mbind pan_bind]. case_match; [by split|].
  apply gives_bind. eapply gives_mono; [by apply gives_checkVotie|]. intros [r v'] [Hv' Hr]. cbn [fst snd] in *.
  destruct r; [|by split]. cbn [negb]. cbv zeta. specialize (Hr eq_refl).
  assert (total (Vote_Id (set_v_Votie v v'))) as Hi by (apply total_Vote_Id; exact Hr).
  to_prop. apply gives_bind, gives_verify_node; [done|exact Hi|]. intros ok. by split.
Qed.
Lemma gives_init_vote t k v :
  complete_vote v → gives (init_vote c o t k v) (λ r, r.1 = true → total (Vote_Id r.2)).
Proof.
  intros Hv. unfold init_vote. case_match; [done|]. eapply gives_mono; [by apply gives_checkVote|]. by intros ? [_ ?].
Qed.

(** ** The other messages *)
Lemma gives_init_votes t n m (votes : gmap Z Vote) :
  votes = m → map_Forall (λ _, complete_vote) votes →
  gives (check_entries (init_vote c o t) (range o n votes) m)
    (λ r, r.1 = true → map_Forall (λ _ v, total (Vote_Id v)) r.2).
Proof.
  intros <- Hv. apply gives_and.
  { apply total_check_entries. intros k v Hk%elem_of_range. eapply gives_mono; [apply gives_init_vote, (Hv k v Hk)|done]. }
  intros [r m] Hr. cbn [fst snd]. intros -> k v Hk. pose proof (check_entries_range _ _ _ _ _ Hr k) as He.
  rewrite Hk in He. destruct (votes !! k) as [v0|] eqn:E; [|done].
  pose proof (gives_init_vote t k v0 (Hv k v0 E)) as Hg. rewrite He in Hg. by apply Hg.
Qed.
Lemma gives_checkInit m mode :
  complete_block (im_Block m) → map_Forall (λ _, complete_vote) (im_Votes m) →
  gives (checkInit c o (Some m) mode) (λ r, is_Some r.2).
Proof.
  intros Hb Hv. unfold checkInit. case_match; [by apply gives_ret; eexists|]. apply gives_bind.
  eapply gives_mono; [by apply gives_checkBlock|]. intros [r b] Hr. cbn [fst snd] in *. cbv zeta.
  destruct (negb r || _) eqn:E; [by apply gives_ret; eexists|]. to_prop. destruct (Hr ltac:(done)) as (x & -> & Hx). apply gives_bind.
  assert (gives (if Z.of_nat (size (im_Votes (set_im_Block m (Some x)))) >=? QuorumN c then
      (if bool_decide (mode = CheckFull) then check_entries (init_vote c o (im_Term (set_im_Block m (Some x))))
         (range o 9 (im_Votes (set_im_Block m (Some x)))) (im_Votes (set_im_Block m (Some x)))
       else mret (true, im_Votes (set_im_Block m (Some x)))) else mret (true, ∅))
    (λ r, bool_decide (mode = CheckLite) = false → r.1 = true → map_Forall (λ _ v, total (Vote_Id v)) r.2)) as Hg.
  { case_match; [|intros _ _; apply map_Forall_empty]. case_bool_decide.
    - eapply gives_mono; [by apply gives_init_votes|]. intros ? Ha _. exact Ha.
    - destruct mode; try done. }
  eapply gives_mono; [exact Hg|]. intros [r2 votes] Hvotes. cbn [fst snd] in *. destruct r2; [|by eexists]. cbn [negb].
  destruct (bool_decide (mode = CheckLite)); [by apply gives_ret; eexists|]. apply gives_bind, gives_verify_node; [done| |by eexists].
  eapply total_InitMsg_Id; [done|done|]. by apply Hvotes.
Qed.
Lemma total_checkWeakAccuse wa : total (checkWeakAccuse c wa).
Proof. unfold checkWeakAccuse. destruct (_ && _) eqn:E; [|done]. to_prop. by apply gives_verify_node. Qed.
Lemma total_checkStrongAccuse m : total (checkStrongAccuse c o (Some m)).
Proof.
  unfold checkStrongAccuse. case_match; [done|]. apply total_forall_range. intros k wa _.
  apply total_bind; [apply total_checkWeakAccuse|done].
Qed.
Lemma gives_checkJoinVote v votie key :
  v_Votie v = Some votie → complete_votie votie →
  gives (checkJoinVote c o v key) (λ r, r.1 = true → total (Vote_Id r.2)).
Proof.
  intros Hv Hc. unfold checkJoinVote. cbv beta zeta. rewrite Hv. cbn [deref mbind pan_bind]. case_match; [done|]. case_match; [done|].
  apply gives_bind. eapply gives_mono; [by apply gives_checkVotie|]. intros [r v'] [[y Hy] Hr]. cbn [fst snd] in *. cbv zeta.
  destruct r; cbn [negb].
  - specialize (Hr eq_refl). assert (total (Vote_Id (set_v_Votie v v'))) as Hi by (apply total_Vote_Id; exact Hr).
    apply gives_bind. eapply gives_mono; [exact Hi|]. by intros ? _ _.
  - subst v'. done.
Qed.
Lemma total_checkJoinRequest m host key :
  match jr_Vote m with
  | Some v => match v_Votie v with Some votie => complete_votie votie | None => True end
  | None => True
  end → total (checkJoinRequest c o (Some m) host key).
Proof.
  intros Hm. unfold checkJoinRequest. cbn [deref mbind pan_bind]. destruct (_ || _); [done|].
  destruct (jr_Vote m) as [v|]; [|done]. destruct (v_Votie v) as [votie|] eqn:Ev; [|done].
  destruct (hex_decode (jr_Pubkey m)) as [pk|]; [|done]. apply gives_bind.
  eapply gives_mono; [by eapply gives_checkJoinVote|]. intros [r vote] Hr. cbn [fst snd] in *. cbv zeta.
  destruct r; [|done]. cbn [negb]. apply gives_bind. eapply gives_mono; [|by intros].
  eapply total_JoinRequest_Id; [done|by apply Hr].
Qed.
Lemma total_votes_ok votes : Forall complete_vote votes → total (votes_ok c o votes).
Proof.
  induction 1 as [|v l Hv _ IH]; [done|]. cbn [votes_ok]. apply gives_bind.
  eapply gives_mono; [by apply gives_checkVote|]. intros [[] v'] _; [exact IH|done].
Qed.
End Robust.

(** ** The node *)
Section node.
Context `{KV} `{Wire} `{Watchers} `{Signatures} `{DistJson} `{Chains}.
Variables (conf : Config) (o : order).

(** A handler that returns. *)
Definition returns {S A} (m : go S A) (s : S) : Prop := ∃ a s', m s = Ret a s'.
Lemma returns_lift {S A B} (p : pan A) (P : A → Prop) (k : A → go S B) s :
  gives p P → (∀ a, P a → returns (k a) s) → returns (lift p ≫= k) s.
Proof. intros Hp Hk. destruct p as [a|]; [|done]. by apply Hk. Qed.
Lemma returns_ret {S A} (a : A) (s : S) : returns (mret a) s.
Proof. by exists a, s. Qed.
Lemma returns_modify {S B} (f : S → S) (k : unit → go S B) s : returns (k tt) (f s) → returns (modify f ≫= k) s.
Proof. done. Qed.

Lemma received_returns m n : cluster_wf (the_cluster n) → complete m → returns (received conf o m) n.
Proof.
  intros Hwf Hm. unfold received, returns. rewrite bind_gets_id. cbv zeta. destruct m; cbn [complete] in Hm.
  - destruct Hm as [Hb Hv]. eapply returns_lift; [by apply (gives_checkInit _ o Hwf _ CheckFull)|].
    intros [r m'] [x Hx]. cbn [snd] in Hx. subst m'. apply returns_ret.
  - eapply returns_lift; [by apply total_checkPrepare|]. intros r _. apply returns_ret.
  - eapply returns_lift; [by apply total_checkCommit|]. intros r _. apply returns_ret.
  - eapply returns_lift; [by apply total_checkWeakAccuse|]. intros r _. apply returns_ret.
  - eapply returns_lift; [by apply total_checkStrongAccuse|]. intros r _. apply returns_ret.
  - eapply returns_lift; [by apply gives_checkVote|]. intros [r v] [Hv _]. cbn [snd] in Hv. destruct r.
    + by apply returns_modify, returns_ret.
    + apply Vote_DebugString_Val with (o := o) in Hv as [s Hs]. rewrite Hs. by exists [], n.
  - eapply returns_lift; [by apply total_checkJoinRequest|]. intros [r m'] _. apply returns_ret.
  - eapply returns_lift; [by apply total_checkJoinRequest|]. intros [r m'] _. apply returns_ret.
  - eapply (returns_lift _ (λ _, True)); [|intros r _; apply returns_ret]. unfold checkLeaveRequest. destruct (checkNodeId _ _) eqn:E; [|done].
    by apply gives_verify_node.
  - eapply returns_lift; [by apply total_votes_ok|]. intros r _. by apply returns_modify, returns_ret.
  - eapply (returns_lift _ (λ _, True)); [|intros r _; apply returns_ret]. unfold checkSignTxRequest. destruct (_ && _) eqn:E; [|done].
    to_prop. apply gives_verify_node; [done|done| |done]. destruct Hm. by apply total_SignTxRequest_Id.
  - eapply (returns_lift _ (λ _, True)); [|intros r _; unfold when; destruct r; [by apply returns_modify, returns_ret|by apply returns_ret]].
    unfold checkSignedResult. destruct (_ && _) eqn:E; [|done]. to_prop.
    apply gives_verify_node; [done..| |done]. apply total_SignedResult_Id.
Qed.

End node.
