(* ===== verification/Start.v ===== *)
(** * Opening the store (src/node/node.go, src/dgwdb/database.go, src/util/home_dir.go)

    A node opens the store at its start and writes the genesis block if the directory of the store was missing or
    empty. What the file system holds is a map from paths; LevelDB is what it does at a directory: an empty
    store where there is none, the store that is there, or an error that a recovery may repair. *)
From S2P Require Import Prelude.
From S2P Require Import GoLib.
From S2P Require Import Crypto.
From S2P Require Import Messages.
From S2P Require Import ProtoOps.
From S2P Require Import Cluster.
From S2P Require Import Store.
From S2P Require Import DbOps.
From S2P Require Import Consensus.
From S2P Require Import ChainTx.
From S2P Require Import Distribution.
From S2P Require Import Leader.
From S2P Require Import Node.

Section Start.
Context `{KV} `{Wire}.
(** The store of LevelDB in a directory without one. *)
Variable fresh : db.
Hypothesis fresh_empty : ∀ k, Get fresh k = None.
(** The home directory of the user, the joining of paths, and whether a directory can be made. *)
Variables (GetHomeDir : option string) (Join : string → string → string) (can_make : string → bool).

(** ** The file system *)

(** What a directory holds of LevelDB: nothing, a store, or one that is damaged with what a recovery makes of it.
    [others] tells whether a directory without a store has other files. *)
Inductive Content : Type :=
  | NoStore (others : bool)
  | Stored (d : db)
  | Damaged (recovered : option db)
  | Unreadable.
(** A path that is not in the map is missing; [NoInfo] is one that [os.Stat] has another error for. *)
Inductive Entry : Type := NoInfo | NotDirectory | Directory (c : Content).
Definition Files : Type := gmap string Entry.
Definition has_files (c : Content) : bool := match c with NoStore others => others | _ => true end.

(** ** LevelDB *)
Record Options : Type := { OpenFilesCacheCapacity : Z; BlockCacheCapacity : Z; WriteBuffer : Z }.
Inductive OpenResult : Type := Opened | ErrCorrupted | OpenError.
Definition set_content (file : string) (c : Content) : go Files unit := modify <[file := Directory c]>.
Definition OpenFile (file : string) (opts : Options) : go Files OpenResult :=
  fs ← gets id;
  match fs !! file with
  | Some (Directory (NoStore _)) => _ ← set_content file (Stored fresh); mret Opened
  | Some (Directory (Stored _)) => mret Opened
  | Some (Directory (Damaged _)) => mret ErrCorrupted
  | _ => mret OpenError
  end.
Definition RecoverFile (file : string) : go Files OpenResult :=
  fs ← gets id;
  match fs !! file with
  | Some (Directory (Damaged (Some d))) => _ ← set_content file (Stored d); mret Opened
  | _ => mret OpenError
  end.

(** ** The wrapper (src/dgwdb/database.go) *)
Definition MiB : Z := 1048576.
Definition open_options (cache handles : Z) : Options :=
  let cache := if cache <? 16 then 16 else cache in
  let handles := if handles <? 16 then 16 else handles in
  {| OpenFilesCacheCapacity := handles; BlockCacheCapacity := Z.quot cache 2 * MiB; WriteBuffer := Z.quot cache 4 * MiB |}.
(** True when there is no error. *)
Definition NewLDBDatabase (file : string) (cache handles : Z) : go Files bool :=
  r ← OpenFile file (open_options cache handles);
  r ← (match r with ErrCorrupted => RecoverFile file | Opened | OpenError => mret r end);
  mret (match r with Opened => true | ErrCorrupted | OpenError => false end).

(** ** The node (src/node/node.go) *)
Definition DbCache : Z := 16.
Definition DbFileHandles : Z := 16.
Definition db_path (dbPath : string) : pan string :=
  if len dbPath =? 0 then
    match GetHomeDir with
    | None => Fault (ExplicitPanic "Cannot detect the home dir for the current user.")
    | Some homeDir => mret (Join homeDir "braftdb")
    end
  else mret dbPath.
(** The path of the store and whether it was created newly. *)
Definition openDbOrDie (dbPath : string) : go Files (string * bool) :=
  dbPath ← lift (db_path dbPath);
  fs ← gets id;
  newlyCreated ← (match fs !! dbPath with
    | None =>
        if can_make dbPath then _ ← set_content dbPath (NoStore false); mret true
        else lift (Fault (ExplicitPanic "Cannot create db path"))
    | Some NoInfo => lift (Fault (ExplicitPanic "Cannot get info of path"))
    | Some NotDirectory => lift (Fault (ExplicitPanic "Path is not a directory"))
    | Some (Directory c) => mret (negb (has_files c))
    end);
  ok ← NewLDBDatabase dbPath DbCache DbFileHandles;
  if ok : bool then mret (dbPath, newlyCreated) else lift (Fault (ExplicitPanic "Failed to open database")).
(** A write goes to the store in the directory. *)
Definition in_store {A} (dbPath : string) (m : go db A) : go Files A := λ fs,
  match fs !! dbPath with
  | Some (Directory (Stored d)) =>
      match m d with
      | Ret a d => Ret a (<[dbPath := Directory (Stored d)]> fs)
      | Panic f d => Panic f (<[dbPath := Directory (Stored d)]> fs)
      end
  | _ => Panic NilDeref fs
  end.
(** The beginning of [NewBraftNode]. *)
Definition start_db (genesis : BlockPack) (dbPath : string) : go Files string :=
  '(dbPath, newlyCreated) ← openDbOrDie dbPath;
  _ ← when newlyCreated (in_store dbPath (InitDB genesis));
  mret dbPath.

(** ** Lemmas *)
Lemma db_path_given p : p ≠ "" → db_path p = Val p.
Proof.
  intros Hp. unfold db_path. destruct p as [|c p]; [done|]. unfold len. cbn [String.length].
  destruct (Z.eqb_spec (Z.of_nat (S (String.length p))) 0); [lia|done].
Qed.
Lemma NewLDBDatabase_run p d c fs n m :
  fs !! p = Some (Directory c) → (c = Stored d ∨ (∃ b, c = NoStore b) ∧ d = fresh ∨ c = Damaged (Some d)) →
  NewLDBDatabase p n m fs = Ret true (<[p := Directory (Stored d)]> fs).
Proof.
  intros Hp Hc. unfold NewLDBDatabase, OpenFile, RecoverFile, set_content, mbind, go_bind, gets, modify. cbn. rewrite Hp.
  destruct Hc as [->|[[[b ->] ->]| ->]]; cbn; [by rewrite insert_id|done|by rewrite Hp].
Qed.
(** The store that is opened is there afterwards, and nothing else changes. *)
Lemma openDbOrDie_run p d c newly fs fs' :
  p ≠ "" →
  (fs !! p = None ∧ can_make p = true ∧ newly = true ∧ fs' = <[p := Directory (NoStore false)]> fs ∨
   fs !! p = Some (Directory c) ∧ newly = negb (has_files c) ∧ fs' = fs) →
  fs' !! p = Some (Directory c) → (c = Stored d ∨ (∃ b, c = NoStore b) ∧ d = fresh ∨ c = Damaged (Some d)) →
  openDbOrDie p fs = Ret (p, newly) (<[p := Directory (Stored d)]> fs).
Proof.
  intros Hne Hn Hp Hc. assert (<[p := Directory (Stored d)]> fs' = <[p := Directory (Stored d)]> fs) as He.
  { destruct Hn as [(_ & _ & _ & ->)|(_ & _ & ->)]; [by rewrite insert_insert_eq|done]. }
  unfold openDbOrDie. rewrite db_path_given; [|done]. rewrite (bind_Ret _ _ fs p fs); [|done]. rewrite bind_gets_id.
  rewrite (bind_Ret _ _ fs newly fs').
  - by rewrite (bind_Ret _ _ _ _ _ (NewLDBDatabase_run p d c fs' DbCache DbFileHandles Hp Hc)) He.
  - destruct Hn as [(Hm & Hk & -> & ->)|(Hm & -> & ->)]; rewrite Hm; [by rewrite Hk|done].
Qed.
Lemma start_db_later genesis p d c fs :
  p ≠ "" → fs !! p = Some (Directory c) → has_files c = true →
  (c = Stored d ∨ (∃ b, c = NoStore b) ∧ d = fresh ∨ c = Damaged (Some d)) →
  start_db genesis p fs = Ret p (<[p := Directory (Stored d)]> fs).
Proof.
  intros Hne Hp Hf Hc. unfold start_db.
  rewrite (bind_Ret _ _ _ _ _ (openDbOrDie_run p d c false fs fs Hne ltac:(right; by rewrite Hf) Hp Hc)). done.
Qed.
Lemma start_db_first genesis p fs d' :
  p ≠ "" → (fs !! p = None ∧ can_make p = true ∨ fs !! p = Some (Directory (NoStore false))) →
  InitDB genesis fresh = Ret tt d' → start_db genesis p fs = Ret p (<[p := Directory (Stored d')]> fs).
Proof.
  intros Hne Hp Hi. unfold start_db.
  rewrite (bind_Ret _ _ fs (p, true) (<[p := Directory (Stored fresh)]> fs)).
  - rewrite (bind_Ret _ _ _ tt (<[p := Directory (Stored d')]> fs)); [done|]. unfold when, in_store.
    by rewrite lookup_insert_eq Hi insert_insert_eq.
  - destruct Hp as [[Hp Hm]|Hp].
    + eapply openDbOrDie_run; [done|by left|by rewrite lookup_insert_eq|eauto].
    + eapply openDbOrDie_run; [done|by right|done|eauto].
Qed.

(** ** The start of a node *)
Context `{Watchers} `{Signatures} `{DistJson} `{Chains}.
Variable getFederationAddress : Cluster → MultiSigInfo.

Lemma node_start_no_term interval now d c : Get d keyTerm = None → node_start getFederationAddress interval now d c = Fault AssertionFailed.
Proof.
  intros Ht. assert (GetNodeTerm d = Fault AssertionFailed) as Hn by (unfold GetNodeTerm; by rewrite Ht).
  unfold node_start, NewBraftNode, NewLeader. by rewrite Hn.
Qed.

(** C27. The first start makes the store, with the chain of the genesis block and term 0, and later starts open it as it is.
    But a start that dies after the store was made and before the term is written is the last one: the directory
    is not empty any more, so that nothing writes the genesis block, and every later start panics, as every
    start does in a directory that holds any other file. *)
Theorem start_db_once genesis p fs x :
  p ≠ "" → (fs !! p = None ∧ can_make p = true ∨ fs !! p = Some (Directory (NoStore false))) →
  is_Some (Marshal genesis) → bp_Height genesis = Val 0 → bp_BlockId genesis = Val (Some x) →
  (∃ v, ToVotie genesis = Val v ∧ is_Some (Marshal v)) →
  (∃ d, start_db genesis p fs = Ret p (<[p := Directory (Stored d)]> fs) ∧ chain_rep d [genesis] ∧ GetNodeTerm d = Val 0) ∧
  (∀ d fs', fs' !! p = Some (Directory (Stored d)) → start_db genesis p fs' = Ret p fs') ∧
  (∀ c fs' interval now cl, c = NoStore true ∨ (∃ d, c = Stored d ∧ Get d keyTerm = None) →
     fs' !! p = Some (Directory c) →
     ∃ d, start_db genesis p fs' = Ret p (<[p := Directory (Stored d)]> fs') ∧
       node_start getFederationAddress interval now d cl = Fault AssertionFailed).
Proof.
  intros Hne Hp Hm Hh Hx Hv. split_and!.
  - destruct (InitDB_spec genesis fresh x Hm Hh Hx Hv) as (d & Hd & Hr & Ht & _). exists d. split; [|by split].
    by apply start_db_first.
  - intros d fs' Hd. rewrite (start_db_later genesis p d (Stored d) fs'); [|by eauto..]. by rewrite insert_id.
  - intros c fs' interval now cl Hc Hf. destruct Hc as [->|(d & -> & Hd)].
    + exists fresh. split; [by apply (start_db_later genesis p fresh (NoStore true)); eauto|by apply node_start_no_term].
    + exists d. split; [by apply (start_db_later genesis p d (Stored d)); eauto|by apply node_start_no_term].
Qed.
End Start.
