(* ===== verification/Scenarios.v ===== *)
(** * Scenarios

    Runs of a four-node cluster (quorum 3, accusation quorum 2), computed by the
    definitions with the concrete parameters of [Instances.v]: the attacks and
    races that the handlers admit. *)
From S2P Require Import Prelude.
From S2P Require Import GoLib.
From S2P Require Import Crypto.
From S2P Require Import Messages.
From S2P Require Import Feed.
From S2P Require Import ProtoOps.
From S2P Require Import Cluster.
From S2P Require Import Store.
From S2P Require Import DbOps.
From S2P Require Import TxPool.
From S2P Require Import Validation.
From S2P Require Import Consensus.
From S2P Require Import Handlers.
From S2P Require Import ConsensusProps.
From S2P Require Import NodeProps.
From S2P Require Import Instances.

#[local] Existing Instance mem_KV.
#[local] Existing Instance mem_Wire.
#[local] Existing Instance no_Watchers.
#[local] Existing Instance toy_Signatures.

(** ** The cluster, the genesis block, the first state *)
Definition ex_pb_node (i : Z) (key : string) : PbNodeInfo :=
  {| ni_NodeId := i; ni_Name := "node"; ni_Pubkey := key; ni_Host := "host"; ni_IsNormal := true |}.
Definition ex_nodes : PbNodeList :=
  {| nl_NodeList := [ex_pb_node 0 "00"; ex_pb_node 1 "01"; ex_pb_node 2 "02"; ex_pb_node 3 "03"];
     nl_MultiSigInfoList := []; nl_LeaderId := 0; nl_QuorumN := 3; nl_BlockHeight := 0 |}.
Definition or_else {A} (x : A) (p : pan A) : A := match p with Val a => a | Fault _ => x end.
Definition ex_cluster : Cluster := or_else zeroCluster (InitWithNodeList ex_nodes zeroCluster).

Definition ex_block (ty : Block_Type) (prev : option Digest256) (id : string) : Block :=
  MkBlock 1534766888 prev ty [] None None (Some (Digest id)).
Definition ex_init (term height node : Z) (b : Block) : InitMsg :=
  {| im_Term := term; im_Height := height; im_Block := Some b; im_NodeId := node; im_Sig := "";
     im_Votes := ∅ |}.
Definition ex_pack (m : InitMsg) : BlockPack :=
  {| bp_Init := Some m; bp_Prepares := ∅; bp_Commits := ∅ |}.
Definition ex_genesis : BlockPack := ex_pack (ex_init 0 0 0 (ex_block GENESIS None "genesis")).
Definition ex_db : db := end_state (InitDB ex_genesis ∅).
Definition ex_world : World := MkWorld (MkPool ex_db NewTxStore) ∅ ∅ ex_cluster [] [].

Definition ex_commit (node : Z) (id : string) : CommitMsg :=
  {| cm_Term := 0; cm_Height := 1; cm_BlockId := Some (Digest id); cm_NodeId := node; cm_Sig := "" |}.
Definition proposal (id : string) : InitMsg :=
  ex_init 0 1 0 (ex_block TXS (Some (Digest "genesis")) id).

Definition ex_key (node : Z) : bytes := or_else "" (n ← node_at ex_cluster node; mret (PublicKey n)).
Definition ex_weak (term node : Z) : WeakAccuse :=
  let wa := {| wa_Term := term; wa_NodeId := node; wa_Sig := ""; wa_Time := 0 |} in
  {| wa_Term := term; wa_NodeId := node;
     wa_Sig := or_else "" (i ← WeakAccuse_Id wa; mret (ex_key node +:+ Data i)); wa_Time := 0 |}.
Definition ex_strong (t0 t1 : Z) : StrongAccuse :=
  {| sa_WeakAccuses := {[ 0 := ex_weak t0 0; 1 := ex_weak t1 1 ]} |}.
(** The iteration of the comparison sees the entries in one order, the next one
    in the other. *)
Definition ex_order (flip : bool) : order :=
  Order (λ _ n l, if Bool.eqb (n =? 20)%nat flip then l else reverse l)
    (λ A n l, match Bool.eqb (n =? 20)%nat flip as b
                return (if b then l else reverse l) ≡ₚ l with
              | true => Permutation_refl l | false => reverse_Permutation l end).

(** Seven nodes, of which the last theorem deletes three. *)
Definition ex_nodes7 : PbNodeList :=
  {| nl_NodeList := [ex_pb_node 0 "00"; ex_pb_node 1 "01"; ex_pb_node 2 "02"; ex_pb_node 3 "03";
                     ex_pb_node 4 "04"; ex_pb_node 5 "05"; ex_pb_node 6 "06"];
     nl_MultiSigInfoList := []; nl_LeaderId := 0; nl_QuorumN := 5; nl_BlockHeight := 0 |}.

(** ** Theorems *)

(** A leader may propose twice: the second block of the same term and height
    replaces the first as the block in progress, and the node announces, and so
    prepares, both. *)
Theorem second_proposal_replaces_first :
  let w := run_steps [SInit id_order (proposal "A"); SInit id_order (proposal "B")] ex_world in
  GetFresh (w_db w) = Val (Some (ex_pack (proposal "B"))) ∧
  w_tasks w = [NewInitedEvent (ex_pack (proposal "A")); NewInitedEvent (ex_pack (proposal "B"))].
Proof. split; vm_compute; reflexivity. Qed.

(** Commits that arrive before their block are kept without a look at the
    block they name, and count for whichever block comes: a block is committed
    although two of the three commits of its quorum are for another block. *)
Theorem cached_commits_count_for_any_block :
  let w := run_steps [SCommit (ex_commit 1 "B"); SCommit (ex_commit 2 "B");
                      SInit id_order (proposal "A"); SCommit (ex_commit 3 "A")] ex_world in
  ∃ bp, GetCommitTop (w_db w) = Val (Some bp) ∧ bp_BlockId bp = Val (Some (Digest "A")) ∧
    cm_BlockId <$> bp_Commits bp =
      {[ 1 := Some (Digest "B"); 2 := Some (Digest "B"); 3 := Some (Digest "A") ]}.
Proof.
  eexists. split; [vm_compute; reflexivity|]. split; [vm_compute; reflexivity|].
  apply map_eq. intros i. vm_compute. reflexivity.
Qed.

(** A strong accusation that the checks accept may carry accusations of
    different terms, and the term is read again after the comparison: a node in
    term 3 goes back to term 1. *)
Theorem mixed_accusation_lowers_term :
  let w := run_steps [SStrongAccuse id_order (ex_strong 2 2)] ex_world in
  GetNodeTerm (w_db w) = Val 3 ∧
  checkStrongAccuse ex_cluster id_order (Some (ex_strong 5 0)) = Val true ∧
  ∃ flip, GetNodeTerm (w_db (node_step (SStrongAccuse (ex_order flip) (ex_strong 5 0)) w)) = Val 1.
Proof.
  split; [vm_compute; reflexivity|]. split; [vm_compute; reflexivity|].
  first [exists true; vm_compute; reflexivity|exists false; vm_compute; reflexivity].
Qed.

(** Deleted nodes still pass the checks: after three of seven nodes are
    deleted, the quorum is three, and two sets of three accepted senders can be
    disjoint. *)
Theorem deleted_nodes_break_quorum :
  ∃ c, (c ← InitWithNodeList ex_nodes7 zeroCluster; c ← DeleteNode 4 c; c ← DeleteNode 5 c;
        DeleteNode 6 c) = Val c ∧
    ∃ A B : gset Z, A ## B ∧ (∀ i, i ∈ A ∪ B → checkNodeId c i = true) ∧
      QuorumN c ≤ Z.of_nat (size A) ∧ QuorumN c ≤ Z.of_nat (size B).
Proof.
  eexists. split; [vm_compute; reflexivity|]. exists {[0; 1; 2]}, {[4; 5; 6]}.
  split; [set_solver|]. split; [|by vm_compute].
  intros i Hi. assert (i ∈ [0; 1; 2; 4; 5; 6]) as Hl by set_solver.
  repeat (apply elem_of_cons in Hl as [->|Hl]; [done|]). by apply elem_of_nil in Hl.
Qed.
