(* ===== verification/FedScenarios.v ===== *)
(** * Runs of a federation

    Four nodes (quorum 3) from the genesis block: a run in which a transfer is signed,
    sent, confirmed and committed by all, and one in which a single faulty leader makes
    two honest nodes commit different blocks of the same height. *)
From S2P Require Import Prelude.
From S2P Require Import GoLib.
From S2P Require Import Crypto.
From S2P Require Import Messages.
From S2P Require Import Feed.
From S2P Require Import ProtoOps.
From S2P Require Import Cluster.
From S2P Require Import Store.
From S2P Require Import DbOps.
From S2P Require Import TxPool.
From S2P Require Import Validation.
From S2P Require Import Consensus.
From S2P Require Import Handlers.
From S2P Require Import Accuser.
From S2P Require Import Leader.
From S2P Require Import SyncDaemon.
From S2P Require Import LeaderTx.
From S2P Require Import ChainTx.
From S2P Require Import Intake.
From S2P Require Import Node.
From S2P Require Import Network.
From S2P Require Import Instances.
From S2P Require Import Scenarios.

#[local] Existing Instance mem_KV.
#[local] Existing Instance mem_Wire.
#[local] Existing Instance no_Watchers.
#[local] Existing Instance toy_Signatures.
#[local] Existing Instance mem_DistJson.

(** ** The federation at its start *)
Definition f_signer (i : Z) : SecureSigner := Signer (ex_key i) "" (ex_key i).
Definition f_conf : Config := {|
  cf_newNodeHost := ""; cf_newNodePubkey := ""; cf_mintFeeRate := 0; cf_burnFeeRate := 0;
  cf_accounts := {| xin_contract_account := ""; xin_transfer_account := ""; eos_dgateway_account := "" |};
  cf_ConfirmTolerance := 0; cf_signTimeout := 15; cf_confirms _ := 1;
  cf_minimums := {| minBCHMintAmount := 1; minBTCMintAmount := 1; minBurnAmount := 1 |}
|}.
Definition f_around : Around :=
  {| ar_order := id_order; ar_now := 1534767000 * Second; ar_chains := toy_Chains false None; ar_exhausted := ∅ |}.
Definition f_count (i : option Digest256) : Z := 0.
Definition f_address (c : Cluster) : MultiSigInfo := emptyMultiSig.
Definition f_genesis : BlockPack := or_else ex_genesis GenesisBlockPack.
Definition f_db : db := end_state (InitDB f_genesis ∅).
Definition f_start : option Node :=
  match node_start f_address 180 0 f_db ex_cluster with Val n => Some n | Fault _ => None end.
Definition f_fed (ids : list Z) : Fed :=
  match f_start with Some n => list_to_map ((λ i, (i, n)) <$> ids) | None => ∅ end.
Definition f_run (byz : gset Z) (acts : list Act) (f : Fed) : option Fed :=
  fed_run f_signer f_conf f_count f_address byz ((λ a, (f_around, a)) <$> acts) f.

(** A block on the genesis block, as the leader of term 0 signs it. *)
Definition f_gen_id : option Digest256 := or_else None (bp_BlockId f_genesis).
Definition f_block (t : Z) : Block :=
  let b := MkBlock t f_gen_id TXS [] None None None in or_else b (UpdateBlockId b).
Definition f_propose (t : Z) : InitMsg :=
  let m := ex_init 0 1 0 (f_block t) in
  set_im_Sig m (ex_key 0 +:+ or_else "" (i ← InitMsg_Id m; mret (Data i))).
Definition f_info (t : Z) : BlockInfo :=
  {| bi_Term := 0; bi_Height := 1; bi_BlockId := b_Id (f_block t); bi_Block := None |}.
Definition f_prepare (t : Z) : option PrepareMsg := or_else None (MakePrepareMsg (f_info t) 0 (f_signer 0)).
Definition f_commit (t : Z) : option CommitMsg := or_else None (MakeCommitMsg (f_info t) 0 (f_signer 0)).

Definition f_msgs {M} (f : M → Msg) (m : option M) : list Msg := option_list (f <$> m).

(** A message reaches a node, whose goroutine [j] then does all it has to do. *)
Definition f_runs (i : Z) (j : nat) : list Act := replicate 9 (Do i (NRun j)).
Definition f_forge (to : Z) (j : nat) (ms : list Msg) : list Act := (Forge to <$> ms) ++ f_runs to j.
Definition f_deliver (from : Z) (k : nat) (to : Z) (j : nat) : list Act := Deliver from k :: f_runs to j.

(** The leader proposes [A] to nodes 1, 2 and 3. Nodes 1 and 2 see the three prepares
    and commit; node 1 also gets the commits of 0 and 2. Then the leader proposes [B]
    to nodes 2 and 3, which prepare it again; with the leader they commit it, and
    node 3 gets the commits of 0 and 2. *)
Definition fork_acts (A B : Z) : list Act :=
  let init t to j := f_forge to j [NotifyInitMsg (f_propose t)] in
  let prepare t to j := f_forge to j (f_msgs NotifyPrepareMsg (f_prepare t)) in
  let commit t to j := f_forge to j (f_msgs NotifyCommitMsg (f_commit t)) in
  init A 1 0%nat ++ init A 2 0%nat ++ init A 3 0%nat ++
  f_deliver 2 1 1 1 ++ f_deliver 3 1 1 2 ++ f_deliver 1 1 2 1 ++ f_deliver 3 0 2 2 ++
  f_deliver 2 4 1 3 ++ commit A 1 4%nat ++
  init B 2 3%nat ++ init B 3 1%nat ++
  prepare B 2 4%nat ++ prepare B 3 2%nat ++ f_deliver 3 3 2 5 ++ f_deliver 2 6 3 3 ++
  commit B 3 4%nat ++ f_deliver 2 9 3 5.
(** The block of height one of a node. *)
Definition f_block_at (f : option Fed) (i : Z) : option Block :=
  f ← f; n ← f !! i;
  match GetCommitByHeight 1 (node_db n) with
  | Val (Some bp) => or_else None (bp_Block bp)
  | _ => None
  end.
Definition f_at (f : option Fed) (i : Z) : option Digest256 := f_block_at f i ≫= b_Id.

(** *** A fair schedule

    In a round every packet not yet delivered arrives, then every goroutine runs. *)
Definition f_nodes : list Z := [0; 1; 2; 3].
Definition f_round (off : gmap Z nat) (f : Fed) : list Act :=
  concat ((λ i, match f !! i with
                | Some n => let k := default 0%nat (off !! i) in
                            Deliver i <$> seq k (length (nd_out n) - k)
                | None => [] end) <$> f_nodes) ++
  concat ((λ i, concat ((λ j, replicate 6 (Do i (NRun j))) <$> seq 0 50)) <$> f_nodes) ++
  concat (replicate 6 ((λ i, Do i NLeader) <$> f_nodes)).
Fixpoint f_rounds (k : nat) (off : gmap Z nat) (f : Fed) : option Fed :=
  match k with
  | O => Some f
  | S k => f' ← f_run ∅ (f_round off f) f; f_rounds k ((λ n, length (nd_out n)) <$> f) f'
  end.
(** All vote. *)
Definition f_votes : list Act := (λ i, Do i (NVote true)) <$> f_nodes.
Definition f_fork : option Fed := f_run {[0]} (fork_acts 1534766900 1534766901) (f_fed [1; 2; 3]).

(** *** A transfer

    A burn on Ethereum that pays on Bitcoin Cash is pushed to the four nodes. The leader asks
    for signatures; every node signs, collects the shares and sends the transaction.
    Then the transaction is found on the chain. *)
Definition f_wt : WatchedTxInfo :=
  {| wt_Txid := "t"; wt_Amount := 100; wt_RechargeList := [{| ai_Address := "alice"; ai_Amount := 100 |}];
     wt_From := "eth"; wt_To := "bch"; wt_Fee := 0; wt_TokenFrom := 0; wt_TokenTo := 0 |}.
Definition f_burn : EthChainEvent :=
  {| ec_Method := TOKEN_METHOD_BURN; ec_Events := 0;
     ec_Extra := ExtraBurnData {| st_ScTxid := "t"; st_Amount := 100; st_From := "eth"; st_To := "bch";
       st_TokenFrom := 0; st_TokenTo := 0; st_RechargeList := [{| ai_Address := "alice"; ai_Amount := 100 |}] |};
     ec_TxHash := "t"; ec_BlockNumber := 5; ec_TxIndex := 0 |}.
(** The chain once the transaction is in it. *)
Definition f_found : Around :=
  {| ar_order := id_order; ar_now := 1534767000 * Second; ar_chains := toy_Chains true None; ar_exhausted := ∅ |}.
Definition f_each (s : NodeStep) : list Act := (λ i, Do i s) <$> f_nodes.
(** The goroutines that collect shares take what has arrived, and all goroutines run. *)
Definition f_collect : list Act :=
  concat (replicate 4 (f_each NSign)) ++ concat (replicate 6 (concat ((λ j, f_each (NRun j)) <$> seq 0 60))) ++
  f_each NConfirm ++ f_each NConfirm.
Definition f_offsets (f : Fed) : gmap Z nat := (λ n, length (nd_out n)) <$> f.
Definition f_after (x : Around) (acts : list Act) (f : Fed) : option Fed :=
  fed_run f_signer f_conf f_count f_address ∅ ((λ a, (x, a)) <$> acts) f.
Definition f_signed : option Fed :=
  f ← f_run ∅ (f_each (NPush (EthEventChan f_burn)) ++ f_each NPool ++ f_votes) (f_fed f_nodes);
  f ← f_rounds 1 ∅ f;
  let off := f_offsets f in
  f ← f_run ∅ (Do 0 NCreate :: replicate 9 (Do 0 (NRun 7)) ++ concat ((λ j, replicate 9 (Do 0 (NRun j))) <$> seq 0 9)) f;
  f' ← f_rounds 2 off f;
  f_run ∅ f_collect f'.
Definition f_settle (f : Fed) : option Fed :=
  f ← f_after f_found (f_each NCheck ++ concat ((λ j, f_each (NRun j)) <$> seq 0 60) ++ f_each NPool) f;
  let off := f_offsets f in
  f ← f_run ∅ [Do 0 NTick] f;
  f_rounds 6 off f.
Definition f_settled : option Fed := f_signed ≫= f_settle.

(** The transaction that pays the transfer. *)
Definition f_paid : string := hex_encode (code (([], [("alice", 100)]) : list (string * Z) * list (bytes * Z))).
Definition f_count_of (k : Node → nat) (f : Fed) : list nat :=
  (λ i, match f !! i with Some n => k n | None => 99%nat end) <$> f_nodes.
Definition f_no_tx : Transaction :=
  {| tx_Id := None; tx_WatchedTx := None; tx_NewlyTxId := ""; tx_Time := 0; tx_Amount := 0 |}.
(** What [transfer_settles] looks at, with both runs computed once: the blocks of the nodes at
    height one, and how many transfers a node waits for before and after. *)
Definition f_looks (s d : option Fed) : list (option Block) * (option (list nat) * option (list nat)) :=
  let waiting := f_count_of (λ n, size (nd_waiting n)) in (f_block_at d <$> f_nodes, (waiting <$> s, waiting <$> d)).
Definition f_outcome : list (option Block) * (option (list nat) * option (list nat)) :=
  let s := f_signed in let d := s ≫= f_settle in f_looks s d.
Definition f_last_block : option Block := Eval vm_compute in f_block_at f_settled 0.

(** ** Theorems *)

Lemma f_outcome_block : is_Some f_last_block.
Proof. by eexists. Qed.
Lemma f_outcome_eq :
  f_outcome = (replicate 4 f_last_block, (Some [1; 1; 1; 1]%nat, Some [0; 0; 0; 0]%nat)).
Proof. by_vm. Qed.
Lemma f_outcome_settled : f_outcome = f_looks f_signed f_settled.
Proof. reflexivity. Qed.

(** C13. Agreement fails with a single faulty node of four, the number of faults the
    quorums are made for: a leader that signs two blocks of one height makes two
    honest nodes commit different blocks. Every message passed the checks of the node
    that received it; those of honest nodes were sent by the program, those of the
    leader are signed by the leader. An honest node prepared and committed both. *)
Theorem equivocating_leader_forks :
  (1 ≤ MaxFaultyN ex_cluster) ∧
  f_at f_fork 1 = b_Id (f_block 1534766900) ∧ f_at f_fork 3 = b_Id (f_block 1534766901) ∧
  is_Some (f_at f_fork 1) ∧ f_at f_fork 1 ≠ f_at f_fork 3.
Proof.
  assert (f_at f_fork 1 = b_Id (f_block 1534766900)) as H1 by by_vm.
  assert (f_at f_fork 3 = b_Id (f_block 1534766901)) as H3 by by_vm.
  assert (bool_decide (is_Some (b_Id (f_block 1534766900))) = true) as Hs by by_vm.
  assert (bool_decide (b_Id (f_block 1534766900) = b_Id (f_block 1534766901)) = false) as Hn by by_vm.
  split; [vm_compute; discriminate|]. rewrite H1 H3. split; [reflexivity|]. split; [reflexivity|].
  split; [exact (bool_decide_eq_true_1 _ Hs)|exact (bool_decide_eq_false_1 _ Hn)].
Qed.

