(* ===== verification/Witnesses.v ===== *)
(** * Witnesses

    Every theorem with hypotheses, applied at a concrete input at which they
    hold. The parameters are those of [Instances.v], the four-node cluster and
    the genesis block those of [Scenarios.v]. *)
From S2P Require Import Prelude.
From S2P Require Import GoLib.
From S2P Require Import Crypto.
From S2P Require Import Messages.
From S2P Require Import Feed.
From S2P Require Import ProtoOps.
From S2P Require Import Cluster.
From S2P Require Import Store.
From S2P Require Import DbOps.
From S2P Require Import TxPool.
From S2P Require Import Validation.
From S2P Require Import Consensus.
From S2P Require Import Handlers.
From S2P Require Import ConsensusProps.
From S2P Require Import NodeProps.
From S2P Require Import Instances.
From S2P Require Import Scenarios.

#[local] Existing Instance mem_KV.
#[local] Existing Instance mem_Wire.
#[local] Existing Instance no_Watchers.
#[local] Existing Instance toy_Signatures.

(** ** Inputs *)
Definition no_id : Digest256 := Digest "".
Definition ex_id (p : pan Digest256) : Digest256 := or_else no_id p.

Definition x_prepare (sig : bytes) : PrepareMsg :=
  {| pm_Term := 2; pm_Height := 5; pm_BlockId := Some (Digest "A"); pm_NodeId := 1; pm_Sig := sig |}.
Definition x_votie : Votie :=
  MkVotie 0 1 (Some (ex_block TXS (Some (Digest "genesis")) "A")) ∅ ∅.
Definition x_vote (sig : bytes) : Vote := MkVote 1 (Some x_votie) 2 sig.

(** Messages that carry their hash as id, and the toy signature of a node. *)
Definition x_sign (node : Z) (i : pan Digest256) : bytes := ex_key node +:+ Data (ex_id i).
Definition x_hashed (b : Block) : Block := or_else b (UpdateBlockId b).
Definition x_prev : Digest256 := Hash256 "previous".
Definition x_block : Block := x_hashed (MkBlock 1534766888 (Some x_prev) TXS [] None None None).
Definition x_block' : Block := x_hashed (MkBlock 1534766889 (Some x_prev) TXS [] None None None).
Definition x_signed_prepare (b : Block) (node : Z) : PrepareMsg :=
  let m := {| pm_Term := 2; pm_Height := 5; pm_BlockId := b_Id b; pm_NodeId := node; pm_Sig := "" |} in
  {| pm_Term := 2; pm_Height := 5; pm_BlockId := b_Id b; pm_NodeId := node;
     pm_Sig := x_sign node (PrepareMsg_Id m) |}.
Definition x_prepares (b : Block) (nodes : list Z) : gmap Z PrepareMsg :=
  list_to_map ((λ n, (n, x_signed_prepare b n)) <$> nodes).
Definition x_certificate : Votie := MkVotie 2 5 (Some x_block) (x_prepares x_block [0; 1; 2]) ∅.
Definition x_signed_init : InitMsg :=
  let m := {| im_Term := 2; im_Height := 5; im_Block := Some x_block; im_NodeId := 0; im_Sig := "";
              im_Votes := ∅ |} in
  set_im_Sig m (x_sign 0 (InitMsg_Id m)).
Definition x_sync : SyncUpResponse :=
  {| sy_Commits := [ex_pack x_signed_init]; sy_Fresh := None; sy_StrongAccuse := None;
     sy_More := false |}.
Definition x_synced : option SyncUpResponse :=
  snd (or_else (false, None) (checkSyncUpResponse ex_cluster id_order (Some x_sync))).
Definition x_checked_votie : option Votie :=
  snd (or_else (false, None) (checkVotie ex_cluster id_order (Some x_certificate))).

(** A transaction that the pool holds, one it only watches, a committed one. *)
Definition x_watched (txid : string) : WatchedTxInfo :=
  {| wt_Txid := txid; wt_Amount := 10; wt_RechargeList := [{| ai_Address := "a"; ai_Amount := 10 |}];
     wt_From := "bch"; wt_To := "eth"; wt_Fee := 0; wt_TokenFrom := 0; wt_TokenTo := 0 |}.
Definition x_tx (txid newly : string) : Transaction :=
  {| tx_Id := Some (Digest txid); tx_WatchedTx := Some (x_watched txid); tx_NewlyTxId := newly;
     tx_Time := 0; tx_Amount := 10 |}.
Definition x_pool : Pool :=
  MkPool ex_db (MkTxStore {[ "t1" := new_timed 0 (x_tx "t1" "n1") ]} {[ "t2" := x_watched "t2" ]}
                  {[ "t3" := new_timed 0 (x_watched "t3") ]} 0 []).

(** States of the node: a block in progress with two commits. *)
Definition x_world : World :=
  run_steps [SInit id_order (proposal "A"); SCommit (ex_commit 1 "A"); SCommit (ex_commit 2 "A")] ex_world.
Definition x_fresh : BlockPack :=
  set_bp_Commits (ex_pack (proposal "A")) {[ 1 := ex_commit 1 "A"; 2 := ex_commit 2 "A" ]}.
Definition x_full : BlockPack :=
  set_bp_Commits x_fresh (<[3 := ex_commit 3 "A"]> (bp_Commits x_fresh)).
Definition x_top_votie : Votie :=
  MkVotie 0 0 (Some (ex_block GENESIS None "genesis")) ∅ ∅.

(** ** The chain of the example *)
Lemma chain_rep_nil : chain_rep (∅ : gmap string string) [].
Proof.
  split; try (intros i; intros; by rewrite lookup_nil in H); try done.
  intros x b. unfold Get. cbn. rewrite lookup_empty. split; [done|].
  intros (i & bp & Hl & _). by rewrite lookup_nil in Hl.
Qed.
Definition x_pre_db : db :=
  Put keyVotie (code x_top_votie) (Put keyTerm (I64ToBytes 0) (∅ : gmap string string)).
Lemma ex_db_rep : chain_rep ex_db [ex_genesis].
Proof.
  assert (chain_rep x_pre_db []) as Hr.
  { eapply (chain_rep_same (λ k, k = keyVotie ∨ k = keyTerm)); [| | |exact chain_rep_nil].
    - intros k Hk. unfold x_pre_db, Put. rewrite !kv_get_put_ne; naive_solver.
    - intros r [E|E]; revert E; key_ne.
    - intros r [E|E]; revert E; key_ne. }
  apply (JustCommitIt_rep ex_genesis x_pre_db ex_db [] (Digest "genesis")); [exact Hr|..];
    try by_vm; [done|set_solver].
Qed.
Lemma x_world_rep : chain_rep (w_db x_world) [ex_genesis].
Proof.
  eapply (chain_rep_same (eq keyFresh)); [| | |exact ex_db_rep].
  - assert (w_db x_world = Put keyFresh (code x_fresh) ex_db) as -> by by_vm.
    apply same_but_put.
  - intros r E; revert E; key_ne.
  - intros r E; revert E; key_ne.
Qed.
Lemma x_next : next_block (QuorumN (w_cluster x_world)) [ex_genesis] (set_bp_Prepares x_full ∅).
Proof.
  split; try (vm_compute; congruence); try (by vm_compute).
  - exists ex_genesis, (Digest "genesis"), 0, 0. by split_and!.
  - exists (Digest "A"). split; [done|]. intros bp' ->%list_elem_of_singleton. by vm_compute.
  - by left.
Qed.

(** ** The node *)
Lemma node_chain_grows_witness :
  ∃ l', chain_rep (w_db (run_steps [SCommit (ex_commit 3 "A"); SExec] x_world)) ([ex_genesis] ++ l') ∧
    (length l' ≤ 2)%nat ∧ ∀ i bp, l' !! i = Some bp → next_block 3 ([ex_genesis] ++ take i l') bp.
Proof.
  apply (node_chain_grows [SCommit (ex_commit 3 "A"); SExec] x_world [ex_genesis] 3).
  - exact x_world_rep.
  - reflexivity.
  - intros [|[|[|i]]]; vm_compute; congruence.
Defined.



Lemma isInitSupportedByVotes_spec_witness :
  let init := {| im_Term := 1; im_Height := 1; im_Block := Some (ex_block TXS (Some (Digest "genesis")) "A");
                 im_NodeId := 1; im_Sig := "";
                 im_Votes := {[ 0 := x_vote ""; 1 := x_vote ""; 2 := x_vote "" ]} |} in
  (Z.of_nat (size (im_Votes init)) < 3 ∧ isInitSupportedByVotes id_order ex_cluster init ex_db = Val false) ∨
  (3 ≤ Z.of_nat (size (im_Votes init)) ∧
   ∃ k v m mb mid, im_Votes init !! k = Some v ∧ v_Votie v = Some m ∧ vi_Block m = Some mb ∧
     b_Id mb = Some mid ∧
     (∀ k' v' m', im_Votes init !! k' = Some v' → v_Votie v' = Some m' → votie_le m' m) ∧
     isInitSupportedByVotes id_order ex_cluster init ex_db =
       Val (less_term_height (vi_Term m) (vi_Height m) 0 0
            || bool_decide (mid = Digest "genesis") || bool_decide (mid = Digest "A"))).
Proof.
  intros init. eapply (isInitSupportedByVotes_spec id_order ex_cluster init ex_db [ex_genesis] ex_genesis);
    try reflexivity; try exact ex_db_rep; try (by vm_compute).
  intros k v Hk. exists x_votie, (ex_block TXS (Some (Digest "genesis")) "A").
  unfold init in Hk. cbn [im_Votes] in Hk.
  apply lookup_insert_Some in Hk as [[_ <-]|[_ Hk]]; [by split_and!|].
  apply lookup_insert_Some in Hk as [[_ <-]|[_ Hk]]; [by split_and!|].
  apply lookup_singleton_Some in Hk as [_ <-]. by split_and!.
Defined.


Lemma node_votie_never_goes_back_witness :
  votie_above x_top_votie (run_steps [SCommit (ex_commit 3 "A")] x_world).
Proof.
  apply (node_votie_never_goes_back [SCommit (ex_commit 3 "A")] x_world x_top_votie).
  exists x_top_votie. by split; vm_compute.
Defined.

Lemma handleStrongAccuse_spec_witness :
  (2 < 0 ∧ handleStrongAccuse id_order (ex_strong 2 2) ex_world = Ret () ex_world) ∨
  (0 ≤ 2 ∧ ∃ w', handleStrongAccuse id_order (ex_strong 2 2) ex_world = Ret () w' ∧
     GetNodeTerm (w_db w') = Val (2 + 1) ∧ GetLastTermAccuse (w_db w') = Val (Some (ex_strong 2 2)) ∧
     GetWeakAccuses (w_db w') = Val EmptyWeakAccuses ∧ GetFresh (w_db w') = Val None ∧
     ∃ t5, accuse_term id_order 24 (ex_strong 2 2) = Val t5 ∧
       w_tasks w' = w_tasks ex_world ++ [NewTermEvent (t5 +i64 1);
                                         StrongAccuseProcessedEvent (ex_strong 2 2)]).
Proof.
  apply (handleStrongAccuse_spec id_order (ex_strong 2 2) ex_world 0 2 2
           (code (ex_strong 2 2))); try by_vm.
  by vm_compute.
Defined.

Lemma handleWeakAccuse_spec_witness :
  let n := AccuseQuorumN (w_cluster ex_world) in
  let new := <[0 := ex_weak 0 0]> (filter (λ e, unexpired 10 e.2 = true) (∅ : gmap Z WeakAccuse)) in
  ∃ w', handleWeakAccuse 10 (ex_weak 0 0) ex_world = Ret () w' ∧
    w_tasks w' = w_tasks ex_world ++
      (if 0 >? 0 then [NeedSyncUpEvent 0]
       else if (0 =? 0) && (0 <? n) && bool_decide ((∅ : gmap Z WeakAccuse) !! 0 = None)
               && (n <=? Z.of_nat (size new))
       then [NewStrongAccuseEvent {| sa_WeakAccuses := new |}] else []) ∧
    GetWeakAccuses (w_db w') = Val
      (if (0 =? 0) && (0 <? n) && bool_decide ((∅ : gmap Z WeakAccuse) !! 0 = None)
       then {| Accuses := new |} else EmptyWeakAccuses).
Proof.
  apply (handleWeakAccuse_spec 10 (ex_weak 0 0) ex_world 0 EmptyWeakAccuses).
  - by eexists.
  - by_vm.
  - by_vm.
Defined.

Lemma genSyncUpResponse_spec_witness :
  genSyncUpResponse (-1) 5 true ex_db =
  Val (Some <$> take (Z.to_nat 5) (drop (Z.to_nat (-1 + 1)) [ex_genesis]),
       if negb (1 - 1 - -1 >? 5) && true then None else None,
       if negb (1 - 1 - -1 >? 5) && true then None else None, 1 - 1 - -1 >? 5).
Proof.
  refine (genSyncUpResponse_spec ex_db [ex_genesis] (-1) 5 true None None ex_db_rep _ _ _ _ _);
    [done|done|done|by_vm|by_vm].
Defined.

Lemma watch_turn_never_cancels_witness :
  let g := {| wg_kind := WatchJoinInfo; wg_i := 1; wg_armed := false |} in
  wp (watch_turn g)
    (λ r w', (r = None ∨ ∃ g', r = Some g' ∧ watch_state WatchJoinInfo g') ∧
       ∃ es, w_tasks w' = w_tasks ex_world ++ es ∧ Forall not_cancel es)
    (λ w', w_tasks w' = w_tasks ex_world) ex_world ∧
  (wg_armed g = false → watch_turn g ex_world = Ret (Some g) ex_world).
Proof. intros g. apply (watch_turn_never_cancels WatchJoinInfo g ex_world). by right. Defined.

(** ** The store *)
Lemma chain_queries_witness :
  GetCommitHeight ex_db = Val 0 ∧ GetCommitTop ex_db = Val (Some ex_genesis) ∧
  (∀ h, 0 ≤ h < 2^63 → GetCommitByHeight h ex_db = Val ([ex_genesis] !! Z.to_nat h)) ∧
  (∀ x, ∃ r, IsCommitted (Some x) ex_db = Val r ∧
     (r = true ↔ ∃ bp, bp ∈ [ex_genesis] ∧ bp_BlockId bp = Val (Some x))) ∧
  (∀ x, ∃ r, GetCommitByID (Some x) ex_db = Val r ∧
     (∀ bp, r = Some bp ↔ bp ∈ [ex_genesis] ∧ bp_BlockId bp = Val (Some x))).
Proof. exact (chain_queries ex_db [ex_genesis] ex_db_rep). Defined.

Lemma x_new_id : ∀ bp, bp ∈ [ex_genesis] → bp_BlockId bp ≠ Val (Some (Digest "A")).
Proof. by intros bp ->%list_elem_of_singleton. Qed.
Lemma JustCommitIt_appends_witness :
  ∃ d', JustCommitIt (ex_pack (proposal "A")) ex_db = Ret tt d' ∧
    chain_rep d' ([ex_genesis] ++ [ex_pack (proposal "A")]) ∧
    same_but (λ k, ∃ r, k = keyCommitChainPrefix +:+ r ∨ k = keyCommitHsByIdsPrefix +:+ r) ex_db d'.
Proof.
  refine (JustCommitIt_appends (ex_pack (proposal "A")) ex_db [ex_genesis] (Digest "A") ex_db_rep
            _ _ _ _ x_new_id); [by eexists|done..].
Defined.

Lemma InitDB_spec_witness :
  ∃ d', InitDB ex_genesis ex_db = Ret tt d' ∧ chain_rep d' [ex_genesis] ∧ GetNodeTerm d' = Val 0 ∧
    GetFresh d' = Val None ∧ GetWeakAccuses d' = Val EmptyWeakAccuses ∧
    GetLastTermAccuse d' = Val None ∧
    (∃ v, ToVotie ex_genesis = Val v ∧ GetVotie d' = Val v) ∧
    ∀ r, Get d' (keyTxPrefix +:+ r) = Get ex_db (keyTxPrefix +:+ r).
Proof.
  refine (InitDB_spec ex_genesis ex_db (Digest "genesis") _ _ _ _); [by eexists|done|done|].
  exists x_top_votie. split; [done|by eexists].
Defined.

Lemma GetCommitsByHeightSec_spec_witness :
  GetCommitsByHeightSec 0 5 ex_db = Val (omap (λ h, [ex_genesis] !! Z.to_nat h) (seqZ 0 (5 - 0))).
Proof. refine (GetCommitsByHeightSec_spec ex_db [ex_genesis] 0 5 ex_db_rep _ _); done. Defined.

Lemma watch_state_roundtrip_witness :
  GetCurrentHeight "bch" (SetCurrentHeight "bch" (-7) ex_db) = -7 ∧
  GetXINBlockHeight (SetXINBlockHeight (-7) ex_db) = -7 ∧
  GetFinalAmount "t" (SetFinalAmount (-7) "t" ex_db) = -7 ∧
  GetETHBlockTxIndex (SetETHBlockTxIndex (-7) ex_db) = -7 ∧
  GetXINBlockTxIndex (SetXINBlockTxIndex (-7) ex_db) = -7 ∧
  GetETHBlockHeight (SetETHBlockHeight (-7) ex_db) = Some (Z.abs (-7)).
Proof. refine (watch_state_roundtrip ex_db "bch" "t" (-7) _). done. Defined.

(** ** The transaction pool *)
Lemma x_pool_wf : pool_wf (p_ts x_pool).
Proof.
  split; intros i t Hi; cbn in Hi; apply lookup_singleton_Some in Hi as [<- <-]; [done|by vm_compute|].
  split; [by eexists|by vm_compute].
Qed.
Lemma pool_reachable_wf_witness :
  pool_wf (p_ts (end_state (AddFreshWatchedTx (Some (x_watched "t")) (MkPool ex_db NewTxStore)))).
Proof.
  refine (pool_reachable_wf ex_db _ _). apply rtc_once.
  refine (step_fresh (Some (x_watched "t")) _ _ _). by_vm.
Defined.
Lemma doHeartbeat_spec_witness :
  let now := 10 * second * 60 in
  ∃ r p', doHeartbeat id_order now x_pool = Ret r p' ∧ p_db p' = p_db x_pool ∧ pool_wf (p_ts p') ∧
    (r = Some 0 ↔ overdue_pending now (p_db x_pool) (p_ts x_pool)) ∧
    (r = None ↔ ¬ overdue_pending now (p_db x_pool) (p_ts x_pool)) ∧
    ∀ o', ∃ p'', doHeartbeat o' now p' = Ret None p''.
Proof.
  intros now. refine (doHeartbeat_spec id_order now 0 x_pool x_pool_wf _). by_vm.
Defined.
Lemma GetFreshWatchedTxs_spec_witness :
  ∃ rst p', GetFreshWatchedTxs id_order x_pool = Ret rst p' ∧ pool_wf (p_ts p') ∧
    (∀ v, v ∈ rst ↔ (∃ i, freshWatchedTxInfo (p_ts x_pool) !! i = Some v) ∧
                    ready (p_db x_pool) (p_ts x_pool) v = true) ∧
    (∀ i v, freshWatchedTxInfo (p_ts p') !! i = Some v ↔
            freshWatchedTxInfo (p_ts x_pool) !! i = Some v ∧
            postponed (p_db x_pool) (p_ts x_pool) v = true) ∧
    p_db p' = p_db x_pool ∧ txInfoById (p_ts p') = txInfoById (p_ts x_pool) ∧
    watchedTxInfo (p_ts p') = watchedTxInfo (p_ts x_pool) ∧
    ∀ o', ∃ p'', GetFreshWatchedTxs o' p' = Ret [] p''.
Proof. exact (GetFreshWatchedTxs_spec id_order x_pool x_pool_wf). Defined.
Lemma ValidateTx_spec_witness :
  ∃ r tx' p', ValidateTx (x_tx "t2" "n") x_pool = Ret (r, tx') p' ∧ p_db p' = p_db x_pool ∧
    (r = NotExist ↔ txInfoById (p_ts x_pool) !! "t2" = None ∧
                    watchedTxInfo (p_ts x_pool) !! "t2" = None) ∧
    (r = CheckChain ↔ txInfoById (p_ts x_pool) !! "t2" = None ∧
       ∃ w, watchedTxInfo (p_ts x_pool) !! "t2" = Some w ∧
            WatchedTxInfo_EqualTo w (x_watched "t2") = true) ∧
    (r = Valid ↔ ∃ t i, txInfoById (p_ts x_pool) !! "t2" = Some t ∧
       Transaction_hash (t_tx t) = Val i ∧ Transaction_hash (x_tx "t2" "n") = Val i ∧
       tx_Id tx' = Some i) ∧
    (r ≠ Valid → r ≠ Invalid → tx' = x_tx "t2" "n").
Proof.
  refine (ValidateTx_spec x_pool (x_tx "t2" "n") (x_watched "t2") _ _); [done|].
  intros t Ht. cbn in Ht. by apply lookup_singleton_Some in Ht as [? _].
Defined.
Definition x_cleaned : Pool := end_state (cleanUpOnNewCommitted [x_tx "t1" "n1"] 1 x_pool).
Lemma cleanUpOnNewCommitted_spec_witness :
  (∀ i tx, [x_tx "t1" "n1"] !! i = Some tx →
   ∃ wt x, tx_WatchedTx tx = Some wt ∧ tx_Id tx = Some x ∧
     HasTxInDB (wt_Txid wt) (p_db x_cleaned) = true ∧
     HasTxInDB (tx_NewlyTxId tx) (p_db x_cleaned) = true ∧
     GetTxLookupEntry (Some x) (p_db x_cleaned) =
       Val (Some {| tle_Height := 1; tle_Index := Z.of_nat i |}) ∧
     txInfoById (p_ts x_cleaned) !! wt_Txid wt = None ∧
     watchedTxInfo (p_ts x_cleaned) !! wt_Txid wt = None ∧
     freshWatchedTxInfo (p_ts x_cleaned) !! wt_Txid wt = None) ∧
  same_but (λ k, ∃ r, k = keyTxPrefix +:+ r ∨ k = keyTxMapPrefix +:+ r) (p_db x_pool) (p_db x_cleaned).
Proof.
  refine (cleanUpOnNewCommitted_spec x_pool x_cleaned [x_tx "t1" "n1"] 1 _ _ _);
    [by_vm|apply NoDup_singleton|done].
Defined.

(** ** The node list *)
Lemma ex_cluster_wf : cluster_wf ex_cluster.
Proof.
  split; try by_vm; try by vm_compute.
  intros [|[|[|[|i]]]] n Hn; try (injection Hn as <-; by vm_compute). done.
Qed.
Lemma InitWithNodeList_wf_witness :
  cluster_wf ex_cluster ∧ Id <$> NodeList ex_cluster = ni_NodeId <$> nl_NodeList ex_nodes ∧
  IsNormal <$> NodeList ex_cluster = ni_IsNormal <$> nl_NodeList ex_nodes.
Proof. refine (InitWithNodeList_wf ex_nodes ex_cluster _ _); [by_vm|done]. Defined.
Definition x_five : Cluster := or_else zeroCluster (AddNode "host4" 4 "04" "" ex_cluster).
Lemma AddNode_wf_witness :
  cluster_wf x_five ∧ (4 ≠ TotalNodeCount ex_cluster → x_five = ex_cluster) ∧
  (4 = TotalNodeCount ex_cluster → ClusterSize x_five = ClusterSize ex_cluster + 1 ∧
     ∃ n, NodeList x_five = NodeList ex_cluster ++ [n] ∧ Id n = 4 ∧ Url n = "host4" ∧
          IsNormal n = true ∧ hex_decode "04" = Some (PublicKey n)).
Proof.
  refine (AddNode_wf ex_cluster x_five "host4" 4 "04" "" ex_cluster_wf _ _); [by vm_compute|by_vm].
Defined.
Lemma DeleteNode_wf_witness :
  ∃ c', DeleteNode 3 ex_cluster = Val c' ∧ cluster_wf c' ∧
    (node_at ex_cluster 3 ≫= (λ n, mret (IsNormal n)) = Val true →
       ClusterSize c' = ClusterSize ex_cluster - 1 ∧
       node_at c' 3 ≫= (λ n, mret (IsNormal n)) = Val false) ∧
    (node_at ex_cluster 3 ≫= (λ n, mret (IsNormal n)) ≠ Val true → c' = ex_cluster).
Proof. exact (DeleteNode_wf ex_cluster 3 ex_cluster_wf). Defined.
Lemma LeaderNodeOfTerm_total_witness :
  ∃ k, LeaderNodeOfTerm ex_cluster 6 = Val ((6 + Z.of_nat k) mod TotalNodeCount ex_cluster) ∧
    Z.of_nat k < TotalNodeCount ex_cluster ∧
    normal_at ex_cluster ((6 + Z.of_nat k) mod TotalNodeCount ex_cluster) ∧
    ∀ j, (j < k)%nat → ¬ normal_at ex_cluster ((6 + Z.of_nat j) mod TotalNodeCount ex_cluster).
Proof.
  refine (LeaderNodeOfTerm_total ex_cluster 6 ex_cluster_wf _ _); by vm_compute.
Defined.

(** ** Messages and their ids *)
Lemma PrepareMsg_Id_binds_witness :
  collides (λ hs, feedPrepareMsgFields hs "PrepareMsg" (x_prepare "s"))
           (λ hs, feedPrepareMsgFields hs "PrepareMsg" (x_prepare "t")) ∨
  (2 = 2 ∧ 5 = 5 ∧ Some (Digest "A") = Some (Digest "A") ∧ 1 = 1).
Proof.
  refine (PrepareMsg_Id_binds (x_prepare "s") (x_prepare "t") (ex_id (PrepareMsg_Id (x_prepare "s"))) _ _);
    by_vm.
Defined.
Lemma Vote_Id_binds_witness :
  collides (λ hs, feedVoteFields hs "Vote" (x_vote "s")) (λ hs, feedVoteFields hs "Vote" (x_vote "t")) ∨
  (1 = 1 ∧ 2 = 2 ∧ ∃ i, Votie_Id (Some x_votie) = Val i ∧ Votie_Id (Some x_votie) = Val i).
Proof. refine (Vote_Id_binds (x_vote "s") (x_vote "t") (ex_id (Vote_Id (x_vote "s"))) _ _); by_vm. Defined.
Lemma Block_hash_binds_witness :
  let b := set_b_Id x_block None in
  collides (λ hs, feedBlockFields hs "Block" x_block) (λ hs, feedBlockFields hs "Block" b) ∨
  (b_TimestampMs x_block = b_TimestampMs b ∧ b_Type x_block = b_Type b ∧
   (b_Type x_block ≠ GENESIS → b_PrevBlockId x_block = b_PrevBlockId b) ∧
   (has_txs x_block → tx_Id <$> b_Txs x_block = tx_Id <$> b_Txs b) ∧
   (b_Type x_block = BCH →
      BchBlockHeader_Id (b_BchBlockHeader x_block) = BchBlockHeader_Id (b_BchBlockHeader b)) ∧
   (b_Type x_block = RECONFIG → Reconfig_Id (b_Reconfig x_block) = Reconfig_Id (b_Reconfig b))).
Proof. intros b. refine (Block_hash_binds x_block b (ex_id (Block_hash x_block)) _ _); by_vm. Defined.

(** ** Certificates *)
Lemma x_valid_prepares (b : Block) :
  (∀ n, n ∈ [0; 1; 2; 3] → valid_prepare ex_cluster 2 5 (b_Id b) n (x_signed_prepare b n)) →
  ∀ ns, ns ⊆ [0; 1; 2; 3] → ∀ k p, x_prepares b ns !! k = Some p →
  valid_prepare ex_cluster 2 5 (b_Id b) k p.
Proof.
  intros Hv ns Hns k p Hk. unfold x_prepares in Hk. apply elem_of_list_to_map_2 in Hk.
  apply list_elem_of_fmap in Hk as (n & [= -> ->] & Hn). by apply Hv, Hns.
Qed.
Lemma x_block_signers n :
  n ∈ [0; 1; 2; 3] → valid_prepare ex_cluster 2 5 (b_Id x_block) n (x_signed_prepare x_block n).
Proof.
  intros Hn. repeat (apply elem_of_cons in Hn as [->|Hn];
    [unfold valid_prepare; split_and!; try by_vm; apply verify_node_true; by_vm|]).
  by apply elem_of_nil in Hn.
Qed.

Lemma x_block_signers' n :
  n ∈ [0; 1; 2; 3] → valid_prepare ex_cluster 2 5 (b_Id x_block') n (x_signed_prepare x_block' n).
Proof.
  intros Hn. repeat (apply elem_of_cons in Hn as [->|Hn];
    [unfold valid_prepare; split_and!; try by_vm; apply verify_node_true; by_vm|]).
  by apply elem_of_nil in Hn.
Qed.

Lemma checkVotie_certificate_witness :
  ∃ w b i, Some x_certificate = Some w ∧ vi_Block w = Some b ∧ Block_hash b = Val i ∧
    x_checked_votie = Some (set_vi_Block w (Some (set_b_Id b (Some i)))) ∧
    0 ≤ vi_Term w ∧ 0 ≤ vi_Height w ∧
    (∀ k p, vi_Prepares w !! k = Some p → valid_prepare ex_cluster (vi_Term w) (vi_Height w) (Some i) k p) ∧
    (∀ k m, vi_Commits w !! k = Some m → valid_commit ex_cluster (vi_Term w) (vi_Height w) (Some i) k m) ∧
    (vi_Height w = 0 → vi_Term w = 0 ∧ vi_Prepares w = ∅ ∧ vi_Commits w = ∅) ∧
    (vi_Height w ≠ 0 → QuorumN ex_cluster ≤ Z.of_nat (size (vi_Prepares w)) ∨
                       QuorumN ex_cluster ≤ Z.of_nat (size (vi_Commits w))).
Proof.
  refine (checkVotie_certificate ex_cluster id_order (Some x_certificate) x_checked_votie _). by_vm.
Defined.

Lemma checkSyncUpResponse_linked_witness :
  ∃ m m', Some x_sync = Some m ∧ x_synced = Some m' ∧ linked None (sy_Commits m') ∧
    length (sy_Commits m') = length (sy_Commits m) ∧ sy_More m' = sy_More m ∧
    (is_Some (sy_Fresh m') ↔ is_Some (sy_Fresh m)) ∧ sy_StrongAccuse m' = sy_StrongAccuse m ∧
    (∀ p, last (sy_Commits m') = Some p → fully_checked ex_cluster p) ∧
    (∀ p, sy_Fresh m' = Some p → linked None [p] ∧ fully_checked ex_cluster p).
Proof. refine (checkSyncUpResponse_linked ex_cluster id_order (Some x_sync) x_synced _). by_vm. Defined.

(** ** Burns *)
Definition x_burn (l : list Z) : SubTransaction :=
  {| st_ScTxid := "t"; st_Amount := 10; st_From := "btc"; st_To := "bch"; st_TokenFrom := 0;
     st_TokenTo := 0; st_RechargeList := (λ z, {| ai_Address := "a"; ai_Amount := z |}) <$> l |}.
Lemma BtcToPbTx_outputs_bounded_witness :
  let w := watched_of (x_burn [7; 8]) 10 [{| ai_Address := "a"; ai_Amount := 7 |};
                                          {| ai_Address := "a"; ai_Amount := 3 |}] in
  wt_Amount w = 10 ∧ amounts (wt_RechargeList w) ≤ wt_Amount w ∧
  Forall (λ a, 0 < ai_Amount a) (wt_RechargeList w) ∧
  ai_Address <$> wt_RechargeList w =
    take (length (wt_RechargeList w)) (ai_Address <$> st_RechargeList (x_burn [7; 8])).
Proof.
  intros w. refine (BtcToPbTx_outputs_bounded (x_burn [7; 8]) w _ _ _);
    [by vm_compute|repeat constructor; by vm_compute|by_vm].
Defined.
Lemma EthToPbTx_overspends_witness :
  ∃ w, EthToPbTx (λ _ _, true) (x_burn [11; 5]) = Some w ∧ wt_Amount w = 10 ∧
    amounts (wt_RechargeList w) = wt_Amount w + 5.
Proof.
  refine (EthToPbTx_overspends (λ _ _, true) (x_burn [11; 5]) {| ai_Address := "a"; ai_Amount := 11 |}
    {| ai_Address := "a"; ai_Amount := 5 |} _ _ _ _ _ _); try done; by vm_compute.
Defined.

(** ** A reconfiguration block without its reconfiguration *)
Lemma checkBlock_panics_witness :
  checkBlock (Some (MkBlock 1534766888 (Some x_prev) RECONFIG [] None None None)) = Fault NilDeref.
Proof.
  apply (checkBlock_panics (MkBlock 1534766888 (Some x_prev) RECONFIG [] None None None) x_prev);
    [reflexivity|by vm_compute|reflexivity|left; split; reflexivity].
Defined.
