(* ===== verification/RoleWitnesses.v ===== *)
(** * Witnesses of the accuser, the leader and the synchronisation

    The theorems of [Accuser.v], [LeaderProps.v] and [SyncProps.v] that have
    hypotheses, applied at concrete inputs of the four-node cluster. *)
From S2P Require Import Prelude.
From S2P Require Import GoLib.
From S2P Require Import Crypto.
From S2P Require Import Messages.
From S2P Require Import Feed.
From S2P Require Import ProtoOps.
From S2P Require Import Cluster.
From S2P Require Import Store.
From S2P Require Import DbOps.
From S2P Require Import TxPool.
From S2P Require Import Validation.
From S2P Require Import Consensus.
From S2P Require Import Handlers.
From S2P Require Import ConsensusProps.
From S2P Require Import NodeProps.
From S2P Require Import Accuser.
From S2P Require Import Leader.
From S2P Require Import LeaderProps.
From S2P Require Import SyncDaemon.
From S2P Require Import SyncProps.
From S2P Require Import Instances.
From S2P Require Import Scenarios.
From S2P Require Import Witnesses.

#[local] Existing Instance mem_KV.
#[local] Existing Instance mem_Wire.
#[local] Existing Instance no_Watchers.
#[local] Existing Instance toy_Signatures.

(** ** The accuser: all readings of a trigger at one time *)
Definition x_signer : SecureSigner := {| Pubkey := ""; PubKeyHex := "00"; PubkeyHash := "" |}.
Definition x_at (t : Z) : Readings :=
  {| r_received := t; r_accuse := t; r_cooldown := t; r_stored := t; r_signed := t |}.
Definition x_ac : Accuser := NewAccuser 180 (1000 * Second) (1000 * Second).
Definition x_beat : HeatbeatMsg := {| hb_Term := 1; hb_Votes := [] |}.
Definition x_triggers : list (Readings * Trigger) :=
  [(x_at (1100 * Second), TriggerByTxStore 2); (x_at (1200 * Second), TriggerByTxStore 2);
   (x_at (1300 * Second), OnHeatbeatFail); (x_at (1400 * Second), TriggerByBlockStore 3)].
Lemma x_at_ok t : 0 ≤ t < 2^63 → readings_ok (x_at t).
Proof. by split. Qed.
Lemma x_ac_ok : accuser_ok x_ac.
Proof. by apply NewAccuser_ok. Qed.

Lemma accusations_spaced_witness :
  ∃ ac' outs, ac_run 0 x_signer x_triggers x_ac = Val (ac', outs) ∧
    StronglySorted (spaced 180) outs ∧
    Forall (λ b, -1 ≤ wa_Term b.2 ∧ Unix (980 * Second) + 180 ≤ Unix (r_accuse b.1)) outs.
Proof.
  refine (accusations_spaced 0 x_signer x_triggers x_ac _ x_ac_ok _); [|done].
  repeat (apply Forall_cons_2; [by apply x_at_ok|]). constructor.
Defined.
Lemma accuse_without_cooldown_witness :
  accuse 0 x_signer (x_at (985 * Second)) (-1) x_ac = accuse_plain 0 x_signer (x_at (985 * Second)) (-1) x_ac.
Proof.
  refine (accuse_without_cooldown 0 x_signer (x_at (985 * Second)) (-1) x_ac _ x_ac_ok _);
    [by apply x_at_ok|done].
Defined.
Lemma tolerance_frozen_witness :
  let ac := set_heatbeat (1000 * Second) x_ac in
  let r := default (ac, []) (match ac_run 0 x_signer x_triggers ac with Val x => Some x | _ => None end) in
  hasHeatbeatInCurrentTerm r.1 = true ∧ heartbeatIntervalTolerance r.1 = heartbeatIntervalTolerance ac.
Proof.
  intros ac r. refine (tolerance_frozen_by_first_heartbeat 0 x_signer x_triggers ac r.1 r.2 _ _); by_vm.
Defined.
Lemma heartbeat_timer_spec_witness :
  let r := x_at (1200 * Second) in
  let due := (lastHeatbeatTime x_ac + heartbeatIntervalTolerance x_ac <? r_received r) &&
    (lastAccuseTerm x_ac <=? termToAccuse x_ac) &&
    (interval_of x_ac <=? Unix (r_accuse r) - Unix (lastAccuseTime x_ac)) in
  due = true ∧
  ∃ ac' out, ac_step 0 x_signer (r, HeartbeatTimer) x_ac = Val (ac', out) ∧
    (due = false → out = None ∧ lastAccuseTime ac' = lastAccuseTime x_ac) ∧
    (due = true → ∃ wa, out = Some wa ∧ wa_Term wa = termToAccuse x_ac ∧ wa_NodeId wa = 0 ∧
       lastAccuseTime ac' = r_stored r ∧ lastAccuseTerm ac' = termToAccuse x_ac).
Proof.
  intros r due. split; [by_vm|].
  refine (heartbeat_timer_spec 0 x_signer r x_ac _ x_ac_ok _ _); [by apply x_at_ok|done|by eexists].
Defined.

(** ** The leader of term 4, which is node 0, with the votes of three nodes *)
Definition x_vote4 (node : Z) : Vote := MkVote 4 (Some x_top_votie) node "".
Definition x_votes : gmap Z Vote := {[ 0 := x_vote4 0; 1 := x_vote4 1; 2 := x_vote4 2 ]}.
Definition x_db4 : db := Put keyTerm (I64ToBytes 4) ex_db.
Definition x_voted : Leader := MkLeader 4 x_votes None ∅ "" (-1) [].
Definition x_txs : list Transaction := [x_tx "t1" "n1"].
Definition x_proposed : Leader := end_state (on_tick 0 x_signer ex_cluster x_db4 id_order 5 x_txs x_voted).
Definition x_init4 : InitMsg := default (proposal "A") (initing x_proposed).
Lemma x_db4_rep : chain_rep x_db4 [ex_genesis].
Proof.
  eapply (chain_rep_same (eq keyTerm)); [apply same_but_put| | |exact ex_db_rep];
    intros r E; revert E; key_ne.
Qed.
Lemma x_votes_lookup k v : x_votes !! k = Some v → ∃ n, v = x_vote4 n.
Proof.
  unfold x_votes. intros Hk.
  repeat (apply lookup_insert_Some in Hk as [[_ <-]|[_ Hk]]; [by eexists|]).
  apply lookup_singleton_Some in Hk as [_ <-]. by eexists.
Qed.
Lemma on_tick_proposes_witness :
  proposes 0 x_signer ex_cluster x_db4 id_order [ex_genesis] x_voted x_init4.
Proof.
  refine (on_tick_proposes 0 x_signer ex_cluster x_db4 id_order 5 x_txs [ex_genesis] x_voted x_proposed
    x_init4 x_db4_rep _ _ _ _); try done.
  - intros i Hi. by apply elem_of_nil in Hi.
  - assert (head (ld_out x_proposed) = Some (NewInitEvent x_init4)) as Hh by by_vm.
    destruct (ld_out x_proposed); [done|]. injection Hh as ->. by left.
Defined.
Definition x_start : Leader := MkLeader 4 ∅ None ∅ "" (-1) [].
Definition x_one : Leader := end_state (addVote 0 ex_cluster x_db4 id_order (x_vote4 1) x_start).
Lemma leader_reachable_wf_witness : leader_wf x_one.
Proof.
  refine (leader_reachable_wf 0 x_signer x_db4 x_start x_one _ _); [by_vm|].
  eapply rtc_l; [|apply rtc_refl].
  refine (step_vote 0 x_signer ex_cluster x_db4 id_order (x_vote4 1) x_start x_one _). by_vm.
Defined.
Lemma scanVotePool_spec_witness :
  let ld := set_votePool {[ 4 := x_votes; 3 := ∅ ]} x_start in
  ∃ vs, (if in_charge 0 ex_cluster 0 (ld_votes ld) then vs = ld_votes ld
         else counted (Some ex_genesis) (ld_votes ld) (pool_of ld) vs) ∧
    scanVotePool 0 ex_cluster x_db4 id_order ld = Ret ()
      (set_ld_out (ld_out ld ++
         if negb (in_charge 0 ex_cluster 0 (ld_votes ld)) && in_charge 0 ex_cluster 0 vs
         then [BecomeLeaderEvent (ld_term ld);
               BroadcastHeatbeat {| hb_Term := ld_term ld; hb_Votes := (range id_order 31 vs).*2 |}] else [])
        (set_votes vs (set_votePool
          (filter (λ e, negb (e.1 <? ld_term ld) = true) (votePool ld)) ld))).
Proof.
  intros ld. refine (scanVotePool_spec 0 ex_cluster x_db4 id_order ld 0 (Some ex_genesis) _ _ _ _);
    [by_vm|by_vm| |done].
  intros k v Hv. assert (pool_of ld = x_votes) as Hp by by_vm. rewrite Hp in Hv.
  apply x_votes_lookup in Hv as [n ->]. by eexists.
Defined.

(** ** Synchronisation: one block after the real genesis block *)
Definition x_gen : BlockPack := or_else ex_genesis GenesisBlockPack.
Definition x_gen_block : Block := default x_block (or_else None (bp_Block x_gen)).
Definition x_gen_id : Digest256 := ex_id (Block_hash x_gen_block).
Definition x_gen_db : db := end_state (JustCommitIt x_gen (∅ : gmap string string)).
Definition x_behind : World := MkWorld (MkPool x_gen_db NewTxStore) ∅ ∅ ex_cluster [] [].
Definition x_next_block : Block := x_hashed (MkBlock 1534766889 (Some x_gen_id) TXS [] None None None).
Definition x_next_id : Digest256 := ex_id (Block_hash x_next_block).
Definition x_next_pack : BlockPack :=
  let m := {| im_Term := 0; im_Height := 1; im_Block := Some x_next_block; im_NodeId := 0; im_Sig := "";
              im_Votes := ∅ |} in
  let cm := {| cm_Term := 0; cm_Height := 1; cm_BlockId := Some x_next_id; cm_NodeId := 1; cm_Sig := "" |} in
  {| bp_Init := Some (set_im_Sig m (x_sign 0 (InitMsg_Id m))); bp_Prepares := ∅;
     bp_Commits := {[ 1 := {| cm_Term := 0; cm_Height := 1; cm_BlockId := Some x_next_id; cm_NodeId := 1;
                              cm_Sig := x_sign 1 (CommitMsg_Id cm) |} ]} |}.
Definition x_answer : SyncUpResponse :=
  {| sy_Commits := [x_next_pack]; sy_Fresh := None; sy_StrongAccuse := None; sy_More := true |}.
Definition x_ledger : list Block := [x_gen_block; x_next_block].
(** Three peers have the blocks of the ledger, one has any other. *)
Definition x_count (i : option Digest256) : Z :=
  if bool_decide (i = Some x_gen_id ∨ i = Some x_next_id) then 3 else 1.
Definition x_address (c : Cluster) : MultiSigInfo := emptyMultiSig.

Lemma x_gen_rep : chain_rep x_gen_db [x_gen].
Proof.
  apply (JustCommitIt_rep x_gen ∅ x_gen_db [] x_gen_id); [exact chain_rep_nil|..];
    try by_vm; [done|set_solver].
Qed.
Lemma x_hashes : Block_hash x_gen_block = Val x_gen_id ∧ Block_hash x_next_block = Val x_next_id ∧
  b_PrevBlockId x_next_block = Some x_gen_id.
Proof. split_and!; by_vm. Qed.
Lemma x_ids_differ : x_gen_id ≠ x_next_id.
Proof. intros E. apply (f_equal (λ i, bool_decide (Data i = Data x_gen_id))) in E. revert E. by vm_compute. Qed.
Lemma two_ledger (a b : Block) (x y : Digest256) :
  Block_hash a = Val x → Block_hash b = Val y → b_PrevBlockId b = Some x → x ≠ y → ledger [a; b].
Proof.
  intros Ha Hb Hp Hne. split; [| | |done].
  - intros [|[|i]] g Hg; [injection Hg as <-; eauto..|done].
  - intros [|[|i]] g g' z Hg Hg' Hz; [|done..]. injection Hg as <-. injection Hg' as <-. congruence.
  - intros [|[|i]] [|[|j]] g g' z Hg Hg' Hz Hz'; try done;
      injection Hg as <-; injection Hg' as <-; congruence.
Qed.
Lemma x_ledger_ok : ledger x_ledger.
Proof.
  destruct x_hashes as (H1 & H2 & H3). exact (two_ledger _ _ _ _ H1 H2 H3 x_ids_differ).
Qed.
Lemma x_follows : follows x_ledger [x_gen].
Proof.
  intros [|i] bp Hi; [|done]. injection Hi as <-. exists x_gen_block, x_gen_id.
  split; [reflexivity|]. split; [apply x_hashes|by_vm].
Qed.
Lemma two_no_clash (bp : BlockPack) (a b : Block) (x y : Digest256) :
  bp_Block bp = Val (Some b) → Block_hash a = Val x → Block_hash b = Val y → x ≠ y →
  no_clash [a; b] [bp].
Proof.
  intros Hb Ha Hy Hne bp' b' g z ->%list_elem_of_singleton Hb' Hg Hz Hgz.
  rewrite Hb in Hb'. injection Hb' as <-.
  apply elem_of_cons in Hg as [-> | ->%list_elem_of_singleton]; [|done]. congruence.
Qed.

(** An answer that begins with a block known already. *)
Definition x_stale : SyncUpResponse :=
  {| sy_Commits := [x_gen]; sy_Fresh := None; sy_StrongAccuse := None; sy_More := true |}.
Lemma bad_peer_blocks_sync_witness :
  doSyncUp id_order x_count x_address ModeNormal (replicate 9 (Some x_stale)) x_behind =
    Ret SyncRunning x_behind ∧ canRun (canRun 0).2 = (false, 1).
Proof.
  refine (bad_peer_blocks_sync id_order x_count x_address ModeNormal x_stale x_behind 9 _ _ _ _); [done..|].
  intros bp [= <-].
  assert ((or_else (true, None) (checkBlockPack id_order x_count (Some x_gen)
    (AccuseQuorumN (w_cluster x_behind)) (w_cluster x_behind) (w_db x_behind))).1 = false) as Hf by by_vm.
  destruct (checkBlockPack _ _ _ _ _ _) as [[r p]|f]; [|done]. cbn in Hf. subst r. by eexists.
Defined.
Lemma join_of_listed_node_deletes_witness :
  let rc := MkReconfig JOIN "host3" 3 "03" None in
  ∃ c', reconfigure x_address rc ex_cluster = Val c' ∧
    ClusterSize c' = ClusterSize ex_cluster - 1 ∧
    node_at c' 3 ≫= (λ n, mret (IsNormal n)) = Val false.
Proof.
  intros rc. refine (join_of_listed_node_deletes x_address rc ex_cluster ex_cluster_wf _ _ _);
    [done|by_vm|by_vm].
Defined.
