(* ===== verification/FedWitnesses.v ===== *)
(** * Witnesses of the theorems on running nodes

    The theorem of [NodeChain.v] applied to the run of [FedScenarios.v] in which a
    faulty leader proposes to three honest nodes. *)
From S2P Require Import Prelude.
From S2P Require Import GoLib.
From S2P Require Import Crypto.
From S2P Require Import Messages.
From S2P Require Import Feed.
From S2P Require Import ProtoOps.
From S2P Require Import Cluster.
From S2P Require Import Store.
From S2P Require Import DbOps.
From S2P Require Import TxPool.
From S2P Require Import Validation.
From S2P Require Import Consensus.
From S2P Require Import Handlers.
From S2P Require Import ConsensusProps.
From S2P Require Import Leader.
From S2P Require Import Accuser.
From S2P Require Import LeaderTx.
From S2P Require Import Node.
From S2P Require Import Network.
From S2P Require Import NodeChain.
From S2P Require Import Instances.
From S2P Require Import Scenarios.
From S2P Require Import FedScenarios.
From S2P Require Import Witnesses.
From S2P Require Import RoleWitnesses.

#[local] Existing Instance mem_KV.
#[local] Existing Instance mem_Wire.
#[local] Existing Instance no_Watchers.
#[local] Existing Instance toy_Signatures.
#[local] Existing Instance mem_DistJson.

(** A test on every state of a run. *)
Fixpoint always (p : Fed → bool) (acts : list (Around * Act)) (f : Fed) : bool :=
  p f && match acts with
         | [] => true
         | (x, a) :: l =>
             match fed_next f_signer f_conf f_count f_address {[0]} x a f with
             | Some f' => always p l f'
             | None => true
             end
         end.
Lemma always_prefix p acts : ∀ pre f f1, always p acts f = true → pre `prefix_of` acts →
  fed_run f_signer f_conf f_count f_address {[0]} pre f = Some f1 → p f1 = true.
Proof.
  induction acts as [|[x a] acts IH]; intros pre f f1 Ha Hpre Hrun.
  - apply prefix_nil_inv in Hpre as ->. injection Hrun as <-. cbn in Ha. by apply andb_true_iff in Ha as [? _].
  - cbn in Ha. apply andb_true_iff in Ha as [Hp Ha].
    destruct pre as [|[x' a'] pre]; [by injection Hrun as <-|].
    pose proof Hpre as [= -> ->]%prefix_cons_inv_1. apply prefix_cons_inv_2 in Hpre.
    cbn in Hrun. destruct (fed_next _ _ _ _ _ _ _ _) as [f2|]; [|done]. by apply (IH pre f2).
Qed.

Definition quorum_test (q i : Z) (f : Fed) : bool :=
  match f !! i with Some n => q <=? QuorumN (the_cluster n) | None => true end.
Lemma quorum_test_at q i f : quorum_test q i f = true → quorum_at q i f.
Proof. unfold quorum_test, quorum_at. intros E n Hn. rewrite Hn in E. by apply Z.leb_le. Qed.

(** The store that every node starts with. *)
Definition f_id : Digest256 := default (Digest "") f_gen_id.
Definition f_votie : string := or_else "" (v ← ToVotie f_genesis; mret (code v)).
Definition f_pre_db : db := Put keyVotie f_votie (Put keyTerm (I64ToBytes 0) (∅ : gmap string string)).
Lemma f_db_rep : chain_rep f_db [f_genesis].
Proof.
  assert (chain_rep f_pre_db []) as Hr.
  { eapply (chain_rep_same (λ k, k = keyVotie ∨ k = keyTerm)); [| | |exact chain_rep_nil].
    - intros k Hk. unfold f_pre_db, Put. rewrite !kv_get_put_ne; naive_solver.
    - intros r [E|E]; revert E; key_ne.
    - intros r [E|E]; revert E; key_ne. }
  apply (JustCommitIt_rep f_genesis f_pre_db f_db [] f_id); [exact Hr|..];
    try by_vm; set_solver.
Qed.

(** The leader proposes to nodes 1 and 2; node 1 prepares, gets the prepares of node 2
    and the commits of nodes 0 and 2, and commits the block. *)
Definition x_fed_acts : list (Around * Act) :=
  (λ a, (f_around, a)) <$>
    f_forge 1 0 [NotifyInitMsg (f_propose 1534766900)] ++ f_forge 2 0 [NotifyInitMsg (f_propose 1534766900)] ++
    f_forge 3 0 [NotifyInitMsg (f_propose 1534766900)] ++
    f_deliver 2 1 1 1 ++ f_deliver 3 1 1 2 ++ f_deliver 1 1 2 1 ++ f_deliver 3 0 2 2 ++
    f_deliver 2 4 1 3 ++ f_forge 1 4 (f_msgs NotifyCommitMsg (f_commit 1534766900)).
Definition x_fed_end : option Fed := fed_run f_signer f_conf f_count f_address {[0]} x_fed_acts (f_fed [1; 2; 3]).
Definition x_fed_height : option Z := f ← x_fed_end; n ← f !! 1; Some (or_else (-1) (GetCommitHeight (node_db n))).
Lemma x_fed_height_1 : x_fed_height = Some 1.
Proof. by_vm. Qed.

Lemma federation_chain_grows_witness :
  x_fed_height = Some 1 ∧
  ∃ f' n' l', x_fed_end = Some f' ∧ f' !! 1 = Some n' ∧ chain_rep (node_db n') l' ∧ extends 3 [f_genesis] l'.
Proof.
  split; [exact x_fed_height_1|].
  assert (bool_decide (is_Some x_fed_end) = true) as Hend by by_vm.
  apply bool_decide_eq_true in Hend as [f' Hend].
  assert (bool_decide (is_Some (f_fed [1; 2; 3] !! 1)) = true) as Hs by by_vm.
  apply bool_decide_eq_true in Hs as [n Hs].
  assert (node_db <$> f_fed [1; 2; 3] !! 1 = Some f_db) as Hd by by_vm.
  assert (nd_threads <$> f_fed [1; 2; 3] !! 1 = Some []) as Ht by by_vm.
  rewrite Hs in Hd, Ht. injection Hd as Hd. injection Ht as Ht.
  assert (forallb (λ x, no_answer 1 x.2) x_fed_acts = true) as Ha by by_vm.
  assert (always (quorum_test 3 1) x_fed_acts (f_fed [1; 2; 3]) = true) as Hq by by_vm.
  assert (Z.of_nat (length [f_genesis]) + Z.of_nat (length x_fed_acts) < 2^63) as Hlen by (vm_compute; reflexivity).
  refine (_ (federation_chain_grows f_signer f_conf f_count f_address {[0]} x_fed_acts (f_fed [1; 2; 3]) f' 1 n
    [f_genesis] 3 Hs _ _ _ _ Hlen Hend)).
  - intros (n' & l' & Hn & Hl & He). exists f', n', l'. auto.
  - rewrite Hd. exact f_db_rep.
  - unfold no_sync. rewrite Ht. constructor.
  - apply Forall_forall. intros x Hx. rewrite forallb_forall in Ha. by apply Ha, list_elem_of_In.
  - intros pre f1 Hpre Hrun. apply quorum_test_at. by eapply always_prefix.
Defined.
