(* ===== verification/SignWitnesses.v ===== *)
(** * Witnesses of the theorems on signing, proposals and peers

    Each theorem applied to concrete inputs: a transfer from Ethereum to Bitcoin Cash that
    four nodes sign for. *)
From S2P Require Import Prelude.
From S2P Require Import GoLib.
From S2P Require Import Crypto.
From S2P Require Import Messages.
From S2P Require Import ProtoOps.
From S2P Require Import Cluster.
From S2P Require Import Peers.
From S2P Require Import Store.
From S2P Require Import DbOps.
From S2P Require Import TxPool.
From S2P Require Import Consensus.
From S2P Require Import ChainTx.
From S2P Require Import Distribution.
From S2P Require Import SignTx.
From S2P Require Import Signing.
From S2P Require Import SigningProps.
From S2P Require Import SignProps.
From S2P Require Import LeaderTx.
From S2P Require Import Node.
From S2P Require Import NodeSign.
From S2P Require Import Instances.
From S2P Require Import Scenarios.
From S2P Require Import FedScenarios.
From Stdlib Require Import SpecFloat.

#[local] Existing Instance mem_KV.
#[local] Existing Instance mem_Wire.
#[local] Existing Instance no_Watchers.
#[local] Existing Instance toy_Signatures.
#[local] Existing Instance mem_DistJson.
#[local] Instance x_chains : Chains := toy_Chains false None.

(** ** Proposals *)
Definition x_proposal (amount : Z) : Proposal :=
  {| pr_Data := [{| o_Address := "alice"; o_Amount := amount |}]; pr_Chain := "bch"; pr_ID := "1" |}.
Definition x_pool : Pool := MkPool (∅ : gmap string string) NewTxStore.
Lemma x_tracks : tracks (p_db x_pool) ∅.
Proof. split; [done|]. intros i di. by rewrite lookup_empty. Qed.
Lemma x_proposal_ok amount : i64 amount → proposal_ok (x_proposal amount).
Proof. intros Ha. split_and!; [by vm_compute..|]. constructor; [|constructor]. split; [by vm_compute|done]. Qed.
Definition x_ops : list DistOp :=
  [DAdd 5 (x_proposal 7); DAdd 6 (x_proposal 8); DExecute "1"; DDelete "1"; DRestart; DDelete "1"].

Lemma proposals_refine_table_witness :
  ∃ s', dist_run x_ops x_pool = Ret [true; false; true; false; true; true] s' ∧
    tracks (p_db s') (table_run x_ops ∅).2 ∧ ∃ reqs, inbox (p_ts s') = inbox (p_ts x_pool) ++ reqs.
Proof.
  assert ((table_run x_ops ∅).1 = [true; false; true; false; true; true]) as <- by by_vm.
  apply (proposals_refine_table x_ops x_pool ∅ x_tracks).
  repeat constructor; cbn; try lia; apply x_proposal_ok; by vm_compute.
Defined.
Lemma refiled_proposal_pays_old_witness :
  ∃ s', refile 5 (x_proposal 7) (x_proposal 9) x_pool = Ret tt s' ∧
    getDistributionProposal "1" (p_db s') = Some (MkDist (Some (x_proposal 9)) 5 proposalDealing) ∧
    freshWatchedTxInfo (p_ts s') !! "DistributionTx1" = Some (new_timed 5 (genWatchedTx (x_proposal 7))).
Proof.
  apply (refiled_proposal_pays_old 5 (x_proposal 7) (x_proposal 9) x_pool ∅ x_tracks);
    [done|done|done|lia|apply x_proposal_ok; by vm_compute..|done].
Defined.

(** ** A node that collects shares *)
Definition x_newly : NewlyTx :=
  {| nt_Data := code (([], [("alice", 100)]) : list (string * Z) * list (bytes * Z)); nt_Amount := 100; nt_Timestamp := 0 |}.
Definition x_req : SignTxRequest :=
  {| sr_Term := 0; sr_NodeId := 0; sr_MultisigAddress := ""; sr_WatchedTx := Some f_wt; sr_NewlyTx := Some x_newly;
     sr_Sig := ""; sr_Time := 0 |}.
Definition x_result (code : CodeType) (node : Z) : SignedResult :=
  {| sd_Code := code; sd_NodeId := node; sd_TxId := "t"; sd_To := "bch"; sd_Term := 0; sd_Data := [ex_key node]; sd_Sig := "" |}.
Definition x_sign_db : gmap string string := or_else ∅ (SetSignMsg x_req "t" (ex_db : gmap string string)).
Definition x_node (k : list SignedResultCache) (m : gmap string nat) : SignNode :=
  MkSignNode (MkPool x_sign_db NewTxStore) k m ∅ [].
Definition x_two : SignedResultCache :=
  MkCache {[ 0 := x_result SIGNED 0; 3 := x_result SIGNED 3 ]} 2 2 0 0 0 false.

Lemma doSave_share_witness :
  ∃ n', doSave ex_cluster 0 (x_result SIGNED 2) (x_node [x_two] {[ "t" := 0%nat ]}) =
          sendTxToChain "bch" (nt_Data x_newly) [[ex_key 0]; [ex_key 2]; [ex_key 3]] (x_result SIGNED 2) x_req n' ∧
        sg_heap n' !! 0%nat = Some (setDone 0 (addSignedCount (addCache 2 (x_result SIGNED 2) (addTotalCount x_two)))).
Proof.
  assert (counter_wf ex_cluster x_two) as Hwf.
  { split; [by vm_compute|]. intros i r. unfold x_two. cbn [rs_cache].
    intros [[<- _]|[_ [<- _]%lookup_singleton_Some]]%lookup_insert_Some; by apply elem_of_node_indices. }
  pose proof (doSave_share ex_cluster 0 (x_result SIGNED 2) (x_node [x_two] {[ "t" := 0%nat ]}) x_req 0 x_two x_newly f_wt 3 2
    eq_refl eq_refl Hwf eq_refl eq_refl) as Hs.
  assert (sd_NodeId (x_result SIGNED 2) ∈ node_indices ex_cluster) as Hin by (by apply elem_of_node_indices).
  specialize (Hs Hin eq_refl).
  assert (IsSignFailed "t" 0 x_sign_db = false) as Hf by by_vm.
  assert (GetSignMsg "t" x_sign_db = Val (Some x_req)) as Hg by by_vm.
  assert (verifySign ex_cluster "bch" (nt_Data x_newly) [ex_key 2] 2 = Val true) as Hv by by_vm.
  assert (sign_quorums ex_cluster x_req f_wt x_sign_db = Some (3, 2)) as Hq by by_vm.
  assert (0 < 3) as H3 by lia. assert (rs_errCnt x_two ≤ 2) as He by by vm_compute.
  assert (Z.of_nat (size (rs_cache x_two)) + 1 < 2^31) as Hlt by by vm_compute.
  specialize (Hs Hf Hg eq_refl eq_refl Hv Hq H3 He Hlt). cbv zeta in Hs.
  match type of Hs with if ?b then _ else _ => assert (b = false) as E by by_vm; rewrite E in Hs end.
  destruct Hs as (n' & Hrun & Hh & _). exists n'. split; [|exact Hh]. rewrite Hrun. by f_equal.
Defined.
Lemma one_node_fails_request_witness :
  ∃ n', for_each (replicate 3 (x_result REJECT 1)) (doSave ex_cluster 0) (x_node [] ∅) = Ret tt n' ∧
    IsSignFailed "t" 0 (sg_db n') = true ∧ GetSignMsg "t" (sg_db n') = Val None ∧ sg_cache n' !! "t" = None.
Proof.
  apply (one_node_fails_request ex_cluster 0 (x_result REJECT 1) (x_node [] ∅) x_req x_newly f_wt 3 2);
    first [done|lia|by vm_compute].
Defined.
Definition x_none : SignedResultCache := new_cache 0.
Lemma racing_copies_make_quorum_witness :
  ∃ n', race ex_cluster 0 (x_result SIGNED 1) 3 (x_node [x_none] {[ "t" := 0%nat ]}) =
    sendTxToChain "bch" (nt_Data x_newly) [[ex_key 1]] (x_result SIGNED 1) x_req n'.
Proof.
  apply (racing_copies_make_quorum ex_cluster 0 (x_result SIGNED 1) (x_node [x_none] {[ "t" := 0%nat ]}) x_req 0 x_none
    x_newly f_wt 3 2); first [done|lia|by apply elem_of_node_indices|by vm_compute].
Defined.

(** ** A node that is asked to sign *)
Definition x_signer1 : SecureSigner := f_signer 1.
Definition x_watching : World :=
  MkWorld (MkPool ex_db (MkTxStore ∅ {[ "t" := f_wt ]} ∅ 0 [])) ∅ ∅ ex_cluster [] [].
Definition x_asked : World := end_state (handleSignTx 1 x_signer1 0 0 0 x_req x_watching).
Definition x_announced : option SignedResult :=
  match w_tasks x_asked with [SignHandledEvent r] => Some r | _ => None end.


(** A second output, to somebody else. *)
Definition x_newly2 : NewlyTx :=
  {| nt_Data := code (([], [("alice", 100); ("mallory", 1000)]) : list (string * Z) * list (bytes * Z));
     nt_Amount := 100; nt_Timestamp := 0 |}.
Definition x_req2 : SignTxRequest :=
  {| sr_Term := 0; sr_NodeId := 0; sr_MultisigAddress := ""; sr_WatchedTx := Some f_wt; sr_NewlyTx := Some x_newly2;
     sr_Sig := ""; sr_Time := 0 |}.
Lemma extra_outputs_unchecked_witness :
  validateBtcSignTx 0 0 x_req2 f_wt x_watching = Ret validatePass x_watching.
Proof.
  apply (extra_outputs_unchecked 0 0 x_req x_req2 f_wt x_newly x_newly2 [("mallory", 1000)] x_watching x_watching);
    first [by_vm|cbn; lia].
Defined.

(** A transfer to "xin". *)
Definition x_wtx : WatchedTxInfo :=
  {| wt_Txid := "x"; wt_Amount := 100000000; wt_RechargeList := [{| ai_Address := "bob"; ai_Amount := 100000000 |}];
     wt_From := "btc"; wt_To := "xin"; wt_Fee := 0; wt_TokenFrom := 0; wt_TokenTo := 0 |}.
Definition x_newlyx : NewlyTx := {| nt_Data := code (CreateToken "bob" 2000); nt_Amount := 0; nt_Timestamp := 100 |}.
Definition x_reqx : SignTxRequest :=
  {| sr_Term := 0; sr_NodeId := 0; sr_MultisigAddress := ""; sr_WatchedTx := Some x_wtx; sr_NewlyTx := Some x_newlyx;
     sr_Sig := ""; sr_Time := 0 |}.
Definition x_watchingx : World :=
  MkWorld (MkPool ex_db (MkTxStore ∅ {[ "x" := x_wtx ]} ∅ 0 [])) ∅ ∅ ex_cluster [] [].
Definition x_answer : SignedResult :=
  default (x_result REJECT 0) (or_else None (MakeSignedResult SIGNED 1 "x" [] "xin" 0 x_signer1)).
Definition x_dbx : db := or_else ex_db (SetSignMsg x_reqx "x" ex_db).
Lemma failed_xin_signature_crashes_peers_witness :
  (∃ w', sign_eos_chain 1 x_signer1 101 "xin" x_reqx x_wtx 0 x_watchingx = Ret tt w' ∧ SignHandledEvent x_answer ∈ w_tasks w') ∧
  save_end ex_cluster 5 x_answer 0 x_reqx (x_node [x_none] ∅) = Panic IndexOutOfRange (x_node [x_none] ∅).
Proof.
  destruct (failed_xin_signature_crashes_peers 1 x_signer1 101 x_reqx x_wtx 0 x_watchingx x_watchingx
    x_dbx x_answer x_newlyx (CreateToken "bob" 2000 : EosTx (Chains := x_chains)))
    as [Ha Hc]; [done|done|by_vm|done|done|by_vm|by_vm|by_vm|]. split; [exact Ha|apply (Hc mem_DistJson)].
Defined.

(** Two requests for one transfer, of which the second comes after a crash. *)
Definition x_again : World := end_state (handleSignTx 1 x_signer1 0 0 0 x_req2 x_asked).
Lemma signs_at_most_once_witness :
  tally "t" x_asked = 1%nat ∧ (tally "t" x_again ≤ 1)%nat ∧ (noted "t" x_watching → noted "t" x_again ∧ tally "t" x_again = tally "t" x_watching).
Proof.
  assert (handleSignTx 1 x_signer1 0 0 0 x_req x_watching = Ret tt x_asked) as H1 by by_vm.
  assert (handleSignTx 1 x_signer1 0 0 0 x_req2 x_asked = Ret tt x_again) as H2 by by_vm.
  split; [by_vm|]. apply (signs_at_most_once 1 x_signer1 0 0 "t" x_watching x_again); [by_vm|].
  eapply rtc_l; [exact (ss_request 1 x_signer1 0 0 "t" x_chains 0 x_req _ _ H1)|].
  eapply rtc_l; [exact (ss_request 1 x_signer1 0 0 "t" x_chains 0 x_req2 _ _ H2)|]. apply rtc_refl.
Defined.

(** The two requests side by side. *)
Definition x_share (m : SignTxRequest) : list bytes :=
  match signBtcBchtx x_signer1 "bch" m with Val (sig, _) => sig | Fault _ => [] end.
Definition x_signed (m : SignTxRequest) : SignedResult :=
  default (x_result REJECT 0) (or_else None (MakeSignedResult SIGNED 1 "t" (x_share m) "bch" 0 x_signer1)).
Definition x_noted : db := or_else ex_db (SetSignMsg x_req "t" ex_db).
Definition x_noted2 : db := or_else ex_db (SetSignMsg x_req2 "t" x_noted).
Lemma racing_requests_sign_twice_witness :
  ∃ w4, (sign_end 1 x_signer1 x_req f_wt 0 validatePass ≫= λ _, sign_end 1 x_signer1 x_req2 f_wt 0 validatePass) x_watching =
      Ret tt w4 ∧ tally "t" w4 = 2%nat.
Proof.
  refine (match racing_requests_sign_twice 1 x_signer1 0 0 "t" 0 x_req x_req2 f_wt 0 (x_share x_req) (x_share x_req2)
    (x_signed x_req) (x_signed x_req2) x_noted x_noted2 x_watching x_watching x_watching _ _ _ _ _ _ _ _ _ _ _
    with conj (ex_intro _ w4 (conj Hrun (conj _ Ht))) _ => ex_intro _ w4 (conj Hrun Ht) end).
  all: by_vm.
Defined.

(** ** The leader's transaction *)
Definition x_accounts : Accounts := {| xin_contract_account := ""; xin_transfer_account := ""; eos_dgateway_account := "" |}.
Definition x_created : option NewlyTx :=
  match returned (create_newly 0 30 x_accounts ex_cluster f_wt (w_pool x_watching)) with
  | Some (Some n) => n | _ => None
  end.
Lemma created_tx_passes_witness :
  ∃ newly, x_created = Some newly ∧
    validate_by_chain 0 30 50 {| sr_Term := 0; sr_NodeId := 0; sr_MultisigAddress := ""; sr_WatchedTx := Some f_wt;
      sr_NewlyTx := Some newly; sr_Sig := ""; sr_Time := 0 |} f_wt x_watching = Ret validatePass x_watching.
Proof.
  assert (bool_decide (is_Some x_created) = true) as Hs by by_vm. apply bool_decide_eq_true in Hs as [newly Hn].
  exists newly. split; [exact Hn|].
  assert (create_newly 0 30 x_accounts ex_cluster f_wt (w_pool x_watching) = Ret (Some x_created)
            (end_state (create_newly 0 30 x_accounts ex_cluster f_wt (w_pool x_watching)))) as Hc by by_vm.
  rewrite Hn in Hc. pose proof (toy_laws false None) as Hlaws.
  eapply (created_tx_passes 0 30 50 x_accounts ex_cluster f_wt _ newly); [exact Hc|done|by_vm|by_vm| |done].
  by intros [?|?].
Defined.

(** ** Peers *)
Lemma pools_conserved_witness :
  let p := NewPeerNode (Conn := nat) zeroNodeInfo 2 1 in
  let s := (set_pool_by_method "/proto.Braft/NotifySignTx" (set_conns [None] (txConnPool p)) p, [("/proto.Braft/NotifySignTx", 7%nat)]) in
  sizes s = (2, 1)%nat ∧ ((isPoolExhausted s.1).1 = true ↔ under_way true s.2 = 2%nat) ∧
  ((isPoolExhausted s.1).2 = true ↔ under_way false s.2 = 1%nat).
Proof.
  cbv zeta. apply (pools_conserved zeroNodeInfo 2 1). apply rtc_once.
  apply (call_begin (λ _, true) (Some 7%nat)). by_vm.
Defined.

(** A cluster whose node 3 has left. *)
Definition x_left_cluster : Cluster := or_else zeroCluster (DeleteNode 3 ex_cluster).
Definition x_left : NodeInfo := or_else zeroNodeInfo (node_at x_left_cluster 3).
Definition x_started : option Node :=
  match node_start f_address 180 0 ex_db x_left_cluster with Val n => Some n | Fault _ => None end.
Lemma left_node_stops_signing_witness :
  ∃ n, x_started = Some n ∧
    node_do 0 (f_signer 0) f_conf ∅ f_count f_address id_order 0 (NRun 0)
      (set_threads [[BroadcastSign x_req (NodeList x_left_cluster) 3]] n) =
    Panic NilDeref (set_threads [[BroadcastSign x_req (NodeList x_left_cluster) 3]] n).
Proof.
  assert (bool_decide (is_Some x_started) = true) as Hs by by_vm. apply bool_decide_eq_true in Hs as [n Hn].
  exists n. split; [exact Hn|].
  assert (node_start f_address 180 0 ex_db x_left_cluster = Val n) as Hs.
  { unfold x_started in Hn. destruct (node_start _ _ _ _ _); [by injection Hn as ->|done]. }
  apply (left_node_stops_signing 0 (f_signer 0) f_conf ∅ f_count f_address 180 0 ex_db x_left_cluster n
    (set_threads [[BroadcastSign x_req (NodeList x_left_cluster) 3]] n) x_left id_order 0 0 x_req 3 [] Hs); [done| | |done].
  - assert (bool_decide (x_left ∈ NodeList x_left_cluster) = true) as Hin by by_vm. by apply bool_decide_eq_true in Hin.
  - intros m Hm He. assert (forallb (λ m, negb (Id m =? Id x_left) || negb (IsNormal m)) (NodeList x_left_cluster) = true) as Hall by by_vm.
    rewrite forallb_forall in Hall. specialize (Hall m). rewrite -list_elem_of_In in Hall. specialize (Hall Hm).
    rewrite He Z.eqb_refl in Hall. cbn in Hall. by apply negb_true_iff in Hall.
Defined.
Lemma sign_request_sent_witness :
  ∃ n, f_start = Some n ∧
    broadcast_sign {[ 2 ]} x_req (NodeList ex_cluster) 3 n =
      Ret [] (set_out (nd_out n ++ ((λ i, {| pk_to := i; pk_msg := NotifySignTx x_req |}) <$> [0; 1; 2; 3])) n).
Proof.
  assert (bool_decide (is_Some f_start) = true) as Hs by by_vm. apply bool_decide_eq_true in Hs as [n Hn].
  exists n. split; [exact Hn|].
  assert (nd_peers <$> f_start = Some (list_to_set [0; 1; 2; 3])) as Hp by by_vm. rewrite Hn in Hp. injection Hp as Hp.
  pose proof (sign_request_sent {[ 2 ]} x_req (NodeList ex_cluster) 3 n) as Hb. cbv zeta in Hb.
  rewrite Hb; [reflexivity|]. rewrite Hp. intros m Hm.
  assert (forallb (λ m, bool_decide (Id m ∈ (list_to_set [0; 1; 2; 3] : gset Z))) (NodeList ex_cluster) = true) as Hall by by_vm.
  rewrite forallb_forall in Hall. specialize (Hall m). rewrite -list_elem_of_In in Hall. specialize (Hall Hm).
  by apply bool_decide_eq_true in Hall.
Defined.
