(* ===== verification/ServiceWitnesses.v ===== *)
(** * Witnesses of the theorems on what comes in, on joining and on the HTTP server

    Each theorem applied to concrete inputs: the four nodes of Scenarios.v, and the chain of the
    real genesis block and one block after it. *)
From S2P Require Import Prelude.
From S2P Require Import GoLib.
From S2P Require Import Crypto.
From S2P Require Import Messages.
From S2P Require Import Feed.
From S2P Require Import ProtoOps.
From S2P Require Import Cluster.
From S2P Require Import Peers.
From S2P Require Import Store.
From S2P Require Import DbOps.
From S2P Require Import TxPool.
From S2P Require Import Consensus.
From S2P Require Import ChainTx.
From S2P Require Import Distribution.
From S2P Require Import SignTx.
From S2P Require Import Signing.
From S2P Require Import Intake.
From S2P Require Import Views.
From S2P Require Import HttpServer.
From S2P Require Import SyncDaemon.
From S2P Require Import Node.
From S2P Require Import Join.
From S2P Require Import Instances.
From S2P Require Import Scenarios.
From S2P Require Import Witnesses.
From S2P Require Import RoleWitnesses.
From S2P Require Import FedScenarios.

#[local] Existing Instance mem_KV.
#[local] Existing Instance mem_Wire.
#[local] Existing Instance no_Watchers.
#[local] Existing Instance toy_Signatures.
#[local] Existing Instance mem_DistJson.
#[local] Instance y_chains : Chains := toy_Chains true None.

(** ** What comes in *)
Definition y_mins : Minimums := {| minBCHMintAmount := 5; minBTCMintAmount := 5; minBurnAmount := 5 |}.
Definition y_high : Minimums := {| minBCHMintAmount := 6; minBTCMintAmount := 5; minBurnAmount := 5 |}.
Definition y_empty : SignNode := MkSignNode (MkPool (∅ : gmap string string) NewTxStore) [] ∅ ∅ [].
Definition y_node (d : db) : SignNode := MkSignNode (MkPool d NewTxStore) [] ∅ ∅ [].
Definition y_deposit : WatchedTxInfo := watched_of toy_deposit 5 [{| ai_Address := "alice"; ai_Amount := 3 |}].

Lemma watched_transfers_sound_witness :
  ∃ l, takes l y_empty (end_state (watchNewTx y_mins (BchTxChan toy_deposit) y_empty)) ∧ (length l ≤ 1)%nat ∧
    Forall (sound_for y_mins (BchTxChan toy_deposit)) l.
Proof.
  apply (watched_transfers_sound y_mins (BchTxChan toy_deposit) y_empty None); [|reflexivity].
  split; [by vm_compute|]. constructor; [by vm_compute|constructor].
Defined.
Lemma minimum_binds_watchers_only_witness :
  let w := MkWorld (MkPool (∅ : gmap string string) NewTxStore) ∅ ∅ ex_cluster [] [] in
  watchNewTx y_high (BchTxChan toy_deposit) y_empty = Ret None y_empty ∧
  ∃ w', validateWatchedTx y_deposit w = Ret true w'.
Proof.
  intros w. eapply (minimum_binds_watchers_only y_high toy_deposit y_deposit); try reflexivity.
  right. by vm_compute.
Defined.
Definition y_mint : EthChainEvent :=
  {| ec_Method := METHOD_MINT; ec_Events := 2; ec_Extra := ExtraMintData "t"; ec_TxHash := "mint"; ec_BlockNumber := 7; ec_TxIndex := 1 |}.
Definition y_req : SignTxRequest :=
  {| sr_Term := 0; sr_NodeId := 0; sr_MultisigAddress := ""; sr_WatchedTx := Some y_deposit; sr_NewlyTx := None;
     sr_Sig := ""; sr_Time := 0 |}.
Definition y_signing : SignNode := y_node (or_else ∅ (SetSignMsg y_req "t" (∅ : gmap string string))).
Lemma mint_event_settles_witness :
  ∃ n1 n2 tx, watchNewTx y_mins (EthEventChan y_mint) y_signing = Ret (Some ("mint", "t")) n1 ∧
    GetETHBlockHeight (sg_db n1) = Some 7 ∧
    mint_done 9 "mint" "t" n1 = Ret tt n2 ∧
    inbox (p_ts (sg_pool n2)) = [addTxsReq [tx]] ∧ tx_WatchedTx tx = Some y_deposit ∧ tx_Amount tx = 5.
Proof.
  destruct (mint_event_settles y_mins y_mint "t" 9 y_signing y_req y_deposit) as (n1 & n2 & tx & H1 & H2 & H3 & H4 & H5 & _ & _ & H6 & _);
    [done|done|done|by_vm|done|].
  exists n1, n2, tx. split_and!; try done.
Defined.

(** ** Joining *)
Definition y_multisig (keys : list string) (q : Z) (chain : string) : option (string * bytes) := Some ("address", "script").
Definition y_nl : PbNodeList :=
  {| nl_NodeList := pb_node <$> NodeList ex_cluster; nl_MultiSigInfoList := []; nl_LeaderId := 0; nl_QuorumN := 3;
     nl_BlockHeight := 0 |}.
Definition y_joined : JoinMsg * Cluster := Eval vm_compute in
  or_else ({| jm_LocalID := 0; jm_MultiSigInfos := [] |}, zeroCluster) (InitJoin y_multisig ModeJoin "host" (Some y_nl) zeroCluster).
Definition y_info : NodeInfo * Cluster := Eval vm_compute in or_else (zeroNodeInfo, zeroCluster) (NewNodeInfo "new" 4 "04" "" y_joined.2).
(** With five nodes the joined node has the quorum of the others. *)
Lemma joined_node_agrees_witness :
  ∃ n cm, f_start = Some n ∧ AddNode "new" 4 "04" "" (the_cluster n) = Val cm ∧
    NodeList (onJoined y_info.1 y_info.2) = NodeList cm ∧ QuorumN (onJoined y_info.1 y_info.2) = QuorumN cm.
Proof.
  assert (bool_decide (is_Some f_start) = true) as Hs by by_vm. apply bool_decide_eq_true in Hs as [n Hn].
  pose (c := Cluster.SetCurrMultiSig emptyMultiSig (Cluster.SetMultiSigSnapshot [] ex_cluster)).
  assert (the_cluster <$> f_start = Some c) as Hc by by_vm. rewrite Hn in Hc. injection Hc as Hc.
  assert (match f_start with Some n => GetClusterNodes n | None => Fault NilDeref end = Val y_nl) as Hg by by_vm.
  rewrite Hn in Hg. assert (cluster_wf c) as Hwf by (destruct ex_cluster_wf; by split).
  assert (AddNode "new" 4 "04" "" c = Val (or_else c (AddNode "new" 4 "04" "" c))) as Ha by by_vm.
  assert (InitJoin y_multisig ModeJoin "host" (Some y_nl) zeroCluster = Val (y_joined.1, y_joined.2)) as Hj by by_vm.
  assert (NewNodeInfo "new" (jm_LocalID y_joined.1) "04" "" y_joined.2 = Val (y_info.1, y_info.2)) as Hi by by_vm.
  assert (jm_LocalID y_joined.1 = 4) as H4 by by_vm.
  assert (ClusterSize (or_else c (AddNode "new" 4 "04" "" c)) mod 3 = 2) as H5 by by_vm.
  rewrite -Hc in Hwf, Ha. rewrite -H4 in Ha.
  destruct (joined_node_agrees y_multisig n "new" "04" "" "host" y_nl y_joined.1 y_joined.2 y_info.1 y_info.2
    _ Hwf eq_refl Hg Hj Hi Ha) as (_ & _ & _ & H1 & _ & _ & _ & _ & H2).
  rewrite H4 in Ha, H1, H2. rewrite Hc in Ha, H1, H2. rewrite H5 Z.sub_0_r in H2.
  exists n, (or_else c (AddNode "new" 4 "04" "" c)). rewrite Hc. exact (conj Hn (conj Ha (conj H1 H2))).
Defined.

(** Node 4 joins the four nodes. *)
Definition y_old : Cluster := CreateSnapShot ex_cluster.
Definition y_joining : World := MkWorld (MkPool x_gen_db NewTxStore) ∅ ∅ y_old [] [].
Definition y_peers : gset Z := {[ 0; 1; 2; 3 ]}.
Definition y_signer : SecureSigner := Signer "k" "" "k".
Lemma y_ids : NoDup (Id <$> NodeList (w_cluster y_joining)) ∧ Id <$> NodeList (w_cluster y_joining) = [0; 1; 2; 3].
Proof.
  assert (Id <$> NodeList (w_cluster y_joining) = [0; 1; 2; 3]) as E by by_vm. split; [|exact E]. rewrite E.
  repeat (apply NoDup_cons; split; [set_solver|]). apply NoDup_nil_2.
Qed.
Lemma one_peer_ends_join_sync_witness :
  syncBeforeSendJoinReq 4 id_order x_count x_address y_peers (replicate 3 (only 1)) y_joining =
    Ret (Some ({[ 1 ]}, 3)) y_joining.
Proof.
  destruct y_ids as [Hnd Hids].
  apply (one_peer_ends_join_sync 4 id_order x_count x_address y_peers 1 y_joining (GetSnapshot ex_cluster) 3);
    [done|done|lia|set_solver|done|exact Hnd|rewrite Hids; set_solver].
Defined.
Definition y_request : option JoinRequest := Eval vm_compute in or_else None (createJoinReq 4 y_signer "new" "04" (w_db y_joining)).
Lemma one_member_ends_join_check_witness :
  sendJoinCheckSyncedRequest 4 y_signer id_order x_count x_address y_peers "new" "04" (replicate 3 (says_synced 1 9)) y_joining =
    Ret (Some ({[ 9 ]}, 3)) y_joining.
Proof.
  destruct y_ids as [Hnd Hids]. assert (bool_decide (is_Some y_request) = true) as Hs by by_vm.
  apply bool_decide_eq_true in Hs as [m Hm].
  assert (createJoinReq 4 y_signer "new" "04" (w_db y_joining) = Val y_request) as Hr by by_vm. rewrite Hm in Hr.
  apply (one_member_ends_join_check 4 y_signer id_order x_count x_address y_peers "new" "04" 1 9 y_joining
    (GetSnapshot ex_cluster) m 3); [done|done|lia|done|exact Hr| |exact Hnd|..];
    try (clear -Hids; rewrite Hids; set_solver).
  intros n Hn _. assert (forallb IsNormal (NodeList (w_cluster y_joining)) = true) as Hf by by_vm.
  rewrite forallb_forall in Hf. by apply Hf, list_elem_of_In.
Defined.
Definition y_honest (i : Z) : Reply := (Some {| jp_NodeID := i; jp_Synced := negb (i =? 3) |}, [None]).
Lemma join_check_counts_members_witness :
  (∃ s, ClusterSnapshot (w_cluster y_joining) = Some s ∧ sn_QuorumN s ≤ Z.of_nat (size ({[ 0; 1; 2 ]} : gset Z))) ∧
  ∀ i, i ∈ ({[ 0; 1; 2 ]} : gset Z) → i ≠ 4 ∧ ∃ answers res rsps,
    answers ∈ [y_honest] ∧ answers i = (Some res, rsps) ∧ jp_Synced res = true.
Proof.
  assert (sendJoinCheckSyncedRequest 4 y_signer id_order x_count x_address y_peers "new" "04" [y_honest] y_joining =
    Ret (Some ({[ 0; 1; 2 ]}, 3)) y_joining) as Hr by by_vm.
  apply (join_check_counts_members 4 y_signer id_order x_count x_address y_peers "new" "04" [y_honest] y_joining
    {[ 0; 1; 2 ]} 3 y_joining); [|exact Hr].
  intros a ->%list_elem_of_singleton i res rsps [= <- <-] _. done.
Defined.

(** ** Views and requests *)
Definition y_db : db := end_state (JustCommitIt x_next_pack x_gen_db).
Definition y_chain : list BlockPack := [x_gen; x_next_pack].
Lemma Val_Some_inj {A} (a b : A) : Val (Some a) = Val (Some b) → a = b.
Proof. by intros [= ->]. Qed.
Lemma y_id0 : bp_BlockId x_gen = Val (Some x_gen_id).
Proof. by_vm. Qed.
Lemma y_id1 : bp_BlockId x_next_pack = Val (Some x_next_id).
Proof. by_vm. Qed.
Lemma y_rep : chain_rep y_db y_chain.
Proof.
  apply (JustCommitIt_rep x_next_pack x_gen_db y_db [x_gen] x_next_id); [exact x_gen_rep|..]; try by_vm; [done|].
  intros bp ->%list_elem_of_singleton Hid. rewrite y_id0 in Hid. apply Val_Some_inj in Hid. by apply x_ids_differ.
Qed.
Lemma y_lookup i bp : y_chain !! i = Some bp → i = 0%nat ∧ bp = x_gen ∨ i = 1%nat ∧ bp = x_next_pack.
Proof.
  unfold y_chain. generalize x_gen x_next_pack. intros a b. destruct i as [|[|i]]; cbn; intros [= <-]; auto.
Qed.
Lemma y_linked : linked y_chain.
Proof.
  split.
  - intros i pre bp [[-> ->]|[-> ->]]%y_lookup [[? ->]|[? ->]]%y_lookup; [done|by_vm|done..].
  - intros bp [[_ ->]|[? _]]%y_lookup; [by_vm|done].
  - intros bp x [i [[_ ->]|[_ ->]]%y_lookup]%list_elem_of_lookup; [rewrite y_id0|rewrite y_id1];
      intros <-%Val_Some_inj; by vm_compute.
Qed.
Definition y_size (bp : BlockPack) : Z := 0.
Definition y_nodes : gmap Z (PeerNode unit) := ∅.
Definition y_view : option BlockView := Eval vm_compute in or_else None (GetBlockBytHeight y_size y_nodes 1 y_db).
Lemma GetBlocks_shows_witness :
  GetBlocks y_size y_nodes 0 9 y_db = Val (Some [shown y_size y_nodes y_chain 0; shown y_size y_nodes y_chain 1]) ∧
  ∃ v, shown y_size y_nodes y_chain 1 = Some v ∧ bv_Height v = 1 ∧ bv_CreatedUsed v = used_at y_chain 1.
Proof.
  destruct (GetBlocks_shows y_size y_nodes y_db y_chain 0 9 y_rep) as [Hg Hs]; [done|lia|lia|by vm_compute|].
  split; [exact Hg|]. assert (0 ≤ 1 < Z.of_nat (length y_chain)) as Hl by (change (length y_chain) with 2%nat; lia).
  destruct (Hs 1 Hl) as (v & bp & i & H1 & _ & H2 & _ & _ & H3).
  exists v. exact (conj H1 (conj H2 H3)).
Defined.
Lemma view_by_id_agrees_witness :
  ∃ v, GetBlockBytHeight y_size y_nodes 1 y_db = Val (Some v) ∧ GetBlockViewByID y_size y_nodes (bv_ID v) y_db = Val (Some (Some v)).
Proof.
  assert (bool_decide (is_Some y_view) = true) as Hs by by_vm. apply bool_decide_eq_true in Hs as [v Hv].
  assert (GetBlockBytHeight y_size y_nodes 1 y_db = Val y_view) as Hg by by_vm. rewrite Hv in Hg.
  exists v. split; [exact Hg|]. refine (view_by_id_agrees y_size y_nodes y_db y_chain 1 v y_rep y_linked _ _ _ Hg).
  - intros bp [i [[_ ->]|[_ ->]]%y_lookup]%list_elem_of_lookup; by vm_compute.
  - by vm_compute.
  - by vm_compute.
Defined.

Definition y_script (l : list ScriptOp) : string + bytes := inr "".
Definition y_code (s : string) : Z := 0.
Definition y_address (s : string) : bytes := s.
Definition y_error (s : string) : string := s.
Definition y_env (mode : Mode) : Env := {|
  en_mode := mode; en_cluster := ex_cluster; en_infos := ∅; en_mins := y_mins; en_mintFeeRate := 0; en_burnFeeRate := 0;
  en_now := 1534767000 * second
|}.
Notation y_dispatch := (dispatch y_size y_nodes y_address y_code y_code y_script y_error).
Notation y_serve := (serve y_size y_nodes y_address y_code y_code y_script y_error).
Definition y_good : WatchedTxInfo :=
  {| wt_Txid := "t"; wt_Amount := 1; wt_From := "eth"; wt_To := "bch"; wt_Fee := 0; wt_TokenFrom := 0; wt_TokenTo := 0;
     wt_RechargeList := [{| ai_Address := "alice"; ai_Amount := 100 |}] |}.
(** Height 1 is answered, the heights 0 and 2 are not. *)
Lemma block_info_answers_witness :
  y_dispatch (y_env ModeNormal) (GetBlockbyheight "0") (y_node y_db) = Panic NilDeref (y_node y_db) ∧
  y_dispatch (y_env ModeNormal) (GetBlockbyheight "2") (y_node y_db) = Panic NilDeref (y_node y_db) ∧
  ∃ b, y_dispatch (y_env ModeNormal) (GetBlockbyheight "1") (y_node y_db) =
    Ret (ok (BlockInfoValue (Some b)), None) (y_node y_db) ∧ bj_Height b = 1 ∧ bj_PrevId b = hex_encode (Data x_gen_id).
Proof.
  assert (∀ bp, bp ∈ y_chain → ∃ t, bp_Term bp = Val t ∧ 0 ≤ t) as Ht.
  { intros bp [i [[_ ->]|[_ ->]]%y_lookup]%list_elem_of_lookup; exists 0; (split; [by_vm|lia]). }
  pose proof (block_info_answers y_size y_nodes y_address y_code y_code y_script y_error (y_env ModeNormal)) as Hb.
  split; [|split].
  - rewrite (Hb "0" 0 (y_node y_db) y_chain y_rep y_linked Ht); [|done|by_vm|by vm_compute].
    cbn [Z.ltb Z.compare Z.eqb]. by destruct (y_chain !! Z.to_nat 0).
  - rewrite (Hb "2" 2 (y_node y_db) y_chain y_rep y_linked Ht); [|done|by_vm|by vm_compute]. reflexivity.
  - rewrite (Hb "1" 1 (y_node y_db) y_chain y_rep y_linked Ht); [|done|by_vm|by vm_compute].
    change (y_chain !! Z.to_nat 1) with (Some x_next_pack). change (y_chain !! Z.to_nat (1 - 1)) with (Some x_gen).
    cbn [Z.ltb Z.compare Z.eqb]. rewrite y_id0 y_id1. assert (bp_Term x_next_pack = Val 0) as -> by by_vm.
    eexists. split; [reflexivity|]. done.
Defined.
(** A transfer of 1 that pays 100 is accepted; one that names no transaction is not. *)
Lemma addTx_answers_witness :
  y_dispatch (y_env ModeNormal) (PostWatchedTx (inr y_good)) y_empty = Ret (ok NoValue, None) (queued y_good y_empty) ∧
  ∃ msg, y_dispatch (y_env ModeNormal) (PostWatchedTx (inr (genWatchedTx {| pr_Data := []; pr_Chain := ""; pr_ID := "" |}))) y_empty =
    Ret (param_err msg, None) y_empty.
Proof.
  pose proof (addTx_answers y_size y_nodes y_address y_code y_code y_script y_error (y_env ModeNormal)) as Ha. split.
  - apply (Ha y_good y_empty).
    + split_and!; try done. constructor; [done|constructor].
    + intros [[? Hw] _]. done.
  - apply (Ha (genWatchedTx {| pr_Data := []; pr_Chain := ""; pr_ID := "" |}) y_empty). intros (_ & _ & Hf & _). done.
Defined.
Definition y_minting : ManualMintRequest :=
  {| mm_Amount := -1; mm_Address := "a"; mm_Proposal := "p"; mm_Chain := 1; mm_Token := 2 |}.
Lemma manual_mint_amount_witness :
  ∃ amount, y_dispatch (y_env ModeNormal) (PostManualMint (inr y_minting)) y_empty =
    Ret (ok NoValue, Some (VOTE_METHOD_MINT_CALL 2 amount "a" "MM_p")) y_empty ∧ amount = 2^64 - 1.
Proof.
  destruct (manual_mint_amount y_size y_nodes y_address y_code y_code y_script y_error (y_env ModeNormal) y_minting y_empty)
    as (amount & Hd & _ & _ & Hn); [done|by vm_compute|]. exists amount. split; [exact Hd|]. by apply Hn.
Defined.
Definition y_fake : list fakeTxInfo :=
  [{| ft_From := "bch"; ft_To := "eth"; ft_FromTxHash := "f"; ft_ToTxHash := "g"; ft_Amount := 3; ft_ToAddr := "alice";
      ft_TokenFrom := 0; ft_TokenTo := 0 |}].
Definition y_fake_pack : BlockPack := or_else x_gen (toBlockPack (en_now (y_env ModeTest)) y_fake x_next_id 1).
Lemma fake_block_appends_witness :
  ∃ i n', y_dispatch (y_env ModeTest) (PostCreateBlock (inr y_fake)) (y_node y_db) =
      Ret (ok (FakeBlockValue 2 (hex_encode (Data i))), None) n' ∧
    chain_rep (sg_db n') (y_chain ++ [y_fake_pack]) ∧ length (inbox (p_ts (sg_pool n'))) = 1%nat.
Proof.
  assert (last y_chain = Some x_next_pack) as Hl by (unfold y_chain; by generalize x_gen x_next_pack).
  destruct (fake_block_appends y_size y_nodes y_address y_code y_code y_script y_error (y_env ModeTest) y_fake (y_node y_db) y_chain
    x_next_pack x_next_id y_rep Hl y_id1 eq_refl) as [_ Hf].
  destruct (Hf eq_refl) as (bp & b & i & Hp & Hb & _ & _ & _ & Hi & _ & Hrun).
  assert (toBlockPack (en_now (y_env ModeTest)) y_fake x_next_id 1 = Val y_fake_pack) as Hq by by_vm.
  change (Z.of_nat (length y_chain) - 1) with 1 in Hp. rewrite Hq in Hp.
  assert (bp = y_fake_pack) as -> by (revert Hp; generalize y_fake_pack; by intros ? [= ->]). clear Hp Hq.
  assert (bp_BlockId y_fake_pack = Val (Some i)) as Hid by (unfold bp_BlockId; rewrite Hb; cbn; by rewrite Hi).
  destruct Hrun as (n' & Hd & Hr & Hin).
  - by eexists.
  - intros bp' [j [[_ ->]|[_ ->]]%y_lookup]%list_elem_of_lookup E; rewrite -Hid in E;
      apply (f_equal (λ p, match p with Val (Some x) => Data x | _ => "" end)) in E; revert E; apply (bool_decide_unpack _); by vm_compute.
  - exists i, n'. split; [exact Hd|]. split; [exact Hr|]. rewrite Hin. done.
Defined.
