(* ===== verification/SupportWitnesses.v ===== *)
(** * Witnesses of the theorems on the helpers, the settings and the messages that stop a node

    Each theorem applied to concrete inputs: the four nodes of Scenarios.v, the chain of ServiceWitnesses.v, settings kept
    in a map, a keystore that answers at the third attempt, an event with three subscribers. *)
From S2P Require Import Prelude.
From S2P Require Import GoLib.
From S2P Require Import Events.
From S2P Require Import Crypto.
From S2P Require Import Messages.
From S2P Require Import Cluster.
From S2P Require Import Store.
From S2P Require Import DbOps.
From S2P Require Import TxPool.
From S2P Require Import Consensus.
From S2P Require Import ChainTx.
From S2P Require Import Remote.
From S2P Require Import Distribution.
From S2P Require Import BlockStoreApi.
From S2P Require Import Leader.
From S2P Require Import Accuser.
From S2P Require Import SyncDaemon.
From S2P Require Import Node.
From S2P Require Import Settings.
From S2P Require Import Daemons.
From S2P Require Import Robust.
From S2P Require Import Start.
From S2P Require Import Instances.
From S2P Require Import Scenarios.
From S2P Require Import Witnesses.
From S2P Require Import RoleWitnesses.
From S2P Require Import FedScenarios.
From S2P Require Import ServiceWitnesses.

#[local] Existing Instance mem_KV.
#[local] Existing Instance mem_Wire.
#[local] Existing Instance no_Watchers.
#[local] Existing Instance toy_Signatures.
#[local] Existing Instance mem_DistJson.
#[local] Instance z_chains : Chains := toy_Chains true None.

(** ** Events *)

(** The event is the whole state besides the names of the handlers that were called; the handler 2 asks to be removed. *)
Definition z_state : Type := Event.Event Z * list Z.
Definition z_part : Part z_state (Event.Event Z) := MkPart fst (λ e s, (e, s.2)).
#[local] Instance z_part_laws : PartLaws z_part.
Proof. split; [done|by intros []|done]. Qed.
Definition z_call (h : Z) (p : unit) : go z_state bool := λ s, Ret (h =? 2) (s.1, s.2 ++ [h]).
Lemma Emit_spec_witness :
  Event.Emit z_part z_call tt (Event.MkEvent [1; 2; 3] false, []) = Ret tt (Event.MkEvent [1; 3] false, [1; 2; 3]).
Proof.
  etransitivity; [apply (Event.Emit_spec z_part z_call tt (Event.MkEvent [1; 2; 3] false, []))|]; [done| |done].
  repeat constructor.
Defined.

(** ** The keystore *)
Definition z_signer : KeySigner string :=
  {| ks_signer := Signer "04" "04" "hash"; ksSigner := Some "key"; ServiceId := "id"; KsUrl := "http://ks"; KsPrivKey := "00" |}.
Definition z_marshal (b : signBody) : option string := Some (InputHex b).
Definition z_unmarshal (s : string) : option signResponse :=
  Some {| sp_Code := 0; sp_Data := {| sc_R := ""; sc_S := ""; SignatureDerHex := s |}; ErrMsg := "" |}.
(** The first two attempts fail. *)
Definition z_do (n : nat) (r : Request) : option (option string) := match n with 2%nat => Some (Some "6f6b") | _ => None end.
Lemma Sign_asks_keystore_witness :
  ∃ n req, Sign (λ _ _, Some "sig") z_marshal z_unmarshal (λ _, true) id z_do 5 z_signer "d" = Val (inr "ok", replicate n req) ∧
    n = 3%nat ∧ rq_url req = "http://ks/key/sign" ∧ rq_signature req ≠ "".
Proof.
  destruct (Sign_asks_keystore (λ _ _, Some "sig") z_marshal z_unmarshal (λ _, true) id z_do 5 z_signer "d" "key" "64")
    as (r & n & Hs & Hn & Hnone & Hsome & Hr & _); [done..|].
  assert (n = 3%nat) as ->.
  { clear -Hn Hsome. destruct (decide (n = 3%nat)); [assumption|]. exfalso. destruct (Hsome ltac:(lia)) as [x Hx].
    destruct n as [|[|[|n]]]; [lia|cbn [pred z_do] in Hx; discriminate Hx|cbn [pred z_do] in Hx; discriminate Hx|lia]. }
  assert (r = inr "ok") as ->.
  { apply Hr. eexists "6f6b", _. split_and!; [reflexivity|reflexivity|reflexivity|by vm_compute]. }
  eexists 3%nat, _. split; [exact Hs|]. split_and!; [reflexivity|reflexivity|discriminate].
Defined.


(** ** Settings in a map over the values of a file *)
Record z_viper : Type := ZViper { z_set : gmap string Setting; z_file : Viper }.
Definition z_reader (v : z_viper) : Viper := {|
  GetInt k := match z_set v !! lower k with Some (SInt n) => n | Some _ => 0 | None => GetInt (z_file v) k end;
  GetString k := match z_set v !! lower k with Some (SString s) => s | Some _ => "" | None => GetString (z_file v) k end;
  GetBool k := match z_set v !! lower k with Some (SBool b) => b | Some _ => false | None => GetBool (z_file v) k end
|}.
#[local] Instance z_ViperLib : ViperLib z_viper.
Proof.
  refine {| viper_set k x v := ZViper (<[lower k := x]> (z_set v)) (z_file v);
            reader := z_reader; restart v := ZViper ∅ (z_file v) |}.
  - intros k [] v; cbn; by rewrite lookup_insert_eq.
  - intros k k' x v Hk. unfold at_key. cbn. by rewrite lookup_insert_ne.
  - done.
Defined.
Definition z_file0 : z_viper := ZViper ∅ {| GetInt _ := 0; GetString _ := ""; GetBool _ := false |}.
Definition z_pb_node (i : Z) (normal : bool) : PbNodeInfo :=
  {| ni_NodeId := i; ni_Name := "server" +:+ FormatInt i; ni_Pubkey := "0" +:+ FormatInt i; ni_Host := "host" +:+ FormatInt i;
     ni_IsNormal := normal |}.
Definition z_nodes : PbNodeList :=
  {| nl_NodeList := [z_pb_node 0 true; z_pb_node 1 true; z_pb_node 2 false; z_pb_node 3 true; z_pb_node 4 true];
     nl_MultiSigInfoList := []; nl_LeaderId := 0; nl_QuorumN := 3; nl_BlockHeight := 0 |}.
Definition z_cluster : Cluster := or_else zeroCluster (InitWithNodeList z_nodes zeroCluster).
Lemma z_cluster_wf : cluster_wf z_cluster.
Proof.
  split; try by_vm; try by vm_compute.
  intros [|[|[|[|[|i]]]]] n Hn; try (injection Hn as <-; by vm_compute). done.
Qed.

(** ** The synchronisation daemon *)
Lemma one_sync_at_a_time_witness :
  let d := foldl (λ d s, end_state (daemon_do id_order (λ _, 0) x_address ModeNormal {[1; 2]} s d))
    (MkDaemon (MkWorld (MkPool y_db NewTxStore) ∅ ∅ ex_cluster [] []) 0 []) [TakePeer 1; TakePeer 2] in
  serial d ∧ dm_busy d = [1].
Proof.
  intros d. destruct (one_sync_at_a_time id_order (λ _, 0) x_address ModeNormal {[1; 2]} [TakePeer 1; TakePeer 2]
    (MkWorld (MkPool y_db NewTxStore) ∅ ∅ ex_cluster [] [])) as [Hs _].
  split; [exact Hs|reflexivity].
Defined.

(** ** Messages that stop a node *)
Definition z_node : Node :=
  MkNode (MkWorld (MkPool y_db NewTxStore) ∅ ∅ ex_cluster [] []) ∅ (or_else x_start (NewLeader y_db)) (NewAccuser 180 0 0)
    [] [] [] [] true [] [] ∅ ∅ [] [] false false 0 [].
Definition z_vote (v : option Votie) : Vote := MkVote (-1) v 7 "".

(** ** The first start *)
Definition z_fresh : db := (∅ : gmap string string).
Definition z_join (a b : string) : string := a +:+ "/" +:+ b.
(** A node starts twice; one that died in between, on a store without a term, does not. *)
Lemma start_db_once_witness :
  ∃ d, start_db z_fresh (Some "/home") z_join (λ _, true) x_gen "db" ∅ = Ret "db" {[ "db" := Directory (Stored d) ]} ∧
    start_db z_fresh (Some "/home") z_join (λ _, true) x_gen "db" {[ "db" := Directory (Stored d) ]} =
      Ret "db" {[ "db" := Directory (Stored d) ]} ∧
    ∃ d', start_db z_fresh (Some "/home") z_join (λ _, true) x_gen "db" {[ "db" := Directory (NoStore true) ]} =
        Ret "db" (<["db" := Directory (Stored d')]> {[ "db" := Directory (NoStore true) ]}) ∧
      node_start x_address 180 0 d' ex_cluster = Fault AssertionFailed.
Proof.
  destruct (start_db_once z_fresh (λ k, lookup_empty k) (Some "/home") z_join (λ _, true) x_address x_gen "db" ∅ x_gen_id)
    as ((d & Hd & _ & _) & Hlater & Hdead); [done|by left|by eexists|by_vm|by_vm|by exists (or_else (MkVotie 0 0 None ∅ ∅) (ProtoOps.ToVotie x_gen)); split; [by_vm|by eexists]|].
  exists d. split; [exact Hd|]. split; [eapply Hlater; by rewrite lookup_singleton_eq|].
  apply (Hdead (NoStore true)); [by left|by rewrite lookup_singleton_eq].
Defined.
